(* ===== verification/_CoqProject ===== *)
-Q . S2P
Prelude.v
Containers.v
Version.v
VectorMath.v
MatrixMath.v
RealMath.v
MatrixTransform.v
Binary32.v
Memory.v
RenderTypes.v
Inputs.v
OpenGL.v
OGLRenderer.v
OGLRendererFacts.v
OGLConstruct.v
OGLProperties.v
OGLSession.v
VkFrame.v
VkHardware.v
VkSwapchain.v
VkCommand.v
VkRenderer.v
VkDriver.v
VkProcessor.v
Backends.v
VkRendererFacts.v
VkProperties.v
VkDraws.v
VkUpload.v
VkResources.v
VkMemory.v
VkGeometry.v
VkRuns.v
VkConstruct.v
VkUniforms.v
VkScratch.v
VkDrawing.v
VkSession.v
VkHeadless.v
BackendSession.v
VkRenderPass.v
VkOwnership.v
Device.v
DeviceFacts.v
DeviceProperties.v
Tzslc.v
Shaders.v
Engine.v
EngineRuns.v
CoreTests.v
DeviceTests.v
VkPipeline.v
BackendState.v
