(* ===== verification/Prelude.v ===== *)
(** * Topaz: a verification development

    Topaz is a C++20 graphics engine.  [tz::initialise] opens a window and
    starts one of two back ends; an application builds a [Device], describes
    what it draws with a [RendererBuilder] (inputs, resources, a shader, a pass)
    and gets a [Renderer], to which it hands a draw list per frame.  Shaders are
    preprocessed at build time by the tool tzslc.  The back end is chosen when
    the engine is compiled: OpenGL draws from three buffers per kind of input
    with indirect multi-draws; Vulkan records command buffers ahead of the
    frames that submit them.

    ** What models what

    Paths are relative to src/src/.  A file of the development models the
    sources it names in its own header, one Definition per function with the
    function's name; the state of a class is a Record of its members.

    - core/assert.hpp: [tz_assert], [tz_error] and the ways a computation
      stops, in this file.
    - core/containers/, core/handle.hpp, core/algorithms/static.hpp: Containers.
    - core/version, core/engine_info, core/game_info.hpp: Version.
    - core/vector, core/matrix, core/matrix_transform: VectorMath, MatrixMath,
      MatrixTransform; Binary32 is the engine's [float] as their element type, and
      RealMath the real numbers.
    - core/tz.cpp, core/window, the instances of the back ends: Engine; the rules
      of the calls they make and the proofs are in EngineRuns.
    - gl/api, gl/impl/frontend/common: RenderTypes, the interfaces [IRendererInput]
      and [IResource] as classes of operations with their laws; gl/mesh, gl/input,
      gl/buffer, gl/texture, gl/resource: Inputs, which discharges the laws.
    - gl/impl/backend/ogl/buffer, gl/impl/frontend/ogl/renderer: OpenGL,
      OGLRenderer; the proofs are in OGLRendererFacts, OGLConstruct, OGLProperties,
      and OGLSession follows a renderer in use, executing the calls it records on
      a machine.
    - gl/impl/backend/vk/ fence, semaphore, submit, present, frame_admin: VkFrame;
      hardware/: VkHardware, VkSwapchain; swapchain, image_view, logical_device:
      VkSwapchain; buffer, image, command: VkCommand; attachment, render_pass:
      VkRenderPass; pipeline/ and the pipeline manager of the renderer: VkPipeline.
    - gl/impl/frontend/vk/renderer: VkRenderer (builder, buffer and image
      managers) and VkProcessor (descriptor sets, recording, draw lists,
      rendering); the proofs are in VkRendererFacts, VkProperties, VkDraws,
      VkUpload, VkResources.  VkMemory abstracts the buffers of a device to a
      map, VkRuns is a calculus of total runs over it, and VkGeometry,
      VkConstruct, VkUniforms, VkScratch and VkDrawing follow the constructor
      through it; VkSession follows a renderer in use, VkHeadless one without a
      window.
      gl/impl/frontend/vk/device
      (and gl/impl/frontend/ogl/device, which only passes builders on): Device,
      with the renderers and their resize callbacks in one application state; the
      proofs are in DeviceFacts and DeviceProperties.
    - The moves and destructors of the Vulkan classes that own driver objects:
      VkOwnership, over one interface [Owner].
    - gl/impl/frontend/{ogl,vk}/shader, backend/vk/pipeline/shader_module: Shaders.
    - src/tools/tzslc: Tzslc.
    - Backends compares the draws of the two renderers, BackendState the state of
      the pipelines, vertex attributes and samplers they set up, BackendSession what
      two renderers show in the same use.
    - test/core and test/gl/mesh_test (beside src/src/): CoreTests, the test programs
      that need no device; test/gl/headless_triangle_test: DeviceTests.

    ** Conventions

    - A computation is a value of [res A]; a stateful one of [ST W A] (Memory).
      Undefined behaviour, a thrown exception, a trap and [std::exit] are faults
      that say which one it was; [tz_assert] and [tz_error] only trap in a debug
      build, so [BuildConfig] is an argument of what asserts.
    - [std::size_t] is [nat]; [unsigned int], [int], [std::uint32_t] and
      [VkDeviceSize] passed to a 32-bit field are [Z] with their wrap written
      out; bytes in memory are [Z]s in a heap of blocks, so that aliasing of
      mapped buffers is in the model; [std::string] is a list of characters;
      a [float] that is only copied is its 32-bit pattern, and the arithmetic of
      vectors and matrices is a class of numbers with, separately, the laws of
      exact arithmetic, which the rationals and the reals have and binary32 has
      not.
    - Code that is not the repository's (OpenGL, Vulkan, VulkanMemoryAllocator,
      GLFW, stb_image, std::sort, sin and cos) is a class of operations; what its
      documentation promises is a second class of laws.  That the machine does not
      run out of resources is a third ([VmaSucceeds], [DriverSucceeds]); a call
      against the rules may fault in any way.  Each has a concrete
      instance on which the witnesses run: [VkFrame] and [VkDriver] for Vulkan,
      [OpenGL] for OpenGL, [EngineRuns] for GLFW.  Calls whose only effect is inside
      the driver are recorded in the order they are made.
    - A loop whose end is not structural has fuel: the search loop of tzslc one
      more than the length of the source (every match consumes a character:
      [samplers_rewritten] shows that it ends), a repeated group of the matcher
      the length of what is left, the digits of a number its value.  Running out
      of fuel is the fault [Hang], which the theorems exclude.

    ** What the theorems show

    - The draws of a renderer fetch the meshes of its inputs: construction of
      the OpenGL renderer (OGLProperties); construction of the Vulkan renderer
      and what is recorded after a change of the clear colour, with the data of
      the resources in its uniform buffers (VkDrawing), for a builder with at most
      one dynamic input, a second one being written out of bounds (VkUpload); any draw list of the Vulkan
      renderer reaching its device buffers (VkDraws), the two back ends agreeing
      on every draw list (Backends), dynamic inputs as windows into the buffers
      (OGLProperties).  In a session of a Vulkan renderer, of any frames, draw
      lists and clear colours, the recorded views always stand for the last draw
      list, and no command buffer is reused while the device works on it
      (VkSession); a headless renderer never stops, if its draw list changes
      only while the device is idle, for which it does not wait itself
      (VkHeadless).  A list is drawn static inputs first, which is its own order
      only if it does not mix the classes ([static_first_in_order]).  In a session of an OpenGL renderer, which may also write to
      its dynamic inputs and resources, every frame shows the inputs, resources and
      clear colour of that moment (OGLSession); and in the same use the two back
      ends show the same (BackendSession).
    - Frames obey the rules of the Vulkan queue, whatever is rendered and waited
      for (VkFrame), and programs never destroy a driver object twice or lose one
      (VkOwnership).
    - A resize of the window reaches every renderer of a device, whatever was
      done before it, and does so in command buffers of each renderer's own
      (DeviceProperties).
    - Descriptor sets match the layout and fit the pool they are allocated from,
      recorded views carry the right framebuffers, sets and draws, render passes
      have the right attachments and clear values (VkResources, VkProperties,
      VkRenderPass).
    - The pipelines of a renderer describe its inputs, resources and passes, and
      rebuilding them leaks none (VkPipeline); both back ends cull the same faces,
      read the same attributes and sample alike, where they do (BackendState).
    - Devices, queue families, formats, modes, extents and image counts are
      chosen within what the machine offers, wherever the read behind the end of
      the list of filters does not fault (VkSwapchain).
    - The globals of the engine agree with one another and with what is alive
      after any use, and every call to GLFW and the drivers is made in its turn;
      an update of the window runs its resize callbacks (EngineRuns);
      tzslc rewrites exactly the uses of its macro, and what it writes is what
      the driver compiles (Tzslc, Shaders).
    - Inverse, product, view, model and perspective matrices (MatrixMath,
      MatrixTransform); what is left of them with the rounding of binary32
      (Binary32), where the tests of the repository pass (CoreTests); versions
      printed and parsed (Version).
    - Where the code does not do what it means to, a theorem states what it does
      instead; these are kept beside the others, in the file of the component.

    ** What is not modelled

    - Profiling zones, reports, debug_print and the texts of info logs: output
      only.
    - Input handling, which is not in this version of the engine.
    - Demos, the tests of the shader files and of the renderer's queries, those of
      concepts, which run in the compiler, and the vendored libraries under
      src/lib.
    - The rules of Vulkan for semaphores and for the memory of command pools: the
      rules that are modelled are those of fences, submissions, acquired images
      and of command buffers, which may not be reset, recorded or freed while they
      are pending.
    - The rounding of sin, cos and tan, which the language does not specify: what
      is shown of rotations and projections holds of exact arithmetic. *)

From stdpp Require Export base tactics list numbers strings gmap sets.

(** ** Faults and the error monad

    C++ code of the engine can leave its defined behaviour in a few ways.  A
    computation is a value of [res A]: [Ok a] when it returns [a] and
    [Fault f] when it stops for the reason [f]. *)

Inductive fault :=
| AssertTrap     (* tz_assert / tz_error in a TZ_DEBUG build: debug_break() *)
| OutOfBounds    (* undefined behaviour: access outside an object or its lifetime *)
| Misuse         (* undefined behaviour: a driver call against its rules *)
| NullDeref      (* undefined behaviour: a null pointer is dereferenced *)
| BadOptional    (* std::bad_optional_access thrown by optional::value *)
| BadVariant     (* std::bad_variant_access thrown by std::get *)
| Overlap        (* undefined behaviour: memcpy between overlapping objects *)
| OutOfRange     (* std::out_of_range thrown by the standard library *)
| Uninitialised  (* undefined behaviour: an indeterminate value is used *)
| Divide         (* undefined behaviour: integer division by zero *)
| BadConversion  (* undefined behaviour: a float outside the range of an integer type *)
| LengthError    (* std::length_error thrown by the standard library *)
| Hang           (* the fuel of a loop ran out before it ended *)
| Exited.        (* std::exit was called *)

#[export] Instance fault_eq_dec : EqDecision fault.
Proof. solve_decision. Defined.

Inductive res (A : Type) : Type :=
| Ok (a : A)
| Fault (f : fault).
Arguments Ok {A} a.
Arguments Fault {A} f.

#[export] Instance res_ret : MRet res := @Ok.
#[export] Instance res_bind : MBind res := λ A B f m,
  match m with Ok a => f a | Fault e => Fault e end.

#[export] Instance res_fmap : FMap res := λ A B f m,
  match m with Ok a => Ok (f a) | Fault e => Fault e end.

Definition is_Ok {A} (m : res A) : bool :=
  match m with Ok _ => true | Fault _ => false end.

(** The build configuration: [TZ_DEBUG] turns [tz_assert] and [tz_error] into
    traps; without it they are empty. *)
Class BuildConfig := { TZ_DEBUG : bool }.

Definition debug_build : BuildConfig := {| TZ_DEBUG := true |}.
Definition release_build : BuildConfig := {| TZ_DEBUG := false |}.

(** [tz_assert] (core/assert.hpp). *)
Definition tz_assert `{BC : BuildConfig} (eval : bool) : res unit :=
  if TZ_DEBUG then (if eval then Ok tt else Fault AssertTrap) else Ok tt.

(** [tz_error] (core/assert.hpp). *)
Definition tz_error `{BC : BuildConfig} : res unit :=
  if TZ_DEBUG then Fault AssertTrap else Ok tt.

(** [std::vector::operator[]], [std::array::operator[]] and pointer indexing:
    reading or writing outside the elements is undefined behaviour. *)
Definition at_index {A} (l : list A) (i : nat) : res A :=
  match l !! i with Some a => Ok a | None => Fault OutOfBounds end.

Definition set_index {A} (l : list A) (i : nat) (a : A) : res (list A) :=
  match l !! i with Some _ => Ok (<[i:=a]> l) | None => Fault OutOfBounds end.

Definition of_option {A} (f : fault) (o : option A) : res A :=
  match o with Some a => Ok a | None => Fault f end.

(** Loops: [for(x : l) s = f(x, s)] and [for(i = 0; i < n; i++) s = f(i, s)]. *)
Fixpoint for_each {A S} (f : A → S → res S) (l : list A) (s : S) : res S :=
  match l with
  | [] => Ok s
  | x :: l' => s' ← f x s; for_each f l' s'
  end.

Definition for_range {S} (n : nat) (f : nat → S → res S) (s : S) : res S :=
  for_each f (seq 0 n) s.

(** ** Machine integers

    [std::size_t] quantities are [nat] (they count elements of objects in
    memory and do not wrap); 32-bit quantities are [Z] and wrap explicitly. *)

Definition modulus32 : Z := 4294967296.

Definition u32 (z : Z) : Z := (z `mod` modulus32)%Z.

(** Conversion of an unsigned 32-bit value to [int] (modular since C++20). *)
Definition to_i32 (z : Z) : Z :=
  (let w := z `mod` modulus32 in if w <? 2147483648 then w else w - modulus32)%Z.

(** ** Slices of lists *)

Definition slice {A} (start len : nat) (l : list A) : list A := take len (drop start l).

(** The offset of the [i]-th part of a concatenation. *)
Definition offset_of {A} (size : A → nat) (l : list A) (i : nat) : nat :=
  sum_list_with size (take i l).

(** ** Proof automation *)

Create HintDb topaz.
Create HintDb u32.
Create Rewrite HintDb topaz.
Create Rewrite HintDb u32.

Lemma bind_Ok {A B} (a : A) (f : A → res B) : (Ok a ≫= f) = f a.
Proof. reflexivity. Qed.

Lemma bind_Ok_inv {A B} (m : res A) (f : A → res B) b :
  (m ≫= f) = Ok b → ∃ a, m = Ok a ∧ f a = Ok b.
Proof. destruct m as [a|e]; [eauto | discriminate]. Qed.

Lemma tz_assert_true `{BC : BuildConfig} : tz_assert true = Ok tt.
Proof. unfold tz_assert. by destruct TZ_DEBUG. Qed.

Lemma tz_assert_Ok_inv `{BC : BuildConfig} b : tz_assert b = Ok tt → TZ_DEBUG = true → b = true.
Proof. unfold tz_assert. intros H Hd. rewrite Hd in H. by destruct b. Qed.

Lemma at_index_Some {A} (l : list A) i a : l !! i = Some a → at_index l i = Ok a.
Proof. unfold at_index. by intros ->. Qed.

Lemma at_index_None {A} (l : list A) i : length l ≤ i → at_index l i = Fault OutOfBounds.
Proof. unfold at_index. intros H. by rewrite (lookup_ge_None_2 l i). Qed.

Lemma at_index_inv {A} (l : list A) i a : at_index l i = Ok a ↔ l !! i = Some a.
Proof. unfold at_index. destruct (l !! i); naive_solver. Qed.

Lemma at_index_lt {A} (l : list A) i : i < length l → ∃ a, at_index l i = Ok a ∧ l !! i = Some a.
Proof. intros [a Ha]%lookup_lt_is_Some. exists a. by rewrite (at_index_Some _ _ a). Qed.

Lemma set_index_lt {A} (l : list A) i a : i < length l → set_index l i a = Ok (<[i:=a]> l).
Proof. unfold set_index. by intros [b ->]%lookup_lt_is_Some. Qed.

Lemma set_index_inv {A} (l l' : list A) i a :
  set_index l i a = Ok l' → i < length l ∧ l' = <[i:=a]> l.
Proof.
  unfold set_index. destruct (l !! i) eqn:E; intros; simplify_eq.
  eauto using lookup_lt_Some.
Qed.

Lemma set_index_ge {A} (l : list A) i a : length l ≤ i → set_index l i a = Fault OutOfBounds.
Proof. unfold set_index. intros H. by rewrite (lookup_ge_None_2 l i). Qed.

#[export] Hint Rewrite @bind_Ok @tz_assert_true : topaz.
#[export] Hint Resolve at_index_Some : topaz.

(** [simp_res] simplifies binds of known outcomes; [inv_res] takes a successful
    bind in the context apart. *)
Ltac simp_res := autorewrite with topaz in *; simplify_eq/=.

Ltac inv_res :=
  repeat match goal with
  | H : (_ ≫= _) = Ok _ |- _ =>
      apply bind_Ok_inv in H; destruct H as (? & ? & H)
  | H : Ok _ = Ok _ |- _ => injection H as H
  | H : Fault _ = Ok _ |- _ => discriminate H
  | H : mret _ = Ok _ |- _ => unfold mret, res_ret in H
  end; simplify_eq/=.

(** ** Generic lemmas *)

Lemma for_each_app {A S} (f : A → S → res S) l1 l2 s :
  for_each f (l1 ++ l2) s = for_each f l1 s ≫= for_each f l2.
Proof.
  revert s. induction l1 as [|x l1 IH]; intros s; simpl; [done|].
  destruct (f x s); simpl; [apply IH | done].
Qed.

(** A loop that never faults is a fold. *)
Lemma for_each_pure {A S} (f : A → S → res S) (g : S → A → S) l s :
  (∀ x s, f x s = Ok (g s x)) → for_each f l s = Ok (foldl g s l).
Proof.
  intros Hf. revert s. induction l as [|x l IH]; intros s; simpl; [done|].
  rewrite Hf. simpl. apply IH.
Qed.

(** Invariant rule for index loops. *)
Lemma for_range_ind {S} (P : nat → S → Prop) n (f : nat → S → res S) s :
  P 0 s →
  (∀ i s, i < n → P i s → ∃ s', f i s = Ok s' ∧ P (Datatypes.S i) s') →
  ∃ s', for_range n f s = Ok s' ∧ P n s'.
Proof.
  intros H0 Hstep. unfold for_range.
  cut (∀ k, k ≤ n → ∃ s', for_each f (seq 0 k) s = Ok s' ∧ P k s').
  { intros H. apply (H n). lia. }
  induction k as [|k IH]; intros Hk.
  - exists s. done.
  - destruct IH as (s1 & E1 & P1); [lia|].
    destruct (Hstep k s1) as (s2 & E2 & P2); [lia|done|].
    exists s2. rewrite seq_S, for_each_app, E1. simpl. by rewrite E2.
Qed.

(** The same rule for an index loop that is known to finish. *)
Lemma for_range_Ok_ind {S} (P : nat → S → Prop) n (f : nat → S → res S) s s' :
  P 0 s → (∀ i s s', i < n → P i s → f i s = Ok s' → P (Datatypes.S i) s') →
  for_range n f s = Ok s' → P n s'.
Proof.
  intros H0 Hstep. unfold for_range. revert s'. cut (∀ k s', k ≤ n → for_each f (seq 0 k) s = Ok s' → P k s').
  { intros H s' E. by apply (H n). }
  induction k as [|k IH]; intros s' Hk E.
  - by injection E as <-.
  - rewrite seq_S, for_each_app in E. apply bind_Ok_inv in E as (s1 & E1 & E). simpl in E.
    apply bind_Ok_inv in E as (s2 & E2 & [= <-]). apply (Hstep k s1); [lia| |done]. apply IH; [lia|done].
Qed.

(** Invariant rule for element loops. *)
Lemma for_each_ind {A S} (P : list A → S → Prop) (f : A → S → res S) l s :
  P [] s →
  (∀ done_ x rest s, l = done_ ++ x :: rest → P done_ s →
     ∃ s', f x s = Ok s' ∧ P (done_ ++ [x]) s') →
  ∃ s', for_each f l s = Ok s' ∧ P l s'.
Proof.
  intros H0 Hstep.
  cut (∀ rest done_ s, l = done_ ++ rest → P done_ s →
         ∃ s', for_each f rest s = Ok s' ∧ P l s').
  { intros H. by apply (H l [] s). }
  induction rest as [|x rest IH]; intros done_ s1 Hl HP; simpl.
  - rewrite app_nil_r in Hl. subst. eauto.
  - destruct (Hstep done_ x rest s1) as (s2 & E & P2); [done|done|].
    rewrite E. simpl. apply (IH (done_ ++ [x])); [|done].
    by rewrite <- app_assoc.
Qed.

(** Invariant rule for loops over the elements of a list with their positions. *)
(** What holds of a loop that has run. *)
Lemma for_each_Ok_ind {A S} (P : list A → S → Prop) (f : A → S → res S) l s s' :
  for_each f l s = Ok s' → P [] s →
  (∀ done_ x s1 s2, P done_ s1 → f x s1 = Ok s2 → P (done_ ++ [x]) s2) → P l s'.
Proof.
  intros E H0 Hstep. cut (∀ rest done_ s1, for_each f rest s1 = Ok s' → P done_ s1 → P (done_ ++ rest) s').
  { intros H. by apply (H l [] s). }
  induction rest as [|x rest IH]; intros done_ s1 E1 HP; simpl in E1.
  - injection E1 as <-. by rewrite app_nil_r.
  - destruct (f x s1) as [s2|] eqn:Ef; [|done]. rewrite cons_middle, app_assoc. eapply IH; eauto.
Qed.

Lemma for_each_imap_ind {A S} (Q : nat → S → Prop) (f : nat * A → S → res S) (l : list A) s :
  Q 0 s →
  (∀ m x s, l !! m = Some x → Q m s → ∃ s', f (m, x) s = Ok s' ∧ Q (Datatypes.S m) s') →
  ∃ s', for_each f (imap pair l) s = Ok s' ∧ Q (length l) s'.
Proof.
  intros H0 Hstep.
  destruct (for_each_ind (λ d s, Q (length d) s) f (imap pair l) s H0) as (s' & E & HQ).
  - intros d [m x] rest s1 Hl HQ.
    assert (Hx : imap pair l !! length d = Some (m, x)) by (rewrite Hl; by apply list_lookup_middle).
    rewrite list_lookup_imap in Hx. destruct (l !! length d) as [y|] eqn:Ey; [|done].
    simpl in Hx. injection Hx as <- <-. rewrite length_app, Nat.add_1_r. by apply Hstep.
  - exists s'. split; [done|]. by rewrite length_imap in HQ.
Qed.

Lemma omap_ext_seq {A} (f g : nat → option A) n m :
  (∀ k, n ≤ k → f k = g k) → omap f (seq n m) = omap g (seq n m).
Proof.
  revert n. induction m as [|m IH]; intros n H; [done|]. simpl. rewrite (H n) by lia.
  pose proof (IH (Datatypes.S n) ltac:(intros; apply H; lia)) as E.
  destruct (g n); [f_equal|]; exact E.
Qed.

Lemma length_slice {A} start len (l : list A) :
  start + len ≤ length l → length (slice start len l) = len.
Proof. unfold slice. rewrite length_take, length_drop. lia. Qed.

Lemma lookup_slice {A} start len (l : list A) i :
  i < len → slice start len l !! i = l !! (start + i).
Proof. intros H. unfold slice. by rewrite lookup_take_lt, lookup_drop. Qed.

Lemma slice_app_l {A} start len (l1 l2 : list A) :
  start + len ≤ length l1 → slice start len (l1 ++ l2) = slice start len l1.
Proof.
  intros H. unfold slice. rewrite drop_app_le by lia.
  by rewrite take_app_le by (rewrite length_drop; lia).
Qed.

Lemma slice_app_r {A} (l1 l2 : list A) : slice (length l1) (length l2) (l1 ++ l2) = l2.
Proof. unfold slice. by rewrite drop_app_length, take_ge by lia. Qed.

Lemma offset_of_S {A} (size : A → nat) l i x :
  l !! i = Some x → offset_of size l (S i) = offset_of size l i + size x.
Proof.
  intros H. unfold offset_of. rewrite (take_S_r _ _ x) by done.
  rewrite sum_list_with_app. simpl. lia.
Qed.

Lemma offset_of_mono {A} (size : A → nat) l i j :
  i ≤ j → offset_of size l i ≤ offset_of size l j.
Proof.
  intros H. unfold offset_of.
  rewrite <- (take_drop i (take j l)), sum_list_with_app, take_take.
  rewrite Nat.min_l by lia. lia.
Qed.

Lemma offset_of_all {A} (size : A → nat) l i :
  length l ≤ i → offset_of size l i = sum_list_with size l.
Proof. intros H. unfold offset_of. by rewrite take_ge. Qed.

Lemma offset_of_total {A} (size : A → nat) l i x :
  l !! i = Some x → offset_of size l i + size x ≤ sum_list_with size l.
Proof.
  intros H. rewrite <- (offset_of_S size l i x H), <- (offset_of_all size l (length l)) by lia.
  apply offset_of_mono. apply lookup_lt_Some in H. lia.
Qed.

Lemma length_concat_map {A B} (f : B → list A) (l : list B) :
  length (concat (map f l)) = sum_list_with (length ∘ f) l.
Proof. induction l as [|x l IH]; simpl; [done|]. by rewrite length_app, IH. Qed.

(** The [i]-th part of a concatenation sits at its offset. *)
Lemma slice_concat {A B} (f : B → list A) (l : list B) i x :
  l !! i = Some x →
  slice (offset_of (length ∘ f) l i) (length (f x)) (concat (map f l)) = f x.
Proof.
  intros H.
  assert (Hlen : offset_of (length ∘ f) l i = length (concat (map f (take i l)))).
  { by rewrite length_concat_map. }
  rewrite Hlen. rewrite <- (take_drop_middle l i x H) at 2.
  rewrite map_app, concat_app. simpl. unfold slice.
  by rewrite drop_app_length, take_app_length.
Qed.

(** Reading a concatenation in parts of the same size. *)
Lemma slices_concat {A B} n (f : B → list A) l : (∀ x, length (f x) = n) →
  map (λ k, slice (k * n) n (concat (map f l))) (seq 0 (length l)) = map f l.
Proof.
  intros Hf. induction l as [|x l IH]; [done|]. cbn [length seq map concat]. f_equal.
  - unfold slice. cbn. rewrite drop_0. by apply take_app_length'.
  - rewrite <- seq_shift, map_map. etransitivity; [|exact IH]. apply map_ext. intros k. unfold slice. f_equal.
    rewrite Nat.mul_succ_l, Nat.add_comm, <- drop_drop. f_equal. by apply drop_app_length'.
Qed.

Lemma to_i32_small z : (0 ≤ z < 2147483648)%Z → to_i32 z = z.
Proof.
  intros Hz. unfold to_i32. rewrite Z.mod_small by (unfold modulus32; lia). by rewrite (proj2 (Z.ltb_lt _ _)) by lia.
Qed.

(** Two distinct parts of a concatenation do not overlap. *)
Lemma offset_of_disjoint {A} (size : A → nat) l i j x :
  l !! i = Some x → i < j → offset_of size l i + size x ≤ offset_of size l j.
Proof.
  intros H Hij. rewrite <- (offset_of_S size l i x H). apply offset_of_mono. lia.
Qed.

(** [std::find(begin, end, x) != end] for an equality test. *)
Lemma existsb_elem_of {A} `{EqDecision A} (x : A) l :
  existsb (λ y, bool_decide (y = x)) l = true ↔ x ∈ l.
Proof.
  rewrite existsb_exists. setoid_rewrite bool_decide_eq_true.
  setoid_rewrite <- list_elem_of_In. naive_solver.
Qed.

Lemma u32_range z : (0 ≤ u32 z < modulus32)%Z.
Proof. apply Z.mod_pos_bound. done. Qed.

Lemma u32_small z : (0 ≤ z < modulus32)%Z → u32 z = z.
Proof. apply Z.mod_small. Qed.

Lemma u32_u32 z : u32 (u32 z) = u32 z.
Proof. apply Z.mod_mod. done. Qed.

Lemma u32_add_l a b : u32 (u32 a + b) = u32 (a + b).
Proof. apply Z.add_mod_idemp_l. done. Qed.

Lemma u32_add_r a b : u32 (a + u32 b) = u32 (a + b).
Proof. apply Z.add_mod_idemp_r. done. Qed.

Lemma u32_mul_l a b : u32 (u32 a * b) = u32 (a * b).
Proof. apply Z.mul_mod_idemp_l. done. Qed.

Lemma u32_mul_r a b : u32 (a * u32 b) = u32 (a * b).
Proof. apply Z.mul_mod_idemp_r. done. Qed.

Lemma u32_to_i32 z : u32 (to_i32 z) = u32 z.
Proof.
  unfold to_i32, u32. case_match; [by apply Z.mod_mod|].
  replace (z `mod` modulus32 - modulus32)%Z
    with (z `mod` modulus32 + (-1) * modulus32)%Z by lia.
  rewrite Z_mod_plus_full. by apply Z.mod_mod.
Qed.

Lemma u32_ex z : ∃ k, u32 z = (z + k * modulus32)%Z.
Proof.
  exists (- (z `div` modulus32))%Z. unfold u32.
  pose proof (Z.div_mod z modulus32 ltac:(done)). lia.
Qed.

Lemma to_i32_ex z : ∃ k, to_i32 z = (z + k * modulus32)%Z.
Proof.
  destruct (u32_ex z) as [k Hk]. unfold u32 in Hk. unfold to_i32.
  case_match; [exists k | exists (k - 1)%Z]; lia.
Qed.

Lemma u32_cong a b : (∃ k, a = b + k * modulus32)%Z → u32 a = u32 b.
Proof. intros [k ->]. apply Z_mod_plus_full. Qed.

#[export] Hint Rewrite u32_u32 u32_add_l u32_add_r u32_mul_l u32_mul_r u32_to_i32 : u32.

(** ** Integers as [float] *)

(** An integer rounded to 24 significant bits, half to even: the value of a
    [float] it is converted to. *)
Definition float_round (n : Z) : Z :=
  let a := Z.abs n in
  if (a <? 2 ^ 24)%Z then n
  else
    let unit := (2 ^ (Z.log2 a - 23))%Z in
    let q := (a / unit)%Z in
    let r := (a mod unit)%Z in
    let q := if (2 * r <? unit)%Z then q
             else if (unit <? 2 * r)%Z then (q + 1)%Z
             else if Z.even q then q else (q + 1)%Z in
    (Z.sgn n * (q * unit))%Z.
