(* ===== verification/Containers.v ===== *)
(** * Containers and handles of the core module

    [BasicList] (core/containers/basic_list.hpp), [EnumField]
    (core/containers/enum_field.{hpp,inl}), [PolymorphicList] and its
    [InterfaceIterator] (core/containers/polymorphic_list.{hpp,inl}), [Handle]
    (core/handle.hpp) and the compile-time loops of
    core/algorithms/static.hpp. *)


From Stdlib Require Import Morphisms.
From S2P Require Import Prelude.

(** ** tz::BasicList *)

Module BasicList.

Section BasicList.
Context `{BC : BuildConfig} {A : Type}.

(** A [BasicList<T>] is its only member, the vector [elements]. *)
Definition t : Type := list A.

Definition front (l : list A) : res A := at_index l 0.

(** [back()] of an empty vector reads before its first element. *)
Definition back (l : list A) : res A :=
  match length l with 0 => Fault OutOfBounds | S n => at_index l n end.

Definition add (l : list A) (element : A) : list A := l ++ [element].

(** [emplace] returns a reference to the new element: its index. *)
Definition emplace (l : list A) (element : A) : list A * nat := (l ++ [element], length l).

Definition append (l other : list A) : list A := l ++ other.

Definition contains `{EqDecision A} (l : list A) (element : A) : bool :=
  existsb (λ y, bool_decide (y = element)) l.

Definition length (l : list A) : nat := List.length l.

Definition empty (l : list A) : bool := match l with [] => true | _ => false end.

(** [operator[]]: an assertion, then the vector's own unchecked access. *)
Definition index (l : list A) (i : nat) : res A :=
  _ ← tz_assert (i <? length l); at_index l i.

Definition set (l : list A) (i : nat) (a : A) : res (list A) :=
  _ ← tz_assert (i <? length l); set_index l i a.

(** [erase(position)] and [erase(first, last)], iterators being positions. *)
Definition erase (l : list A) (position : nat) : res (list A) :=
  if position <? length l then Ok (delete position l) else Fault OutOfBounds.

Definition erase_range (l : list A) (first last : nat) : res (list A) :=
  if (first <=? last) && (last <=? length l) then Ok (take first l ++ drop last l)
  else Fault OutOfBounds.

(** [resize(n)] value-initialises the elements it adds. *)
Definition resize (dflt : A) (l : list A) (num_elements : nat) : list A :=
  take num_elements l ++ replicate (num_elements - length l) dflt.

(** [std::remove_if]: the elements that stay are moved to the front in order,
    and the new logical end is returned; what is behind it is left over. *)
Definition remove_if (p : A → bool) (l : list A) : list A * nat :=
  let keep := filter (λ x, Is_true (negb (p x))) l in
  (keep ++ drop (List.length keep) l, List.length keep).

End BasicList.

Section BasicListFacts.
Context `{BC : BuildConfig} {A : Type}.
Implicit Types l : list A.

Lemma index_in_range l i a : l !! i = Some a → index l i = Ok a.
Proof.
  intros H. unfold index, length. rewrite (proj2 (Nat.ltb_lt _ _)) by eauto using lookup_lt_Some.
  rewrite tz_assert_true. by apply at_index_Some.
Qed.

Lemma index_out_of_range l i :
  List.length l ≤ i →
  index l i = Fault (if TZ_DEBUG then AssertTrap else OutOfBounds).
Proof.
  intros H. unfold index, length, tz_assert.
  rewrite (proj2 (Nat.ltb_ge _ _)) by lia.
  destruct TZ_DEBUG; [done|]. by apply at_index_None.
Qed.

Lemma back_add l a : back (add l a) = Ok a.
Proof.
  unfold back, add, length. rewrite length_app. simpl. rewrite Nat.add_comm. simpl.
  apply at_index_Some. rewrite lookup_app_r by lia. by rewrite Nat.sub_diag.
Qed.

Lemma contains_elem_of `{EqDecision A} l a : contains l a = true ↔ a ∈ l.
Proof. apply existsb_elem_of. Qed.

Lemma length_keep (P : A → Prop) `{∀ x, Decision (P x)} l :
  List.length (filter P l) ≤ List.length l.
Proof. apply length_filter. Qed.

(** The erase-remove idiom [l.erase(remove_if(l, p), l.end())] is a filter. *)
Lemma erase_remove_if (p : A → bool) l :
  let '(l', mid) := remove_if p l in
  erase_range l' mid (List.length l') = Ok (filter (λ x, Is_true (negb (p x))) l).
Proof.
  unfold remove_if, erase_range, length. set (keep := filter _ _).
  rewrite length_app.
  rewrite (proj2 (Nat.leb_le _ _)) by lia.
  rewrite (proj2 (Nat.leb_le _ _)) by lia. simpl.
  rewrite take_app_length, drop_ge by (rewrite length_app; lia).
  by rewrite app_nil_r.
Qed.

End BasicListFacts.
End BasicList.

(** ** tz::EnumField *)

Module EnumField.

Section EnumField.
Context `{BC : BuildConfig} {E : Type} `{EqDecision E}.

Definition t : Type := list E.

(** [EnumField(std::initializer_list<E>)] copies the list as it is. *)
Definition of_list (types : list E) : list E := types.

Definition contains (f : list E) (type : E) : bool :=
  existsb (λ y, bool_decide (y = type)) f.

(** [contains(const EnumField&)]: the loop returns at the first miss. *)
Fixpoint contains_field (f field : list E) : bool :=
  match field with
  | [] => true
  | type :: rest => if negb (contains f type) then false else contains_field f rest
  end.

Definition count (f : list E) : nat := length f.

(** [operator|=]. *)
Definition or_assign (f : list E) (type : E) : list E :=
  if negb (contains f type) then f ++ [type] else f.

(** [operator|]: a copy is modified. *)
Definition or (f : list E) (type : E) : list E :=
  let cpy := f in or_assign cpy type.

(** The defaulted [operator==] compares the vectors. *)
Definition eqb (f g : list E) : bool := bool_decide (f = g).

(** [explicit operator E()]: the bitwise or of the underlying values. *)
Definition to_enum (underlying : E → Z) (f : list E) : res Z :=
  _ ← tz_assert (negb (bool_decide (f = [])));
  e ← underlying <$> at_index f 0;
  Ok (foldl (λ e ele, Z.lor e (underlying ele)) e f).

End EnumField.

Section EnumFieldFacts.
Context `{BC : BuildConfig} {E : Type} `{EqDecision E}.
Implicit Types f g : list E.

Lemma contains_spec f x : contains f x = true ↔ x ∈ f.
Proof. apply existsb_elem_of. Qed.

Lemma contains_field_spec f g : contains_field f g = true ↔ ∀ x, x ∈ g → x ∈ f.
Proof.
  induction g as [|y g IH]; simpl; [set_solver|].
  destruct (contains f y) eqn:Hy; simpl.
  - apply contains_spec in Hy. rewrite IH. set_solver.
  - split; [done|]. intros H. rewrite <- Hy. apply contains_spec. set_solver.
Qed.

Lemma elem_of_or_assign f t x : x ∈ or_assign f t ↔ x ∈ f ∨ x = t.
Proof.
  unfold or_assign. destruct (contains f t) eqn:Ht; simpl.
  - apply contains_spec in Ht. naive_solver.
  - set_solver.
Qed.

Lemma or_assign_NoDup f t : NoDup f → NoDup (or_assign f t).
Proof.
  intros H. unfold or_assign. destruct (contains f t) eqn:Ht; simpl; [done|].
  assert (t ∉ f) by (rewrite <- contains_spec; congruence).
  apply NoDup_app. split_and!; [done| |apply NoDup_singleton]. set_solver.
Qed.

Lemma or_assign_idem f t : or_assign (or_assign f t) t = or_assign f t.
Proof.
  unfold or_assign at 1.
  assert (Hc : contains (or_assign f t) t = true).
  { apply contains_spec, elem_of_or_assign. auto. }
  by rewrite Hc.
Qed.

(** Two fields that hold the same enumerators: coarser than [operator==],
    which compares the order of insertion too. *)
Definition equiv f g : Prop := ∀ x, x ∈ f ↔ x ∈ g.

#[export] Instance equiv_equivalence : Equivalence equiv.
Proof. split; unfold equiv; red; naive_solver. Qed.

#[export] Instance contains_proper : Proper (equiv ==> eq ==> eq) contains.
Proof.
  intros f g Hfg x y ->. apply eq_bool_prop_intro.
  rewrite !Is_true_true, !contains_spec. apply Hfg.
Qed.

#[export] Instance contains_field_proper : Proper (equiv ==> equiv ==> eq) contains_field.
Proof.
  intros f g Hfg f' g' Hfg'. apply eq_bool_prop_intro.
  rewrite !Is_true_true, !contains_field_spec. unfold equiv in *. naive_solver.
Qed.

#[export] Instance or_assign_proper : Proper (equiv ==> eq ==> equiv) or_assign.
Proof. intros f g Hfg x y -> z. rewrite !elem_of_or_assign. unfold equiv in *. naive_solver. Qed.

Lemma or_assign_comm f a b : equiv (or_assign (or_assign f a) b) (or_assign (or_assign f b) a).
Proof. intros x. rewrite !elem_of_or_assign. naive_solver. Qed.

Lemma foldl_lor_testbit (underlying : E → Z) f e i :
  Z.testbit (foldl (λ e ele, Z.lor e (underlying ele)) e f) i =
  Z.testbit e i || existsb (λ x, Z.testbit (underlying x) i) f.
Proof.
  revert e. induction f as [|x f IH]; intros e; simpl; [by rewrite orb_false_r|].
  rewrite IH, Z.lor_spec. by rewrite orb_assoc.
Qed.

Lemma to_enum_testbit (underlying : E → Z) f x i :
  x ∈ f →
  ∃ e, to_enum underlying f = Ok e ∧
       Z.testbit e i = existsb (λ y, Z.testbit (underlying y) i) f.
Proof.
  intros Hx. destruct f as [|y f]; [set_solver|].
  unfold to_enum. rewrite bool_decide_eq_false_2 by done. simpl. simp_res.
  eexists. split; [done|]. by rewrite Z.lor_diag, foldl_lor_testbit.
Qed.

End EnumFieldFacts.
End EnumField.

(** ** tz::PolymorphicList and tz::InterfaceIterator

    The list owns its elements through [unique_ptr]s stored in a
    [BasicList].  An iterator is a raw pointer [loc] into that array of
    [unique_ptr]s, so reading through it is a memory read of slot [loc].  The
    slots at and behind [length] are not objects of the program: what a read of
    them gives is the parameter [beyond]. *)

Module PolymorphicList.

Section PolymorphicList.
(** [unique_ptr] values: object identities, distinct for distinct elements. *)
Variable beyond : nat → res nat.

(** [emplace<Derived>(args...)]: allocate the object [ptr], append it, return a
    reference to the last element. *)
Definition emplace (elements : list nat) (ptr : nat) : res (list nat * nat) :=
  let elements := BasicList.add elements ptr in
  r ← BasicList.back elements;
  Ok (elements, r).

(** [begin()] and [end()] are positions in [elements]. *)
Definition begin (elements : list nat) : nat := 0.
Definition end_ (elements : list nat) : nat := 0 + BasicList.length elements.

(** A read of [*loc]. *)
Definition read (elements : list nat) (loc : nat) : res nat :=
  match elements !! loc with Some p => Ok p | None => beyond loc end.

(** [operator->]: the managed pointer. *)
Definition arrow (elements : list nat) (loc : nat) : res nat := read elements loc.

(** Both [operator++] advance [loc] and return the iterator itself. *)
Definition next (loc : nat) : nat := loc + 1.

(** [operator==] compares the pointers stored in the two slots. *)
Definition iter_eq (elements : list nat) (a b : nat) : res bool :=
  p ← read elements a; q ← read elements b; Ok (bool_decide (p = q)).

(** [for(auto iter = begin(); iter != end(); iter++) if the body fails on the element return
    false; return true;], with a bound on the number of rounds. *)
Fixpoint all_of (elements : list nat) (body : nat → res bool) (fuel iter : nat) : res (option bool) :=
  match fuel with
  | 0 => Ok None
  | S fuel =>
      stop ← iter_eq elements iter (end_ elements);
      if (stop : bool) then Ok (Some true)
      else
        p ← arrow elements iter;
        b ← body p;
        if negb b then Ok (Some false) else all_of elements body fuel (next iter)
  end.

End PolymorphicList.

Section PolymorphicListFacts.
Variable beyond : nat → res nat.

Lemma all_of_S elements body fuel iter :
  all_of beyond elements body (S fuel) iter =
  (stop ← iter_eq beyond elements iter (end_ elements);
   if (stop : bool) then Ok (Some true)
   else p ← arrow beyond elements iter;
        b ← body p;
        if negb b then Ok (Some false) else all_of beyond elements body fuel (next iter)).
Proof. reflexivity. Qed.

(** The elements before the first that is [g]. *)
Fixpoint before (g : nat) (l : list nat) : list nat :=
  match l with
  | [] => []
  | x :: l => if bool_decide (x = g) then [] else x :: before g l
  end.

Lemma before_seq g s n : s ≤ g → before g (seq s n) = seq s (n `min` (g - s)).
Proof.
  revert s. induction n as [|n IH]; intros s Hs; [done|]. cbn [seq before]. case_bool_decide as E.
  - subst g. by rewrite Nat.sub_diag, Nat.min_0_r.
  - rewrite IH by lia. replace (g - s) with (S (g - S s)) by lia. done.
Qed.

(** The slot behind the last element holds [g]: the loop ends at the first
    element that is [g], or at the end. *)
Lemma all_of_from (elements : list nat) body (g : nat) k :
  beyond (length elements) = Ok g → k ≤ length elements →
  all_of beyond elements body (S (length elements - k)) k =
  Some <$> foldr (λ p acc, b ← body p; if negb b then Ok false else acc) (Ok true) (before g (drop k elements)).
Proof.
  intros Hg. remember (length elements - k) as n eqn:Hn. revert k Hn.
  induction n as [|n IH]; intros k Hn Hk.
  - assert (k = length elements) as -> by lia. rewrite all_of_S.
    unfold iter_eq, read, end_, BasicList.length. cbn [plus].
    rewrite (lookup_ge_None_2 elements (length elements)), Hg by lia. cbn.
    rewrite bool_decide_eq_true_2 by done. by rewrite drop_ge by lia.
  - destruct (lookup_lt_is_Some_2 elements k) as [p Hp]; [lia|].
    rewrite (drop_S _ p), all_of_S by done. cbn [before].
    unfold iter_eq, arrow, read, end_, BasicList.length. rewrite Hp. cbn [plus].
    rewrite (lookup_ge_None_2 elements (length elements)), Hg by lia. rewrite !bind_Ok.
    case_bool_decide; [done|]. cbn [foldr].
    destruct (body p) as [[]|]; [|done|done]. rewrite !bind_Ok. cbn [negb].
    unfold next. rewrite Nat.add_1_r. apply IH; lia.
Qed.

Lemma all_of_stale (elements : list nat) body g :
  beyond (length elements) = Ok g →
  all_of beyond elements body (S (length elements)) (begin elements) =
  Some <$> foldr (λ p acc, b ← body p; if negb b then Ok false else acc) (Ok true) (before g elements).
Proof.
  intros Hg. pose proof (all_of_from elements body g 0 Hg) as H.
  rewrite Nat.sub_0_r in H. apply H. lia.
Qed.

(** The comparison with [end()] reads the slot behind the last element before
    any element is looked at. *)
Lemma all_of_faults (elements : list nat) body fuel e :
  beyond (length elements) = Fault e → all_of beyond elements body (S fuel) (begin elements) = Fault e.
Proof.
  intros Hb. rewrite all_of_S. unfold iter_eq, read, end_, begin, BasicList.length.
  rewrite (lookup_ge_None_2 elements (0 + length elements)) by lia. cbn [plus]. rewrite Hb.
  destruct elements; cbn; [|done]. cbn in Hb. by rewrite Hb.
Qed.

(** Under the language's rules the slot behind the last element cannot be
    read, and [iter != end()] reads it first thing. *)
Lemma all_of_strict (elements : list nat) body fuel :
  (∀ i, beyond i = Fault OutOfBounds) →
  all_of beyond elements body (S fuel) (begin elements) = Fault OutOfBounds.
Proof.
  intros Hb. by apply all_of_faults.
Qed.

End PolymorphicListFacts.
End PolymorphicList.

(** ** tz::Handle *)

Module Handle.

(** [HandleValue] is a [std::size_t]. *)
Record t := mk { value : nat }.

#[export] Instance t_eq_dec : EqDecision t.
Proof. solve_decision. Defined.

(** [Handle(HandleValue)], [Handle(nullhand_t)]. *)
Definition of_value (v : nat) : t := mk v.
Definition nullhand : t := mk 0.

(** [explicit operator HandleValue()], [operator=(HandleValue)]. *)
Definition to_value (h : t) : nat := value h.
Definition assign (h : t) (v : nat) : t := mk v.

(** [operator==(nullhand_t)] and the defaulted [operator==]. *)
Definition eq_null (h : t) : bool := Nat.eqb (value h) 0.
Definition eqb (a b : t) : bool := Nat.eqb (value a) (value b).

Lemma eqb_spec a b : eqb a b = true ↔ a = b.
Proof. destruct a, b. unfold eqb. simpl. rewrite Nat.eqb_eq. naive_solver. Qed.

End Handle.

(** ** Compile-time loops (core/algorithms/static.hpp) *)

Module Static.

(** [static_for<Begin, End>(f)]: instantiates [f] on [Begin], [Begin+1], ... *)
Fixpoint static_for_aux {S} (fuel Begin End_ : nat) (f : nat → S → S) (s : S) : S :=
  match fuel with
  | 0 => s
  | Datatypes.S fuel =>
      if Begin <? End_ then static_for_aux fuel (Begin + 1) End_ f (f Begin s) else s
  end.

(** The recursion depth is [End - Begin]. *)
Definition static_for {S} (Begin End_ : nat) (f : nat → S → S) (s : S) : S :=
  static_for_aux (End_ - Begin) Begin End_ f s.

Section Find.
(** Types are codes with decidable identity; [decay] is [std::decay_t]. *)
Context {T : Type} `{EqDecision T} (decay : T → T).

Definition static_find (Needle : T) (Haystack : list T) : bool :=
  static_for 0 (length Haystack)
    (λ i b, match Haystack !! i with
            | Some h => if decide (decay h = Needle) then true else b
            | None => b
            end) false.

Lemma static_for_aux_seq {S} fuel b e (f : nat → S → S) s :
  e - b ≤ fuel → static_for_aux fuel b e f s = foldl (λ s i, f i s) s (seq b (e - b)).
Proof.
  revert b s. induction fuel as [|fuel IH]; intros b s Hf; simpl.
  - by replace (e - b) with 0 by lia.
  - destruct (Nat.ltb_spec b e).
    + rewrite IH by lia. replace (e - b) with (Datatypes.S (e - (b + 1))) by lia. simpl.
      by replace (Datatypes.S b) with (b + 1) by lia.
    + by replace (e - b) with 0 by lia.
Qed.

Lemma find_loop Needle Haystack n k b :
  length Haystack = k + n →
  foldl (λ b i, match Haystack !! i with
                | Some h => if decide (decay h = Needle) then true else b
                | None => b
                end) b (seq k n) = b || existsb (λ h, bool_decide (decay h = Needle)) (drop k Haystack).
Proof.
  revert k b. induction n as [|n IH]; intros k b Hn; simpl.
  - rewrite drop_ge by lia. by rewrite orb_false_r.
  - destruct (lookup_lt_is_Some_2 Haystack k) as [h Hh]; [lia|].
    rewrite Hh, (drop_S _ h), IH by (done || lia). simpl.
    case_decide; [rewrite bool_decide_eq_true_2 by done|rewrite bool_decide_eq_false_2 by done].
    + by rewrite !orb_true_r.
    + done.
Qed.

Lemma static_find_true Needle Haystack :
  static_find Needle Haystack = true ↔ ∃ h, h ∈ Haystack ∧ decay h = Needle.
Proof.
  unfold static_find, static_for. rewrite static_for_aux_seq by lia.
  rewrite Nat.sub_0_r, find_loop by done. simpl. rewrite existsb_exists.
  setoid_rewrite bool_decide_eq_true. setoid_rewrite <- list_elem_of_In. done.
Qed.

End Find.
End Static.
