(* ===== verification/Version.v ===== *)
(** * Versions and the strings that describe an application

    [Version], [parse_version], [static_stoi], [stringify_version]
    (core/version.{hpp,inl,cpp}), [EngineInfo] (core/engine_info.{hpp,inl,cpp})
    and [GameInfo] (core/game_info.hpp).  A [std::string] is a list of
    characters. *)

From Stdlib Require Import Ascii String.
From S2P Require Import Prelude.

Local Open Scope Z_scope.

(** ** Characters and the standard library's string functions *)

Definition str (s : string) : list ascii := list_ascii_of_string s.

Definition code (c : ascii) : Z := Z.of_nat (nat_of_ascii c).

Definition is_digit (c : ascii) : bool := (48 <=? code c) && (code c <=? 57).

Definition digit_char (d : Z) : ascii := ascii_of_nat (Z.to_nat (48 + d)).

Fixpoint find_first (p : ascii → bool) (l : list ascii) : option nat :=
  match l with
  | [] => None
  | c :: l' => if p c then Some 0%nat else S <$> find_first p l'
  end.

(** [string_view::substr(pos, n)] throws when [pos] is behind the end. *)
Definition substr (l : list ascii) (pos n : nat) : res (list ascii) :=
  if (pos <=? List.length l)%nat then Ok (take n (drop pos l)) else Fault OutOfRange.

(** [std::to_string(unsigned int)]: decimal digits, most significant first. *)
Fixpoint digits (fuel : nat) (z : Z) (acc : list ascii) : list ascii :=
  match fuel with
  | 0%nat => acc
  | S fuel =>
      let acc := digit_char (z `mod` 10) :: acc in
      if z <? 10 then acc else digits fuel (z `div` 10) acc
  end.

(** A number has at most as many decimal digits as bits. *)
Definition to_string (z : Z) : list ascii := digits (S (Z.to_nat (Z.log2 z))) z [].

(** ** tz::Version *)

Record Version := mkVersion { major : Z; minor : Z; patch : Z }.

#[export] Instance Version_eq_dec : EqDecision Version.
Proof. solve_decision. Defined.

(** Every field is an [unsigned int]. *)
Definition version_ok (v : Version) : Prop :=
  0 ≤ major v < modulus32 ∧ 0 ≤ minor v < modulus32 ∧ 0 ≤ patch v < modulus32.

Section Version.
Context `{BC : BuildConfig}.

(** [stringify_version]. *)
Definition stringify_version (version : Version) : list ascii :=
  let res := to_string (major version) ++ str "." in
  let res := res ++ (to_string (minor version) ++ str ".") in
  res ++ to_string (patch version).

(** The accumulation loop of [static_stoi], which runs from the last digit to
    the first.  [number * multiplier * sign] is computed in [unsigned int] and
    converted back when it is added to the [int] [result]. *)
Fixpoint stoi_loop (sign : Z) (rev_digits : list ascii) (result multiplier : Z) : Z :=
  match rev_digits with
  | [] => result
  | c :: rest =>
      let number := code c - 48 in
      let result := to_i32 (u32 result + u32 (number * multiplier * sign)) in
      stoi_loop sign rest result (u32 (multiplier * 10))
  end.

(** [static_stoi(str, pos)]: the value, and what is stored through [pos] when
    it is not null (nothing on the error path). *)
Definition static_stoi (s : list ascii) : res (Z * option nat) :=
  match find_first is_digit s with
  | None => _ ← tz_error; Ok (-1, None)
  | Some begin =>
      sign ← (if (begin =? 0)%nat then Ok 1
              else c ← at_index s (begin - 1);
                   Ok (if decide (c = "-"%char) then -1 else 1));
      let s := drop begin s in
      let s := match find_first (negb ∘ is_digit) s with
               | Some end_ => take (List.length s - (List.length s - end_)) s
               | None => s
               end in
      let result := stoi_loop sign (rev s) 0 1 in
      Ok (result, Some (begin + List.length s)%nat)
  end.

(** The scanning loop of [parse_version]: [max], [min] and [patch] are set at
    the first and second dots and indeterminate before. *)
Record scan := mkScan {
  s_max : option nat; s_min : option nat; s_patch : option nat;
  dot_counter : Z; counter : Z }.

Definition scan_char (c : ascii) (s : scan) : scan :=
  let s1 :=
    if decide (c = "."%char) then
      let s' :=
        if dot_counter s =? 0 then
          mkScan (Some (Z.to_nat (counter s))) (s_min s) (s_patch s) (dot_counter s) (counter s)
        else if dot_counter s =? 1 then
          mkScan (s_max s) (Some (Z.to_nat (counter s))) (Some (Z.to_nat (counter s) + 1)%nat)
            (dot_counter s) (counter s)
        else s in
      mkScan (s_max s') (s_min s') (s_patch s') (u32 (dot_counter s' + 1)) (counter s')
    else s in
  mkScan (s_max s1) (s_min s1) (s_patch s1) (dot_counter s1) (u32 (counter s1 + 1)).

Definition scan_init : scan := mkScan None None None 0 0.

Definition parse_version (version_sv : list ascii) : res Version :=
  let s := foldl (λ s c, scan_char c s) scan_init version_sv in
  max ← of_option Uninitialised (s_max s);
  sub ← substr version_sv 0 max;
  '(major, _) ← static_stoi sub;
  min ← of_option Uninitialised (s_min s);
  sub ← substr version_sv (max + 1) min;
  '(minor, _) ← static_stoi sub;
  patch ← of_option Uninitialised (s_patch s);
  sub ← substr version_sv (min + 1) patch;
  '(patch, _) ← static_stoi sub;
  Ok (mkVersion (u32 major) (u32 minor) (u32 patch)).

End Version.

(** ** tz::EngineInfo *)

Inductive RenderAPI := Vulkan | OpenGL.
Inductive BuildType := Debug | Release | Profile.

Record EngineInfo := mkEngineInfo { renderer : RenderAPI; build : BuildType; engine_version : Version }.

(** [EngineInfo::to_string]. *)
Definition engine_to_string (e : EngineInfo) : list ascii :=
  let render_api := match renderer e with
                    | OpenGL => str "OpenGL" | Vulkan => str "Vulkan" end in
  let build_config := match build e with
                      | Debug => str "Debug" | Profile => str "Profile" | Release => str "Release" end in
  str "Topaz v" ++ stringify_version (engine_version e) ++ str " " ++ render_api ++ str " " ++ build_config.

(** The preprocessor symbols [tz::info()] is compiled with. *)
Record Macros := mkMacros {
  TZ_VULKAN : bool; TZ_OGL : bool; M_DEBUG : bool; TZ_PROFILE : bool; TZ_VERSION : list ascii }.

(** [tz::info()]: [None] when the [static_assert] rejects the build. *)
Definition info `{BC : BuildConfig} (m : Macros) : option (res EngineInfo) :=
  match (if TZ_VULKAN m then Some Vulkan else if TZ_OGL m then Some OpenGL else None) with
  | None => None
  | Some r =>
      let b := if M_DEBUG m then Debug else if TZ_PROFILE m then Profile else Release in
      Some (v ← parse_version (TZ_VERSION m); Ok (mkEngineInfo r b v))
  end.

(** ** tz::GameInfo *)

Record GameInfo := mkGameInfo { name : list ascii; game_version : Version; engine : EngineInfo }.

Definition game_to_string (g : GameInfo) : list ascii :=
  name g ++ str " v" ++ stringify_version (game_version g) ++ str " (" ++ engine_to_string (engine g) ++ str ")".

(** ** Facts about the string functions *)

Section Facts.
Context `{BC : BuildConfig}.

(** The value of a string of decimal digits. *)
Definition dec_value (l : list ascii) : Z :=
  foldl (λ acc c, 10 * acc + (code c - 48)) 0 l.

Lemma dec_value_snoc l c : dec_value (l ++ [c]) = 10 * dec_value l + (code c - 48).
Proof. unfold dec_value. by rewrite foldl_app. Qed.

Lemma code_digit_char d : 0 ≤ d < 10 → code (digit_char d) = 48 + d.
Proof.
  intros H. unfold code, digit_char. rewrite nat_ascii_embedding by lia. lia.
Qed.

Lemma is_digit_digit_char d : 0 ≤ d < 10 → is_digit (digit_char d) = true.
Proof. intros H. unfold is_digit. rewrite code_digit_char by done. lia. Qed.

Lemma is_digit_not_dot c : is_digit c = true → c ≠ "."%char.
Proof. intros H ->. discriminate H. Qed.

(** What [digits] writes in front of the accumulator. *)
Lemma digits_spec fuel z acc : 0 ≤ z < 10 ^ Z.of_nat (S fuel) →
  ∃ ds, digits (S fuel) z acc = ds ++ acc ∧ dec_value ds = z ∧
        Forall (is_digit) ds ∧ (0 < List.length ds ≤ S fuel)%nat.
Proof.
  revert z acc. induction fuel as [|fuel IH]; intros z acc Hz.
  - exists [digit_char z]. simpl in *.
    rewrite Z.mod_small by lia. rewrite (proj2 (Z.ltb_lt z 10)) by lia.
    split_and!; try done; try lia.
    + unfold dec_value. simpl. rewrite code_digit_char; lia.
    + apply Forall_singleton. rewrite is_digit_digit_char; [done|lia].
  - cbn [digits]. destruct (Z.ltb_spec z 10) as [Hlt|Hge].
    + exists [digit_char (z mod 10)]. rewrite Z.mod_small by lia.
      split_and!; try done; try (simpl; lia).
      * unfold dec_value. simpl. rewrite code_digit_char; lia.
      * apply Forall_singleton. rewrite is_digit_digit_char; [done|lia].
    + assert (Hd : 0 ≤ z / 10 < 10 ^ Z.of_nat (S fuel)).
      { split; [apply Z.div_pos; lia|]. apply Z.div_lt_upper_bound; [lia|].
        rewrite <- Z.pow_succ_r, <- Nat2Z.inj_succ by lia. lia. }
      pose proof (Z.mod_pos_bound z 10 ltac:(lia)) as Hm.
      destruct (IH (z / 10) (digit_char (z mod 10) :: acc) Hd) as (ds & E & V & F & L).
      exists (ds ++ [digit_char (z mod 10)]).
      rewrite <- app_assoc. split; [exact E|]. rewrite dec_value_snoc, V, length_app.
      rewrite code_digit_char by done. pose proof (Z.div_mod z 10).
      split_and!; [lia| |simpl; lia|simpl; lia].
      apply Forall_app; split; [done|]. apply Forall_singleton.
      rewrite is_digit_digit_char; done.
Qed.

Lemma to_string_spec z : 0 ≤ z →
  dec_value (to_string z) = z ∧ Forall is_digit (to_string z) ∧
  (0 < List.length (to_string z) ≤ S (Z.to_nat (Z.log2 z)))%nat.
Proof.
  intros Hz.
  destruct (digits_spec (Z.to_nat (Z.log2 z)) z []) as (ds & E & V & F & L).
  { split; [done|]. pose proof (Z.log2_nonneg z).
    rewrite Nat2Z.inj_succ, Z2Nat.id by done.
    destruct (decide (z = 0)) as [->|]; [simpl; lia|].
    eapply Z.lt_le_trans; [apply Z.log2_spec; lia|]. apply Z.pow_le_mono_l. lia. }
  unfold to_string. rewrite E, app_nil_r. done.
Qed.

Lemma length_to_string z : 0 ≤ z < modulus32 → (0 < List.length (to_string z) ≤ 32)%nat.
Proof.
  intros Hz. destruct (to_string_spec z) as (_ & _ & L); [lia|].
  assert (Z.log2 z < 32); [|lia].
  destruct (decide (z = 0)) as [->|]; [simpl; lia|]. apply Z.log2_lt_pow2; [lia|].
  unfold modulus32 in Hz. lia.
Qed.

(** Removing the last digit divides by ten. *)
Lemma dec_value_bounds l : Forall is_digit l → 0 ≤ dec_value l < 10 ^ Z.of_nat (List.length l).
Proof.
  induction l as [|c l IH] using rev_ind; intros H; [done|].
  apply Forall_app in H as [H [Hc _]%Forall_cons].
  rewrite dec_value_snoc, length_app, Nat.add_1_r, Nat2Z.inj_succ, Z.pow_succ_r by lia.
  specialize (IH H). apply Is_true_true in Hc. unfold is_digit in Hc. lia.
Qed.

Lemma dec_value_app l l' :
  dec_value (l ++ l') = dec_value l * 10 ^ Z.of_nat (List.length l') + dec_value l'.
Proof.
  induction l' as [|c l' IH] using rev_ind.
  - rewrite app_nil_r. unfold dec_value at 3. simpl. lia.
  - rewrite app_assoc, !dec_value_snoc, IH, length_app, Nat.add_1_r, Nat2Z.inj_succ, Z.pow_succ_r by lia. lia.
Qed.

Lemma dec_value_take l n : Forall is_digit l →
  dec_value (take n l) = dec_value l / 10 ^ Z.of_nat (List.length l - n).
Proof.
  intros H. rewrite <- (take_drop n l) at 2. rewrite dec_value_app, length_drop.
  eapply Z.div_unique_pos with (r := dec_value (drop n l)); [|lia].
  rewrite <- length_drop. apply dec_value_bounds. by apply Forall_drop.
Qed.

(** ** static_stoi *)

Fixpoint rev_value (l : list ascii) : Z :=
  match l with [] => 0 | c :: l' => (code c - 48) + 10 * rev_value l' end.

Lemma rev_value_rev l : rev_value (rev l) = dec_value l.
Proof.
  induction l as [|c l IH] using rev_ind; [done|].
  rewrite rev_app_distr, dec_value_snoc. simpl. rewrite IH. lia.
Qed.

Lemma stoi_loop_spec sign l r m :
  u32 (stoi_loop sign l r m) = u32 (r + m * sign * rev_value l).
Proof.
  revert r m. induction l as [|c l IH]; intros r m; simpl; [f_equal; lia|].
  rewrite IH.
  destruct (to_i32_ex (u32 r + u32 ((code c - 48) * m * sign))) as [k1 ->].
  destruct (u32_ex r) as [k2 ->], (u32_ex ((code c - 48) * m * sign)) as [k3 ->],
    (u32_ex (m * 10)) as [k4 ->].
  apply u32_cong. exists (k1 + k2 + k3 + k4 * sign * rev_value l). ring.
Qed.

Lemma find_first_skip p l l' :
  Forall (λ c, p c = false) l →
  find_first p (l ++ l') = (λ n, (List.length l + n)%nat) <$> find_first p l'.
Proof.
  induction 1 as [|c l Hc _ IH]; simpl; [by destruct (find_first p l')|].
  rewrite Hc, IH. by destruct (find_first p l').
Qed.

(** A string of digits followed by the end or by a non-digit is read as its
    value modulo [2^32]. *)
Lemma static_stoi_digits l rest :
  Forall is_digit l → l ≠ [] → (∀ c, head rest = Some c → is_digit c = false) →
  ∃ r, static_stoi (l ++ rest) = Ok (r, Some (List.length l)) ∧ u32 r = u32 (dec_value l).
Proof.
  intros Hl Hne Hrest. unfold static_stoi.
  assert (Hf : find_first is_digit (l ++ rest) = Some 0%nat).
  { destruct l as [|c l]; [done|]. apply Forall_cons in Hl as [Hc _]. simpl.
    by destruct (is_digit c). }
  rewrite Hf. cbn -[stoi_loop u32]. rewrite drop_0.
  rewrite find_first_skip.
  2:{ eapply Forall_impl; [exact Hl|]. intros c Hc%Is_true_true. simpl. by rewrite Hc. }
  assert (Hs : (match (λ n, (List.length l + n)%nat) <$> find_first (negb ∘ is_digit) rest with
                | Some end_ => take (List.length (l ++ rest) - (List.length (l ++ rest) - end_)) (l ++ rest)
                | None => l ++ rest end) = l).
  { destruct rest as [|c rest]; [by rewrite app_nil_r|].
    simpl. rewrite (Hrest c) by done. simpl.
    rewrite length_app. simpl. rewrite take_app_le by lia. apply take_ge. lia. }
  rewrite Hs. eexists. split; [done|].
  rewrite stoi_loop_spec, rev_value_rev. f_equal. lia.
Qed.

(** No digit at all: the error branch. *)
Lemma static_stoi_no_digit s :
  Forall (λ c, is_digit c = false) s →
  static_stoi s = if TZ_DEBUG then Fault AssertTrap else Ok (-1, None).
Proof.
  intros H. unfold static_stoi.
  pose proof (find_first_skip is_digit s [] H) as E. rewrite app_nil_r in E. rewrite E.
  simpl. unfold tz_error. by destruct TZ_DEBUG.
Qed.

(** ** The scan of parse_version *)

Lemma scan_no_dot l s :
  Forall (λ c, c ≠ "."%char) l → 0 ≤ counter s → counter s + Z.of_nat (List.length l) < modulus32 →
  foldl (λ s c, scan_char c s) s l =
  mkScan (s_max s) (s_min s) (s_patch s) (dot_counter s) (counter s + Z.of_nat (List.length l)).
Proof.
  intros Hl. revert s. induction Hl as [|c l Hc _ IH]; intros s H0 Hb.
  { destruct s. simpl. f_equal. lia. }
  cbn [foldl]. unfold scan_char at 2. rewrite decide_False by done.
  cbn [List.length] in *. rewrite u32_small by lia.
  rewrite IH; simpl; [|lia|lia]. f_equal. lia.
Qed.

Lemma digits_no_dot l : Forall is_digit l → Forall (λ c, c ≠ "."%char) l.
Proof. intros H. eapply Forall_impl; [exact H|]. intros c Hc%Is_true_true. by apply is_digit_not_dot. Qed.

Lemma scan_first_dot mx mn p k :
  scan_char "."%char (mkScan mx mn p 0 k) = mkScan (Some (Z.to_nat k)) mn p 1 (u32 (k + 1)).
Proof. reflexivity. Qed.

Lemma scan_second_dot mx mn p k :
  scan_char "."%char (mkScan mx mn p 1 k) =
  mkScan mx (Some (Z.to_nat k)) (Some (Z.to_nat k + 1)%nat) 2 (u32 (k + 1)).
Proof. reflexivity. Qed.

Lemma scan_three a b c :
  Forall is_digit a → Forall is_digit b → Forall is_digit c →
  Z.of_nat (List.length a + List.length b + List.length c + 2) < modulus32 →
  let s := foldl (λ s c, scan_char c s) scan_init (a ++ "."%char :: b ++ "."%char :: c) in
  s_max s = Some (List.length a) ∧
  s_min s = Some (List.length a + 1 + List.length b)%nat ∧
  s_patch s = Some (List.length a + 1 + List.length b + 1)%nat.
Proof.
  intros Ha%digits_no_dot Hb%digits_no_dot Hc%digits_no_dot Hlen. cbn zeta.
  rewrite foldl_app, (scan_no_dot a) by (simpl; done || lia).
  cbn [foldl scan_init s_max s_min s_patch dot_counter counter].
  rewrite scan_first_dot, u32_small by lia.
  rewrite foldl_app, (scan_no_dot b) by (simpl; done || lia).
  cbn [foldl s_max s_min s_patch dot_counter counter].
  rewrite scan_second_dot, u32_small by lia.
  rewrite (scan_no_dot c) by (simpl; done || lia).
  cbn [s_max s_min s_patch].
  split_and!; f_equal; lia.
Qed.

Lemma drop_sep {A} (l : list A) x r : drop (List.length l + 1) (l ++ x :: r) = r.
Proof. rewrite <- drop_drop, drop_app_length. done. Qed.

Lemma drop_two_sep {A} (a b : list A) x y r :
  drop (List.length a + 1 + List.length b + 1) (a ++ x :: b ++ y :: r) = r.
Proof.
  rewrite <- (Nat.add_assoc (List.length a + 1)), <- drop_drop. by rewrite !drop_sep.
Qed.

(** What [parse_version] reads back from any printed version: the patch is cut
    to as many digits as the first two fields and their dots have, plus one. *)
Lemma parse_stringify v : version_ok v →
  let limit := (List.length (to_string (major v)) + List.length (to_string (minor v)) + 2)%nat in
  parse_version (stringify_version v) =
  Ok (mkVersion (major v) (minor v) (u32 (dec_value (take limit (to_string (patch v)))))).
Proof.
  intros (Hmaj & Hmin & Hpat). cbn zeta.
  destruct (to_string_spec (major v)) as (Va & Da & _); [lia|].
  destruct (to_string_spec (minor v)) as (Vb & Db & _); [lia|].
  destruct (to_string_spec (patch v)) as (_ & Dc & _); [lia|].
  pose proof (length_to_string _ Hmaj) as La. pose proof (length_to_string _ Hmin) as Lb.
  pose proof (length_to_string _ Hpat) as Lc.
  set (a := to_string (major v)) in *. set (b := to_string (minor v)) in *.
  set (c := to_string (patch v)) in *.
  assert (Hs : stringify_version v = a ++ "."%char :: b ++ "."%char :: c).
  { unfold stringify_version. fold a b c. cbn. by rewrite <- !app_assoc. }
  rewrite Hs. unfold parse_version.
  destruct (scan_three a b c Da Db Dc) as (E1 & E2 & E3); [unfold modulus32; lia|].
  rewrite E1, E2, E3. cbn [of_option mbind res_bind]. unfold substr.
  rewrite !length_app. cbn [List.length]. rewrite !length_app. cbn [List.length].
  rewrite !(proj2 (Nat.leb_le _ _)) by lia. cbn [mbind res_bind].
  rewrite drop_0, take_app_length.
  destruct (static_stoi_digits a []) as (ra & Ea & Ua); [done| |done|].
  { intros ->. simpl in La. lia. }
  rewrite app_nil_r in Ea. rewrite Ea. cbn [mbind res_bind].
  rewrite !drop_sep.
  rewrite take_app_ge by lia.
  replace (List.length a + 1 + List.length b - List.length b)%nat with (S (List.length a)) by lia.
  cbn [take].
  destruct (static_stoi_digits b ("."%char :: take (List.length a) c)) as (rb & Eb & Ub); [done| | |].
  { intros ->. simpl in Lb. lia. }
  { intros ? [= <-]. done. }
  rewrite Eb. cbn [mbind res_bind].
  rewrite drop_two_sep.
  destruct (static_stoi_digits (take (List.length a + 1 + List.length b + 1) c) []) as (rc & Ec & Uc).
  { by apply Forall_take. }
  { destruct c; [simpl in Lc; lia|]. rewrite Nat.add_1_r. done. }
  { done. }
  rewrite app_nil_r in Ec. rewrite Ec. cbn [mbind res_bind].
  rewrite Ua, Ub, Uc, Va, Vb, !u32_small by done. do 4 f_equal. f_equal. lia.
Qed.

End Facts.

(** ** Properties *)

Section Properties.
Context `{BC : BuildConfig}.

(** C13: a printed version is parsed back to itself exactly when the patch has
    at most two more digits than the major and the minor number together: the
    second argument [parse_version] gives to [substr] is a position where a
    count is wanted, so a longer patch loses its last digits. *)
Theorem parse_version_roundtrip v :
  version_ok v →
  parse_version (stringify_version v) = Ok v ↔
  (List.length (to_string (patch v)) ≤
   List.length (to_string (major v)) + List.length (to_string (minor v)) + 2)%nat.
Proof.
  intros Hv. rewrite (parse_stringify v Hv). destruct Hv as (_ & _ & Hp).
  destruct (to_string_spec (patch v)) as (V & D & _); [lia|].
  set (limit := (_ + _ + 2)%nat). split.
  - intros E%(f_equal (λ r, match r with Ok v => patch v | Fault _ => 0 end)).
    simpl in E. apply Nat.nlt_ge. intros Hlt. revert E.
    destruct v as [ma mi p]; simpl in *. intros E.
    rewrite (dec_value_take _ limit D), V in E.
    assert (Hz : 0 < p).
    { destruct (decide (p = 0)) as [->|]; [|lia].
      change (List.length (to_string 0)) with 1%nat in Hlt. unfold limit in Hlt. lia. }
    assert (Hd : p / 10 ^ Z.of_nat (List.length (to_string p) - limit) < p).
    { apply Z.div_lt; [done|]. apply Z.pow_gt_1; lia. }
    pose proof (Z.div_pos p (10 ^ Z.of_nat (List.length (to_string p) - limit))).
    rewrite u32_small in E by lia. lia.
  - intros Hle. rewrite take_ge, V, u32_small by done. by destruct v.
Qed.

End Properties.

Lemma parse_version_roundtrip_witness :
  parse_version (BC:=debug_build) (stringify_version (mkVersion 3 10 41)) = Ok (mkVersion 3 10 41).
Proof.
  apply (parse_version_roundtrip (BC:=debug_build) (mkVersion 3 10 41)).
  - unfold version_ok, modulus32. simpl. lia.
  - vm_compute. lia.
Defined.
