(* ===== verification/VectorMath.v ===== *)
(** * Vectors

    [tz::Vector<T, S>] (core/vector.{hpp,inl}).  The arithmetic of the element
    type is a class, so that what is proved without a law of it holds for
    [float] as well; the laws of exact arithmetic are a second class. *)

From Stdlib Require Import Ring_theory Field_theory QArith Qcanon.
From S2P Require Import Prelude.

(** ** tz::Number

    The operators the templates use on an element type. *)
Class Number (T : Type) := {
  nzero : T;                       (* T() and T{0} *)
  none : T;                        (* T{1} *)
  nadd : T → T → T;
  nsub : T → T → T;
  nmul : T → T → T;
  ndiv : T → T → T;
  nopp : T → T;
  neqb : T → T → bool;             (* == *)
  ngeb : T → T → bool              (* >= *)
}.

Declare Scope num_scope.
Delimit Scope num_scope with num.
Notation "0" := nzero : num_scope.
Notation "1" := none : num_scope.
Notation "x + y" := (nadd x y) : num_scope.
Notation "x - y" := (nsub x y) : num_scope.
Notation "x * y" := (nmul x y) : num_scope.
Notation "x / y" := (ndiv x y) : num_scope.
Notation "- x" := (nopp x) : num_scope.

(** Exact arithmetic: [T] is a field with decidable equality. *)
Class ExactNumber (T : Type) `{Number T} : Prop := {
  exact_field : field_theory nzero none nadd nmul nsub nopp ndiv (ndiv none) eq;
  neqb_spec : ∀ x y : T, neqb x y = true ↔ x = y
}.

(** [abs], [sqrt] and [numeric_limits<T>::epsilon]. *)
Class RealFunctions (T : Type) := {
  nabs : T → T; nsqrt : T → T; nepsilon : T
}.

(** The rationals, the concrete exact instance. *)
#[export] Instance Qc_number : Number Qc := {|
  nzero := 0%Qc; none := 1%Qc; nadd := Qcplus; nsub := Qcminus; nmul := Qcmult;
  ndiv := Qcdiv; nopp := Qcopp;
  neqb := λ x y, if Qc_eq_dec x y then true else false;
  ngeb := λ x y, match Qccompare x y with Lt => false | _ => true end |}.

#[export] Instance Qc_exact : ExactNumber Qc.
Proof.
  split.
  - destruct Qcft as [r ne d i]. split; [exact r|exact ne| |].
    + intros p q. unfold ndiv, none. simpl. unfold Qcdiv. ring.
    + intros p Hp. unfold ndiv, none. simpl. unfold Qcdiv.
      transitivity (Qcinv p * p)%Qc; [ring|exact (i p Hp)].
  - intros x y. simpl. destruct (Qc_eq_dec x y); naive_solver.
Qed.

(** ** tz::Vector *)

Module Vector.

Section Vector.
Context `{BC : BuildConfig} {T : Type} `{NT : Number T} `{RF : RealFunctions T}.

(** The number of elements, [S] of the template. *)
Variable S : nat.

(** [operator[]]. *)
Definition get (v : list T) (idx : nat) : res T :=
  _ ← tz_assert (idx <? S); at_index v idx.

Definition put (v : list T) (idx : nat) (x : T) : res (list T) :=
  _ ← tz_assert (idx <? S); set_index v idx x.

(** The loops [this->vec[i] op= e(i)] of the compound assignments. *)
Definition update_loop (op : T → T → T) (e : nat → list T → res T) (this : list T) : res (list T) :=
  for_range S (λ i v,
    x ← at_index v i;
    y ← e i v;
    set_index v i (op x y)) this.

(** The operand of a compound assignment is the vector itself or another one. *)
Inductive operand := Alias | Other (v : list T).

Definition operand_vec (this : list T) (o : operand) : list T :=
  match o with Alias => this | Other v => v end.

(** [operator+=], [operator-=], [operator*=], [operator/=]. *)
Definition add_assign (this : list T) (rhs : operand) : res (list T) :=
  update_loop nadd (λ i v, at_index (operand_vec v rhs) i) this.

Definition sub_assign (this : list T) (rhs : operand) : res (list T) :=
  update_loop nsub (λ i v, at_index (operand_vec v rhs) i) this.

Definition mul_assign (this : list T) (scalar : T) : res (list T) :=
  update_loop nmul (λ _ _, Ok scalar) this.

Definition div_assign (this : list T) (scalar : T) : res (list T) :=
  update_loop ndiv (λ _ _, Ok scalar) this.

(** [operator+], [operator-], [operator*], [operator/]: on a copy. *)
Definition add (this rhs : list T) : res (list T) := let copy := this in add_assign copy (Other rhs).
Definition sub (this rhs : list T) : res (list T) := let copy := this in sub_assign copy (Other rhs).
Definition mul (this : list T) (scalar : T) : res (list T) := let copy := this in mul_assign copy scalar.
Definition div (this : list T) (scalar : T) : res (list T) := let copy := this in div_assign copy scalar.

(** [operator==]: no difference reaches the element type's epsilon, which a
    difference that is not a number does not.  The loop returns at the first
    index that fails. *)
Fixpoint eq_loop (fuel i : nat) (this rhs : list T) : res bool :=
  match fuel with
  | 0 => Ok true
  | Datatypes.S fuel =>
      x ← get this i;
      y ← get rhs i;
      if ngeb (nabs (nsub x y)) nepsilon then Ok false
      else eq_loop fuel (i + 1) this rhs
  end.

Definition eqb (this rhs : list T) : res bool := eq_loop S 0 this rhs.

(** [dot]. *)
Definition dot (this rhs : list T) : res T :=
  for_range S (λ i sum, x ← get this i; y ← get rhs i; Ok (nadd sum (nmul x y))) nzero.

(** [length]. *)
Definition length (this : list T) : res T :=
  sum_squares ← for_range S (λ i sum, x ← get this i; y ← get this i; Ok (nadd sum (nmul x y))) nzero;
  Ok (nsqrt sum_squares).

(** [normalise], [normalised]. *)
Definition normalise (this : list T) : res (list T) :=
  l ← length this;
  if neqb l nzero then Ok this else Ok (map (λ d, ndiv d l) this).

Definition normalised (this : list T) : res (list T) := let cpy := this in normalise cpy.

End Vector.

Section Cross.
Context `{BC : BuildConfig} {T : Type} `{NT : Number T}.

(** [cross]; [ret] starts with the indeterminate values [ret0]. *)
Definition cross (ret0 lhs rhs : list T) : res (list T) :=
  let component (a b : nat) : res T :=
    l1 ← get 3 lhs a; r2 ← get 3 rhs b; l2 ← get 3 lhs b; r1 ← get 3 rhs a;
    Ok (nsub (nmul l1 r2) (nmul l2 r1)) in
  c0 ← component 1 2; ret ← put 3 ret0 0 c0;
  c1 ← component 2 0; ret ← put 3 ret 1 c1;
  c2 ← component 0 1; put 3 ret 2 c2.

End Cross.

(** ** Facts *)

Section Facts.
Context `{BC : BuildConfig} {T : Type} `{NT : Number T} `{RF : RealFunctions T}.
Implicit Types v w : list T.

Lemma get_lt S v i x : List.length v = S → v !! i = Some x → get S v i = Ok x.
Proof.
  intros <- Hx. unfold get. rewrite (proj2 (Nat.ltb_lt _ _)) by eauto using lookup_lt_Some.
  rewrite tz_assert_true. simpl. by apply at_index_Some.
Qed.

(** The compound assignments update every element once. *)
Lemma update_loop_spec op e v (g : nat → T) :
  (∀ i w, i < List.length v → List.length w = List.length v → w !! i = v !! i → e i w = Ok (g i)) →
  update_loop (List.length v) op e v = Ok (imap (λ i x, op x (g i)) v).
Proof.
  intros He. unfold update_loop.
  destruct (for_range_ind (λ k w, w = imap (λ i x, if decide (i < k) then op x (g i) else x) v)
              (List.length v)
              (λ i w, x ← at_index w i; y ← e i w; set_index w i (op x y)) v)
    as (w & E & Hw).
  - apply list_eq. intros j. rewrite list_lookup_imap. by destruct (v !! j).
  - intros i w Hi ->. set (w := imap _ v).
    assert (Lw : List.length w = List.length v) by apply length_imap.
    destruct (lookup_lt_is_Some_2 v i Hi) as [x Hx].
    assert (Hwi : w !! i = Some x).
    { unfold w. rewrite list_lookup_imap, Hx. simpl. by rewrite decide_False by lia. }
    rewrite (at_index_Some _ _ x Hwi). cbn [mbind res_bind].
    rewrite (He i w Hi Lw) by (by rewrite Hwi). cbn [mbind res_bind].
    rewrite set_index_lt by lia. eexists. split; [done|].
    apply list_eq. intros j. rewrite list_lookup_imap.
    destruct (decide (j = i)) as [->|Hji].
    + rewrite list_lookup_insert_eq by lia. rewrite Hx. simpl. by rewrite decide_True by lia.
    + rewrite list_lookup_insert_ne by done. unfold w. rewrite list_lookup_imap.
      destruct (v !! j); simpl; [|done]. f_equal.
      destruct (decide (j < i)), (decide (j < i + 1)), (decide (j < Datatypes.S i)); try done; lia.
  - rewrite E. subst w. f_equal. apply list_eq. intros j. rewrite !list_lookup_imap.
    destruct (v !! j) eqn:Ej; simpl; [|done]. apply lookup_lt_Some in Ej.
    by rewrite decide_True by lia.
Qed.

Lemma imap_zip_with (op : T → T → T) v w d :
  List.length v = List.length w →
  imap (λ i x, op x (nth i w d)) v = zip_with op v w.
Proof.
  intros HL. apply list_eq. intros i. rewrite list_lookup_imap, lookup_zip_with.
  destruct (v !! i) eqn:E; simpl; [|done].
  destruct (lookup_lt_is_Some_2 w i) as [y Hy]; [apply lookup_lt_Some in E; lia|].
  rewrite Hy. simpl. rewrite nth_lookup, Hy. done.
Qed.

(** [v += w] and [v -= w], also when [w] is [v] itself. *)
Lemma update_loop_operand op v o :
  List.length (operand_vec v o) = List.length v →
  update_loop (List.length v) op (λ i u, at_index (operand_vec u o) i) v =
  Ok (zip_with op v (operand_vec v o)).
Proof.
  intros HL. rewrite (update_loop_spec _ _ _ (λ i, nth i (operand_vec v o) nzero)).
  - by rewrite imap_zip_with.
  - intros i u Hi Hu Hui. apply at_index_Some.
    destruct (lookup_lt_is_Some_2 (operand_vec v o) i) as [y Hy]; [lia|].
    rewrite nth_lookup, Hy. simpl. destruct o; simpl in *; [by rewrite Hui|done].
Qed.

Lemma update_loop_scalar op v s :
  update_loop (List.length v) op (λ _ _, Ok s) v = Ok (map (λ x, op x s) v).
Proof.
  rewrite (update_loop_spec _ _ _ (λ _, s)) by done. f_equal.
  apply list_eq. intros i. by rewrite list_lookup_imap, list_lookup_fmap.
Qed.

Lemma dot_spec v w : List.length v = List.length w →
  dot (List.length v) v w = Ok (foldl nadd nzero (zip_with nmul v w)).
Proof.
  intros HL. unfold dot.
  destruct (for_range_ind (λ k s, s = foldl nadd nzero (take k (zip_with nmul v w))) (List.length v)
    (λ i sum, x ← get (List.length v) v i; y ← get (List.length v) w i; Ok (nadd sum (nmul x y))) nzero)
    as (s & E & ->); [done| |].
  - intros i s Hi ->.
    destruct (lookup_lt_is_Some_2 v i Hi) as [x Hx].
    destruct (lookup_lt_is_Some_2 w i) as [y Hy]; [lia|].
    rewrite (get_lt _ v i x), (get_lt _ w i y) by done. simpl. eexists; split; [done|].
    rewrite (take_S_r _ i (nmul x y)) by (by rewrite lookup_zip_with, Hx; simpl; rewrite Hy).
    by rewrite foldl_app.
  - rewrite E. f_equal. rewrite take_ge; [done|]. rewrite length_zip_with. lia.
Qed.

(** The cross product, whatever [ret] held before. *)
Lemma cross_spec r0 r1 r2 a0 a1 a2 b0 b1 b2 :
  cross [r0; r1; r2] [a0; a1; a2] [b0; b1; b2] =
  Ok [a1 * b2 - a2 * b1; a2 * b0 - a0 * b2; a0 * b1 - a1 * b0]%num.
Proof. unfold cross, get, put. simpl. rewrite !tz_assert_true. reflexivity. Qed.

End Facts.

(** ** Exact arithmetic *)

Section Exact.
Context `{BC : BuildConfig} {T : Type} `{NT : Number T} `{EN : !ExactNumber T}.

Add Field num_field : (exact_field (T:=T)).

(** The cross product is orthogonal to both of its arguments. *)
Lemma cross_orthogonal r0 r1 r2 a0 a1 a2 b0 b1 b2 c :
  cross [r0; r1; r2] [a0; a1; a2] [b0; b1; b2] = Ok c →
  dot 3 c [a0; a1; a2] = Ok nzero ∧ dot 3 c [b0; b1; b2] = Ok nzero.
Proof.
  rewrite cross_spec. intros [= <-].
  rewrite !(dot_spec [_; _; _] [_; _; _]) by done. simpl. split; f_equal; ring.
Qed.

End Exact.
End Vector.
