(* ===== verification/MatrixMath.v ===== *)
(** * Matrices

    [tz::Matrix<T, R, C>] (core/matrix.{hpp,inl}): an array of [C] arrays of
    [R] elements.  [operator[]] selects an array and [operator()(row, column)]
    the element [row] of the array [column].  The operand of a compound
    assignment may be the matrix itself; the model keeps that aliasing. *)

From Stdlib Require Import Ring_theory Field_theory Ring Field Qcanon.
From S2P Require Import Prelude VectorMath.

Module Matrix.

(** ** Operations *)

Section Matrix.
Context `{BC : BuildConfig} {T : Type} `{NT : Number T}.

(** The dimensions of the template. *)
Variables R C : nat.

(** The member [mat]. *)
Local Abbreviation matrix := (list (list T)).

(** [operator[]]. *)
Definition index (m : matrix) (row_idx : nat) : res (list T) :=
  _ ← tz_assert (row_idx <? R); at_index m row_idx.

(** [operator()], read and written through. *)
Definition at_ (m : matrix) (row column : nat) : res T :=
  _ ← tz_assert (row <? R);
  _ ← tz_assert (column <? R);
  a ← index m column;
  at_index a row.

Definition put (m : matrix) (row column : nat) (x : T) : res matrix :=
  _ ← tz_assert (row <? R);
  _ ← tz_assert (column <? R);
  a ← index m column;
  a' ← set_index a row x;
  set_index m column a'.

(** The nested loops over rows and columns. *)
Definition for_cells (body : nat → nat → matrix → res matrix) (m : matrix) : res matrix :=
  for_range R (λ i, for_range C (λ j, body i j)) m.

Definition zeros : matrix := replicate C (replicate R nzero).

(** [identity()]. *)
Definition identity : res matrix :=
  for_cells (λ i j m, if i =? j then put m i j none else put m i j nzero) zeros.

Inductive operand := Alias | Other (m : matrix).

Definition operand_mat (this : matrix) (o : operand) : matrix :=
  match o with Alias => this | Other m => m end.

(** [( *this)(i, j) op= e(i, j)] for every element. *)
Definition update_cells (op : T → T → T) (e : nat → nat → matrix → res T) (this : matrix) : res matrix :=
  for_cells (λ i j m, y ← e i j m; x ← at_ m i j; put m i j (op x y)) this.

Definition add_assign_scalar (this : matrix) (scalar : T) : res matrix :=
  update_cells nadd (λ _ _ _, Ok scalar) this.
Definition add_assign (this : matrix) (rhs : operand) : res matrix :=
  update_cells nadd (λ i j m, at_ (operand_mat m rhs) i j) this.
Definition add_scalar (this : matrix) (scalar : T) : res matrix :=
  let copy := this in add_assign_scalar copy scalar.
Definition add (this m : matrix) : res matrix :=
  let copy := this in add_assign copy (Other m).

Definition sub_assign_scalar (this : matrix) (scalar : T) : res matrix :=
  update_cells nsub (λ _ _ _, Ok scalar) this.
Definition sub_assign (this : matrix) (rhs : operand) : res matrix :=
  update_cells nsub (λ i j m, at_ (operand_mat m rhs) i j) this.
Definition sub_scalar (this : matrix) (scalar : T) : res matrix :=
  let copy := this in sub_assign_scalar copy scalar.
Definition sub (this m : matrix) : res matrix :=
  let copy := this in sub_assign copy (Other m).

Definition mul_assign_scalar (this : matrix) (scalar : T) : res matrix :=
  update_cells nmul (λ _ _ _, Ok scalar) this.
Definition mul_scalar (this : matrix) (scalar : T) : res matrix :=
  let copy := this in mul_assign_scalar copy scalar.

(** [operator*=(const Matrix&)]: the left factor is read from the copy [m], the
    right one from the operand, which is overwritten when it is [*this]. *)
Definition mul_assign (this : matrix) (rhs : operand) : res matrix :=
  let m := this in
  for_cells (λ i j cur,
    res_ele ← for_range C (λ k acc,
      x ← at_ m i k;
      y ← at_ (operand_mat cur rhs) k j;
      Ok (nadd acc (nmul x y))) nzero;
    put cur i j res_ele) this.

Definition mul (this m : matrix) : res matrix :=
  let copy := this in mul_assign copy (Other m).

(** [operator*(const Vector<T, C>&)]: [tz::Vec4{( *this)[i]}.dot(vec)]; the
    conversion to [Vec4] makes it usable with [R = C = 4] only. [ret] starts
    with indeterminate values. *)
Definition mul_vec (this : matrix) (ret0 vec : list T) : res (list T) :=
  for_range R (λ i ret,
    row ← index this i;
    x ← Vector.dot 4 row vec;
    Vector.put R ret i x) ret0.

(** [operator==]: the loops return at the first difference. *)
Fixpoint eq_cells (cells : list (nat * nat)) (this : matrix) (other : nat → nat → res T) : res bool :=
  match cells with
  | [] => Ok true
  | (i, j) :: cells =>
      x ← at_ this i j;
      y ← other i j;
      if negb (neqb x y) then Ok false else eq_cells cells this other
  end.

Definition all_cells : list (nat * nat) := i ← seq 0 R; (λ j, (i, j)) <$> seq 0 C.

Definition eqb_scalar (this : matrix) (scalar : T) : res bool :=
  eq_cells all_cells this (λ _ _, Ok scalar).
Definition eqb (this m : matrix) : res bool := eq_cells all_cells this (at_ m).

(** [transpose()]. *)
Definition swap (m : matrix) (i j i' j' : nat) : res matrix :=
  x ← at_ m i j; y ← at_ m i' j'; m ← put m i j y; put m i' j' x.

Definition transpose (this : matrix) : res matrix :=
  let m := this in
  for_cells (λ i j m, if negb (i =? j) then swap m i j j i else Ok m) m.

(** The lambdas [at] and [cat] of [inverse]: a flat index is split by [C]. *)
Definition cat (m : matrix) (idx : nat) : res T :=
  let row_id := idx / C in
  let column_id := idx - row_id * C in
  at_ m row_id column_id.

Definition set_at (m : matrix) (idx : nat) (x : T) : res matrix :=
  let row_id := idx / C in
  let column_id := idx - row_id * C in
  put m row_id column_id x.

(** A product of three elements of [m], and the sums of six of them in the two
    sign patterns of the source. *)
Definition prod3 (m : matrix) (i j k : nat) : res T :=
  x ← cat m i; y ← cat m j; z ← cat m k; Ok (x * y * z)%num.

Definition neg_prod3 (m : matrix) (i j k : nat) : res T :=
  x ← cat m i; y ← cat m j; z ← cat m k; Ok (- x * y * z)%num.

Definition cofactor_plus (m : matrix) (a b c d e f : nat * nat * nat) : res T :=
  let p t := prod3 m (fst (fst t)) (snd (fst t)) (snd t) in
  a ← p a; b ← p b; c ← p c; d ← p d; e ← p e; f ← p f;
  Ok (a - b - c + d + e - f)%num.

Definition cofactor_minus (m : matrix) (a b c d e f : nat * nat * nat) : res T :=
  let p t := prod3 m (fst (fst t)) (snd (fst t)) (snd t) in
  a ← neg_prod3 m (fst (fst a)) (snd (fst a)) (snd a);
  b ← p b; c ← p c; d ← p d; e ← p e; f ← p f;
  Ok (a + b + c - d - e + f)%num.

(** [inverse()]. *)
Definition adjugate (this mat : matrix) : res matrix :=
  let plus i a b c d e f (m : matrix) :=
    x ← cofactor_plus this a b c d e f; set_at m i x in
  let minus i a b c d e f (m : matrix) :=
    x ← cofactor_minus this a b c d e f; set_at m i x in
  m ← plus 0 (5,10,15) (5,11,14) (9,6,15) (9,7,14) (13,6,11) (13,7,10) mat;
  m ← minus 4 (4,10,15) (4,11,14) (8,6,15) (8,7,14) (12,6,11) (12,7,10) m;
  m ← plus 8 (4,9,15) (4,11,13) (8,5,15) (8,7,13) (12,5,11) (12,7,9) m;
  m ← minus 12 (4,9,14) (4,10,13) (8,5,14) (8,6,13) (12,5,10) (12,6,9) m;
  m ← minus 1 (1,10,15) (1,11,14) (9,2,15) (9,3,14) (13,2,11) (13,3,10) m;
  m ← plus 5 (0,10,15) (0,11,14) (8,2,15) (8,3,14) (12,2,11) (12,3,10) m;
  m ← minus 9 (0,9,15) (0,11,13) (8,1,15) (8,3,13) (12,1,11) (12,3,9) m;
  m ← plus 13 (0,9,14) (0,10,13) (8,1,14) (8,2,13) (12,1,10) (12,2,9) m;
  m ← plus 2 (1,6,15) (1,7,14) (5,2,15) (5,3,14) (13,2,7) (13,3,6) m;
  m ← minus 6 (0,6,15) (0,7,14) (4,2,15) (4,3,14) (12,2,7) (12,3,6) m;
  m ← plus 10 (0,5,15) (0,7,13) (4,1,15) (4,3,13) (12,1,7) (12,3,5) m;
  m ← minus 14 (0,5,14) (0,6,13) (4,1,14) (4,2,13) (12,1,6) (12,2,5) m;
  m ← minus 3 (1,6,11) (1,7,10) (5,2,11) (5,3,10) (9,2,7) (9,3,6) m;
  m ← plus 7 (0,6,11) (0,7,10) (4,2,11) (4,3,10) (8,2,7) (8,3,6) m;
  m ← minus 11 (0,5,11) (0,7,9) (4,1,11) (4,3,9) (8,1,7) (8,3,5) m;
  plus 15 (0,5,10) (0,6,9) (4,1,10) (4,2,9) (8,1,6) (8,2,5) m.

Definition determinant (this mat : matrix) : res T :=
  a0 ← cat this 0; b0 ← cat mat 0;
  a1 ← cat this 1; b4 ← cat mat 4;
  a2 ← cat this 2; b8 ← cat mat 8;
  a3 ← cat this 3; b12 ← cat mat 12;
  Ok (a0 * b0 + a1 * b4 + a2 * b8 + a3 * b12)%num.

Definition inverse (this : matrix) : res matrix :=
  mat ← identity;
  mat ← adjugate this mat;
  det ← determinant this mat;
  _ ← tz_assert (negb (neqb det nzero));
  let det := (1 / det)%num in
  for_range 16 (λ i mat, x ← cat mat i; set_at mat i (x * det)%num) mat.

End Matrix.

(** ** Matrices as functions of row and column *)

Section Facts.
Context `{BC : BuildConfig} {T : Type} `{NT : Number T}.
Variables R C : nat.
Local Abbreviation matrix := (list (list T)).

Definition entry (m : matrix) (i j : nat) : T := nth i (nth j m []) nzero.

Definition mat_of (f : nat → nat → T) : matrix :=
  map (λ j, map (λ i, f i j) (seq 0 R)) (seq 0 C).

(** The storage of a [Matrix<T, R, C>]. *)
Definition wf (m : matrix) : Prop := length m = C ∧ Forall (λ a, length a = R) m.

Definition upd (m : matrix) (i j : nat) (x : T) : matrix :=
  mat_of (λ i' j', if decide (i' = i ∧ j' = j) then x else entry m i' j').

Lemma wf_mat_of f : wf (mat_of f).
Proof.
  split; [by unfold mat_of; rewrite length_map, length_seq|].
  apply Forall_forall. intros a Ha. unfold mat_of in Ha.
  apply list_elem_of_fmap in Ha as (j & -> & _). by rewrite length_map, length_seq.
Qed.

Lemma nth_map_seq {A} (f : nat → A) n i d : i < n → nth i (map f (seq 0 n)) d = f i.
Proof.
  intros H. rewrite nth_lookup, list_lookup_fmap, lookup_seq_lt by done. done.
Qed.

Lemma entry_mat_of f i j : i < R → j < C → entry (mat_of f) i j = f i j.
Proof.
  intros Hi Hj. unfold entry, mat_of. rewrite (nth_map_seq (λ j, map (λ i, f i j) (seq 0 R))) by done. by rewrite nth_map_seq.
Qed.

Lemma list_map_nth {A} (l : list A) n d : length l = n → l = map (λ i, nth i l d) (seq 0 n).
Proof.
  intros <-. apply list_eq. intros i. rewrite list_lookup_fmap.
  destruct (decide (i < length l)) as [Hi|Hi].
  - rewrite lookup_seq_lt by done. simpl. rewrite nth_lookup.
    by destruct (lookup_lt_is_Some_2 l i Hi) as [x ->].
  - rewrite lookup_ge_None_2 by lia. by rewrite lookup_seq_ge by lia.
Qed.

Lemma wf_column m j : wf m → j < C → length (nth j m []) = R.
Proof.
  intros [HL HF] Hj. destruct (lookup_lt_is_Some_2 m j) as [a Ha]; [lia|].
  rewrite nth_lookup, Ha. simpl. by eapply Forall_lookup_1 in HF.
Qed.

Lemma mat_of_ext f g : (∀ i j, i < R → j < C → f i j = g i j) → mat_of f = mat_of g.
Proof.
  intros H. unfold mat_of. apply map_ext_in. intros j Hj%in_seq. apply map_ext_in.
  intros i Hi%in_seq. apply H; lia.
Qed.

Lemma mat_of_entry m : wf m → m = mat_of (entry m).
Proof.
  intros Hm. rewrite (list_map_nth m C []) at 1 by apply Hm.
  unfold mat_of. apply map_ext_in. intros j [_ Hj]%in_seq. unfold entry.
  apply list_map_nth. apply wf_column; [done|lia].
Qed.

Lemma matrix_ext m m' : wf m → wf m' →
  (∀ i j, i < R → j < C → entry m i j = entry m' i j) → m = m'.
Proof.
  intros Hm Hm' H. rewrite (mat_of_entry m Hm), (mat_of_entry m' Hm'). by apply mat_of_ext.
Qed.

Lemma upd_entry m i j x i' j' : i' < R → j' < C →
  entry (upd m i j x) i' j' = if decide (i' = i ∧ j' = j) then x else entry m i' j'.
Proof. intros. by unfold upd; rewrite entry_mat_of. Qed.

Lemma column_index m j : wf m → C ≤ R → j < C → index R m j = Ok (nth j m []).
Proof.
  intros [HL _] HCR Hj. unfold index. rewrite (proj2 (Nat.ltb_lt _ _)) by lia.
  rewrite tz_assert_true. simpl. apply at_index_Some.
  destruct (lookup_lt_is_Some_2 m j) as [a Ha]; [lia|]. rewrite nth_lookup, Ha. done.
Qed.

Lemma at_entry m i j : wf m → C ≤ R → i < R → j < C → at_ R m i j = Ok (entry m i j).
Proof.
  intros Hm HCR Hi Hj. unfold at_. rewrite !(proj2 (Nat.ltb_lt _ _)) by lia.
  rewrite tz_assert_true. simpl. rewrite column_index by done. simpl. apply at_index_Some.
  unfold entry. destruct (lookup_lt_is_Some_2 (nth j m []) i) as [x Hx].
  - rewrite wf_column; done.
  - by rewrite Hx, (nth_lookup (nth j m [])), Hx.
Qed.

Lemma put_upd m i j x : wf m → C ≤ R → i < R → j < C → put R m i j x = Ok (upd m i j x).
Proof.
  intros Hm HCR Hi Hj. unfold put. rewrite !(proj2 (Nat.ltb_lt _ _)) by lia.
  rewrite tz_assert_true. simpl. rewrite column_index by done. simpl.
  rewrite set_index_lt by (by rewrite wf_column). simpl.
  rewrite set_index_lt by (destruct Hm; lia). f_equal. apply matrix_ext.
  - destruct Hm as [HL HF]. split; [by rewrite length_insert|].
    apply Forall_insert; [done|]. rewrite length_insert. by apply wf_column.
  - apply wf_mat_of.
  - intros i' j' Hi' Hj'. rewrite upd_entry by done. unfold entry.
    rewrite (nth_lookup (<[j:=_]> m)). destruct Hm as [HL HF]. destruct (decide (j' = j)) as [->|Hne].
    + rewrite list_lookup_insert_eq by lia. simpl.
      rewrite (nth_lookup (<[i:=x]> (nth j m []))).
      assert (HL2 : length (nth j m []) = R) by (by apply wf_column).
      destruct (decide (i' = i)) as [->|Hni].
      * rewrite list_lookup_insert_eq by lia. by rewrite decide_True.
      * rewrite list_lookup_insert_ne by done. rewrite decide_False by naive_solver.
        by rewrite <- nth_lookup.
    + rewrite list_lookup_insert_ne by done. rewrite decide_False by naive_solver.
      by rewrite <- nth_lookup.
Qed.

(** Invariant rule for the nested loops. *)
Lemma for_cells_ind (P : nat → nat → matrix → Prop) body (m : matrix) :
  P 0 0 m →
  (∀ i cur, P i C cur → P (S i) 0 cur) →
  (∀ i j cur, i < R → j < C → P i j cur → ∃ cur', body i j cur = Ok cur' ∧ P i (S j) cur') →
  ∃ m', for_cells R C body m = Ok m' ∧ P R 0 m'.
Proof.
  intros H0 Hrow Hcell. unfold for_cells.
  apply (for_range_ind (λ i cur, P i 0 cur)); [done|].
  intros i cur Hi HP.
  destruct (for_range_ind (λ j cur, P i j cur) C (λ j, body i j) cur) as (m' & E & HP'); [done| |].
  - intros j s Hj HPj. by apply Hcell.
  - exists m'. split; [done|]. by apply Hrow.
Qed.

(** A loop that writes every element once computes its matrix of values. *)
Lemma for_cells_fill body m g : C ≤ R → wf m →
  (∀ i j cur, i < R → j < C → wf cur → entry cur i j = entry m i j →
     body i j cur = put R cur i j (g i j)) →
  for_cells R C body m = Ok (mat_of g).
Proof.
  intros HCR Hm Hbody.
  destruct (for_cells_ind (λ i j cur, wf cur ∧ ∀ a b, a < R → b < C →
      entry cur a b = if decide (a < i ∨ a = i ∧ b < j) then g a b else entry m a b) body m)
    as (m' & E & Hm' & Hg).
  - split; [done|]. intros. rewrite decide_False by lia. done.
  - intros i cur [Hw He]. split; [done|]. intros a b Ha Hb. rewrite He by done.
    repeat case_decide; try done; lia.
  - intros i j cur Hi Hj [Hw He]. eexists. split.
    { rewrite Hbody; [by apply put_upd|done..|].
      rewrite He by done. by rewrite decide_False by lia. }
    split; [apply wf_mat_of|]. intros a b Ha Hb. rewrite upd_entry by done.
    rewrite He by done. repeat case_decide; try done; try lia. naive_solver.
  - rewrite E. f_equal. apply matrix_ext; [done|apply wf_mat_of|].
    intros a b Ha Hb. rewrite Hg, entry_mat_of by done. by rewrite decide_True by lia.
Qed.

Lemma identity_spec : C ≤ R →
  identity R C = Ok (mat_of (λ i j, if i =? j then none else nzero)).
Proof.
  intros HCR. apply for_cells_fill; [done| |].
  - unfold zeros. split; [by rewrite length_replicate|]. apply Forall_replicate, length_replicate.
  - intros. by destruct (_ =? _).
Qed.

(** The element-wise assignments, the operand being possibly the matrix itself. *)
Lemma update_cells_operand op m o : C ≤ R → wf m → wf (operand_mat m o) →
  update_cells R C op (λ i j cur, at_ R (operand_mat cur o) i j) m =
  Ok (mat_of (λ i j, op (entry m i j) (entry (operand_mat m o) i j))).
Proof.
  intros HCR Hm Ho. apply for_cells_fill; [done|done|].
  intros i j cur Hi Hj Hw He.
  rewrite (at_entry cur), He by done. destruct o as [|m']; simpl in *.
  - rewrite at_entry by done. simpl. by rewrite He.
  - by rewrite at_entry.
Qed.

Lemma update_cells_scalar op m x : C ≤ R → wf m →
  update_cells R C op (λ _ _ _, Ok x) m = Ok (mat_of (λ i j, op (entry m i j) x)).
Proof.
  intros HCR Hm. apply for_cells_fill; [done|done|].
  intros i j cur Hi Hj Hw He. simpl. by rewrite at_entry, He.
Qed.

End Facts.

(** ** Square matrices *)

Section Square.
Context `{BC : BuildConfig} {T : Type} `{NT : Number T}.
Local Abbreviation matrix := (list (list T)).

(** The sum [f 0 + ... + f (n - 1)], added up from the left as a loop does. *)
Definition msum (n : nat) (f : nat → T) : T := foldl (λ acc k, nadd acc (f k)) nzero (seq 0 n).

Lemma for_range_sum n (body : nat → T → res T) f :
  (∀ k acc, k < n → body k acc = Ok (nadd acc (f k))) → for_range n body nzero = Ok (msum n f).
Proof.
  intros Hb.
  destruct (for_range_ind (λ k acc, acc = msum k f) n body nzero) as (x & E & ->); [done| |done].
  intros k acc Hk ->. rewrite Hb by done. eexists; split; [done|].
  unfold msum. by rewrite seq_S, foldl_app.
Qed.

(** The matrix product, row by column, summed up as the loop does. *)
Definition product (n : nat) (m m' : matrix) : matrix :=
  mat_of n n (λ i j, msum n (λ k, nmul (entry m i k) (entry m' k j))).

Lemma mul_product n m m' : wf n n m → wf n n m' → mul n n m m' = Ok (product n m m').
Proof.
  intros Hm Hm'. apply for_cells_fill; [done|done|].
  intros i j cur Hi Hj Hw He. rewrite (for_range_sum _ _ (λ k, nmul (entry m i k) (entry m' k j))).
  - done.
  - intros k acc Hk. simpl. by rewrite !(at_entry n n).
Qed.

Lemma mul_vec_spec m ret v : wf 4 4 m → length ret = 4 → length v = 4 →
  mul_vec 4 m ret v = Ok (map (λ i, foldl nadd nzero (zip_with nmul (nth i m []) v)) (seq 0 4)).
Proof.
  intros Hm Hret Hv. unfold mul_vec.
  assert (Hi : ∀ i, i < 4 → Vector.dot 4 (nth i m []) v
                = Ok (foldl nadd nzero (zip_with nmul (nth i m []) v))).
  { intros i Hi. pose proof (wf_column 4 4 m i Hm Hi) as HL.
    rewrite <- HL. apply Vector.dot_spec. by rewrite HL. }
  destruct ret as [|r0 [|r1 [|r2 [|r3 [|]]]]]; try done.
  unfold for_range. cbn [for_each seq]. rewrite !(column_index 4 4) by (done || lia).
  cbn [mbind res_bind]. rewrite !Hi by lia. cbn [mbind res_bind].
  unfold Vector.put, tz_assert. by destruct TZ_DEBUG.
Qed.

(** ** The determinant and the inverse of a 4x4 matrix *)

(** The minor of the rows and columns left, expanded along the first row. *)
Definition det2 (f : nat → nat → T) (r s a b : nat) : T := (f r a * f s b - f r b * f s a)%num.
Definition det3 (f : nat → nat → T) (q r s a b c : nat) : T :=
  (f q a * det2 f r s b c - f q b * det2 f r s a c + f q c * det2 f r s a b)%num.
Definition det4 (m : matrix) : T :=
  let f := entry m in
  (entry m 0 0 * det3 f 1 2 3 1 2 3 - entry m 0 1 * det3 f 1 2 3 0 2 3
   + entry m 0 2 * det3 f 1 2 3 0 1 3 - entry m 0 3 * det3 f 1 2 3 0 1 2)%num.

(** A 4x4 matrix by its elements, in the order of the flat indices. *)
Definition mat4 (e : nat → T) : matrix := mat_of 4 4 (λ i j, e (4 * i + j)).

Lemma mat4_entries m : wf 4 4 m → m = mat4 (λ k, entry m (k / 4) (k mod 4)).
Proof.
  intros Hm. unfold mat4. rewrite (mat_of_entry 4 4 m Hm) at 1. apply mat_of_ext.
  intros i j Hi Hj.
  by destruct i as [|[|[|[|i]]]]; [..|lia]; (destruct j as [|[|[|[|j]]]]; [..|lia]).
Qed.

End Square.

(** Exact arithmetic. *)
Section Exact.
Context `{BC : BuildConfig} {T : Type} `{NT : Number T} `{EN : !ExactNumber T}.

Add Field matrix_field : (exact_field (T:=T)).

Ltac cells4 :=
  let i := fresh "i" in let j := fresh "j" in
  intros i j ? ?;
  destruct i as [|[|[|[|i]]]]; [..|lia]; (destruct j as [|[|[|[|j]]]]; [..|lia]);
  cbv -[nadd nsub nmul nopp nzero none].

(** What the sixteen assignments and the determinant of [inverse] compute. *)
Lemma adjugate_spec (m I : list (list T)) : wf 4 4 m → wf 4 4 I →
  ∃ A, adjugate 4 4 m I = Ok A ∧ wf 4 4 A ∧
    product 4 m A = mat_of 4 4 (λ i j, if i =? j then det4 m else nzero) ∧
    product 4 A m = mat_of 4 4 (λ i j, if i =? j then det4 m else nzero) ∧
    determinant 4 4 m A = Ok (det4 m).
Proof.
  intros Hm HI. rewrite (mat4_entries m Hm), (mat4_entries I HI).
  generalize (λ k, entry m (k / 4) (k mod 4)) as e. clear m Hm.
  generalize (λ k, entry I (k / 4) (k mod 4)) as e'. clear I HI. intros e' e.
  eexists. split; [destruct BC as [[|]]; cbv -[nadd nsub nmul nopp nzero]; reflexivity|].
  split; [by split; repeat constructor|].
  split_and!.
  - apply mat_of_ext. cells4; ring.
  - apply mat_of_ext. cells4; ring.
  - transitivity (Ok (A:=T) (det4 (mat4 e))); [|done].
    destruct BC as [[|]]; cbv -[nadd nsub nmul nopp nzero]; f_equal; ring.
Qed.

Lemma product_entry (m m' : list (list T)) f i j :
  product 4 m m' = mat_of 4 4 f → i < 4 → j < 4 →
  msum 4 (λ k, nmul (entry m i k) (entry m' k j)) = f i j.
Proof.
  intros E Hi Hj. apply (f_equal (λ M, entry M i j)) in E. unfold product in E.
  by rewrite !entry_mat_of in E.
Qed.

Lemma msum4_ext (f g : nat → T) : (∀ k, k < 4 → f k = g k) → msum 4 f = msum 4 g.
Proof. intros H. unfold msum. simpl. by rewrite !H by lia. Qed.

Lemma msum4_scale f (d : T) : msum 4 (λ k, f k * d)%num = (msum 4 f * d)%num.
Proof. unfold msum. simpl. ring. Qed.

(** [inverse] on a matrix whose determinant is not zero. *)
Lemma inverse_spec m : wf 4 4 m → det4 m ≠ nzero →
  ∃ inv, inverse 4 4 m = Ok inv ∧ wf 4 4 inv ∧
    mul 4 4 m inv = identity 4 4 ∧ mul 4 4 inv m = identity 4 4.
Proof.
  intros Hm Hd. unfold inverse. rewrite identity_spec by lia. cbn [mbind res_bind].
  edestruct (adjugate_spec m) as (A & EA & HA & HmA & HAm & ED); [done|apply wf_mat_of|].
  rewrite EA. cbn [mbind res_bind]. rewrite ED. cbn [mbind res_bind].
  assert (Hn : neqb (det4 m) nzero = false).
  { apply not_true_is_false. by rewrite neqb_spec. }
  rewrite Hn, tz_assert_true. cbn [mbind res_bind].
  set (d := (1 / det4 m)%num).
  assert (Hdd : (det4 m * d = 1)%num) by (unfold d; field; done).
  exists (mat_of 4 4 (λ i j, nmul (entry A i j) d)).
  assert (HL : for_range 16 (λ i mat, x ← cat 4 4 mat i; set_at 4 4 mat i (x * d)%num) A
               = Ok (mat_of 4 4 (λ i j, nmul (entry A i j) d))).
  { rewrite (mat4_entries A HA). destruct BC as [[|]]; reflexivity. }
  split; [done|]. split; [apply wf_mat_of|].
  rewrite !mul_product by (done || apply wf_mat_of).
  pose proof (λ i j Hi Hj, product_entry m A _ i j HmA Hi Hj) as H1.
  pose proof (λ i j Hi Hj, product_entry A m _ i j HAm Hi Hj) as H2.
  split; f_equal; apply mat_of_ext; intros i j Hi Hj.
  - rewrite (msum4_ext _ (λ k, (entry m i k * entry A k j) * d)%num).
    2:{ intros k Hk. rewrite entry_mat_of by done. ring. }
    rewrite msum4_scale, H1 by done. destruct (i =? j); [done|ring].
  - rewrite (msum4_ext _ (λ k, (entry A i k * entry m k j) * d)%num).
    2:{ intros k Hk. rewrite entry_mat_of by done. ring. }
    rewrite msum4_scale, H2 by done. destruct (i =? j); [done|ring].
Qed.

End Exact.

(** ** Properties *)

Section Properties.
Context `{BC : BuildConfig} {T : Type} `{NT : Number T}.
Implicit Types m : list (list T).

(** C14: [operator*] of two square matrices is the row-by-column product: the
    element at row [i] and column [j] is the sum over [k] of
    [m(i,k) * m'(k,j)], added in the order of the loop.  No law of the element
    type is used, so this is the exact sequence of [float] operations. *)
Theorem mul_is_product n m m' : wf n n m → wf n n m' →
  mul n n m m' =
  Ok (mat_of n n (λ i j, msum n (λ k, nmul (entry m i k) (entry m' k j)))).
Proof. intros Hm Hm'. rewrite mul_product by done. unfold product. reflexivity. Qed.

(** [transpose()] returns the matrix it is given: the loops visit both
    [(i, j)] and [(j, i)] and swap the two elements twice. *)
Theorem transpose_returns_original n m : wf n n m → transpose n n m = Ok m.
Proof.
  intros Hm. unfold transpose.
  destruct (for_cells_ind n n (λ i j cur, wf n n cur ∧ ∀ a b, a < n → b < n →
      entry cur a b = if decide ((a < i ∨ a = i ∧ b < j) ↔ (b < i ∨ b = i ∧ a < j))
                      then entry m a b else entry m b a)
      (λ i j m, if negb (i =? j) then swap n m i j j i else Ok m) m) as (m' & E & Hw & He).
  - split; [done|]. intros a b Ha Hb. rewrite decide_True by lia. done.
  - intros i cur [Hw He]. split; [done|]. intros a b Ha Hb. rewrite He by done.
    repeat case_decide; try done; lia.
  - intros i j cur Hi Hj [Hw He]. destruct (Nat.eqb_spec i j) as [<-|Hij]; simpl.
    + exists cur. split; [done|]. split; [done|]. intros a b Ha Hb. rewrite He by done.
      repeat case_decide; try done; exfalso; lia.
    + unfold swap. rewrite !(at_entry n n) by done. simpl.
      rewrite (put_upd n n) by done. simpl.
      rewrite (put_upd n n) by (done || apply wf_mat_of).
      eexists. split; [done|]. split; [apply wf_mat_of|].
      intros a b Ha Hb. rewrite !upd_entry, !He by done.
      repeat (case_decide; simpl in *; destruct_and?; subst); try done; exfalso; lia.
  - rewrite E. f_equal. apply (matrix_ext n n); [done|done|].
    intros a b Ha Hb. rewrite He by done. by rewrite decide_True by lia.
Qed.

(** [matrix * vector] multiplies with the transpose: component [i] of the
    result is the sum over [k] of [m(k,i) * v[k]], because [operator[]] selects
    a column of the storage, where the documented product takes row [i]. *)
Theorem mul_vec_uses_columns m ret v :
  wf 4 4 m → length ret = 4 → length v = 4 →
  mul_vec 4 m ret v = Ok (map (λ i, msum 4 (λ k, nmul (entry m k i) (nth k v nzero))) (seq 0 4)).
Proof.
  intros Hm Hret Hv. rewrite mul_vec_spec by done. f_equal. apply map_ext_in.
  intros i [_ Hi]%in_seq. pose proof (wf_column 4 4 m i Hm Hi) as HL.
  unfold msum, entry. destruct (nth i m []) as [|a0 [|a1 [|a2 [|a3 [|]]]]]; try done.
  by destruct v as [|v0 [|v1 [|v2 [|v3 [|]]]]].
Qed.

End Properties.

(** C10: over exact arithmetic [inverse()] is a two-sided inverse of every 4x4
    matrix whose determinant is not zero, and its assertion does not fire. *)
Theorem inverse_two_sided `{BC : BuildConfig} {T} `{NT : Number T} `{EN : !ExactNumber T}
    (m : list (list T)) :
  wf 4 4 m → det4 m ≠ nzero →
  ∃ inv, inverse 4 4 m = Ok inv ∧ mul 4 4 m inv = identity 4 4 ∧ mul 4 4 inv m = identity 4 4.
Proof. intros Hm Hd. destruct (inverse_spec m Hm Hd) as (inv & ? & ? & ? & ?); eauto. Qed.

(** [m *= m] is not the square of [m]: the right factor is overwritten
    while it is read. *)
Theorem mul_assign_alias_differs :
  let q z := Q2Qc (QArith_base.inject_Z z) in
  let m := [[q 1; q 1]; [q 1; q 1]]%Z in
  mul (BC:=release_build) 2 2 m m = Ok [[q 2; q 2]; [q 2; q 2]]%Z ∧
  mul_assign (BC:=release_build) 2 2 m Alias = Ok [[q 2; q 3]; [q 2; q 3]]%Z.
Proof. split; vm_compute; reflexivity. Qed.

(** Concrete inputs for the properties. *)
Definition q (z : Z) : Qc := Q2Qc (QArith_base.inject_Z z).
Definition sample4 : list (list Qc) :=
  [[q 2; q 0; q 0; q 0]; [q 0; q 1; q 0; q 0]; [q 1; q 0; q 1; q 0]; [q 5; q 6; q 7; q 1]].

Lemma sample4_wf : wf 4 4 sample4.
Proof. by split; repeat constructor. Qed.

Lemma mul_is_product_witness :
  mul (BC:=debug_build) 4 4 sample4 sample4 =
  Ok (mat_of 4 4 (λ i j, msum 4 (λ k, nmul (entry sample4 i k) (entry sample4 k j)))).
Proof. exact (mul_is_product (BC:=debug_build) 4 sample4 sample4 sample4_wf sample4_wf). Defined.

Lemma transpose_returns_original_witness : transpose (BC:=debug_build) 4 4 sample4 = Ok sample4.
Proof. exact (transpose_returns_original (BC:=debug_build) 4 sample4 sample4_wf). Defined.

Lemma mul_vec_uses_columns_witness :
  mul_vec (BC:=debug_build) 4 sample4 [q 0; q 0; q 0; q 0] [q 0; q 0; q 0; q 1] =
  Ok [q 0; q 0; q 0; q 1].
Proof.
  rewrite (mul_vec_uses_columns (BC:=debug_build) sample4 [q 0; q 0; q 0; q 0] [q 0; q 0; q 0; q 1]
             sample4_wf eq_refl eq_refl).
  vm_compute. reflexivity.
Defined.

Lemma inverse_two_sided_witness :
  ∃ inv, inverse (BC:=debug_build) 4 4 sample4 = Ok inv ∧
    mul (BC:=debug_build) 4 4 sample4 inv = identity (BC:=debug_build) 4 4 ∧
    mul (BC:=debug_build) 4 4 inv sample4 = identity (BC:=debug_build) 4 4.
Proof.
  apply (inverse_two_sided (BC:=debug_build) sample4 sample4_wf).
  intros H%(f_equal (λ x, neqb x (q 0))). revert H. vm_compute. discriminate.
Defined.

End Matrix.
