(* ===== verification/RealMath.v ===== *)
(** * The real numbers as numbers of the engine

    The exact instance with the sine and cosine of analysis: what the float
    functions of core/matrix_transform.cpp stand for.  The engine computes in
    float, which approximates it. *)

From Stdlib Require Import Field_theory Rbase Rtrigo1.
From S2P Require Import Prelude VectorMath.

#[export] Instance R_number : Number R := {|
  nzero := 0%R; none := 1%R; nadd := Rplus; nsub := Rminus; nmul := Rmult; ndiv := Rdiv; nopp := Ropp;
  neqb := λ x y, if Req_dec_T x y then true else false;
  ngeb := λ x y, if Rge_dec x y then true else false |}.

#[export] Instance R_exact : ExactNumber R.
Proof.
  split.
  - destruct Rfield as [r ne d i]. split; [exact r|exact ne| |].
    + intros p q. cbn. unfold Rdiv. by rewrite Rmult_1_l.
    + intros p Hp. cbn. unfold Rdiv. rewrite Rmult_1_l. by apply i.
  - intros x y. cbn. destruct (Req_dec_T x y); naive_solver.
Qed.
