(* ===== verification/MatrixTransform.v ===== *)
(** * Transformation matrices

    The free functions of core/matrix_transform.{hpp,cpp}.  [sin], [cos] and
    [tan] of <cmath> are parameters.

    The functions are float only.  The theorems on [view], [model] and
    [perspective] are about the same functions over exact numbers, a field, of
    which the real numbers with their own sine and cosine are one: what float
    approximates, without a bound on its error. *)

From Stdlib Require Import Ring_theory Field_theory Ring Field Qcanon Rbase Rtrigo1.
From S2P Require Import Prelude VectorMath MatrixMath RealMath.

Module Transform.

Class Trigonometry (T : Type) := { nsin : T → T; ncos : T → T; ntan : T → T }.

Section Transform.
Context `{BC : BuildConfig} {T : Type} `{NT : Number T} `{TR : Trigonometry T}.

Local Abbreviation matrix := (list (list T)).
Local Abbreviation vec3 := (list T).

(** [Mat4::identity()] and [m(i, j) = x]. *)
Definition mat4_identity : res matrix := Matrix.identity 4 4.
Definition set4 (i j : nat) (x : T) (m : matrix) : res matrix := Matrix.put 4 m i j x.

Definition ntwo : T := (1 + 1)%num.

Definition translate (position : vec3) : res matrix :=
  m ← mat4_identity;
  x ← Vector.get 3 position 0; m ← set4 0 3 x m;
  y ← Vector.get 3 position 1; m ← set4 1 3 y m;
  z ← Vector.get 3 position 2; set4 2 3 z m.

Definition rotate_x (angle : T) : res matrix :=
  m ← mat4_identity;
  m ← set4 1 1 (ncos angle) m;
  m ← set4 1 2 (- nsin angle)%num m;
  m ← set4 2 1 (nsin angle) m;
  set4 2 2 (ncos angle) m.

Definition rotate_y (angle : T) : res matrix :=
  m ← mat4_identity;
  m ← set4 0 0 (ncos angle) m;
  m ← set4 0 2 (nsin angle) m;
  m ← set4 2 0 (- nsin angle)%num m;
  set4 2 2 (ncos angle) m.

Definition rotate_z (angle : T) : res matrix :=
  m ← mat4_identity;
  m ← set4 0 0 (ncos angle) m;
  m ← set4 0 1 (- nsin angle)%num m;
  m ← set4 1 0 (nsin angle) m;
  set4 1 1 (ncos angle) m.

Definition rotate (rotation : vec3) : res matrix :=
  rx ← Vector.get 3 rotation 0; x ← rotate_x rx;
  ry ← Vector.get 3 rotation 1; y ← rotate_y ry;
  rz ← Vector.get 3 rotation 2; z ← rotate_z rz;
  zy ← Matrix.mul 4 4 z y;
  Matrix.mul 4 4 zy x.

Definition scale (s : vec3) : res matrix :=
  m ← mat4_identity;
  for_range 3 (λ i m, x ← Vector.get 3 s i; set4 i i x m) m.

Definition model (position rotation s : vec3) : res matrix :=
  t ← translate position;
  r ← rotate rotation;
  tr ← Matrix.mul 4 4 t r;
  s ← scale s;
  Matrix.mul 4 4 tr s.

Definition view (position rotation : vec3) : res matrix :=
  t ← translate position;
  r ← rotate rotation;
  tr ← Matrix.mul 4 4 t r;
  Matrix.inverse 4 4 tr.

Definition perspective (fov aspect_ratio near far : T) : res matrix :=
  let thf := ntan (fov / ntwo)%num in
  m ← mat4_identity;
  m ← set4 0 0 (1 / (aspect_ratio * thf))%num m;
  m ← set4 1 1 (1 / thf)%num m;
  m ← set4 2 2 ((far + near) / (near - far))%num m;
  m ← set4 3 2 (- none)%num m;
  m ← set4 2 3 ((ntwo * far * near) / (near - far))%num m;
  set4 3 3 nzero m.

(** [orthographic]: [bottom_row] is a reference to [m[2]]. *)
Definition orthographic (left right top bottom near far : T) : res matrix :=
  m ← mat4_identity;
  m ← set4 0 0 (ntwo / (right - left))%num m;
  m ← set4 1 1 (ntwo / (top - bottom))%num m;
  m ← set4 2 2 ((- ntwo) / (far - near))%num m;
  bottom_row ← Matrix.index 4 m 2;
  bottom_row ← set_index bottom_row 0 ((- (right + left)) / (right - left))%num;
  bottom_row ← set_index bottom_row 1 ((- (top + bottom)) / (top - bottom))%num;
  bottom_row ← set_index bottom_row 2 ((- (far + near)) / (far - near))%num;
  set_index m 2 bottom_row.

End Transform.

(** ** The matrices, row by row *)

Section Values.
Context `{BC : BuildConfig} {T : Type} `{NT : Number T} `{TR : Trigonometry T}.

(** A matrix written in rows, as the documentation shows it. *)
Definition rows (l : list (list T)) : list (list T) :=
  Matrix.mat_of 4 4 (λ i j, nth j (nth i l []) nzero).

Ltac eval_build := unfold translate, rotate_x, rotate_y, rotate_z, scale, perspective, orthographic,
  mat4_identity, set4; destruct BC as [[|]]; reflexivity.

Lemma translate_rows x y z : translate [x; y; z] =
  Ok (rows [[1; 0; 0; x]; [0; 1; 0; y]; [0; 0; 1; z]; [0; 0; 0; 1]]%num).
Proof. eval_build. Qed.

Lemma rotate_x_rows a : rotate_x a =
  Ok (rows [[1; 0; 0; 0]; [0; ncos a; - nsin a; 0]; [0; nsin a; ncos a; 0]; [0; 0; 0; 1]]%num).
Proof. eval_build. Qed.

Lemma rotate_y_rows a : rotate_y a =
  Ok (rows [[ncos a; 0; nsin a; 0]; [0; 1; 0; 0]; [- nsin a; 0; ncos a; 0]; [0; 0; 0; 1]]%num).
Proof. eval_build. Qed.

Lemma rotate_z_rows a : rotate_z a =
  Ok (rows [[ncos a; - nsin a; 0; 0]; [nsin a; ncos a; 0; 0]; [0; 0; 1; 0]; [0; 0; 0; 1]]%num).
Proof. eval_build. Qed.

Lemma scale_rows x y z : scale [x; y; z] =
  Ok (rows [[x; 0; 0; 0]; [0; y; 0; 0]; [0; 0; z; 0]; [0; 0; 0; 1]]%num).
Proof. eval_build. Qed.

Lemma perspective_rows fov ar n f : perspective fov ar n f =
  Ok (rows [[1 / (ar * ntan (fov / ntwo)); 0; 0; 0]; [0; 1 / ntan (fov / ntwo); 0; 0];
            [0; 0; (f + n) / (n - f); (ntwo * f * n) / (n - f)]; [0; 0; - (1); 0]]%num).
Proof. eval_build. Qed.

Lemma wf_rows l : Matrix.wf 4 4 (rows l).
Proof. apply Matrix.wf_mat_of. Qed.

(** [orthographic] writes the offsets that belong into the last column into
    column 2, where they also replace the depth scale [-2 / (far - near)]: the
    matrix has no translation and scales depth by [-(far+near) / (far-near)]. *)
Theorem orthographic_rows l r t b n f : orthographic l r t b n f =
  Ok (rows [[ntwo / (r - l); 0; (- (r + l)) / (r - l); 0];
            [0; ntwo / (t - b); (- (t + b)) / (t - b); 0];
            [0; 0; (- (f + n)) / (f - n); 0]; [0; 0; 0; 1]]%num).
Proof. eval_build. Qed.

End Values.

(** ** Exact arithmetic *)

Section Exact.
Context `{BC : BuildConfig} {T : Type} `{NT : Number T} `{EN : !ExactNumber T} `{TR : Trigonometry T}.

(** The only fact about the trigonometric functions that is used. *)
Class Pythagorean : Prop :=
  sin2_cos2 : ∀ a : T, (nsin a * nsin a + ncos a * ncos a = 1)%num.

Add Field transform_field : (exact_field (T:=T)).

(** A point [(x, y, z, w)] transformed by a matrix: the mathematical product
    of the matrix and the column vector. *)
Definition apply4 (m : list (list T)) (v : list T) : list T :=
  map (λ i, Matrix.msum 4 (λ k, nmul (Matrix.entry m i k) (nth k v nzero))) (seq 0 4).

(** The matrix of a camera: rotation about the axes, then translation. *)
Definition camera (p r : list T) : res (list (list T)) :=
  t ← translate p; r ← rotate r; Matrix.mul 4 4 t r.

Lemma rotate_rows a b c : rotate [a; b; c] =
  Ok (Matrix.product 4 (Matrix.product 4
    (rows [[ncos c; - nsin c; 0; 0]; [nsin c; ncos c; 0; 0]; [0; 0; 1; 0]; [0; 0; 0; 1]]%num)
    (rows [[ncos b; 0; nsin b; 0]; [0; 1; 0; 0]; [- nsin b; 0; ncos b; 0]; [0; 0; 0; 1]]%num))
    (rows [[1; 0; 0; 0]; [0; ncos a; - nsin a; 0]; [0; nsin a; ncos a; 0]; [0; 0; 0; 1]]%num)).
Proof.
  unfold rotate.
  rewrite !(Vector.get_lt 3 [a; b; c] 0 a), !(Vector.get_lt 3 [a; b; c] 1 b),
    !(Vector.get_lt 3 [a; b; c] 2 c) by done. cbn [mbind res_bind].
  rewrite rotate_x_rows. cbn [mbind res_bind]. rewrite rotate_y_rows. cbn [mbind res_bind].
  rewrite rotate_z_rows. cbn [mbind res_bind].
  rewrite Matrix.mul_product by apply wf_rows. cbn [mbind res_bind].
  by rewrite Matrix.mul_product by apply Matrix.wf_mat_of.
Qed.

Lemma rotate_wf a b c : ∃ r, rotate [a; b; c] = Ok r ∧ Matrix.wf 4 4 r.
Proof. eexists. split; [apply rotate_rows|]. apply Matrix.wf_mat_of. Qed.

Lemma camera_spec x y z a b c : ∃ m,
  camera [x; y; z] [a; b; c] = Ok m ∧ Matrix.wf 4 4 m ∧
  Matrix.det4 m = ((nsin a * nsin a + ncos a * ncos a) * (nsin b * nsin b + ncos b * ncos b)
                   * (nsin c * nsin c + ncos c * ncos c))%num.
Proof.
  unfold camera. rewrite translate_rows, rotate_rows. cbn [mbind res_bind].
  rewrite Matrix.mul_product by apply Matrix.wf_mat_of.
  eexists. split; [done|]. split; [apply Matrix.wf_mat_of|].
  cbv -[nadd nsub nmul nopp nzero none nsin ncos]. ring.
Qed.

Context {PY : Pythagorean}.

(** C15: over exact arithmetic, a field in which the sine and cosine of an angle
    have squares that add up to 1, [view] returns a matrix for every position and
    rotation (the determinant assertion never fires), and it is the two-sided
    inverse of the camera's own transformation [translate(position) *
    rotate(rotation)].  The reals with their sine and cosine are such a field;
    the float of the engine is not one and only approximates it, so for floats
    nothing exact is claimed. *)
Theorem view_inverts_camera x y z a b c :
  ∃ m v, camera [x; y; z] [a; b; c] = Ok m ∧ view [x; y; z] [a; b; c] = Ok v ∧
    Matrix.mul 4 4 v m = mat4_identity ∧ Matrix.mul 4 4 m v = mat4_identity.
Proof.
  destruct (camera_spec x y z a b c) as (m & E & Hw & Hd).
  destruct (Matrix.inverse_spec m Hw) as (v & Ev & _ & H1 & H2).
  { rewrite Hd, !(sin2_cos2 (Pythagorean:=PY)).
    replace (1 * 1 * 1)%num with (none (T:=T)) by ring. apply (F_1_neq_0 exact_field). }
  exists m, v. split; [done|]. unfold view. unfold camera in E.
  destruct (translate [x; y; z]) as [t|]; [|done]. cbn [mbind res_bind] in *.
  destruct (rotate [a; b; c]) as [r|]; [|done]. cbn [mbind res_bind] in *.
  rewrite E. cbn [mbind res_bind]. done.
Qed.

(** C32: over exact arithmetic, a field, and for a near plane that differs from
    the far plane, [perspective] maps the near plane to depth [-w] and the far
    plane to depth [w], with [w] the distance from the eye.  The float of the
    engine rounds and meets this only approximately. *)
Theorem perspective_depth_range fov ar n f x y :
  (n - f ≠ 0)%num →
  ∃ m, perspective fov ar n f = Ok m ∧
    nth 2 (apply4 m [x; y; (- n); 1]%num) nzero = (- n)%num ∧
    nth 3 (apply4 m [x; y; (- n); 1]%num) nzero = n ∧
    nth 2 (apply4 m [x; y; (- f); 1]%num) nzero = f ∧
    nth 3 (apply4 m [x; y; (- f); 1]%num) nzero = f.
Proof.
  intros Hnf. rewrite perspective_rows. eexists. split; [done|].
  cbv -[nadd nsub nmul nopp nzero none ndiv ntan]. split_and!; field; done.
Qed.

(** A point scaled along the axes, turned about an axis, and moved. *)
Definition stretched (s p : T * T * T) : T * T * T :=
  let '(sx, sy, sz) := s in let '(x, y, z) := p in (sx * x, sy * y, sz * z)%num.
Definition turned_x (a : T) (p : T * T * T) : T * T * T :=
  let '(x, y, z) := p in (x, ncos a * y - nsin a * z, nsin a * y + ncos a * z)%num.
Definition turned_y (a : T) (p : T * T * T) : T * T * T :=
  let '(x, y, z) := p in (ncos a * x + nsin a * z, y, ncos a * z - nsin a * x)%num.
Definition turned_z (a : T) (p : T * T * T) : T * T * T :=
  let '(x, y, z) := p in (ncos a * x - nsin a * y, nsin a * x + ncos a * y, z)%num.
Definition moved (t p : T * T * T) : T * T * T :=
  let '(tx, ty, tz) := t in let '(x, y, z) := p in (x + tx, y + ty, z + tz)%num.

Ltac by_coordinates := repeat (apply (f_equal2 cons); [ring|]); reflexivity.

Definition point (p : T * T * T) : list T := let '(x, y, z) := p in [x; y; z; 1%num].

Lemma translate_point x y z t p : translate [x; y; z] = Ok t → apply4 t (point p) = point (moved (x, y, z) p).
Proof.
  rewrite translate_rows. intros [= <-]. destruct p as [[px py] pz].
  cbv -[nadd nsub nmul nopp nzero none]. by_coordinates.
Qed.

Lemma scale_point x y z t p : scale [x; y; z] = Ok t → apply4 t (point p) = point (stretched (x, y, z) p).
Proof.
  rewrite scale_rows. intros [= <-]. destruct p as [[px py] pz].
  cbv -[nadd nsub nmul nopp nzero none]. by_coordinates.
Qed.

Lemma rotate_point a b c r p : rotate [a; b; c] = Ok r →
  apply4 r (point p) = point (turned_z c (turned_y b (turned_x a p))).
Proof.
  rewrite rotate_rows. intros [= <-]. destruct p as [[px py] pz].
  cbv -[nadd nsub nmul nopp nzero none nsin ncos]. by_coordinates.
Qed.

Lemma model_composition x y z a b c sx sy sz :
  ∃ t r s m, translate [x; y; z] = Ok t ∧ rotate [a; b; c] = Ok r ∧ scale [sx; sy; sz] = Ok s ∧
    model [x; y; z] [a; b; c] [sx; sy; sz] = Ok m ∧
    ∀ v, apply4 m v = apply4 t (apply4 r (apply4 s v)).
Proof.
  destruct (rotate_wf a b c) as (r & Er & Hr).
  unfold model. rewrite translate_rows, Er, scale_rows. cbn [mbind res_bind].
  rewrite Matrix.mul_product by (done || apply wf_rows). cbn [mbind res_bind].
  rewrite Matrix.mul_product by (apply Matrix.wf_mat_of || apply wf_rows).
  do 4 eexists. do 4 (split; [done|]). intros v.
  unfold apply4. apply map_ext_in. intros i [_ Hi]%in_seq.
  unfold Matrix.msum. cbn [seq foldl map nth]. unfold Matrix.product.
  rewrite !Matrix.entry_mat_of by lia. unfold Matrix.msum. cbn [seq foldl].
  rewrite !Matrix.entry_mat_of by lia. unfold Matrix.msum. cbn [seq foldl]. ring.
Qed.

(** C31: over exact arithmetic, a field (the float of the engine rounds), [model]
    returns a matrix for all arguments that is the composition of the three
    maps, and what it does to a point is: each coordinate is scaled by its own
    factor, the point is turned about the x, then the y, then the z axis, and it
    is moved by the position. *)
Theorem model_composes x y z a b c sx sy sz :
  ∃ t r s m, translate [x; y; z] = Ok t ∧ rotate [a; b; c] = Ok r ∧ scale [sx; sy; sz] = Ok s ∧
    model [x; y; z] [a; b; c] [sx; sy; sz] = Ok m ∧
    (∀ v, apply4 m v = apply4 t (apply4 r (apply4 s v))) ∧
    ∀ p, apply4 m (point p) =
      point (moved (x, y, z) (turned_z c (turned_y b (turned_x a (stretched (sx, sy, sz) p))))).
Proof.
  destruct (model_composition x y z a b c sx sy sz) as (t & r & s & m & Et & Er & Es & Em & H).
  exists t, r, s, m. do 5 (split; [done|]). intros p.
  by rewrite H, (scale_point _ _ _ _ _ Es), (rotate_point _ _ _ _ _ Er), (translate_point _ _ _ _ _ Et).
Qed.

End Exact.

(** The sine, cosine and tangent of analysis. *)
#[export] Instance R_trig : Trigonometry R := {| nsin := sin; ncos := cos; ntan := tan |}.

#[export] Instance R_pythagorean : Pythagorean (T:=R).
Proof. intros a. exact (Rtrigo1.sin2_cos2 a). Qed.

Lemma view_inverts_camera_witness :
  ∃ m v, camera (BC:=debug_build) [1; 2; 3]%R [PI; 1; 2]%R = Ok m ∧
    view (BC:=debug_build) [1; 2; 3]%R [PI; 1; 2]%R = Ok v ∧
    Matrix.mul (BC:=debug_build) 4 4 v m = mat4_identity (BC:=debug_build) ∧
    Matrix.mul (BC:=debug_build) 4 4 m v = mat4_identity (BC:=debug_build).
Proof. exact (view_inverts_camera (BC:=debug_build) (T:=R) 1%R 2%R 3%R PI 1%R 2%R). Defined.

(** A rational rotation for the concrete inputs: sine 3/5 and cosine 4/5. *)
Definition Qc_trig : Trigonometry Qc := {|
  nsin := λ _, (Matrix.q 3 / Matrix.q 5)%Qc; ncos := λ _, (Matrix.q 4 / Matrix.q 5)%Qc;
  ntan := λ _, (Matrix.q 3 / Matrix.q 4)%Qc |}.

Lemma perspective_depth_range_witness :
  ∃ m, perspective (BC:=debug_build) (TR:=Qc_trig) (Matrix.q 1) (Matrix.q 1) (Matrix.q 1) (Matrix.q 9) = Ok m ∧
    nth 2 (apply4 m [Matrix.q 0; Matrix.q 0; - Matrix.q 1; 1]%num) nzero = (- Matrix.q 1)%num.
Proof.
  destruct (perspective_depth_range (BC:=debug_build) (TR:=Qc_trig) (Matrix.q 1) (Matrix.q 1)
              (Matrix.q 1) (Matrix.q 9) (Matrix.q 0) (Matrix.q 0)) as (m & E & H & _).
  - intros H%(f_equal (λ x, neqb x (Matrix.q 0))). revert H. vm_compute. discriminate.
  - exists m. split; [exact E|exact H].
Defined.

(** Points, scaled by 2, 1 and 3 and moved. *)
Lemma model_composes_witness :
  ∃ m, model (BC:=debug_build) (TR:=Qc_trig) [Matrix.q 1; Matrix.q 2; Matrix.q 3]
         [Matrix.q 1; Matrix.q 1; Matrix.q 1] [Matrix.q 2; Matrix.q 1; Matrix.q 3] = Ok m ∧
    ∀ p, apply4 m (point p) = point (moved (Matrix.q 1, Matrix.q 2, Matrix.q 3)
      (turned_z (TR:=Qc_trig) (Matrix.q 1) (turned_y (TR:=Qc_trig) (Matrix.q 1) (turned_x (TR:=Qc_trig) (Matrix.q 1)
        (stretched (Matrix.q 2, Matrix.q 1, Matrix.q 3) p))))).
Proof.
  destruct (model_composes (BC:=debug_build) (TR:=Qc_trig) (Matrix.q 1) (Matrix.q 2) (Matrix.q 3)
    (Matrix.q 1) (Matrix.q 1) (Matrix.q 1) (Matrix.q 2) (Matrix.q 1) (Matrix.q 3))
    as (t & r & s & m & _ & _ & _ & E & _ & H).
  exists m. exact (conj E H).
Defined.

End Transform.
