(* ===== verification/Binary32.v ===== *)
(** * float

    The element type of the vectors and matrices of the engine: IEEE 754
    binary32, on the Standard Library's specification of floating-point
    arithmetic with 24 bits of precision.  It is an instance of [Number], so
    every operation of VectorMath, MatrixMath and MatrixTransform runs on it;
    what exact arithmetic promises holds for it only where no rounding occurs. *)

From Stdlib Require Import SpecFloat.
From S2P Require Import Prelude VectorMath MatrixMath MatrixTransform.

Definition prec : Z := 24.
Definition emax : Z := 128.

Abbreviation float := spec_float.

(** 1.0f: the mantissa has 24 bits. *)
Definition float_one : float := S754_finite false 8388608 (-23).

#[export] Instance float_number : Number float := {|
  nzero := S754_zero false; none := float_one;
  nadd := SFadd prec emax; nsub := SFsub prec emax; nmul := SFmul prec emax; ndiv := SFdiv prec emax;
  nopp := SFopp; neqb := SFeqb; ngeb := λ x y, SFleb y x |}.

(** [FLT_EPSILON] is the distance of 1 to the next number. *)
#[export] Instance float_functions : RealFunctions float := {|
  nabs := SFabs; nsqrt := SFsqrt prec emax; nepsilon := S754_finite false 8388608 (-46) |}.

(** The value of an integer, and of the literal [n / d], rounded once. *)
Definition float_of_Z (z : Z) : float := binary_normalize prec emax z 0 false.
Definition literal (n : Z) (d : positive) : float :=
  match n with
  | Z0 => S754_zero false
  | Zpos p => SFdiv prec emax (S754_finite false p 0) (S754_finite false d 0)
  | Zneg p => SFdiv prec emax (S754_finite true p 0) (S754_finite false d 0)
  end.

(** The bits of a number, sign first, and the number of a bit pattern. *)
Definition to_bits (x : float) : Z :=
  let sign (s : bool) : Z := (if s then 2147483648 else 0)%Z in
  match x with
  | S754_zero s => sign s
  | S754_infinity s => (sign s + 2139095040)%Z
  | S754_nan => 2143289344%Z
  | S754_finite s m e =>
      if (Zpos m <? 8388608)%Z then (sign s + Zpos m)%Z
      else (sign s + (e + 150) * 8388608 + (Zpos m - 8388608))%Z
  end.

Definition of_bits (z : Z) : float :=
  let s := (2147483648 <=? z)%Z in
  let exponent := ((z / 8388608) mod 256)%Z in
  let fraction := (z mod 8388608)%Z in
  if (exponent =? 255)%Z then (if (fraction =? 0)%Z then S754_infinity s else S754_nan)
  else if (exponent =? 0)%Z then
    match fraction with Zpos m => S754_finite s m (-149) | _ => S754_zero s end
  else match (fraction + 8388608)%Z with Zpos m => S754_finite s m (exponent - 150) | _ => S754_nan end.

(** The patterns the rest of the development copies are those of numbers: only a
    NaN does not keep its bits. *)
Lemma to_bits_of_bits z : (0 ≤ z < modulus32)%Z → of_bits z ≠ S754_nan → to_bits (of_bits z) = z.
Proof.
  unfold of_bits, modulus32. intros Hz. pose proof (Z.mod_pos_bound z 8388608 eq_refl) as Hf.
  pose proof (Z.mod_pos_bound (z / 8388608) 256 eq_refl) as He.
  assert (z = (if 2147483648 <=? z then 2147483648 else 0) + ((z / 8388608) mod 256) * 8388608 + z mod 8388608)%Z as Hsum.
  { destruct (Z.leb_spec 2147483648 z); Z.to_euclidean_division_equations; lia. }
  revert Hf He Hsum. generalize ((z / 8388608) mod 256)%Z (z mod 8388608)%Z (2147483648 <=? z)%Z. intros e f s Hf He Hsum.
  destruct (Z.eqb_spec e 255) as [->|He1]; [destruct (Z.eqb_spec f 0); intros Hn; [|done]; cbn [to_bits]; lia|].
  destruct (Z.eqb_spec e 0) as [->|He0]; intros _.
  - destruct f as [|m|m]; cbn [to_bits]; [lia| |lia]. rewrite (proj2 (Z.ltb_lt _ _)) by lia. lia.
  - destruct (f + 8388608)%Z as [|m|m] eqn:Em; [lia| |lia]. cbn [to_bits].
    rewrite (proj2 (Z.ltb_ge _ _)) by lia. lia.
Qed.

(** ** Arithmetic without rounding *)

(** A number that takes part in exact arithmetic: in the format, not infinite,
    not NaN, and not the negative zero. *)
Definition ordinary (x : float) : Prop :=
  match x with
  | S754_zero s => s = false
  | S754_finite _ m e => bounded prec emax m e = true
  | _ => False
  end.

Definition is_zero (x : float) : Prop := ∃ s, x = S754_zero s.

(** Powers of two in a product are shifted out again: 1 is neutral. *)
Lemma fexp_canonical m e : bounded prec emax m e = true →
  fexp prec emax (Zpos (digits2_pos m) + e) = e ∧ (e <=? emax - prec)%Z = true.
Proof. intros [H1%Z.eqb_eq H2]%andb_prop. done. Qed.

Lemma digits_shift n m : Zdigits2 (Zpos (Nat.iter n xO m)) = (Zpos (digits2_pos m) + Z.of_nat n)%Z.
Proof.
  induction n as [|n IH]; [cbn; lia|]. change (Nat.iter (S n) xO m) with (xO (Nat.iter n xO m)).
  unfold Zdigits2 in *. cbn [digits2_pos]. lia.
Qed.

Lemma round_shifted s m e : bounded prec emax m e = true →
  binary_round_aux prec emax s (Zpos (8388608 * m)) (e + -23) loc_Exact = S754_finite s m e.
Proof.
  intros [Hf He]%fexp_canonical. unfold binary_round_aux, shr_fexp.
  assert ((Zdigits2 (Zpos (8388608 * m)) + (e + -23) = Zpos (digits2_pos m) + e)%Z) as ->.
  { change (8388608 * m)%positive with (Nat.iter 23 xO m). rewrite digits_shift. lia. }
  rewrite Hf. replace (e - (e + -23))%Z with 23%Z by lia. cbn [shr].
  assert (SpecFloat.iter_pos shr_1 23 (shr_record_of_loc (Zpos (8388608 * m)) loc_Exact)
          = {| shr_m := Zpos m; shr_r := false; shr_s := false |}) as -> by reflexivity.
  replace (e + -23 + 23)%Z with e by lia.
  cbn [shr_m loc_of_shr_record round_nearest_even Zdigits2 shr_r shr_s]. rewrite Hf, Z.sub_diag.
  cbn [shr shr_m shr_record_of_loc]. by rewrite He.
Qed.

Lemma mul_one x : ordinary x → (x * 1)%num = x ∧ (1 * x)%num = x.
Proof.
  destruct x as [s| | |s m e]; cbn [ordinary nmul none float_number]; try done.
  - by intros ->.
  - intros Hb. unfold float_one, SFmul. rewrite xorb_false_r, xorb_false_l. split.
    + rewrite Pos.mul_comm. by apply round_shifted.
    + rewrite (Z.add_comm (-23) e). by apply round_shifted.
Qed.

Lemma mul_zero x : ordinary x → is_zero (x * 0)%num ∧ is_zero (0 * x)%num.
Proof. destruct x as [s| | |s m e]; cbn; try done; intros _; split; by eexists. Qed.

Lemma add_zero x z : ordinary x → is_zero z → (x + z)%num = x.
Proof. intros Hx [t ->]. destruct x as [s| | |s m e]; try done. cbn in Hx. subst s. by destruct t. Qed.

Lemma zero_add x : ordinary x → (0 + x)%num = x.
Proof. destruct x as [s| | |s m e]; try done. by intros ->. Qed.

(** A sum with one term that is not zero. *)
Lemma msum_single n (f : nat → float) i x : i < n → ordinary x → f i = x → (∀ k, k < n → k ≠ i → is_zero (f k)) →
  Matrix.msum n f = x.
Proof.
  intros Hi Hx Hfi Hz. unfold Matrix.msum.
  cut (∀ k, k ≤ n → foldl (λ acc k, nadd acc (f k)) nzero (seq 0 k) = if decide (i < k) then x else nzero).
  { intros H. rewrite H by done. by rewrite decide_True. }
  induction k as [|k IH]; intros Hk; [done|]. rewrite seq_S, foldl_app, IH by lia. cbn [foldl Nat.add].
  destruct (decide (k = i)) as [->|Hne].
  - rewrite decide_False by lia. rewrite decide_True by lia. rewrite Hfi. by apply zero_add.
  - rewrite (decide_ext (i < S k) (i < k)) by lia. case_decide; apply add_zero; try done; apply Hz; lia.
Qed.

Section Matrices.
Context `{BC : BuildConfig}.

(** C33: over binary32 the identity matrix is neutral for operator* on both sides,
    bit for bit, whenever no element is an infinity, NaN or the negative zero;
    with one of the first two, multiplying by the zeros of the identity makes
    NaN. *)
Theorem float_identity_neutral n (m : list (list float)) :
  Matrix.wf n n m → (∀ i j, i < n → j < n → ordinary (Matrix.entry m i j)) →
  ∃ id, Matrix.identity n n = Ok id ∧ Matrix.mul n n id m = Ok m ∧ Matrix.mul n n m id = Ok m.
Proof.
  intros Hm Ho. eexists. split; [by apply Matrix.identity_spec|]. pose proof (Matrix.wf_mat_of (T := float) n n) as Hw.
  rewrite !Matrix.mul_product by done.
  split; f_equal; (apply (Matrix.matrix_ext n n); [apply Hw|done|]); intros i j Hi Hj; unfold Matrix.product;
    rewrite Matrix.entry_mat_of by done.
  - apply (msum_single _ _ i); try done; [by apply Ho| |].
    + rewrite Matrix.entry_mat_of by done. rewrite Nat.eqb_refl. by apply mul_one, Ho.
    + intros k Hk Hne. rewrite Matrix.entry_mat_of by done. rewrite (proj2 (Nat.eqb_neq i k)) by lia. by apply mul_zero, Ho.
  - apply (msum_single _ _ j); try done; [by apply Ho| |].
    + rewrite Matrix.entry_mat_of by done. rewrite Nat.eqb_refl. by apply mul_one, Ho.
    + intros k Hk Hne. rewrite Matrix.entry_mat_of by done. rewrite (proj2 (Nat.eqb_neq k j)) by lia. by apply mul_zero, Ho.
Qed.

End Matrices.

(** A matrix of numbers that are not exact in binary. *)
Definition tenths : list (list float) :=
  map (map (λ n, literal n 10)) [[1; 2; 3; 4]; [5; 6; 7; 8]; [-1; -2; -3; -4]; [-5; -6; -7; 0]]%Z.

Lemma float_identity_neutral_witness :
  ∃ id, Matrix.identity (BC := debug_build) 4 4 = Ok id ∧
        Matrix.mul (BC := debug_build) 4 4 id tenths = Ok tenths ∧ Matrix.mul (BC := debug_build) 4 4 tenths id = Ok tenths.
Proof.
  apply (float_identity_neutral (BC := debug_build)).
  - split; [reflexivity|repeat constructor].
  - intros i j Hi Hj. do 4 (destruct i as [|i]; [do 4 (destruct j as [|j]; [vm_compute; reflexivity|]); lia|]). lia.
Defined.

(** With an infinity the identity is not neutral: its zeros make NaN. *)
Example infinite_element : let m := [[S754_infinity false; 0]; [0; 1]]%num in
  Matrix.mul (BC := debug_build) 2 2 [[1; 0]; [0; 1]]%num m = Ok [[S754_infinity false; S754_nan]; [0; 1]]%num.
Proof. vm_compute. reflexivity. Qed.

(** The vector equality answers true for a NaN, as no comparison with one holds. *)
Example nan_equals_one : Vector.eqb (BC := debug_build) 1 [S754_nan] [1%num] = Ok true.
Proof. reflexivity. Qed.
