(* ===== verification/Memory.v ===== *)
(** * Memory and stateful computations

    Memory shared between the engine and a graphics driver: a heap of blocks
    of bytes, pointers into it, [memcpy], and the byte representation of
    [unsigned int].  [ST W] is the monad of computations that read and write a
    state [W] and may fault. *)

From S2P Require Import Prelude.

(** ** State and faults *)

Definition ST (W A : Type) : Type := W → res (A * W).

#[export] Instance ST_ret W : MRet (ST W) := λ A a w, Ok (a, w).
#[export] Instance ST_bind W : MBind (ST W) := λ A B f m w,
  match m w with Ok (a, w') => f a w' | Fault e => Fault e end.

Definition lift {W A} (m : res A) : ST W A := λ w,
  match m with Ok a => Ok (a, w) | Fault e => Fault e end.
Definition gets {W A} (f : W → A) : ST W A := λ w, Ok (f w, w).
Definition modify {W} (f : W → W) : ST W unit := λ w, Ok (tt, f w).
Definition state {W A} (f : W → A * W) : ST W A := λ w, Ok (f w).

Fixpoint st_each {W A} (f : A → ST W unit) (l : list A) : ST W unit :=
  match l with
  | [] => mret tt
  | x :: l' => _ ← f x; st_each f l'
  end.

Fixpoint st_fold {W A S} (f : A → S → ST W S) (l : list A) (s : S) : ST W S :=
  match l with
  | [] => mret s
  | x :: l' => s' ← f x s; st_fold f l' s'
  end.

Lemma st_bind_Ok {W A B} (m : ST W A) (f : A → ST W B) w a w' :
  m w = Ok (a, w') → (m ≫= f) w = f a w'.
Proof. intros H. unfold mbind, ST_bind. by rewrite H. Qed.

Lemma lift_bind {W A B} (a : A) (f : A → ST W B) w : (lift (Ok a) ≫= f) w = f a w.
Proof. reflexivity. Qed.

Lemma st_bind_inv {W A B} (m : ST W A) (f : A → ST W B) w r :
  (m ≫= f) w = Ok r → ∃ a w', m w = Ok (a, w') ∧ f a w' = Ok r.
Proof. unfold mbind, ST_bind. destruct (m w) as [[a w']|]; [eauto|done]. Qed.

Lemma lift_inv {W A} (m : res A) (w w' : W) a : lift m w = Ok (a, w') → m = Ok a ∧ w' = w.
Proof. unfold lift. destruct m; [|done]. by intros [= -> ->]. Qed.

(** Invariant rule for loops over a list in [ST]. *)
Lemma st_fold_ind {W A S} (P : list A → S → W → Prop) (f : A → S → ST W S) l s w :
  P [] s w →
  (∀ done_ x rest s w, l = done_ ++ x :: rest → P done_ s w →
     ∃ s' w', f x s w = Ok (s', w') ∧ P (done_ ++ [x]) s' w') →
  ∃ s' w', st_fold f l s w = Ok (s', w') ∧ P l s' w'.
Proof.
  intros H0 Hstep.
  cut (∀ rest done_ s w, l = done_ ++ rest → P done_ s w →
         ∃ s' w', st_fold f rest s w = Ok (s', w') ∧ P l s' w').
  { intros H. by apply (H l [] s w). }
  induction rest as [|x rest IH]; intros done_ s1 w1 Hl HP; simpl.
  - rewrite app_nil_r in Hl. subst. eauto.
  - destruct (Hstep done_ x rest s1 w1) as (s2 & w2 & E & P2); [done|done|].
    erewrite st_bind_Ok by exact E. apply (IH (done_ ++ [x])); [|done].
    by rewrite <- app_assoc.
Qed.

Lemma st_fold_app {W A S} (f : A → S → ST W S) l1 l2 s w s1 w1 :
  st_fold f l1 s w = Ok (s1, w1) → st_fold f (l1 ++ l2) s w = st_fold f l2 s1 w1.
Proof.
  revert s w. induction l1 as [|x l1 IH]; intros s w; simpl.
  - unfold mret, ST_ret. by intros [= -> ->].
  - unfold mbind, ST_bind. destruct (f x s w) as [[s' w']|]; [apply IH|done].
Qed.

Lemma st_each_app {W A} (f : A → ST W unit) l1 l2 w w1 :
  st_each f l1 w = Ok (tt, w1) → st_each f (l1 ++ l2) w = st_each f l2 w1.
Proof.
  revert w. induction l1 as [|x l1 IH]; intros w; simpl.
  - unfold mret, ST_ret. by intros [= ->].
  - unfold mbind, ST_bind. destruct (f x w) as [[[] w']|]; [apply IH|done].
Qed.

(** The same rule for a loop that is known to finish. *)
Lemma st_fold_Ok_ind {W A S} (P : list A → S → W → Prop) (f : A → S → ST W S) l s w s' w' :
  P [] s w →
  (∀ done_ x s w s' w', P done_ s w → f x s w = Ok (s', w') → P (done_ ++ [x]) s' w') →
  st_fold f l s w = Ok (s', w') → P l s' w'.
Proof.
  intros H0 Hstep.
  cut (∀ rest done_ s w, P done_ s w → st_fold f rest s w = Ok (s', w') → P (done_ ++ rest) s' w').
  { intros H. by apply (H l [] s w). }
  induction rest as [|x rest IH]; intros done_ s1 w1 HP; simpl.
  - intros [= -> ->]. by rewrite app_nil_r.
  - intros (s2 & w2 & E & E')%st_bind_inv. rewrite cons_middle, app_assoc. eapply IH; eauto.
Qed.

Lemma st_each_ind {W A} (P : list A → W → Prop) (f : A → ST W unit) l w :
  P [] w →
  (∀ done_ x rest w, l = done_ ++ x :: rest → P done_ w → ∃ w', f x w = Ok (tt, w') ∧ P (done_ ++ [x]) w') →
  ∃ w', st_each f l w = Ok (tt, w') ∧ P l w'.
Proof.
  intros H0 Hs. cut (∀ rest done_ w1, l = done_ ++ rest → P done_ w1 → ∃ w', st_each f rest w1 = Ok (tt, w') ∧ P l w').
  { intros H. by apply (H l []). }
  induction rest as [|x rest IH]; intros done_ w1 Hl HP; simpl.
  - rewrite app_nil_r in Hl. subst. by exists w1.
  - destruct (Hs _ _ _ _ Hl HP) as (w2 & E & H2). rewrite (st_bind_Ok _ _ _ _ _ E).
    apply (IH (done_ ++ [x])); [by rewrite <- app_assoc|done].
Qed.

Lemma st_each_Ok_ind {W A} (P : list A → W → Prop) (f : A → ST W unit) l w w' :
  st_each f l w = Ok (tt, w') → P [] w →
  (∀ done_ x w1 w2, P done_ w1 → f x w1 = Ok (tt, w2) → P (done_ ++ [x]) w2) → P l w'.
Proof.
  intros E H0 Hs. cut (∀ rest done_ w1, st_each f rest w1 = Ok (tt, w') → P done_ w1 → P (done_ ++ rest) w').
  { intros H. by apply (H l [] w). }
  induction rest as [|x rest IH]; intros done_ w1 E1 HP; simpl in E1.
  - injection E1 as <-. by rewrite app_nil_r.
  - apply st_bind_inv in E1 as ([] & w2 & Ef & E1). rewrite cons_middle, app_assoc. eapply IH; eauto.
Qed.

(** ** The heap *)

(** A byte is an integer; [std::byte] values are between 0 and 255. *)
Definition byte_ok (b : Z) : Prop := (0 ≤ b < 256)%Z.

Record ptr := mkPtr { block : nat; offset : nat }.

#[export] Instance ptr_eq_dec : EqDecision ptr.
Proof. solve_decision. Defined.

Abbreviation heap := (gmap nat (list Z)).

(** Pointer arithmetic on [std::byte*] and on [unsigned int*]. *)
Definition ptr_add (p : ptr) (n : nat) : ptr := mkPtr (block p) (offset p + n).
Definition ptr_add_u32 (p : ptr) (n : nat) : ptr := ptr_add p (4 * n).

Definition load (h : heap) (p : ptr) (n : nat) : res (list Z) :=
  match h !! block p with
  | Some bs => if offset p + n <=? length bs then Ok (slice (offset p) n bs) else Fault OutOfBounds
  | None => Fault OutOfBounds
  end.

(** Bytes [bs] written over a list at [start]. *)
Definition splice (start : nat) (bs l : list Z) : list Z :=
  take start l ++ bs ++ drop (start + length bs) l.

Definition store (h : heap) (p : ptr) (bs : list Z) : res heap :=
  match h !! block p with
  | Some l => if offset p + length bs <=? length l then Ok (<[block p := splice (offset p) bs l]> h)
              else Fault OutOfBounds
  | None => Fault OutOfBounds
  end.

(** The source of a copy: bytes of an object the program owns, or heap bytes. *)
Inductive span := Owned (bs : list Z) | At (p : ptr) (n : nat).

Definition span_read (h : heap) (s : span) : res (list Z) :=
  match s with Owned bs => Ok bs | At p n => load h p n end.

Definition overlap (p : ptr) (n : nat) (q : ptr) (m : nat) : bool :=
  bool_decide (block p = block q) && (offset p <? offset q + m) && (offset q <? offset p + n).

(** [std::memcpy(dst, src, n)]: overlapping objects are undefined behaviour. *)
Definition memcpy (h : heap) (dst : ptr) (src : span) : res heap :=
  bs ← span_read h src;
  if match src with At p n => overlap dst n p n | Owned _ => false end then Fault Overlap
  else store h dst bs.

(** ** [unsigned int] in memory: four bytes, least significant first *)

Local Open Scope Z_scope.

Definition le32 (z : Z) : list Z := 
  [z `mod` 256; (z `div` 256) `mod` 256; (z `div` 65536) `mod` 256; (z `div` 16777216) `mod` 256].

Definition of_le32 (bs : list Z) : Z :=
  match bs with
  | [a; b; c; d] => a + 256 * b + 65536 * c + 16777216 * d
  | _ => 0
  end.

Definition u32s_bytes (l : list Z) : list Z := concat (map le32 l).

Fixpoint bytes_u32s (n : nat) (bs : list Z) : list Z :=
  match n with
  | O => []
  | S n => of_le32 (take 4 bs) :: bytes_u32s n (drop 4 bs)
  end.

Local Close Scope Z_scope.

(** ** Facts *)

Lemma length_splice start bs l :
  start + length bs ≤ length l → length (splice start bs l) = length l.
Proof. intros H. unfold splice. rewrite !length_app, length_take, length_drop. lia. Qed.

Lemma slice_splice_same start bs l :
  start + length bs ≤ length l → slice start (length bs) (splice start bs l) = bs.
Proof.
  intros H. unfold slice, splice.
  rewrite drop_app_ge by (rewrite length_take; lia).
  rewrite length_take, Nat.min_l, Nat.sub_diag, drop_0 by lia. by rewrite take_app_length.
Qed.

Lemma lookup_splice start bs l i :
  start + length bs ≤ length l →
  splice start bs l !! i =
    if decide (start ≤ i ∧ i < start + length bs) then bs !! (i - start) else l !! i.
Proof.
  intros H. unfold splice. destruct (decide (i < start)) as [Hi|Hi].
  - rewrite lookup_app_l by (rewrite length_take; lia).
    rewrite lookup_take_lt by done. by rewrite decide_False by lia.
  - rewrite lookup_app_r by (rewrite length_take; lia).
    rewrite length_take, Nat.min_l by lia.
    destruct (decide (i < start + length bs)) as [Hj|Hj].
    + rewrite lookup_app_l by lia. by rewrite decide_True by lia.
    + rewrite lookup_app_r by lia. rewrite lookup_drop, decide_False by lia.
      f_equal. lia.
Qed.

Lemma slice_splice_other start bs l from n :
  start + length bs ≤ length l →
  from + n ≤ start ∨ start + length bs ≤ from →
  slice from n (splice start bs l) = slice from n l.
Proof.
  intros H Hd. apply list_eq. intros i. unfold slice.
  destruct (decide (i < n)) as [Hi|Hi].
  - rewrite !lookup_take_lt, !lookup_drop by done. rewrite lookup_splice by done.
    by rewrite decide_False by lia.
  - rewrite !lookup_take_ge by lia. done.
Qed.

Lemma load_Ok h p n bs : load h p n = Ok bs → length bs = n.
Proof.
  unfold load. destruct (h !! block p) as [l|]; [|done].
  destruct (Nat.leb_spec (offset p + n) (length l)); [|done].
  intros [= <-]. by apply length_slice.
Qed.

Lemma store_load h p bs h' : store h p bs = Ok h' → load h' p (length bs) = Ok bs.
Proof.
  unfold store, load. destruct (h !! block p) as [l|] eqn:El; [|done].
  destruct (Nat.leb_spec (offset p + length bs) (length l)); [|done].
  intros [= <-]. rewrite lookup_insert_eq, length_splice by done.
  rewrite (proj2 (Nat.leb_le _ _)) by done. by rewrite slice_splice_same.
Qed.

(** A store leaves every disjoint range as it was. *)
Lemma store_load_other h p bs h' q n :
  store h p bs = Ok h' → overlap p (length bs) q n = false → load h' q n = load h q n.
Proof.
  unfold store, load, overlap. destruct (h !! block p) as [l|] eqn:El; [|done].
  destruct (Nat.leb_spec (offset p + length bs) (length l)); [|done].
  intros [= <-] Ho. destruct (decide (block p = block q)) as [Eb|Nb].
  - rewrite bool_decide_true in Ho by done. rewrite <- Eb, El, lookup_insert_eq, length_splice by done.
    destruct (offset q + n <=? length l) eqn:Eq; [|done]. f_equal.
    destruct (decide (n = 0)) as [->|Hn]; [done|].
    destruct (decide (length bs = 0)) as [Hz|Hz].
    { destruct bs; [|done]. f_equal. unfold splice. simpl. rewrite Nat.add_0_r. apply take_drop. }
    apply slice_splice_other; [done|].
    simpl in Ho. apply andb_false_iff in Ho as [Ho|Ho]; apply Nat.ltb_ge in Ho; lia.
  - by rewrite lookup_insert_ne.
Qed.

Lemma store_dom h p bs h' : store h p bs = Ok h' →
  (∀ b, length <$> h' !! b = length <$> h !! b).
Proof.
  unfold store. destruct (h !! block p) as [l|] eqn:El; [|done].
  destruct (Nat.leb_spec (offset p + length bs) (length l)); [|done].
  intros [= <-] b. destruct (decide (b = block p)) as [->|Hb].
  - rewrite lookup_insert_eq, El. simpl. by rewrite length_splice.
  - by rewrite lookup_insert_ne.
Qed.

Lemma length_u32s_bytes l : length (u32s_bytes l) = 4 * length l.
Proof. unfold u32s_bytes. rewrite length_concat_map. induction l; simpl in *; lia. Qed.

Lemma of_le32_le32 z : (0 ≤ z < modulus32)%Z → of_le32 (le32 z) = z.
Proof. unfold modulus32, of_le32, le32. intros H. Z.div_mod_to_equations. lia. Qed.

(** Index data survives its byte representation. *)
Lemma bytes_u32s_roundtrip l :
  Forall (λ z, 0 ≤ z < modulus32)%Z l → bytes_u32s (length l) (u32s_bytes l) = l.
Proof.
  unfold u32s_bytes. induction 1 as [|z l Hz _ IH]; [done|].
  cbn [length bytes_u32s map concat]. rewrite take_app_length' by done.
  rewrite drop_app_length' by done. by rewrite of_le32_le32, IH.
Qed.

(** Writing over a part of a concatenation. *)
Lemma splice_concat {A} (f : A → list Z) l i x y at_ bs : l !! i = Some x → f y = splice at_ bs (f x) →
  at_ + length bs ≤ length (f x) →
  splice (offset_of (length ∘ f) l i + at_) bs (concat (map f l)) = concat (map f (<[i := y]> l)).
Proof.
  revert i. induction l as [|z l IH]; intros [|i] Hi Hy Hl; try done.
  - cbn in Hi. injection Hi as ->. unfold offset_of. cbn [take sum_list fmap list_fmap length Nat.add map concat insert list_insert].
    rewrite Hy. unfold splice. rewrite <- !app_assoc, take_app_le, drop_app_le by lia. done.
  - cbn in Hi. specialize (IH i Hi Hy Hl). change (<[S i := y]> (z :: l)) with (z :: <[i := y]> l). cbn [map concat]. rewrite <- IH.
    assert (offset_of (length ∘ f) (z :: l) (S i) = length (f z) + offset_of (length ∘ f) l i) as -> by done.
    unfold splice. rewrite <- !Nat.add_assoc. rewrite take_app_add, drop_app_add, <- app_assoc. done.
Qed.

(** A store inside a range that can be loaded. *)
Lemma store_inside h p at_ bs old : load h p (length old) = Ok old → at_ + length bs ≤ length old →
  ∃ h', store h (ptr_add p at_) bs = Ok h' ∧ load h' p (length old) = Ok (splice at_ bs old).
Proof.
  unfold store, load, ptr_add. cbn [block offset]. destruct (h !! block p) as [l|]; [|done].
  destruct (Nat.leb_spec (offset p + length old) (length l)) as [Hp|]; [|done]. intros [= E] Hl.
  rewrite (proj2 (Nat.leb_le _ _)) by lia. eexists. split; [done|].
  rewrite lookup_insert_eq, length_splice by lia. rewrite (proj2 (Nat.leb_le _ _)) by done. f_equal.
  assert (Eo : ∀ k, k < length old → old !! k = l !! (offset p + k)).
  { intros k Hk. rewrite <- E at 1. unfold slice. by rewrite lookup_take_lt, lookup_drop. }
  apply list_eq. intros k. rewrite lookup_splice by done. unfold slice.
  destruct (decide (k < length old)) as [Hk|Hk].
  - rewrite Eo, lookup_take_lt, lookup_drop, lookup_splice by (done || lia).
    repeat case_decide; try lia; [|done]. f_equal. lia.
  - rewrite lookup_take_ge by lia. rewrite decide_False by lia. symmetry. apply lookup_ge_None_2. lia.
Qed.

(** Bytes survive being read as index data. *)
Lemma le32_of_le32 a b c d : Forall byte_ok [a; b; c; d] → le32 (of_le32 [a; b; c; d]) = [a; b; c; d].
Proof.
  rewrite !Forall_cons. unfold byte_ok. intros (Ha & Hb & Hc & Hd & _). unfold le32, of_le32.
  repeat f_equal; Z.div_mod_to_equations; lia.
Qed.

Lemma u32s_bytes_roundtrip n bs : length bs = 4 * n → Forall byte_ok bs → u32s_bytes (bytes_u32s n bs) = bs.
Proof.
  revert bs. induction n as [|n IH]; intros bs Hl Hb; [by destruct bs|].
  destruct bs as [|a [|b [|c [|d bs]]]]; cbn in Hl; try lia.
  cbn [bytes_u32s take drop]. unfold u32s_bytes in *. cbn [map concat].
  rewrite le32_of_le32 by (by rewrite !Forall_cons in *; naive_solver).
  rewrite drop_0, IH; [done|lia|]. rewrite !Forall_cons in Hb. naive_solver.
Qed.

(** Storing what is already there changes nothing. *)
Lemma splice_same start bs l : slice start (length bs) l = bs → splice start bs l = l.
Proof.
  intros H. unfold splice. rewrite <- H at 1. unfold slice.
  rewrite <- (take_drop start l) at 4. f_equal.
  rewrite <- (take_drop (length bs) (drop start l)) at 2. by rewrite drop_drop.
Qed.

Lemma store_same h p bs : load h p (length bs) = Ok bs → store h p bs = Ok h.
Proof.
  unfold load, store. destruct (h !! block p) as [l|] eqn:El; [|done].
  destruct (Nat.leb_spec (offset p + length bs) (length l)); [|done].
  intros [= E]. rewrite splice_same by done. by rewrite insert_id.
Qed.

Lemma u32s_bytes_app l l' : u32s_bytes (l ++ l') = u32s_bytes l ++ u32s_bytes l'.
Proof. unfold u32s_bytes. by rewrite map_app, concat_app. Qed.

(** Four bytes of index data are one index. *)
Lemma slice_u32s_bytes l k z : l !! k = Some z → slice (4 * k) 4 (u32s_bytes l) = le32 z.
Proof.
  intros H. unfold u32s_bytes.
  replace (4 * k) with (offset_of (length ∘ le32) l k).
  - exact (slice_concat le32 l k z H).
  - unfold offset_of. rewrite <- length_concat_map. fold (u32s_bytes (take k l)).
    rewrite length_u32s_bytes, length_take. apply lookup_lt_Some in H. lia.
Qed.

Lemma u32s_bytes_take n l : u32s_bytes (take n l) = take (4 * n) (u32s_bytes l).
Proof.
  revert n. induction l as [|z l IH]; intros [|n]; try done.
  unfold u32s_bytes in *. cbn [take map concat]. rewrite IH, Nat.mul_succ_r, Nat.add_comm. done.
Qed.

Lemma u32s_bytes_drop n l : u32s_bytes (drop n l) = drop (4 * n) (u32s_bytes l).
Proof.
  revert n. induction l as [|z l IH]; intros [|n]; try done.
  unfold u32s_bytes in *. cbn [drop map concat]. rewrite IH, Nat.mul_succ_r, Nat.add_comm. done.
Qed.

(** A range of indices is a range of their bytes. *)
Lemma slice_u32s_range off n l :
  slice (4 * off) (4 * n) (u32s_bytes l) = u32s_bytes (slice off n l).
Proof. unfold slice. by rewrite u32s_bytes_take, u32s_bytes_drop. Qed.

(** ** Names and blocks that are not in use *)

Definition next_name (m : gmap Z nat) : Z := (1 + foldr Z.max 0 (fst <$> map_to_list m))%Z.
Definition next_block (h : heap) : nat := S (foldr Nat.max 0 (fst <$> map_to_list h)).

Lemma max_elem (l : list nat) n : n ∈ l → n ≤ foldr Nat.max 0 l.
Proof.
  induction l as [|k l IH]; [set_solver|].
  intros [->|Hn]%elem_of_cons; simpl; [lia|]. specialize (IH Hn). lia.
Qed.

Lemma max_elem_Z (l : list Z) n : n ∈ l → (n ≤ foldr Z.max 0 l)%Z.
Proof.
  induction l as [|k l IH]; [set_solver|].
  intros [->|Hn]%elem_of_cons; simpl; [lia|]. specialize (IH Hn). lia.
Qed.

Lemma max_nonneg (l : list Z) : (0 ≤ foldr Z.max 0 l)%Z.
Proof. induction l; simpl; lia. Qed.

Lemma next_block_fresh (h : heap) : h !! next_block h = None.
Proof.
  destruct (h !! next_block h) as [x|] eqn:E; [exfalso|done].
  apply elem_of_map_to_list, (list_elem_of_fmap_2 fst), max_elem in E.
  unfold next_block in E. simpl in E. lia.
Qed.

Lemma next_name_fresh (m : gmap Z nat) : (next_name m ≠ 0)%Z ∧ m !! next_name m = None.
Proof.
  split.
  - unfold next_name. pose proof (max_nonneg (fst <$> map_to_list m)). lia.
  - destruct (m !! next_name m) as [x|] eqn:E; [exfalso|done].
    apply elem_of_map_to_list, (list_elem_of_fmap_2 fst), max_elem_Z in E.
    unfold next_name in E. simpl in E. lia.
Qed.
