(* ===== verification/RenderTypes.v ===== *)
(** * The renderer-agnostic interfaces

    The enumerations of gl/impl/frontend/common, the vertex formats and the
    interfaces [IRendererInput], [IRendererDynamicInput] (gl/api/renderer.hpp),
    [IResource] and [IDynamicResource] (gl/api/resource.hpp).  An interface is
    a class of operations on a type of objects; a second class states what
    the renderers rely on. *)

From S2P Require Import Prelude Memory.

(** ** gl/impl/frontend/common *)

Inductive RendererInputFrequency := PerVertexBasis | PerInstanceBasis.
Inductive RendererComponentType := Float32 | Float32x2 | Float32x3.
Inductive RendererCullingStrategy := NoCulling | CullFrontFaces | CullBackFaces | CullEverything.
Inductive RendererInputDataAccess := StaticFixed | DynamicFixed.
Inductive RendererOutputType := Window | TextureOutput.
Inductive RenderPassAttachment := Colour | Depth | ColourDepth.
Inductive ResourceType := BufferType_ | TextureType_.
Inductive TextureFormat := Rgba32Signed | Rgba32Unsigned | Rgba32sRGB | DepthFloat32.
Inductive TexturePropertyFilter := Nearest | Linear.
Inductive TextureAddressMode := ClampToEdge.
Inductive ShaderType := VertexShader | FragmentShader.

#[export] Instance RendererInputFrequency_eq_dec : EqDecision RendererInputFrequency.
Proof. solve_decision. Defined.
#[export] Instance RendererComponentType_eq_dec : EqDecision RendererComponentType.
Proof. solve_decision. Defined.
#[export] Instance RendererInputDataAccess_eq_dec : EqDecision RendererInputDataAccess.
Proof. solve_decision. Defined.
#[export] Instance RenderPassAttachment_eq_dec : EqDecision RenderPassAttachment.
Proof. solve_decision. Defined.
#[export] Instance ResourceType_eq_dec : EqDecision ResourceType.
Proof. solve_decision. Defined.

Record TextureProperties := mkTextureProperties {
  min_filter : TexturePropertyFilter;
  mag_filter : TexturePropertyFilter;
  address_mode_u : TextureAddressMode;
  address_mode_v : TextureAddressMode;
  address_mode_w : TextureAddressMode }.

(** [TextureProperties::get_default()]. *)
Definition default_properties : TextureProperties :=
  mkTextureProperties Linear Linear ClampToEdge ClampToEdge ClampToEdge.

(** ** Vertex formats *)

Record RendererAttributeFormat := mkAttribute {
  element_attribute_offset : nat;
  attribute_type : RendererComponentType }.

Record RendererElementFormat := mkFormat {
  binding_size : nat;
  basis : RendererInputFrequency;
  binding_attributes : list RendererAttributeFormat }.

(** ** Spans *)

(** [std::span<const unsigned int>]: owned elements or [n] elements at [p]. *)
Inductive ispan := OwnedI (l : list Z) | AtI (p : ptr) (n : nat).

Definition span_size (s : span) : nat :=
  match s with Owned bs => length bs | At _ n => n end.

Definition ispan_size (s : ispan) : nat :=
  match s with OwnedI l => length l | AtI _ n => n end.

Definition ispan_bytes (s : ispan) : span :=
  match s with OwnedI l => Owned (u32s_bytes l) | AtI p n => At p (4 * n) end.

Definition ispan_read (h : heap) (s : ispan) : res (list Z) :=
  match s with
  | OwnedI l => Ok l
  | AtI p n => bs ← load h p (4 * n); Ok (bytes_u32s n bs)
  end.

(** ** IRendererInput and IRendererDynamicInput *)

Class IRendererInput (I : Type) := {
  data_access : I → RendererInputDataAccess;
  get_format : I → RendererElementFormat;
  get_vertex_bytes : I → span;
  get_indices : I → ispan;
  unique_clone : I → res I;
  (* of IRendererDynamicInput *)
  set_vertex_data : heap → I → ptr → res (heap * I);
  set_index_data : heap → I → ptr → res (heap * I)
}.

Section Counts.
Context {I : Type} `{IRendererInput I}.

Definition vertex_count_bytes (i : I) : nat := span_size (get_vertex_bytes i).

Definition vertex_count (i : I) : res nat :=
  if binding_size (get_format i) =? 0 then Fault Divide
  else Ok (vertex_count_bytes i / binding_size (get_format i)).

Definition index_count (i : I) : nat := ispan_size (get_indices i).
Definition index_count_bytes (i : I) : nat := 4 * ispan_size (get_indices i).

End Counts.

(** An input whose data has not been moved to memory of a renderer yet. *)
Definition detached {I} `{IRendererInput I} (i : I) (bs ixs : list Z) : Prop :=
  get_vertex_bytes i = Owned bs ∧ get_indices i = OwnedI ixs.

(** What a renderer relies on. *)
Class RendererInputLaws (I : Type) `{IRendererInput I} : Prop := {
  clone_detached : ∀ i j, unique_clone i = Ok j →
    data_access j = data_access i ∧ get_format j = get_format i ∧ ∃ bs ixs, detached j bs ixs;
  detached_clone : ∀ i bs ixs, detached i bs ixs →
    ∃ j, unique_clone i = Ok j ∧ detached j bs ixs;
  adopt_vertices : ∀ h h' i p bs,
    data_access i = DynamicFixed → get_vertex_bytes i = Owned bs → store h p bs = Ok h' →
    ∃ j, set_vertex_data h i p = Ok (h', j) ∧ get_vertex_bytes j = At p (length bs) ∧
         get_indices j = get_indices i ∧ get_format j = get_format i ∧ data_access j = data_access i;
  adopt_indices : ∀ h h' i p ixs,
    data_access i = DynamicFixed → get_indices i = OwnedI ixs → store h p (u32s_bytes ixs) = Ok h' →
    ∃ j, set_index_data h i p = Ok (h', j) ∧ get_indices j = AtI p (length ixs) ∧
         get_vertex_bytes j = get_vertex_bytes i ∧ get_format j = get_format i ∧
         data_access j = data_access i;
  adopt_vertices_fault : ∀ h i p bs e,
    data_access i = DynamicFixed → get_vertex_bytes i = Owned bs → store h p bs = Fault e →
    set_vertex_data h i p = Fault e;
  adopt_indices_fault : ∀ h i p ixs e,
    data_access i = DynamicFixed → get_indices i = OwnedI ixs → store h p (u32s_bytes ixs) = Fault e →
    set_index_data h i p = Fault e;
  set_keeps_access : ∀ h i p h' j,
    set_vertex_data h i p = Ok (h', j) ∨ set_index_data h i p = Ok (h', j) → data_access j = data_access i
}.

(** ** IResource and IDynamicResource *)

Record TextureView := mkTextureView {
  tv_format : TextureFormat; tv_properties : TextureProperties; tv_width : Z; tv_height : Z }.

Class IResource (R : Type) := {
  get_type : R → ResourceType;
  resource_access : R → RendererInputDataAccess;
  get_resource_bytes : R → span;
  clone_resource : R → R;
  set_resource_data : heap → R → ptr → res (heap * R);
  (* [static_cast<TextureResource*>]: only a texture has one *)
  as_texture : R → option TextureView
}.

Class ResourceLaws (R : Type) `{IResource R} : Prop := {
  texture_view : ∀ r, get_type r = TextureType_ → is_Some (as_texture r);
  clone_resource_same : ∀ r, get_type (clone_resource r) = get_type r ∧
    resource_access (clone_resource r) = resource_access r ∧
    get_resource_bytes (clone_resource r) = get_resource_bytes r ∧
    as_texture (clone_resource r) = as_texture r;
  adopt_resource : ∀ h h' r p bs,
    resource_access r = DynamicFixed → get_resource_bytes r = Owned bs → store h p bs = Ok h' →
    ∃ r', set_resource_data h r p = Ok (h', r') ∧ get_resource_bytes r' = At p (length bs) ∧
          get_type r' = get_type r ∧ resource_access r' = resource_access r;
  set_data_type : ∀ h r p h' r', set_resource_data h r p = Ok (h', r') → get_type r' = get_type r
}.

(** ** Handles

    [RendererInputHandle] and [ResourceHandle] carry the position of the
    object in the renderer; a [RendererDrawList] is a list of input handles. *)
Definition RendererDrawList := list nat.
