(* ===== verification/Inputs.v ===== *)
(** * Meshes as renderer inputs, resources and their data

    [Vertex] and [Mesh] (gl/mesh.hpp), [MeshInput] and [MeshDynamicInput]
    (gl/input.{hpp,cpp}), [BufferData] (gl/buffer.{hpp,inl}), [TextureData]
    (gl/texture.{hpp,cpp}) and the resources of gl/resource.{hpp,cpp}, with the
    proofs that they implement the interfaces of RenderTypes.  A [float] in
    memory is its 32-bit pattern. *)

From S2P Require Import Prelude Containers Memory RenderTypes.

(** ** Vertex and Mesh *)

(** [tz::Vec3] and [tz::Vec2] hold three and two floats. *)
Record Vertex := mkVertex {
  position : Z * Z * Z; texcoord : Z * Z; normal : Z * Z * Z; tangent : Z * Z * Z;
  bitangent : Z * Z * Z }.

Definition vec3_bytes (v : Z * Z * Z) : list Z := let '(x, y, z) := v in u32s_bytes [x; y; z].
Definition vec2_bytes (v : Z * Z) : list Z := let '(x, y) := v in u32s_bytes [x; y].

(** The object representation: the members in order, without padding. *)
Definition vertex_bytes (v : Vertex) : list Z :=
  vec3_bytes (position v) ++ vec2_bytes (texcoord v) ++ vec3_bytes (normal v) ++
  vec3_bytes (tangent v) ++ vec3_bytes (bitangent v).

Definition sizeof_Vertex : nat := 56.
Definition offsetof_position : nat := 0.
Definition offsetof_texcoord : nat := 12.
Definition offsetof_normal : nat := 20.
Definition offsetof_tangent : nat := 32.
Definition offsetof_bitangent : nat := 44.

Record Mesh := mkMesh { vertices : list Vertex; indices : list Z }.

(** The indices are [unsigned int]s. *)
Definition mesh_ok (m : Mesh) : Prop := Forall (λ z, 0 ≤ z < modulus32)%Z (indices m).

Definition mesh_bytes (m : Mesh) : list Z := concat (map vertex_bytes (vertices m)).

(** The vertices whose object representations the bytes are. *)
Definition vertex_of_words (l : list Z) : Vertex :=
  match l with
  | [a; b; c; d; e; f; g; h; i; j; k; m; n; o] => mkVertex (a, b, c) (d, e) (f, g, h) (i, j, k) (m, n, o)
  | _ => mkVertex (0, 0, 0)%Z (0, 0)%Z (0, 0, 0)%Z (0, 0, 0)%Z (0, 0, 0)%Z
  end.

Fixpoint vertices_of_bytes (n : nat) (bs : list Z) : list Vertex :=
  match n with
  | 0 => []
  | S n => vertex_of_words (bytes_u32s 14 (take sizeof_Vertex bs)) :: vertices_of_bytes n (drop sizeof_Vertex bs)
  end.

(** ** MeshInput and MeshDynamicInput *)

Inductive MeshInputIgnoreFlag :=
  PositionIgnore | TexcoordIgnore | NormalIgnore | TangentIgnore | BitangentIgnore.

#[export] Instance MeshInputIgnoreFlag_eq_dec : EqDecision MeshInputIgnoreFlag.
Proof. solve_decision. Defined.

Definition MeshInputIgnoreField := list MeshInputIgnoreFlag.

(** [get_format] of both classes. *)
Definition mesh_format (ignores : MeshInputIgnoreField) : RendererElementFormat :=
  let attributes := [] in
  let attributes := if negb (EnumField.contains ignores PositionIgnore)
    then BasicList.add attributes (mkAttribute offsetof_position Float32x3) else attributes in
  let attributes := if negb (EnumField.contains ignores TexcoordIgnore)
    then BasicList.add attributes (mkAttribute offsetof_texcoord Float32x2) else attributes in
  let attributes := if negb (EnumField.contains ignores NormalIgnore)
    then BasicList.add attributes (mkAttribute offsetof_normal Float32x3) else attributes in
  let attributes := if negb (EnumField.contains ignores TangentIgnore)
    then BasicList.add attributes (mkAttribute offsetof_tangent Float32x3) else attributes in
  let attributes := if negb (EnumField.contains ignores BitangentIgnore)
    then BasicList.add attributes (mkAttribute offsetof_bitangent Float32x3) else attributes in
  mkFormat sizeof_Vertex PerVertexBasis attributes.

Record MeshInput := mkMeshInput { mi_mesh : Mesh; mi_ignores : MeshInputIgnoreField }.

Definition MeshInput_format (i : MeshInput) : RendererElementFormat := mesh_format (mi_ignores i).
Definition MeshInput_vertex_bytes (i : MeshInput) : span := Owned (mesh_bytes (mi_mesh i)).
Definition MeshInput_indices (i : MeshInput) : ispan := OwnedI (indices (mi_mesh i)).

Record MeshDynamicInput := mkMeshDynamicInput {
  initial_data : Mesh; md_ignores : MeshInputIgnoreField;
  vertex_data : option ptr; index_data : option ptr }.

Definition MeshDynamicInput_new (mesh : Mesh) (ignores : MeshInputIgnoreField) : MeshDynamicInput :=
  mkMeshDynamicInput mesh ignores None None.

Definition MeshDynamicInput_format (i : MeshDynamicInput) : RendererElementFormat :=
  mesh_format (md_ignores i).

Definition MeshDynamicInput_vertex_bytes (i : MeshDynamicInput) : span :=
  match vertex_data i with
  | None => Owned (mesh_bytes (initial_data i))
  | Some p => At p (length (vertices (initial_data i)) * sizeof_Vertex)
  end.

Definition MeshDynamicInput_indices (i : MeshDynamicInput) : ispan :=
  match index_data i with
  | None => OwnedI (indices (initial_data i))
  | Some p => AtI p (length (indices (initial_data i)))
  end.

(** Writing [bs] at [at_] through the span [get_vertex_bytes_dynamic] returns: to
    the mesh of the input itself until a renderer has given it memory. *)
Definition MeshDynamicInput_write (h : heap) (i : MeshDynamicInput) (at_ : nat) (bs : list Z)
    : res (heap * MeshDynamicInput) :=
  let size := length (vertices (initial_data i)) * sizeof_Vertex in
  if at_ + length bs <=? size then
    match vertex_data i with
    | None =>
        let vertices := vertices_of_bytes (length (vertices (initial_data i))) (splice at_ bs (mesh_bytes (initial_data i))) in
        Ok (h, mkMeshDynamicInput (mkMesh vertices (indices (initial_data i))) (md_ignores i) None (index_data i))
    | Some p => h' ← store h (ptr_add p at_) bs; Ok (h', i)
    end
  else Fault OutOfBounds.

(** [set_vertex_data], [set_index_data]: the old data is copied to the new place. *)
Definition MeshDynamicInput_set_vertex_data (h : heap) (i : MeshDynamicInput) (p : ptr)
    : res (heap * MeshDynamicInput) :=
  let vertices := MeshDynamicInput_vertex_bytes i in
  let i' := mkMeshDynamicInput (initial_data i) (md_ignores i) (Some p) (index_data i) in
  h' ← memcpy h p vertices;
  Ok (h', i').

Definition MeshDynamicInput_set_index_data (h : heap) (i : MeshDynamicInput) (p : ptr)
    : res (heap * MeshDynamicInput) :=
  let indices := MeshDynamicInput_indices i in
  let i' := mkMeshDynamicInput (initial_data i) (md_ignores i) (vertex_data i) (Some p) in
  h' ← memcpy h p (ispan_bytes indices);
  Ok (h', i').

Section Copies.
Context `{BC : BuildConfig}.

(** The copy constructor: a copy never shares the renderer's memory. *)
Definition MeshDynamicInput_copy (copy : MeshDynamicInput) : res MeshDynamicInput :=
  let this := mkMeshDynamicInput (initial_data copy) (md_ignores copy) None None in
  _ ← tz_assert (bool_decide (vertex_data copy = None) && bool_decide (index_data copy = None));
  Ok this.

(** [operator=]. *)
Definition MeshDynamicInput_assign (this rhs : MeshDynamicInput) : res MeshDynamicInput :=
  let this := mkMeshDynamicInput (initial_data rhs) (md_ignores rhs) None None in
  _ ← tz_assert (bool_decide (vertex_data rhs = None) && bool_decide (index_data rhs = None));
  Ok this.

(** The two classes of inputs behind an [IRendererInput] pointer. *)
Inductive input := Static (i : MeshInput) | Dynamic (i : MeshDynamicInput).

#[export] Instance input_interface : IRendererInput input := {|
  data_access i := match i with Static _ => StaticFixed | Dynamic _ => DynamicFixed end;
  get_format i := match i with Static i => MeshInput_format i | Dynamic i => MeshDynamicInput_format i end;
  get_vertex_bytes i :=
    match i with Static i => MeshInput_vertex_bytes i | Dynamic i => MeshDynamicInput_vertex_bytes i end;
  get_indices i :=
    match i with Static i => MeshInput_indices i | Dynamic i => MeshDynamicInput_indices i end;
  unique_clone i :=
    match i with Static i => Ok (Static i) | Dynamic i => Dynamic <$> MeshDynamicInput_copy i end;
  set_vertex_data h i p :=
    match i with
    | Static _ => Fault OutOfBounds
    | Dynamic i => '(h', i') ← MeshDynamicInput_set_vertex_data h i p; Ok (h', Dynamic i')
    end;
  set_index_data h i p :=
    match i with
    | Static _ => Fault OutOfBounds
    | Dynamic i => '(h', i') ← MeshDynamicInput_set_index_data h i p; Ok (h', Dynamic i')
    end |}.

End Copies.

(** ** BufferData and TextureData *)

(** [BufferData::from_array] and [from_value] copy the object representation. *)
Definition BufferData_from_array (elements : list (list Z)) : list Z := concat elements.
Definition BufferData_from_value (bytes : list Z) : list Z := bytes.

Record TextureData := mkTextureData { td_width : Z; td_height : Z; image_data : list Z }.

(** The number of bytes of a texel, from the switch of [uninitialised]. *)
Definition element_size (format : TextureFormat) : nat :=
  match format with
  | Rgba32Signed | Rgba32Unsigned | Rgba32sRGB => 4
  | DepthFloat32 => 4
  end.

(** The number of components requested from the decoder, from the switch of
    [from_image_file]. *)
Definition components_per_element (format : TextureFormat) : nat :=
  match format with
  | Rgba32Signed | Rgba32Unsigned | Rgba32sRGB => 4
  | DepthFloat32 => 1
  end.

(** [from_image_file]; [stbi_load] returns the size of the image and its bytes,
    one per component, or a null pointer, [w] and [h] being left unset. *)
Definition TextureData_from_image_file
    (stbi_load : list Ascii.ascii → nat → option (nat * nat * list Z))
    (image_path : list Ascii.ascii) (format : TextureFormat) : res TextureData :=
  match stbi_load image_path (components_per_element format) with
  | None => Fault Uninitialised
  | Some (w, h, imgdata) =>
      let imgdata_size := w * h * components_per_element format in
      if imgdata_size <=? length imgdata
      then Ok (mkTextureData (Z.of_nat w) (Z.of_nat h) (take imgdata_size imgdata))
      else Fault OutOfBounds
  end.

Definition TextureData_from_memory (width height : Z) (data : list Z) : TextureData :=
  mkTextureData width height data.

(** [uninitialised]: [resize] value-initialises the bytes.  The size is
    computed in [size_t]. *)
Definition TextureData_uninitialised (width height : Z) (format : TextureFormat) : TextureData :=
  mkTextureData width height
    (replicate (element_size format * Z.to_nat width * Z.to_nat height) 0%Z).

(** ** Resources *)

Record BufferResource := mkBufferResource { br_data : list Z }.
Record DynamicBufferResource := mkDynamicBufferResource {
  dbr_initial_data : list Z; resource_data : option ptr }.
Record TextureResource := mkTextureResource {
  tr_data : TextureData; tr_format : TextureFormat; tr_properties : TextureProperties }.

Definition DynamicBufferResource_new (data : list Z) : DynamicBufferResource :=
  mkDynamicBufferResource data None.

Definition DynamicBufferResource_bytes (r : DynamicBufferResource) : span :=
  match resource_data r with
  | None => Owned (dbr_initial_data r)
  | Some p => At p (length (dbr_initial_data r))
  end.

(** Writing [bs] at [at_] through the span [get_resource_bytes_dynamic] returns. *)
Definition DynamicBufferResource_write (h : heap) (r : DynamicBufferResource) (at_ : nat) (bs : list Z)
    : res (heap * DynamicBufferResource) :=
  if at_ + length bs <=? length (dbr_initial_data r) then
    match resource_data r with
    | None => Ok (h, mkDynamicBufferResource (splice at_ bs (dbr_initial_data r)) None)
    | Some p => h' ← store h (ptr_add p at_) bs; Ok (h', r)
    end
  else Fault OutOfBounds.

Definition DynamicBufferResource_set_data (h : heap) (r : DynamicBufferResource) (p : ptr)
    : res (heap * DynamicBufferResource) :=
  let res_data := DynamicBufferResource_bytes r in
  let r' := mkDynamicBufferResource (dbr_initial_data r) (Some p) in
  h' ← memcpy h p res_data;
  Ok (h', r').

Inductive resource :=
| RBuffer (r : BufferResource) | RDynamicBuffer (r : DynamicBufferResource) | RTexture (r : TextureResource).

#[export] Instance resource_interface : IResource resource := {|
  get_type r := match r with RBuffer _ | RDynamicBuffer _ => BufferType_ | RTexture _ => TextureType_ end;
  resource_access r := match r with RDynamicBuffer _ => DynamicFixed | _ => StaticFixed end;
  get_resource_bytes r :=
    match r with
    | RBuffer r => Owned (br_data r)
    | RDynamicBuffer r => DynamicBufferResource_bytes r
    | RTexture r => Owned (image_data (tr_data r))
    end;
  clone_resource r := r;
  set_resource_data h r p :=
    match r with
    | RDynamicBuffer r => '(h', r') ← DynamicBufferResource_set_data h r p; Ok (h', RDynamicBuffer r')
    | _ => Fault OutOfBounds
    end;
  as_texture r :=
    match r with
    | RTexture t => Some (mkTextureView (tr_format t) (tr_properties t)
                            (td_width (tr_data t)) (td_height (tr_data t)))
    | _ => None
    end |}.

(** ** Facts *)

Lemma length_vertex_bytes v : length (vertex_bytes v) = sizeof_Vertex.
Proof. by destruct v as [[[? ?] ?] [? ?] [[? ?] ?] [[? ?] ?] [[? ?] ?]]. Qed.

Lemma length_mesh_bytes m : length (mesh_bytes m) = length (vertices m) * sizeof_Vertex.
Proof.
  unfold mesh_bytes. rewrite length_concat_map. unfold compose.
  induction (vertices m) as [|v l IH]; [done|]. simpl. rewrite length_vertex_bytes, IH.
  unfold sizeof_Vertex. lia.
Qed.

Lemma vertex_of_words_bytes bs : length bs = sizeof_Vertex → Forall byte_ok bs →
  vertex_bytes (vertex_of_words (bytes_u32s 14 bs)) = bs.
Proof.
  intros Hl Hb. rewrite <- (u32s_bytes_roundtrip 14 bs Hl Hb) at 2. reflexivity.
Qed.

Lemma vertices_of_bytes_bytes n bs : length bs = n * sizeof_Vertex → Forall byte_ok bs →
  length (vertices_of_bytes n bs) = n ∧ concat (map vertex_bytes (vertices_of_bytes n bs)) = bs.
Proof.
  revert bs. induction n as [|n IH]; intros bs Hl Hb; [by destruct bs|]. cbn [vertices_of_bytes length map concat].
  assert (sizeof_Vertex ≤ length bs) by (rewrite Hl; unfold sizeof_Vertex; lia).
  destruct (IH (drop sizeof_Vertex bs)) as [Hn Hc]; [rewrite length_drop, Hl; unfold sizeof_Vertex; lia|by apply Forall_drop|].
  split; [by rewrite Hn|]. rewrite Hc, vertex_of_words_bytes; [apply take_drop|by rewrite length_take_le|by apply Forall_take].
Qed.

(** What is written to the vertices of a dynamic input is read back from it, in
    whichever memory they are, and every other byte keeps its value. *)
Lemma dynamic_input_write_read h i at_ bs old :
  span_read h (MeshDynamicInput_vertex_bytes i) = Ok old → Forall byte_ok old → Forall byte_ok bs →
  at_ + length bs ≤ length old →
  ∃ h' i', MeshDynamicInput_write h i at_ bs = Ok (h', i') ∧
    span_read h' (MeshDynamicInput_vertex_bytes i') = Ok (splice at_ bs old).
Proof.
  unfold MeshDynamicInput_vertex_bytes at 1, MeshDynamicInput_write. intros E Ho Hb Hl.
  assert (Hlen : length old = length (vertices (initial_data i)) * sizeof_Vertex).
  { destruct (vertex_data i); cbn in E; [by apply load_Ok in E|]. injection E as <-. apply length_mesh_bytes. }
  rewrite <- Hlen, (proj2 (Nat.leb_le _ _)) by done. destruct (vertex_data i) as [p|] eqn:Ev; cbn in E.
  - rewrite <- Hlen in E. destruct (store_inside h p at_ bs old E Hl) as (h' & Es & El). rewrite Es. eexists h', i.
    split; [done|]. unfold MeshDynamicInput_vertex_bytes. rewrite Ev. cbn [span_read]. by rewrite <- Hlen.
  - injection E as <-. eexists h, _. split; [done|]. unfold MeshDynamicInput_vertex_bytes, mesh_bytes at 1. cbn.
    destruct (vertices_of_bytes_bytes (length (vertices (initial_data i))) (splice at_ bs (mesh_bytes (initial_data i)))) as [_ ->];
      [by rewrite length_splice| |done].
    unfold splice. rewrite !Forall_app. split; [by apply Forall_take|]. split; [done|by apply Forall_drop].
Qed.

(** The same for a dynamic buffer resource. *)
Lemma dynamic_resource_write_read h r at_ bs old :
  span_read h (DynamicBufferResource_bytes r) = Ok old → at_ + length bs ≤ length old →
  ∃ h' r', DynamicBufferResource_write h r at_ bs = Ok (h', r') ∧
    span_read h' (DynamicBufferResource_bytes r') = Ok (splice at_ bs old).
Proof.
  unfold DynamicBufferResource_bytes at 1, DynamicBufferResource_write. intros E Hl.
  destruct (resource_data r) as [p|] eqn:Ed; cbn [span_read] in E.
  - pose proof (load_Ok _ _ _ _ E) as Hlen. rewrite <- Hlen, (proj2 (Nat.leb_le _ _)) by done.
    destruct (store_inside h p at_ bs old) as (h' & Es & El); [by rewrite Hlen|done|]. rewrite Es. eexists h', r.
    split; [done|]. unfold DynamicBufferResource_bytes. rewrite Ed. cbn [span_read]. by rewrite <- Hlen.
  - injection E as <-. rewrite (proj2 (Nat.leb_le _ _)) by done. by eexists h, _.
Qed.

(** The inputs implement the interface the renderers are proved against. *)
#[export] Instance input_laws `{BC : BuildConfig} : RendererInputLaws input.
Proof.
  split.
  - intros [i|i] j; simpl.
    + intros [= <-]. split; [done|]. split; [done|]. unfold detached. simpl. eauto.
    + unfold MeshDynamicInput_copy. destruct (tz_assert _); simpl; [|done].
      intros [= <-]. split; [done|]. split; [done|]. unfold detached. simpl. eauto.
  - intros [i|i] bs ixs [Hv Hi]; simpl in *; [by eexists; split|].
    unfold MeshDynamicInput_vertex_bytes, MeshDynamicInput_indices in *.
    destruct (vertex_data i) eqn:Ev; [done|]. destruct (index_data i) eqn:Ei; [done|].
    unfold MeshDynamicInput_copy. rewrite Ev, Ei. simpl. rewrite tz_assert_true. simpl.
    by eexists; split.
  - intros h h' [i|i] p bs Ha Hv Hs; [done|]. simpl in *.
    unfold MeshDynamicInput_set_vertex_data, memcpy. rewrite Hv. simpl. rewrite Hs. simpl.
    eexists. split; [done|]. unfold MeshDynamicInput_vertex_bytes in *. simpl.
    destruct (vertex_data i); [done|]. injection Hv as <-. by rewrite length_mesh_bytes.
  - intros h h' [i|i] p ixs Ha Hv Hs; [done|]. simpl in *.
    unfold MeshDynamicInput_set_index_data, memcpy. rewrite Hv. simpl. rewrite Hs. simpl.
    eexists. split; [done|]. unfold MeshDynamicInput_indices in *. simpl.
    destruct (index_data i); [done|]. injection Hv as <-. done.
  - intros h [i|i] p bs e Ha Hv Hs; [done|]. simpl in *.
    unfold MeshDynamicInput_set_vertex_data, memcpy. rewrite Hv. simpl. by rewrite Hs.
  - intros h [i|i] p ixs e Ha Hv Hs; [done|]. simpl in *.
    unfold MeshDynamicInput_set_index_data, memcpy. rewrite Hv. simpl. by rewrite Hs.
  - intros h [i|i] p h' j [E|E]; try done; simpl in E.
    all: by apply bind_Ok_inv in E as ([? ?] & _ & [= _ <-]).
Qed.

#[export] Instance resource_laws : ResourceLaws resource.
Proof.
  split.
  - intros [r|r|r]; simpl; [done..|eauto].
  - done.
  - intros h h' [r|r|r] p bs Ha Hv Hs; [done| |done]. simpl in *.
    unfold DynamicBufferResource_set_data, memcpy. rewrite Hv. simpl. rewrite Hs. simpl.
    eexists. split; [done|]. unfold DynamicBufferResource_bytes in *. simpl.
    destruct (resource_data r); [done|]. injection Hv as <-. done.
  - intros h [r|r|r] p h' r' E; try done. simpl in *. by apply bind_Ok_inv in E as ([? ?] & _ & [= _ <-]).
Qed.

(** The bytes of the member an ignore flag names. *)
Definition member_bytes (f : MeshInputIgnoreFlag) (v : Vertex) : list Z :=
  match f with
  | PositionIgnore => vec3_bytes (position v)
  | TexcoordIgnore => vec2_bytes (texcoord v)
  | NormalIgnore => vec3_bytes (normal v)
  | TangentIgnore => vec3_bytes (tangent v)
  | BitangentIgnore => vec3_bytes (bitangent v)
  end.

Definition all_members : list MeshInputIgnoreFlag :=
  [PositionIgnore; TexcoordIgnore; NormalIgnore; TangentIgnore; BitangentIgnore].

Definition component_size (t : RendererComponentType) : nat :=
  match t with Float32 => 4 | Float32x2 => 8 | Float32x3 => 12 end.

(** The bytes an attribute fetch reads from a vertex. *)
Definition fetch_attribute (a : RendererAttributeFormat) (vertex : list Z) : list Z :=
  slice (element_attribute_offset a) (component_size (attribute_type a)) vertex.

(** C34: the format of a mesh input describes the layout of [Vertex]: fetching
    its attributes from the bytes of a vertex yields the members that are not
    ignored, in declaration order, and the stride is the size of a vertex. *)
Theorem mesh_format_reads_members ignores v :
  map (λ a, fetch_attribute a (vertex_bytes v)) (binding_attributes (mesh_format ignores)) =
  map (λ f, member_bytes f v) (List.filter (λ f, bool_decide (f ∉ ignores)) all_members) ∧
  binding_size (mesh_format ignores) = length (vertex_bytes v).
Proof.
  split; [|by rewrite length_vertex_bytes].
  destruct v as [[[? ?] ?] [? ?] [[? ?] ?] [[? ?] ?] [[? ?] ?]].
  assert (Hf : ∀ f, bool_decide (f ∉ ignores) = negb (EnumField.contains ignores f)).
  { intros f. rewrite bool_decide_not. f_equal.
    apply eq_true_iff_eq. by rewrite EnumField.contains_spec, bool_decide_eq_true. }
  unfold mesh_format, all_members. cbn [List.filter]. rewrite !Hf.
  destruct (EnumField.contains ignores PositionIgnore), (EnumField.contains ignores TexcoordIgnore),
    (EnumField.contains ignores NormalIgnore), (EnumField.contains ignores TangentIgnore),
    (EnumField.contains ignores BitangentIgnore); reflexivity.
Qed.

(** ** A mesh of one triangle, for examples *)

Definition zero3 : Z * Z * Z := (0, 0, 0)%Z.
Definition vertex_at (x : Z) : Vertex := mkVertex (x, 0, 0)%Z (0, 0)%Z zero3 zero3 zero3.
Definition triangle (x : Z) : Mesh := mkMesh [vertex_at x; vertex_at (x + 1); vertex_at (x + 2)] [0; 1; 2]%Z.
