(* ===== verification/OpenGL.v ===== *)
(** * The OpenGL backend: the API and [ogl::Buffer]

    OpenGL is code of the driver: its calls are the operations of a class
    [GL], and [GLSpec] states what its specification documents about the calls
    that touch memory.  A data store is a block of the heap, so that a mapped
    store and the buffer are the same bytes, as with a persistent coherent
    mapping.  Calls that only change rendering state are recorded in the order
    they are made.  [Buffer] is gl/impl/backend/ogl/buffer.{hpp,cpp}. *)

From S2P Require Import Prelude Memory.

(** ** Calls *)

Inductive GLenum :=
| GL_DEPTH_TEST | GL_CULL_FACE | GL_FRONT | GL_BACK | GL_FRONT_AND_BACK
| GL_FLOAT | GL_BYTE | GL_UNSIGNED_BYTE | GL_RGBA8 | GL_RGBA | GL_SRGB8_ALPHA8
| GL_DEPTH_COMPONENT32F | GL_DEPTH_COMPONENT
| GL_NEAREST | GL_LINEAR | GL_CLAMP_TO_EDGE
| GL_TEXTURE_WRAP_S | GL_TEXTURE_WRAP_T | GL_TEXTURE_WRAP_R | GL_TEXTURE_MIN_FILTER | GL_TEXTURE_MAG_FILTER
| GL_ARRAY_BUFFER | GL_ELEMENT_ARRAY_BUFFER | GL_UNIFORM_BUFFER | GL_DRAW_INDIRECT_BUFFER
| GL_MAP_READ_BIT | GL_MAP_WRITE_BIT | GL_MAP_PERSISTENT_BIT | GL_MAP_COHERENT_BIT | GL_DYNAMIC_STORAGE_BIT
| GL_STATIC_DRAW | GL_DYNAMIC_DRAW
| GL_COLOR_BUFFER_BIT | GL_DEPTH_BUFFER_BIT
| GL_VERTEX_SHADER | GL_FRAGMENT_SHADER.

Inductive glcall :=
| glEnable (cap : GLenum)
| glDisable (cap : GLenum)
| glCullFace (mode : GLenum)
| glBindVertexArray (vao : Z)
| glEnableVertexArrayAttrib (vao : Z) (index : nat)
| glVertexArrayAttribFormat (vao : Z) (index size : nat) (type : GLenum) (relativeoffset : Z)
| glVertexArrayAttribBinding (vao : Z) (index binding : nat)
| glTextureParameteri (tex : Z) (pname param : GLenum)
| glTextureStorage2D (tex : Z) (internal_format : GLenum) (w h : Z)
| glTextureSubImage2D (tex : Z) (w h : Z) (format type : GLenum) (data : list Z)
| glBindBuffer (target : GLenum) (buf : Z)
| glBindFramebuffer (fb : Z)
| glViewport (w h : Z)
| glClear (bits : list GLenum)
| glBindBufferBase (index : nat) (buf : Z)
| glUseProgram (program : Z)
| glBindTextureUnit (unit : nat) (tex : Z)
| glProgramUniform1i (program : Z) (location value : nat)
| glVertexArrayVertexBuffer (vao : Z) (buf : Z) (stride : nat)
| glVertexArrayElementBuffer (vao : Z) (buf : Z)
| glMultiDrawElementsIndirect (drawcount stride : nat)
| glDeleteTextures (l : list Z)
| glDeleteVertexArrays (vao : Z)
| glAttachShader (program shader : Z)
| glDetachShader (program shader : Z)
| glShaderSource (shader : Z) (source : list Ascii.ascii)
| glCompileShader (shader : Z)
| glLinkProgram (program : Z)
| glValidateProgram (program : Z)
| glDeleteShader (shader : Z)
| glDeleteProgram (program : Z).

(** Calls that return a value or change a data store. *)
Class GL := {
  gl_state : Type;
  glCreateBuffers : gl_state → gl_state * Z;
  glCreateVertexArrays : gl_state → gl_state * Z;
  glCreateTextures : gl_state → gl_state * Z;
  glNamedBufferStorage : heap * gl_state → Z → nat → option (list Z) → list GLenum → heap * gl_state;
  glNamedBufferData : heap * gl_state → Z → nat → option (list Z) → GLenum → heap * gl_state;
  glNamedBufferSubData : heap * gl_state → Z → nat → list Z → heap * gl_state;
  glGetBufferSize : heap * gl_state → Z → Z;
  glMapNamedBufferRange : heap * gl_state → Z → Z → Z → list GLenum → option ptr * gl_state;
  glUnmapNamedBuffer : gl_state → Z → gl_state;
  glDeleteBuffers : heap * gl_state → list Z → heap * gl_state;
  glClearColor : gl_state → list Z → gl_state;
  glGetClearColor : gl_state → list Z
}.

(** What the specification of OpenGL says about them.  [gl_block g n] is the
    block of the heap that is the data store of the buffer named [n]. *)
Class GLSpec `{G : GL} := {
  gl_block : gl_state → Z → option nat;
  create_buffers_spec : ∀ g, let '(g', n) := glCreateBuffers g in
    n ≠ 0%Z ∧ gl_block g n = None ∧ ∀ m, gl_block g' m = gl_block g m;
  create_vertex_arrays_spec : ∀ g m, gl_block (fst (glCreateVertexArrays g)) m = gl_block g m;
  create_textures_spec : ∀ g m, gl_block (fst (glCreateTextures g)) m = gl_block g m;
  buffer_storage_spec : ∀ h g n size data flags, n ≠ 0%Z → 0 < size → gl_block g n = None →
    ∃ b bs, glNamedBufferStorage (h, g) n size data flags =
              (<[b := bs]> h, snd (glNamedBufferStorage (h, g) n size data flags)) ∧
      h !! b = None ∧ length bs = size ∧ (∀ d, data = Some d → length d = size → bs = d) ∧
      (∀ m, gl_block (snd (glNamedBufferStorage (h, g) n size data flags)) m =
              if decide (m = n) then Some b else gl_block g m);
  buffer_data_spec : ∀ h g n size data usage, n ≠ 0%Z → gl_block g n = None →
    ∃ b bs, glNamedBufferData (h, g) n size data usage =
              (<[b := bs]> h, snd (glNamedBufferData (h, g) n size data usage)) ∧
      h !! b = None ∧ length bs = size ∧ (∀ d, data = Some d → length d = size → bs = d) ∧
      (∀ m, gl_block (snd (glNamedBufferData (h, g) n size data usage)) m =
              if decide (m = n) then Some b else gl_block g m);
  buffer_sub_data_spec : ∀ h g n b l offset d, gl_block g n = Some b → h !! b = Some l →
    glNamedBufferSubData (h, g) n offset d =
      if offset + length d <=? length l then (<[b := splice offset d l]> h, g) else (h, g);
  buffer_size_spec : ∀ h g n b l, gl_block g n = Some b → h !! b = Some l →
    (Z.of_nat (length l) < 2147483648)%Z → glGetBufferSize (h, g) n = Z.of_nat (length l);
  map_range_spec : ∀ h g n b l flags, gl_block g n = Some b → h !! b = Some l → l ≠ [] →
    fst (glMapNamedBufferRange (h, g) n 0%Z (Z.of_nat (length l)) flags) = Some (mkPtr b 0) ∧
    ∀ m, gl_block (snd (glMapNamedBufferRange (h, g) n 0%Z (Z.of_nat (length l)) flags)) m = gl_block g m;
  delete_buffers_spec : ∀ h g ns m, m ∉ ns →
    gl_block (snd (glDeleteBuffers (h, g) ns)) m = gl_block g m ∧
    ∀ b, gl_block g m = Some b → fst (glDeleteBuffers (h, g) ns) !! b = h !! b;
  delete_buffers_gone : ∀ s ns m, m ∈ ns → gl_block (snd (glDeleteBuffers s ns)) m = None;
  name_zero : ∀ g, gl_block g 0%Z = None;
  clear_colour_spec : ∀ g c, glGetClearColor (glClearColor g c) = c ∧
    ∀ m, gl_block (glClearColor g c) m = gl_block g m;
  create_buffers_colour : ∀ g, glGetClearColor (fst (glCreateBuffers g)) = glGetClearColor g;
  buffer_data_colour : ∀ s n size data usage,
    glGetClearColor (snd (glNamedBufferData s n size data usage)) = glGetClearColor (snd s);
  buffer_sub_data_colour : ∀ s n offset d,
    glGetClearColor (snd (glNamedBufferSubData s n offset d)) = glGetClearColor (snd s);
  delete_buffers_colour : ∀ s ns, glGetClearColor (snd (glDeleteBuffers s ns)) = glGetClearColor (snd s)
}.

(** The memory, the driver and the calls made so far. *)
Record world `{GL} := mkWorld { w_heap : heap; w_gl : gl_state; w_calls : list glcall }.
Arguments world {_}.
Arguments mkWorld {_} _ _ _.

Section Primitives.
Context `{G : GL}.

Definition call (c : glcall) : ST world unit :=
  modify (λ w, mkWorld (w_heap w) (w_gl w) (w_calls w ++ [c])).

Definition gl_create (f : gl_state → gl_state * Z) : ST world Z := λ w,
  let '(g, n) := f (w_gl w) in Ok (n, mkWorld (w_heap w) g (w_calls w)).

Definition gl_memory (f : heap * gl_state → heap * gl_state) : ST world unit := λ w,
  let '(h, g) := f (w_heap w, w_gl w) in Ok (tt, mkWorld h g (w_calls w)).

(** A computation on the heap alone. *)
Definition on_heap {A} (f : heap → res (heap * A)) : ST world A := λ w,
  match f (w_heap w) with
  | Ok (h, a) => Ok (a, mkWorld h (w_gl w) (w_calls w))
  | Fault e => Fault e
  end.

End Primitives.

(** ** ogl::Buffer *)

Inductive BufferType := Vertex | Index | Uniform | DrawIndirect.
Inductive BufferPurpose := StaticDraw | DynamicDraw.
Inductive BufferUsage := ReadWrite | PersistentMapped.

Record Buffer := mkBuffer { buf : Z; type : BufferType; usage : BufferUsage; mapped_ptr : option ptr }.

Section Buffer.
Context `{G : GL}.

Definition persistent_mapped_buffer_flags : list GLenum :=
  [GL_MAP_READ_BIT; GL_MAP_WRITE_BIT; GL_MAP_PERSISTENT_BIT; GL_MAP_COHERENT_BIT].

Definition purpose_flags (p : BufferPurpose) : GLenum :=
  match p with StaticDraw => GL_STATIC_DRAW | DynamicDraw => GL_DYNAMIC_DRAW end.

(** The constructor. *)
Definition Buffer_new (type : BufferType) (purpose : BufferPurpose) (usage : BufferUsage) (bytes : nat)
    : ST world Buffer :=
  n ← gl_create glCreateBuffers;
  _ ← match usage with
      | PersistentMapped =>
          gl_memory (λ s, glNamedBufferStorage s n bytes None (GL_DYNAMIC_STORAGE_BIT :: persistent_mapped_buffer_flags))
      | ReadWrite => gl_memory (λ s, glNamedBufferData s n bytes None (purpose_flags purpose))
      end;
  mret (mkBuffer n type usage None).

(** The default constructor and [null()]; the enumerations are value-initialised. *)
Definition Buffer_null : Buffer := mkBuffer 0 Vertex ReadWrite None.

(** The destructor. *)
Definition Buffer_destroy (b : Buffer) : ST world unit := gl_memory (λ s, glDeleteBuffers s [buf b]).

(** Move assignment swaps; move construction swaps with a null buffer. *)
Definition Buffer_move_assign (this rhs : Buffer) : Buffer * Buffer := (rhs, this).
Definition Buffer_move (move : Buffer) : Buffer * Buffer := Buffer_move_assign Buffer_null move.

Definition Buffer_write (b : Buffer) (data : list Z) : ST world unit :=
  match mapped_ptr b with
  | Some p => on_heap (λ h, h' ← memcpy h p (Owned data); Ok (h', tt))
  | None => gl_memory (λ s, glNamedBufferSubData s (buf b) 0 data)
  end.

Definition Buffer_map_memory (b : Buffer) : ST world (option ptr * Buffer) :=
  match mapped_ptr b with
  | Some p => mret (Some p, b)
  | None =>
      buf_size ← gets (λ w, glGetBufferSize (w_heap w, w_gl w) (buf b));
      let flags := match usage b with
                   | PersistentMapped => persistent_mapped_buffer_flags
                   | ReadWrite => [GL_MAP_READ_BIT; GL_MAP_WRITE_BIT] end in
      p ← state (λ w, let '(p, g) := glMapNamedBufferRange (w_heap w, w_gl w) (buf b) 0 buf_size flags in
                      (p, mkWorld (w_heap w) g (w_calls w)));
      mret (p, mkBuffer (buf b) (type b) (usage b) p)
  end.

Definition Buffer_unmap_memory (b : Buffer) : ST world Buffer :=
  _ ← modify (λ w, mkWorld (w_heap w) (glUnmapNamedBuffer (w_gl w) (buf b)) (w_calls w));
  mret (mkBuffer (buf b) (type b) (usage b) None).

Definition Buffer_bind (b : Buffer) : ST world unit :=
  let buftype := match type b with
                 | Vertex => GL_ARRAY_BUFFER | Index => GL_ELEMENT_ARRAY_BUFFER
                 | Uniform => GL_UNIFORM_BUFFER | DrawIndirect => GL_DRAW_INDIRECT_BUFFER end in
  call (glBindBuffer buftype (buf b)).

Definition Buffer_is_null (b : Buffer) : bool := (buf b =? 0)%Z.

(** Assignments to a [std::optional<Buffer>] member: the temporary ends up with
    what the member held and is destroyed. *)
Definition optional_assign (member : option Buffer) (value : Buffer) : ST world (option Buffer) :=
  match member with
  | Some old =>
      let '(this, tmp) := Buffer_move_assign old value in
      _ ← Buffer_destroy tmp; mret (Some this)
  | None =>
      let '(this, tmp) := Buffer_move value in
      _ ← Buffer_destroy tmp; mret (Some this)
  end.

Definition optional_reset (member : option Buffer) : ST world (option Buffer) :=
  match member with
  | Some old => _ ← Buffer_destroy old; mret None
  | None => mret None
  end.

End Buffer.

(** ** Facts *)

Section Facts.
Context `{G : GL} {GS : GLSpec}.
Implicit Types w : world.

(** The bytes of a buffer's data store. *)
Definition contents w (n : Z) : option (list Z) := gl_block (w_gl w) n ≫= λ b, w_heap w !! b.

(** Every data store exists and no two buffers share one. *)
Definition gl_ok w : Prop :=
  (∀ n b, gl_block (w_gl w) n = Some b → is_Some (w_heap w !! b)) ∧
  (∀ n m b, gl_block (w_gl w) n = Some b → gl_block (w_gl w) m = Some b → n = m).

(** [extends w w']: the buffers of [w] are untouched in [w'], which may have more. *)
Definition extends w w' : Prop :=
  ∀ n, is_Some (contents w n) → contents w' n = contents w n ∧ gl_block (w_gl w') n = gl_block (w_gl w) n.

#[export] Instance extends_refl : Reflexive extends.
Proof. intros w n Hn. done. Qed.

#[export] Instance extends_trans : Transitive extends.
Proof.
  intros w1 w2 w3 H12 H23 n Hn. destruct (H12 n Hn) as [E1 B1].
  destruct (H23 n) as [E2 B2]; [by rewrite E1|]. by rewrite E2, B2.
Qed.

Lemma contents_block w n bs : contents w n = Some bs →
  ∃ b, gl_block (w_gl w) n = Some b ∧ w_heap w !! b = Some bs.
Proof. unfold contents. destruct (gl_block (w_gl w) n) as [b|]; simpl; [eauto|done]. Qed.

Lemma call_spec c w : call c w = Ok (tt, mkWorld (w_heap w) (w_gl w) (w_calls w ++ [c])).
Proof. done. Qed.

(** Only the trace differs: everything about buffers is the same. *)
Lemma gl_ok_calls w cs : gl_ok w → gl_ok (mkWorld (w_heap w) (w_gl w) cs).
Proof. done. Qed.

Lemma gl_create_spec f w :
  (∀ m, gl_block (fst (f (w_gl w))) m = gl_block (w_gl w) m) → gl_ok w →
  ∃ n w', gl_create f w = Ok (n, w') ∧ gl_ok w' ∧ extends w w' ∧ w_heap w' = w_heap w ∧
    (∀ m, gl_block (w_gl w') m = gl_block (w_gl w) m) ∧ n = snd (f (w_gl w)).
Proof.
  unfold gl_create. destruct (f (w_gl w)) as [g n]. simpl. intros Hb [H1 H2].
  eexists _, _. split; [done|]. split_and!; simpl; try done.
  - split; simpl; intros *; rewrite ?Hb; eauto.
  - intros m Hm. unfold contents. simpl. by rewrite Hb.
Qed.

(** Adding a data store under an unused name. *)
Lemma add_store_spec w n b bs g' cs :
  gl_ok w → gl_block (w_gl w) n = None → w_heap w !! b = None →
  (∀ m, gl_block g' m = if decide (m = n) then Some b else gl_block (w_gl w) m) →
  gl_ok (mkWorld (<[b := bs]> (w_heap w)) g' cs) ∧
  extends w (mkWorld (<[b := bs]> (w_heap w)) g' cs) ∧
  contents (mkWorld (<[b := bs]> (w_heap w)) g' cs) n = Some bs.
Proof.
  intros [H1 H2] Hn Hb Hg.
  assert (Hfresh : ∀ m, gl_block (w_gl w) m ≠ Some b).
  { intros m Hm. destruct (H1 m b Hm) as [x Hx]. congruence. }
  split_and!.
  - split; simpl.
    + intros m c. rewrite Hg. case_decide.
      * intros [= <-]. rewrite lookup_insert_eq. done.
      * intros Hm. rewrite lookup_insert_ne; [eauto|]. intros ->. by apply (Hfresh m).
    + intros m m' c. rewrite !Hg. repeat case_decide; try congruence. eauto.
  - intros m Hm. unfold contents in *. simpl. rewrite Hg.
    destruct (decide (m = n)) as [->|]; [rewrite Hn in Hm; by apply is_Some_None in Hm|].
    destruct (gl_block (w_gl w) m) as [c|] eqn:Ec; [|by apply is_Some_None in Hm].
    split; [|done]. simpl. rewrite lookup_insert_ne; [done|]. intros ->. by apply (Hfresh m).
  - unfold contents. simpl. rewrite Hg, decide_True by done. simpl. by rewrite lookup_insert_eq.
Qed.

Lemma Buffer_new_spec t p u size w : gl_ok w → (u = PersistentMapped → 0 < size) →
  ∃ b w' bs, Buffer_new t p u size w = Ok (b, w') ∧ gl_ok w' ∧ extends w w' ∧
    contents w' (buf b) = Some bs ∧ length bs = size ∧ buf b ≠ 0%Z ∧ mapped_ptr b = None ∧
    type b = t ∧ usage b = u ∧ contents w (buf b) = None ∧ w_calls w' = w_calls w.
Proof.
  intros Hw Hsize. unfold Buffer_new, gl_create, mbind at 1, ST_bind at 1.
  pose proof (create_buffers_spec (w_gl w)) as Hc.
  destruct (glCreateBuffers (w_gl w)) as [g n]. destruct Hc as (Hn0 & Hn & Hg).
  set (w1 := mkWorld (w_heap w) g (w_calls w)).
  assert (Hw1 : gl_ok w1).
  { destruct Hw as [H1 H2]. split; simpl; intros *; rewrite ?Hg; eauto. }
  assert (Hn1 : gl_block (w_gl w1) n = None) by (simpl; by rewrite Hg).
  assert (He1 : extends w w1).
  { intros m Hm. unfold contents. simpl. by rewrite Hg. }
  assert (Hcn : contents w n = None) by (unfold contents; by rewrite Hn).
  destruct u; unfold gl_memory, mbind, ST_bind.
  - destruct (buffer_data_spec (w_heap w1) (w_gl w1) n size None (purpose_flags p) Hn0 Hn1)
      as (b & bs & E & Hb & Hl & _ & Hm). rewrite E.
    destruct (add_store_spec w1 n b bs _ (w_calls w) Hw1 Hn1 Hb Hm) as (Ok' & Ex & Co).
    do 3 eexists. split; [done|]. split_and!; simpl; try done. by transitivity w1.
  - destruct (buffer_storage_spec (w_heap w1) (w_gl w1) n size None
      (GL_DYNAMIC_STORAGE_BIT :: persistent_mapped_buffer_flags) Hn0 (Hsize eq_refl) Hn1)
      as (b & bs & E & Hb & Hl & _ & Hm). rewrite E.
    destruct (add_store_spec w1 n b bs _ (w_calls w) Hw1 Hn1 Hb Hm) as (Ok' & Ex & Co).
    do 3 eexists. split; [done|]. split_and!; simpl; try done. by transitivity w1.
Qed.

(** Overwriting one data store. *)
Definition only_changes (n : Z) w w' : Prop :=
  ∀ m, m ≠ n → contents w' m = contents w m ∧ gl_block (w_gl w') m = gl_block (w_gl w) m.

Lemma set_store_spec w n b l l' cs :
  gl_ok w → gl_block (w_gl w) n = Some b → w_heap w !! b = Some l →
  let w' := mkWorld (<[b := l']> (w_heap w)) (w_gl w) cs in
  gl_ok w' ∧ contents w' n = Some l' ∧ only_changes n w w'.
Proof.
  intros [H1 H2] Hn Hb. split_and!.
  - split; simpl; [|done]. intros m c Hm. destruct (decide (c = b)) as [->|].
    + by rewrite lookup_insert_eq.
    + rewrite lookup_insert_ne by done. eauto.
  - unfold contents. simpl. rewrite Hn. simpl. by rewrite lookup_insert_eq.
  - intros m Hm. unfold contents. simpl. split; [|done].
    destruct (gl_block (w_gl w) m) as [c|] eqn:Ec; [|done]. simpl.
    rewrite lookup_insert_ne; [done|]. intros ->. by apply Hm, (H2 m n c).
Qed.

Lemma splice_all (d l : list Z) : length d = length l → splice 0 d l = d.
Proof.
  intros H. unfold splice. simpl. rewrite drop_ge by lia. apply app_nil_r.
Qed.

Lemma splice_prefix (d l : list Z) : length d ≤ length l → splice 0 d l = d ++ drop (length d) l.
Proof. done. Qed.

(** Writing to a buffer that is not mapped, within its size. *)
Lemma Buffer_write_spec b w l d :
  gl_ok w → mapped_ptr b = None → contents w (buf b) = Some l → length d ≤ length l →
  ∃ w', Buffer_write b d w = Ok (tt, w') ∧ gl_ok w' ∧ contents w' (buf b) = Some (splice 0 d l) ∧
    only_changes (buf b) w w' ∧ gl_block (w_gl w') (buf b) = gl_block (w_gl w) (buf b) ∧
    w_calls w' = w_calls w.
Proof.
  intros Hw Hm Hc Hl. apply contents_block in Hc as (c & Hb & Hh).
  unfold Buffer_write, gl_memory. rewrite Hm.
  rewrite (buffer_sub_data_spec _ _ _ c l 0 d Hb Hh). simpl.
  rewrite (proj2 (Nat.leb_le _ _)) by done.
  eexists. split; [done|].
  destruct (set_store_spec w (buf b) c l (splice 0 d l) (w_calls w) Hw Hb Hh) as (? & ? & ?).
  done.
Qed.

(** Writing more than a buffer holds changes nothing: the driver raises
    [GL_INVALID_VALUE]. *)
Lemma Buffer_write_too_long b w l d :
  mapped_ptr b = None → contents w (buf b) = Some l → length l < length d →
  Buffer_write b d w = Ok (tt, w).
Proof.
  intros Hm Hc Hl. apply contents_block in Hc as (c & Hb & Hh).
  unfold Buffer_write, gl_memory. rewrite Hm.
  rewrite (buffer_sub_data_spec _ _ _ c l 0 d Hb Hh). simpl.
  rewrite (proj2 (Nat.leb_gt _ _)) by done. by destruct w.
Qed.

Lemma Buffer_map_spec b w l :
  gl_ok w → mapped_ptr b = None → contents w (buf b) = Some l → l ≠ [] →
  (Z.of_nat (length l) < 2147483648)%Z →
  ∃ c w', gl_block (w_gl w) (buf b) = Some c ∧ w_heap w !! c = Some l ∧
    Buffer_map_memory b w = Ok ((Some (mkPtr c 0), mkBuffer (buf b) (type b) (usage b) (Some (mkPtr c 0))), w') ∧
    gl_ok w' ∧ w_heap w' = w_heap w ∧ (∀ m, gl_block (w_gl w') m = gl_block (w_gl w) m) ∧
    (∀ m, contents w' m = contents w m) ∧ w_calls w' = w_calls w.
Proof.
  intros Hw Hm Hc Hl Hs. apply contents_block in Hc as (c & Hb & Hh).
  unfold Buffer_map_memory. rewrite Hm. unfold gets, state, mbind, ST_bind.
  rewrite (buffer_size_spec _ _ _ c l Hb Hh Hs).
  set (flags := match usage b with PersistentMapped => _ | ReadWrite => _ end).
  destruct (map_range_spec (w_heap w) (w_gl w) (buf b) c l flags Hb Hh Hl) as [Ep Eg].
  destruct (glMapNamedBufferRange _ _ _ _ _) as [p g]. simpl in *. subst p.
  do 2 eexists. split; [done|]. split; [done|]. split; [done|]. destruct Hw as [H1 H2].
  split_and!; simpl; try done.
  - split; simpl; intros *; rewrite ?Eg; eauto.
  - intros m. unfold contents. simpl. by rewrite Eg.
Qed.

(** Deleting buffers leaves the others alone; name 0 is ignored. *)
Lemma optional_assign_None v w : gl_ok w →
  ∃ w', optional_assign None v w = Ok (Some v, w') ∧ extends w w' ∧ gl_ok w' ∧ w_calls w' = w_calls w.
Proof.
  intros [H1 H2]. unfold optional_assign, Buffer_move, Buffer_move_assign, Buffer_destroy, gl_memory.
  unfold mbind, ST_bind. simpl.
  pose proof (delete_buffers_spec (w_heap w) (w_gl w) [0%Z]) as Hd.
  destruct (glDeleteBuffers (w_heap w, w_gl w) [0%Z]) as [h g]. simpl in Hd.
  assert (Hg : ∀ m, gl_block g m = gl_block (w_gl w) m).
  { intros m. destruct (decide (m = 0%Z)) as [->|Hm]; [by rewrite !name_zero|].
    apply Hd. set_solver. }
  assert (Hh : ∀ m b, gl_block (w_gl w) m = Some b → h !! b = w_heap w !! b).
  { intros m b Hm. apply (Hd m); [|done].
    intros ->%list_elem_of_singleton. by rewrite name_zero in Hm. }
  eexists. split; [done|]. split_and!; [| |done].
  - intros m Hm. unfold contents in *. simpl. rewrite Hg.
    destruct (gl_block (w_gl w) m) as [b|] eqn:Eb; [|done]. simpl in *. by rewrite (Hh m b).
  - split; simpl; intros *; rewrite ?Hg; [|by eauto].
    intros Hm. rewrite (Hh n b) by done. eauto.
Qed.

End Facts.

(** ** A driver

    A concrete driver, for the inputs of the witnesses: names and blocks are
    one more than the largest in use. *)

Record driver := mkDriver { stores : gmap Z nat; clear_value : list Z }.

(** A new data store of [size] bytes. *)
Definition new_store (s : heap * driver) (n : Z) (size : nat) (data : option (list Z)) : heap * driver :=
  let '(h, g) := s in
  let bs := match data with
            | Some d => take size d ++ replicate (size - length d) 0%Z
            | None => replicate size 0%Z end in
  let b := next_block h in
  (<[b := bs]> h, mkDriver (<[n := b]> (stores g)) (clear_value g)).

#[export] Instance driver_gl : GL := {|
  gl_state := driver;
  glCreateBuffers g := (g, next_name (stores g));
  glCreateVertexArrays g := (g, 1%Z);
  glCreateTextures g := (g, 1%Z);
  glNamedBufferStorage s n size data _ := new_store s n size data;
  glNamedBufferData s n size data _ := new_store s n size data;
  glNamedBufferSubData s n offset d :=
    match stores (snd s) !! n ≫= λ b, (λ l, (b, l)) <$> fst s !! b with
    | Some (b, l) =>
        if offset + length d <=? length l then (<[b := splice offset d l]> (fst s), snd s) else s
    | None => s
    end;
  glGetBufferSize s n :=
    match stores (snd s) !! n ≫= λ b, fst s !! b with Some l => Z.of_nat (length l) | None => 0%Z end;
  glMapNamedBufferRange s n offset len flags :=
    ((λ b, mkPtr b (Z.to_nat offset)) <$> stores (snd s) !! n, snd s);
  glUnmapNamedBuffer g _ := g;
  glDeleteBuffers s ns := (fst s, mkDriver (foldr delete (stores (snd s)) (List.filter (λ n, negb (n =? 0)%Z) ns)) (clear_value (snd s)));
  glClearColor g c := mkDriver (stores g) c;
  glGetClearColor g := clear_value g |}.

Lemma new_store_spec h g n size data : ∃ b bs,
  new_store (h, g) n size data = (<[b := bs]> h, snd (new_store (h, g) n size data)) ∧
  h !! b = None ∧ length bs = size ∧ (∀ d, data = Some d → length d = size → bs = d) ∧
  (∀ m, stores (snd (new_store (h, g) n size data)) !! m =
        if decide (m = n) then Some b else stores g !! m).
Proof.
  eexists _, _. split; [done|]. split; [apply next_block_fresh|]. split_and!.
  - destruct data; rewrite ?length_app, ?length_take, length_replicate; lia.
  - intros d -> <-. rewrite take_ge, Nat.sub_diag by lia. apply app_nil_r.
  - intros m. simpl. case_decide; subst; by simplify_map_eq.
Qed.

Lemma foldr_delete_lookup (m : gmap Z nat) ns k : k ∉ ns → foldr delete m ns !! k = m !! k.
Proof.
  induction ns as [|n ns IH]; [done|]. intros Hk. simpl.
  rewrite lookup_delete_ne by set_solver. apply IH. set_solver.
Qed.

Lemma foldr_delete_gone (m : gmap Z nat) ns k : k ∈ ns → foldr delete m ns !! k = None.
Proof.
  induction ns as [|n ns IH]; [by intros ?%elem_of_nil|]. intros [->|Hk]%elem_of_cons; simpl; [by rewrite lookup_delete_eq|].
  destruct (decide (k = n)) as [->|]; [by rewrite lookup_delete_eq|]. rewrite lookup_delete_ne by done. by apply IH.
Qed.

Definition driver_block (g : driver) (n : Z) : option nat :=
  if decide (n = 0%Z) then None else stores g !! n.

Lemma driver_block_ne g n : n ≠ 0%Z → driver_block g n = stores g !! n.
Proof. intros H. unfold driver_block. by rewrite decide_False. Qed.

Lemma driver_block_Some g n b : driver_block g n = Some b → n ≠ 0%Z ∧ stores g !! n = Some b.
Proof. unfold driver_block. by case_decide. Qed.

#[export] Instance driver_spec : GLSpec (G:=driver_gl).
Proof.
  refine {| gl_block := driver_block |}.
  - intros g. simpl. destruct (next_name_fresh (stores g)). split; [done|].
    by rewrite driver_block_ne.
  - done.
  - done.
  - intros h g n size data flags Hn _ _. simpl.
    destruct (new_store_spec h g n size data) as (b & bs & E & ? & ? & ? & Hs).
    exists b, bs. do 4 (split; [done|]). intros m. unfold driver_block. rewrite Hs.
    repeat case_decide; congruence.
  - intros h g n size data flags Hn _. simpl.
    destruct (new_store_spec h g n size data) as (b & bs & E & ? & ? & ? & Hs).
    exists b, bs. do 4 (split; [done|]). intros m. unfold driver_block. rewrite Hs.
    repeat case_decide; congruence.
  - intros h g n b l offset d [Hn Hb]%driver_block_Some Hh. simpl. rewrite Hb. simpl. by rewrite Hh.
  - intros h g n b l [Hn Hb]%driver_block_Some Hh _. simpl. rewrite Hb. simpl. by rewrite Hh.
  - intros h g n b l flags [Hn Hb]%driver_block_Some Hh _. simpl. rewrite Hb. done.
  - intros h g ns m Hm. simpl. split; [|done]. unfold driver_block. case_decide; [done|].
    simpl. apply foldr_delete_lookup. rewrite list_elem_of_In, filter_In, <- list_elem_of_In. tauto.
  - intros [h g] ns m Hm. simpl. unfold driver_block. case_decide; [done|]. simpl.
    apply foldr_delete_gone. rewrite list_elem_of_In, filter_In, <- list_elem_of_In. split; [done|].
    by apply negb_true_iff, Z.eqb_neq.
  - intros g. done.
  - done.
  - done.
  - intros [h g] n size data usage. done.
  - intros [h g] n offset d. simpl. destruct (stores g !! n ≫= _) as [[b l]|]; [|done]. by case_match.
  - intros [h g] ns. done.
Defined.
