(* ===== verification/OGLRenderer.v ===== *)
(** * The OpenGL renderer

    [RendererBuilderOGL] and [RendererOGL]
    (gl/impl/frontend/ogl/renderer.{hpp,cpp}), over any inputs and resources
    that implement the interfaces.  Reports and profiling zones have no effect
    on the state and are left out. *)

From S2P Require Import Prelude Containers Memory RenderTypes OpenGL.

(** ** DrawIndirectCommand *)

Record DrawIndirectCommand := mkCmd {
  count : Z; instanceCount : Z; firstIndex : Z; baseVertex : Z; baseInstance : Z }.

#[export] Instance DrawIndirectCommand_eq_dec : EqDecision DrawIndirectCommand.
Proof. solve_decision. Defined.

Definition sizeof_DrawIndirectCommand : nat := 20.

(** Its object representation. *)
Definition cmd_bytes (c : DrawIndirectCommand) : list Z :=
  u32s_bytes [count c; instanceCount c; firstIndex c; baseVertex c; baseInstance c].

(** A value-initialised command, what [operator[]] of a map adds for a new key. *)
Definition cmd_default : DrawIndirectCommand := mkCmd 0 0 0 0 0.

(** ** RendererBuilderOGL *)

Section Builder.
Context `{BC : BuildConfig} {I : Type} `{II : IRendererInput I} {R : Type} `{IR : IResource R}.

(** The shader is known by its program; [culling_strategy] has no initialiser. *)
Record RendererBuilderOGL := mkBuilder {
  b_inputs : list I;
  b_pass : RenderPassAttachment;
  b_output : option RendererOutputType;
  b_buffer_resources : list R;
  b_texture_resources : list R;
  b_shader : option Z;
  b_culling_strategy : option RendererCullingStrategy }.

Definition builder_new : RendererBuilderOGL := mkBuilder [] ColourDepth None [] [] None None.

Definition builder_add_input (b : RendererBuilderOGL) (input : I) : RendererBuilderOGL * nat :=
  let sz := length (b_inputs b) in
  (mkBuilder (b_inputs b ++ [input]) (b_pass b) (b_output b) (b_buffer_resources b)
     (b_texture_resources b) (b_shader b) (b_culling_strategy b), sz).

Definition builder_get_input (b : RendererBuilderOGL) (handle : nat) : res I :=
  _ ← tz_assert (handle <? length (b_inputs b)); at_index (b_inputs b) handle.

Definition builder_set_pass (b : RendererBuilderOGL) (pass : RenderPassAttachment) : RendererBuilderOGL :=
  mkBuilder (b_inputs b) pass (b_output b) (b_buffer_resources b)
    (b_texture_resources b) (b_shader b) (b_culling_strategy b).

Definition builder_set_output (b : RendererBuilderOGL) (output : RendererOutputType) : RendererBuilderOGL :=
  mkBuilder (b_inputs b) (b_pass b) (Some output) (b_buffer_resources b)
    (b_texture_resources b) (b_shader b) (b_culling_strategy b).

Definition builder_add_resource (b : RendererBuilderOGL) (resource : R) : RendererBuilderOGL * nat :=
  let total_resource_size := length (b_buffer_resources b) + length (b_texture_resources b) in
  match get_type resource with
  | BufferType_ =>
      (mkBuilder (b_inputs b) (b_pass b) (b_output b) (b_buffer_resources b ++ [resource])
         (b_texture_resources b) (b_shader b) (b_culling_strategy b), total_resource_size)
  | TextureType_ =>
      (mkBuilder (b_inputs b) (b_pass b) (b_output b) (b_buffer_resources b)
         (b_texture_resources b ++ [resource]) (b_shader b) (b_culling_strategy b), total_resource_size)
  end.

Definition builder_set_culling_strategy (b : RendererBuilderOGL) (c : RendererCullingStrategy)
    : RendererBuilderOGL :=
  mkBuilder (b_inputs b) (b_pass b) (b_output b) (b_buffer_resources b)
    (b_texture_resources b) (b_shader b) (Some c).

(** Reading the strategy before it is set reads an indeterminate value. *)
Definition builder_get_culling_strategy (b : RendererBuilderOGL) : res RendererCullingStrategy :=
  of_option Uninitialised (b_culling_strategy b).

Definition builder_set_shader (b : RendererBuilderOGL) (program : Z) : RendererBuilderOGL :=
  mkBuilder (b_inputs b) (b_pass b) (b_output b) (b_buffer_resources b)
    (b_texture_resources b) (Some program) (b_culling_strategy b).

Definition builder_get_shader (b : RendererBuilderOGL) : res Z := of_option NullDeref (b_shader b).

End Builder.
Arguments RendererBuilderOGL : clear implicits.

(** ** RendererOGL *)

Section Renderer.
Context `{BC : BuildConfig} `{G : GL} {I : Type} `{II : IRendererInput I} {R : Type} `{IR : IResource R}.

Record RendererOGL := mkRenderer {
  vao : Z;
  vbo : option Buffer; ibo : option Buffer; vbo_dynamic : option Buffer; ibo_dynamic : option Buffer;
  indirect_buffer : option Buffer; indirect_buffer_dynamic : option Buffer;
  resources : list R; resource_ubos : list Z; resource_textures : list Z;
  format : option RendererElementFormat;
  pass_attachment : RenderPassAttachment;
  shader : option Z;
  inputs : list I;
  output : option RendererOutputType;
  draw_cache : RendererDrawList }.

(** *** The constructor *)

Definition copy_inputs (b : RendererBuilderOGL I R) : res (list I) :=
  for_each (λ input inputs, i ← unique_clone input; Ok (inputs ++ [i])) (b_inputs b) [].

(** Depth test and face culling. *)
Definition setup_state (pass : RenderPassAttachment) (culling : RendererCullingStrategy) : ST world unit :=
  _ ← (if bool_decide (pass ≠ Colour) then call (glEnable GL_DEPTH_TEST) else call (glDisable GL_DEPTH_TEST));
  match culling with
  | NoCulling => call (glDisable GL_CULL_FACE)
  | CullFrontFaces => _ ← call (glEnable GL_CULL_FACE); call (glCullFace GL_FRONT)
  | CullBackFaces => _ ← call (glEnable GL_CULL_FACE); call (glCullFace GL_BACK)
  | CullEverything => _ ← call (glEnable GL_CULL_FACE); call (glCullFace GL_FRONT_AND_BACK)
  end.

(** [DynamicInputMapRegion]: the input is known by its position. *)
Record Region := mkRegion { r_input : nat; r_offset : nat; r_length : nat }.

(** Step 1: the data of all inputs. *)
Record compiled := mkCompiled {
  total_vertices : list Z; total_indices : list Z;
  total_vertices_dynamic : list Z; total_indices_dynamic : list Z;
  vertex_regions : list Region; index_regions : list Region;
  any_static_geometry : bool; any_dynamic_geometry : bool;
  fmt : option RendererElementFormat }.

Definition compiled_init : compiled := mkCompiled [] [] [] [] [] [] false false None.

Definition compile_input (h : heap) (ki : nat * I) (c : compiled) : res compiled :=
  let '(k, input) := ki in
  input_vertices ← span_read h (get_vertex_bytes input);
  input_indices ← ispan_read h (get_indices input);
  match data_access input with
  | StaticFixed =>
      Ok (mkCompiled (total_vertices c ++ input_vertices) (total_indices c ++ input_indices)
            (total_vertices_dynamic c) (total_indices_dynamic c) (vertex_regions c) (index_regions c)
            true (any_dynamic_geometry c) (Some (get_format input)))
  | DynamicFixed =>
      let vertex_region_offset := length (total_vertices_dynamic c) in
      let index_region_offset := length (total_indices_dynamic c) in
      Ok (mkCompiled (total_vertices c) (total_indices c)
            (total_vertices_dynamic c ++ input_vertices) (total_indices_dynamic c ++ input_indices)
            (vertex_regions c ++ [mkRegion k vertex_region_offset (length input_vertices)])
            (index_regions c ++ [mkRegion k index_region_offset (length input_indices)])
            (any_static_geometry c) true (Some (get_format input)))
  end.

Definition compile (h : heap) (ins : list I) : res compiled :=
  for_each (compile_input h) (imap pair ins) compiled_init.

(** Step 2: static geometry. *)
Definition upload_static (c : compiled) : ST world (option Buffer * option Buffer) :=
  if any_static_geometry c then
    vb ← Buffer_new Vertex StaticDraw ReadWrite (length (total_vertices c));
    vbo ← optional_assign None vb;
    _ ← Buffer_write vb (total_vertices c);
    let total_indices_size := length (total_indices c) * 4 in
    ib ← Buffer_new Index StaticDraw ReadWrite total_indices_size;
    ibo ← optional_assign None ib;
    _ ← Buffer_write ib (u32s_bytes (total_indices c));
    mret (vbo, ibo)
  else mret (None, None).

(** The loops that hand each dynamic input its part of the mapped memory. *)
Definition adopt_vertex_region (vtx_mem : option ptr) (rg : Region) (ins : list I) : ST world (list I) :=
  p ← lift (of_option NullDeref vtx_mem);
  i ← lift (at_index ins (r_input rg));
  i' ← on_heap (λ h, set_vertex_data h i (ptr_add p (r_offset rg)));
  mret (<[r_input rg := i']> ins).

Definition adopt_index_region (idx_mem : option ptr) (rg : Region) (ins : list I) : ST world (list I) :=
  p ← lift (of_option NullDeref idx_mem);
  i ← lift (at_index ins (r_input rg));
  i' ← on_heap (λ h, set_index_data h i (ptr_add_u32 p (r_offset rg)));
  mret (<[r_input rg := i']> ins).

(** Step 2: dynamic geometry. *)
Definition upload_dynamic (c : compiled) (ins : list I)
    : ST world (option Buffer * option Buffer * list I) :=
  if any_dynamic_geometry c then
    vb ← Buffer_new Vertex DynamicDraw PersistentMapped (length (total_vertices_dynamic c));
    _ ← optional_assign None vb;
    _ ← Buffer_write vb (total_vertices_dynamic c);
    let total_indices_dynamic_size := length (total_indices_dynamic c) * 4 in
    ib ← Buffer_new Index DynamicDraw PersistentMapped total_indices_dynamic_size;
    _ ← optional_assign None ib;
    _ ← Buffer_write ib (u32s_bytes (total_indices_dynamic c));
    '(vtx_data, vb) ← Buffer_map_memory vb;
    '(idx_data, ib) ← Buffer_map_memory ib;
    ins ← st_fold (adopt_vertex_region vtx_data) (vertex_regions c) ins;
    ins ← st_fold (adopt_index_region idx_data) (index_regions c) ins;
    mret (Some vb, Some ib, ins)
  else mret (None, None, ins).

(** Step 3: vertex array attributes. *)
Definition component_count (t : RendererComponentType) : nat :=
  match t with Float32 => 1 | Float32x2 => 2 | Float32x3 => 3 end.

Definition setup_attributes (vao : Z) (f : RendererElementFormat) : ST world unit :=
  _ ← lift (tz_assert (bool_decide (basis f = PerVertexBasis)));
  st_each (λ '(attrib_id, a),
    _ ← call (glEnableVertexArrayAttrib vao attrib_id);
    _ ← call (glVertexArrayAttribFormat vao attrib_id (component_count (attribute_type a)) GL_FLOAT
                (u32 (Z.of_nat (element_attribute_offset a))));
    call (glVertexArrayAttribBinding vao attrib_id 0)) (imap pair (binding_attributes f)).

Definition setup_inputs (vao : Z) (b : RendererBuilderOGL I R) (ins : list I)
    : ST world (option Buffer * option Buffer * option Buffer * option Buffer
                * option RendererElementFormat * list I) :=
  match b_inputs b with
  | [] => mret (None, None, None, None, None, ins)
  | _ =>
      h ← gets w_heap;
      c ← lift (compile h ins);
      '(vbo, ibo) ← upload_static c;
      '(vbo_dynamic, ibo_dynamic, ins) ← upload_dynamic c ins;
      f ← lift (of_option Uninitialised (fmt c));
      _ ← setup_attributes vao f;
      mret (vbo, ibo, vbo_dynamic, ibo_dynamic, Some f, ins)
  end.

(** Buffer resources, one uniform buffer each. *)
Definition setup_buffer_resource (k : nat) (st : list R * list Z) : ST world (list R * list Z) :=
  let '(rs, ubos) := st in
  r ← lift (at_index rs k);
  n ← gl_create glCreateBuffers;
  bytes ← (λ w, lift (span_read (w_heap w) (get_resource_bytes r)) w);
  match resource_access r with
  | StaticFixed =>
      _ ← gl_memory (λ s, glNamedBufferData s n (length bytes) (Some bytes) GL_STATIC_DRAW);
      mret (rs, ubos ++ [n])
  | DynamicFixed =>
      _ ← gl_memory (λ s, glNamedBufferStorage s n (length bytes) (Some bytes) persistent_mapped_buffer_flags);
      p ← state (λ w, let '(p, g) := glMapNamedBufferRange (w_heap w, w_gl w) n 0
                                       (Z.of_nat (length bytes)) persistent_mapped_buffer_flags in
                      (p, mkWorld (w_heap w) g (w_calls w)));
      p ← lift (of_option NullDeref p);
      r' ← on_heap (λ h, set_resource_data h r p);
      mret (<[k := r']> rs, ubos ++ [n])
  end.

Definition convert_filter (f : TexturePropertyFilter) : GLenum :=
  match f with Nearest => GL_NEAREST | Linear => GL_LINEAR end.

Definition convert_address_mode (m : TextureAddressMode) : GLenum :=
  match m with ClampToEdge => GL_CLAMP_TO_EDGE end.

(** The internal format, the format and the type of a texture. *)
Definition texture_formats (f : TextureFormat) : GLenum * GLenum * GLenum :=
  match f with
  | Rgba32Signed => (GL_RGBA8, GL_RGBA, GL_BYTE)
  | Rgba32Unsigned => (GL_RGBA8, GL_RGBA, GL_UNSIGNED_BYTE)
  | Rgba32sRGB => (GL_SRGB8_ALPHA8, GL_RGBA, GL_UNSIGNED_BYTE)
  | DepthFloat32 => (GL_DEPTH_COMPONENT32F, GL_DEPTH_COMPONENT, GL_FLOAT)
  end.

(** Texture resources. The minification filter is used for both filters. *)
Definition setup_texture_resource (r : R) (textures : list Z) : ST world (list Z) :=
  t ← lift (of_option NullDeref (as_texture r));
  tex ← gl_create glCreateTextures;
  let '(internal_format, format, type) := texture_formats (tv_format t) in
  let props := tv_properties t in
  _ ← call (glTextureParameteri tex GL_TEXTURE_WRAP_S (convert_address_mode (address_mode_u props)));
  _ ← call (glTextureParameteri tex GL_TEXTURE_WRAP_T (convert_address_mode (address_mode_v props)));
  _ ← call (glTextureParameteri tex GL_TEXTURE_WRAP_R (convert_address_mode (address_mode_w props)));
  _ ← call (glTextureParameteri tex GL_TEXTURE_MIN_FILTER (convert_filter (min_filter props)));
  _ ← call (glTextureParameteri tex GL_TEXTURE_MAG_FILTER (convert_filter (min_filter props)));
  _ ← call (glTextureStorage2D tex internal_format (tv_width t) (tv_height t));
  bytes ← (λ w, lift (span_read (w_heap w) (get_resource_bytes r)) w);
  _ ← call (glTextureSubImage2D tex (tv_width t) (tv_height t) format type bytes);
  mret (textures ++ [tex]).

(** *** Draw lists *)

(** The loop that gives every input its command: the four counters and the two
    maps, keyed by the input. *)
Record draw_tables := mkTables {
  static_vtx_count : Z; static_idx_count : Z; dynamic_vtx_count : Z; dynamic_idx_count : Z;
  input_draws : gmap nat DrawIndirectCommand; dynamic_input_draws : gmap nat DrawIndirectCommand }.

Definition tables_init : draw_tables := mkTables 0 0 0 0 ∅ ∅.

Definition table_input (ki : nat * I) (t : draw_tables) : res draw_tables :=
  let '(k, input) := ki in
  vtx ← vertex_count input;
  let idx := index_count input in
  match data_access input with
  | StaticFixed =>
      let cmd := mkCmd (u32 (Z.of_nat idx)) 1 (static_idx_count t) (static_vtx_count t) 0 in
      Ok (mkTables (u32 (static_vtx_count t + Z.of_nat vtx)) (u32 (static_idx_count t + Z.of_nat idx))
            (dynamic_vtx_count t) (dynamic_idx_count t)
            (<[k := cmd]> (input_draws t)) (dynamic_input_draws t))
  | DynamicFixed =>
      let cmd := mkCmd (u32 (Z.of_nat idx)) 1 (dynamic_idx_count t) (dynamic_vtx_count t) 0 in
      Ok (mkTables (static_vtx_count t) (static_idx_count t)
            (u32 (dynamic_vtx_count t + Z.of_nat vtx)) (u32 (dynamic_idx_count t + Z.of_nat idx))
            (input_draws t) (<[k := cmd]> (dynamic_input_draws t)))
  end.

Definition draw_table (ins : list I) : res draw_tables :=
  for_each table_input (imap pair ins) tables_init.

Definition convert_draw (ins : list I) (t : draw_tables) (handle : nat)
    (ds : list DrawIndirectCommand * list DrawIndirectCommand)
    : res (list DrawIndirectCommand * list DrawIndirectCommand) :=
  let '(static, dynamic) := ds in
  input ← at_index ins handle;
  match data_access input with
  | StaticFixed => Ok (static ++ [default cmd_default (input_draws t !! handle)], dynamic)
  | DynamicFixed => Ok (static, dynamic ++ [default cmd_default (dynamic_input_draws t !! handle)])
  end.

Definition convert_draws (ins : list I) (t : draw_tables) (draws : RendererDrawList)
    : res (list DrawIndirectCommand * list DrawIndirectCommand) :=
  for_each (convert_draw ins t) draws ([], []).

Definition draws_match_cache (r : RendererOGL) (l : RendererDrawList) : bool :=
  bool_decide (draw_cache r = l).

(** The indirect buffer is created once and kept while it is engaged. *)
Definition write_draws (member : option Buffer) (draws : list DrawIndirectCommand) : ST world (option Buffer) :=
  match draws with
  | [] => optional_reset member
  | _ =>
      let draw_size_bytes := length draws * sizeof_DrawIndirectCommand in
      b ← match member with
          | None =>
              b ← Buffer_new DrawIndirect StaticDraw ReadWrite draw_size_bytes;
              _ ← optional_assign None b;
              mret b
          | Some b => mret b
          end;
      _ ← Buffer_write b (concat (map cmd_bytes draws));
      mret (Some b)
  end.

Definition bind_draw_list (r : RendererOGL) (draws : RendererDrawList) : ST world RendererOGL :=
  if draws_match_cache r draws then mret r else
  t ← lift (draw_table (inputs r));
  '(internal_draws, internal_draws_dynamic) ← lift (convert_draws (inputs r) t draws);
  _ ← lift (tz_assert (length internal_draws + length internal_draws_dynamic =? length draws));
  ib ← write_draws (indirect_buffer r) internal_draws;
  ibd ← write_draws (indirect_buffer_dynamic r) internal_draws_dynamic;
  mret (mkRenderer (vao r) (vbo r) (ibo r) (vbo_dynamic r) (ibo_dynamic r) ib ibd
          (resources r) (resource_ubos r) (resource_textures r) (format r) (pass_attachment r)
          (shader r) (inputs r) (output r) draws).

Definition all_inputs_once (ins : list I) : RendererDrawList := seq 0 (length ins).

(** The whole constructor. *)
Definition RendererOGL_new (b : RendererBuilderOGL I R) : ST world RendererOGL :=
  shader ← lift (builder_get_shader b);
  ins ← lift (copy_inputs b);
  culling ← lift (builder_get_culling_strategy b);
  _ ← setup_state (b_pass b) culling;
  vao ← gl_create glCreateVertexArrays;
  _ ← call (glBindVertexArray vao);
  '(vbo, ibo, vbo_dynamic, ibo_dynamic, f, ins) ← setup_inputs vao b ins;
  let buffers := map clone_resource (b_buffer_resources b) in
  let textures := map clone_resource (b_texture_resources b) in
  '(rs, ubos) ← st_fold setup_buffer_resource (seq 0 (length buffers)) (buffers ++ textures, []);
  texs ← st_fold setup_texture_resource textures [];
  bind_draw_list (mkRenderer vao vbo ibo vbo_dynamic ibo_dynamic None None rs ubos texs f
                    (b_pass b) (Some shader) ins (b_output b) []) (all_inputs_once ins).

(** *** Queries *)

Definition input_count (r : RendererOGL) : nat := length (inputs r).

Definition input_count_of (r : RendererOGL) (access : RendererInputDataAccess) : nat :=
  foldl (λ init i, if bool_decide (data_access i = access) then init + 1 else init) 0 (inputs r).

Definition get_input (r : RendererOGL) (handle : nat) : option I :=
  if length (inputs r) <=? handle then None else inputs r !! handle.

Definition resource_count (r : RendererOGL) : nat := length (resources r).

Definition resource_count_of (r : RendererOGL) (type : ResourceType) : nat :=
  foldl (λ init x, if bool_decide (get_type x = type) then init + 1 else init) 0 (resources r).

Definition get_resource (r : RendererOGL) (handle : nat) : option R :=
  if length (resources r) <=? handle then None else resources r !! handle.

Definition set_clear_colour (c : list Z) : ST world unit :=
  modify (λ w, mkWorld (w_heap w) (glClearColor (w_gl w) c) (w_calls w)).
Definition get_clear_colour : ST world (list Z) := gets (λ w, glGetClearColor (w_gl w)).

Definition num_inputs_of (r : RendererOGL) (access : RendererInputDataAccess) : nat :=
  foldl (λ acc i, acc + (if bool_decide (data_access i = access) then 1 else 0)) 0 (inputs r).

(** [num_static_draws] and [num_dynamic_draws]. *)
Definition num_draws_of (access : RendererInputDataAccess) (r : RendererOGL) : res nat :=
  for_each (λ handle acc, i ← at_index (inputs r) handle;
              Ok (acc + (if bool_decide (data_access i = access) then 1 else 0))) (draw_cache r) 0.

(** *** render() *)

Definition clear_bits (pass : RenderPassAttachment) : list GLenum :=
  match pass with
  | Colour => [GL_COLOR_BUFFER_BIT]
  | Depth => [GL_DEPTH_BUFFER_BIT]
  | ColourDepth => [GL_COLOR_BUFFER_BIT; GL_DEPTH_BUFFER_BIT]
  end.

(** One of the two draw blocks at the end of [render]. *)
Definition draw_block (r : RendererOGL) (indirect vb ib : option Buffer) (draws : res nat) : ST world unit :=
  match indirect with
  | None => mret tt
  | Some ind =>
      vb ← lift (of_option NullDeref vb);
      f ← lift (of_option Uninitialised (format r));
      _ ← call (glVertexArrayVertexBuffer (vao r) (buf vb) (binding_size f));
      ib ← lift (of_option NullDeref ib);
      _ ← call (glVertexArrayElementBuffer (vao r) (buf ib));
      _ ← Buffer_bind ind;
      n ← lift draws;
      call (glMultiDrawElementsIndirect n sizeof_DrawIndirectCommand)
  end.

(** [window] is the size of the application's window. *)
Definition render (window : Z * Z) (r : RendererOGL) : ST world unit :=
  _ ← match output r with
      | Some Window =>
          _ ← call (glBindFramebuffer 0);
          call (glViewport (fst window) (snd window))
      | _ => mret tt
      end;
  _ ← call (glClear (clear_bits (pass_attachment r)));
  _ ← call (glBindVertexArray (vao r));
  _ ← st_each (λ '(i, ubo), call (glBindBufferBase i ubo)) (imap pair (resource_ubos r));
  program ← lift (of_option NullDeref (shader r));
  _ ← call (glUseProgram program);
  _ ← st_each (λ '(i, tex),
         let tex_location := length (resource_ubos r) + i in
         _ ← call (glBindTextureUnit tex_location tex);
         call (glProgramUniform1i program tex_location tex_location)) (imap pair (resource_textures r));
  _ ← draw_block r (indirect_buffer r) (vbo r) (ibo r) (num_draws_of StaticFixed r);
  draw_block r (indirect_buffer_dynamic r) (vbo_dynamic r) (ibo_dynamic r) (num_draws_of DynamicFixed r).

(** [render(draw_list)]. *)
Definition render_list (window : Z * Z) (r : RendererOGL) (draws : RendererDrawList) : ST world RendererOGL :=
  r ← (if negb (draws_match_cache r draws) then bind_draw_list r draws else mret r);
  _ ← render window r;
  mret r.

(** *** Moves and destruction *)

(** What the move constructor initialises before it assigns. *)
Definition moved_to : RendererOGL :=
  mkRenderer 0 None None None None None None [] [] [] None ColourDepth None [] None [].

(** Move assignment: the members it swaps. *)
Definition move_assign (this rhs : RendererOGL) : RendererOGL * RendererOGL :=
  (mkRenderer (vao rhs) (vbo rhs) (ibo rhs) (vbo_dynamic this) (ibo_dynamic this)
     (indirect_buffer this) (indirect_buffer_dynamic this) (resources this) (resource_ubos rhs)
     (resource_textures rhs) (format rhs) (pass_attachment rhs) (shader rhs) (inputs rhs) (output rhs)
     (draw_cache this),
   mkRenderer (vao this) (vbo this) (ibo this) (vbo_dynamic rhs) (ibo_dynamic rhs)
     (indirect_buffer rhs) (indirect_buffer_dynamic rhs) (resources rhs) (resource_ubos this)
     (resource_textures this) (format this) (pass_attachment this) (shader this) (inputs this) (output this)
     (draw_cache rhs)).

Definition move_construct (move : RendererOGL) : RendererOGL * RendererOGL := move_assign moved_to move.

(** The destructor, then the members in reverse order. *)
Definition RendererOGL_destroy (r : RendererOGL) : ST world unit :=
  _ ← gl_memory (λ s, glDeleteBuffers s (resource_ubos r));
  _ ← call (glDeleteTextures (resource_textures r));
  _ ← (if negb (vao r =? 0)%Z then call (glDeleteVertexArrays (vao r)) else mret tt);
  st_each (λ m, _ ← optional_reset m; mret tt)
    [indirect_buffer_dynamic r; indirect_buffer r; ibo_dynamic r; vbo_dynamic r; ibo r; vbo r].

End Renderer.
Arguments RendererOGL : clear implicits.
