(* ===== verification/OGLRendererFacts.v ===== *)
(** * The OpenGL renderer: what is uploaded and what is drawn

    The data of all inputs is laid out class by class (static, dynamic); the
    draw commands address exactly that layout, so that a draw fetches the
    vertices of its own input. *)

From S2P Require Import Prelude Containers Memory RenderTypes OpenGL OGLRenderer.

(** ** Data by class *)

Section Layout.
Context {I : Type} `{II : IRendererInput I}.

(** The bytes and indices of an input that still owns its data. *)
Definition owned_bytes (i : I) : list Z :=
  match get_vertex_bytes i with Owned bs => bs | At _ _ => [] end.
Definition owned_indices (i : I) : list Z :=
  match get_indices i with OwnedI l => l | AtI _ _ => [] end.

(** [g i] for the inputs of one class, nothing for the others. *)
Definition data_of (acc : RendererInputDataAccess) (g : I → list Z) (i : I) : list Z :=
  if bool_decide (data_access i = acc) then g i else [].

Definition count_of (acc : RendererInputDataAccess) (g : I → nat) (i : I) : nat :=
  if bool_decide (data_access i = acc) then g i else 0.

Definition all_data (acc : RendererInputDataAccess) (g : I → list Z) (ins : list I) : list Z :=
  concat (map (data_of acc g) ins).

Definition region_of (g : I → list Z) (ins : list I) (k : nat) : option Region :=
  match ins !! k with
  | Some i => if bool_decide (data_access i = DynamicFixed)
              then Some (mkRegion k (offset_of (length ∘ data_of DynamicFixed g) ins k) (length (g i)))
              else None
  | None => None
  end.

Definition regions_of (g : I → list Z) (ins : list I) (m : nat) : list Region :=
  omap (region_of g ins) (seq 0 m).

(** The number of vertices of an input whose size is a multiple of its stride. *)
Definition vertex_number (i : I) : nat := vertex_count_bytes i / binding_size (get_format i).

(** The command an input is drawn with. *)
Definition command (ins : list I) (k : nat) (i : I) : DrawIndirectCommand :=
  mkCmd (u32 (Z.of_nat (index_count i))) 1
    (u32 (Z.of_nat (offset_of (count_of (data_access i) index_count) ins k)))
    (u32 (Z.of_nat (offset_of (count_of (data_access i) vertex_number) ins k))) 0.

Lemma data_of_same acc g i : data_access i = acc → data_of acc g i = g i.
Proof. intros H. unfold data_of. by rewrite bool_decide_true. Qed.

Lemma data_of_other acc g i : data_access i ≠ acc → data_of acc g i = [].
Proof. intros H. unfold data_of. by rewrite bool_decide_false. Qed.

Lemma all_data_snoc acc g ins i : all_data acc g (ins ++ [i]) = all_data acc g ins ++ data_of acc g i.
Proof. unfold all_data. rewrite map_app, concat_app. simpl. by rewrite app_nil_r. Qed.

Lemma all_data_length acc g ins m :
  length (all_data acc g (take m ins)) = offset_of (length ∘ data_of acc g) ins m.
Proof. unfold all_data. by rewrite length_concat_map. Qed.

(** The part of an input in the data of its class. *)
Lemma all_data_slice g ins k i : ins !! k = Some i →
  slice (offset_of (length ∘ data_of (data_access i) g) ins k) (length (g i))
    (all_data (data_access i) g ins) = g i.
Proof.
  intros H. pose proof (slice_concat (data_of (data_access i) g) ins k i H) as E.
  by rewrite !data_of_same in E.
Qed.

Lemma all_data_bound g ins k i : ins !! k = Some i →
  offset_of (length ∘ data_of (data_access i) g) ins k + length (g i) ≤
  length (all_data (data_access i) g ins).
Proof.
  intros H. unfold all_data. rewrite length_concat_map.
  pose proof (offset_of_total (length ∘ data_of (data_access i) g) ins k i H) as E.
  simpl in E. by rewrite data_of_same in E.
Qed.

Lemma offset_of_ext {A} (f g : A → nat) l k :
  (∀ x, x ∈ l → f x = g x) → offset_of f l k = offset_of g l k.
Proof.
  intros H. unfold offset_of. assert (Ht : ∀ x, x ∈ take k l → f x = g x).
  { intros x Hx. apply H. by eapply elem_of_take in Hx as (? & ?%list_elem_of_lookup_2 & _). }
  induction (take k l) as [|x t IH]; [done|]. simpl. rewrite Ht, IH; set_solver.
Qed.

Lemma regions_of_S g ins m i : ins !! m = Some i →
  regions_of g ins (S m) = regions_of g ins m ++
    (if bool_decide (data_access i = DynamicFixed)
     then [mkRegion m (offset_of (length ∘ data_of DynamicFixed g) ins m) (length (g i))] else []).
Proof.
  intros H. unfold regions_of. rewrite seq_S, omap_app. simpl. unfold region_of at 2.
  rewrite H. by case_bool_decide.
Qed.

(** Step 1 of the constructor concatenates the data of each class. *)
Lemma compile_spec h ins :
  (∀ i, i ∈ ins → ∃ bs ixs, detached i bs ixs) →
  ∃ c, compile h ins = Ok c ∧
    total_vertices c = all_data StaticFixed owned_bytes ins ∧
    total_indices c = all_data StaticFixed owned_indices ins ∧
    total_vertices_dynamic c = all_data DynamicFixed owned_bytes ins ∧
    total_indices_dynamic c = all_data DynamicFixed owned_indices ins ∧
    vertex_regions c = regions_of owned_bytes ins (length ins) ∧
    index_regions c = regions_of owned_indices ins (length ins) ∧
    any_static_geometry c = existsb (λ i, bool_decide (data_access i = StaticFixed)) ins ∧
    any_dynamic_geometry c = existsb (λ i, bool_decide (data_access i = DynamicFixed)) ins ∧
    fmt c = get_format <$> last ins.
Proof.
  intros Hd. unfold compile.
  destruct (for_each_imap_ind (λ m c,
    total_vertices c = all_data StaticFixed owned_bytes (take m ins) ∧
    total_indices c = all_data StaticFixed owned_indices (take m ins) ∧
    total_vertices_dynamic c = all_data DynamicFixed owned_bytes (take m ins) ∧
    total_indices_dynamic c = all_data DynamicFixed owned_indices (take m ins) ∧
    vertex_regions c = regions_of owned_bytes ins m ∧
    index_regions c = regions_of owned_indices ins m ∧
    any_static_geometry c = existsb (λ i, bool_decide (data_access i = StaticFixed)) (take m ins) ∧
    any_dynamic_geometry c = existsb (λ i, bool_decide (data_access i = DynamicFixed)) (take m ins) ∧
    fmt c = get_format <$> last (take m ins))
    (compile_input h) ins compiled_init) as (c & E & HQ); [done| |].
  - intros m i c Hi (H1 & H2 & H3 & H4 & H5 & H6 & H7 & H8 & H9).
    destruct (Hd i) as (bs & ixs & Hb & Hx); [by eapply list_elem_of_lookup_2|].
    rewrite !(take_S_r _ m i Hi), !all_data_snoc, !existsb_app, last_snoc.
    rewrite (regions_of_S owned_bytes _ _ _ Hi), (regions_of_S owned_indices _ _ _ Hi).
    rewrite <- !all_data_length, <- H1, <- H2, <- H3, <- H4, <- H5, <- H6, <- H7, <- H8.
    unfold compile_input, data_of, owned_bytes, owned_indices. rewrite Hb, Hx. simpl.
    destruct (data_access i); eexists; (split; [done|]); simpl;
      rewrite ?app_nil_r, ?orb_true_r, ?orb_false_r; split_and!; done.
  - rewrite take_ge in HQ by done. eauto.
Qed.

(** The command of every input. *)
Lemma draw_table_spec ins :
  (∀ i, i ∈ ins → binding_size (get_format i) ≠ 0) →
  ∃ t, draw_table ins = Ok t ∧
    ∀ k i, ins !! k = Some i →
      match data_access i with
      | StaticFixed => input_draws t !! k = Some (command ins k i)
      | DynamicFixed => dynamic_input_draws t !! k = Some (command ins k i)
      end.
Proof.
  intros Hs. unfold draw_table.
  destruct (for_each_imap_ind (λ m t,
    static_vtx_count t = u32 (Z.of_nat (offset_of (count_of StaticFixed vertex_number) ins m)) ∧
    static_idx_count t = u32 (Z.of_nat (offset_of (count_of StaticFixed index_count) ins m)) ∧
    dynamic_vtx_count t = u32 (Z.of_nat (offset_of (count_of DynamicFixed vertex_number) ins m)) ∧
    dynamic_idx_count t = u32 (Z.of_nat (offset_of (count_of DynamicFixed index_count) ins m)) ∧
    ∀ k i, k < m → ins !! k = Some i →
      match data_access i with
      | StaticFixed => input_draws t !! k = Some (command ins k i)
      | DynamicFixed => dynamic_input_draws t !! k = Some (command ins k i)
      end) table_input ins tables_init) as (t & E & HQ).
  - split_and!; try done. intros; lia.
  - intros m i t Hi (H1 & H2 & H3 & H4 & H5).
    assert (Hb : binding_size (get_format i) ≠ 0) by (eapply Hs, list_elem_of_lookup_2, Hi).
    rewrite !(offset_of_S _ _ _ _ Hi). unfold count_of at 2 4 6 8.
    unfold table_input, vertex_count.
    rewrite (proj2 (Nat.eqb_neq _ _) Hb). cbn [mbind res_bind]. fold (vertex_number i).
    destruct (data_access i) eqn:Ea; eexists; (split; [done|]); cbn -[u32]; split_and!;
      rewrite ?Nat.add_0_r, ?Nat2Z.inj_add, ?u32_add_l, ?H1, ?H2, ?H3, ?H4, ?u32_add_l; try done;
      intros k j Hk Hj; (destruct (decide (k = m)) as [->|Hne];
        [rewrite Hi in Hj; injection Hj as <-; rewrite Ea, lookup_insert_eq; unfold command;
         by rewrite Ea
        |specialize (H5 k j ltac:(lia) Hj); destruct (data_access j);
         rewrite ?lookup_insert_ne by done; exact H5]).
  - exists t. split; [done|]. intros k i Hk. apply HQ; [|done]. by eapply lookup_lt_Some.
Qed.

(** The draw list is split by class, in order. *)
Definition draws_of (acc : RendererInputDataAccess) (ins : list I) (draws : RendererDrawList)
    : list DrawIndirectCommand :=
  omap (λ k, match ins !! k with
             | Some i => if bool_decide (data_access i = acc) then Some (command ins k i) else None
             | None => None end) draws.

Lemma convert_draws_spec ins t draws :
  (∀ k i, ins !! k = Some i →
      match data_access i with
      | StaticFixed => input_draws t !! k = Some (command ins k i)
      | DynamicFixed => dynamic_input_draws t !! k = Some (command ins k i)
      end) →
  Forall (λ k, k < length ins) draws →
  convert_draws ins t draws = Ok (draws_of StaticFixed ins draws, draws_of DynamicFixed ins draws).
Proof.
  intros Ht Hd. unfold convert_draws.
  destruct (for_each_ind (λ d ds, ds = (draws_of StaticFixed ins d, draws_of DynamicFixed ins d))
    (convert_draw ins t) draws ([], [])) as (ds & E & ->); [done| |done].
  intros d k rest ds -> ->. apply Forall_app in Hd as [_ [Hk _]%Forall_cons].
  destruct (lookup_lt_is_Some_2 ins k Hk) as [i Hi].
  unfold convert_draw. rewrite (at_index_Some _ _ _ Hi). cbn [mbind res_bind].
  specialize (Ht k i Hi). unfold draws_of. rewrite !omap_app. simpl. rewrite Hi.
  destruct (data_access i) eqn:Ea; eexists; (split; [done|]); rewrite Ht; simpl;
    rewrite app_nil_r; done.
Qed.

Lemma draws_of_cons acc ins k draws i : ins !! k = Some i →
  draws_of acc ins (k :: draws) =
  (if bool_decide (data_access i = acc) then [command ins k i] else []) ++ draws_of acc ins draws.
Proof. intros Hi. unfold draws_of. simpl. rewrite Hi. by case_bool_decide. Qed.

Lemma draws_of_length ins draws : Forall (λ k, k < length ins) draws →
  length (draws_of StaticFixed ins draws) + length (draws_of DynamicFixed ins draws) = length draws.
Proof.
  induction 1 as [|k draws Hk _ IH]; [done|].
  destruct (lookup_lt_is_Some_2 ins k Hk) as [i Hi]. rewrite !(draws_of_cons _ _ _ _ i Hi).
  rewrite !length_app. cbn [length].
  destruct (data_access i); repeat (case_bool_decide; [try done|try done]); cbn [length]; lia.
Qed.

(** *** What a draw fetches *)

(** An indexed draw as OpenGL defines it: [count] indices from [firstIndex] on,
    each plus [baseVertex] selecting an element of the vertex buffer. *)
Definition fetch_draw (ib vb : list Z) (stride : nat) (c : DrawIndirectCommand) : list (list Z) :=
  map (λ k, let ix := of_le32 (slice (4 * (Z.to_nat (firstIndex c) + k)) 4 ib) in
            slice (stride * (Z.to_nat (baseVertex c + ix))) stride vb)
      (seq 0 (Z.to_nat (count c))).

(** The vertices of a mesh, in the order of its indices. *)
Definition mesh_vertices (stride : nat) (bs ixs : list Z) : list (list Z) :=
  map (λ ix, slice (stride * Z.to_nat ix) stride bs) ixs.

(** What a draw list shows of the inputs of a class. *)
Definition drawn (stride : nat) (acc : RendererInputDataAccess) (ins : list I) (draws : RendererDrawList) : list (list (list Z)) :=
  omap (λ k, match ins !! k with
             | Some i => if bool_decide (data_access i = acc)
                         then Some (mesh_vertices stride (owned_bytes i) (owned_indices i)) else None
             | None => None end) draws.

(** What the interface documents: the inputs of the list in its order. *)
Definition drawn_in_order (stride : nat) (ins : list I) (draws : RendererDrawList) : list (list (list Z)) :=
  omap (λ k, i ← ins !! k; Some (mesh_vertices stride (owned_bytes i) (owned_indices i))) draws.

Lemma drawn_app stride acc ins draws draws' :
  drawn stride acc ins (draws ++ draws') = drawn stride acc ins draws ++ drawn stride acc ins draws'.
Proof. apply omap_app. Qed.

Lemma drawn_of_class stride acc acc' (ins : list I) draws :
  Forall (λ k, ∀ i, ins !! k = Some i → data_access i = acc) draws →
  drawn stride acc' ins draws = if decide (acc' = acc) then drawn_in_order stride ins draws else [].
Proof.
  induction 1 as [|k draws Hk _ IH]; [by case_decide|]. cbn. destruct (ins !! k) as [i|] eqn:Ei; [|exact IH].
  cbn. specialize (Hk i eq_refl). case_decide as Hd; [subst acc'; rewrite bool_decide_eq_true_2 by done; by f_equal|].
  rewrite bool_decide_eq_false_2 by congruence. exact IH.
Qed.

(** A renderer, which draws the static inputs of a list before its dynamic ones,
    keeps the order of a list that does not name a static input behind a dynamic
    one. *)
Lemma static_first_in_order stride (ins : list I) draws draws' :
  Forall (λ k, ∀ i, ins !! k = Some i → data_access i = StaticFixed) draws →
  Forall (λ k, ∀ i, ins !! k = Some i → data_access i = DynamicFixed) draws' →
  drawn stride StaticFixed ins (draws ++ draws') ++ drawn stride DynamicFixed ins (draws ++ draws') =
  drawn_in_order stride ins (draws ++ draws').
Proof.
  intros Hs Hd. rewrite !drawn_app. rewrite !(drawn_of_class _ StaticFixed _ _ draws Hs), !(drawn_of_class _ DynamicFixed _ _ draws' Hd).
  cbn. rewrite app_nil_r. unfold drawn_in_order. by rewrite omap_app.
Qed.

Lemma map_draws {A} acc (ins : list I) (f : DrawIndirectCommand → A) (g : I → A) draws :
  (∀ k i, ins !! k = Some i → data_access i = acc → f (command ins k i) = g i) →
  map f (draws_of acc ins draws) =
  omap (λ k, match ins !! k with Some i => if bool_decide (data_access i = acc) then Some (g i) else None | None => None end) draws.
Proof.
  intros H. induction draws as [|k draws IH]; [done|]. unfold draws_of in *. cbn. destruct (ins !! k) as [i|] eqn:Ei; [|exact IH].
  case_bool_decide; [|exact IH]. cbn. f_equal; [by apply H|exact IH].
Qed.

(** An input that owns well-formed data of the given stride. *)
Definition input_data_ok (stride : nat) (i : I) : Prop :=
  (∃ bs ixs, detached i bs ixs) ∧
  binding_size (get_format i) = stride ∧
  length (owned_bytes i) = stride * vertex_number i ∧
  Forall (λ z, 0 ≤ z < Z.of_nat (vertex_number i))%Z (owned_indices i).

Lemma owned_index_count stride i : input_data_ok stride i → index_count i = length (owned_indices i).
Proof. intros ((bs & ixs & _ & H) & _). unfold index_count, owned_indices. by rewrite H. Qed.

Lemma offset_scale (f g : I → nat) s l k :
  (∀ x, x ∈ l → g x = s * f x) → offset_of g l k = s * offset_of f l k.
Proof.
  intros H. unfold offset_of. assert (Ht : ∀ x, x ∈ take k l → g x = s * f x).
  { intros x Hx. apply H. by eapply elem_of_take in Hx as (? & ?%list_elem_of_lookup_2 & _). }
  induction (take k l) as [|x t IH]; simpl; [lia|]. rewrite Ht, IH; set_solver by lia.
Qed.

Section Fetch.
Variables (stride : nat) (ins : list I) (k : nat) (i : I).
Hypothesis Hok : Forall (input_data_ok stride) ins.
Hypothesis Hk : ins !! k = Some i.

Lemma index_offset :
  offset_of (count_of (data_access i) index_count) ins k =
  offset_of (length ∘ data_of (data_access i) owned_indices) ins k.
Proof.
  apply offset_of_ext. intros j Hj. rewrite Forall_forall in Hok.
  unfold count_of, data_of, compose. case_bool_decide; [|done].
  by eapply owned_index_count, Hok.
Qed.

Lemma vertex_offset :
  offset_of (length ∘ data_of (data_access i) owned_bytes) ins k =
  stride * offset_of (count_of (data_access i) vertex_number) ins k.
Proof.
  apply offset_scale. intros j Hj. rewrite Forall_forall in Hok.
  destruct (Hok j Hj) as (_ & _ & E & _). unfold count_of, data_of, compose.
  case_bool_decide; [done|simpl; lia].
Qed.

(** The indices of an input are where its command says. *)
Lemma index_fetch j z : owned_indices i !! j = Some z →
  slice (4 * (offset_of (count_of (data_access i) index_count) ins k + j)) 4
    (u32s_bytes (all_data (data_access i) owned_indices ins)) = le32 z.
Proof.
  intros Hz. apply slice_u32s_bytes. rewrite index_offset.
  pose proof (all_data_slice owned_indices ins k i Hk) as E.
  rewrite <- E, lookup_slice in Hz; [done|].
  apply lookup_lt_Some in Hz. rewrite length_slice in Hz; [done|]. by apply all_data_bound.
Qed.

(** So are its vertices. *)
Lemma vertex_fetch v : v < vertex_number i →
  slice (stride * (offset_of (count_of (data_access i) vertex_number) ins k + v)) stride
    (all_data (data_access i) owned_bytes ins) = slice (stride * v) stride (owned_bytes i).
Proof.
  intros Hv. pose proof Hok as Hf. rewrite Forall_forall in Hf.
  destruct (Hf i) as (_ & _ & E & _); [by eapply list_elem_of_lookup_2|].
  rewrite <- (all_data_slice owned_bytes ins k i Hk) at 1.
  rewrite Nat.mul_add_distr_l, <- vertex_offset. unfold slice.
  rewrite skipn_firstn_comm, take_take, drop_drop, E. f_equal. nia.
Qed.

Lemma fetch_draw_command :
  (Z.of_nat (length (all_data (data_access i) owned_indices ins)) < modulus32)%Z →
  (Z.of_nat (offset_of (count_of (data_access i) vertex_number) ins k + vertex_number i) < modulus32)%Z →
  fetch_draw (u32s_bytes (all_data (data_access i) owned_indices ins))
    (all_data (data_access i) owned_bytes ins) stride (command ins k i) =
  mesh_vertices stride (owned_bytes i) (owned_indices i).
Proof.
  intros Hi Hv. pose proof Hok as Hf. rewrite Forall_forall in Hf.
  pose proof (Hf i ltac:(by eapply list_elem_of_lookup_2)) as Hoki.
  destruct Hoki as (_ & _ & _ & Hix).
  pose proof (all_data_bound owned_indices ins k i Hk) as Hb. rewrite <- index_offset in Hb.
  unfold fetch_draw, mesh_vertices, command. cbn [count firstIndex baseVertex].
  rewrite (owned_index_count stride i) by (eapply Hf, list_elem_of_lookup_2, Hk).
  rewrite !u32_small by lia. rewrite !Nat2Z.id.
  apply list_eq. intros j. rewrite !list_lookup_fmap.
  destruct (owned_indices i !! j) as [z|] eqn:Ez.
  - rewrite lookup_seq_lt by (by eapply lookup_lt_Some). cbn [fmap option_fmap option_map]. f_equal. rewrite Nat.add_0_l.
    cbv zeta. rewrite (index_fetch j z Ez). pose proof (Forall_lookup_1 _ _ _ _ Hix Ez) as Hz.
    simpl in Hz. rewrite of_le32_le32 by lia. rewrite Z2Nat.inj_add, Nat2Z.id by lia.
    apply vertex_fetch. lia.
  - apply lookup_ge_None in Ez. by rewrite lookup_seq_ge by lia.
Qed.

End Fetch.
End Layout.
