(* ===== verification/OGLConstruct.v ===== *)
(** * The OpenGL renderer: construction and rendering

    What the constructor of [RendererOGL] leaves in the buffers, what its draw
    commands fetch, and the properties of draw lists, handles and moves. *)

From S2P Require Import Prelude Containers Memory RenderTypes Inputs OpenGL OGLRenderer OGLRendererFacts.

Section Construct.
Context `{BC : BuildConfig} `{G : GL} {GS : GLSpec} {I : Type} `{II : IRendererInput I} {LI : RendererInputLaws I}.
Context {R : Type} `{IR : IResource R}.
Implicit Types (w : world) (ins : list I).

(** ** Copies and adopted inputs *)

(** Two inputs that are drawn alike. *)
Definition same_shape {J} `{IRendererInput J} (i : I) (j : J) : Prop :=
  data_access j = data_access i ∧ get_format j = get_format i ∧
  vertex_count_bytes j = vertex_count_bytes i ∧ index_count j = index_count i.

(** Two inputs that own the same data. *)
Definition same_data (i j : I) : Prop :=
  data_access j = data_access i ∧ get_format j = get_format i ∧
  get_vertex_bytes j = get_vertex_bytes i ∧ get_indices j = get_indices i.

Lemma same_data_shape i j : same_data i j → same_shape i j.
Proof. intros (? & ? & Hv & Hi). unfold same_shape, vertex_count_bytes, index_count. by rewrite Hv, Hi. Qed.

(** Cloning the inputs of a builder, in either back end. *)
Lemma clone_inputs_spec (l : list I) :
  (∀ i, i ∈ l → ∃ bs ixs, detached i bs ixs) →
  ∃ ins, for_each (λ input inputs, i ← unique_clone input; Ok (inputs ++ [i])) l [] = Ok ins ∧ Forall2 same_data l ins.
Proof.
  intros Hd. apply (for_each_ind (λ d ins, Forall2 same_data d ins)); [constructor|].
  intros d i rest ins Hl HF.
  destruct (Hd i) as (bs & ixs & Hdet); [rewrite Hl; set_solver|].
  destruct (detached_clone i bs ixs Hdet) as (j & Ej & Hj).
  destruct (clone_detached i j Ej) as (Ha & Hf & _).
  rewrite Ej. simpl. eexists; split; [done|]. apply Forall2_app; [done|].
  constructor; [|constructor]. destruct Hdet, Hj. unfold same_data. split_and!; congruence.
Qed.

Lemma copy_inputs_spec (b : RendererBuilderOGL I R) :
  (∀ i, i ∈ b_inputs b → ∃ bs ixs, detached i bs ixs) →
  ∃ ins, copy_inputs b = Ok ins ∧ Forall2 same_data (b_inputs b) ins.
Proof. apply clone_inputs_spec. Qed.

Lemma Forall2_offset {A B} (P : A → B → Prop) f g l l' k :
  Forall2 P l l' → (∀ i j, P i j → f i = g j) → offset_of f l k = offset_of g l' k.
Proof.
  intros HF Hfg. unfold offset_of. revert k.
  induction HF as [|i j l l' Hij _ IH]; intros [|k]; simpl; try done. by rewrite IH, (Hfg i j).
Qed.

Lemma all_data_same acc g ins ins' :
  Forall2 same_data ins ins' → (∀ i j, same_data i j → g j = g i) →
  all_data acc g ins' = all_data acc g ins.
Proof.
  intros HF Hg. unfold all_data. induction HF as [|i j l l' Hij _ IH]; [done|]. simpl.
  rewrite IH. f_equal. unfold data_of. rewrite (Hg i j Hij). by destruct Hij as (-> & _).
Qed.

Lemma same_data_owned i j : same_data i j → owned_bytes j = owned_bytes i ∧ owned_indices j = owned_indices i.
Proof. intros (_ & _ & Hv & Hi). unfold owned_bytes, owned_indices. by rewrite Hv, Hi. Qed.

Lemma command_same_shape {J} `{IRendererInput J} ins (ins' : list J) k i (j : J) :
  Forall2 same_shape ins ins' → same_shape i j → command ins' k j = command ins k i.
Proof.
  intros HF Hij. unfold command. destruct Hij as (Ha & _ & _ & Hi). rewrite Hi, Ha. f_equal; f_equal; f_equal.
  - symmetry. eapply Forall2_offset; [exact HF|]. intros x y (Hx & _ & _ & Hxi).
    unfold count_of. by rewrite Hx, Hxi.
  - symmetry. eapply Forall2_offset; [exact HF|]. intros x y (Hx & Hf & Hv & _).
    unfold count_of, vertex_number. by rewrite Hx, Hf, Hv.
Qed.

Lemma draws_of_same_shape {J} `{IRendererInput J} acc ins (ins' : list J) draws :
  Forall2 same_shape ins ins' → draws_of acc ins' draws = draws_of acc ins draws.
Proof.
  intros HF. induction draws as [|k draws IH]; [done|].
  destruct (ins !! k) as [i|] eqn:Ei.
  - destruct (Forall2_lookup_l _ _ _ _ _ HF Ei) as (j & Ej & Hij).
    rewrite (draws_of_cons _ _ _ _ _ Ei), (draws_of_cons _ _ _ _ _ Ej), IH.
    rewrite (command_same_shape ins ins' k i j HF Hij). by destruct Hij as (-> & _).
  - assert (Ej : ins' !! k = None).
    { apply lookup_ge_None. apply lookup_ge_None in Ei. apply Forall2_length in HF. lia. }
    unfold draws_of in *. simpl. by rewrite Ei, Ej.
Qed.

(** ** Uploading *)

Lemma extends_only_changes w w' n : contents w n = None → only_changes n w w' → extends w w'.
Proof. intros Hn Hc m Hm. apply Hc. intros ->. rewrite Hn in Hm. by apply is_Some_None in Hm. Qed.

(** A new buffer filled with its data. *)
Lemma new_and_write t p u data w : gl_ok w → (u = PersistentMapped → data ≠ []) →
  ∃ b w1 w2 w', Buffer_new t p u (length data) w = Ok (b, w1) ∧
    optional_assign None b w1 = Ok (Some b, w2) ∧ Buffer_write b data w2 = Ok (tt, w') ∧
    gl_ok w' ∧ extends w w' ∧ contents w' (buf b) = Some data ∧ (mapped_ptr b = None ∧ type b = t) ∧ contents w (buf b) = None.
Proof.
  intros Hw Hne.
  destruct (Buffer_new_spec t p u (length data) w Hw)
    as (b & w1 & bs & E1 & O1 & X1 & C1 & L1 & N1 & M1 & T1 & _ & F1 & _).
  { intros Hu. destruct data; [by destruct Hne|cbn; lia]. }
  destruct (optional_assign_None b w1 O1) as (w2 & E2 & X2 & O2 & _).
  destruct (X2 (buf b)) as [C2 _]; [by rewrite C1|]. rewrite C1 in C2.
  destruct (Buffer_write_spec b w2 bs data O2 M1 C2) as (w' & E3 & O3 & C3 & Ch & _); [lia|].
  exists b, w1, w2, w'. do 4 (split; [done|]). split_and!; try done.
  - intros m Hm. assert (m ≠ buf b) by (intros ->; rewrite F1 in Hm; by apply is_Some_None in Hm).
    destruct (X1 m Hm) as [C B]. destruct (X2 m) as [C' B']; [by rewrite C|].
    destruct (Ch m) as [C'' B'']; [done|]. by rewrite C'', B'', C', B'.
  - rewrite C3. f_equal. by apply splice_all.
Qed.

(** A buffer of [w] that is still the same in [w']. *)
Lemma extends_contents w w' n bs : extends w w' → contents w n = Some bs → contents w' n = Some bs.
Proof. intros X C. destruct (X n) as [E _]; [by rewrite C|]. by rewrite E. Qed.

(** The names of the buffers that exist, and whether a name has a data store. *)
Definition names (l : list (option Buffer)) : list Z := omap (fmap buf) l.
Definition live w (n : Z) : Prop := is_Some (contents w n).

Lemma live_extends w w' n : extends w w' → live w n → live w' n.
Proof. intros X Hn. unfold live. by destruct (X n Hn) as [-> _]. Qed.

Lemma upload_static_spec c w : gl_ok w → any_static_geometry c = true →
  ∃ vb ib w', upload_static c w = Ok ((Some vb, Some ib), w') ∧ gl_ok w' ∧ extends w w' ∧
    contents w' (buf vb) = Some (total_vertices c) ∧
    contents w' (buf ib) = Some (u32s_bytes (total_indices c)).
Proof.
  intros Hw Hs. unfold upload_static. rewrite Hs.
  destruct (new_and_write Vertex StaticDraw ReadWrite (total_vertices c) w Hw ltac:(done))
    as (vb & w1 & w2 & w3 & E1 & E2 & E3 & O3 & X3 & C3 & _ & _).
  rewrite (st_bind_Ok _ _ _ _ _ E1), (st_bind_Ok _ _ _ _ _ E2), (st_bind_Ok _ _ _ _ _ E3).
  destruct (new_and_write Index StaticDraw ReadWrite (u32s_bytes (total_indices c)) w3 O3 ltac:(done))
    as (ib & w4 & w5 & w6 & E4 & E5 & E6 & O6 & X6 & C6 & _ & _).
  rewrite length_u32s_bytes, Nat.mul_comm in E4. cbv zeta.
  rewrite (st_bind_Ok _ _ _ _ _ E4), (st_bind_Ok _ _ _ _ _ E5), (st_bind_Ok _ _ _ _ _ E6).
  exists vb, ib, w6. split; [done|]. split; [done|]. split; [by transitivity w3|].
  split; [by eapply extends_contents|done].
Qed.

(** The loops over the regions of the dynamic inputs. *)
Lemma adopt_loop (f : Region → list I → ST world (list I)) g ins w (P : nat → I → I → Prop) :
  (∀ k i cur, ins !! k = Some i → data_access i = DynamicFixed → cur !! k = Some i →
     ∃ j, f (mkRegion k (offset_of (length ∘ data_of DynamicFixed g) ins k) (length (g i))) cur w
            = Ok (<[k := j]> cur, w) ∧ P k i j) →
  ∃ ins', st_fold f (regions_of g ins (length ins)) ins w = Ok (ins', w) ∧ length ins' = length ins ∧
    ∀ k i, ins !! k = Some i → ∃ j, ins' !! k = Some j ∧
      (if bool_decide (data_access i = DynamicFixed) then P k i j else j = i).
Proof.
  intros Hf.
  cut (∀ m, m ≤ length ins → ∃ cur, st_fold f (regions_of g ins m) ins w = Ok (cur, w) ∧
    length cur = length ins ∧ ∀ k i, ins !! k = Some i → ∃ j, cur !! k = Some j ∧
      (if decide (k < m) then (if bool_decide (data_access i = DynamicFixed) then P k i j else j = i) else j = i)).
  { intros H. destruct (H (length ins)) as (cur & E & L & Hc); [done|]. exists cur. split; [done|]. split; [done|].
    intros k i Hk. destruct (Hc k i Hk) as (j & Hj & Hp). exists j. split; [done|].
    rewrite decide_True in Hp; [done|]. by eapply lookup_lt_Some. }
  induction m as [|m IH]; intros Hm.
  - exists ins. split; [done|]. split; [done|]. intros k i Hk. exists i. by rewrite decide_False by lia.
  - destruct IH as (cur & E & L & Hc); [lia|].
    destruct (lookup_lt_is_Some_2 ins m) as [i Hi]; [lia|].
    rewrite (regions_of_S g ins m i Hi). destruct (Hc m i Hi) as (j & Hj & Hp).
    rewrite decide_False in Hp by lia. subst j. rewrite (st_fold_app _ _ _ _ _ _ _ E).
    case_bool_decide as Hdyn; simpl.
    + destruct (Hf m i cur Hi Hdyn Hj) as (j & Ej & HP). rewrite (st_bind_Ok _ _ _ _ _ Ej).
      eexists. split; [done|]. split; [by rewrite length_insert|]. intros k i' Hk.
      destruct (decide (k = m)) as [->|Hne].
      * rewrite Hi in Hk. injection Hk as <-. exists j.
        rewrite list_lookup_insert_eq by (apply lookup_lt_Some in Hj; done).
        rewrite decide_True, bool_decide_true by (done || lia). done.
      * rewrite list_lookup_insert_ne by done. destruct (Hc k i' Hk) as (j' & ? & Hp').
        exists j'. split; [done|]. repeat case_decide; try done; lia.
    + exists cur. split; [done|]. split; [done|]. intros k i' Hk.
      destruct (Hc k i' Hk) as (j' & ? & Hp'). exists j'. split; [done|].
      repeat case_decide; try done; try lia. assert (k = m) as -> by lia.
      rewrite Hi in Hk. injection Hk as <-. by rewrite bool_decide_false.
Qed.

(** The part of a dynamic input in the mapped memory. *)
Lemma load_region h c g ins k i :
  h !! c = Some (all_data DynamicFixed g ins) → ins !! k = Some i → data_access i = DynamicFixed →
  load h (mkPtr c (offset_of (length ∘ data_of DynamicFixed g) ins k)) (length (g i)) = Ok (g i).
Proof.
  intros Hh Hk Ha. unfold load. cbn [block offset]. rewrite Hh.
  pose proof (all_data_bound g ins k i Hk) as Hb. pose proof (all_data_slice g ins k i Hk) as Hs.
  rewrite Ha in Hb, Hs. rewrite (proj2 (Nat.leb_le _ _)) by done. by rewrite Hs.
Qed.

Lemma load_index_region h c ins k i :
  h !! c = Some (u32s_bytes (all_data DynamicFixed owned_indices ins)) →
  ins !! k = Some i → data_access i = DynamicFixed →
  load h (mkPtr c (4 * offset_of (length ∘ data_of DynamicFixed owned_indices) ins k))
    (length (u32s_bytes (owned_indices i))) = Ok (u32s_bytes (owned_indices i)).
Proof.
  intros Hh Hk Ha. unfold load. cbn [block offset]. rewrite Hh, !length_u32s_bytes.
  pose proof (all_data_bound owned_indices ins k i Hk) as Hb.
  pose proof (all_data_slice owned_indices ins k i Hk) as Hs. rewrite Ha in Hb, Hs.
  rewrite (proj2 (Nat.leb_le _ _)) by lia. f_equal. rewrite <- Hs at 2.
  apply slice_u32s_range.
Qed.

Lemma on_heap_same {A} (f : heap → res (heap * A)) w a :
  f (w_heap w) = Ok (w_heap w, a) → on_heap f w = Ok (a, w).
Proof. intros H. unfold on_heap. rewrite H. by destruct w. Qed.

Lemma adopt_vertices_spec c ins w :
  (∀ i, i ∈ ins → ∃ bs ixs, detached i bs ixs) →
  w_heap w !! c = Some (all_data DynamicFixed owned_bytes ins) →
  ∃ ins', st_fold (adopt_vertex_region (Some (mkPtr c 0))) (regions_of owned_bytes ins (length ins)) ins w
            = Ok (ins', w) ∧ length ins' = length ins ∧
    ∀ k i, ins !! k = Some i → ∃ j, ins' !! k = Some j ∧
      (if bool_decide (data_access i = DynamicFixed)
       then get_vertex_bytes j = At (mkPtr c (offset_of (length ∘ data_of DynamicFixed owned_bytes) ins k))
                                   (length (owned_bytes i)) ∧
            get_indices j = get_indices i ∧ get_format j = get_format i ∧ data_access j = data_access i
       else j = i).
Proof.
  intros Hd Hh. apply adopt_loop. intros k i cur Hk Ha Hcur.
  destruct (Hd i) as (bs & ixs & Hb & _); [by eapply list_elem_of_lookup_2|].
  pose proof (load_region _ c owned_bytes ins k i Hh Hk Ha) as Hl.
  apply store_same in Hl. unfold owned_bytes at 2 in Hl. rewrite Hb in Hl.
  destruct (adopt_vertices _ _ i _ bs Ha Hb Hl) as (j & Ej & Hv & Hrest).
  exists j. split; [|unfold owned_bytes at 2; rewrite Hb; done].
  unfold adopt_vertex_region, ptr_add. cbn [of_option r_input r_offset block offset].
  unfold lift at 1. unfold mbind at 1, ST_bind at 1.
  rewrite (at_index_Some _ _ _ Hcur). unfold lift, mbind at 1, ST_bind at 1.
  exact (st_bind_Ok _ _ _ _ _ (on_heap_same _ _ _ Ej)).
Qed.

Lemma adopt_indices_spec c ins ins0 w :
  (∀ i, i ∈ ins → ∃ ixs, get_indices i = OwnedI ixs) →
  w_heap w !! c = Some (u32s_bytes (all_data DynamicFixed owned_indices ins)) →
  regions_of owned_indices ins0 (length ins0) = regions_of owned_indices ins (length ins) →
  ∃ ins', st_fold (adopt_index_region (Some (mkPtr c 0))) (regions_of owned_indices ins0 (length ins0)) ins w
            = Ok (ins', w) ∧ length ins' = length ins ∧
    ∀ k i, ins !! k = Some i → ∃ j, ins' !! k = Some j ∧
      (if bool_decide (data_access i = DynamicFixed)
       then get_indices j = AtI (mkPtr c (4 * offset_of (length ∘ data_of DynamicFixed owned_indices) ins k))
                                   (length (owned_indices i)) ∧
            get_vertex_bytes j = get_vertex_bytes i ∧ get_format j = get_format i ∧ data_access j = data_access i
       else j = i).
Proof.
  intros Hd Hh ->. apply adopt_loop. intros k i cur Hk Ha Hcur.
  destruct (Hd i) as (ixs & Hb); [by eapply list_elem_of_lookup_2|].
  pose proof (load_index_region _ c ins k i Hh Hk Ha) as Hl.
  apply store_same in Hl. unfold owned_indices at 2 in Hl. rewrite Hb in Hl.
  destruct (adopt_indices _ _ i _ ixs Ha Hb Hl) as (j & Ej & Hv & Hrest).
  exists j. split; [|unfold owned_indices at 2; rewrite Hb; done].
  unfold adopt_index_region, ptr_add_u32, ptr_add. cbn [of_option r_input r_offset block offset].
  unfold lift at 1. unfold mbind at 1, ST_bind at 1.
  rewrite (at_index_Some _ _ _ Hcur). unfold lift, mbind at 1, ST_bind at 1.
  exact (st_bind_Ok _ _ _ _ _ (on_heap_same _ _ _ Ej)).
Qed.

(** What a dynamic input looks like once it has its part of the buffers [cv]
    and [ci]; a static one is left alone. *)
Definition adopted (cv ci : nat) ins (k : nat) (i j : I) : Prop :=
  match data_access i with
  | StaticFixed => j = i
  | DynamicFixed =>
      data_access j = data_access i ∧ get_format j = get_format i ∧
      get_vertex_bytes j = At (mkPtr cv (offset_of (length ∘ data_of DynamicFixed owned_bytes) ins k))
                             (length (owned_bytes i)) ∧
      get_indices j = AtI (mkPtr ci (4 * offset_of (length ∘ data_of DynamicFixed owned_indices) ins k))
                        (length (owned_indices i))
  end.

Lemma adopted_same_shape cv ci ins k i j :
  (∃ bs ixs, detached i bs ixs) → adopted cv ci ins k i j → same_shape i j.
Proof.
  intros (bs & ixs & Hb & Hi). unfold adopted. destruct (data_access i) eqn:Ea; [by intros ->|].
  intros (Hja & Hjf & Hv & Hx). unfold same_shape, vertex_count_bytes, index_count.
  unfold owned_bytes in Hv. unfold owned_indices in Hx. rewrite Hv, Hx, Hb, Hi, Hja. done.
Qed.

(** Both loops together. *)
Lemma adopt_both cv ci ins w :
  (∀ i, i ∈ ins → ∃ bs ixs, detached i bs ixs) →
  w_heap w !! cv = Some (all_data DynamicFixed owned_bytes ins) →
  w_heap w !! ci = Some (u32s_bytes (all_data DynamicFixed owned_indices ins)) →
  ∃ ins1 ins', st_fold (adopt_vertex_region (Some (mkPtr cv 0))) (regions_of owned_bytes ins (length ins)) ins w
      = Ok (ins1, w) ∧
    st_fold (adopt_index_region (Some (mkPtr ci 0))) (regions_of owned_indices ins (length ins)) ins1 w
      = Ok (ins', w) ∧ length ins' = length ins ∧
    ∀ k i, ins !! k = Some i → ∃ j, ins' !! k = Some j ∧ adopted cv ci ins k i j.
Proof.
  intros Hd Hv Hi.
  destruct (adopt_vertices_spec cv ins w Hd Hv) as (ins1 & E1 & L1 & H1).
  assert (Hsame : ∀ k i j, ins !! k = Some i → ins1 !! k = Some j →
            data_access j = data_access i ∧ get_indices j = get_indices i).
  { intros k i j Hki Hkj. destruct (H1 k i Hki) as (j' & Hj' & Hp). rewrite Hkj in Hj'.
    injection Hj' as <-. case_bool_decide; [naive_solver|by subst]. }
  assert (HF : Forall2 (λ i j, data_access j = data_access i ∧ get_indices j = get_indices i) ins ins1).
  { apply Forall2_same_length_lookup_2; [done|eauto]. }
  assert (Hown : ∀ i j : I, data_access j = data_access i ∧ get_indices j = get_indices i →
            data_of DynamicFixed owned_indices i = data_of DynamicFixed owned_indices j).
  { intros i j [Ha Hx]. unfold data_of, owned_indices. by rewrite Ha, Hx. }
  assert (Hall : all_data DynamicFixed owned_indices ins1 = all_data DynamicFixed owned_indices ins).
  { unfold all_data. clear -HF Hown. induction HF as [|i j l l' Hij _ IH]; [done|].
    simpl. by rewrite IH, (Hown i j). }
  assert (Hoff : ∀ k, offset_of (length ∘ data_of DynamicFixed owned_indices) ins1 k =
                      offset_of (length ∘ data_of DynamicFixed owned_indices) ins k).
  { intros k. symmetry. eapply Forall2_offset; [exact HF|]. intros i j Hij. unfold compose.
    by rewrite (Hown i j). }
  assert (Hreg : regions_of owned_indices ins (length ins) = regions_of owned_indices ins1 (length ins1)).
  { rewrite L1. unfold regions_of. apply omap_ext_seq. intros k _. unfold region_of. rewrite Hoff.
    destruct (ins !! k) as [i|] eqn:Ei.
    - destruct (H1 k i Ei) as (j & Hj & _). rewrite Hj. destruct (Hsame k i j Ei Hj) as [Ha Hx].
      unfold owned_indices. by rewrite Ha, Hx.
    - rewrite lookup_ge_None_2; [done|]. apply lookup_ge_None in Ei. lia. }
  destruct (adopt_indices_spec ci ins1 ins w) as (ins' & E2 & L2 & H2); [| |exact Hreg|].
  - intros j [k Hk]%list_elem_of_lookup.
    destruct (lookup_lt_is_Some_2 ins k) as [i Hi']; [apply lookup_lt_Some in Hk; lia|].
    destruct (Hsame k i j Hi' Hk) as [_ Hx].
    destruct (Hd i) as (bs & ixs & _ & Hix); [by eapply list_elem_of_lookup_2|].
    exists ixs. by rewrite Hx.
  - by rewrite Hall.
  - exists ins1, ins'. split; [done|]. split; [done|]. split; [lia|]. intros k i Hk.
    destruct (H1 k i Hk) as (j1 & Hj1 & Hp1). destruct (H2 k j1 Hj1) as (j & Hj & Hp2).
    exists j. split; [done|]. unfold adopted. destruct (Hsame k i j1 Hk Hj1) as [Ha Hx].
    rewrite Ha, Hoff in Hp2. destruct (data_access i) eqn:Ea; simpl in *; [by subst|].
    destruct Hp1 as (Hv1 & _ & Hf1 & _), Hp2 as (Hi2 & Hv2 & Hf2 & Ha2).
    assert (Eo : owned_indices j1 = owned_indices i) by (unfold owned_indices; by rewrite Hx).
    by rewrite Hv2, Hv1, Hi2, Hf2, Hf1, Ha2, Eo.
Qed.

Lemma upload_dynamic_spec c ins w : gl_ok w → any_dynamic_geometry c = true →
  (∀ i, i ∈ ins → ∃ bs ixs, detached i bs ixs) →
  total_vertices_dynamic c = all_data DynamicFixed owned_bytes ins →
  total_indices_dynamic c = all_data DynamicFixed owned_indices ins →
  vertex_regions c = regions_of owned_bytes ins (length ins) →
  index_regions c = regions_of owned_indices ins (length ins) →
  0 < length (total_vertices_dynamic c) → 0 < length (total_indices_dynamic c) →
  (Z.of_nat (length (total_vertices_dynamic c)) < 2147483648)%Z →
  (Z.of_nat (4 * length (total_indices_dynamic c)) < 2147483648)%Z →
  ∃ vb ib cv ci ins' w', upload_dynamic c ins w = Ok ((Some vb, Some ib, ins'), w') ∧
    gl_ok w' ∧ extends w w' ∧
    contents w' (buf vb) = Some (all_data DynamicFixed owned_bytes ins) ∧
    contents w' (buf ib) = Some (u32s_bytes (all_data DynamicFixed owned_indices ins)) ∧
    gl_block (w_gl w') (buf vb) = Some cv ∧ gl_block (w_gl w') (buf ib) = Some ci ∧
    contents w (buf vb) = None ∧ buf ib ≠ buf vb ∧ length ins' = length ins ∧
    ∀ k i, ins !! k = Some i → ∃ j, ins' !! k = Some j ∧ adopted cv ci ins k i j.
Proof.
  intros Hw Hdyn Hd Tv Ti Rv Ri Pv Pi Sv Si. unfold upload_dynamic. rewrite Hdyn.
  assert (total_vertices_dynamic c ≠ []) as Nv by (intros E; rewrite E in Pv; simpl in Pv; lia).
  assert (u32s_bytes (total_indices_dynamic c) ≠ []) as Ni.
  { intros E%(f_equal length). rewrite length_u32s_bytes in E. simpl in E. lia. }
  destruct (new_and_write Vertex DynamicDraw PersistentMapped (total_vertices_dynamic c) w Hw (λ _, Nv))
    as (vb & w1 & w2 & w3 & E1 & E2 & E3 & O3 & X3 & C3 & [M3 _] & F3).
  rewrite (st_bind_Ok _ _ _ _ _ E1), (st_bind_Ok _ _ _ _ _ E2), (st_bind_Ok _ _ _ _ _ E3).
  destruct (new_and_write Index DynamicDraw PersistentMapped (u32s_bytes (total_indices_dynamic c)) w3 O3 (λ _, Ni))
    as (ib & w4 & w5 & w6 & E4 & E5 & E6 & O6 & X6 & C6 & [M6 _] & F6).
  rewrite length_u32s_bytes, Nat.mul_comm in E4. cbv zeta.
  rewrite (st_bind_Ok _ _ _ _ _ E4), (st_bind_Ok _ _ _ _ _ E5), (st_bind_Ok _ _ _ _ _ E6).
  assert (buf ib ≠ buf vb) by congruence. pose proof (extends_contents _ _ _ _ X6 C3) as C3'.
  destruct (Buffer_map_spec vb w6 _ O6 M3 C3') as (cv & w7 & Bv & Hv & E7 & O7 & h7 & B7 & K7 & _).
  { done. }
  { done. }
  rewrite (st_bind_Ok _ _ _ _ _ E7).
  pose proof C6 as C6'. rewrite <- K7 in C6'.
  destruct (Buffer_map_spec ib w7 _ O7 M6 C6') as (ci & w8 & Bi & Hi & E8 & O8 & h8 & B8 & K8 & _).
  { done. }
  { by rewrite length_u32s_bytes. }
  cbv beta iota. rewrite (st_bind_Ok _ _ _ _ _ E8). cbv beta iota.
  rewrite Rv, Ri. rewrite h7 in Hi. rewrite Tv in Hv. rewrite Ti in Hi.
  destruct (adopt_both cv ci ins w8) as (ins1 & ins' & E9 & E10 & L & HA);
    [done|by rewrite h8, h7|by rewrite h8, h7|].
  rewrite (st_bind_Ok _ _ _ _ _ E9), (st_bind_Ok _ _ _ _ _ E10).
  eexists _, _, cv, ci, _, _. split; [done|]. cbn [buf]. split; [done|]. split.
  { transitivity w3; [done|]. transitivity w6; [done|]. intros m Hm. by rewrite K8, K7, B8, B7. }
  rewrite B7 in Bi. by rewrite !K8, !K7, !B8, !B7, <- Tv, <- Ti.
Qed.

(** ** Resources *)

Lemma create_name w : gl_ok w →
  ∃ n w1, gl_create glCreateBuffers w = Ok (n, w1) ∧ gl_ok w1 ∧ extends w w1 ∧ n ≠ 0%Z ∧
    gl_block (w_gl w1) n = None ∧ w_heap w1 = w_heap w ∧ contents w n = None.
Proof.
  intros Hw. pose proof (create_buffers_spec (w_gl w)) as Hc.
  destruct (glCreateBuffers (w_gl w)) as [g n] eqn:Eg. destruct Hc as (Hn0 & Hn & Hg).
  destruct (gl_create_spec glCreateBuffers w) as (n' & w1 & E & O & X & Hh & B & ->);
    [rewrite Eg; done|done|].
  rewrite Eg in *. simpl in *. eexists _, w1. split; [done|]. split_and!; try done.
  - by rewrite B.
  - unfold contents. by rewrite Hn.
Qed.

(** A data store created together with its data. *)
Lemma fill_data w n bs : gl_ok w → n ≠ 0%Z → gl_block (w_gl w) n = None →
  ∃ w', gl_memory (λ s, glNamedBufferData s n (length bs) (Some bs) GL_STATIC_DRAW) w = Ok (tt, w') ∧
    gl_ok w' ∧ extends w w' ∧ contents w' n = Some bs.
Proof.
  intros Hw H0 Hn. unfold gl_memory.
  destruct (buffer_data_spec (w_heap w) (w_gl w) n (length bs) (Some bs) GL_STATIC_DRAW H0 Hn)
    as (b & d & E & Hb & _ & Hd & Hm). rewrite E. rewrite (Hd bs) in * by done.
  destruct (add_store_spec w n b bs _ (w_calls w) Hw Hn Hb Hm) as (? & ? & ?). eauto.
Qed.

Lemma fill_storage w n bs flags : gl_ok w → n ≠ 0%Z → bs ≠ [] → gl_block (w_gl w) n = None →
  ∃ w', gl_memory (λ s, glNamedBufferStorage s n (length bs) (Some bs) flags) w = Ok (tt, w') ∧
    gl_ok w' ∧ extends w w' ∧ contents w' n = Some bs.
Proof.
  intros Hw H0 Hne Hn. unfold gl_memory. assert (0 < length bs) as Hpos by (destruct bs; [done|cbn; lia]).
  destruct (buffer_storage_spec (w_heap w) (w_gl w) n (length bs) (Some bs) flags H0 Hpos Hn)
    as (b & d & E & Hb & _ & Hd & Hm). rewrite E. rewrite (Hd bs) in * by done.
  destruct (add_store_spec w n b bs _ (w_calls w) Hw Hn Hb Hm) as (? & ? & ?). eauto.
Qed.

(** One buffer resource: its bytes are in its uniform buffer, and a dynamic
    resource reads and writes that buffer from now on. *)
Lemma setup_buffer_resource_spec {LR : ResourceLaws R} k rs ubos w r bs :
  gl_ok w → rs !! k = Some r → get_resource_bytes r = Owned bs → bs ≠ [] →
  ∃ n r' w', setup_buffer_resource k (rs, ubos) w = Ok ((<[k := r']> rs, ubos ++ [n]), w') ∧
    gl_ok w' ∧ extends w w' ∧ contents w' n = Some bs ∧ get_type r' = get_type r ∧
    contents w n = None ∧ (resource_access r = DynamicFixed →
      ∃ c, gl_block (w_gl w') n = Some c ∧ get_resource_bytes r' = At (mkPtr c 0) (length bs)).
Proof.
  intros Hw Hk Hb Hne. unfold setup_buffer_resource. rewrite (at_index_Some _ _ _ Hk), lift_bind.
  destruct (create_name w Hw) as (n & w1 & E1 & O1 & X1 & N0 & B1 & h1 & F1).
  rewrite (st_bind_Ok _ _ _ _ _ E1). rewrite Hb. cbn [span_read].
  rewrite (st_bind_Ok (λ w, lift (Ok bs) w) _ w1 bs w1 eq_refl).
  destruct (resource_access r) eqn:Ea.
  - destruct (fill_data w1 n bs O1 N0 B1) as (w2 & E2 & O2 & X2 & C2).
    rewrite (st_bind_Ok _ _ _ _ _ E2). exists n, r, w2. rewrite list_insert_id by done.
    split; [done|]. split_and!; try done. by transitivity w1.
  - destruct (fill_storage w1 n bs persistent_mapped_buffer_flags O1 N0 Hne B1) as (w2 & E2 & O2 & X2 & C2).
    rewrite (st_bind_Ok _ _ _ _ _ E2). apply contents_block in C2 as (c & Bc & Hc).
    destruct (map_range_spec _ _ _ _ _ persistent_mapped_buffer_flags Bc Hc Hne) as [Mp Mg].
    unfold state, mbind at 1, ST_bind at 1.
    destruct (glMapNamedBufferRange _ _ _ _ _) as [p g]. simpl in Mp, Mg. subst p.
    cbn [of_option]. rewrite lift_bind.
    assert (Hl : load (w_heap w2) (mkPtr c 0) (length bs) = Ok bs).
    { unfold load. cbn [block offset]. rewrite Hc, Nat.add_0_l, Nat.leb_refl. unfold slice.
      by rewrite drop_0, take_ge. }
    destruct (adopt_resource _ _ r _ bs Ea Hb (store_same _ _ _ Hl)) as (r' & Er & Hr & Ht & _).
    set (w3 := mkWorld (w_heap w2) g (w_calls w2)).
    assert (E3 : on_heap (λ h, set_resource_data h r (mkPtr c 0)) w3 = Ok (r', w3)).
    { by apply on_heap_same. }
    rewrite (st_bind_Ok _ _ _ _ _ E3). exists n, r', w3. split; [done|].
    assert (K3 : ∀ m, contents w3 m = contents w2 m) by (intros m; unfold contents; simpl; by rewrite Mg).
    split_and!; try done.
    + destruct O2 as [H1 H2]. split; simpl; intros *; rewrite ?Mg; eauto.
    + transitivity w1; [done|]. transitivity w2; [done|]. intros m Hm. rewrite K3. simpl. by rewrite Mg.
    + rewrite K3. unfold contents. rewrite Bc. done.
    + intros _. exists c. simpl. by rewrite Mg.
Qed.

(** ** Draw lists *)

Lemma length_cmds_bytes cs : length (concat (map cmd_bytes cs)) = length cs * sizeof_DrawIndirectCommand.
Proof.
  rewrite length_concat_map. unfold compose. induction cs as [|c cs IH]; [done|].
  simpl in *. rewrite IH. unfold sizeof_DrawIndirectCommand. lia.
Qed.

(** The first draw list a renderer binds. *)
Lemma write_draws_None cs w : gl_ok w →
  ∃ ob w', write_draws None cs w = Ok (ob, w') ∧ gl_ok w' ∧ extends w w' ∧
    match cs with
    | [] => ob = None
    | _ => ∃ b, ob = Some b ∧ (mapped_ptr b = None ∧ type b = DrawIndirect) ∧ contents w' (buf b) = Some (concat (map cmd_bytes cs))
    end ∧ ∀ b, ob = Some b → ¬ live w (buf b).
Proof.
  intros Hw. destruct cs as [|c cs]; [by exists None, w|]. unfold write_draws.
  destruct (new_and_write DrawIndirect StaticDraw ReadWrite (concat (map cmd_bytes (c :: cs))) w Hw ltac:(done))
    as (b & w1 & w2 & w3 & E1 & E2 & E3 & O3 & X3 & C3 & M3 & F3).
  rewrite length_cmds_bytes in E1. cbv zeta.
  assert (E : (b ← Buffer_new DrawIndirect StaticDraw ReadWrite (length (c :: cs) * sizeof_DrawIndirectCommand);
               _ ← optional_assign None b; mret b) w = Ok (b, w2)).
  { by rewrite (st_bind_Ok _ _ _ _ _ E1), (st_bind_Ok _ _ _ _ _ E2). }
  rewrite (st_bind_Ok _ _ _ _ _ E), (st_bind_Ok _ _ _ _ _ E3). exists (Some b), w3. split; [done|]. split; [done|].
  split; [done|]. split; [by exists b|]. intros ? [= <-]. unfold live. rewrite F3. by intros []%is_Some_None.
Qed.

(** ** The whole constructor *)

(** A computation that only makes recorded calls. *)
Definition quiet (m : ST world unit) : Prop :=
  ∀ w, ∃ cs, m w = Ok (tt, mkWorld (w_heap w) (w_gl w) cs).

Lemma quiet_call c : quiet (call c).
Proof. intros w. by eexists. Qed.

Lemma quiet_ret : quiet (mret tt).
Proof. intros w. exists (w_calls w). by destruct w. Qed.

Lemma quiet_bind m k : quiet m → quiet k → quiet (m ≫= λ _, k).
Proof.
  intros Hm Hk w. destruct (Hm w) as [cs E]. rewrite (st_bind_Ok _ _ _ _ _ E).
  destruct (Hk (mkWorld (w_heap w) (w_gl w) cs)) as [cs' E']. by exists cs'.
Qed.

Lemma quiet_each {A} (f : A → ST world unit) l : (∀ x, quiet (f x)) → quiet (st_each f l).
Proof. intros Hf. induction l as [|x l IH]; [apply quiet_ret|]. by apply quiet_bind. Qed.

Hint Resolve quiet_call quiet_ret quiet_bind quiet_each : topaz.

Lemma quiet_step m w : quiet m → gl_ok w →
  ∃ w', m w = Ok (tt, w') ∧ gl_ok w' ∧ extends w w' ∧ w_heap w' = w_heap w.
Proof.
  intros Hm Hw. destruct (Hm w) as [cs E]. eexists. split; [exact E|].
  split; [by apply gl_ok_calls|]. split; [|done]. intros n Hn. done.
Qed.

Lemma setup_state_quiet pass culling : quiet (setup_state pass culling).
Proof.
  unfold setup_state. apply quiet_bind; [case_bool_decide; apply quiet_call|].
  destruct culling; eauto with topaz.
Qed.

Lemma setup_attributes_quiet v f : basis f = PerVertexBasis → quiet (setup_attributes v f).
Proof.
  intros Hb w. unfold setup_attributes. rewrite bool_decide_true by done.
  rewrite tz_assert_true, lift_bind. apply quiet_each. intros [id a]. eauto with topaz.
Qed.

Lemma setup_texture_resource_spec {LR : ResourceLaws R} r ts w bs :
  gl_ok w → get_type r = TextureType_ → get_resource_bytes r = Owned bs →
  ∃ t w', setup_texture_resource r ts w = Ok (ts ++ [t], w') ∧ gl_ok w' ∧ extends w w'.
Proof.
  intros Hw Ht Hb. unfold setup_texture_resource. destruct (texture_view r Ht) as [v ->].
  cbn [of_option]. rewrite lift_bind.
  destruct (gl_create_spec glCreateTextures w) as (t & w1 & E & O & X & _);
    [apply create_textures_spec|done|].
  rewrite (st_bind_Ok _ _ _ _ _ E). destruct (texture_formats (tv_format v)) as [[f1 f2] f3].
  rewrite Hb. do 6 rewrite (st_bind_Ok (call _) _ _ _ _ eq_refl).
  rewrite (st_bind_Ok (λ w, lift (span_read (w_heap w) (Owned bs)) w) _ _ bs _ eq_refl).
  rewrite (st_bind_Ok (call _) _ _ _ _ eq_refl).
  eexists t, _. split; [done|]. split; [done|]. exact X.
Qed.

(** What a builder must provide: shader, culling strategy, well-formed inputs of
    one stride whose data fits the 31-bit sizes OpenGL reports, and non-empty
    resources. *)
Record builder_ok (stride : nat) (b : RendererBuilderOGL I R) : Prop := {
  bo_shader : is_Some (b_shader b);
  bo_culling : is_Some (b_culling_strategy b);
  bo_stride : stride ≠ 0;
  bo_inputs : Forall (input_data_ok stride) (b_inputs b);
  bo_basis : Forall (λ i, basis (get_format i) = PerVertexBasis) (b_inputs b);
  bo_vertices : ∀ acc, (Z.of_nat (length (all_data acc owned_bytes (b_inputs b))) < 2147483648)%Z;
  bo_indices : ∀ acc, (Z.of_nat (4 * length (all_data acc owned_indices (b_inputs b))) < 2147483648)%Z;
  bo_dynamic : Forall (λ i, data_access i = DynamicFixed → owned_bytes i ≠ [] ∧ owned_indices i ≠ [])
                 (b_inputs b);
  bo_buffers : Forall (λ r, ∃ bs, get_resource_bytes r = Owned bs ∧ bs ≠ []) (b_buffer_resources b);
  bo_textures : Forall (λ r, get_type r = TextureType_ ∧ ∃ bs, get_resource_bytes r = Owned bs)
                  (b_texture_resources b) }.

Lemma same_data_ok stride ins ins' :
  Forall2 same_data ins ins' → Forall (input_data_ok stride) ins → Forall (input_data_ok stride) ins'.
Proof.
  intros HF Hok. induction HF as [|i j l l' Hij _ IH]; [constructor|].
  apply Forall_cons in Hok as [Hi Hl]. constructor; [|by apply IH].
  destruct (same_data_owned i j Hij) as [Eb Ei]. destruct Hij as (Ha & Hf & Hv & Hx).
  destruct Hi as ((bs & ixs & Hb & Hi) & Hs & HL & HF).
  unfold input_data_ok, vertex_number, vertex_count_bytes, detached. rewrite Eb, Ei, Hv, Hx, Hf.
  unfold vertex_number, vertex_count_bytes in *. eauto 10.
Qed.

Lemma existsb_all_data acc g ins :
  (∀ i, i ∈ ins → data_access i = acc → g i ≠ []) →
  existsb (λ i, bool_decide (data_access i = acc)) ins = true → 0 < length (all_data acc g ins).
Proof.
  intros Hg (i & Hi & Ha)%existsb_exists. apply bool_decide_eq_true in Ha.
  apply list_elem_of_In, list_elem_of_lookup in Hi as [k Hk].
  pose proof (all_data_bound g ins k i Hk) as Hb. rewrite Ha in Hb.
  assert (g i ≠ []) by (eapply Hg; [by eapply list_elem_of_lookup_2|done]).
  destruct (g i); [done|]. simpl in Hb. lia.
Qed.

(** The two buffers of a class hold the data of its inputs. *)
Definition geometry acc ins w (vb ib : option Buffer) : Prop :=
  existsb (λ i, bool_decide (data_access i = acc)) ins = true →
  ∃ v x, vb = Some v ∧ ib = Some x ∧
    contents w (buf v) = Some (all_data acc owned_bytes ins) ∧
    contents w (buf x) = Some (u32s_bytes (all_data acc owned_indices ins)).

(** Every dynamic input lives in the dynamic buffers. *)
Definition dynamic_inputs ins ins' w (vb ib : option Buffer) : Prop :=
  ∀ k i, ins !! k = Some i → data_access i = DynamicFixed →
    ∃ j v x cv ci, ins' !! k = Some j ∧ vb = Some v ∧ ib = Some x ∧
      gl_block (w_gl w) (buf v) = Some cv ∧ gl_block (w_gl w) (buf x) = Some ci ∧
      adopted cv ci ins k i j.

Lemma geometry_extends acc ins w w' vb ib : extends w w' → geometry acc ins w vb ib → geometry acc ins w' vb ib.
Proof.
  intros X Hg He. destruct (Hg He) as (v & x & -> & -> & C1 & C2). exists v, x.
  split; [done|]. split; [done|]. split; by eapply extends_contents.
Qed.

Lemma existsb_access acc ins k i :
  ins !! k = Some i → data_access i = acc → existsb (λ i, bool_decide (data_access i = acc)) ins = true.
Proof.
  intros Hk Ha. apply existsb_exists. exists i. split; [|by apply bool_decide_eq_true].
  apply list_elem_of_In. by eapply list_elem_of_lookup_2.
Qed.

Lemma dynamic_extends ins ins' w w' vb ib :
  extends w w' → geometry DynamicFixed ins w vb ib →
  dynamic_inputs ins ins' w vb ib → dynamic_inputs ins ins' w' vb ib.
Proof.
  intros X Hg Hd k i Hk Ha. destruct (Hd k i Hk Ha) as (j & v & x & cv & ci & Hj & -> & -> & Bv & Bi & HA).
  destruct (Hg (existsb_access _ _ _ _ Hk Ha)) as (v' & x' & [= <-] & [= <-] & C1 & C2).
  destruct (X (buf v)) as [_ B1]; [by rewrite C1|]. destruct (X (buf x)) as [_ B2]; [by rewrite C2|].
  exists j, v, x, cv, ci. rewrite B1, B2. done.
Qed.

Lemma setup_static_part c ins w : gl_ok w →
  total_vertices c = all_data StaticFixed owned_bytes ins →
  total_indices c = all_data StaticFixed owned_indices ins →
  any_static_geometry c = existsb (λ i, bool_decide (data_access i = StaticFixed)) ins →
  ∃ vb ib w', upload_static c w = Ok ((vb, ib), w') ∧ gl_ok w' ∧ extends w w' ∧
    geometry StaticFixed ins w' vb ib ∧ Forall (live w') (names [vb; ib]).
Proof.
  intros Hw Tv Ti Ta. unfold geometry. rewrite <- Ta. destruct (any_static_geometry c) eqn:Es.
  - destruct (upload_static_spec c w Hw Es) as (vb & ib & w' & E & O & X & C1 & C2).
    do 3 eexists. split; [exact E|]. split; [done|]. split; [done|]. split.
    + intros _. rewrite <- Tv, <- Ti. by exists vb, ib.
    + cbn. unfold live. rewrite !Forall_cons, C1, C2. eauto.
  - exists None, None, w. unfold upload_static. rewrite Es. do 4 (split; [done|]). constructor.
Qed.

Lemma adopted_all cv ci ins ins' :
  (∀ i, i ∈ ins → ∃ bs ixs, detached i bs ixs) → length ins' = length ins →
  (∀ k i, ins !! k = Some i → ∃ j, ins' !! k = Some j ∧ adopted cv ci ins k i j) →
  Forall2 same_shape ins ins'.
Proof.
  intros Hd HL HA. apply Forall2_same_length_lookup_2; [done|]. intros k i j Hi Hj.
  destruct (HA k i Hi) as (j' & Hj' & Had). rewrite Hj in Hj'. injection Hj' as <-.
  eapply adopted_same_shape; [|done]. apply Hd. by eapply list_elem_of_lookup_2.
Qed.

Lemma setup_dynamic_part c ins w : gl_ok w →
  (∀ i, i ∈ ins → ∃ bs ixs, detached i bs ixs) →
  total_vertices_dynamic c = all_data DynamicFixed owned_bytes ins →
  total_indices_dynamic c = all_data DynamicFixed owned_indices ins →
  vertex_regions c = regions_of owned_bytes ins (length ins) →
  index_regions c = regions_of owned_indices ins (length ins) →
  any_dynamic_geometry c = existsb (λ i, bool_decide (data_access i = DynamicFixed)) ins →
  (∀ i, i ∈ ins → data_access i = DynamicFixed → owned_bytes i ≠ [] ∧ owned_indices i ≠ []) →
  (Z.of_nat (length (all_data DynamicFixed owned_bytes ins)) < 2147483648)%Z →
  (Z.of_nat (4 * length (all_data DynamicFixed owned_indices ins)) < 2147483648)%Z →
  ∃ vb ib ins' w', upload_dynamic c ins w = Ok ((vb, ib, ins'), w') ∧ gl_ok w' ∧ extends w w' ∧
    geometry DynamicFixed ins w' vb ib ∧ Forall2 same_shape ins ins' ∧ dynamic_inputs ins ins' w' vb ib ∧
    Forall (live w') (names [vb; ib]) ∧ Forall (λ v, ¬ live w v ∧ v ∉ names [ib]) (names [vb]).
Proof.
  intros Hw Hd Tv Ti Rv Ri Ta Hne Sv Si. destruct (any_dynamic_geometry c) eqn:Es.
  - symmetry in Ta.
    destruct (upload_dynamic_spec c ins w Hw Es Hd Tv Ti Rv Ri)
      as (vb & ib & cv & ci & ins' & w' & E & O & X & C1 & C2 & B1 & B2 & F & N & L & HA).
    { rewrite Tv. eapply existsb_all_data; [|done]. intros i Hi Ha. by apply Hne. }
    { rewrite Ti. eapply existsb_all_data; [|done]. intros i Hi Ha. by apply Hne. }
    { by rewrite Tv. } { by rewrite Ti. }
    do 4 eexists. split; [exact E|]. split; [done|]. split; [done|]. split_and!.
    + intros _. by exists vb, ib.
    + by eapply adopted_all.
    + intros k i Hk Ha. destruct (HA k i Hk) as (j & Hj & Had). by exists j, vb, ib, cv, ci.
    + cbn. unfold live. rewrite !Forall_cons, C1, C2. eauto.
    + cbn. unfold live. rewrite Forall_cons, F. split; [|constructor]. split; [by intros []%is_Some_None|set_solver].
  - exists None, None, ins, w. unfold upload_dynamic. rewrite Es. split; [done|]. split; [done|]. split; [done|].
    split_and!; [| | |constructor..].
    + intros He. congruence.
    + apply Forall_Forall2_diag, Forall_true. done.
    + intros k i Hk Ha. rewrite (existsb_access _ _ _ _ Hk Ha) in Ta. done.
Qed.

Lemma setup_inputs_spec stride v b ins w :
  gl_ok w → builder_ok stride b → Forall2 same_data (b_inputs b) ins →
  ∃ vb ib vbd ibd f ins' w', setup_inputs v b ins w = Ok ((vb, ib, vbd, ibd, f, ins'), w') ∧
    gl_ok w' ∧ extends w w' ∧ geometry StaticFixed ins w' vb ib ∧ geometry DynamicFixed ins w' vbd ibd ∧
    Forall2 same_shape ins ins' ∧ dynamic_inputs ins ins' w' vbd ibd ∧
    Forall (live w') (names [vb; ib; vbd; ibd]) ∧ Forall (λ v, v ∉ names [vb; ib; ibd]) (names [vbd]) ∧
    (b_inputs b ≠ [] → ∃ fm, f = Some fm ∧ binding_size fm = stride).
Proof.
  intros Hw Hb HF.
  pose proof (same_data_ok stride _ _ HF (bo_inputs _ _ Hb)) as Hok. rewrite Forall_forall in Hok.
  assert (Hd : ∀ i, i ∈ ins → ∃ bs ixs, detached i bs ixs) by (intros i Hi; apply Hok, Hi).
  assert (Hv : ∀ acc, all_data acc owned_bytes ins = all_data acc owned_bytes (b_inputs b)).
  { intros acc. eapply all_data_same; [done|]. intros i j Hij. by apply same_data_owned. }
  assert (Hi : ∀ acc, all_data acc owned_indices ins = all_data acc owned_indices (b_inputs b)).
  { intros acc. eapply all_data_same; [done|]. intros i j Hij. by apply same_data_owned. }
  unfold setup_inputs. destruct (b_inputs b) as [|i0 rest] eqn:Eb.
  { inversion HF; subst. do 7 eexists. split; [done|]. split; [done|]. split; [done|].
    split_and!; try done; constructor. }
  rewrite (st_bind_Ok (gets w_heap) _ w _ w eq_refl).
  destruct (compile_spec (w_heap w) ins Hd) as (c & Ec & Tv & Ti & Tvd & Tid & Rv & Ri & As & Ad & Ef).
  rewrite Ec, lift_bind.
  destruct (setup_static_part c ins w Hw Tv Ti As) as (vb & ib & w1 & E1 & O1 & X1 & G1 & L1).
  rewrite (st_bind_Ok _ _ _ _ _ E1).
  destruct (setup_dynamic_part c ins w1 O1 Hd Tvd Tid Rv Ri Ad) as (vbd & ibd & ins' & w2 & E2 & O2 & X2 & G2 & S2 & D2 & L2 & F2).
  { intros i [k Hk]%list_elem_of_lookup Ha.
    destruct (Forall2_lookup_r _ _ _ _ _ HF Hk) as (i' & Hk' & Hs).
    pose proof (bo_dynamic _ _ Hb) as Hdy. rewrite Eb in Hdy.
    pose proof (Forall_lookup_1 _ _ _ _ Hdy Hk') as Hn. simpl in Hn.
    destruct (same_data_owned _ _ Hs) as [-> ->]. apply Hn. destruct Hs as (<- & _). done. }
  { rewrite Hv, <- Eb. apply (bo_vertices _ _ Hb). }
  { rewrite Hi, <- Eb. apply (bo_indices _ _ Hb). }
  cbv beta iota. rewrite (st_bind_Ok _ _ _ _ _ E2). cbv beta iota.
  destruct (last ins) as [il|] eqn:El.
  2:{ apply last_None in El. subst. inversion HF. }
  rewrite Ef. cbn [fmap option_fmap option_map of_option]. rewrite lift_bind.
  assert (Hil : ∃ k, ins !! k = Some il) by (rewrite last_lookup in El; eauto).
  destruct Hil as [k Hk]. destruct (Forall2_lookup_r _ _ _ _ _ HF Hk) as (i' & Hk' & Hs).
  pose proof (bo_basis _ _ Hb) as Hba. rewrite Eb in Hba.
  pose proof (Forall_lookup_1 _ _ _ _ Hba Hk') as Hbas. simpl in Hbas.
  destruct (quiet_step (setup_attributes v (get_format il)) w2) as (w3 & E3 & O3 & X3 & _);
    [|done|].
  { apply setup_attributes_quiet. destruct Hs as (_ & -> & _). done. }
  rewrite (st_bind_Ok _ _ _ _ _ E3). do 7 eexists. split; [done|]. split; [done|].
  split; [by transitivity w1; [|transitivity w2]|].
  split; [eapply geometry_extends, G1; by transitivity w2|].
  split; [by eapply geometry_extends|]. split; [done|]. split; [by eapply dynamic_extends|].
  split; [|split].
  { change (names [vb; ib; vbd; ibd]) with (names ([vb; ib] ++ [vbd; ibd])). unfold names in *. rewrite omap_app.
    apply Forall_app. split; eapply Forall_impl; [exact L1| |exact L2|];
      intros n Hn; (eapply live_extends; [|exact Hn]); [by transitivity w2|done]. }
  { change (names [vb; ib; ibd]) with (names ([vb; ib] ++ [ibd])). unfold names in *. rewrite omap_app.
    eapply Forall_impl; [exact F2|]. intros n [Hn Hx] [Hin|Hin]%elem_of_app; [|done].
    rewrite Forall_forall in L1. by apply Hn, L1. }
  intros _. eexists; split; [done|].
  destruct (Hok il) as (_ & Hst & _); [by eapply list_elem_of_lookup_2|done].
Qed.

(** A dynamic buffer resource reads and writes its uniform buffer. *)
Definition dynamic_resources (rs rs' : list R) (ubos : list Z) (n : nat) w : Prop :=
  ∀ k r bs, k < n → rs !! k = Some r → resource_access r = DynamicFixed → get_resource_bytes r = Owned bs →
    ∃ r' u c, rs' !! k = Some r' ∧ ubos !! k = Some u ∧ gl_block (w_gl w) u = Some c ∧
      get_resource_bytes r' = At (mkPtr c 0) (length bs).

(** The uniform buffers hold the data of the buffer resources, in order. *)
Definition ubo_data (rs : list R) (ubos : list Z) (n : nat) w : Prop :=
  ∀ k r bs, k < n → rs !! k = Some r → get_resource_bytes r = Owned bs →
    ∃ u, ubos !! k = Some u ∧ contents w u = Some bs.

Lemma ubo_data_extends rs ubos n w w' : extends w w' → ubo_data rs ubos n w → ubo_data rs ubos n w'.
Proof.
  intros X H k r bs Hk Hr Hb. destruct (H k r bs Hk Hr Hb) as (u & Hu & C).
  exists u. split; [done|]. by eapply extends_contents.
Qed.

Lemma dynamic_extends_resources rs rs' ubos n w w' : extends w w' → ubo_data rs ubos n w →
  dynamic_resources rs rs' ubos n w → dynamic_resources rs rs' ubos n w'.
Proof.
  intros X U D k r bs Hk Hr Ha Hb. destruct (D k r bs Hk Hr Ha Hb) as (r' & u & c & Hr' & Hu & Hg & E).
  destruct (U k r bs Hk Hr Hb) as (u' & Hu' & C). simplify_eq. exists r', u, c. split_and!; try done.
  destruct (X u) as [_ ->]; [by rewrite C|done].
Qed.

(** The loop over the buffer resources, one step. *)
Lemma dynamic_resources_step rs rs1 ubos n w1 w2 r r' u bs : extends w1 w2 → ubo_data rs ubos n w1 →
  dynamic_resources rs rs1 ubos n w1 → length ubos = n → n < length rs1 → rs !! n = Some r → get_resource_bytes r = Owned bs →
  (resource_access r = DynamicFixed →
    ∃ c, gl_block (w_gl w2) u = Some c ∧ get_resource_bytes r' = At (mkPtr c 0) (length bs)) →
  dynamic_resources rs (<[n := r']> rs1) (ubos ++ [u]) (S n) w2.
Proof.
  intros X U D L Hn Hr Hb Hd j rj bj Hj Hrj Haj Hbj. destruct (decide (j = n)) as [->|Hne].
  - assert (rj = r) as -> by congruence. assert (bj = bs) as -> by congruence.
    destruct (Hd Haj) as (c & Hg & E). exists r', u, c.
    rewrite list_lookup_insert_eq, lookup_app_r by lia. by rewrite L, Nat.sub_diag.
  - destruct (dynamic_extends_resources _ _ _ _ _ _ X U D j rj bj) as (x & v & c & Hx & Hv & Hg & E); [lia|done..|].
    exists x, v, c. rewrite list_lookup_insert_ne by done. split_and!; try done. by apply lookup_app_l_Some.
Qed.

Lemma setup_buffers_spec {LR : ResourceLaws R} rs n w :
  gl_ok w → n ≤ length rs →
  (∀ k r, k < n → rs !! k = Some r → ∃ bs, get_resource_bytes r = Owned bs ∧ bs ≠ []) →
  ∃ rs' ubos w', st_fold setup_buffer_resource (seq 0 n) (rs, []) w = Ok ((rs', ubos), w') ∧
    gl_ok w' ∧ extends w w' ∧ map get_type rs' = map get_type rs ∧ length ubos = n ∧ ubo_data rs ubos n w' ∧
    dynamic_resources rs rs' ubos n w' ∧ NoDup ubos ∧ Forall (λ u, live w' u ∧ ¬ live w u) ubos.
Proof.
  intros Hw Hn Hr.
  destruct (st_fold_ind (λ d (st : list R * list Z) w', let '(rs', ubos) := st in
      gl_ok w' ∧ extends w w' ∧ map get_type rs' = map get_type rs ∧ length ubos = length d ∧
      (∀ k, length d ≤ k → rs' !! k = rs !! k) ∧ ubo_data rs ubos (length d) w' ∧
      dynamic_resources rs rs' ubos (length d) w' ∧ NoDup ubos ∧ Forall (λ u, live w' u ∧ ¬ live w u) ubos)
    setup_buffer_resource (seq 0 n) (rs, []) w) as ([rs' ubos] & w' & E & HP).
  - split_and!; try done; try constructor; intros k r bs Hk; simpl in Hk; lia.
  - intros d k rest [rs1 ubos] w1 Hs (O1 & X1 & T1 & L1 & R1 & U1 & D1 & N1 & F1).
    assert (Hk : seq 0 n !! length d = Some k) by (rewrite Hs; by apply list_lookup_middle).
    apply lookup_seq in Hk as [-> Hlt]. simpl.
    destruct (lookup_lt_is_Some_2 rs (length d)) as [r Hrk]; [lia|].
    destruct (Hr _ _ Hlt Hrk) as (bs & Hb & Hne).
    assert (Hr1 : rs1 !! length d = Some r) by (by rewrite R1).
    destruct (setup_buffer_resource_spec (length d) rs1 ubos w1 r bs O1 Hr1 Hb Hne)
      as (u & r' & w2 & E2 & O2 & X2 & C2 & T2 & Fu & A2).
    exists (<[length d := r']> rs1, ubos ++ [u]), w2. split; [done|].
    rewrite !length_app, L1, Nat.add_1_r. simpl. split_and!; try done; try lia.
    + by transitivity w1.
    + rewrite <- T1. apply list_eq. intros j. rewrite !list_lookup_fmap.
      destruct (decide (j = length d)) as [->|Hj].
      * rewrite list_lookup_insert_eq, Hr1 by (by eapply lookup_lt_Some). simpl. by rewrite T2.
      * by rewrite list_lookup_insert_ne.
    + intros j Hj. rewrite list_lookup_insert_ne by lia. apply R1. lia.
    + intros j rj bj Hj Hrj Hbj. destruct (decide (j = length d)) as [->|Hne'].
      * rewrite Hrk in Hrj. injection Hrj as <-. rewrite Hb in Hbj. injection Hbj as <-.
        exists u. split; [|done]. rewrite lookup_app_r, L1, Nat.sub_diag by lia. done.
      * destruct (U1 j rj bj) as (u' & Hu' & Cu'); [lia|done..|]. exists u'.
        split; [by apply lookup_app_l_Some|]. by eapply extends_contents.
    + rewrite Nat.add_1_r. apply (dynamic_resources_step rs rs1 ubos (length d) w1 w2 r r' u bs); try done. by eapply lookup_lt_Some.
    + apply NoDup_app. split; [done|]. split; [|apply NoDup_singleton].
      intros x Hin ->%list_elem_of_singleton. rewrite Forall_forall in F1. destruct (F1 u Hin) as [Hl _].
      unfold live in Hl. rewrite Fu in Hl. by apply is_Some_None in Hl.
    + apply Forall_app. split.
      * eapply Forall_impl; [exact F1|]. intros x [Hl Hx]. split; [by eapply live_extends|done].
      * constructor; [|constructor]. split; [by exists bs|]. intros Hl%(live_extends _ _ _ X1).
        unfold live in Hl. rewrite Fu in Hl. by apply is_Some_None in Hl.
  - rewrite length_seq in HP. exists rs', ubos, w'. naive_solver.
Qed.

Lemma setup_textures_spec {LR : ResourceLaws R} rs w : gl_ok w →
  Forall (λ r, get_type r = TextureType_ ∧ ∃ bs, get_resource_bytes r = Owned bs) rs →
  ∃ ts w', st_fold setup_texture_resource rs [] w = Ok (ts, w') ∧ gl_ok w' ∧ extends w w' ∧
    length ts = length rs.
Proof.
  intros Hw Hr.
  apply (st_fold_ind (λ d (ts : list Z) w', gl_ok w' ∧ extends w w' ∧ length ts = length d)); [done|].
  intros d r rest ts w1 -> (O1 & X1 & L1). apply Forall_app in Hr as [_ [[Ht [bs Hb]] _]%Forall_cons].
  destruct (setup_texture_resource_spec r ts w1 bs O1 Ht Hb) as (t & w2 & E & O2 & X2).
  exists (ts ++ [t]), w2. split; [done|]. split; [done|]. split; [by transitivity w1|].
  rewrite !length_app. simpl. lia.
Qed.

(** The indirect buffer of a class holds its commands. *)
Definition indirect_data (cs : list DrawIndirectCommand) w (ob : option Buffer) : Prop :=
  match cs with
  | [] => ob = None
  | _ => ∃ d, ob = Some d ∧ (mapped_ptr d = None ∧ type d = DrawIndirect) ∧ contents w (buf d) = Some (concat (map cmd_bytes cs))
  end.

Lemma indirect_extends cs w w' ob : extends w w' → indirect_data cs w ob → indirect_data cs w' ob.
Proof.
  intros X. destruct cs as [|c cs]; [done|]. intros (d & -> & Hm & C). exists d. split; [done|].
  split; [done|]. by eapply extends_contents.
Qed.

(** Binding a draw list on a renderer that has none. *)
Lemma bind_first (r : RendererOGL I R) draws w :
  gl_ok w → draw_cache r = [] → indirect_buffer r = None → indirect_buffer_dynamic r = None →
  (∀ i, i ∈ inputs r → binding_size (get_format i) ≠ 0) →
  Forall (λ k, k < length (inputs r)) draws →
  ∃ ib ibd w', bind_draw_list r draws w = Ok (mkRenderer (vao r) (vbo r) (ibo r) (vbo_dynamic r) (ibo_dynamic r)
      ib ibd (resources r) (resource_ubos r) (resource_textures r) (format r) (pass_attachment r)
      (shader r) (inputs r) (output r) draws, w') ∧ gl_ok w' ∧ extends w w' ∧
    indirect_data (draws_of StaticFixed (inputs r) draws) w' ib ∧
    indirect_data (draws_of DynamicFixed (inputs r) draws) w' ibd ∧
    NoDup (names [ib; ibd]) ∧ Forall (λ n, ¬ live w n) (names [ib; ibd]).
Proof.
  intros Hw Hc H1 H2 Hs Hd. unfold bind_draw_list, draws_match_cache. rewrite Hc, H1, H2.
  case_bool_decide as Hcase.
  { subst draws. exists None, None, w. split; [destruct r; simpl in *; by subst|]. do 4 (split; [done|]). split; constructor. }
  destruct (draw_table_spec (inputs r) Hs) as (t & Et & Ht). rewrite Et, lift_bind.
  rewrite (convert_draws_spec _ t draws Ht Hd), lift_bind.
  rewrite draws_of_length, Nat.eqb_refl, tz_assert_true, lift_bind by done.
  destruct (write_draws_None (draws_of StaticFixed (inputs r) draws) w Hw) as (ib & w1 & E1 & O1 & X1 & D1 & F1).
  rewrite (st_bind_Ok _ _ _ _ _ E1).
  destruct (write_draws_None (draws_of DynamicFixed (inputs r) draws) w1 O1) as (ibd & w2 & E2 & O2 & X2 & D2 & F2).
  rewrite (st_bind_Ok _ _ _ _ _ E2). exists ib, ibd, w2. split; [done|]. split; [done|].
  split; [by transitivity w1|]. split; [by eapply indirect_extends|]. split; [done|].
  assert (Hib : ∀ d, ib = Some d → live w1 (buf d)).
  { intros d ->. destruct (draws_of StaticFixed _ _); [done|]. destruct D1 as (? & [= <-] & _ & C). by eexists. }
  split; [|apply Forall_forall; intros n Hn Hl].
  - destruct ib as [d|], ibd as [d'|]; cbn; [|apply NoDup_singleton..|constructor].
    apply NoDup_cons. split; [|apply NoDup_singleton]. intros Heq%list_elem_of_singleton.
    apply (F2 d' eq_refl). rewrite <- Heq. auto.
  - destruct ib as [d|], ibd as [d'|]; cbn in Hn; repeat (apply elem_of_cons in Hn as [->|Hn]); try by apply elem_of_nil in Hn.
    all: try (by eapply F1). all: try (by eapply F2, live_extends).
Qed.

(** The state a constructed renderer is in; [ins] are the copies it took. *)
Record constructed (stride : nat) (b : RendererBuilderOGL I R) ins (r : RendererOGL I R) w : Prop := {
  co_ok : gl_ok w;
  co_copies : Forall2 same_data (b_inputs b) ins;
  co_inputs : Forall2 same_shape ins (inputs r);
  co_static : geometry StaticFixed ins w (vbo r) (ibo r);
  co_dynamic : geometry DynamicFixed ins w (vbo_dynamic r) (ibo_dynamic r);
  co_adopted : dynamic_inputs ins (inputs r) w (vbo_dynamic r) (ibo_dynamic r);
  co_draws : draw_cache r = seq 0 (length ins);
  co_commands : indirect_data (draws_of StaticFixed ins (seq 0 (length ins))) w (indirect_buffer r);
  co_commands_dynamic : indirect_data (draws_of DynamicFixed ins (seq 0 (length ins))) w (indirect_buffer_dynamic r);
  co_format : b_inputs b ≠ [] → ∃ fm, format r = Some fm ∧ binding_size fm = stride;
  co_ubos : ubo_data (map clone_resource (b_buffer_resources b ++ b_texture_resources b)) (resource_ubos r)
              (length (b_buffer_resources b)) w;
  co_resources : map get_type (resources r) =
                 map get_type (map clone_resource (b_buffer_resources b ++ b_texture_resources b));
  co_dynamic_ubos : dynamic_resources (map clone_resource (b_buffer_resources b ++ b_texture_resources b))
                      (resources r) (resource_ubos r) (length (b_buffer_resources b)) w;
  co_written : NoDup (names [vbo_dynamic r; indirect_buffer r; indirect_buffer_dynamic r] ++ resource_ubos r);
  co_apart : Forall (λ n, n ∉ names [vbo r; ibo r; ibo_dynamic r])
               (names [vbo_dynamic r; indirect_buffer r; indirect_buffer_dynamic r] ++ resource_ubos r);
  co_live : Forall (live w) (names [vbo r; ibo r; vbo_dynamic r; ibo_dynamic r] ++ resource_ubos r);
  co_ubo_count : length (resource_ubos r) = length (b_buffer_resources b);
  co_textures : length (resource_textures r) = length (b_texture_resources b);
  co_pass : pass_attachment r = b_pass b;
  co_output : output r = b_output b;
  co_shader : shader r = b_shader b }.

Lemma binding_sizes stride ins ins' : stride ≠ 0 →
  Forall (input_data_ok stride) ins → Forall2 same_shape ins ins' →
  ∀ i, i ∈ ins' → binding_size (get_format i) ≠ 0.
Proof.
  intros Hs Hok HF j [k Hk]%list_elem_of_lookup.
  destruct (Forall2_lookup_r _ _ _ _ _ HF Hk) as (i & Hi & (_ & -> & _)).
  destruct (Forall_lookup_1 _ _ _ _ Hok Hi) as (_ & -> & _). done.
Qed.

(** The buffers a renderer writes to after its construction are all different
    and none of those it only draws from. *)
Lemma written_names w4 w5 w6 vb ib vbd ibd ubos ind indd : extends w5 w6 → Forall (live w4) (names [vb; ib; vbd; ibd]) →
  extends w4 w5 → NoDup ubos → Forall (λ u, live w5 u ∧ ¬ live w4 u) ubos →
  NoDup (names [ind; indd]) → Forall (λ n, ¬ live w6 n) (names [ind; indd]) →
  NoDup (names [vbd; ind; indd] ++ ubos).
Proof.
  intros X6 L4 X5 N5 V5 N7 V7. rewrite Forall_forall in *.
  change (names [vbd; ind; indd]) with (names ([vbd] ++ [ind; indd])). unfold names in *. rewrite omap_app.
  assert (Hv : ∀ n, n ∈ omap (fmap buf) [vbd] → live w4 n).
  { intros n Hn. apply L4. change [vb; ib; vbd; ibd] with ([vb; ib] ++ [vbd] ++ [ibd]). rewrite !omap_app. set_solver. }
  apply NoDup_app. split; [apply NoDup_app; split_and!|split; [|done]].
  - destruct vbd; cbn; repeat constructor; set_solver.
  - intros n Hn Hin. apply (V7 n Hin). by eapply live_extends, live_extends, Hv.
  - done.
  - intros n [Hn|Hn]%elem_of_app Hin; [by apply (V5 n Hin), Hv|].
    apply (V7 n Hn). eapply live_extends; [done|]. by apply V5.
Qed.

Lemma written_apart w4 w5 w6 vb ib vbd ibd ubos ind indd : extends w5 w6 → Forall (live w4) (names [vb; ib; vbd; ibd]) →
  extends w4 w5 → Forall (λ v, v ∉ names [vb; ib; ibd]) (names [vbd]) → Forall (λ u, live w5 u ∧ ¬ live w4 u) ubos →
  Forall (λ n, ¬ live w6 n) (names [ind; indd]) →
  Forall (λ n, n ∉ names [vb; ib; ibd]) (names [vbd; ind; indd] ++ ubos).
Proof.
  intros X6 L4 X5 P4 V5 V7. rewrite Forall_forall in *.
  change (names [vbd; ind; indd]) with (names ([vbd] ++ [ind; indd])). unfold names in *. rewrite omap_app.
  assert (Hv : ∀ n, n ∈ omap (fmap buf) [vb; ib; ibd] → live w4 n).
  { intros n Hn. apply L4. change [vb; ib; vbd; ibd] with ([vb; ib] ++ [vbd] ++ [ibd]).
    change [vb; ib; ibd] with ([vb; ib] ++ [ibd]) in Hn. rewrite !omap_app in *. set_solver. }
  intros n [[Hn|Hn]%elem_of_app|Hn]%elem_of_app Hin; [by eapply P4| |by apply (V5 n Hn), Hv].
  apply (V7 n Hn). by eapply live_extends, live_extends, Hv.
Qed.

Lemma construct_spec {LR : ResourceLaws R} stride b w :
  builder_ok stride b → gl_ok w →
  ∃ ins r w', RendererOGL_new b w = Ok (r, w') ∧ constructed stride b ins r w'.
Proof.
  intros Hb Hw. unfold RendererOGL_new, builder_get_shader, builder_get_culling_strategy.
  destruct (bo_shader _ _ Hb) as [sh Esh], (bo_culling _ _ Hb) as [cu Ecu].
  rewrite Esh, Ecu. cbn [of_option]. rewrite lift_bind.
  destruct (copy_inputs_spec b) as (ins & Ei & HF).
  { intros i [k Hk]%list_elem_of_lookup. apply (Forall_lookup_1 _ _ _ _ (bo_inputs _ _ Hb) Hk). }
  rewrite Ei, !lift_bind.
  destruct (quiet_step (setup_state (b_pass b) cu) w) as (w1 & E1 & O1 & X1 & _);
    [apply setup_state_quiet|done|]. rewrite (st_bind_Ok _ _ _ _ _ E1).
  destruct (gl_create_spec glCreateVertexArrays w1) as (va & w2 & E2 & O2 & X2 & _);
    [apply create_vertex_arrays_spec|done|]. rewrite (st_bind_Ok _ _ _ _ _ E2).
  destruct (quiet_step (call (glBindVertexArray va)) w2) as (w3 & E3 & O3 & X3 & _);
    [apply quiet_call|done|]. rewrite (st_bind_Ok _ _ _ _ _ E3).
  destruct (setup_inputs_spec stride va b ins w3 O3 Hb HF)
    as (vb & ib & vbd & ibd & f & ins' & w4 & E4 & O4 & X4 & G4 & D4 & S4 & A4 & L4 & P4 & F4).
  rewrite (st_bind_Ok _ _ _ _ _ E4). cbv beta iota zeta.
  set (rs := map clone_resource (b_buffer_resources b ++ b_texture_resources b)).
  destruct (setup_buffers_spec rs (length (b_buffer_resources b)) w4 O4)
    as (rs' & ubos & w5 & E5 & O5 & X5 & T5 & L5 & U5 & Y5 & N5 & V5).
  { unfold rs. rewrite length_map, length_app. lia. }
  { intros k r Hk Hr. unfold rs in Hr. rewrite list_lookup_fmap, lookup_app_l in Hr by done.
    destruct (b_buffer_resources b !! k) as [r0|] eqn:Er; [|done]. injection Hr as <-.
    destruct (Forall_lookup_1 _ _ _ _ (bo_buffers _ _ Hb) Er) as (bs & Hbs & Hne).
    exists bs. destruct (clone_resource_same r0) as (_ & _ & -> & _). done. }
  rewrite <- (length_map clone_resource (b_buffer_resources b)) in E5.
  unfold rs in E5 at 1. rewrite map_app in E5. rewrite (st_bind_Ok _ _ _ _ _ E5). cbv beta iota.
  destruct (setup_textures_spec (map clone_resource (b_texture_resources b)) w5 O5)
    as (ts & w6 & E6 & O6 & X6 & L6).
  { apply Forall_fmap. eapply Forall_impl; [apply (bo_textures _ _ Hb)|]. intros r [Ht [bs Hbs]]. simpl.
    destruct (clone_resource_same r) as (-> & _ & -> & _). eauto. }
  rewrite (st_bind_Ok _ _ _ _ _ E6).
  pose proof (same_data_ok stride _ _ HF (bo_inputs _ _ Hb)) as Hok.
  edestruct (bind_first (mkRenderer va vb ib vbd ibd None None rs' ubos ts f (b_pass b) (Some sh) ins'
    (b_output b) []) (all_inputs_once ins') w6) as (ind & indd & w7 & E7 & O7 & X7 & C7 & D7 & N7 & V7);
    [done|done|done|done| | |].
  { by eapply binding_sizes; [apply (bo_stride _ _ Hb)|exact Hok|]. }
  { apply Forall_forall. intros k Hk%elem_of_seq. simpl. lia. }
  rewrite E7. cbn [vao vbo ibo vbo_dynamic ibo_dynamic resources resource_ubos resource_textures format
    pass_attachment shader inputs output] in *.
  exists ins. do 2 eexists. split; [done|].
  assert (X47 : extends w4 w7) by (transitivity w5; [done|]; by transitivity w6).
  assert (EL : all_inputs_once ins' = seq 0 (length ins)).
  { unfold all_inputs_once. apply Forall2_length in S4. by rewrite S4. }
  rewrite !(draws_of_same_shape _ ins ins') in * by done. rewrite EL in *.
  split; cbn; try done.
  - by eapply geometry_extends.
  - by eapply geometry_extends.
  - by eapply dynamic_extends.
  - eapply ubo_data_extends; [|exact U5]. by transitivity w6.
  - eapply dynamic_extends_resources; [|exact U5|exact Y5]. by transitivity w6.
  - eapply (written_names w4 w5 w6 vb ib vbd ibd ubos ind indd); done.
  - eapply (written_apart w4 w5 w6 vb ib vbd ibd ubos ind indd); done.
  - apply Forall_app. split; eapply Forall_impl; [exact L4| |exact V5|]; [intros n Hn|intros n [Hn _]]; eapply live_extends; [exact X47|done| |done].
    by transitivity w6.
  - by rewrite L6, length_map.
Qed.

End Construct.
#[export] Hint Resolve quiet_call quiet_ret quiet_bind quiet_each : topaz.
