(* ===== verification/OGLProperties.v ===== *)
(** * Properties of the OpenGL renderer *)

From S2P Require Import Prelude Containers Memory RenderTypes Inputs OpenGL OGLRenderer OGLRendererFacts OGLConstruct.

Section Facts.
Context `{BC : BuildConfig} `{G : GL} {GS : GLSpec} {I : Type} `{II : IRendererInput I} {R : Type} `{IR : IResource R}.
Implicit Types (w : world) (ins : list I).

(** The loop that counts the draws of a class. *)
Lemma count_draws_spec acc ins draws : Forall (λ k, k < length ins) draws →
  for_each (λ handle n, i ← at_index ins handle; Ok (n + (if bool_decide (data_access i = acc) then 1 else 0))) draws 0 =
  Ok (length (draws_of acc ins draws)).
Proof.
  intros Hd.
  destruct (for_each_ind (λ d n, n = length (draws_of acc ins d))
    (λ handle n, i ← at_index ins handle;
       Ok (n + (if bool_decide (data_access i = acc) then 1 else 0))) draws 0)
    as (n & E & ->); [done| |done].
  intros d k rest n Hl ->. rewrite Hl in Hd. apply Forall_app in Hd as [_ [Hk _]%Forall_cons].
  destruct (lookup_lt_is_Some_2 _ _ Hk) as [i Hi]. rewrite (at_index_Some _ _ _ Hi). simpl.
  eexists; split; [done|]. unfold draws_of. rewrite omap_app. simpl. rewrite Hi.
  rewrite length_app. by case_bool_decide.
Qed.

(** [num_static_draws] and [num_dynamic_draws] count the commands. *)
Lemma num_draws_spec acc (r : RendererOGL I R) :
  Forall (λ k, k < length (inputs r)) (draw_cache r) →
  num_draws_of acc r = Ok (length (draws_of acc (inputs r) (draw_cache r))).
Proof. apply count_draws_spec. Qed.

(** Drawing every input once draws the inputs of a class in order. *)
Lemma map_draws_once {A} acc ins (f : DrawIndirectCommand → A) (g : I → A) :
  (∀ k i, ins !! k = Some i → data_access i = acc → f (command ins k i) = g i) →
  map f (draws_of acc ins (seq 0 (length ins))) =
  map g (List.filter (λ i, bool_decide (data_access i = acc)) ins).
Proof.
  intros H.
  cut (∀ m, m ≤ length ins → map f (draws_of acc ins (seq 0 m)) =
    map g (List.filter (λ i, bool_decide (data_access i = acc)) (take m ins))).
  { intros Hm. specialize (Hm (length ins)). rewrite take_ge in Hm by done. by apply Hm. }
  induction m as [|m IH]; intros Hm; [done|].
  destruct (lookup_lt_is_Some_2 ins m) as [i Hi]; [lia|].
  rewrite seq_S, (take_S_r _ _ _ Hi), List.filter_app, map_app, <- IH by lia. simpl.
  unfold draws_of. rewrite omap_app, map_app. f_equal. simpl. rewrite Hi.
  case_bool_decide; simpl; [|done]. by rewrite H.
Qed.

Lemma filter_same_data acc ins ins' {A} (g : I → A) :
  Forall2 same_data ins ins' → (∀ i j, same_data i j → g j = g i) →
  map g (List.filter (λ i, bool_decide (data_access i = acc)) ins') =
  map g (List.filter (λ i, bool_decide (data_access i = acc)) ins).
Proof.
  intros HF Hg. induction HF as [|i j l l' Hij _ IH]; [done|]. simpl.
  rewrite (proj1 Hij). case_bool_decide; simpl; [|done]. by rewrite IH, (Hg i j).
Qed.

(** The buffers a class is drawn from. *)
Definition buffers_of (acc : RendererInputDataAccess) (r : RendererOGL I R)
    : option Buffer * option Buffer * option Buffer :=
  match acc with
  | StaticFixed => (vbo r, ibo r, indirect_buffer r)
  | DynamicFixed => (vbo_dynamic r, ibo_dynamic r, indirect_buffer_dynamic r)
  end.

Lemma vertex_total stride ins acc k i :
  stride ≠ 0 → Forall (input_data_ok stride) ins → ins !! k = Some i → data_access i = acc →
  offset_of (count_of acc vertex_number) ins k + vertex_number i ≤ length (all_data acc owned_bytes ins).
Proof.
  intros Hs Hok Hk <-. pose proof (all_data_bound owned_bytes ins k i Hk) as Hb.
  rewrite (vertex_offset stride ins k i Hok) in Hb.
  destruct (Forall_lookup_1 _ _ _ _ Hok Hk) as (_ & _ & E & _). rewrite E in Hb. nia.
Qed.

(** The draws of one class of a constructed renderer. *)
Lemma class_draws stride b ins r w acc :
  builder_ok stride b → constructed stride b ins r w →
  let cs := draws_of acc ins (seq 0 (length ins)) in
  num_draws_of acc r = Ok (length cs) ∧
  map (fetch_draw (u32s_bytes (all_data acc owned_indices ins)) (all_data acc owned_bytes ins) stride) cs =
  map (λ i, mesh_vertices stride (owned_bytes i) (owned_indices i))
    (List.filter (λ i, bool_decide (data_access i = acc)) (b_inputs b)).
Proof.
  intros Hb Hc. cbv zeta. pose proof (co_copies _ _ _ _ _ Hc) as HF.
  pose proof (same_data_ok stride _ _ HF (bo_inputs _ _ Hb)) as Hok.
  assert (Hv : ∀ acc, all_data acc owned_bytes ins = all_data acc owned_bytes (b_inputs b)).
  { intros a. eapply all_data_same; [done|]. intros i j Hij. by apply same_data_owned. }
  assert (Hi : ∀ acc, all_data acc owned_indices ins = all_data acc owned_indices (b_inputs b)).
  { intros a. eapply all_data_same; [done|]. intros i j Hij. by apply same_data_owned. }
  split.
  - rewrite num_draws_spec.
    + rewrite (co_draws _ _ _ _ _ Hc). by rewrite (draws_of_same_shape _ ins) by apply (co_inputs _ _ _ _ _ Hc).
    + rewrite (co_draws _ _ _ _ _ Hc). apply Forall_forall. intros k Hk%elem_of_seq.
      pose proof (Forall2_length _ _ _ (co_inputs _ _ _ _ _ Hc)). lia.
  - rewrite (map_draws_once acc ins _ (λ i, mesh_vertices stride (owned_bytes i) (owned_indices i))).
    + apply filter_same_data; [done|]. intros i j Hij. by destruct (same_data_owned i j Hij) as [-> ->].
    + intros k i Hk <-. apply fetch_draw_command; [done|done| |].
      * rewrite Hi. pose proof (bo_indices _ _ Hb (data_access i)). unfold modulus32. lia.
      * pose proof (vertex_total stride ins _ k i (bo_stride _ _ Hb) Hok Hk eq_refl) as Ht.
        rewrite Hv in Ht. pose proof (bo_vertices _ _ Hb (data_access i)). unfold modulus32. lia.
Qed.

Lemma draws_of_nonempty acc ins draws c l :
  draws_of acc ins draws = c :: l → existsb (λ i, bool_decide (data_access i = acc)) ins = true.
Proof.
  intros E. assert (Hc : c ∈ draws_of acc ins draws) by (rewrite E; set_solver).
  unfold draws_of in Hc. apply list_elem_of_omap in Hc as (k & _ & Hk).
  destruct (ins !! k) as [i|] eqn:Ei; [|done]. case_bool_decide; [|done].
  by eapply existsb_access.
Qed.

End Facts.

(** ** Properties *)

Section Properties.
Context `{BC : BuildConfig} `{G : GL} {GS : GLSpec}.
Context {I : Type} `{II : IRendererInput I} {LI : RendererInputLaws I}.
Context {R : Type} `{IR : IResource R} {LR : ResourceLaws R}.

(** C5: constructing a renderer from a well-formed builder succeeds, and for
    each class of inputs (static, dynamic) the vertex, index and indirect
    buffers together draw exactly the meshes of the builder's inputs of that
    class, in order: the draw count is the number of commands in the indirect
    buffer, and executing them on the buffers fetches the vertices of each
    mesh. *)
Theorem ogl_draws_fetch_inputs stride (b : RendererBuilderOGL I R) w :
  builder_ok stride b → gl_ok w →
  ∃ r w', RendererOGL_new b w = Ok (r, w') ∧
    ∀ acc, ∃ cs, num_draws_of acc r = Ok (length cs) ∧
      match cs with
      | [] => snd (buffers_of acc r) = None ∧
              List.filter (λ i, bool_decide (data_access i = acc)) (b_inputs b) = []
      | _ => ∃ vb ib ind vbytes ibytes, buffers_of acc r = (Some vb, Some ib, Some ind) ∧
          contents w' (buf vb) = Some vbytes ∧ contents w' (buf ib) = Some ibytes ∧
          contents w' (buf ind) = Some (concat (map cmd_bytes cs)) ∧
          map (fetch_draw ibytes vbytes stride) cs =
          map (λ i, mesh_vertices stride (owned_bytes i) (owned_indices i))
            (List.filter (λ i, bool_decide (data_access i = acc)) (b_inputs b))
      end.
Proof.
  intros Hb Hw. destruct (construct_spec stride b w Hb Hw) as (ins & r & w' & E & Hc).
  exists r, w'. split; [done|]. intros acc. exists (draws_of acc ins (seq 0 (length ins))).
  destruct (class_draws stride b ins r w' acc Hb Hc) as [Hn Hm]. split; [done|].
  assert (Hi : indirect_data (draws_of acc ins (seq 0 (length ins))) w' (snd (buffers_of acc r))).
  { destruct acc; [apply (co_commands _ _ _ _ _ Hc)|apply (co_commands_dynamic _ _ _ _ _ Hc)]. }
  assert (Hg : geometry acc ins w' (fst (fst (buffers_of acc r))) (snd (fst (buffers_of acc r)))).
  { destruct acc; [apply (co_static _ _ _ _ _ Hc)|apply (co_dynamic _ _ _ _ _ Hc)]. }
  destruct (draws_of acc ins (seq 0 (length ins))) as [|c cs] eqn:Ed.
  - split; [done|]. by destruct (List.filter _ (b_inputs b)).
  - destruct Hi as (ind & Ei & _ & Ci).
    destruct (Hg (draws_of_nonempty _ _ _ _ _ Ed)) as (vb & ib & Ev & Eib & Cv & Cib).
    destruct (buffers_of acc r) as [[ov oi] od]. simpl in *. subst. eauto 12.
Qed.

(** C11: after construction every dynamic input of the renderer is a window into
    the dynamic vertex buffer: it still reads its initial data, and bytes
    written through it are the bytes of that buffer the next draw fetches, at
    the place of the input and nowhere else. *)
Theorem ogl_dynamic_input_is_buffer stride (b : RendererBuilderOGL I R) w :
  builder_ok stride b → gl_ok w →
  ∃ r w', RendererOGL_new b w = Ok (r, w') ∧
    ∀ k i, b_inputs b !! k = Some i → data_access i = DynamicFixed →
      ∃ j p vb off before, get_input r k = Some j ∧ get_vertex_bytes j = At p (length (owned_bytes i)) ∧
        vbo_dynamic r = Some vb ∧ contents w' (buf vb) = Some before ∧
        slice off (length (owned_bytes i)) before = owned_bytes i ∧
        span_read (w_heap w') (get_vertex_bytes j) = Ok (owned_bytes i) ∧
        ∀ bytes, length bytes = length (owned_bytes i) →
          ∃ h, store (w_heap w') p bytes = Ok h ∧
            contents (mkWorld h (w_gl w') (w_calls w')) (buf vb) = Some (splice off bytes before).
Proof.
  intros Hb Hw. destruct (construct_spec stride b w Hb Hw) as (ins & r & w' & E & Hc).
  exists r, w'. split; [done|]. intros k i Hk Ha.
  destruct (Forall2_lookup_l _ _ _ _ _ (co_copies _ _ _ _ _ Hc) Hk) as (i' & Hk' & Hs).
  destruct (same_data_owned _ _ Hs) as [Eo _]. assert (Ha' : data_access i' = DynamicFixed).
  { destruct Hs as (-> & _). done. }
  destruct (co_adopted _ _ _ _ _ Hc k i' Hk' Ha') as (j & v & x & cv & ci & Hj & Ev & Ex & Bv & Bi & HA).
  destruct (co_dynamic _ _ _ _ _ Hc (existsb_access _ _ _ _ Hk' Ha')) as (v' & x' & Ev' & _ & Cv & _).
  rewrite Ev in Ev'. injection Ev' as <-. unfold adopted in HA. rewrite Ha' in HA.
  destruct HA as (_ & _ & Hv & _). rewrite Eo in Hv.
  set (off := offset_of (length ∘ data_of DynamicFixed owned_bytes) ins k) in *.
  set (before := all_data DynamicFixed owned_bytes ins) in *.
  pose proof (all_data_slice owned_bytes ins k i' Hk') as Hsl. rewrite Ha', Eo in Hsl. fold off before in Hsl.
  pose proof (all_data_bound owned_bytes ins k i' Hk') as Hbd. rewrite Ha', Eo in Hbd. fold off before in Hbd.
  assert (Hh : w_heap w' !! cv = Some before) by (unfold contents in Cv; by rewrite Bv in Cv).
  exists j, (mkPtr cv off), v, off, before. split_and!; try done.
  - unfold get_input. rewrite (proj2 (Nat.leb_gt _ _)) by (by eapply lookup_lt_Some). done.
  - rewrite Hv. cbn [span_read]. unfold load. cbn [block offset]. rewrite Hh.
    rewrite (proj2 (Nat.leb_le _ _)) by done. by rewrite Hsl.
  - intros bytes Hl. unfold store. cbn [block offset]. rewrite Hh.
    rewrite (proj2 (Nat.leb_le _ _)) by lia. eexists. split; [done|].
    unfold contents. simpl. rewrite Bv. simpl. by rewrite lookup_insert_eq.
Qed.

(** *** Handles of resources *)

(** Resources added one after the other, and the handles returned for them. *)
Definition add_resources (b : RendererBuilderOGL I R) (rs : list R) : RendererBuilderOGL I R * list nat :=
  foldl (λ '(b, handles) res, let '(b, handle) := builder_add_resource b res in (b, handles ++ [handle])) (b, []) rs.

Definition of_type (t : ResourceType) (rs : list R) : list R := filter (λ r, get_type r = t) rs.

(** Where a renderer keeps the resource that was added as number [k]: behind the
    buffers, or the textures, added before it, and a texture behind all buffers. *)
Definition resource_place (rs : list R) (k : nat) (res : R) : nat :=
  match get_type res with
  | BufferType_ => length (of_type BufferType_ (take k rs))
  | TextureType_ => length (of_type BufferType_ rs) + length (of_type TextureType_ (take k rs))
  end.

(** What a renderer keeps of a resource: its copy, which writes to the memory of
    the driver if it is a dynamic buffer. *)
Definition kept_as (res x : R) : Prop :=
  match get_type res, resource_access res with
  | BufferType_, DynamicFixed => ∃ h p h', set_resource_data h (clone_resource res) p = Ok (h', x)
  | _, _ => x = clone_resource res
  end.

Lemma of_type_app t l l' : of_type t (l ++ l') = of_type t l ++ of_type t l'.
Proof. apply filter_app. Qed.

Lemma of_type_cons t res l : of_type t (res :: l) = if decide (get_type res = t) then res :: of_type t l else of_type t l.
Proof. unfold of_type. by rewrite filter_cons. Qed.

Lemma of_type_length l : length (of_type BufferType_ l) + length (of_type TextureType_ l) = length l.
Proof.
  induction l as [|res l IH]; [done|]. rewrite !of_type_cons. destruct (get_type res); repeat case_decide; cbn; done || lia.
Qed.

Lemma of_type_split t rs k res : rs !! k = Some res →
  of_type t rs = of_type t (take k rs) ++ (if decide (get_type res = t) then [res] else []) ++ of_type t (drop (S k) rs).
Proof.
  intros Hk. transitivity (of_type t (take k rs ++ res :: drop (S k) rs)); [by rewrite take_drop_middle|].
  rewrite of_type_app, of_type_cons. by case_decide.
Qed.

Lemma of_type_place t rs k res : rs !! k = Some res → get_type res = t →
  of_type t rs !! length (of_type t (take k rs)) = Some res.
Proof.
  intros Hk Ht. rewrite (of_type_split t rs k res Hk), decide_True by done. by apply list_lookup_middle.
Qed.

Lemma of_type_none t l : length (of_type t l) = length l ↔ Forall (λ r, get_type r = t) l.
Proof.
  induction l as [|res l IH]; [done|]. rewrite of_type_cons, Forall_cons. case_decide as H; cbn; [rewrite <- IH; intuition lia|].
  pose proof (length_filter (λ r, get_type r = t) l) as Hl. fold (of_type t l) in Hl. split; [lia|by intros [? _]].
Qed.

Lemma add_resources_spec (b : RendererBuilderOGL I R) rs :
  b_buffer_resources b = [] → b_texture_resources b = [] → let '(b', handles) := add_resources b rs in
  b_buffer_resources b' = of_type BufferType_ rs ∧ b_texture_resources b' = of_type TextureType_ rs ∧
  handles = seq 0 (length rs).
Proof.
  intros Hb Ht. unfold add_resources. induction rs as [|res rs IH] using rev_ind; [done|].
  rewrite foldl_app. cbn [foldl]. destruct (foldl _ _ rs) as [b1 hs]. destruct IH as (Eb & Et & ->).
  rewrite !of_type_app, !of_type_cons, length_app. cbn [length]. rewrite seq_app. cbn [seq].
  unfold builder_add_resource. rewrite Eb, Et, of_type_length.
  destruct (get_type res); cbn; by rewrite ?app_nil_r.
Qed.

Lemma setup_buffers_inv (rs : list R) ubos s n w rs' ubos' w' :
  st_fold setup_buffer_resource (seq s n) (rs, ubos) w = Ok ((rs', ubos'), w') →
  length rs' = length rs ∧ ∀ k x, rs !! k = Some x → ∃ y, rs' !! k = Some y ∧
    if decide (s ≤ k < s + n) then
      match resource_access x with StaticFixed => y = x | DynamicFixed => ∃ h p h', set_resource_data h x p = Ok (h', y) end
    else y = x.
Proof.
  revert rs ubos s w. induction n as [|n IH]; intros rs ubos s w; cbn [seq st_fold].
  { intros [= <- <- <-]. split; [done|]. intros k x Hk. exists x. case_decide; [lia|done]. }
  intros ([rs1 ubos1] & w1 & E1 & E)%st_bind_inv. destruct (IH _ _ _ _ E) as [Hl Hk].
  assert (H1 : length rs1 = length rs ∧ ∀ k x, rs !! k = Some x → ∃ y, rs1 !! k = Some y ∧
    if decide (k = s) then
      match resource_access x with StaticFixed => y = x | DynamicFixed => ∃ h p h', set_resource_data h x p = Ok (h', y) end
    else y = x).
  { unfold setup_buffer_resource in E1. apply st_bind_inv in E1 as (r & ? & [Hr%at_index_inv ->]%lift_inv & E1).
    apply st_bind_inv in E1 as (name & ? & _ & E1). apply st_bind_inv in E1 as (bytes & ? & _ & E1).
    destruct (resource_access r) eqn:Ea.
    - apply st_bind_inv in E1 as (? & ? & _ & [= <- <- <-]). split; [done|]. intros k z Hx. exists z. split; [done|].
      case_decide; [|done]. subst k. rewrite Hr in Hx. injection Hx as <-. by rewrite Ea.
    - do 2 (apply st_bind_inv in E1 as (? & ? & _ & E1)). apply st_bind_inv in E1 as (p & ? & _ & E1).
      apply st_bind_inv in E1 as (r' & w2 & Er & [= <- <- <-]). unfold on_heap in Er.
      destruct (set_resource_data _ r p) as [[h' y]|] eqn:Es; [|done]. injection Er as -> _.
      split; [apply length_insert|]. intros k z Hx. case_decide as Hks.
      + subst k. rewrite Hr in Hx. injection Hx as <-. exists r'. rewrite Ea. split; [|by eauto].
        apply list_lookup_insert_eq. by eapply lookup_lt_Some.
      + exists z. by rewrite list_lookup_insert_ne. }
  destruct H1 as [Hl1 Hk1]. split; [congruence|]. intros k x Hx. destruct (Hk1 k x Hx) as (y & Hy & Hs1).
  destruct (Hk k y Hy) as (z & Hz & Hs2). exists z. split; [done|].
  destruct (decide (k = s)) as [->|Hne].
  - rewrite decide_False in Hs2 by lia. subst z. by rewrite decide_True by lia.
  - subst y. repeat case_decide; done || lia.
Qed.

Lemma bind_draw_list_resources (r : RendererOGL I R) draws w r' w' :
  bind_draw_list r draws w = Ok (r', w') → resources r' = resources r.
Proof.
  unfold bind_draw_list. destruct (draws_match_cache r draws); [by intros [= <- _]|].
  intros (t & ? & _ & E)%st_bind_inv. apply st_bind_inv in E as ([s d] & ? & _ & E).
  do 3 (apply st_bind_inv in E as (? & ? & _ & E)). by injection E as <- _.
Qed.

(** The resources of a constructed renderer. *)
Lemma new_resources (b : RendererBuilderOGL I R) w r w' : RendererOGL_new b w = Ok (r, w') →
  length (resources r) = length (b_buffer_resources b) + length (b_texture_resources b) ∧
  (∀ k res, b_buffer_resources b !! k = Some res → get_type res = BufferType_ →
     resource_access (clone_resource res) = resource_access res →
     ∃ x, resources r !! k = Some x ∧ kept_as res x) ∧
  ∀ k res, b_texture_resources b !! k = Some res →
     resources r !! (length (b_buffer_resources b) + k) = Some (clone_resource res).
Proof.
  unfold RendererOGL_new. intros (? & ? & _ & E)%st_bind_inv. do 5 (apply st_bind_inv in E as (? & ? & _ & E)).
  apply st_bind_inv in E as ([[[[[vbo ibo] vbod] ibod] f] ins] & ? & _ & E).
  apply st_bind_inv in E as ([rs ubos] & ? & Er & E). apply st_bind_inv in E as (texs & ? & _ & E).
  apply bind_draw_list_resources in E. cbn in E. rewrite E. clear E.
  apply setup_buffers_inv in Er as [Hl Hk]. rewrite length_app, !length_map in Hl. split; [done|]. split.
  - intros k res Hres Ht Ha. assert (Hlt := lookup_lt_Some _ _ _ Hres).
    destruct (Hk k (clone_resource res)) as (y & Hy & Hs).
    { rewrite lookup_app_l by (by rewrite length_map). by rewrite list_lookup_fmap, Hres. }
    exists y. split; [done|]. rewrite decide_True in Hs by (rewrite length_map; lia). unfold kept_as.
    rewrite Ha in Hs. rewrite Ht. by destruct (resource_access res).
  - intros k res Hres. destruct (Hk (length (b_buffer_resources b) + k) (clone_resource res)) as (y & Hy & Hs).
    { rewrite lookup_app_r by (rewrite length_map; lia). rewrite length_map.
      replace (_ - _) with k by lia. by rewrite list_lookup_fmap, Hres. }
    rewrite decide_False in Hs by (rewrite length_map; lia). by subst y.
Qed.

Lemma rank_mono t rs k k' res : rs !! k = Some res → get_type res = t → k < k' →
  length (of_type t (take k rs)) < length (of_type t (take k' rs)).
Proof.
  intros Hk Ht Hlt. replace k' with (S k + (k' - S k)) by lia. rewrite <- take_take_drop.
  rewrite (take_S_r _ _ _ Hk), !of_type_app, of_type_cons, decide_True by done.
  rewrite !length_app. cbn. lia.
Qed.

Lemma rank_lt t rs k res : rs !! k = Some res → get_type res = t →
  length (of_type t (take k rs)) < length (of_type t rs).
Proof. intros Hk Ht. eapply lookup_lt_Some. by apply of_type_place. Qed.

Lemma resource_place_inj rs k k' res res' : rs !! k = Some res → rs !! k' = Some res' →
  resource_place rs k res = resource_place rs k' res' → k = k'.
Proof.
  intros Hk Hk'. unfold resource_place.
  destruct (get_type res) eqn:E, (get_type res') eqn:E'; intros Hp.
  all: try (pose proof (rank_lt _ _ _ _ Hk E); pose proof (rank_lt _ _ _ _ Hk' E'); lia).
  all: destruct (lt_eq_lt_dec k k') as [[Hlt| ->]|Hlt]; [|done|];
    [pose proof (rank_mono _ _ _ _ _ Hk E Hlt)|pose proof (rank_mono _ _ _ _ _ Hk' E' Hlt)]; lia.
Qed.

Lemma resource_place_handle rs k res : rs !! k = Some res → resource_place rs k res = k ↔
  match get_type res with
  | BufferType_ => Forall (λ t, get_type t = BufferType_) (take k rs)
  | TextureType_ => Forall (λ t, get_type t = TextureType_) (drop (S k) rs)
  end.
Proof.
  intros Hk. assert (Hlt := lookup_lt_Some _ _ _ Hk). unfold resource_place.
  destruct (get_type res) eqn:E; rewrite <- of_type_none.
  - rewrite length_take. lia.
  - pose proof (of_type_length (take k rs)) as H1. rewrite length_take in H1.
    pose proof (of_type_length (drop (S k) rs)) as H2. rewrite length_drop in H2 |- *.
    assert (H3 : length (of_type BufferType_ rs) =
      length (of_type BufferType_ (take k rs)) + length (of_type BufferType_ (drop (S k) rs))).
    { rewrite (of_type_split _ rs k res Hk), length_app. by rewrite decide_False by congruence. }
    lia.
Qed.

(** C39: resources are added to a builder that has none, in any order of buffers
    and textures, and a renderer is constructed from it.  The handles are the
    numbers of the additions, and the renderer has as many resources.  The
    resource added as number [k], whose handle is [k], is what [get_resource]
    returns for its place: its rank among the buffers, or behind all buffers its
    rank among the textures; no two resources share a place.  So its handle finds
    it exactly if it is a buffer and no texture was added before it, or a texture
    and no buffer was added after it; otherwise the handle finds another one. *)
Theorem ogl_resource_handle_order (b : RendererBuilderOGL I R) rs w r w' :
  b_buffer_resources b = [] → b_texture_resources b = [] →
  let '(b', handles) := add_resources b rs in
  RendererOGL_new b' w = Ok (r, w') →
  handles = seq 0 (length rs) ∧ resource_count r = length rs ∧
  (∀ k res, rs !! k = Some res → ∃ x, get_resource r (resource_place rs k res) = Some x ∧ kept_as res x) ∧
  (∀ k k' res res', rs !! k = Some res → rs !! k' = Some res' →
     resource_place rs k res = resource_place rs k' res' → k = k') ∧
  ∀ k res, rs !! k = Some res → resource_place rs k res = k ↔
    match get_type res with
    | BufferType_ => Forall (λ t, get_type t = BufferType_) (take k rs)
    | TextureType_ => Forall (λ t, get_type t = TextureType_) (drop (S k) rs)
    end.
Proof.
  intros Hb Ht. pose proof (add_resources_spec b rs Hb Ht) as H. destruct (add_resources b rs) as [b' handles].
  destruct H as (Eb & Et & ->). intros E. destruct (new_resources _ _ _ _ E) as (Hl & Hbuf & Htex).
  rewrite Eb, Et in *. rewrite of_type_length in Hl. split; [done|]. split; [done|]. split; [|split].
  - intros k res Hk. assert (Hx : ∃ x, resources r !! resource_place rs k res = Some x ∧ kept_as res x).
    { unfold resource_place. destruct (get_type res) eqn:Ety.
      - apply Hbuf; [by apply of_type_place|done|apply clone_resource_same].
      - exists (clone_resource res). split; [|unfold kept_as; by rewrite Ety]. by apply Htex, of_type_place. }
    destruct Hx as (x & Hx & Hkept). exists x. split; [|done]. unfold get_resource.
    by rewrite (proj2 (Nat.leb_gt _ _)) by (by eapply lookup_lt_Some).
  - apply resource_place_inj.
  - apply resource_place_handle.
Qed.

(** a draw list with more static draws than the indirect buffer was created
    for leaves the old commands in the buffer (the driver rejects the write) but
    becomes the renderer's draw list, so the next draw call asks for more
    commands than the buffer holds. *)
Theorem ogl_longer_draw_list_not_written (r : RendererOGL I R) draws w d old :
  (∀ i, i ∈ inputs r → binding_size (get_format i) ≠ 0) →
  Forall (λ k, k < length (inputs r)) draws → draw_cache r ≠ draws →
  indirect_buffer r = Some d → mapped_ptr d = None → contents w (buf d) = Some old →
  length old < length (draws_of StaticFixed (inputs r) draws) * sizeof_DrawIndirectCommand →
  draws_of DynamicFixed (inputs r) draws = [] → indirect_buffer_dynamic r = None →
  ∃ r', bind_draw_list r draws w = Ok (r', w) ∧ draw_cache r' = draws ∧
    indirect_buffer r' = Some d ∧ contents w (buf d) = Some old ∧
    num_draws_of StaticFixed r' = Ok (length (draws_of StaticFixed (inputs r) draws)).
Proof.
  intros Hs Hd Hne Hb Hm Hc Hl Hdyn Hbd. unfold bind_draw_list, draws_match_cache.
  rewrite bool_decide_false by done.
  destruct (draw_table_spec (inputs r) Hs) as (t & Et & Ht). rewrite Et, lift_bind.
  rewrite (convert_draws_spec _ t draws Ht Hd), lift_bind.
  rewrite draws_of_length, Nat.eqb_refl, tz_assert_true, lift_bind by done.
  rewrite Hb, Hbd, Hdyn. unfold write_draws at 1.
  destruct (draws_of StaticFixed (inputs r) draws) as [|c cs] eqn:Ed; [simpl in Hl; lia|].
  assert (Ew : Buffer_write d (concat (map cmd_bytes (c :: cs))) w = Ok (tt, w)).
  { eapply Buffer_write_too_long; [done|done|]. by rewrite length_cmds_bytes. }
  assert (E1 : (b ← mret d; _ ← Buffer_write b (concat (map cmd_bytes (c :: cs))); mret (Some b)) w
               = Ok (Some d, w)).
  { unfold mbind at 1, ST_bind at 1. cbn [mret ST_ret]. by rewrite (st_bind_Ok _ _ _ _ _ Ew). }
  cbv zeta. rewrite (st_bind_Ok _ _ _ _ _ E1).
  eexists. split; [done|]. split_and!; [done..|]. rewrite num_draws_spec by done.
  cbn [inputs draw_cache]. by rewrite Ed.
Qed.

Definition is_draw_call (c : glcall) : bool :=
  match c with glMultiDrawElementsIndirect _ _ => true | _ => false end.

Lemma render_no_indirect window (r : RendererOGL I R) w p :
  shader r = Some p → indirect_buffer r = None → indirect_buffer_dynamic r = None →
  ∃ w' cs, render window r w = Ok (tt, w') ∧ w_calls w' = w_calls w ++ cs ∧
    forallb (negb ∘ is_draw_call) cs = true.
Proof.
  intros Hp H1 H2. unfold render, draw_block. rewrite Hp, H1, H2. cbn [of_option].
  assert (Hq : ∀ A (f : A → ST world unit) l w,
    (∀ x w, ∃ cs, f x w = Ok (tt, mkWorld (w_heap w) (w_gl w) (w_calls w ++ cs)) ∧
                  forallb (negb ∘ is_draw_call) cs = true) →
    ∃ cs, st_each f l w = Ok (tt, mkWorld (w_heap w) (w_gl w) (w_calls w ++ cs)) ∧
          forallb (negb ∘ is_draw_call) cs = true).
  { intros A f l. induction l as [|x l IH]; intros w0 Hf.
    - exists []. rewrite app_nil_r. split; [by destruct w0|done].
    - destruct (Hf x w0) as (cs & E & Hcs). cbn [st_each]. rewrite (st_bind_Ok _ _ _ _ _ E).
      destruct (IH (mkWorld (w_heap w0) (w_gl w0) (w_calls w0 ++ cs)) Hf) as (cs' & E' & Hcs').
      exists (cs ++ cs'). rewrite E'. cbn. rewrite app_assoc, forallb_app. by rewrite Hcs, Hcs'. }
  assert (Ho : ∃ cs, match output r with
      | Some Window => _ ← call (glBindFramebuffer 0); call (glViewport (fst window) (snd window))
      | _ => mret tt end w = Ok (tt, mkWorld (w_heap w) (w_gl w) (w_calls w ++ cs)) ∧
      forallb (negb ∘ is_draw_call) cs = true).
  { destruct (output r) as [[|]|].
    - exists [glBindFramebuffer 0; glViewport (fst window) (snd window)]. split; [|done].
      unfold mbind, ST_bind, call, modify. cbn. by rewrite <- app_assoc.
    - exists []. rewrite app_nil_r. by destruct w.
    - exists []. rewrite app_nil_r. by destruct w. }
  destruct Ho as (c1 & E1 & F1). rewrite (st_bind_Ok _ _ _ _ _ E1).
  do 2 rewrite (st_bind_Ok (call _) _ _ _ _ eq_refl).
  edestruct (Hq _ (λ '(i, ubo), call (glBindBufferBase i ubo)) (imap pair (resource_ubos r)))
    as (c2 & E2 & F2); [intros [i u] w0; by exists [glBindBufferBase i u]|].
  rewrite (st_bind_Ok _ _ _ _ _ E2), lift_bind, (st_bind_Ok (call _) _ _ _ _ eq_refl).
  edestruct (Hq _ (λ '(i, tex),
         let tex_location := length (resource_ubos r) + i in
         _ ← call (glBindTextureUnit tex_location tex);
         call (glProgramUniform1i p tex_location tex_location)) (imap pair (resource_textures r)))
    as (c3 & E3 & F3).
  { intros [i t] w0. set (l := length (resource_ubos r) + i).
    exists [glBindTextureUnit l t; glProgramUniform1i p l l]. split; [|done].
    unfold mbind, ST_bind, call, modify. cbn. by rewrite <- app_assoc. }
  rewrite (st_bind_Ok _ _ _ _ _ E3). eexists _, _. split; [done|].
  cbn. rewrite <- !app_assoc. split; [done|].
  rewrite !forallb_app, F1, F2, F3. done.
Qed.

(** a renderer that was moved from a constructed one draws nothing: move
    assignment does not transfer the indirect buffers, so [render] makes no
    draw call at all. *)
Theorem ogl_moved_renderer_draws_nothing window (r : RendererOGL I R) w p :
  shader r = Some p →
  ∃ w' cs, render window (fst (move_construct r)) w = Ok (tt, w') ∧
    w_calls w' = w_calls w ++ cs ∧ forallb (negb ∘ is_draw_call) cs = true.
Proof. intros Hp. by eapply render_no_indirect. Qed.

End Properties.

(** ** Concrete inputs *)

#[local] Instance sample_config : BuildConfig := debug_build.

Definition sample_builder : RendererBuilderOGL input resource :=
  mkBuilder [Static (mkMeshInput (triangle 5) []); Dynamic (MeshDynamicInput_new (triangle 9) []);
             Static (mkMeshInput (triangle 7) []); Dynamic (MeshDynamicInput_new (triangle 3) [])]
    ColourDepth (Some Window) [RBuffer (mkBufferResource [1; 2; 3; 4]%Z);
      RDynamicBuffer (DynamicBufferResource_new [5; 6]%Z)] [] (Some 1%Z) (Some NoCulling).

Definition sample_world : world (H:=driver_gl) := mkWorld (H:=driver_gl) ∅ (mkDriver ∅ []) [].

Lemma sample_world_ok : gl_ok (G:=driver_gl) sample_world.
Proof.
  split; cbn; intros n; unfold driver_block; intros *; case_decide; try done;
    intros H; by rewrite lookup_empty in H.
Qed.

Lemma sample_builder_ok : builder_ok sizeof_Vertex sample_builder.
Proof.
  split; try (by eauto).
  - repeat (constructor; [split; [eexists _, _; done|]; split; [done|]; split; [done|];
      repeat constructor; cbn; lia|]). constructor.
  - by repeat constructor.
  - intros []; vm_compute; done.
  - intros []; vm_compute; done.
  - repeat constructor; done.
  - repeat constructor; eexists; done.
Qed.

Lemma ogl_draws_fetch_inputs_witness :
  ∃ r w', RendererOGL_new sample_builder sample_world = Ok (r, w') ∧
    ∃ cs : list DrawIndirectCommand, num_draws_of StaticFixed r = Ok (length cs).
Proof.
  destruct (ogl_draws_fetch_inputs (GS:=driver_spec) sizeof_Vertex sample_builder sample_world
    sample_builder_ok sample_world_ok) as (r & w' & E & H).
  exists r, w'. split; [exact E|]. destruct (H StaticFixed) as (cs & Hn & _). exists cs. exact Hn.
Defined.

Lemma ogl_dynamic_input_is_buffer_witness :
  ∃ r w' j vb, RendererOGL_new sample_builder sample_world = Ok (r, w') ∧
    get_input r 1 = Some j ∧ vbo_dynamic r = Some vb.
Proof.
  destruct (ogl_dynamic_input_is_buffer (GS:=driver_spec) sizeof_Vertex sample_builder
    sample_world sample_builder_ok sample_world_ok) as (r & w' & E & H).
  destruct (H 1 (Dynamic (MeshDynamicInput_new (triangle 9) [])) eq_refl eq_refl)
    as (j & p & vb & off & before & Hj & _ & Hv & _).
  exists r, w', j, vb. split; [exact E|]. split; [exact Hj|exact Hv].
Defined.

(** A texture is added before two buffers: the handle of the texture finds the
    first buffer, that of the first buffer the second. *)
Definition sample_texture : resource :=
  RTexture (mkTextureResource (mkTextureData 1 1 [0; 0; 0; 0]%Z) Rgba32sRGB default_properties).
Definition texture_first : list resource := [sample_texture; RBuffer (mkBufferResource [1]%Z); RBuffer (mkBufferResource [2]%Z)].

Definition bare_builder : RendererBuilderOGL input resource :=
  mkBuilder (OGLRenderer.b_inputs sample_builder) ColourDepth (Some Window) [] [] (Some 1%Z) (Some NoCulling).

Lemma ogl_resource_handle_order_witness :
  ∃ r w', RendererOGL_new (add_resources bare_builder texture_first).1 sample_world = Ok (r, w') ∧
    get_resource r 0 = Some (RBuffer (mkBufferResource [1]%Z)) ∧
    get_resource r 1 = Some (RBuffer (mkBufferResource [2]%Z)) ∧ get_resource r 2 = Some sample_texture.
Proof.
  assert (Hok : is_Ok (RendererOGL_new (add_resources bare_builder texture_first).1 sample_world) = true)
    by (vm_compute; reflexivity).
  pose proof (ogl_resource_handle_order bare_builder texture_first sample_world) as H.
  destruct (add_resources bare_builder texture_first) as [b' hs] eqn:Eb. cbn [fst] in *.
  destruct (RendererOGL_new b' sample_world) as [[r w']|] eqn:E; [|discriminate Hok].
  destruct (H r w' eq_refl eq_refl eq_refl) as (_ & _ & Hget & _). exists r, w'. split; [reflexivity|].
  split_and!.
  - destruct (Hget 1 (RBuffer (mkBufferResource [1]%Z)) eq_refl) as (x & Hx & Hk). cbn in Hk. subst x. exact Hx.
  - destruct (Hget 2 (RBuffer (mkBufferResource [2]%Z)) eq_refl) as (x & Hx & Hk). cbn in Hk. subst x. exact Hx.
  - destruct (Hget 0 sample_texture eq_refl) as (x & Hx & Hk). cbn in Hk. subst x. exact Hx.
Defined.

(** A renderer with one static input, drawn once and then twice. *)
Definition one_command : list Z := cmd_bytes (mkCmd 3 1 0 0 0).
Definition one_draw_world : world (H:=driver_gl) :=
  mkWorld (H:=driver_gl) {[1 := one_command]} (mkDriver {[1%Z := 1]} []) [].
Definition one_draw_renderer : RendererOGL input resource :=
  mkRenderer 1 None None None None (Some (mkBuffer 1 DrawIndirect ReadWrite None)) None [] [] []
    None Colour (Some 1%Z) [Static (mkMeshInput (triangle 5) [])] None [0].

Lemma ogl_longer_draw_list_not_written_witness :
  ∃ r', bind_draw_list one_draw_renderer [0; 0] one_draw_world = Ok (r', one_draw_world) ∧
    num_draws_of StaticFixed r' = Ok 2.
Proof.
  destruct (ogl_longer_draw_list_not_written (GS:=driver_spec) one_draw_renderer [0; 0]
    one_draw_world (mkBuffer 1 DrawIndirect ReadWrite None) one_command) as (r' & E & _ & _ & _ & Hn).
  - intros i ->%list_elem_of_singleton. discriminate.
  - repeat constructor.
  - discriminate.
  - reflexivity.
  - reflexivity.
  - vm_compute. reflexivity.
  - vm_compute. lia.
  - reflexivity.
  - reflexivity.
  - exists r'. split; [exact E|exact Hn].
Defined.

Lemma ogl_moved_renderer_draws_nothing_witness :
  ∃ w' cs, render (800, 600)%Z (fst (move_construct one_draw_renderer)) one_draw_world = Ok (tt, w') ∧
    w_calls w' = w_calls one_draw_world ++ cs ∧ forallb (negb ∘ is_draw_call) cs = true.
Proof.
  exact (ogl_moved_renderer_draws_nothing (800, 600)%Z one_draw_renderer one_draw_world 1%Z eq_refl).
Defined.
