(* ===== verification/OGLSession.v ===== *)
(** * The OpenGL renderer: sessions

    A renderer in use.  [machine] is the part of OpenGL a frame relies on: it
    executes the recorded calls of a frame on the contents of the buffers and
    tells what was cleared and drawn.  [scene] is what an application knows
    about its renderer: the meshes, the uniform data, the draw list and the
    clear colour.  After construction, frames, draw lists, clear colours and
    writes to the dynamic inputs and resources may follow in any order: every
    frame shows the scene as it is at that time. *)

From S2P Require Import Prelude Containers Memory RenderTypes Inputs OpenGL OGLRenderer OGLRendererFacts OGLConstruct OGLProperties.

(** ** Executing a frame *)

(** What can be seen of a frame.  A draw is seen with the viewport, the program,
    its uniform blocks and its textures. *)
Inductive event :=
| Cleared (viewport : option (Z * Z)) (bits : list GLenum) (colour : list Z)
| Drew (viewport : option (Z * Z)) (program : option Z) (blocks : list (option (list Z)))
    (textures : list (option Z)) (vertices : list (list Z)).

Record machine := mkMachine {
  m_viewport : option (Z * Z);
  m_vao : option Z;
  m_vertex : gmap Z (Z * nat);
  m_element : gmap Z Z;
  m_indirect : option Z;
  m_program : option Z;
  m_blocks : gmap nat Z;
  m_units : gmap nat Z;
  m_samplers : gmap (Z * nat) nat }.

Definition machine_init : machine := mkMachine None None ∅ ∅ None None ∅ ∅ ∅.

(** A command as it is in an indirect buffer: [baseVertex] is signed there. *)
Definition read_command (bs : list Z) : DrawIndirectCommand :=
  let word k := of_le32 (slice (4 * k) 4 bs) in
  mkCmd (word 0) (word 1) (word 2) (to_i32 (word 3)) (word 4).

Section Execute.
(** The contents of the buffers, the clear colour, and how many uniform blocks
    and samplers the program has. *)
Variables (mem : Z → option (list Z)) (colour : list Z) (nb nt : nat).

(** The meshes of a multi-draw; none beyond the end of the indirect buffer. *)
Definition multi_draw (m : machine) (drawcount stride : nat) : option (list (list (list Z))) :=
  v ← m_vao m;
  '(vb, size) ← m_vertex m !! v; vbs ← mem vb;
  ib ← m_element m !! v; ibs ← mem ib;
  ind ← m_indirect m; cs ← mem ind;
  if drawcount * stride <=? length cs then
    Some (concat (map (λ k, let c := read_command (slice (k * stride) sizeof_DrawIndirectCommand cs) in
                            replicate (Z.to_nat (instanceCount c)) (fetch_draw ibs vbs size c)) (seq 0 drawcount)))
  else None.

Definition bound_blocks (m : machine) : list (option (list Z)) := map (λ k, m_blocks m !! k ≫= mem) (seq 0 nb).

(** The texture of a sampler: its uniform is the unit the texture is bound to. *)
Definition bound_textures (m : machine) : list (option Z) :=
  map (λ j, p ← m_program m; unit ← m_samplers m !! (p, nb + j); m_units m !! unit) (seq 0 nt).

Definition execute (c : glcall) (st : machine * list event) : option (machine * list event) :=
  let '(m, seen) := st in
  let '(mkMachine vp vao vertex element indirect program blocks units samplers) := m in
  match c with
  | glViewport w h => Some (mkMachine (Some (w, h)) vao vertex element indirect program blocks units samplers, seen)
  | glClear bits => Some (m, seen ++ [Cleared vp bits colour])
  | glBindVertexArray v => Some (mkMachine vp (Some v) vertex element indirect program blocks units samplers, seen)
  | glVertexArrayVertexBuffer v b size =>
      Some (mkMachine vp vao (<[v := (b, size)]> vertex) element indirect program blocks units samplers, seen)
  | glVertexArrayElementBuffer v b =>
      Some (mkMachine vp vao vertex (<[v := b]> element) indirect program blocks units samplers, seen)
  | glBindBuffer GL_DRAW_INDIRECT_BUFFER b =>
      Some (mkMachine vp vao vertex element (Some b) program blocks units samplers, seen)
  | glUseProgram p => Some (mkMachine vp vao vertex element indirect (Some p) blocks units samplers, seen)
  | glBindBufferBase k b =>
      Some (mkMachine vp vao vertex element indirect program (<[k := b]> blocks) units samplers, seen)
  | glBindTextureUnit k t =>
      Some (mkMachine vp vao vertex element indirect program blocks (<[k := t]> units) samplers, seen)
  | glProgramUniform1i p location value =>
      Some (mkMachine vp vao vertex element indirect program blocks units (<[(p, location) := value]> samplers), seen)
  | glMultiDrawElementsIndirect n stride =>
      drawn ← multi_draw m n stride;
      Some (m, seen ++ map (Drew vp program (bound_blocks m) (bound_textures m)) drawn)
  | _ => Some (m, seen)
  end.

Fixpoint execute_all (cs : list glcall) (st : machine * list event) : option (machine * list event) :=
  match cs with
  | [] => Some st
  | c :: cs => st ← execute c st; execute_all cs st
  end.

Lemma execute_app cs1 cs2 st : execute_all (cs1 ++ cs2) st = execute_all cs1 st ≫= execute_all cs2.
Proof. revert st. induction cs1 as [|c cs1 IH]; intros st; [done|]. cbn. destruct (execute c st); [apply IH|done]. Qed.

End Execute.

(** ** Scenes *)

(** A mesh with its data.  It is itself an input, one that is never moved to
    memory of a driver. *)
Record model := mkModel {
  mo_access : RendererInputDataAccess; mo_format : RendererElementFormat; mo_vertices : list Z; mo_indices : list Z }.

#[export] Instance model_input : IRendererInput model := {|
  data_access := mo_access; get_format := mo_format;
  get_vertex_bytes m := Owned (mo_vertices m); get_indices m := OwnedI (mo_indices m);
  unique_clone m := Ok m;
  set_vertex_data _ _ _ := Fault NullDeref; set_index_data _ _ _ := Fault NullDeref |}.

Definition model_of {I} `{IRendererInput I} (i : I) : model :=
  mkModel (data_access i) (get_format i) (owned_bytes i) (owned_indices i).

(** [sc_room] is the number of commands the indirect buffer of a class was
    created for, 0 without one. *)
Record scene := mkScene {
  sc_meshes : list model;
  sc_blocks : list (RendererInputDataAccess * list Z);
  sc_draws : RendererDrawList;
  sc_colour : list Z;
  sc_room : RendererInputDataAccess → nat }.

(** What an application does with a renderer. *)
Inductive renderer_op :=
| Render (window : Z * Z)
| RenderList (window : Z * Z) (draws : RendererDrawList)
| SetClearColour (colour : list Z)
| WriteInput (k at_ : nat) (bs : list Z)
| WriteResource (k at_ : nat) (bs : list Z).

(** An indirect buffer lives until there is nothing to draw; it does not grow. *)
Definition next_room (n room : nat) : nat := if n =? 0 then 0 else if room =? 0 then n else room.

Definition class_size (acc : RendererInputDataAccess) (s : scene) (draws : RendererDrawList) : nat :=
  length (draws_of acc (sc_meshes s) draws).

Definition show_list (draws : RendererDrawList) (s : scene) : scene :=
  if bool_decide (sc_draws s = draws) then s
  else mkScene (sc_meshes s) (sc_blocks s) draws (sc_colour s)
         (λ acc, next_room (class_size acc s draws) (sc_room s acc)).

Definition write_model (at_ : nat) (bs : list Z) (m : model) : model :=
  mkModel (mo_access m) (mo_format m) (splice at_ bs (mo_vertices m)) (mo_indices m).

Definition scene_step (o : renderer_op) (s : scene) : scene :=
  match o with
  | Render _ => s
  | RenderList _ draws => show_list draws s
  | SetClearColour colour => mkScene (sc_meshes s) (sc_blocks s) (sc_draws s) colour (sc_room s)
  | WriteInput k at_ bs =>
      mkScene (alter (write_model at_ bs) k (sc_meshes s)) (sc_blocks s) (sc_draws s) (sc_colour s) (sc_room s)
  | WriteResource k at_ bs =>
      mkScene (sc_meshes s) (alter (prod_map id (splice at_ bs)) k (sc_blocks s)) (sc_draws s) (sc_colour s) (sc_room s)
  end.

(** Draw lists name inputs and fit the indirect buffers; writes stay inside the
    data of something dynamic. *)
Definition op_ok (s : scene) (o : renderer_op) : Prop :=
  match o with
  | Render _ | SetClearColour _ => True
  | RenderList _ draws => Forall (λ k, k < length (sc_meshes s)) draws ∧
      ∀ acc, class_size acc s draws ≤ sc_room (show_list draws s) acc
  | WriteInput k at_ bs =>
      ∃ m, sc_meshes s !! k = Some m ∧ mo_access m = DynamicFixed ∧ at_ + length bs ≤ length (mo_vertices m)
  | WriteResource k at_ bs =>
      ∃ old, sc_blocks s !! k = Some (DynamicFixed, old) ∧ at_ + length bs ≤ length old
  end.

Fixpoint ops_ok (s : scene) (ops : list renderer_op) : Prop :=
  match ops with
  | [] => True
  | o :: ops => op_ok s o ∧ ops_ok (scene_step o s) ops
  end.

(** ** Sessions *)

(** A frame of a scene: the pass is cleared, then the static and the dynamic
    draws of the list follow. *)
Definition frame (stride : nat) (pass : RenderPassAttachment) (output : option RendererOutputType) (program : Z)
    (textures : list Z) (window : Z * Z) (s : scene) : list event :=
  let viewport := match output with Some Window => Some window | _ => None end in
  Cleared viewport (clear_bits pass) (sc_colour s) ::
  map (Drew viewport (Some program) (map (Some ∘ snd) (sc_blocks s)) (map Some textures))
    (drawn stride StaticFixed (sc_meshes s) (sc_draws s) ++ drawn stride DynamicFixed (sc_meshes s) (sc_draws s)).

(** The frames a sequence of operations is to show. *)
Fixpoint frames (show : Z * Z → scene → list event) (ops : list renderer_op) (s : scene) : list (list event) :=
  match ops with
  | [] => []
  | o :: ops =>
      match o with
      | Render window => [show window s]
      | RenderList window draws => [show window (show_list draws s)]
      | _ => []
      end ++ frames show ops (scene_step o s)
  end.

Section Session.
Context `{BC : BuildConfig} `{G : GL} {GS : GLSpec} {I : Type} `{II : IRendererInput I} {LI : RendererInputLaws I}.
Context {R : Type} `{IR : IResource R} {LR : ResourceLaws R}.
Implicit Types (w : world) (r : RendererOGL I R) (s : scene).

(** The scene of a new renderer: every input once. *)
Definition new_scene (b : RendererBuilderOGL I R) (colour : list Z) : scene :=
  let meshes := map model_of (b_inputs b) in
  let draws := seq 0 (length meshes) in
  mkScene meshes
    (map (λ x, (resource_access x, match get_resource_bytes x with Owned bs => bs | At _ _ => [] end)) (b_buffer_resources b))
    draws colour (λ acc, length (draws_of acc meshes draws)).

(** Data of a renderer's input or resource is in memory of the driver; an
    application writes to it through the span it is handed. *)
Definition write_span (x : span) (at_ : nat) (bs : list Z) : ST world unit :=
  match x with
  | At p n => if at_ + length bs <=? n then on_heap (λ h, h' ← store h (ptr_add p at_) bs; Ok (h', tt))
              else lift (Fault OutOfBounds)
  | Owned _ => lift (Fault NullDeref)
  end.

(** What is seen while [m] runs. *)
Definition watch {A} (nb nt : nat) (m : ST world A) : ST world (A * option (list event)) := λ w,
  match m w with
  | Ok (a, w') =>
      Ok ((a, snd <$> execute_all (contents w') (glGetClearColor (w_gl w')) nb nt
                        (drop (length (w_calls w)) (w_calls w')) (machine_init, [])), w')
  | Fault e => Fault e
  end.

Definition do_op (nb nt : nat) (o : renderer_op) r : ST world (RendererOGL I R * list (option (list event))) :=
  match o with
  | Render window => '(_, seen) ← watch nb nt (render window r); mret (r, [seen])
  | RenderList window draws => '(r, seen) ← watch nb nt (render_list window r draws); mret (r, [seen])
  | SetClearColour colour => _ ← set_clear_colour colour; mret (r, [])
  | WriteInput k at_ bs =>
      i ← lift (of_option NullDeref (get_input r k)); _ ← write_span (get_vertex_bytes i) at_ bs; mret (r, [])
  | WriteResource k at_ bs =>
      x ← lift (of_option NullDeref (get_resource r k)); _ ← write_span (get_resource_bytes x) at_ bs; mret (r, [])
  end.

Fixpoint play (nb nt : nat) (ops : list renderer_op) r : ST world (RendererOGL I R * list (option (list event))) :=
  match ops with
  | [] => mret (r, [])
  | o :: ops => '(r, seen) ← do_op nb nt o r; '(r, seen') ← play nb nt ops r; mret (r, seen ++ seen')
  end.

(** The indirect buffer of a class holds the commands of its draws and maybe
    more behind them. *)
Definition indirect_of acc r : option Buffer :=
  match acc with StaticFixed => indirect_buffer r | DynamicFixed => indirect_buffer_dynamic r end.

Definition indirect_ok (cs : list DrawIndirectCommand) (room : nat) w (ob : option Buffer) : Prop :=
  match cs with
  | [] => ob = None ∧ room = 0
  | _ => ∃ d rest, ob = Some d ∧ (mapped_ptr d = None ∧ type d = DrawIndirect) ∧
      contents w (buf d) = Some (concat (map cmd_bytes cs) ++ rest) ∧
      room * sizeof_DrawIndirectCommand = length (concat (map cmd_bytes cs) ++ rest)
  end.

Definition geometry_of acc r : option Buffer * option Buffer :=
  match acc with StaticFixed => (vbo r, ibo r) | DynamicFixed => (vbo_dynamic r, ibo_dynamic r) end.

(** The buffers a renderer keeps; those an application writes to; the others. *)
Definition kept r : list Z := names [vbo r; ibo r; vbo_dynamic r; ibo_dynamic r] ++ resource_ubos r.
Definition shared r : list Z := names [vbo_dynamic r] ++ resource_ubos r.
Definition unshared r : list Z := names [vbo r; ibo r; ibo_dynamic r].
Definition indirects r : list Z := names [indirect_buffer r; indirect_buffer_dynamic r].

(** A uniform buffer, and the resource that writes to it. *)
Definition block_ok r w (k : nat) (x : RendererInputDataAccess * list Z) : Prop :=
  ∃ u, resource_ubos r !! k = Some u ∧ contents w u = Some x.2 ∧
    (x.1 = DynamicFixed → ∃ res c, resources r !! k = Some res ∧ gl_block (w_gl w) u = Some c ∧
       get_resource_bytes res = At (mkPtr c 0) (length x.2)).

(** A dynamic input, in the dynamic vertex buffer. *)
Definition window_ok (ms : list model) r w (k : nat) (m : model) : Prop :=
  ∃ j v c, inputs r !! k = Some j ∧ vbo_dynamic r = Some v ∧ gl_block (w_gl w) (buf v) = Some c ∧
    get_vertex_bytes j =
      At (mkPtr c (offset_of (length ∘ data_of DynamicFixed owned_bytes) ms k)) (length (mo_vertices m)).

(** What holds between two operations. *)
Record session (stride : nat) (s : scene) r w : Prop := mkSession {
  se_ok : gl_ok w;
  se_stride : stride ≠ 0;
  se_meshes : Forall (input_data_ok stride) (sc_meshes s);
  se_vertices : ∀ acc, (Z.of_nat (length (all_data acc owned_bytes (sc_meshes s))) < 2147483648)%Z;
  se_indices : ∀ acc, (Z.of_nat (4 * length (all_data acc owned_indices (sc_meshes s))) < 2147483648)%Z;
  se_inputs : Forall2 same_shape (sc_meshes s) (inputs r);
  se_geometry : ∀ acc, geometry acc (sc_meshes s) w (fst (geometry_of acc r)) (snd (geometry_of acc r));
  se_dynamic : ∀ k m, sc_meshes s !! k = Some m → mo_access m = DynamicFixed → window_ok (sc_meshes s) r w k m;
  se_cache : draw_cache r = sc_draws s;
  se_draws : Forall (λ k, k < length (sc_meshes s)) (sc_draws s);
  se_indirect : ∀ acc, indirect_ok (draws_of acc (sc_meshes s) (sc_draws s)) (sc_room s acc) w (indirect_of acc r);
  se_live : Forall (live w) (kept r);
  se_indirects : NoDup (indirects r);
  se_private : Forall (λ n, n ∉ kept r) (indirects r);
  se_shared : NoDup (shared r);
  se_apart : Forall (λ n, n ∉ unshared r) (shared r);
  se_blocks : length (resource_ubos r) = length (sc_blocks s);
  se_block : ∀ k x, sc_blocks s !! k = Some x → block_ok r w k x;
  se_format : sc_meshes s ≠ [] → ∃ f, format r = Some f ∧ binding_size f = stride;
  se_colour : glGetClearColor (w_gl w) = sc_colour s }.

(** *** Meshes *)

Lemma all_data_models acc (l : list I) :
  all_data acc owned_bytes (map model_of l) = all_data acc owned_bytes l ∧
  all_data acc owned_indices (map model_of l) = all_data acc owned_indices l.
Proof. unfold all_data. by rewrite !map_map. Qed.

Lemma model_shape (i j : I) : (∃ bs ixs, detached i bs ixs) → same_shape i j → same_shape (model_of i) j.
Proof.
  intros (bs & ixs & Hb & Hi) (Ha & Hf & Hv & Hx). unfold same_shape, vertex_count_bytes, index_count in *.
  cbn. unfold owned_bytes, owned_indices. rewrite Hb, Hi in *. by rewrite Ha, Hf, Hv, Hx.
Qed.

Lemma model_ok stride (i : I) : input_data_ok stride i → input_data_ok stride (model_of i).
Proof.
  intros ((bs & ixs & Hb & Hi) & Hs & Hl & Hx). split; [by eexists _, _|]. split; [done|].
  unfold vertex_number, vertex_count_bytes in *. cbn. unfold owned_bytes, owned_indices in *. by rewrite Hb, Hi in *.
Qed.

Lemma offset_models (l : list I) k :
  offset_of (length ∘ data_of DynamicFixed owned_bytes) (map model_of l) k =
  offset_of (length ∘ data_of DynamicFixed owned_bytes) l k.
Proof. rewrite <- !all_data_length, firstn_map. by destruct (all_data_models DynamicFixed (take k l)) as [-> _]. Qed.

(** *** The start of a session *)

Lemma indirect_start cs w ob : indirect_data cs w ob → indirect_ok cs (length cs) w ob.
Proof.
  unfold indirect_data, indirect_ok. destruct cs as [|c cs]; [done|]. intros (d & -> & Hd & Hc).
  exists d, []. rewrite app_nil_r, length_cmds_bytes. done.
Qed.

(** Which of the names of a renderer are different. *)
Lemma split_names r :
  NoDup (names [vbo_dynamic r; indirect_buffer r; indirect_buffer_dynamic r] ++ resource_ubos r) →
  Forall (λ n, n ∉ unshared r) (names [vbo_dynamic r; indirect_buffer r; indirect_buffer_dynamic r] ++ resource_ubos r) →
  NoDup (indirects r) ∧ Forall (λ n, n ∉ kept r) (indirects r) ∧ NoDup (shared r) ∧ Forall (λ n, n ∉ unshared r) (shared r).
Proof.
  unfold shared, unshared, kept, indirects, names.
  change [vbo_dynamic r; indirect_buffer r; indirect_buffer_dynamic r] with ([vbo_dynamic r] ++ [indirect_buffer r; indirect_buffer_dynamic r]).
  change [vbo r; ibo r; vbo_dynamic r; ibo_dynamic r] with ([vbo r; ibo r] ++ [vbo_dynamic r] ++ [ibo_dynamic r]).
  change [vbo r; ibo r; ibo_dynamic r] with ([vbo r; ibo r] ++ [ibo_dynamic r]). rewrite !omap_app.
  rewrite !NoDup_app, !Forall_forall. intros ((N1 & N2 & N3) & N4 & N5) HA. split_and!; try done.
  - intros n Hn Hin. assert (n ∉ resource_ubos r) by (apply N4; set_solver).
    assert (n ∉ omap (fmap buf) [vbo_dynamic r]) by (intros Hx; by apply (N2 n Hx)).
    assert (n ∉ omap (fmap buf) [vbo r; ibo r] ++ omap (fmap buf) [ibo_dynamic r]) by (apply HA; set_solver). set_solver.
  - intros n Hn. apply N4. set_solver.
  - intros n Hn. apply HA. set_solver.
Qed.

Lemma ogl_session_start stride b ins r w : builder_ok stride b → constructed stride b ins r w →
  session stride (new_scene b (glGetClearColor (w_gl w))) r w.
Proof.
  intros Hb Hc. pose proof (co_copies _ _ _ _ _ Hc) as HF.
  pose proof (bo_inputs _ _ Hb) as Hok. pose proof (same_data_ok stride _ _ HF Hok) as Hok'.
  assert (Em : map model_of (b_inputs b) = map model_of ins).
  { clear -HF. induction HF as [|i j l l' Hij _ IH]; [done|]. cbn. rewrite IH. f_equal.
    destruct (same_data_owned i j Hij) as [Eb Ei]. destruct Hij as (Ha & Hf & _). unfold model_of. congruence. }
  assert (Hsh : Forall2 same_shape (map model_of ins) (inputs r)).
  { apply Forall2_fmap_l. apply Forall2_same_length_lookup_2; [by eapply Forall2_length, (co_inputs _ _ _ _ _ Hc)|].
    intros k i j Hi Hj. apply model_shape; [apply (Forall_lookup_1 _ _ _ _ Hok' Hi)|].
    by apply (Forall2_lookup_lr _ _ _ _ _ _ (co_inputs _ _ _ _ _ Hc) Hi Hj). }
  assert (Hdr : ∀ acc draws, draws_of acc (map model_of ins) draws = draws_of acc ins draws).
  { intros acc draws. rewrite <- (draws_of_same_shape acc _ _ draws Hsh). by rewrite (draws_of_same_shape acc _ _ draws (co_inputs _ _ _ _ _ Hc)). }
  assert (Hlen : length (b_inputs b) = length ins) by (by eapply Forall2_length).
  pose proof (split_names r (co_written _ _ _ _ _ Hc) (co_apart _ _ _ _ _ Hc)) as Hnames.
  unfold new_scene. cbv zeta. rewrite length_map, Em, Hlen. split; cbn [sc_meshes sc_blocks sc_draws sc_colour sc_room].
  - apply (co_ok _ _ _ _ _ Hc).
  - apply (bo_stride _ _ Hb).
  - apply Forall_fmap. eapply Forall_impl; [exact Hok'|]. apply model_ok.
  - intros acc. rewrite <- Em. destruct (all_data_models acc (b_inputs b)) as [-> _]. apply (bo_vertices _ _ Hb).
  - intros acc. rewrite <- Em. destruct (all_data_models acc (b_inputs b)) as [_ ->]. apply (bo_indices _ _ Hb).
  - exact Hsh.
  - intros acc He. destruct (all_data_models acc ins) as [-> ->].
    assert (He' : existsb (λ i, bool_decide (data_access i = acc)) ins = true).
    { rewrite <- He. clear. induction ins as [|i l IH]; [done|]. cbn. by rewrite IH. }
    destruct acc; [by apply (co_static _ _ _ _ _ Hc)|by apply (co_dynamic _ _ _ _ _ Hc)].
  - intros k m Hm Ha. rewrite list_lookup_fmap in Hm. destruct (ins !! k) as [i|] eqn:Ei; [|done]. injection Hm as <-.
    destruct (co_adopted _ _ _ _ _ Hc k i Ei Ha) as (j & v & x & cv & ci & Hj & Hv & _ & Bv & _ & HA).
    unfold adopted in HA. cbn in Ha. rewrite Ha in HA. destruct HA as (_ & _ & Hg & _).
    exists j, v, cv. by rewrite offset_models.
  - apply (co_draws _ _ _ _ _ Hc).
  - apply Forall_forall. intros k Hk%elem_of_seq. rewrite length_map. lia.
  - intros acc. rewrite !Hdr. apply indirect_start.
    destruct acc; [apply (co_commands _ _ _ _ _ Hc)|apply (co_commands_dynamic _ _ _ _ _ Hc)].
  - apply (co_live _ _ _ _ _ Hc).
  - by destruct Hnames.
  - by destruct Hnames as (_ & ? & _).
  - by destruct Hnames as (_ & _ & ? & _).
  - by destruct Hnames as (_ & _ & _ & ?).
  - rewrite length_map. apply (co_ubo_count _ _ _ _ _ Hc).
  - intros k x Hx. rewrite list_lookup_fmap in Hx. destruct (b_buffer_resources b !! k) as [y|] eqn:Ey; [|done]. injection Hx as <-.
    destruct (Forall_lookup_1 _ _ _ _ (bo_buffers _ _ Hb) Ey) as (bs & Hbs & _).
    assert (Hk : k < length (b_buffer_resources b)) by (by eapply lookup_lt_Some).
    destruct (clone_resource_same y) as (_ & Ea & Eb & _).
    assert (Hy : map clone_resource (b_buffer_resources b ++ b_texture_resources b) !! k = Some (clone_resource y)).
    { rewrite list_lookup_fmap, lookup_app_l, Ey by done. done. }
    destruct (co_ubos _ _ _ _ _ Hc k _ bs Hk Hy) as (u & Hu & Cu); [by rewrite Eb|]. exists u. rewrite Hbs. cbn.
    split_and!; try done. intros Ha.
    destruct (co_dynamic_ubos _ _ _ _ _ Hc k _ bs Hk Hy) as (y' & u' & c & Hy' & Hu' & Hg & E); [by rewrite Ea|by rewrite Eb|].
    simplify_eq. eauto.
  - intros Hne. apply (co_format _ _ _ _ _ Hc). intros E. by rewrite E in Em.
  - done.
Qed.

(** *** Frames *)

(** A computation that makes the calls [cs] and does nothing else. *)
Definition makes (m : ST world unit) (cs : list glcall) : Prop :=
  ∀ w, m w = Ok (tt, mkWorld (w_heap w) (w_gl w) (w_calls w ++ cs)).

Lemma makes_ret : makes (mret tt) [].
Proof. intros w. rewrite app_nil_r. by destruct w. Qed.

Lemma makes_call c : makes (call c) [c].
Proof. done. Qed.

Lemma makes_bind m k cs cs' : makes m cs → makes k cs' → makes (m ≫= λ _, k) (cs ++ cs').
Proof. intros Hm Hk w. rewrite (st_bind_Ok _ _ _ _ _ (Hm w)), Hk. cbn. by rewrite app_assoc. Qed.

Lemma makes_lift {A} (a : A) m k cs : m = Ok a → makes (k a) cs → makes (lift m ≫= k) cs.
Proof. intros -> Hk. exact Hk. Qed.

Lemma makes_each {A} (f : A → ST world unit) g l : (∀ x, makes (f x) (g x)) → makes (st_each f l) (concat (map g l)).
Proof. intros Hf. induction l as [|x l IH]; [apply makes_ret|]. cbn. by apply makes_bind. Qed.

Lemma makes_eq m cs cs' : makes m cs → cs = cs' → makes m cs'.
Proof. by intros H <-. Qed.

(** The draws of a class: its buffers and one multi-draw. *)
Definition draw_calls (v : Z) (stride : nat) (vb ib ind : Z) (n : nat) : list glcall :=
  [glVertexArrayVertexBuffer v vb stride; glVertexArrayElementBuffer v ib;
   glBindBuffer GL_DRAW_INDIRECT_BUFFER ind; glMultiDrawElementsIndirect n sizeof_DrawIndirectCommand].

Lemma draw_block_makes r d vb ib f n : type d = DrawIndirect → format r = Some f →
  makes (draw_block r (Some d) (Some vb) (Some ib) (Ok n)) (draw_calls (vao r) (binding_size f) (buf vb) (buf ib) (buf d) n).
Proof.
  intros Ht Hf. unfold draw_block, draw_calls, Buffer_bind. rewrite Ht. apply (makes_lift vb); [done|]. apply (makes_lift f); [by rewrite Hf|].
  apply (makes_bind _ _ [_]); [apply makes_call|]. apply (makes_lift ib); [done|].
  do 2 (apply (makes_bind _ _ [_]); [apply makes_call|]). apply (makes_lift n); [done|]. apply makes_call.
Qed.

(** What a frame sets up before it draws. *)
Definition setup_calls (window : Z * Z) r (program : Z) : list glcall :=
  (match output r with Some Window => [glBindFramebuffer 0; glViewport (fst window) (snd window)] | _ => [] end) ++
  [glClear (clear_bits (pass_attachment r)); glBindVertexArray (vao r)] ++
  concat (map (λ '(i, ubo), [glBindBufferBase i ubo]) (imap pair (resource_ubos r))) ++
  [glUseProgram program] ++
  concat (map (λ '(i, tex), let l := length (resource_ubos r) + i in
                            [glBindTextureUnit l tex; glProgramUniform1i program l l]) (imap pair (resource_textures r))).

Lemma render_makes window r program cs1 cs2 : shader r = Some program →
  makes (draw_block r (indirect_buffer r) (vbo r) (ibo r) (num_draws_of StaticFixed r)) cs1 →
  makes (draw_block r (indirect_buffer_dynamic r) (vbo_dynamic r) (ibo_dynamic r) (num_draws_of DynamicFixed r)) cs2 →
  makes (render window r) (setup_calls window r program ++ cs1 ++ cs2).
Proof.
  intros Hs H1 H2. unfold render, setup_calls. rewrite Hs, <- !app_assoc. apply makes_bind.
  { destruct (output r) as [[|]|]; try apply makes_ret. apply (makes_bind _ _ [_]); apply makes_call. }
  do 2 (apply (makes_bind _ _ [_]); [apply makes_call|]).
  apply makes_bind; [apply makes_each; intros [i u]; apply makes_call|]. apply (makes_lift program); [done|].
  apply (makes_bind _ _ [_]); [apply makes_call|]. apply makes_bind; [|by apply makes_bind].
  apply makes_each. intros [i t]. apply (makes_bind _ _ [_]); apply makes_call.
Qed.

(** *** Executing the calls of a frame *)

Section Frame.
Variables (mem : Z → option (list Z)) (colour : list Z) (nb nt : nat).
Let run := execute_all mem colour nb nt.

Lemma run_app cs1 cs2 st st' : run cs1 st = Some st' → run (cs1 ++ cs2) st = run cs2 st'.
Proof. intros H. unfold run. rewrite execute_app. unfold run in H. by rewrite H. Qed.

(** Uniform buffers are bound to the blocks in order. *)
Lemma run_blocks us vp v vx el ind p bl un sa seen : ∃ bl',
  run (concat (map (λ '(i, ubo), [glBindBufferBase i ubo]) (imap pair us))) (mkMachine vp v vx el ind p bl un sa, seen) =
    Some (mkMachine vp v vx el ind p bl' un sa, seen) ∧
  ∀ k u, us !! k = Some u → bl' !! k = Some u.
Proof.
  induction us as [|u us IH] using rev_ind; [by exists bl|]. destruct IH as (bl' & E & Hb).
  exists (<[length us := u]> bl'). split.
  - rewrite imap_app, map_app, concat_app, (run_app _ _ _ _ E). cbn. by rewrite Nat.add_0_r.
  - intros k x [Hx|[Hk [H0 <-]%list_lookup_singleton_Some]]%lookup_app_Some.
    + rewrite lookup_insert_ne by (apply lookup_lt_Some in Hx; lia). auto.
    + assert (k = length us) as -> by lia. apply lookup_insert_eq.
Qed.

(** Textures are bound to units, and the samplers of the program to those. *)
Lemma run_textures base ts vp v vx el ind p bl un sa seen : ∃ un' sa',
  run (concat (map (λ '(i, tex), let l := base + i in [glBindTextureUnit l tex; glProgramUniform1i p l l]) (imap pair ts)))
    (mkMachine vp v vx el ind (Some p) bl un sa, seen) = Some (mkMachine vp v vx el ind (Some p) bl un' sa', seen) ∧
  ∀ k t, ts !! k = Some t → un' !! (base + k) = Some t ∧ sa' !! (p, base + k) = Some (base + k).
Proof.
  induction ts as [|t ts IH] using rev_ind; [by exists un, sa|]. destruct IH as (un' & sa' & E & Hb).
  exists (<[base + length ts := t]> un'), (<[(p, base + length ts) := base + length ts]> sa'). split.
  - rewrite imap_app, map_app, concat_app, (run_app _ _ _ _ E). cbn. by rewrite Nat.add_0_r.
  - intros k x [Hx|[Hk [H0 <-]%list_lookup_singleton_Some]]%lookup_app_Some.
    + apply lookup_lt_Some in Hx as Hlt. rewrite !lookup_insert_ne by (try intros [=]; lia). auto.
    + assert (k = length ts) as -> by lia. by rewrite !lookup_insert_eq.
Qed.

(** What a frame has set up when it starts to draw. *)
Definition prepared (vp : option (Z * Z)) (v program : Z) (us ts : list Z) (m : machine) : Prop :=
  m_viewport m = vp ∧ m_vao m = Some v ∧ m_program m = Some program ∧
  (∀ k u, us !! k = Some u → m_blocks m !! k = Some u) ∧
  (∀ k t, ts !! k = Some t → m_units m !! (length us + k) = Some t ∧
     m_samplers m !! (program, length us + k) = Some (length us + k)).

Lemma run_setup window r program : ∃ m,
  let vp := match output r with Some Window => Some window | _ => None end in
  run (setup_calls window r program) (machine_init, []) = Some (m, [Cleared vp (clear_bits (pass_attachment r)) colour]) ∧
  prepared vp (vao r) program (resource_ubos r) (resource_textures r) m.
Proof.
  unfold setup_calls, machine_init. cbv zeta. set (vp := match output r with Some Window => Some window | _ => None end).
  rewrite (run_app _ _ _ (mkMachine vp None ∅ ∅ None None ∅ ∅ ∅, [])) by (subst vp; by destruct window, (output r) as [[|]|]).
  rewrite (run_app [_; _] _ _ (mkMachine vp (Some (vao r)) ∅ ∅ None None ∅ ∅ ∅, [Cleared vp (clear_bits (pass_attachment r)) colour])) by done.
  edestruct (run_blocks (resource_ubos r)) as (bl & E1 & Hbl). rewrite (run_app _ _ _ _ E1).
  rewrite (run_app [_] _ _ (mkMachine vp (Some (vao r)) ∅ ∅ None (Some program) bl ∅ ∅, [Cleared vp (clear_bits (pass_attachment r)) colour])) by done.
  edestruct (run_textures (length (resource_ubos r)) (resource_textures r)) as (un & sa & E2 & Hun).
  rewrite E2. eexists. split; [done|]. by split_and!.
Qed.

(** The draws are seen with what was set up. *)
Lemma prepared_seen vp v program us ts m : prepared vp v program us ts m → length us = nb → length ts = nt →
  bound_blocks mem nb m = map mem us ∧ bound_textures nb nt m = map Some ts.
Proof.
  intros (_ & _ & Hp & Hb & Ht) <- <-. unfold bound_blocks, bound_textures. split; apply list_eq; intros k; rewrite !list_lookup_fmap.
  - destruct (us !! k) as [u|] eqn:Eu.
    + rewrite lookup_seq_lt by (by eapply lookup_lt_Some). cbn. by rewrite (Hb _ _ Eu).
    + by rewrite lookup_seq_ge by (by apply lookup_ge_None).
  - destruct (ts !! k) as [t|] eqn:Et.
    + rewrite lookup_seq_lt by (by eapply lookup_lt_Some). cbn. rewrite Hp. cbn. destruct (Ht _ _ Et) as [Hu ->]. cbn. by rewrite Hu.
    + by rewrite lookup_seq_ge by (by apply lookup_ge_None).
Qed.

(** The draws of a class, once its buffers are in place. *)
Lemma run_draws vp v program us ts m seen vb ib ind size n ms vbs ibs cs : prepared vp v program us ts m →
  length us = nb → length ts = nt → mem vb = Some vbs → mem ib = Some ibs → mem ind = Some cs →
  n * sizeof_DrawIndirectCommand ≤ length cs →
  concat (map (λ k, let c := read_command (slice (k * sizeof_DrawIndirectCommand) sizeof_DrawIndirectCommand cs) in
                    replicate (Z.to_nat (instanceCount c)) (fetch_draw ibs vbs size c)) (seq 0 n)) = ms →
  ∃ m', run (draw_calls v size vb ib ind n) (m, seen) =
      Some (m', seen ++ map (Drew vp (Some program) (map mem us) (map Some ts)) ms) ∧ prepared vp v program us ts m'.
Proof.
  intros Hm Hu Ht Hvb Hib Hind Hn <-. destruct (prepared_seen _ _ _ _ _ _ Hm Hu Ht) as [Eb Et].
  destruct m as [vp' v' vx el ind' p' bl un sa]. destruct Hm as (Hvp & Hv & Hp & Hbl & Htx). cbn in Hvp, Hv, Hp. subst vp' v' p'.
  exists (mkMachine vp (Some v) (<[v := (vb, size)]> vx) (<[v := ib]> el) (Some ind) (Some program) bl un sa).
  split; [|split_and!; [done..|exact Hbl|exact Htx]]. unfold run, draw_calls.
  cbn [execute_all execute]. cbn [mbind option_bind execute_all execute].
  unfold multi_draw. cbn [m_vao m_vertex m_element m_indirect].
  cbn [mbind option_bind]. rewrite !lookup_insert_eq. cbn [mbind option_bind]. rewrite Hvb, Hib, Hind. cbn [mbind option_bind].
  rewrite (proj2 (Nat.leb_le _ _)) by done. cbn [mbind option_bind]. do 2 f_equal.
  unfold bound_blocks, bound_textures in *. cbn [m_blocks m_program m_samplers m_units] in *. by rewrite Eb, Et.
Qed.

End Frame.

(** Reading the commands back. *)
Lemma read_written (ms : list model) k m :
  (Z.of_nat (offset_of (count_of (data_access m) vertex_number) ms k) < 2147483648)%Z →
  read_command (cmd_bytes (command ms k m)) = command ms k m.
Proof.
  intros Hk. set (c := command ms k m). unfold read_command.
  assert (slice (4 * 0) 4 (cmd_bytes c) = le32 (count c)) as -> by done.
  assert (slice (4 * 1) 4 (cmd_bytes c) = le32 (instanceCount c)) as -> by done.
  assert (slice (4 * 2) 4 (cmd_bytes c) = le32 (firstIndex c)) as -> by done.
  assert (slice (4 * 3) 4 (cmd_bytes c) = le32 (baseVertex c)) as -> by done.
  assert (slice (4 * 4) 4 (cmd_bytes c) = le32 (baseInstance c)) as -> by done.
  subst c. unfold command. cbn [count instanceCount firstIndex baseVertex baseInstance]. rewrite !of_le32_le32; try done; try apply u32_range.
  f_equal. rewrite u32_small by (unfold modulus32; lia). apply to_i32_small. lia.
Qed.

Lemma slices_prefix {A B} n (g : B → list A) l rest : (∀ x, length (g x) = n) →
  map (λ k, slice (k * n) n (concat (map g l) ++ rest)) (seq 0 (length l)) = map g l.
Proof.
  intros Hg. etransitivity; [|exact (slices_concat n g l Hg)]. apply map_ext_in. intros k Hk%in_seq.
  assert (Hl : length (concat (map g l)) = length l * n).
  { rewrite length_concat_map. unfold compose. clear -Hg. induction l as [|x l IH]; [done|]. cbn in *. rewrite Hg. lia. }
  unfold slice. rewrite drop_app_le by nia. rewrite take_app_le; [done|]. rewrite length_drop. nia.
Qed.

(** The commands of a class fetch its meshes. *)
Lemma commands_fetch stride s r w acc rest : session stride s r w →
  let cs := draws_of acc (sc_meshes s) (sc_draws s) in
  concat (map (λ k, let c := read_command (slice (k * sizeof_DrawIndirectCommand) sizeof_DrawIndirectCommand
                                             (concat (map cmd_bytes cs) ++ rest)) in
                    replicate (Z.to_nat (instanceCount c))
                      (fetch_draw (u32s_bytes (all_data acc owned_indices (sc_meshes s))) (all_data acc owned_bytes (sc_meshes s)) stride c))
            (seq 0 (length cs))) = drawn stride acc (sc_meshes s) (sc_draws s).
Proof.
  intros Hs. cbv zeta. set (cs := draws_of acc (sc_meshes s) (sc_draws s)).
  set (show := fetch_draw _ _ stride).
  transitivity (concat (map (λ c, replicate (Z.to_nat (instanceCount (read_command c))) (show (read_command c)))
    (map (λ k, slice (k * sizeof_DrawIndirectCommand) sizeof_DrawIndirectCommand (concat (map cmd_bytes cs) ++ rest)) (seq 0 (length cs))))).
  { by rewrite map_map. }
  rewrite (slices_prefix _ cmd_bytes cs rest) by done. rewrite map_map.
  unfold drawn. rewrite <- (map_draws acc (sc_meshes s) show). 2:{ intros k m Hk <-. apply fetch_draw_command; [apply (se_meshes _ _ _ _ Hs)|done| |].
    - pose proof (se_indices _ _ _ _ Hs (data_access m)). unfold modulus32. lia.
    - pose proof (vertex_total stride _ _ k m (se_stride _ _ _ _ Hs) (se_meshes _ _ _ _ Hs) Hk eq_refl) as Ht.
      pose proof (se_vertices _ _ _ _ Hs (data_access m)). unfold modulus32. lia. }
  fold cs. assert (Hcs : ∀ c, c ∈ cs → read_command (cmd_bytes c) = c ∧ instanceCount c = 1%Z).
  { intros c Hc. unfold cs, draws_of in Hc. apply list_elem_of_omap in Hc as (k & _ & Hk).
    destruct (sc_meshes s !! k) as [m|] eqn:Em; [|done]. case_bool_decide; [|done]. injection Hk as <-. split; [|done].
    apply read_written. pose proof (vertex_total stride _ _ k m (se_stride _ _ _ _ Hs) (se_meshes _ _ _ _ Hs) Em eq_refl).
    pose proof (se_vertices _ _ _ _ Hs (data_access m)). lia. }
  clearbody cs. induction cs as [|c l IH]; [done|]. cbn [map concat]. destruct (Hcs c) as [-> ->]; [set_solver|].
  change (replicate (Z.to_nat 1) (show c)) with [show c]. cbn [app]. f_equal. apply IH. set_solver.
Qed.

Lemma session_count stride s r w acc : session stride s r w →
  num_draws_of acc r = Ok (length (draws_of acc (sc_meshes s) (sc_draws s))).
Proof.
  intros Hs. pose proof (se_inputs _ _ _ _ Hs) as HF. rewrite num_draws_spec; rewrite (se_cache _ _ _ _ Hs).
  - by rewrite (draws_of_same_shape acc _ _ _ HF).
  - rewrite <- (Forall2_length _ _ _ HF). apply (se_draws _ _ _ _ Hs).
Qed.

(** One of the two draw blocks of a frame shows the meshes of its class. *)
Lemma class_block stride s r w acc colour nb nt : session stride s r w → ∃ cs,
  makes (draw_block r (indirect_of acc r) (fst (geometry_of acc r)) (snd (geometry_of acc r)) (num_draws_of acc r)) cs ∧
  ∀ vp program ts m seen, prepared vp (vao r) program (resource_ubos r) ts m → length (resource_ubos r) = nb → length ts = nt →
    ∃ m', execute_all (contents w) colour nb nt cs (m, seen) =
        Some (m', seen ++ map (Drew vp (Some program) (map (contents w) (resource_ubos r)) (map Some ts))
                            (drawn stride acc (sc_meshes s) (sc_draws s))) ∧
      prepared vp (vao r) program (resource_ubos r) ts m'.
Proof.
  intros Hs. pose proof (se_indirect _ _ _ _ Hs acc) as Hi. pose proof (commands_fetch stride s r w acc) as Hf.
  rewrite (session_count _ _ _ _ acc Hs). unfold indirect_ok in Hi.
  destruct (draws_of acc (sc_meshes s) (sc_draws s)) as [|c cs] eqn:Ed.
  - destruct Hi as [-> _]. exists []. split; [apply makes_ret|]. intros vp program ts m seen Hm _ _. exists m. split; [|done].
    rewrite <- (Hf [] Hs), app_nil_r. done.
  - destruct Hi as (d & rest & -> & [_ Ht] & Hc & Hr).
    assert (Hne : sc_meshes s ≠ []). { intros E. rewrite E in Ed. unfold draws_of in Ed. clear -Ed. by induction (sc_draws s). }
    destruct (se_format _ _ _ _ Hs Hne) as (f & Ef & Hst).
    destruct (se_geometry _ _ _ _ Hs acc (draws_of_nonempty _ _ _ _ _ Ed)) as (vb & ib & -> & -> & Cv & Ci).
    eexists. split; [by apply draw_block_makes|]. intros vp program ts m seen Hm Hu Hts. rewrite Hst.
    eapply run_draws; [done..| |by apply Hf].
    rewrite length_app, length_cmds_bytes. lia.
Qed.

(** The uniform blocks of a scene are in the uniform buffers. *)
Lemma session_blocks stride s r w : session stride s r w →
  map (contents w) (resource_ubos r) = map (Some ∘ snd) (sc_blocks s).
Proof.
  intros Hs. apply list_eq. intros k. rewrite !list_lookup_fmap. destruct (sc_blocks s !! k) as [x|] eqn:Ex.
  - destruct (se_block _ _ _ _ Hs k x Ex) as (u & -> & Hu & _). cbn. by rewrite Hu.
  - rewrite lookup_ge_None_2; [done|]. rewrite (se_blocks _ _ _ _ Hs). by apply lookup_ge_None.
Qed.

(** The calls that were made do not matter. *)
Lemma session_calls stride s r w cs : session stride s r w → session stride s r (mkWorld (w_heap w) (w_gl w) cs).
Proof. by intros []; split. Qed.

(** *** Rendering *)

Lemma watch_makes nb nt m cs w : makes m cs → watch nb nt m w =
  Ok ((tt, snd <$> execute_all (contents w) (glGetClearColor (w_gl w)) nb nt cs (machine_init, [])),
      mkWorld (w_heap w) (w_gl w) (w_calls w ++ cs)).
Proof. intros Hm. unfold watch. rewrite Hm. cbn. by rewrite drop_app_length. Qed.

Lemma ogl_session_render stride s r w window program : session stride s r w → shader r = Some program →
  ∃ w', watch (length (sc_blocks s)) (length (resource_textures r)) (render window r) w =
      Ok ((tt, Some (frame stride (pass_attachment r) (output r) program (resource_textures r) window s)), w') ∧
    session stride s r w'.
Proof.
  intros Hs Hp. set (nb := length (sc_blocks s)). set (nt := length (resource_textures r)).
  destruct (class_block stride s r w StaticFixed (sc_colour s) nb nt Hs) as (cs1 & M1 & X1).
  destruct (class_block stride s r w DynamicFixed (sc_colour s) nb nt Hs) as (cs2 & M2 & X2).
  pose proof (render_makes window r program cs1 cs2 Hp M1 M2) as Hm. rewrite (watch_makes nb nt _ _ w Hm).
  eexists. split; [|by apply session_calls]. do 3 f_equal. rewrite (se_colour _ _ _ _ Hs).
  pose proof (se_blocks _ _ _ _ Hs) as Hnb. fold nb in Hnb.
  destruct (run_setup (contents w) (sc_colour s) nb nt window r program) as (m & E & Hr).
  rewrite (run_app _ _ _ _ _ _ _ _ E).
  match goal with |- context [execute_all _ _ _ _ _ (m, ?seen)] => destruct (X1 _ _ _ _ seen Hr Hnb eq_refl) as (m1 & E1 & Hr1) end.
  rewrite (run_app _ _ _ _ _ _ _ _ E1).
  match goal with |- context [execute_all _ _ _ _ _ (m1, ?seen)] => destruct (X2 _ _ _ _ seen Hr1 Hnb eq_refl) as (m2 & E2 & _) end.
  rewrite E2.
  cbn. unfold frame. rewrite map_app, (session_blocks _ _ _ _ Hs). done.
Qed.

(** *** Draw lists *)

(** A computation that makes no recorded call and keeps the clear colour. *)
Definition silent {A} (m : ST world A) : Prop := ∀ w a w', m w = Ok (a, w') →
  w_calls w' = w_calls w ∧ glGetClearColor (w_gl w') = glGetClearColor (w_gl w).

Lemma unwatched_ret {A} (a : A) : silent (mret a).
Proof. by intros w x w' [= <- <-]. Qed.

Lemma unwatched_lift {A} (m : res A) : silent (lift m).
Proof. by intros w x w' [_ ->]%lift_inv. Qed.

Lemma unwatched_bind {A B} (m : ST world A) (k : A → ST world B) : silent m → (∀ a, silent (k a)) → silent (m ≫= k).
Proof.
  intros Hm Hk w b w' (a & w1 & E1 & E2)%st_bind_inv.
  destruct (Hk _ _ _ _ E2) as [-> ->]. by destruct (Hm _ _ _ E1) as [-> ->].
Qed.

Lemma silent_memory f : (∀ x, glGetClearColor (snd (f x)) = glGetClearColor (snd x)) → silent (gl_memory f).
Proof.
  intros Hf w a w'. unfold gl_memory. specialize (Hf (w_heap w, w_gl w)). destruct (f _) as [h g].
  by intros [= <- <-].
Qed.

Lemma silent_write b d : silent (Buffer_write b d).
Proof.
  unfold Buffer_write. destruct (mapped_ptr b) as [p|].
  - intros w a w'. unfold on_heap. destruct (h' ← memcpy _ _ _; Ok (h', ())) as [[h x]|]; [|done]. by intros [= <- <-].
  - apply silent_memory. intros [h g]. apply buffer_sub_data_colour.
Qed.

Lemma silent_destroy b : silent (Buffer_destroy b).
Proof. apply silent_memory. intros x. apply delete_buffers_colour. Qed.

Lemma silent_create : silent (gl_create glCreateBuffers).
Proof.
  intros w a w'. unfold gl_create. pose proof (create_buffers_colour (w_gl w)) as H.
  destruct (glCreateBuffers (w_gl w)) as [g n]. by intros [= <- <-].
Qed.

Lemma silent_write_draws ob cs : silent (write_draws ob cs).
Proof.
  unfold write_draws. destruct cs as [|c cs].
  - destruct ob; cbn; [apply unwatched_bind; [apply silent_destroy|]|]; intros; apply unwatched_ret.
  - apply unwatched_bind; [|intros b; apply unwatched_bind; [apply silent_write|intros; apply unwatched_ret]].
    destruct ob as [d|]; [apply unwatched_ret|]. apply unwatched_bind.
    + apply unwatched_bind; [apply silent_create|]. intros n. apply unwatched_bind; [|intros; apply unwatched_ret].
      apply silent_memory. intros x. apply buffer_data_colour.
    + intros b. apply unwatched_bind; [|intros; apply unwatched_ret]. cbn. apply unwatched_bind; [apply silent_destroy|].
      intros. apply unwatched_ret.
Qed.

(** Deleting a buffer leaves the others as they are. *)
Lemma destroy_spec d w : gl_ok w → ∃ w', Buffer_destroy d w = Ok (tt, w') ∧ gl_ok w' ∧ only_changes (buf d) w w'.
Proof.
  intros [H1 H2]. unfold Buffer_destroy, gl_memory.
  pose proof (delete_buffers_spec (w_heap w) (w_gl w) [buf d]) as Hd.
  pose proof (delete_buffers_gone (w_heap w, w_gl w) [buf d] (buf d) ltac:(set_solver)) as Hg.
  destruct (glDeleteBuffers (w_heap w, w_gl w) [buf d]) as [h g]. cbn in Hd, Hg.
  assert (Hk : ∀ n b, gl_block g n = Some b → n ≠ buf d ∧ gl_block (w_gl w) n = Some b ∧ h !! b = w_heap w !! b).
  { intros n b Hn. destruct (decide (n = buf d)) as [->|Hne]; [congruence|]. destruct (Hd n) as [E Eh]; [set_solver|].
    rewrite E in Hn. auto. }
  eexists. split; [done|]. split; [split; cbn|].
  - intros n b (_ & Hn & ->)%Hk. eauto.
  - intros n m b (_ & Hn & _)%Hk (_ & Hm & _)%Hk. eauto.
  - intros n Hn. destruct (Hd n) as [E Eh]; [set_solver|]. cbn. split; [|done]. unfold contents. cbn. rewrite E.
    destruct (gl_block (w_gl w) n) as [b|]; [|done]. cbn. by rewrite Eh.
Qed.

(** Writing the draws of a class.  [touches ob w w']: only the indirect buffer
    [ob] may have changed. *)
Definition touches (ob : option Buffer) w w' : Prop :=
  ∀ n, live w n → n ∉ names [ob] → contents w' n = contents w n ∧ gl_block (w_gl w') n = gl_block (w_gl w) n.

Lemma extends_touches ob w w' : extends w w' → touches ob w w'.
Proof. intros X n Hn _. by apply X. Qed.

Lemma only_touches d w w' : only_changes (buf d) w w' → touches (Some d) w w'.
Proof. intros X n _ Hn. apply X. cbn in Hn. set_solver. Qed.

Lemma write_draws_spec ob room cs0 cs w : gl_ok w → indirect_ok cs0 room w ob → length cs ≤ next_room (length cs) room →
  ∃ ob' w', write_draws ob cs w = Ok (ob', w') ∧ gl_ok w' ∧ indirect_ok cs (next_room (length cs) room) w' ob' ∧
    touches ob w w' ∧ ∀ n, n ∈ names [ob'] → n ∈ names [ob] ∨ ¬ live w n.
Proof.
  intros Hw Hi Hr. destruct ob as [d|].
  - assert (Hd : (mapped_ptr d = None ∧ type d = DrawIndirect) ∧ ∃ l, contents w (buf d) = Some l ∧ room * sizeof_DrawIndirectCommand = length l ∧ room ≠ 0).
    { unfold indirect_ok in Hi. destruct cs0 as [|c cs0]; [by destruct Hi|]. destruct Hi as (? & rest & [= <-] & Hd & Hc & Hl).
      split; [done|]. eexists. split; [done|]. split; [done|]. intros ->. by rewrite length_app in Hl. }
    destruct Hd as ([Hm Ht] & l & Hc & Hl & Hr0). destruct cs as [|c cs].
    + destruct (destroy_spec d w Hw) as (w' & E & Hw' & Hch). exists None, w'. cbn -[Buffer_destroy].
      rewrite (st_bind_Ok _ _ _ _ _ E). split_and!; try done; [by apply only_touches|]. by intros n ?%elem_of_nil.
    + unfold next_room in *. rewrite (proj2 (Nat.eqb_neq room 0)) in * by done. cbn [length Nat.eqb] in *.
      destruct (Buffer_write_spec d w l (concat (map cmd_bytes (c :: cs))) Hw Hm Hc) as (w' & E & Hw' & Hc' & Hch & _).
      { rewrite length_cmds_bytes, <- Hl. cbn [length]. unfold sizeof_DrawIndirectCommand. lia. }
      exists (Some d), w'. unfold write_draws. cbv zeta. rewrite (st_bind_Ok (mret d) _ w d w eq_refl), (st_bind_Ok _ _ _ _ _ E).
      split_and!; try done; [|by apply only_touches|by left].
      exists d, (drop (length (concat (map cmd_bytes (c :: cs)))) l).
      split; [done|]. split; [done|]. rewrite splice_prefix in Hc'; [|rewrite length_cmds_bytes, <- Hl; cbn [length]; unfold sizeof_DrawIndirectCommand; lia].
      split; [done|]. rewrite length_app, length_drop, length_cmds_bytes, <- Hl. cbn [length]. unfold sizeof_DrawIndirectCommand. lia.
  - assert (room = 0) as ->. { unfold indirect_ok in Hi. destruct cs0; [by destruct Hi|]. by destruct Hi as (? & ? & [=] & _). }
    destruct (write_draws_None cs w Hw) as (ob' & w' & E & Hw' & X & Hd & Hf). exists ob', w'.
    split_and!; try done; [|by apply extends_touches|].
    + replace (next_room (length cs) 0) with (length cs) by (by destruct cs). by apply indirect_start.
    + intros n Hn. right. destruct ob' as [d|]; cbn in Hn; [|by apply elem_of_nil in Hn].
      apply list_elem_of_singleton in Hn as ->. by apply Hf.
Qed.

(** A renderer with another draw list. *)
Definition rebound r ib ibd draws : RendererOGL I R :=
  mkRenderer (vao r) (vbo r) (ibo r) (vbo_dynamic r) (ibo_dynamic r) ib ibd (resources r) (resource_ubos r)
    (resource_textures r) (format r) (pass_attachment r) (shader r) (inputs r) (output r) draws.

Lemma names_two a b : names [a; b] = names [a] ++ names [b].
Proof. apply (omap_app (fmap buf) [a] [b]). Qed.

Lemma indirect_live cs room w ob n : indirect_ok cs room w ob → n ∈ names [ob] → live w n.
Proof.
  unfold indirect_ok. destruct cs as [|c cs]; [intros [-> _] ?%elem_of_nil; done|].
  intros (d & rest & -> & _ & C & _) ->%list_elem_of_singleton. by eexists.
Qed.

Lemma indirect_kept cs room w w' ob ob' : indirect_ok cs room w ob → touches ob' w w' →
  (∀ n, n ∈ names [ob] → n ∉ names [ob']) → indirect_ok cs room w' ob.
Proof.
  unfold indirect_ok. destruct cs as [|c cs]; [done|]. intros (d & rest & -> & Hd & C & L) T Hn.
  exists d, rest. split_and!; try done; [apply Hd..|]. destruct (T (buf d)) as [-> _]; [by eexists|apply Hn; cbn; set_solver|done].
Qed.

(** The static indirect buffer is written, then the dynamic one: names stay
    different, and what [keep] says is kept stays as it is. *)
Lemma write_both (keep : list Z) rs rd c1 c2 cs csd ob obd w : gl_ok w → indirect_ok c1 rs w ob → indirect_ok c2 rd w obd →
  NoDup (names [ob; obd]) → Forall (live w) keep → Forall (λ n, n ∉ keep) (names [ob; obd]) →
  length cs ≤ next_room (length cs) rs → length csd ≤ next_room (length csd) rd →
  ∃ ib ibd w1 w2, write_draws ob cs w = Ok (ib, w1) ∧ write_draws obd csd w1 = Ok (ibd, w2) ∧ gl_ok w2 ∧
    indirect_ok cs (next_room (length cs) rs) w2 ib ∧ indirect_ok csd (next_room (length csd) rd) w2 ibd ∧
    (∀ n, n ∈ keep → contents w2 n = contents w n ∧ gl_block (w_gl w2) n = gl_block (w_gl w) n) ∧
    NoDup (names [ib; ibd]) ∧ Forall (λ n, n ∉ keep) (names [ib; ibd]).
Proof.
  intros Hw Hi Hid. rewrite !names_two, NoDup_app, !Forall_app, !Forall_forall. intros (_ & Hdis & _) Hlv [Hp Hpd] Hc Hcd.
  destruct (write_draws_spec _ _ _ cs w Hw Hi Hc) as (ib & w1 & E1 & O1 & I1 & T1 & N1).
  assert (Hi1 : indirect_ok c2 rd w1 obd) by (eapply indirect_kept; [done|done|]; intros n Hx Hy; by apply (Hdis n)).
  destruct (write_draws_spec _ _ _ csd w1 O1 Hi1 Hcd) as (ibd & w2 & E2 & O2 & I2 & T2 & N2).
  assert (Hkd : ∀ n, n ∈ names [ib] → n ∉ names [obd]).
  { intros n Hn Hy. destruct (N1 n Hn) as [Hx|Hx]; [by apply (Hdis n)|]. by eapply Hx, indirect_live. }
  assert (Hkeep : ∀ n, n ∈ keep → contents w1 n = contents w n ∧ gl_block (w_gl w1) n = gl_block (w_gl w) n).
  { intros n Hn. apply T1; [by apply Hlv|]. intros Hx. by apply (Hp n). }
  assert (Hlv1 : ∀ n, n ∈ keep → live w1 n) by (intros n Hn; unfold live; destruct (Hkeep n Hn) as [-> _]; by apply Hlv).
  exists ib, ibd, w1, w2. rewrite names_two, NoDup_app, Forall_app, !Forall_forall. split_and!; try done.
  - eapply indirect_kept; [exact I1|done|done].
  - intros n Hn. destruct (Hkeep n Hn) as [<- <-]. apply T2; [by apply Hlv1|]. intros Hx. by apply (Hpd n).
  - destruct ib; [apply NoDup_singleton|constructor].
  - intros n Hx Hy. destruct (N2 n Hy) as [Hz|Hz]; [by apply (Hkd n)|]. by apply Hz, (indirect_live _ _ _ _ _ I1).
  - destruct ibd; [apply NoDup_singleton|constructor].
  - intros n Hx Hk. destruct (N1 n Hx) as [Hy|Hy]; [by apply (Hp n)|by apply Hy, Hlv].
  - intros n Hx Hk. destruct (N2 n Hx) as [Hy|Hy]; [by apply (Hpd n)|by apply Hy, Hlv1].
Qed.

Lemma elem_of_names l ob d : ob ∈ l → ob = Some d → buf d ∈ names l.
Proof. intros Hl ->. apply list_elem_of_omap. by exists (Some d). Qed.

(** A renderer with another draw list on the same buffers. *)
Lemma session_rebound stride s r w ib ibd draws room w' : session stride s r w → gl_ok w' →
  (∀ n, n ∈ kept r → contents w' n = contents w n ∧ gl_block (w_gl w') n = gl_block (w_gl w) n) →
  Forall (λ k, k < length (sc_meshes s)) draws →
  (∀ acc, indirect_ok (draws_of acc (sc_meshes s) draws) (room acc) w' (indirect_of acc (rebound r ib ibd draws))) →
  NoDup (names [ib; ibd]) → Forall (λ n, n ∉ kept r) (names [ib; ibd]) → glGetClearColor (w_gl w') = sc_colour s →
  session stride (mkScene (sc_meshes s) (sc_blocks s) draws (sc_colour s) room) (rebound r ib ibd draws) w'.
Proof.
  intros Hs Hw' Hkeep Hdr Hind Hnd Hpr Hcol.
  assert (Hv : ∀ v, vbo_dynamic r = Some v → buf v ∈ kept r).
  { intros v Hv. apply elem_of_app. left. eapply elem_of_names; [|exact Hv]. set_solver. }
  destruct Hs. split; try done; cbn [sc_meshes sc_blocks sc_draws sc_colour sc_room].
  - intros acc He. destruct (se_geometry0 acc He) as (v & x & Ev & Ex & Cv & Cx). exists v, x.
    assert (buf v ∈ kept r ∧ buf x ∈ kept r) as [H1 H2].
    { unfold kept. rewrite !elem_of_app. destruct acc; cbn in Ev, Ex; split; left; (eapply elem_of_names; [|eassumption]); set_solver. }
    destruct (Hkeep _ H1) as [-> _], (Hkeep _ H2) as [-> _]. by destruct acc.
  - intros k m Hk Ha. destruct (se_dynamic0 k m Hk Ha) as (j & v & c & Hj & Hvv & Hb & E). exists j, v, c.
    destruct (Hkeep (buf v)) as [_ ->]; [by apply Hv|done].
  - eapply Forall_impl; [apply Forall_forall; intros n Hn; exact Hn|]. cbn. intros n Hn. unfold live. destruct (Hkeep n Hn) as [-> _].
    rewrite Forall_forall in se_live0. by apply se_live0.
  - intros k x Hk. destruct (se_block0 k x Hk) as (u & Hu & Cu & Hd). exists u.
    destruct (Hkeep u) as [-> ->]; [apply elem_of_app; right; by eapply list_elem_of_lookup_2|]. done.
Qed.

(** What a draw list does not change. *)
Definition same_look r r' : Prop :=
  shader r' = shader r ∧ pass_attachment r' = pass_attachment r ∧ output r' = output r ∧
  resource_textures r' = resource_textures r.

Lemma session_bind stride s r w draws : session stride s r w → Forall (λ k, k < length (sc_meshes s)) draws →
  (∀ acc, class_size acc s draws ≤ sc_room (show_list draws s) acc) →
  ∃ r' w', bind_draw_list r draws w = Ok (r', w') ∧ session stride (show_list draws s) r' w' ∧ same_look r r' ∧
    w_calls w' = w_calls w.
Proof.
  intros Hs Hd Hroom. unfold bind_draw_list, draws_match_cache, show_list in *. rewrite (se_cache _ _ _ _ Hs).
  case_bool_decide as Hc; [by exists r, w|]. cbn in Hroom. pose proof (se_inputs _ _ _ _ Hs) as HF.
  assert (Hb : ∀ i, i ∈ inputs r → binding_size (get_format i) ≠ 0).
  { intros i [k Hk]%list_elem_of_lookup. destruct (Forall2_lookup_r _ _ _ _ _ HF Hk) as (m & Hm & (_ & -> & _)).
    destruct (Forall_lookup_1 _ _ _ _ (se_meshes _ _ _ _ Hs) Hm) as (_ & E & _). cbn in E. cbn. rewrite E. apply (se_stride _ _ _ _ Hs). }
  assert (Hdr : Forall (λ k, k < length (inputs r)) draws) by (by rewrite <- (Forall2_length _ _ _ HF)).
  destruct (draw_table_spec (inputs r) Hb) as (t & Et & Ht). rewrite Et, lift_bind.
  rewrite (convert_draws_spec _ t draws Ht Hdr), lift_bind.
  rewrite draws_of_length, Nat.eqb_refl, tz_assert_true, lift_bind by done. rewrite !(draws_of_same_shape _ _ _ _ HF).
  destruct (write_both (kept r) _ _ _ _ _ _ _ _ w (se_ok _ _ _ _ Hs) (se_indirect _ _ _ _ Hs StaticFixed)
    (se_indirect _ _ _ _ Hs DynamicFixed) (se_indirects _ _ _ _ Hs) (se_live _ _ _ _ Hs) (se_private _ _ _ _ Hs)
    (Hroom StaticFixed) (Hroom DynamicFixed)) as (ib & ibd & w1 & w2 & E1 & E2 & Hw2 & I1 & I2 & Hkeep & Hnd & Hpr).
  destruct (silent_write_draws _ _ _ _ _ E1) as [C1 G1], (silent_write_draws _ _ _ _ _ E2) as [C2 G2].
  cbn [indirect_of] in E1, E2. rewrite (st_bind_Ok _ _ _ _ _ E1), (st_bind_Ok _ _ _ _ _ E2).
  exists (rebound r ib ibd draws), w2. split; [done|]. split; [|split; [done|congruence]].
  apply (session_rebound stride s r w); try done; [by intros []|]. rewrite G2, G1. apply (se_colour _ _ _ _ Hs).
Qed.

Lemma ogl_session_render_list stride s r w window draws program : session stride s r w → shader r = Some program →
  Forall (λ k, k < length (sc_meshes s)) draws → (∀ acc, class_size acc s draws ≤ sc_room (show_list draws s) acc) →
  ∃ r' w', watch (length (sc_blocks s)) (length (resource_textures r)) (render_list window r draws) w =
      Ok ((r', Some (frame stride (pass_attachment r) (output r) program (resource_textures r) window (show_list draws s))), w') ∧
    session stride (show_list draws s) r' w' ∧ same_look r r'.
Proof.
  intros Hs Hp Hd Hroom.
  assert (Hb : ∃ r' w', (if negb (draws_match_cache r draws) then bind_draw_list r draws else mret r) w = Ok (r', w') ∧
    session stride (show_list draws s) r' w' ∧ same_look r r' ∧ w_calls w' = w_calls w).
  { destruct (session_bind stride s r w draws Hs Hd Hroom) as (r' & w' & E & H). unfold bind_draw_list in E.
    destruct (draws_match_cache r draws) eqn:Em; cbn; [injection E as <- <-; by exists r, w|].
    exists r', w'. split; [|done]. unfold bind_draw_list. by rewrite Em. }
  destruct Hb as (r' & w1 & E1 & Hs1 & Hlk & Hcalls). pose proof Hlk as (Esh & Epa & Eou & Ete).
  destruct (ogl_session_render stride _ r' w1 window program Hs1) as (w2 & E2 & Hs2); [congruence|].
  rewrite Epa, Eou, Ete in E2. exists r', w2. split; [|done].
  assert (Hnb : length (sc_blocks (show_list draws s)) = length (sc_blocks s)) by (unfold show_list; by case_bool_decide).
  rewrite Hnb in E2. revert E2. unfold watch, render_list. rewrite (st_bind_Ok _ _ _ _ _ E1). unfold mbind, ST_bind.
  rewrite Hcalls. destruct (render window r' w1) as [[[] w3]|]; [|done]. cbn. by intros [= -> ->].
Qed.

Lemma ogl_session_clear_colour stride s r w colour : session stride s r w →
  ∃ w', set_clear_colour colour w = Ok (tt, w') ∧
    session stride (mkScene (sc_meshes s) (sc_blocks s) (sc_draws s) colour (sc_room s)) r w'.
Proof.
  intros Hs. eexists. split; [done|]. destruct (clear_colour_spec (w_gl w) colour) as [Hc Hb].
  assert (Hco : ∀ n, contents (mkWorld (w_heap w) (glClearColor (w_gl w) colour) (w_calls w)) n = contents w n).
  { intros n. unfold contents. cbn. by rewrite Hb. }
  destruct Hs. split; try done; cbn [sc_meshes sc_blocks sc_draws sc_colour sc_room].
  - destruct se_ok0 as [H1 H2]. split; cbn; intros *; rewrite ?Hb; eauto.
  - intros acc He. destruct (se_geometry0 acc He) as (v & x & ? & ? & ? & ?). exists v, x. by rewrite !Hco.
  - intros k m Hk Ha. destruct (se_dynamic0 k m Hk Ha) as (j & v & c & ? & ? & ? & ?). exists j, v, c. cbn. by rewrite Hb.
  - intros acc. specialize (se_indirect0 acc). unfold indirect_ok in *. destruct (draws_of _ _ _); [done|]. by rewrite_strat (topdown Hco).
  - eapply Forall_impl; [exact se_live0|]. intros n Hn. unfold live. by rewrite Hco.
  - intros k x Hk. destruct (se_block0 k x Hk) as (u & ? & ? & ?). exists u. cbn. by rewrite Hco, Hb.
Qed.

(** *** Writing to dynamic inputs and resources *)

(** Meshes before and after a write to a dynamic one. *)
Definition rewritten (m m' : model) : Prop :=
  mo_access m' = mo_access m ∧ mo_format m' = mo_format m ∧ mo_indices m' = mo_indices m ∧
  length (mo_vertices m') = length (mo_vertices m) ∧ (mo_access m = StaticFixed → m' = m).

Lemma alter_rewritten ms k m at_ bs : ms !! k = Some m → mo_access m = DynamicFixed → at_ + length bs ≤ length (mo_vertices m) →
  Forall2 rewritten ms (alter (write_model at_ bs) k ms).
Proof.
  intros Hk Ha Hl. apply Forall2_same_length_lookup_2; [by rewrite length_alter|]. intros i x y Hx Hy.
  destruct (decide (i = k)) as [->|Hne].
  - rewrite list_lookup_alter_eq, Hk in Hy. injection Hy as <-. simplify_eq. unfold rewritten. cbn. rewrite length_splice by done.
    split_and!; try done. congruence.
  - rewrite list_lookup_alter_ne in Hy by done. by simplify_eq.
Qed.

Lemma rewritten_data ms ms' : Forall2 rewritten ms ms' →
  Forall2 same_shape ms ms' ∧ all_data StaticFixed owned_bytes ms' = all_data StaticFixed owned_bytes ms ∧
  (∀ acc, all_data acc owned_indices ms' = all_data acc owned_indices ms) ∧
  (∀ acc, length (all_data acc owned_bytes ms') = length (all_data acc owned_bytes ms)) ∧
  (∀ acc, existsb (λ i, bool_decide (data_access i = acc)) ms' = existsb (λ i, bool_decide (data_access i = acc)) ms) ∧
  ∀ k, offset_of (length ∘ data_of DynamicFixed owned_bytes) ms' k = offset_of (length ∘ data_of DynamicFixed owned_bytes) ms k.
Proof.
  intros HF. split_and!.
  - eapply Forall2_impl; [exact HF|]. intros m m' (Ha & Hf & Hi & Hl & _). unfold same_shape, vertex_count_bytes, index_count. cbn.
    by rewrite Hl, Hi.
  - unfold all_data. induction HF as [|m m' l l' (Ha & _ & _ & _ & He) _ IH]; [done|]. cbn. rewrite IH. f_equal. unfold data_of. cbn.
    rewrite Ha. case_bool_decide; [by rewrite He|done].
  - intros acc. unfold all_data. induction HF as [|m m' l l' (Ha & _ & Hi & _ & _) _ IH]; [done|]. cbn. rewrite IH. f_equal.
    unfold data_of, owned_indices. cbn. by rewrite Ha, Hi.
  - intros acc. unfold all_data. induction HF as [|m m' l l' (Ha & _ & _ & Hl & _) _ IH]; [done|]. cbn. rewrite !length_app, IH. f_equal.
    unfold data_of, owned_bytes. cbn. rewrite Ha. by case_bool_decide.
  - intros acc. induction HF as [|m m' l l' (Ha & _) _ IH]; [done|]. cbn [existsb]. rewrite IH. cbn [data_access model_input]. by rewrite Ha.
  - intros k. symmetry. eapply Forall2_offset; [exact HF|]. intros m m' (Ha & _ & _ & Hl & _). unfold compose, data_of, owned_bytes. cbn.
    rewrite Ha. by case_bool_decide.
Qed.

Lemma rewritten_ok stride ms ms' : Forall2 rewritten ms ms' → Forall (input_data_ok stride) ms → Forall (input_data_ok stride) ms'.
Proof.
  intros HF Hok. induction HF as [|m m' l l' (Ha & Hf & Hi & Hl & _) _ IH]; [constructor|].
  apply Forall_cons in Hok as [(_ & Hs & HL & Hx) Hl']. constructor; [|auto]. split; [by eexists _, _|].
  unfold vertex_number, vertex_count_bytes, owned_bytes, owned_indices in *. cbn in *. by rewrite Hf, Hi, Hl.
Qed.

Lemma same_shape_trans (ms ms' : list model) (l : list I) : Forall2 same_shape ms ms' → Forall2 same_shape ms l → Forall2 same_shape ms' l.
Proof.
  intros H1 H2. apply Forall2_same_length_lookup_2.
  { apply Forall2_length in H1, H2. congruence. }
  intros k m' i Hm' Hi. destruct (Forall2_lookup_r _ _ _ _ _ H1 Hm') as (m & Hm & (A1 & F1 & V1 & I1)).
  destruct (Forall2_lookup_lr _ _ _ _ _ _ H2 Hm Hi) as (A2 & F2 & V2 & I2). unfold same_shape. by rewrite A1, F1, V1, I1.
Qed.

(** A write through a span into the data store of [n]. *)
Lemma write_span_spec w n c l p0 len at_ bs : gl_ok w → gl_block (w_gl w) n = Some c → contents w n = Some l →
  p0 + len ≤ length l → at_ + length bs ≤ len →
  ∃ w', write_span (At (mkPtr c p0) len) at_ bs w = Ok (tt, w') ∧ gl_ok w' ∧ w_gl w' = w_gl w ∧
    contents w' n = Some (splice (p0 + at_) bs l) ∧ ∀ m, m ≠ n → contents w' m = contents w m.
Proof.
  intros Hw Hg Hc Hp Ha. unfold contents in Hc. rewrite Hg in Hc. cbn in Hc. unfold write_span.
  rewrite (proj2 (Nat.leb_le _ _)) by done. unfold on_heap, store, ptr_add. cbn [block offset]. rewrite Hc.
  rewrite (proj2 (Nat.leb_le _ _)) by lia. eexists. split; [done|].
  destruct (set_store_spec w n c l (splice (p0 + at_) bs l) (w_calls w) Hw Hg Hc) as (H1 & H2 & H3).
  split_and!; try done. intros m Hm. by apply H3.
Qed.

(** A session after a write to one of the shared buffers: what is left to show
    is that the buffers hold the new scene. *)
Lemma session_written stride s s' r w w' n : session stride s r w → n ∈ shared r → gl_ok w' → w_gl w' = w_gl w → live w' n →
  (∀ m, m ≠ n → contents w' m = contents w m) → Forall2 rewritten (sc_meshes s) (sc_meshes s') →
  length (sc_blocks s') = length (sc_blocks s) → sc_draws s' = sc_draws s → sc_room s' = sc_room s → sc_colour s' = sc_colour s →
  (∀ v, vbo_dynamic r = Some v → existsb (λ i, bool_decide (data_access i = DynamicFixed)) (sc_meshes s) = true →
    contents w' (buf v) = Some (all_data DynamicFixed owned_bytes (sc_meshes s'))) →
  (∀ k x, sc_blocks s' !! k = Some x → block_ok r w' k x) →
  session stride s' r w'.
Proof.
  intros Hs Hn Hw' Eg Hl Hoth HF Hlb Ed Er Ec Hdyn Hblk. destruct (rewritten_data _ _ HF) as (Hsh & Hst & Hix & Hlen & Hex & Hoff).
  assert (Hu : n ∉ unshared r) by (pose proof (se_apart _ _ _ _ Hs) as HA; rewrite Forall_forall in HA; by apply HA).
  assert (Hk : n ∈ kept r).
  { unfold kept, shared in *. apply elem_of_app in Hn as [Hn|Hn]; apply elem_of_app; [left|by right].
    apply list_elem_of_omap in Hn as (ob & ->%list_elem_of_singleton & E). apply list_elem_of_omap. exists (vbo_dynamic r).
    split; [set_solver|done]. }
  assert (Hcu : ∀ ob d, ob ∈ [vbo r; ibo r; ibo_dynamic r] → ob = Some d → contents w' (buf d) = contents w (buf d)).
  { intros ob d Hob Hd. apply Hoth. intros E. apply Hu. rewrite <- E. by eapply elem_of_names. }
  assert (Hdraws : ∀ acc, draws_of acc (sc_meshes s') (sc_draws s') = draws_of acc (sc_meshes s) (sc_draws s)).
  { intros acc. rewrite Ed. by apply draws_of_same_shape. }
  destruct Hs. split; try done.
  - by eapply rewritten_ok.
  - intros acc. rewrite Hlen. auto.
  - intros acc. rewrite Hix. auto.
  - by eapply same_shape_trans.
  - intros acc He. rewrite Hex in He. destruct (se_geometry0 acc He) as (v & x & Ev & Ex & Cv & Cx). exists v, x. rewrite Hix.
    destruct acc; cbn in Ev, Ex; split_and!; try done.
    + rewrite Hst, <- Cv. eapply Hcu; [|exact Ev]. set_solver.
    + rewrite <- Cx. eapply Hcu; [|exact Ex]. set_solver.
    + by apply Hdyn.
    + rewrite <- Cx. eapply Hcu; [|exact Ex]. set_solver.
  - intros k m' Hk' Ha. destruct (Forall2_lookup_r _ _ _ _ _ HF Hk') as (m & Hm & (Ha' & _ & _ & Hl' & _)).
    destruct (se_dynamic0 k m Hm) as (j & v & c & ? & ? & ? & E); [congruence|]. exists j, v, c. by rewrite Eg, Hoff, Hl'.
  - by rewrite Ed.
  - rewrite Ed. by rewrite <- (Forall2_length _ _ _ HF).
  - intros acc. rewrite Hdraws, Er. specialize (se_indirect0 acc). unfold indirect_ok in *. destruct (draws_of acc _ _) as [|c0 cs0]; [done|].
    destruct se_indirect0 as (d & rest & Hd & Hmt & C & L). exists d, rest. split; [done|]. split; [done|]. split; [|done]. rewrite <- C. apply Hoth.
    intros E. rewrite Forall_forall in se_private0. apply (se_private0 n); [|done]. rewrite <- E.
    destruct acc; cbn in Hd; eapply elem_of_names; [|exact Hd| |exact Hd]; set_solver.
  - apply Forall_forall. intros m Hm. destruct (decide (m = n)) as [->|Hne]; [done|]. unfold live. rewrite (Hoth m Hne).
    rewrite Forall_forall in se_live0. by apply se_live0.
  - by rewrite Hlb.
  - intros Hne. apply se_format0. intros E. apply Hne. apply Forall2_length in HF. rewrite E in HF. by destruct (sc_meshes s').
  - by rewrite Eg, Ec.
Qed.

Lemma alter_insert {A} (f : A → A) (k : nat) (l : list A) x : l !! k = Some x → alter f k l = <[k := f x]> l.
Proof.
  intros Hx. apply list_eq. intros i. destruct (decide (i = k)) as [->|Hne].
  - rewrite list_lookup_alter_eq, Hx, list_lookup_insert_eq; [done|by eapply lookup_lt_Some].
  - by rewrite list_lookup_alter_ne, list_lookup_insert_ne by done.
Qed.

Lemma rewritten_refl ms : Forall2 rewritten ms ms.
Proof. by apply Forall_Forall2_diag, Forall_true. Qed.

Lemma session_write_input nb nt stride s r w k at_ bs : session stride s r w → op_ok s (WriteInput k at_ bs) →
  ∃ w', do_op nb nt (WriteInput k at_ bs) r w = Ok ((r, []), w') ∧ session stride (scene_step (WriteInput k at_ bs) s) r w'.
Proof.
  intros Hs (m & Hm & Ha & Hl). destruct (se_dynamic _ _ _ _ Hs k m Hm Ha) as (j & v & c & Hj & Hv & Hg & E).
  assert (Hex : existsb (λ i, bool_decide (data_access i = DynamicFixed)) (sc_meshes s) = true) by (by eapply existsb_access).
  destruct (se_geometry _ _ _ _ Hs DynamicFixed Hex) as (v' & x & Hv' & _ & Cv & _). cbn in Hv'. rewrite Hv in Hv'. injection Hv' as <-.
  pose proof (all_data_bound owned_bytes (sc_meshes s) k m Hm) as Hb. cbn [data_access model_input] in Hb. rewrite Ha in Hb.
  unfold owned_bytes at 2 in Hb. cbn in Hb.
  destruct (write_span_spec w (buf v) c _ _ _ at_ bs (se_ok _ _ _ _ Hs) Hg Cv Hb Hl) as (w' & Ew & Hw' & Eg & Cw & Hoth).
  exists w'. cbn [do_op scene_step]. unfold get_input. rewrite (proj2 (Nat.leb_gt _ _)) by (by eapply lookup_lt_Some).
  rewrite Hj. cbn [of_option]. rewrite lift_bind, E, (st_bind_Ok _ _ _ _ _ Ew). split; [done|].
  assert (Hne : ∀ k u, resource_ubos r !! k = Some u → u ≠ buf v).
  { intros k' u Hu ->. pose proof (se_shared _ _ _ _ Hs) as Hnd. unfold shared, names in Hnd. rewrite Hv in Hnd. cbn in Hnd.
    apply NoDup_cons in Hnd as [Hn _]. by apply Hn, (list_elem_of_lookup_2 _ k'). }
  apply (session_written stride s _ r w w' (buf v)); try done; cbn [sc_meshes sc_blocks].
  - apply elem_of_app. left. eapply elem_of_names; [|exact Hv]. set_solver.
  - unfold live. by rewrite Cw.
  - by eapply alter_rewritten.
  - intros v' Hv' _. rewrite Hv in Hv'. injection Hv' as <-. rewrite Cw. f_equal. unfold all_data.
    rewrite (splice_concat (data_of DynamicFixed owned_bytes) _ k m (write_model at_ bs m)); [|done| |].
    + f_equal. f_equal. symmetry. by apply alter_insert.
    + unfold data_of. cbn. by rewrite Ha, !bool_decide_true.
    + unfold data_of. cbn. by rewrite Ha, bool_decide_true.
  - intros k' y Hy. destruct (se_block _ _ _ _ Hs k' y Hy) as (u & Hu & Cu & Hd). exists u. rewrite Eg, Hoth by (by eapply Hne). done.
Qed.

Lemma session_write_resource nb nt stride s r w k at_ bs : session stride s r w → op_ok s (WriteResource k at_ bs) →
  ∃ w', do_op nb nt (WriteResource k at_ bs) r w = Ok ((r, []), w') ∧ session stride (scene_step (WriteResource k at_ bs) s) r w'.
Proof.
  intros Hs (old & Hk & Hl). destruct (se_block _ _ _ _ Hs k _ Hk) as (u & Hu & Cu & Hd). cbn in Cu.
  destruct (Hd eq_refl) as (x & c & Hx & Hg & E). cbn in E.
  destruct (write_span_spec w u c _ 0 _ at_ bs (se_ok _ _ _ _ Hs) Hg Cu (le_n _) Hl) as (w' & Ew & Hw' & Eg & Cw & Hoth).
  exists w'. cbn [do_op scene_step]. unfold get_resource. rewrite (proj2 (Nat.leb_gt _ _)) by (by eapply lookup_lt_Some).
  rewrite Hx. cbn [of_option]. rewrite lift_bind, E, (st_bind_Ok _ _ _ _ _ Ew). split; [done|].
  pose proof (se_shared _ _ _ _ Hs) as Hnd. unfold shared in Hnd. apply NoDup_app in Hnd as (_ & Hdis & Hnd).
  assert (Hsh : u ∈ shared r) by (apply elem_of_app; right; by eapply list_elem_of_lookup_2).
  apply (session_written stride s _ r w w' u); try done; cbn [sc_meshes sc_blocks].
  - unfold live. by rewrite Cw.
  - apply rewritten_refl.
  - by rewrite length_alter.
  - intros v Hv Hex. destruct (se_geometry _ _ _ _ Hs DynamicFixed Hex) as (v' & ? & Hv' & _ & Cv & _). cbn in Hv'.
    rewrite Hv in Hv'. injection Hv' as <-. rewrite Hoth; [done|]. intros Hvu. apply (Hdis u); [|by eapply list_elem_of_lookup_2].
    rewrite <- Hvu. eapply elem_of_names; [|exact Hv]. set_solver.
  - intros k' y Hy. destruct (decide (k' = k)) as [->|Hne].
    + rewrite list_lookup_alter_eq, Hk in Hy. injection Hy as <-. exists u. cbn. rewrite length_splice by done.
      split; [done|]. split; [by rewrite Cw|]. intros _. exists x, c. by rewrite Eg.
    + rewrite list_lookup_alter_ne in Hy by done. destruct (se_block _ _ _ _ Hs k' y Hy) as (u' & Hu' & Cu' & Hd').
      exists u'. rewrite Eg, Hoth; [done|]. intros ->. by apply Hne, (NoDup_lookup _ _ _ _ Hnd Hu' Hu).
Qed.

(** *** Any sequence of operations *)

Lemma session_op stride s r w o program : session stride s r w → shader r = Some program → op_ok s o →
  let show window s := frame stride (pass_attachment r) (output r) program (resource_textures r) window s in
  ∃ r' w', do_op (length (sc_blocks s)) (length (resource_textures r)) o r w = Ok ((r', map Some (frames show [o] s)), w') ∧
    session stride (scene_step o s) r' w' ∧ same_look r r'.
Proof.
  intros Hs Hp Ho. cbv zeta. destruct o as [window|window draws|colour|k at_ bs|k at_ bs].
  - destruct (ogl_session_render _ _ _ _ window program Hs Hp) as (w' & E & Hs'). exists r, w'. cbn -[watch frame].
    by rewrite (st_bind_Ok _ _ _ _ _ E).
  - destruct Ho as [Hd Hr]. destruct (ogl_session_render_list _ _ _ _ window draws program Hs Hp Hd Hr) as (r' & w' & E & Hs' & Hl).
    exists r', w'. cbn -[watch frame]. by rewrite (st_bind_Ok _ _ _ _ _ E).
  - destruct (ogl_session_clear_colour _ _ _ _ colour Hs) as (w' & E & Hs'). exists r, w'. cbn -[set_clear_colour].
    by rewrite (st_bind_Ok _ _ _ _ _ E).
  - destruct (session_write_input (length (sc_blocks s)) (length (resource_textures r)) _ _ _ _ _ _ _ Hs Ho) as (w' & E & Hs').
    by exists r, w'.
  - destruct (session_write_resource (length (sc_blocks s)) (length (resource_textures r)) _ _ _ _ _ _ _ Hs Ho) as (w' & E & Hs').
    by exists r, w'.
Qed.

Lemma scene_blocks o s : length (sc_blocks (scene_step o s)) = length (sc_blocks s).
Proof. destruct o; cbn; try done; [unfold show_list; by case_bool_decide|by rewrite length_alter]. Qed.

(** The clear colour does not matter to what may be done. *)
Definition recoloured s s' : Prop :=
  sc_meshes s' = sc_meshes s ∧ sc_blocks s' = sc_blocks s ∧ sc_draws s' = sc_draws s ∧ sc_room s' = sc_room s.

Lemma ops_ok_recoloured ops s s' : recoloured s s' → ops_ok s ops → ops_ok s' ops.
Proof.
  revert s s'. induction ops as [|o ops IH]; intros [ms bl dr co ro] [ms' bl' dr' co' ro'] (Em & Eb & Ed & Er); [done|].
  cbn in Em, Eb, Ed, Er. subst. intros [Ho Hok]. split.
  - destruct o as [|? draws| | |]; try done. destruct Ho as [Hd Hr]. split; [done|]. intros acc. specialize (Hr acc).
    unfold show_list, class_size in *. cbn in *. by case_bool_decide.
  - eapply IH, Hok. unfold recoloured. destruct o; cbn; try done. unfold show_list. cbn. by case_bool_decide.
Qed.

Lemma frames_cons show o ops s : frames show (o :: ops) s = frames show [o] s ++ frames show ops (scene_step o s).
Proof. cbn [frames]. by rewrite app_nil_r. Qed.

Lemma session_play stride ops s r w program nb nt : session stride s r w → shader r = Some program → ops_ok s ops →
  nb = length (sc_blocks s) → nt = length (resource_textures r) →
  let show window s := frame stride (pass_attachment r) (output r) program (resource_textures r) window s in
  ∃ r' w', play nb nt ops r w = Ok ((r', map Some (frames show ops s)), w') ∧ session stride (foldl (flip scene_step) s ops) r' w'.
Proof.
  cbv zeta. revert s r w. induction ops as [|o ops IH]; intros s r w Hs Hp Hok -> ->; [by exists r, w|].
  destruct Hok as [Ho Hok]. destruct (session_op _ _ _ _ _ _ Hs Hp Ho) as (r1 & w1 & E1 & Hs1 & (L1 & L2 & L3 & L4)).
  destruct (IH _ r1 w1 Hs1) as (r2 & w2 & E2 & Hs2); [congruence|done|by rewrite scene_blocks|by rewrite L4|].
  exists r2, w2. cbn [play foldl flip]. rewrite (st_bind_Ok _ _ _ _ _ E1). cbv beta iota. rewrite (st_bind_Ok _ _ _ _ _ E2).
  split; [|done]. unfold mret, ST_ret. by rewrite L2, L3, L4, (frames_cons _ o ops), map_app.
Qed.

(** C2: a renderer constructed from a well-formed builder goes through any
    sequence of frames, draw lists, clear colours and writes to its dynamic
    inputs and resources without stopping, as long as draw lists fit the
    indirect buffers.  Executing the calls of each frame on the buffers as they
    are then clears the pass to the last colour and draws, with the data last
    written to the uniform buffers bound to their blocks and the textures to
    their samplers, the meshes the last draw list names with the vertices last
    written to them: all its static ones in their order, then all its dynamic
    ones.  So a list that names a static input behind a dynamic one is not drawn
    in its order, which is the order the interface documents. *)
Theorem ogl_session_shows_scene stride (b : RendererBuilderOGL I R) ops w :
  builder_ok stride b → gl_ok w → ops_ok (new_scene b []) ops →
  ∃ r w1 program, RendererOGL_new b w = Ok (r, w1) ∧ b_shader b = Some program ∧
    length (resource_textures r) = length (b_texture_resources b) ∧
    let show window s := frame stride (b_pass b) (b_output b) program (resource_textures r) window s in
    ∃ r' w', play (length (b_buffer_resources b)) (length (b_texture_resources b)) ops r w1 =
      Ok ((r', map Some (frames show ops (new_scene b (glGetClearColor (w_gl w1))))), w').
Proof.
  intros Hb Hw Hok. destruct (construct_spec stride b w Hb Hw) as (ins & r & w1 & E & Hc).
  destruct (bo_shader _ _ Hb) as [program Hp]. exists r, w1, program. split; [done|]. split; [done|].
  split; [apply (co_textures _ _ _ _ _ Hc)|]. cbv zeta.
  destruct (session_play stride ops _ r w1 program (length (b_buffer_resources b)) (length (b_texture_resources b))
    (ogl_session_start _ _ _ _ _ Hb Hc)) as (r' & w' & E' & _).
  - by rewrite (co_shader _ _ _ _ _ Hc).
  - by eapply ops_ok_recoloured, Hok.
  - unfold new_scene. cbn. by rewrite length_map.
  - by rewrite (co_textures _ _ _ _ _ Hc).
  - exists r', w'. by rewrite E', (co_pass _ _ _ _ _ Hc), (co_output _ _ _ _ _ Hc).
Qed.

End Session.

(** ** Concrete inputs *)

#[local] Instance session_config : BuildConfig := debug_build.

(** The second vertex of the first dynamic input is moved, the dynamic resource
    is changed, and the meshes are drawn in another order. *)
Definition sample_ops : list renderer_op :=
  [Render (800, 600)%Z; SetClearColour [0; 0; 1; 1]%Z; WriteInput 1 56 [1; 2; 3; 4]%Z; WriteResource 1 1 [9]%Z;
   RenderList (800, 600)%Z [2; 1; 2]; RenderList (640, 480)%Z []; RenderList (640, 480)%Z [3; 0]].

Lemma sample_ops_ok : ops_ok (new_scene sample_builder []) sample_ops.
Proof.
  unfold sample_ops. cbn [ops_ok].
  split; [exact Logic.I|]. split; [exact Logic.I|].
  split; [eexists; split; [reflexivity|]; split; [reflexivity|]; vm_compute; lia|].
  split; [eexists; split; [reflexivity|]; vm_compute; lia|].
  split; [split; [repeat (constructor; [vm_compute; lia|]); constructor|intros []; vm_compute; lia]|].
  split; [split; [constructor|intros []; vm_compute; lia]|].
  split; [|exact Logic.I].
  split; [repeat (constructor; [vm_compute; lia|]); constructor|intros []; vm_compute; lia].
Qed.

(** The data of the first dynamic input after the write. *)
Definition moved_vertices : list Z := splice 56 [1; 2; 3; 4]%Z (mesh_bytes (triangle 9)).

(** The order of the list [2; 1; 2], whose second input alone is dynamic, is not
    the order in which it is drawn. *)
Example mixed_list_not_in_order :
  let ins := OGLRenderer.b_inputs sample_builder in
  drawn 56 StaticFixed ins [2; 1; 2] ++ drawn 56 DynamicFixed ins [2; 1; 2] ≠ drawn_in_order 56 ins [2; 1; 2] ∧
  drawn 56 StaticFixed ins [2; 1; 2] ++ drawn 56 DynamicFixed ins [2; 1; 2] = drawn_in_order 56 ins [2; 2; 1].
Proof. split; vm_compute; [discriminate|reflexivity]. Qed.

Lemma ogl_session_shows_scene_witness :
  ∃ r w1 r' w' colour, RendererOGL_new sample_builder sample_world = Ok (r, w1) ∧
    ∃ f1 f3 f4, play 2 0 sample_ops r w1 = Ok ((r', map Some
      [f1; Cleared (Some (800, 600)%Z) (clear_bits ColourDepth) colour ::
             map (Drew (Some (800, 600)%Z) (Some 1%Z) [Some [1; 2; 3; 4]%Z; Some [5; 9]%Z] [])
               [mesh_vertices 56 (mesh_bytes (triangle 7)) [0; 1; 2]%Z; mesh_vertices 56 (mesh_bytes (triangle 7)) [0; 1; 2]%Z;
                mesh_vertices 56 moved_vertices [0; 1; 2]%Z];
       f3; f4]), w').
Proof.
  destruct (ogl_session_shows_scene (GS := driver_spec) sizeof_Vertex sample_builder sample_ops sample_world
    sample_builder_ok sample_world_ok sample_ops_ok) as (r & w1 & program & E & Hp & Ht & r' & w' & Hplay).
  cbn in Hp. injection Hp as <-. destruct (resource_textures r) as [|? ?]; [|discriminate Ht].
  exists r, w1, r', w', [0; 0; 1; 1]%Z. split; [exact E|].
  eexists _, _, _. etransitivity; [exact Hplay|]. reflexivity.
Defined.
