(* ===== verification/VkFrame.v ===== *)
(** * Vulkan: fences, semaphores, submission, presentation and frames

    [Fence] and [Semaphore] (backend/vk/fence.cpp, semaphore.cpp), [Submit],
    [Present] (submit.{hpp,cpp}, present.{hpp,cpp}) and [FrameAdmin]
    (frame_admin.{hpp,inl,cpp}).  The queue and its synchronisation objects
    belong to the driver: a class of calls, and the rules of the Vulkan
    specification they obey.  A call that is made against the rules may do
    anything, [Fault Misuse] included. *)

From S2P Require Import Prelude Memory.

(** ** Submit and Present *)

Inductive WaitStage := ColourAttachmentOutput.

(** [Submit]: the handles its constructor collects. *)
Record Submit := mkSubmit {
  wait_semaphore_natives : list Z; command_buffer_natives : list Z;
  signal_semaphore_natives : list Z; wait_stages : list WaitStage }.

Definition Submit_new (buffers wait_semaphores : list Z) (stages : list WaitStage)
    (signal_semaphores : list Z) : Submit :=
  mkSubmit wait_semaphores buffers signal_semaphores stages.

Record Present := mkPresent { image_index : nat; signal_sem_natives : list Z }.

Definition Present_new (swapchain_image_index : nat) (semaphores : list Z) : Present :=
  mkPresent swapchain_image_index semaphores.

(** ** The calls *)

(** What [vkAcquireNextImageKHR] returns. *)
Inductive acquire_code := VK_SUCCESS (index : nat) | VK_ERROR_OUT_OF_DATE_KHR | VK_OTHER.

Class Vk := {
  vk_state : Type;
  vkCreateFence : vk_state → vk_state * option Z;
  vkCreateSemaphore : vk_state → vk_state * option Z;
  vkWaitForFences : vk_state → Z → res vk_state;
  vkResetFences : vk_state → Z → res vk_state;
  vkDestroyFence : vk_state → Z → res vk_state;
  vkQueueSubmit : vk_state → Submit → option Z → res vk_state;
  vkAcquireNextImageKHR : vk_state → Z → vk_state * acquire_code;
  vkQueuePresentKHR : vk_state → Present → vk_state * bool;
  (* the valid usage that vkResetCommandBuffer, vkBeginCommandBuffer and vkFreeCommandBuffers share *)
  vkReuseCommandBuffer : vk_state → Z → res unit
}.

(** The specification.  [pending s] lists the submitted command buffers the
    device has not finished, with the fence of their submission; between two
    calls the device may finish any of them. *)
Class VkSpec `{V : Vk} := {
  fences : vk_state → list Z;
  signalled : vk_state → Z → bool;
  pending : vk_state → list (Z * Z);
  images : vk_state → nat;
  (* the device's own progress, part of every call *)
  progress (s s' : vk_state) : Prop :=
    fences s' = fences s ∧ images s' = images s ∧
      (∀ p, p ∈ pending s' → p ∈ pending s) ∧
      (∀ f, signalled s f = true → signalled s' f = true) ∧
      (∀ f c, (f, c) ∈ pending s → (f, c) ∈ pending s' ∨ signalled s' f = true);
  create_fence_spec : ∀ s s' f, vkCreateFence s = (s', Some f) →
    (f ∉ fences s) ∧ fences s' = (f :: fences s) ∧ signalled s' f = true ∧ images s' = images s ∧
    (∀ g, g ≠ f → signalled s g = true → signalled s' g = true) ∧
    (∀ p, p ∈ pending s' → p ∈ pending s) ∧ (∀ c, (f, c) ∉ pending s') ∧
    (∀ g c, (g, c) ∈ pending s → (g, c) ∈ pending s' ∨ signalled s' g = true);
  create_semaphore_spec : ∀ s, progress s (fst (vkCreateSemaphore s));
  wait_spec : ∀ s f, f ∈ fences s → signalled s f = true ∨ (∃ c, (f, c) ∈ pending s) →
    ∃ s', vkWaitForFences s f = Ok s' ∧ progress s s' ∧ signalled s' f = true ∧
          ∀ c, (f, c) ∉ pending s';
  reset_spec : ∀ s f, f ∈ fences s → (∀ c, (f, c) ∉ pending s) →
    ∃ s', vkResetFences s f = Ok s' ∧ fences s' = fences s ∧ images s' = images s ∧
          signalled s' f = false ∧ (∀ g, g ≠ f → signalled s g = true → signalled s' g = true) ∧
          (∀ p, p ∈ pending s' → p ∈ pending s) ∧
          (∀ g c, g ≠ f → (g, c) ∈ pending s → (g, c) ∈ pending s' ∨ signalled s' g = true);
  destroy_fence_spec : ∀ s f, f ∈ fences s → (∀ c, (f, c) ∉ pending s) →
    ∃ s', vkDestroyFence s f = Ok s' ∧ images s' = images s ∧ (∀ g, g ≠ f → g ∈ fences s → g ∈ fences s') ∧
          (∀ g, g ≠ f → signalled s g = true → signalled s' g = true) ∧
          (∀ p, p ∈ pending s' → p ∈ pending s) ∧
          (∀ g c, g ≠ f → (g, c) ∈ pending s → (g, c) ∈ pending s' ∨ signalled s' g = true);
  submit_spec : ∀ s sub f, f ∈ fences s → signalled s f = false → (∀ c, (f, c) ∉ pending s) →
    (∀ g c, c ∈ command_buffer_natives sub → (g, c) ∉ pending s) →
    ∃ s', vkQueueSubmit s sub (Some f) = Ok s' ∧ fences s' = fences s ∧ images s' = images s ∧
          (∀ g, signalled s g = true → signalled s' g = true) ∧
          (∀ g c, (g, c) ∈ pending s' → (g, c) ∈ pending s ∨ g = f ∧ c ∈ command_buffer_natives sub) ∧
          (∀ g c, (g, c) ∈ pending s ∨ g = f ∧ c ∈ command_buffer_natives sub →
                  (g, c) ∈ pending s' ∨ signalled s' g = true);
  acquire_spec : ∀ s sem s' code, vkAcquireNextImageKHR s sem = (s', code) →
    progress s s' ∧ (∀ i, code = VK_SUCCESS i → i < images s);
  present_spec : ∀ s p, progress s (fst (vkQueuePresentKHR s p));
  (* a command buffer that is pending may be neither reset nor recorded nor freed *)
  reuse_spec : ∀ s c, (∀ f, (f, c) ∉ pending s) → vkReuseCommandBuffer s c = Ok tt
}.

(** ** Fence and Semaphore *)

Section Calls.
Context `{BC : BuildConfig} `{V : Vk}.

Definition vk_call (f : vk_state → res vk_state) : ST vk_state unit := λ s,
  match f s with Ok s' => Ok (tt, s') | Fault e => Fault e end.

(** The constructors; a failed creation is caught by an assertion and leaves a
    null handle otherwise. *)
Definition Fence_new : ST vk_state Z := λ s,
  let '(s', r) := vkCreateFence s in
  _ ← tz_assert (bool_decide (is_Some r));
  Ok (default 0%Z r, s').

Definition Semaphore_new : ST vk_state Z := λ s,
  let '(s', r) := vkCreateSemaphore s in
  _ ← tz_assert (bool_decide (is_Some r));
  Ok (default 0%Z r, s').

Definition Fence_wait_for (f : Z) : ST vk_state unit := vk_call (λ s, vkWaitForFences s f).

(** [Fence::signal] resets the fence. *)
Definition Fence_signal (f : Z) : ST vk_state unit := vk_call (λ s, vkResetFences s f).

(** The destructor of a fence that is not null. *)
Definition Fence_destroy (f : Z) : ST vk_state unit :=
  if (f =? 0)%Z then mret tt else vk_call (λ s, vkDestroyFence s f).

Definition Fence_wait_then_signal (f : Z) : ST vk_state unit :=
  _ ← Fence_wait_for f; Fence_signal f.

Definition Submit_call (sub : Submit) (f : Z) : ST vk_state unit :=
  vk_call (λ s, vkQueueSubmit s sub (Some f)).

Definition Submit_call_unfenced (sub : Submit) : ST vk_state unit :=
  vk_call (λ s, vkQueueSubmit s sub None).

Definition reuse_command_buffer (c : Z) : ST vk_state unit := λ s,
  match vkReuseCommandBuffer s c with Ok _ => Ok (tt, s) | Fault e => Fault e end.

Definition Present_call (p : Present) : ST vk_state unit := λ s,
  let '(s', ok) := vkQueuePresentKHR s p in
  _ ← tz_assert ok; Ok (tt, s').

(** [Swapchain::acquire_next_image_index]. *)
Inductive AcquireResponseType := Fine | ErrorSwapchainOutOfDate | ErrorUnknown.

Definition acquire_next_image_index (sem : Z) : ST vk_state (option nat * AcquireResponseType) := λ s,
  let '(s', code) := vkAcquireNextImageKHR s sem in
  Ok (match code with
      | VK_SUCCESS i => (Some i, Fine)
      | VK_ERROR_OUT_OF_DATE_KHR => (None, ErrorSwapchainOutOfDate)
      | VK_OTHER => (None, ErrorUnknown)
      end, s').

(** ** FrameAdmin *)

(** [image_index_at_frame] holds [numeric_limits<size_t>::max()] where nothing
    was rendered; [images_in_flight] points at elements of [in_flight_fences]. *)
Record FrameAdmin := mkFrameAdmin {
  frame_depth : nat;
  image_index_at_frame : list (option nat);
  frame_counter : nat;
  cur_image_index : nat;
  image_available_semaphores : list Z;
  render_finish_semaphores : list Z;
  in_flight_fences : list Z;
  images_in_flight : list (option nat);
  regenerate_function : option (ST vk_state unit) }.

Definition new_frame_objects (_ : nat) (st : list Z * list Z * list Z) : ST vk_state (list Z * list Z * list Z) :=
  let '(avail, finish, fences) := st in
  a ← Semaphore_new; r ← Semaphore_new; f ← Fence_new;
  mret (avail ++ [a], finish ++ [r], fences ++ [f]).

Definition FrameAdmin_new (depth : nat) : ST vk_state FrameAdmin :=
  '(avail, finish, fences) ← st_fold new_frame_objects (seq 0 depth) ([], [], []);
  mret (mkFrameAdmin depth (replicate depth None) 0 0 avail finish fences [] None).

Definition set_regeneration_function (a : FrameAdmin) (f : ST vk_state unit) : FrameAdmin :=
  mkFrameAdmin (frame_depth a) (image_index_at_frame a) (frame_counter a) (cur_image_index a)
    (image_available_semaphores a) (render_finish_semaphores a) (in_flight_fences a)
    (images_in_flight a) (Some f).

(** [images_in_flight.resize(n, nullptr)] when it is still empty. *)
Definition size_images_in_flight (n : nat) (l : list (option nat)) : list (option nat) :=
  match l with [] => replicate n None | _ => l end.

(** Waiting for the fence an image was last rendered with. *)
Definition wait_image (a : FrameAdmin) (in_flight : list (option nat)) (k : nat) : ST vk_state unit :=
  fp ← lift (at_index in_flight k);
  match fp with
  | Some g => fence ← lift (at_index (in_flight_fences a) g); Fence_wait_for fence
  | None => mret tt
  end.

(** Integer remainder by zero is undefined. *)
Definition next_frame (i depth : nat) : res nat :=
  if depth =? 0 then Fault Divide else Ok ((i + 1) `mod` depth).

Definition render_frame (views : nat) (command_pool : list Z) (stages : list WaitStage) (a : FrameAdmin)
    : ST vk_state FrameAdmin :=
  let in_flight := size_images_in_flight views (images_in_flight a) in
  let i := frame_counter a in
  fence ← lift (at_index (in_flight_fences a) i);
  _ ← Fence_wait_for fence;
  avail ← lift (at_index (image_available_semaphores a) i);
  '(index, response) ← acquire_next_image_index avail;
  _ ← match index with
      | Some _ => mret tt
      | None =>
          match response with
          | ErrorSwapchainOutOfDate =>
              match regenerate_function a with Some f => f | None => lift tz_error end
          | _ => lift tz_error
          end
      end;
  cur ← lift (of_option BadOptional index);
  _ ← wait_image a in_flight cur;
  in_flight ← lift (set_index in_flight cur (Some i));
  at_frame ← lift (set_index (image_index_at_frame a) cur (Some i));
  cmd ← lift (at_index command_pool cur);
  finish ← lift (at_index (render_finish_semaphores a) i);
  let submit := Submit_new [cmd] [avail] stages [finish] in
  _ ← Fence_signal fence;
  _ ← Submit_call submit fence;
  _ ← Present_call (Present_new cur [finish]);
  next ← lift (next_frame i (frame_depth a));
  mret (mkFrameAdmin (frame_depth a) at_frame next cur (image_available_semaphores a)
          (render_finish_semaphores a) (in_flight_fences a) in_flight (regenerate_function a)).

Definition render_frame_headless (command_pool : list Z) (stages : list WaitStage) (a : FrameAdmin)
    : ST vk_state FrameAdmin :=
  let in_flight := size_images_in_flight (frame_depth a) (images_in_flight a) in
  let cur := frame_counter a in
  let i := frame_counter a in
  _ ← wait_image a in_flight cur;
  in_flight ← lift (set_index in_flight cur (Some i));
  cmd ← lift (at_index command_pool cur);
  let submit := Submit_new [cmd] [] stages [] in
  fence ← lift (at_index (in_flight_fences a) i);
  _ ← Fence_signal fence;
  _ ← Submit_call submit fence;
  next ← lift (next_frame i (frame_depth a));
  mret (mkFrameAdmin (frame_depth a) (image_index_at_frame a) next cur (image_available_semaphores a)
          (render_finish_semaphores a) (in_flight_fences a) in_flight (regenerate_function a)).

Definition get_image_index (a : FrameAdmin) : nat := cur_image_index a.

(** [FrameAdmin::wait_for]. *)
Definition wait_for (a : FrameAdmin) (cmd_buf_id : nat) : ST vk_state unit :=
  image_index ← lift (at_index (image_index_at_frame a) cmd_buf_id);
  match image_index with
  | None => mret tt
  | Some i => fence ← lift (at_index (in_flight_fences a) i); Fence_wait_for fence
  end.

End Calls.

(** ** Frames: the invariant *)

Section Frames.
Context `{BC : BuildConfig} `{V : Vk} {VS : VkSpec}.

(** The command buffers of [pool] belong to the swapchain images by position.
    [fi_ready]: no fence of the admin is ever waited for in vain.  [fi_tracked]:
    a command buffer the device still uses is tracked, with its fence, by both
    tables of the admin ([w]: frames of a window; headless frames fill
    [images_in_flight] only, each with the fence of the same position). *)
Record frame_inv (w : bool) (views : nat) (pool : list Z) (a : FrameAdmin) (s : vk_state) : Prop := {
  fi_counter : frame_counter a < frame_depth a;
  fi_fences : length (in_flight_fences a) = frame_depth a;
  fi_avail : length (image_available_semaphores a) = frame_depth a;
  fi_finish : length (render_finish_semaphores a) = frame_depth a;
  fi_frames : length (image_index_at_frame a) = frame_depth a;
  fi_in_flight : length (size_images_in_flight views (images_in_flight a)) = views;
  fi_pointers : ∀ k g, images_in_flight a !! k = Some (Some g) → g < frame_depth a;
  fi_frame_values : ∀ k g, image_index_at_frame a !! k = Some (Some g) → g < frame_depth a;
  fi_live : ∀ f, f ∈ in_flight_fences a → f ∈ fences s;
  fi_nodup : NoDup (in_flight_fences a);
  fi_ready : ∀ f, f ∈ in_flight_fences a → signalled s f = true ∨ ∃ c, (f, c) ∈ pending s;
  fi_tracked : ∀ f c k, (f, c) ∈ pending s → pool !! k = Some c → k < views →
    ∃ g, images_in_flight a !! k = Some (Some g) ∧ in_flight_fences a !! g = Some f ∧
         if w then image_index_at_frame a !! k = Some (Some g) else g = k;
  fi_owned : ∀ f c, (f, c) ∈ pending s → f ∈ in_flight_fences a → ∃ k, pool !! k = Some c ∧ k < views;
  fi_images : w = true → images s = views }.

Lemma frame_inv_progress w views pool a s s' : frame_inv w views pool a s → progress s s' → frame_inv w views pool a s'.
Proof.
  intros [] (Hf & Hi & Hp & Hs & Hr). split; try done.
  - intros f Hin. rewrite Hf. auto.
  - intros f Hin. destruct (fi_ready0 f Hin) as [Hsig|[c Hc]]; [auto|].
    destruct (Hr f c Hc); eauto.
  - intros f c k Hc. eauto.
  - intros f c Hc. eauto.
  - intros. rewrite Hi. auto.
Qed.

Lemma progress_refl s : progress s s.
Proof. split_and!; auto. Qed.

(** Waiting for a fence of the admin. *)
Lemma wait_inv w views pool a s i f : frame_inv w views pool a s → in_flight_fences a !! i = Some f →
  ∃ s', Fence_wait_for f s = Ok (tt, s') ∧ frame_inv w views pool a s' ∧ (∀ c, (f, c) ∉ pending s') ∧
    ∀ p, p ∈ pending s' → p ∈ pending s.
Proof.
  intros Hi Hf. apply list_elem_of_lookup_2 in Hf.
  destruct (wait_spec s f) as (s' & E & Hp & _ & Hn).
  - by apply (fi_live _ _ _ _ _ Hi).
  - by apply (fi_ready _ _ _ _ _ Hi).
  - exists s'. unfold Fence_wait_for, vk_call. rewrite E. split; [done|].
    split; [by eapply frame_inv_progress|]. split; [done|apply Hp].
Qed.

Lemma size_lookup views l k g :
  size_images_in_flight views l !! k = Some (Some g) → l !! k = Some (Some g).
Proof.
  destruct l; [|done]. simpl. intros H. apply lookup_replicate in H as [? ?]. done.
Qed.

Lemma size_nonempty views l : l ≠ [] → size_images_in_flight views l = l.
Proof. by destruct l. Qed.

(** Waiting for an image: afterwards its command buffer is free. *)
Lemma wait_image_inv w views pool a s k c :
  frame_inv w views pool a s → k < views → pool !! k = Some c →
  ∃ s', wait_image a (size_images_in_flight views (images_in_flight a)) k s = Ok (tt, s') ∧
    frame_inv w views pool a s' ∧ (∀ f, (f, c) ∉ pending s') ∧
    ∀ p, p ∈ pending s' → p ∈ pending s.
Proof.
  intros Hi Hk Hc. unfold wait_image.
  destruct (lookup_lt_is_Some_2 (size_images_in_flight views (images_in_flight a)) k) as [fp Hfp];
    [by rewrite (fi_in_flight _ _ _ _ _ Hi)|].
  rewrite (at_index_Some _ _ _ Hfp), lift_bind. destruct fp as [g|].
  - apply size_lookup in Hfp. pose proof (fi_pointers _ _ _ _ _ Hi _ _ Hfp) as Hg.
    destruct (lookup_lt_is_Some_2 (in_flight_fences a) g) as [f Hf]; [by rewrite (fi_fences _ _ _ _ _ Hi)|].
    rewrite (at_index_Some _ _ _ Hf), lift_bind.
    destruct (wait_spec s f) as (s' & E & Hp & _ & Hn).
    { apply (fi_live _ _ _ _ _ Hi). by eapply list_elem_of_lookup_2. }
    { apply (fi_ready _ _ _ _ _ Hi). by eapply list_elem_of_lookup_2. }
    exists s'. unfold Fence_wait_for, vk_call. rewrite E. split; [done|].
    assert (Hi' : frame_inv w views pool a s') by (by eapply frame_inv_progress). split; [done|]. split.
    + intros f' Hp'. destruct (fi_tracked _ _ _ _ _ Hi' f' c k Hp' Hc Hk) as (g' & Hg' & Hf' & _).
      rewrite Hfp in Hg'. injection Hg' as <-. rewrite Hf in Hf'. injection Hf' as <-. by apply (Hn c).
    + apply Hp.
  - exists s. split; [done|]. split; [done|]. split; [|done].
    intros f' Hp'. destruct (fi_tracked _ _ _ _ _ Hi f' c k Hp' Hc Hk) as (g' & Hg' & _).
    destruct (images_in_flight a) as [|x l] eqn:El; [by rewrite lookup_nil in Hg'|].
    simpl in Hfp. rewrite Hfp in Hg'. done.
Qed.

(** Resetting fence [i] and submitting the free command buffer [c] of image [k]. *)
Lemma submit_cycle w views pool a s i k f c sub :
  frame_inv w views pool a s → in_flight_fences a !! i = Some f → pool !! k = Some c → k < views →
  NoDup pool → k < frame_depth a → (w = false → i = k) → command_buffer_natives sub = [c] →
  (∀ c', (f, c') ∉ pending s) → (∀ g, (g, c) ∉ pending s) →
  ∃ s1 s', Fence_signal f s = Ok (tt, s1) ∧ Submit_call sub f s1 = Ok (tt, s') ∧
    (∀ g x, (g, x) ∈ pending s' → (g, x) ∈ pending s ∨ g = f) ∧
    ∀ next cur, next < frame_depth a →
      frame_inv w views pool (mkFrameAdmin (frame_depth a) (if w then <[k := Some i]> (image_index_at_frame a) else image_index_at_frame a) next cur
        (image_available_semaphores a) (render_finish_semaphores a) (in_flight_fences a)
        (<[k := Some i]> (size_images_in_flight views (images_in_flight a))) (regenerate_function a)) s'.
Proof.
  intros Hi Hf Hc Hk Hnd Hkd Hw Hsub Hnf Hnc.
  assert (Hlive : f ∈ fences s) by (apply (fi_live _ _ _ _ _ Hi); by eapply list_elem_of_lookup_2).
  destruct (reset_spec s f Hlive Hnf) as (s1 & E1 & Hf1 & Hi1 & Hs1 & Hk1 & Hp1 & Hr1).
  destruct (submit_spec s1 sub f) as (s2 & E2 & Hf2 & Hi2 & Hs2 & Hp2 & Hr2).
  { by rewrite Hf1. } { done. } { intros c' Hc'. by apply (Hnf c'), Hp1. }
  { intros g c'. rewrite Hsub. intros ->%list_elem_of_singleton Hg. by apply (Hnc g), Hp1. }
  exists s1, s2. unfold Fence_signal, Submit_call, vk_call. rewrite E1, E2. split; [done|]. split; [done|].
  split; [intros g x Hg; destruct (Hp2 g x Hg) as [?%Hp1|[-> _]]; auto|].
  assert (Hid : i < frame_depth a).
  { rewrite <- (fi_fences _ _ _ _ _ Hi). by eapply lookup_lt_Some. }
  assert (Hfl : length (size_images_in_flight views (images_in_flight a)) = views)
    by apply (fi_in_flight _ _ _ _ _ Hi).
  intros next cur Hnext. destruct Hi. split; cbn; try done.
  - destruct w; by rewrite ?length_insert.
  - rewrite size_nonempty, length_insert; [done|]. intros E%(f_equal length).
    rewrite length_insert, Hfl in E. simpl in E. lia.
  - intros j g Hj. destruct (decide (j = k)) as [->|Hne].
    + rewrite list_lookup_insert_eq in Hj by lia. congruence.
    + rewrite list_lookup_insert_ne in Hj by done. apply size_lookup in Hj. eauto.
  - intros j g Hj. destruct (decide (j = k)) as [->|Hne].
    + destruct w; [|eauto]. rewrite list_lookup_insert_eq in Hj by lia. congruence.
    + destruct w; [|eauto]. rewrite list_lookup_insert_ne in Hj by done. eauto.
  - intros g Hg. rewrite Hf2, Hf1. auto.
  - intros g Hg. destruct (decide (g = f)) as [->|Hne].
    + destruct (Hr2 f c) as [?|?]; [rewrite Hsub; set_solver|eauto|auto].
    + destruct (fi_ready0 g Hg) as [Hsig|[c' Hc']].
      * left. apply Hs2, Hk1; done.
      * destruct (Hr1 g c' Hne Hc') as [H1|H1]; [|left; auto].
        destruct (Hr2 g c') as [?|?]; [auto|eauto|auto].
  - intros g c' j Hg Hj Hjv. destruct (Hp2 g c' Hg) as [H1|[-> H1]].
    + destruct (decide (j = k)) as [->|Hne].
      * rewrite Hc in Hj. injection Hj as <-. exfalso; by apply (Hnc g), Hp1.
      * destruct (fi_tracked0 g c' j) as (g' & A & B & C); [by apply Hp1|done|done|].
        exists g'. rewrite list_lookup_insert_ne by done. split_and!; [|done|].
        { destruct (images_in_flight a); [by rewrite lookup_nil in A|done]. }
        destruct w; [|done]. by rewrite list_lookup_insert_ne.
    + rewrite Hsub in H1. apply list_elem_of_singleton in H1. subst c'.
      assert (j = k) as -> by (by eapply NoDup_lookup). exists i.
      rewrite list_lookup_insert_eq by lia. split_and!; [done|done|].
      destruct w; [|auto]. by rewrite list_lookup_insert_eq by lia.
  - intros g c' Hg Hin. destruct (Hp2 g c' Hg) as [H1|[-> H1]]; [eauto|].
    rewrite Hsub in H1. apply list_elem_of_singleton in H1. subst c'. eauto.
  - intros. rewrite Hi2, Hi1. auto.
Qed.

(** The faults a frame is allowed to end in: a trap of a debug build, or the
    exception of [optional::value] when no image could be acquired. *)
Definition acquire_fault (e : fault) : Prop := e = AssertTrap ∨ e = BadOptional.

(** The regeneration function does not leave the engine's defined behaviour. *)
Definition regeneration_ok (a : FrameAdmin) : Prop :=
  ∀ f s e, regenerate_function a = Some f → f s = Fault e → acquire_fault e.

Lemma tz_error_fault e : tz_error = Fault e → acquire_fault e.
Proof. unfold tz_error, acquire_fault. destruct TZ_DEBUG; naive_solver. Qed.

(** Acquisition failed: whatever was done about it, the frame ends in a fault. *)
Lemma no_image_faults {A} (g : ST vk_state unit) (k : nat → ST vk_state A) (P : A * vk_state → Prop) s :
  (∀ e, g s = Fault e → acquire_fault e) →
  match (g ≫= λ _, lift (of_option BadOptional None) ≫= k) s with
  | Ok r => P r
  | Fault e => acquire_fault e
  end.
Proof.
  intros Hg. unfold mbind, ST_bind. destruct (g s) as [[[] s']|e]; [by right|auto].
Qed.

Lemma lift_error_fault s e : lift tz_error s = Fault (A := unit * vk_state) e → acquire_fault e.
Proof. unfold lift. destruct tz_error eqn:E; intros; simplify_eq. by apply tz_error_fault. Qed.

(** What a finished frame leaves behind: the image's command buffer is on the
    device under the fence of the frame that was current, or done. *)
Definition frame_done (w : bool) (views : nat) (pool : list Z) (a : FrameAdmin) (s : vk_state) (a' : FrameAdmin)
    (s' : vk_state) : Prop :=
  frame_inv w views pool a' s' ∧ frame_depth a' = frame_depth a ∧
  regenerate_function a' = regenerate_function a ∧ cur_image_index a' < views ∧
  in_flight_fences a' = in_flight_fences a ∧
  (∀ f c, (f, c) ∈ pending s' → (f, c) ∈ pending s ∨ f ∈ in_flight_fences a) ∧
  frame_counter a' = (frame_counter a + 1) `mod` frame_depth a.

Lemma render_frame_outcome views pool stages a s :
  frame_inv true views pool a s → views ≤ frame_depth a → views ≤ length pool → NoDup pool → regeneration_ok a →
  match render_frame views pool stages a s with
  | Ok (a', s') => frame_done true views pool a s a' s'
  | Fault e => acquire_fault e
  end.
Proof.
  intros Hi Hvd Hvp Hnd Hreg. pose proof (fi_counter _ _ _ _ _ Hi) as Hcnt.
  unfold render_frame.
  destruct (lookup_lt_is_Some_2 (in_flight_fences a) (frame_counter a)) as [f Hf]; [by rewrite (fi_fences _ _ _ _ _ Hi)|].
  destruct (lookup_lt_is_Some_2 (image_available_semaphores a) (frame_counter a)) as [av Hav]; [by rewrite (fi_avail _ _ _ _ _ Hi)|].
  destruct (lookup_lt_is_Some_2 (render_finish_semaphores a) (frame_counter a)) as [fin Hfin]; [by rewrite (fi_finish _ _ _ _ _ Hi)|].
  rewrite (at_index_Some _ _ _ Hf), lift_bind.
  destruct (wait_inv _ _ _ _ _ _ _ Hi Hf) as (s1 & E1 & Hi1 & Hn1 & Hsub1). erewrite st_bind_Ok by exact E1.
  rewrite (at_index_Some _ _ _ Hav), lift_bind.
  unfold acquire_next_image_index at 1, mbind at 1, ST_bind at 1.
  destruct (vkAcquireNextImageKHR s1 av) as [s2 code] eqn:Eacq.
  destruct (acquire_spec _ _ _ _ Eacq) as [Hp2 Himg].
  destruct code as [cur| |].
  2: { apply (no_image_faults _ _ (λ '(a', s'), frame_done true views pool a s a' s')). intros e.
       destruct (regenerate_function a) eqn:Er; [by apply Hreg|apply lift_error_fault]. }
  2: { apply (no_image_faults _ _ (λ '(a', s'), frame_done true views pool a s a' s')), lift_error_fault. }
  specialize (Himg cur eq_refl). rewrite (fi_images _ _ _ _ _ Hi1 eq_refl) in Himg.
  rewrite (st_bind_Ok _ _ s2 tt s2) by done. change (of_option BadOptional (Some cur)) with (Ok cur). rewrite lift_bind.
  destruct (lookup_lt_is_Some_2 pool cur) as [c Hc]; [lia|].
  assert (Hi2 : frame_inv true views pool a s2) by by eapply frame_inv_progress.
  destruct (wait_image_inv _ _ _ _ _ cur c Hi2 Himg Hc) as (s3 & E3 & Hi3 & Hnc & Hmono).
  erewrite st_bind_Ok by exact E3.
  rewrite (set_index_lt (size_images_in_flight views (images_in_flight a))), lift_bind
    by (by rewrite (fi_in_flight _ _ _ _ _ Hi)).
  rewrite (set_index_lt (image_index_at_frame a)), lift_bind by (rewrite (fi_frames _ _ _ _ _ Hi); lia).
  rewrite (at_index_Some _ _ _ Hc), lift_bind, (at_index_Some _ _ _ Hfin), lift_bind.
  destruct (submit_cycle true views pool a s3 (frame_counter a) cur f c
              (Submit_new [c] [av] stages [fin])) as (s4 & s5 & E4 & E5 & Hsub5 & Hi5); try done; [lia| |].
  { intros c' Hc'%Hmono. by apply (Hn1 c'), Hp2. }
  erewrite st_bind_Ok by exact E4. erewrite st_bind_Ok by exact E5.
  unfold Present_call at 1, mbind at 1, ST_bind at 1.
  pose proof (present_spec s5 (mkPresent cur [fin])) as Hp6.
  destruct (vkQueuePresentKHR s5 _) as [s6 ok] eqn:E6. simpl in Hp6.
  destruct (tz_assert ok) as [[]|e] eqn:Ea; simpl.
  2: { unfold tz_assert in Ea. left. destruct TZ_DEBUG, ok; naive_solver. }
  unfold next_frame. rewrite (proj2 (Nat.eqb_neq _ _)) by lia. simpl.
  split_and!; try done.
  - eapply frame_inv_progress; [apply Hi5|done]. apply Nat.mod_upper_bound. lia.
  - intros g x Hg. destruct (Hsub5 g x) as [Hx| ->]; [by apply Hp6| |right; by eapply list_elem_of_lookup_2].
    left. apply Hsub1. by apply Hp2, Hmono.
Qed.

(** Headless frames always succeed: the frame's own command buffer is waited
    for before its fence is reset. *)
Lemma headless_frame_outcome pool stages a s :
  frame_inv false (frame_depth a) pool a s → frame_depth a ≤ length pool → NoDup pool →
  ∃ a' s', render_frame_headless pool stages a s = Ok (a', s') ∧ frame_done false (frame_depth a) pool a s a' s'.
Proof.
  intros Hi Hvp Hnd. pose proof (fi_counter _ _ _ _ _ Hi) as Hcnt. unfold render_frame_headless.
  destruct (lookup_lt_is_Some_2 (in_flight_fences a) (frame_counter a)) as [f Hf]; [by rewrite (fi_fences _ _ _ _ _ Hi)|].
  destruct (lookup_lt_is_Some_2 pool (frame_counter a)) as [c Hc]; [lia|].
  destruct (wait_image_inv _ _ _ _ _ (frame_counter a) c Hi Hcnt Hc) as (s1 & E1 & Hi1 & Hnc & Hsub1).
  erewrite st_bind_Ok by exact E1.
  rewrite (set_index_lt (size_images_in_flight _ _)), lift_bind by (by rewrite (fi_in_flight _ _ _ _ _ Hi)).
  rewrite (at_index_Some _ _ _ Hc), lift_bind, (at_index_Some _ _ _ Hf), lift_bind.
  destruct (submit_cycle false (frame_depth a) pool a s1 (frame_counter a) (frame_counter a) f c
              (Submit_new [c] [] stages [])) as (s2 & s3 & E2 & E3 & Hsub3 & Hi3); try done.
  { intros c' Hp. destruct (fi_owned _ _ _ _ _ Hi1 f c' Hp) as (k & Hk & Hkv); [by eapply list_elem_of_lookup_2|].
    destruct (fi_tracked _ _ _ _ _ Hi1 f c' k Hp Hk Hkv) as (g & _ & Hg & ->).
    assert (k = frame_counter a) as -> by (eapply NoDup_lookup; [apply (fi_nodup _ _ _ _ _ Hi)|done|done]).
    simplify_eq. by apply (Hnc f). }
  erewrite st_bind_Ok by exact E2. erewrite st_bind_Ok by exact E3.
  unfold next_frame. rewrite (proj2 (Nat.eqb_neq _ _)) by lia. rewrite lift_bind.
  eexists _, _. split; [reflexivity|]. split_and!; try done.
  - apply Hi3, Nat.mod_upper_bound. lia.
  - intros g x Hg. destruct (Hsub3 g x Hg) as [Hx| ->]; [auto|right; by eapply list_elem_of_lookup_2].
Qed.

(** ** Waiting for a command buffer *)

Lemma wait_for_outcome views pool a s k c :
  frame_inv true views pool a s → k < views → k < frame_depth a → pool !! k = Some c →
  ∃ s', wait_for a k s = Ok (tt, s') ∧ frame_inv true views pool a s' ∧ (∀ f, (f, c) ∉ pending s') ∧
    ∀ p, p ∈ pending s' → p ∈ pending s.
Proof.
  intros Hi Hk Hkd Hc. unfold wait_for.
  destruct (lookup_lt_is_Some_2 (image_index_at_frame a) k) as [o Ho]; [by rewrite (fi_frames _ _ _ _ _ Hi)|].
  rewrite (at_index_Some _ _ _ Ho), lift_bind.
  assert (Htr : ∀ s', frame_inv true views pool a s' → ∀ f, (f, c) ∈ pending s' →
    ∃ g, o = Some g ∧ in_flight_fences a !! g = Some f).
  { intros s' Hi' f Hp. destruct (fi_tracked _ _ _ _ _ Hi' f c k Hp Hc Hk) as (g & _ & Hg & Hg').
    exists g. split; congruence. }
  destruct o as [g|].
  - destruct (decide (g < length (in_flight_fences a))) as [Hg|Hg].
    + apply lookup_lt_is_Some_2 in Hg as [f Hf]. rewrite (at_index_Some _ _ _ Hf), lift_bind.
      destruct (wait_inv _ _ _ _ _ _ _ Hi Hf) as (s' & E & Hi' & Hn & Hsub). exists s'. split_and!; try done.
      intros f' Hp. destruct (Htr s' Hi' f' Hp) as (g' & [= <-] & Hf'). simplify_eq. by apply (Hn c).
    + exfalso. apply Hg. rewrite (fi_fences _ _ _ _ _ Hi).
      by eapply fi_frame_values.
  - exists s. split_and!; try done. intros f Hp. by destruct (Htr s Hi f Hp) as (? & ? & _).
Qed.

(** ** Construction *)

Definition frame_objects_ok (s : vk_state) (done_ : list nat) (st : list Z * list Z * list Z) (s' : vk_state) : Prop :=
  let '(avail, finish, fs) := st in
  length avail = length done_ ∧ length finish = length done_ ∧ length fs = length done_ ∧
  NoDup fs ∧ (∀ f, f ∈ fs → f ∈ fences s' ∧ signalled s' f = true ∧ ∀ c, (f, c) ∉ pending s') ∧
  (∀ p, p ∈ pending s' → p ∈ pending s) ∧ images s' = images s.

Lemma new_frame_objects_ok s0 x done_ st s st' s' :
  frame_objects_ok s0 done_ st s → (∀ s, is_Some (snd (vkCreateFence s))) →
  new_frame_objects x st s = Ok (st', s') → frame_objects_ok s0 (done_ ++ [x]) st' s'.
Proof.
  destruct st as [[avail finish] fs]. intros (La & Lr & Lf & Hnd & Hin & Hp & Him) Hcf E.
  unfold new_frame_objects in E.
  apply st_bind_inv in E as (a & s1 & E1 & E). apply st_bind_inv in E as (r & s2 & E2 & E).
  apply st_bind_inv in E as (f & s3 & E3 & E). injection E as <- <-.
  assert (Hsem : ∀ s z s', Semaphore_new s = Ok (z, s') → progress s s').
  { intros t z t'. unfold Semaphore_new. pose proof (create_semaphore_spec t).
    destruct (vkCreateSemaphore t). destruct tz_assert; [|done]. by intros [= <- <-]. }
  apply Hsem in E1 as (F1 & I1 & P1 & S1 & _). apply Hsem in E2 as (F2 & I2 & P2 & S2 & _).
  unfold Fence_new in E3. destruct (Hcf s2) as [f' Hf'].
  destruct (vkCreateFence s2) as [s4 o] eqn:Ec. simpl in Hf'. subst o.
  destruct (create_fence_spec _ _ _ Ec) as (Hnew & Hf3 & Hs3 & I3 & Hk3 & P3 & N3 & _).
  simpl in E3. destruct tz_assert; [|done]. injection E3 as <- <-.
  split_and!; rewrite ?length_app; simpl; try lia.
  - apply NoDup_app. split_and!; [done| |apply NoDup_singleton].
    intros g Hg ->%list_elem_of_singleton. apply Hnew. rewrite F2, F1. by apply Hin.
  - intros g [Hg| ->%list_elem_of_singleton]%elem_of_app; [|rewrite Hf3; split_and!; [set_solver|done|done]].
    destruct (Hin g Hg) as (Hg1 & Hg2 & Hg3). rewrite Hf3, F2, F1. split_and!; [set_solver| |naive_solver].
    destruct (decide (g = f')) as [->|Hne]; [done|]. apply Hk3; auto.
  - auto.
Qed.

Lemma FrameAdmin_new_inv w views pool depth s a s' :
  FrameAdmin_new depth s = Ok (a, s') → 0 < depth → (∀ s, is_Some (snd (vkCreateFence s))) →
  (w = true → images s = views) → (∀ f c, c ∈ pool → (f, c) ∉ pending s) →
  frame_inv w views pool a s' ∧ frame_depth a = depth ∧ regenerate_function a = None.
Proof.
  intros E Hd Hcf Him Hfree. apply st_bind_inv in E as ([[avail finish] fs] & s1 & E & E').
  injection E' as <- <-.
  apply (st_fold_Ok_ind (frame_objects_ok s)) in E.
  - destruct E as (La & Lr & Lf & Hnd & Hin & Hp & Hi). rewrite length_seq in La, Lr, Lf.
    split; [|done]. split; simpl; try done.
    + by rewrite length_replicate.
    + by rewrite length_replicate.
    + intros k g Hk. by apply lookup_replicate in Hk as [? _].
    + intros f Hf. by apply Hin.
    + intros f Hf. left. by apply Hin.
    + intros f c k Hc Hk _. exfalso. eapply Hfree; [by eapply list_elem_of_lookup_2|by apply Hp].
    + intros f c Hc Hf. exfalso. destruct (Hin f Hf) as (_ & _ & Hn). by apply (Hn c).
    + intros. rewrite Hi. auto.
  - split_and!; try done. apply NoDup_nil_2. set_solver.
  - intros. by eapply new_frame_objects_ok.
Qed.

(** ** Runs

    What a renderer does with its [FrameAdmin]: it draws frames, and waits for
    a command buffer before it records it again. *)

Inductive frame_action := DrawFrame | WaitFor (cmd_buf_id : nat).

Definition do_action (views : nat) (pool : list Z) (stages : list WaitStage) (x : frame_action) (a : FrameAdmin)
    : ST vk_state FrameAdmin :=
  match x with
  | DrawFrame => render_frame views pool stages a
  | WaitFor k => _ ← wait_for a k; mret a
  end.

Definition run_frames (views : nat) (pool : list Z) (stages : list WaitStage) (l : list frame_action)
    (a : FrameAdmin) : ST vk_state FrameAdmin :=
  st_fold (do_action views pool stages) l a.

Definition action_ok (views : nat) (x : frame_action) : Prop :=
  match x with DrawFrame => True | WaitFor k => k < views end.

Lemma run_frames_outcome views pool stages l a s :
  frame_inv true views pool a s → views ≤ frame_depth a → views ≤ length pool → NoDup pool →
  regeneration_ok a → Forall (action_ok views) l →
  match run_frames views pool stages l a s with
  | Ok (a', s') => frame_inv true views pool a' s' ∧ frame_depth a' = frame_depth a
  | Fault e => acquire_fault e
  end.
Proof.
  intros Hi Hvd Hvp Hnd Hr Hl. revert a s Hi Hvd Hr.
  induction Hl as [|x l Hx Hl IH]; intros a s Hi Hvd Hr; [done|].
  unfold run_frames. simpl. unfold mbind, ST_bind. destruct x as [|k].
  - pose proof (render_frame_outcome views pool stages a s Hi Hvd Hvp Hnd Hr) as H. simpl.
    destruct (render_frame views pool stages a s) as [[a' s']|]; [|done].
    destruct H as (Hi' & Hd & Hreg & _). specialize (IH a' s').
    rewrite Hd in IH. apply IH; [done|done|]. intros f. rewrite Hreg. apply Hr.
  - destruct (lookup_lt_is_Some_2 pool k) as [c Hc]; [simpl in Hx; lia|].
    destruct (wait_for_outcome views pool a s k c) as (s' & E & Hi' & _); [done|done|simpl in Hx; lia|done|].
    simpl. unfold mbind, ST_bind. rewrite E. by apply IH.
Qed.

Definition headless_frames (n : nat) (pool : list Z) (stages : list WaitStage) (a : FrameAdmin)
    : ST vk_state FrameAdmin :=
  st_fold (λ _, render_frame_headless pool stages) (seq 0 n) a.

Lemma headless_frames_outcome n pool stages a s :
  frame_inv false (frame_depth a) pool a s → frame_depth a ≤ length pool → NoDup pool →
  ∃ a' s', headless_frames n pool stages a s = Ok (a', s') ∧ frame_inv false (frame_depth a) pool a' s' ∧
    frame_depth a' = frame_depth a ∧ frame_counter a' = (frame_counter a + n) `mod` frame_depth a.
Proof.
  intros Hi Hp Hnd. pose proof (fi_counter _ _ _ _ _ Hi).
  destruct (st_fold_ind (λ (done_ : list nat) a' s', frame_inv false (frame_depth a) pool a' s' ∧
      frame_depth a' = frame_depth a ∧ frame_counter a' = (frame_counter a + length done_) `mod` frame_depth a)
    (λ _, render_frame_headless pool stages) (seq 0 n) a s) as (a' & s' & E & H1 & H2 & H3).
  - split_and!; try done. by rewrite Nat.add_0_r, Nat.mod_small.
  - intros done_ x rest a1 s1 _ (H1 & H2 & H3). rewrite <- H2 in H1, Hp.
    destruct (headless_frame_outcome pool stages a1 s1 H1 Hp Hnd) as (a2 & s2 & E & G1 & G2 & _ & _ & _ & _ & G3).
    exists a2, s2. split; [done|]. rewrite H2 in G1. split_and!; [done|congruence|].
    rewrite G3, H2, H3, length_app. simpl. by rewrite Nat.add_assoc, Nat.Div0.add_mod_idemp_l.
  - exists a', s'. rewrite length_seq in H3. done.
Qed.

End Frames.

(** ** A driver that meets the specification

    Work finishes when it is waited for; images are handed out in turn, unless
    the swapchain is out of date. *)

Record driver := mkDriver {
  d_fences : list Z; d_signalled : list Z; d_pending : list (Z * Z);
  d_images : nat; d_cursor : nat; d_stale : bool }.

Definition new_handle (l : list Z) : Z := (1 + foldr Z.max 0 l)%Z.

Lemma new_handle_fresh l : new_handle l ∉ l.
Proof.
  assert (H : ∀ z, z ∈ l → (z ≤ foldr Z.max 0 l)%Z).
  { induction l as [|x l IH]; intros z; [by rewrite elem_of_nil|].
    rewrite elem_of_cons. intros [->|Hz]; simpl; [lia|]. specialize (IH z Hz). lia. }
  intros Hin%H. unfold new_handle in Hin. lia.
Qed.

Definition fence_free (d : driver) (f : Z) : bool := bool_decide (f ∉ (d_pending d).*1).

#[export] Instance driver_vk : Vk := {|
  vk_state := driver;
  vkCreateFence d :=
    let f := new_handle (d_fences d ++ (d_pending d).*1) in
    (mkDriver (f :: d_fences d) (f :: d_signalled d) (d_pending d) (d_images d) (d_cursor d) (d_stale d), Some f);
  vkCreateSemaphore d := (d, Some 1%Z);
  vkWaitForFences d f :=
    if negb (bool_decide (f ∈ d_fences d)) || fence_free d f && bool_decide (f ∉ d_signalled d) then Fault Misuse
    else Ok (mkDriver (d_fences d) (f :: d_signalled d) (filter (λ p, p.1 ≠ f) (d_pending d))
               (d_images d) (d_cursor d) (d_stale d));
  vkResetFences d f :=
    if bool_decide (f ∈ d_fences d) && fence_free d f
    then Ok (mkDriver (d_fences d) (filter (λ g, g ≠ f) (d_signalled d)) (d_pending d)
               (d_images d) (d_cursor d) (d_stale d))
    else Fault Misuse;
  vkDestroyFence d f :=
    if bool_decide (f ∈ d_fences d) && fence_free d f
    then Ok (mkDriver (filter (λ g, g ≠ f) (d_fences d)) (d_signalled d) (d_pending d)
               (d_images d) (d_cursor d) (d_stale d))
    else Fault Misuse;
  vkQueueSubmit d sub o :=
    match o with
    | Some f =>
        if bool_decide (f ∈ d_fences d) && bool_decide (f ∉ d_signalled d) && fence_free d f &&
           bool_decide (Forall (λ c, c ∉ (d_pending d).*2) (command_buffer_natives sub))
        then Ok (mkDriver (d_fences d) (d_signalled d) (d_pending d ++ map (pair f) (command_buffer_natives sub))
                   (d_images d) (d_cursor d) (d_stale d))
        else Fault Misuse
    | None => Fault Misuse
    end;
  vkAcquireNextImageKHR d _ :=
    if d_stale d then (d, VK_ERROR_OUT_OF_DATE_KHR) else
    if d_images d =? 0 then (d, VK_OTHER) else
    (mkDriver (d_fences d) (d_signalled d) (d_pending d) (d_images d) (S (d_cursor d)) (d_stale d),
     VK_SUCCESS (d_cursor d `mod` d_images d));
  vkQueuePresentKHR d _ := (d, true);
  vkReuseCommandBuffer d c := if bool_decide (c ∈ (d_pending d).*2) then Fault Misuse else Ok tt
|}.

Lemma fence_free_spec d f : fence_free d f = true ↔ ∀ c, (f, c) ∉ d_pending d.
Proof.
  unfold fence_free. rewrite bool_decide_eq_true, list_elem_of_fmap. split.
  - intros H c Hc. apply H. by exists (f, c).
  - intros H ([? c] & -> & Hc). by apply (H c).
Qed.

#[export] Instance driver_vk_spec : VkSpec.
Proof.
  refine {| fences := d_fences; signalled d f := bool_decide (f ∈ d_signalled d);
            pending := d_pending; images := d_images |}; cbn.
  - intros d d' f [= <- <-]. cbn. pose proof (new_handle_fresh (d_fences d ++ (d_pending d).*1)) as Hf.
    set (n := new_handle _) in *. rewrite not_elem_of_app in Hf. destruct Hf as [Hf Hp].
    split_and!; try done.
    + apply bool_decide_eq_true. set_solver.
    + intros g Hg. rewrite !bool_decide_eq_true. set_solver.
    + intros c Hc. apply Hp, list_elem_of_fmap. by exists (n, c).
    + auto.
  - intros d. split_and!; auto.
  - intros d f Hf Hr. pose proof (bool_decide_eq_true_2 (f ∈ d_fences d) Hf) as Hf'. rewrite Hf'. simpl.
    destruct (fence_free d f && bool_decide (f ∉ d_signalled d)) eqn:E.
    { exfalso. apply andb_true_iff in E as [E1 E2]. rewrite fence_free_spec in E1.
      apply bool_decide_eq_true in E2. destruct Hr as [Hs|[c Hc]]; [|by apply (E1 c)].
      by apply bool_decide_eq_true in Hs. }
    eexists. split; [done|]. cbn. split_and!; try done.
    + intros p. rewrite list_elem_of_filter. naive_solver.
    + intros g. rewrite !bool_decide_eq_true. set_solver.
    + intros g c Hc. rewrite list_elem_of_filter, bool_decide_eq_true. simpl.
      destruct (decide (g = f)) as [->|]; [right; set_solver|auto].
    + apply bool_decide_eq_true. set_solver.
    + intros c. rewrite list_elem_of_filter. simpl. naive_solver.
  - intros d f Hf Hn. pose proof (bool_decide_eq_true_2 (f ∈ d_fences d) Hf) as Hf'. apply fence_free_spec in Hn as Hn'.
    rewrite Hf', Hn'. eexists. split; [done|]. cbn. split_and!; try done; auto.
    + apply bool_decide_eq_false. rewrite list_elem_of_filter. naive_solver.
    + intros g Hg. rewrite !bool_decide_eq_true, list_elem_of_filter. done.
  - intros d f Hf Hn. pose proof (bool_decide_eq_true_2 (f ∈ d_fences d) Hf) as Hf'. apply fence_free_spec in Hn as Hn'.
    rewrite Hf', Hn'. eexists. split; [done|]. cbn. split_and!; try done; auto.
    intros g Hg. rewrite list_elem_of_filter. done.
  - intros d sub f Hf Hs Hn Hc. pose proof (bool_decide_eq_true_2 (f ∈ d_fences d) Hf) as Hf'. apply fence_free_spec in Hn as Hn'.
    apply bool_decide_eq_false in Hs. rewrite Hf', Hn', (bool_decide_eq_true_2 _ Hs).
    rewrite bool_decide_eq_true_2.
    2: { apply Forall_forall. intros c Hin ([g c'] & -> & Hp)%list_elem_of_fmap. by apply (Hc g c'). }
    eexists. split; [done|]. cbn. split_and!; try done; auto.
    + intros g c. rewrite elem_of_app, list_elem_of_fmap. naive_solver.
    + intros g c. rewrite elem_of_app, list_elem_of_fmap. naive_solver.
  - intros d sem d' code E. destruct (d_stale d); [|destruct (Nat.eqb_spec (d_images d) 0)];
      injection E as <- <-; cbn; split_and!; auto; try done.
    intros i [= <-]. by apply Nat.mod_upper_bound.
  - intros d p. cbn. split_and!; auto.
  - intros d c H. rewrite bool_decide_eq_false_2; [done|].
    intros ([f ?] & -> & Hp)%list_elem_of_fmap. by apply (H f).
Defined.

(** ** Properties *)

Section Properties.
Context `{BC : BuildConfig} `{V : Vk} {VS : VkSpec}.

(** Nothing of [pool] is on the device, and fences can be created. *)
Definition fresh_device (pool : list Z) (s : vk_state) : Prop :=
  (∀ s, is_Some (snd (vkCreateFence s))) ∧ ∀ f c, c ∈ pool → (f, c) ∉ pending s.

(** C7: a [FrameAdmin] whose depth is at least the number of swapchain images
    never breaks the rules of the driver and never leaves its arrays, whatever
    sequence of frames and waits is run: every fence that is reset or submitted
    is free, every command buffer submitted is no longer in use.  A run ends
    early only when no image could be acquired (or a debug build traps); after
    it, [wait_for] of a command buffer returns with that buffer free. *)
Theorem frames_keep_the_rules views pool stages depth s a s1 regen acts :
  FrameAdmin_new depth s = Ok (a, s1) → 0 < depth → views ≤ depth → views ≤ length pool → NoDup pool →
  images s = views → fresh_device pool s → (∀ s e, regen s = Fault e → acquire_fault e) →
  Forall (action_ok views) acts →
  match run_frames views pool stages acts (set_regeneration_function a regen) s1 with
  | Ok (a', s') => ∀ k c, k < views → pool !! k = Some c →
      ∃ s'', wait_for a' k s' = Ok (tt, s'') ∧ ∀ f, (f, c) ∉ pending s''
  | Fault e => e = AssertTrap ∨ e = BadOptional
  end.
Proof.
  intros E Hd Hvd Hvp Hnd Him [Hcf Hfree] Hreg Hacts.
  destruct (FrameAdmin_new_inv true views pool depth s a s1) as (Hi & Hdep & _); try done.
  pose proof (run_frames_outcome views pool stages acts (set_regeneration_function a regen) s1) as H.
  assert (Hi' : frame_inv true views pool (set_regeneration_function a regen) s1) by (by destruct Hi; split).
  specialize (H Hi' ltac:(simpl; lia) Hvp Hnd).
  assert (Hr : regeneration_ok (set_regeneration_function a regen)).
  { intros f s' e [= <-]. apply Hreg. }
  specialize (H Hr Hacts). destruct run_frames as [[a' s']|]; [|done].
  destruct H as [Hi2 Hd2]. simpl in Hd2. intros k c Hk Hc.
  destruct (wait_for_outcome views pool a' s' k c) as (s'' & ? & _ & ? & _); [done|done|lia|done|eauto].
Qed.

(** Headless frames always succeed, however many are run, and cycle through
    the frames of the admin. *)
Theorem headless_frames_succeed pool stages depth s a s1 n :
  FrameAdmin_new depth s = Ok (a, s1) → 0 < depth → depth ≤ length pool → NoDup pool → fresh_device pool s →
  ∃ a' s', headless_frames n pool stages a s1 = Ok (a', s') ∧ frame_counter a' = n `mod` depth.
Proof.
  intros E Hd Hp Hnd [Hcf Hfree].
  destruct (FrameAdmin_new_inv false depth pool depth s a s1) as (Hi & Hdep & _); try done.
  rewrite <- Hdep in Hi, Hp.
  destruct (headless_frames_outcome n pool stages a s1 Hi Hp Hnd) as (a' & s' & E' & _ & _ & Hc).
  exists a', s'. split; [done|]. rewrite Hc, Hdep. f_equal.
  apply st_bind_inv in E as ([[? ?] ?] & ? & _ & [= <- _]). done.
Qed.

(** but headless frames are not entered in [image_index_at_frame], so
    [wait_for] returns at once after any number of them, without a call to the
    driver, although the command buffer may still be in use. *)
Theorem headless_wait_for_does_not_wait pool stages depth s a s1 n a' s' k w :
  FrameAdmin_new depth s = Ok (a, s1) → headless_frames n pool stages a s1 = Ok (a', s') → k < depth →
  wait_for a' k w = Ok (tt, w).
Proof.
  intros E E' Hk. apply st_bind_inv in E as ([[? ?] ?] & ? & _ & [= <- _]).
  apply (st_fold_Ok_ind (λ _ a' _, image_index_at_frame a' = replicate depth None)) in E'.
  - unfold wait_for. rewrite E', (at_index_Some _ _ None); [done|]. by apply lookup_replicate_2.
  - done.
  - clear. intros _ _ a s a' s' Ha E. unfold render_frame_headless in E.
    repeat (apply st_bind_inv in E as (? & ? & _ & E)). injection E as <- <-. done.
Qed.

(** the array [image_index_at_frame] is sized by the frame depth but indexed
    by the swapchain image: acquiring an image beyond the depth writes outside
    it. *)
Theorem image_beyond_depth_out_of_bounds views pool stages a s f av s1 s2 cur :
  frame_inv true views pool a s →
  in_flight_fences a !! frame_counter a = Some f → vkWaitForFences s f = Ok s1 →
  image_available_semaphores a !! frame_counter a = Some av →
  vkAcquireNextImageKHR s1 av = (s2, VK_SUCCESS cur) → views ≤ length pool →
  frame_depth a ≤ cur → render_frame views pool stages a s = Fault OutOfBounds.
Proof.
  intros Hi Hf Ew Hav Ea Hvp Hcur. unfold render_frame.
  assert (Hp1 : progress s s1).
  { apply list_elem_of_lookup_2 in Hf as Hin.
    destruct (wait_spec s f) as (s' & E & Hp & _); [by apply (fi_live _ _ _ _ _ Hi)|by apply (fi_ready _ _ _ _ _ Hi)|].
    rewrite Ew in E. by injection E as ->. }
  rewrite (at_index_Some _ _ _ Hf), lift_bind.
  rewrite (st_bind_Ok _ _ s tt s1) by (unfold Fence_wait_for, vk_call; by rewrite Ew).
  rewrite (at_index_Some _ _ _ Hav), lift_bind.
  unfold acquire_next_image_index at 1, mbind at 1, ST_bind at 1. rewrite Ea.
  destruct (acquire_spec _ _ _ _ Ea) as [Hp2 Himg]. specialize (Himg cur eq_refl).
  assert (Hi1 : frame_inv true views pool a s1) by by eapply frame_inv_progress.
  assert (Hi2 : frame_inv true views pool a s2) by by eapply frame_inv_progress.
  rewrite (fi_images _ _ _ _ _ Hi1 eq_refl) in Himg.
  destruct (lookup_lt_is_Some_2 pool cur) as [c Hc]; [lia|].
  destruct (wait_image_inv _ _ _ _ _ cur c Hi2 Himg Hc) as (s3 & E3 & _).
  rewrite (st_bind_Ok _ _ s2 tt s2) by done. change (of_option BadOptional (Some cur)) with (Ok cur).
  rewrite lift_bind. erewrite st_bind_Ok by exact E3.
  rewrite (set_index_lt (size_images_in_flight _ _)), lift_bind by (by rewrite (fi_in_flight _ _ _ _ _ Hi)).
  by rewrite (set_index_ge (image_index_at_frame a)) by (by rewrite (fi_frames _ _ _ _ _ Hi)).
Qed.

(** When the swapchain is out of date the regeneration function runs and
    the frame then throws: the index that was not acquired is read all the
    same. *)
Theorem out_of_date_frame_throws views pool stages a s f av s1 s2 regen s3 :
  in_flight_fences a !! frame_counter a = Some f → vkWaitForFences s f = Ok s1 →
  image_available_semaphores a !! frame_counter a = Some av →
  vkAcquireNextImageKHR s1 av = (s2, VK_ERROR_OUT_OF_DATE_KHR) →
  regenerate_function a = Some regen → regen s2 = Ok (tt, s3) →
  render_frame views pool stages a s = Fault BadOptional.
Proof.
  intros Hf Ew Hav Ea Hr Er. unfold render_frame.
  rewrite (at_index_Some _ _ _ Hf), lift_bind.
  rewrite (st_bind_Ok _ _ s tt s1) by (unfold Fence_wait_for, vk_call; by rewrite Ew).
  rewrite (at_index_Some _ _ _ Hav), lift_bind.
  unfold acquire_next_image_index at 1, mbind at 1, ST_bind at 1. rewrite Ea, Hr.
  by rewrite (st_bind_Ok _ _ s2 tt s3).
Qed.

End Properties.

(** ** Concrete runs *)

Definition idle_driver (n : nat) : driver := mkDriver [] [] [] n 0 false.

Definition admin_of (m : res (FrameAdmin * driver)) : FrameAdmin :=
  match m with Ok (a, _) => a | Fault _ => mkFrameAdmin 0 [] 0 0 [] [] [] [] None end.
Definition driver_of {A} (m : res (A * driver)) : driver :=
  match m with Ok (_, d) => d | Fault _ => idle_driver 0 end.

Lemma frames_keep_the_rules_witness :
  let _ := debug_build in
  let m := FrameAdmin_new 3 (idle_driver 3) in
  match run_frames 3 [70; 71; 72]%Z [ColourAttachmentOutput]
          [DrawFrame; DrawFrame; WaitFor 1; DrawFrame; DrawFrame; DrawFrame]
          (set_regeneration_function (admin_of m) (mret tt)) (driver_of m) with
  | Ok (a', s') => ∀ k c, k < 3 → [70; 71; 72]%Z !! k = Some c →
      ∃ s'', wait_for a' k s' = Ok (tt, s'') ∧ ∀ f, (f, c) ∉ pending s''
  | Fault e => e = AssertTrap ∨ e = BadOptional
  end.
Proof.
  intros BC m. apply (frames_keep_the_rules (V := driver_vk) (VS := driver_vk_spec) 3 [70; 71; 72]%Z _ 3 (idle_driver 3)); try done.
  - lia.
  - refine (bool_decide_unpack _ _). vm_compute. exact I.
  - split; [intros d; eexists; reflexivity|]. intros f c _ H. apply (elem_of_nil (f, c)). exact H.
  - repeat constructor.
Defined.

Lemma headless_frames_succeed_witness :
  let _ := debug_build in
  let m := FrameAdmin_new 2 (idle_driver 0) in
  ∃ a' s', headless_frames 5 [70; 71]%Z [] (admin_of m) (driver_of m) = Ok (a', s') ∧ frame_counter a' = 1.
Proof.
  intros BC m. apply (headless_frames_succeed (V := driver_vk) (VS := driver_vk_spec) [70; 71]%Z [] 2 (idle_driver 0)); try done; simpl; try lia.
  - refine (bool_decide_unpack _ _). vm_compute. exact I.
  - split; [intros d; eexists; reflexivity|]. intros f c _ H. apply (elem_of_nil (f, c)). exact H.
Defined.

(** One headless frame: command buffer 70 is on the device, and [wait_for 0]
    leaves it there. *)
Lemma headless_wait_for_does_not_wait_witness :
  let _ := debug_build in
  let m := FrameAdmin_new 2 (idle_driver 0) in
  let m' := headless_frames 1 [70; 71]%Z [] (admin_of m) (driver_of m) in
  d_pending (driver_of m') = [(1, 70)]%Z ∧
  wait_for (admin_of m') 0 (driver_of m') = Ok (tt, driver_of m').
Proof.
  intros BC m m'. split; [by vm_compute|].
  apply (headless_wait_for_does_not_wait (V := driver_vk) [70; 71]%Z [] 2 (idle_driver 0) (admin_of m) (driver_of m) 1
           (admin_of m') (driver_of m')); [by vm_compute|by vm_compute|lia].
Defined.

(** Two frames in flight, three images: the third frame writes out of bounds. *)
Lemma image_beyond_depth_out_of_bounds_witness :
  let _ := release_build in
  let d := mkDriver [] [] [] 3 2 false in
  let m := FrameAdmin_new 2 d in
  render_frame 3 [70; 71; 72]%Z [ColourAttachmentOutput] (admin_of m) (driver_of m) = Fault OutOfBounds.
Proof.
  intros BC d m.
  assert (Hi : frame_inv true 3 [70; 71; 72]%Z (admin_of m) (driver_of m)).
  { apply (FrameAdmin_new_inv (V := driver_vk) (VS := driver_vk_spec) true 3 [70; 71; 72]%Z 2 d); [by vm_compute|lia| |done|].
    - intros s. eexists. reflexivity.
    - intros f c _ H. apply (elem_of_nil (f, c)). exact H. }
  eapply (image_beyond_depth_out_of_bounds (V := driver_vk) (VS := driver_vk_spec) 3 [70; 71; 72]%Z _ (admin_of m) (driver_of m) 1%Z 1%Z _ _ 2).
  - exact Hi.
  - by vm_compute.
  - vm_compute. reflexivity.
  - by vm_compute.
  - vm_compute. reflexivity.
  - simpl. lia.
  - vm_compute. lia.
Defined.

Lemma out_of_date_frame_throws_witness :
  let _ := debug_build in
  let m := FrameAdmin_new 2 (mkDriver [] [] [] 2 0 true) in
  render_frame 2 [70; 71]%Z [ColourAttachmentOutput]
    (set_regeneration_function (admin_of m) (mret tt)) (driver_of m) = Fault BadOptional.
Proof.
  intros BC m.
  eapply (out_of_date_frame_throws (V := driver_vk) 2 [70; 71]%Z _ (set_regeneration_function (admin_of m) (mret tt))
            (driver_of m) 1%Z 1%Z); vm_compute; reflexivity.
Defined.
