(* ===== verification/VkHardware.v ===== *)
(** * Vulkan: physical devices, memory types, queue families and swapchains

    backend/vk/hardware/ (device, device_filter, memory, queue_family,
    swapchain_selector), the selection of [DeviceVulkan] (frontend/vk/device.cpp)
    and the construction of [Swapchain] (backend/vk/swapchain.cpp).  What the
    driver reports of a machine is the class [PhysicalDevices]; the selection
    logic on top of it is the engine's. *)

From S2P Require Import Prelude Containers.

(** ** What the driver reports *)

Inductive VkPhysicalDeviceType :=
  VK_PHYSICAL_DEVICE_TYPE_OTHER | VK_PHYSICAL_DEVICE_TYPE_INTEGRATED_GPU
| VK_PHYSICAL_DEVICE_TYPE_DISCRETE_GPU | VK_PHYSICAL_DEVICE_TYPE_VIRTUAL_GPU
| VK_PHYSICAL_DEVICE_TYPE_CPU.

#[export] Instance VkPhysicalDeviceType_eq_dec : EqDecision VkPhysicalDeviceType.
Proof. solve_decision. Defined.

Record VkExtent2D := mkExtent { width : Z; height : Z }.
Record VkSurfaceFormatKHR := mkSurfaceFormat { format : Z; colorSpace : Z }.
Record VkSurfaceCapabilitiesKHR := mkCapabilities {
  minImageCount : Z; maxImageCount : Z; currentExtent : VkExtent2D;
  minImageExtent : VkExtent2D; maxImageExtent : VkExtent2D; currentTransform : Z }.

#[export] Instance VkExtent2D_eq_dec : EqDecision VkExtent2D.
Proof. solve_decision. Defined.
#[export] Instance VkSurfaceFormatKHR_eq_dec : EqDecision VkSurfaceFormatKHR.
Proof. solve_decision. Defined.

(** The queries of a machine with one (optional) window surface.  [null] is
    [VK_NULL_HANDLE]; devices are other handles. *)
Definition VK_NULL_HANDLE : Z := 0.

Class PhysicalDevices := {
  vkEnumeratePhysicalDevices : list Z;
  deviceType : Z → VkPhysicalDeviceType;
  queueFlags : Z → list Z;
  surfaceSupport : Z → nat → bool;
  extensionNames : Z → list string;
  memoryTypes : Z → list (Z * Z);
  surfaceCapabilities : Z → VkSurfaceCapabilitiesKHR;
  surfaceFormats : Z → list VkSurfaceFormatKHR;
  surfacePresentModes : Z → list Z;
  glfwGetFramebufferSize : Z * Z }.

(** The session ([inst] and [surf] of tz_vulkan.cpp), and what lies behind the
    last element of a filter list (see [PolymorphicList]). *)
Class VkSession := { is_initialised : bool; is_headless : bool; beyond : nat → res nat }.

(** ** Queue families *)

Inductive QueueFamilyType := Graphics | Compute | Transfer | SparseBinding | Present.

#[export] Instance QueueFamilyType_eq_dec : EqDecision QueueFamilyType.
Proof. solve_decision. Defined.

Record DeviceQueueFamily := mkFamily { qf_dev : Z; qf_index : nat; types_supported : list QueueFamilyType }.

Section Hardware.
Context `{BC : BuildConfig} `{PD : PhysicalDevices} `{VKS : VkSession}.

Definition type_as_flag (type : QueueFamilyType) : res Z :=
  match type with
  | Graphics => Ok 1%Z
  | Compute => Ok 2%Z
  | Transfer => Ok 4%Z
  | SparseBinding => Ok 8%Z
  | Present => _ ← tz_error; Fault Uninitialised
  end.

Definition add_type (flag : Z) (type : QueueFamilyType) (types : list QueueFamilyType) : res (list QueueFamilyType) :=
  f ← type_as_flag type;
  Ok (if (Z.land flag f =? 0)%Z then types else EnumField.or_assign types type).

(** The body of the loop of [get_queue_families]; [i] counts the families. *)
Definition read_family (dev : Z) (flag : Z) (st : list DeviceQueueFamily * nat) : res (list DeviceQueueFamily * nat) :=
  let '(families, i) := st in
  types ← for_each (add_type flag) [Graphics; Compute; Transfer; SparseBinding] [];
  let types := if negb is_headless && surfaceSupport dev i then EnumField.or_assign types Present else types in
  Ok (BasicList.add families (mkFamily dev i types), S i).

Definition get_queue_families (dev : Z) : res (list DeviceQueueFamily) :=
  '(families, _) ← for_each (read_family dev) (queueFlags dev) ([], 0);
  Ok families.

(** ** Devices *)

Definition is_null (dev : Z) : bool := (dev =? VK_NULL_HANDLE)%Z.

(** [get_properties()]: the member the engine uses. *)
Definition get_device_type (dev : Z) : res VkPhysicalDeviceType :=
  _ ← tz_assert (negb (is_null dev)); Ok (deviceType dev).

Definition get_extension_properties (dev : Z) : list string := extensionNames dev.

Definition get_all_devices : res (list Z) :=
  _ ← tz_assert is_initialised;
  _ ← tz_assert (0 <? length vkEnumeratePhysicalDevices);
  Ok (foldl BasicList.add [] vkEnumeratePhysicalDevices).

(** ** Filters *)

Inductive device_filter :=
| DeviceQueueFamilyFilter (types : list QueueFamilyType)
| DeviceExtensionSupportFilter (required_extensions : list string)
| DeviceTypeFilter (Type_ : VkPhysicalDeviceType)
| DeviceAnyGPUFilter.

Fixpoint some_family (types : list QueueFamilyType) (families : list DeviceQueueFamily) : bool :=
  match families with
  | [] => false
  | family :: rest =>
      if EnumField.contains_field (types_supported family) types then true else some_family types rest
  end.

(** The inner loop looks at every supported extension; the outer one returns at
    the first that is missing. *)
Definition extension_found (extensions : list string) (required : string) : bool :=
  foldl (λ found supported, if bool_decide (required = supported) then true else found) false extensions.

Fixpoint all_extensions (required extensions : list string) : bool :=
  match required with
  | [] => true
  | r :: rest => if negb (extension_found extensions r) then false else all_extensions rest extensions
  end.

Definition DeviceTypeFilter_satisfies (type : VkPhysicalDeviceType) (dev : Z) : res bool :=
  t ← get_device_type dev; Ok (bool_decide (t = type)).

(** The virtual [satisfies] of the filters. *)
Definition filter_satisfies (f : device_filter) (dev : Z) : res bool :=
  match f with
  | DeviceQueueFamilyFilter types => families ← get_queue_families dev; Ok (some_family types families)
  | DeviceExtensionSupportFilter exts => Ok (all_extensions exts (get_extension_properties dev))
  | DeviceTypeFilter type => DeviceTypeFilter_satisfies type dev
  | DeviceAnyGPUFilter =>
      a ← DeviceTypeFilter_satisfies VK_PHYSICAL_DEVICE_TYPE_INTEGRATED_GPU dev;
      if (a : bool) then Ok true else
      b ← DeviceTypeFilter_satisfies VK_PHYSICAL_DEVICE_TYPE_DISCRETE_GPU dev;
      if (b : bool) then Ok true else DeviceTypeFilter_satisfies VK_PHYSICAL_DEVICE_TYPE_VIRTUAL_GPU dev
  end.

(** [DeviceFilterList]: the filters in the order they were emplaced; the
    pointer to the [k]-th of them is [k].  The loop compares iterators through
    [PolymorphicList]'s [operator==]; it makes at most one round more than
    there are filters, because [end()] equals itself. *)
Definition list_satisfies (filters : list device_filter) (dev : Z) : res bool :=
  r ← PolymorphicList.all_of beyond (seq 0 (length filters))
        (λ p, f ← at_index filters p; filter_satisfies f dev) (S (length filters)) 0;
  Ok (default true r).

(** [devices.erase(std::remove_if(...), devices.end())]. *)
Definition filter_all (filters : list device_filter) (devices : list Z) : res (list Z) :=
  for_each (λ dev kept, b ← list_satisfies filters dev; Ok (if (b : bool) then kept ++ [dev] else kept)) devices [].

Definition remove_non_gpus (devices : list Z) : res (list Z) := filter_all [DeviceAnyGPUFilter] devices.
Definition preserve_only_discrete_gpus (devices : list Z) : res (list Z) :=
  filter_all [DeviceTypeFilter VK_PHYSICAL_DEVICE_TYPE_DISCRETE_GPU] devices.
Definition preserve_only_integrated_gpus (devices : list Z) : res (list Z) :=
  filter_all [DeviceTypeFilter VK_PHYSICAL_DEVICE_TYPE_INTEGRATED_GPU] devices.
Definition preserve_only_with_appropriate_queue (devices : list Z) (field : list QueueFamilyType) : res (list Z) :=
  filter_all [DeviceQueueFamilyFilter field] devices.

(** ** Surfaces *)

Definition supports_swapchain (dev : Z) : res bool :=
  list_satisfies [DeviceExtensionSupportFilter ["VK_KHR_swapchain"%string]] dev.

(** [vk::window_surface()->native()]. *)
Definition window_surface : res unit := if is_headless then Fault NullDeref else Ok tt.

Definition get_window_surface_capabilities (dev : Z) : res VkSurfaceCapabilitiesKHR :=
  _ ← window_surface; b ← supports_swapchain dev; _ ← tz_assert b; Ok (surfaceCapabilities dev).
Definition get_window_surface_formats (dev : Z) : res (list VkSurfaceFormatKHR) :=
  _ ← window_surface; b ← supports_swapchain dev; _ ← tz_assert b; Ok (surfaceFormats dev).
Definition get_window_surface_present_modes (dev : Z) : res (list Z) :=
  _ ← window_surface; b ← supports_swapchain dev; _ ← tz_assert b; Ok (surfacePresentModes dev).

Record SwapchainSupportDetails := mkSupport {
  sd_capabilities : VkSurfaceCapabilitiesKHR; sd_formats : list VkSurfaceFormatKHR;
  sd_present_modes : list Z; sd_supports_swapchain : bool }.

Definition get_window_swapchain_support (dev : Z) : res SwapchainSupportDetails :=
  c ← get_window_surface_capabilities dev;
  f ← get_window_surface_formats dev;
  p ← get_window_surface_present_modes dev;
  s ← supports_swapchain dev;
  Ok (mkSupport c f p s).

(** ** Memory types *)

Inductive MemoryType := DeviceLocal | HostVisible | HostCoherent | HostCached.

Definition memory_bit (t : MemoryType) : Z :=
  match t with DeviceLocal => 1 | HostVisible => 2 | HostCoherent => 4 | HostCached => 8 end.

#[export] Instance MemoryType_eq_dec : EqDecision MemoryType.
Proof. solve_decision. Defined.

Record MemoryModule := mkModule { mm_device : Z; mm_types : list MemoryType; mm_index : nat; heap_index : Z }.

Definition parse_field (flags : Z) : list MemoryType :=
  foldl (λ field t, if (Z.land flags (memory_bit t) =? 0)%Z then field else EnumField.or_assign field t)
    [] [DeviceLocal; HostVisible; HostCoherent; HostCached].

Definition MemoryProperties_new (dev : Z) : list MemoryModule :=
  imap (λ i '(flags, heap), mkModule dev (parse_field flags) i heap) (memoryTypes dev).

Definition get_modules_matching (modules : list MemoryModule) (field : list MemoryType) : list MemoryModule :=
  foldl (λ matching m, if EnumField.eqb (mm_types m) field then BasicList.add matching m else matching)
    [] modules.

Definition unsafe_get_some_module_matching (modules : list MemoryModule) (field : list MemoryType)
    : res MemoryModule := BasicList.index (get_modules_matching modules field) 0.

End Hardware.

(** ** Facts *)

Section Facts.
Context `{BC : BuildConfig} `{PD : PhysicalDevices} `{VKS : VkSession}.

(** Whether the [i]-th family of a device has a type, by its flags. *)
Definition has_type (dev : Z) (i : nat) (flag : Z) (t : QueueFamilyType) : bool :=
  match t with
  | Graphics => negb (Z.land flag 1 =? 0)%Z
  | Compute => negb (Z.land flag 2 =? 0)%Z
  | Transfer => negb (Z.land flag 4 =? 0)%Z
  | SparseBinding => negb (Z.land flag 8 =? 0)%Z
  | Present => negb is_headless && surfaceSupport dev i
  end.

Definition family_types (dev : Z) (i : nat) (flag : Z) : list QueueFamilyType :=
  filter (λ t, has_type dev i flag t = true) [Graphics; Compute; Transfer; SparseBinding; Present].

Lemma elem_of_family_types dev i flag t : t ∈ family_types dev i flag ↔ has_type dev i flag t = true.
Proof. unfold family_types. rewrite list_elem_of_filter. destruct t; set_solver. Qed.

Lemma read_family_spec dev flag families i :
  read_family dev flag (families, i) =
  Ok (families ++ [mkFamily dev i (family_types dev i flag)], S i).
Proof.
  unfold read_family, family_types, add_type, type_as_flag, BasicList.add.
  unfold for_each, filter, list_filter, has_type. rewrite !bind_Ok.
  destruct (Z.land flag 1 =? 0)%Z, (Z.land flag 2 =? 0)%Z, (Z.land flag 4 =? 0)%Z, (Z.land flag 8 =? 0)%Z,
    (negb is_headless && surfaceSupport dev i); reflexivity.
Qed.

Lemma get_queue_families_spec dev :
  get_queue_families dev = Ok (imap (λ i flag, mkFamily dev i (family_types dev i flag)) (queueFlags dev)).
Proof.
  assert (H : ∀ flags families, for_each (read_family dev) flags (families, length families) =
    Ok (families ++ imap (λ i flag, let i := length families + i in mkFamily dev i (family_types dev i flag)) flags,
        length families + length flags)).
  { induction flags as [|flag flags IH]; intros families; cbn [for_each imap].
    - by rewrite app_nil_r, Nat.add_0_r.
    - rewrite read_family_spec, bind_Ok.
      specialize (IH (families ++ [mkFamily dev (length families) (family_types dev (length families) flag)])).
      rewrite length_app, Nat.add_1_r in IH. rewrite IH, <- app_assoc. simpl. rewrite Nat.add_0_r.
      rewrite Nat.add_succ_r. do 4 f_equal. apply imap_ext. intros j x _. simpl. by rewrite Nat.add_succ_r. }
  unfold get_queue_families. specialize (H (queueFlags dev) []). simpl in H. by rewrite H.
Qed.

Lemma some_family_spec types families :
  some_family types families = true ↔
  ∃ f, f ∈ families ∧ ∀ t, t ∈ types → t ∈ types_supported f.
Proof.
  induction families as [|f rest IH]; simpl.
  - split; [done|]. intros (f & H & _). by apply elem_of_nil in H.
  - destruct (EnumField.contains_field _ _) eqn:E.
    + rewrite EnumField.contains_field_spec in E. split; [|done]. intros _. exists f. split; [set_solver|done].
    + rewrite IH. split.
      * intros (g & Hg & Ht). exists g. set_solver.
      * intros (g & [->|Hg]%elem_of_cons & Ht); [|eauto].
        rewrite <- EnumField.contains_field_spec in Ht. congruence.
Qed.

Lemma extension_found_spec extensions r : extension_found extensions r = true ↔ r ∈ extensions.
Proof.
  unfold extension_found.
  assert (H : ∀ l b, foldl (λ found s, if bool_decide (r = s) then true else found) b l = true ↔ b = true ∨ r ∈ l).
  { induction l as [|x l IH]; intros b; simpl; [set_solver|]. rewrite IH, elem_of_cons.
    case_bool_decide; naive_solver. }
  rewrite H. naive_solver.
Qed.

Lemma all_extensions_spec required extensions :
  all_extensions required extensions = true ↔ ∀ r, r ∈ required → r ∈ extensions.
Proof.
  induction required as [|r rest IH]; simpl; [set_solver|].
  destruct (extension_found extensions r) eqn:E; simpl.
  - apply extension_found_spec in E. rewrite IH. set_solver.
  - split; [done|]. intros H. rewrite <- E. apply extension_found_spec. set_solver.
Qed.

(** The loop over the filters of a list compares with [end()], and so reads the
    slot behind the last of them, which the list does not own.  When that can be
    read, the list evaluates its filters in order up to the one the slot points
    to, or all of them; when it cannot, nothing is evaluated. *)
Lemma list_satisfies_spec filters dev (ok : device_filter → bool) :
  (∀ f, f ∈ filters → filter_satisfies f dev = Ok (ok f)) →
  list_satisfies filters dev = (g ← beyond (length filters); Ok (forallb ok (take g filters))).
Proof.
  intros Hok. unfold list_satisfies. destruct (beyond (length filters)) as [g|e] eqn:Hg.
  2: { pose proof (PolymorphicList.all_of_faults beyond (seq 0 (length filters))
      (λ p, f ← at_index filters p; filter_satisfies f dev) (length filters) e) as H.
    rewrite length_seq in H. unfold PolymorphicList.begin in H. by rewrite H. }
  pose proof (PolymorphicList.all_of_stale beyond (seq 0 (length filters))
    (λ p, f ← at_index filters p; filter_satisfies f dev) g) as H.
  rewrite length_seq in H. unfold PolymorphicList.begin in H.
  rewrite (H Hg), PolymorphicList.before_seq, Nat.sub_0_r, bind_Ok by lia. clear H.
  rewrite Nat.min_comm, <- length_take.
  assert (Hf : ∀ pre rest, filters = pre ++ rest ++ drop g filters →
    foldr (λ p acc, b ← (f ← at_index filters p; filter_satisfies f dev); if negb b then Ok false else acc)
      (Ok true) (seq (length pre) (length rest)) = Ok (forallb ok rest)).
  { intros pre rest. revert pre. induction rest as [|f rest IH]; intros pre Heq; [done|]. cbn [length seq foldr forallb].
    assert (Hl : filters !! length pre = Some f) by (rewrite Heq; by apply list_lookup_middle).
    rewrite (at_index_Some _ _ _ Hl), bind_Ok, Hok by (by eapply list_elem_of_lookup_2).
    rewrite bind_Ok. destruct (ok f); [|done]. simpl.
    specialize (IH (pre ++ [f])). rewrite length_app, Nat.add_1_r in IH. apply IH. by rewrite <- app_assoc. }
  specialize (Hf [] (take g filters)). cbn [length app] in Hf. rewrite Hf by (by rewrite take_drop). done.
Qed.

Lemma filter_all_spec filters devices (ok : device_filter → Z → bool) :
  devices ≠ [] → (∀ f d, f ∈ filters → d ∈ devices → filter_satisfies f d = Ok (ok f d)) →
  filter_all filters devices =
    (g ← beyond (length filters);
     Ok (filter (λ d, forallb (λ f, ok f d) (take g filters) = true) devices)).
Proof.
  intros Hne Hok. unfold filter_all. destruct (beyond (length filters)) as [g|e] eqn:Hg.
  2: { destruct devices as [|d l]; [done|]. cbn [for_each].
    by rewrite (list_satisfies_spec filters d (λ f, ok f d)), Hg by (intros; apply Hok; set_solver). }
  assert (H : ∀ l kept, (∀ f d, f ∈ filters → d ∈ l → filter_satisfies f d = Ok (ok f d)) →
    for_each (λ dev kept, b ← list_satisfies filters dev; Ok (if (b : bool) then kept ++ [dev] else kept)) l kept =
    Ok (kept ++ filter (λ d, forallb (λ f, ok f d) (take g filters) = true) l)).
  { clear Hne Hok. induction l as [|d l IH]; intros kept Hok; [simpl; by rewrite app_nil_r|]. cbn [for_each].
    rewrite (list_satisfies_spec filters d (λ f, ok f d)), Hg by (intros; apply Hok; set_solver).
    rewrite !bind_Ok, IH by (intros; apply Hok; set_solver). rewrite filter_cons.
    destruct (forallb _ (take g filters)) eqn:E; case_decide; try done. by rewrite <- app_assoc. }
  by rewrite bind_Ok, (H devices []).
Qed.

(** [parse_field] keeps the order of the enumerators, so fields of the same
    types are equal. *)
Lemma parse_field_spec flags :
  parse_field flags = filter (λ t, Z.land flags (memory_bit t) ≠ 0%Z) [DeviceLocal; HostVisible; HostCoherent; HostCached].
Proof.
  unfold parse_field. cbn [foldl memory_bit].
  destruct (Z.eqb_spec (Z.land flags 1) 0), (Z.eqb_spec (Z.land flags 2) 0),
    (Z.eqb_spec (Z.land flags 4) 0), (Z.eqb_spec (Z.land flags 8) 0);
    cbv [filter list_filter memory_bit]; repeat case_decide; first [done|congruence].
Qed.

Lemma get_modules_matching_spec modules field m :
  m ∈ get_modules_matching modules field ↔ m ∈ modules ∧ mm_types m = field.
Proof.
  unfold get_modules_matching.
  assert (H : ∀ l acc, m ∈ foldl (λ matching m, if EnumField.eqb (mm_types m) field
      then BasicList.add matching m else matching) acc l ↔ m ∈ acc ∨ m ∈ l ∧ mm_types m = field).
  { induction l as [|x l IH]; intros acc; simpl; [set_solver|]. rewrite IH. unfold EnumField.eqb, BasicList.add.
    case_bool_decide; set_solver. }
  rewrite H. set_solver.
Qed.

End Facts.
