(* ===== verification/VkSwapchain.v ===== *)
(** * Vulkan: choosing a device, and its swapchain

    The swapchain selector (backend/vk/hardware/swapchain_selector.cpp), the
    constructor of [Swapchain] (backend/vk/swapchain.cpp) with its image views
    (image_view.cpp), and the choice of device and queue family that precede it
    in [DeviceVulkan] (frontend/vk/device.cpp). *)

From S2P Require Import Prelude Containers Memory VkHardware.

(** ** The selector *)

Inductive SwapchainFormatPreferences := Goldilocks | FlexibleGoldilocks | FormatDontCare.
Inductive SwapchainPresentModePreferences := PreferTripleBuffering | PresentDontCare.

Record SwapchainSelectorPreferences := mkPreferences {
  format_pref : list SwapchainFormatPreferences;
  present_mode_pref : list SwapchainPresentModePreferences }.

(** [VK_FORMAT_B8G8R8A8_UNORM], [VK_COLOR_SPACE_SRGB_NONLINEAR_KHR],
    [VK_PRESENT_MODE_MAILBOX_KHR]. *)
Definition perfect_format : VkSurfaceFormatKHR := mkSurfaceFormat 44 0.
Definition MAILBOX : Z := 1.

Definition is_perfect (f : VkSurfaceFormatKHR) : bool :=
  (format f =? format perfect_format)%Z && (colorSpace f =? colorSpace perfect_format)%Z.

Definition rate_perfect (f : VkSurfaceFormatKHR) : Z := 0.

(** [std::sort] reorders a range; what it does with elements that compare
    equal is not fixed. *)
Class StdSort := { std_sort : (VkSurfaceFormatKHR → VkSurfaceFormatKHR → bool) →
                              list VkSurfaceFormatKHR → list VkSurfaceFormatKHR }.
Class StdSortLaws `{SS : StdSort} : Prop := {
  std_sort_perm : ∀ lt l, std_sort lt l ≡ₚ l }.

Section Selector.
Context `{SS : StdSort} `{PD : PhysicalDevices}.

Definition sort_by_rate_perfect (formats : list VkSurfaceFormatKHR) : list VkSurfaceFormatKHR :=
  std_sort (λ lhs rhs, (rate_perfect lhs <? rate_perfect rhs)%Z) formats.

Fixpoint find_format (formats : list VkSurfaceFormatKHR) : option VkSurfaceFormatKHR :=
  match formats with
  | [] => None
  | f :: rest => if is_perfect f then Some f else find_format rest
  end.

(** The span is sorted in place: the formats are returned with the choice. *)
Definition select_format_by (formats : list VkSurfaceFormatKHR) (pref : SwapchainFormatPreferences)
    : option VkSurfaceFormatKHR * list VkSurfaceFormatKHR :=
  match pref with
  | Goldilocks => (find_format formats, formats)
  | FlexibleGoldilocks =>
      match formats with
      | [] => (None, formats)
      | _ => let formats := sort_by_rate_perfect formats in (head formats, formats)
      end
  | FormatDontCare => (head formats, formats)
  end.

Fixpoint select_swapchain_format (formats : list VkSurfaceFormatKHR) (prefs : list SwapchainFormatPreferences)
    : option VkSurfaceFormatKHR :=
  match prefs with
  | [] => None
  | pref :: rest =>
      match select_format_by formats pref with
      | (Some f, _) => Some f
      | (None, formats) => select_swapchain_format formats rest
      end
  end.

Fixpoint find_mode (mode : Z) (modes : list Z) : option Z :=
  match modes with
  | [] => None
  | m :: rest => if (m =? mode)%Z then Some m else find_mode mode rest
  end.

Definition select_present_mode_by (modes : list Z) (pref : SwapchainPresentModePreferences) : option Z :=
  match pref with
  | PreferTripleBuffering => find_mode MAILBOX modes
  | PresentDontCare => head modes
  end.

Fixpoint select_swapchain_present_mode (modes : list Z) (prefs : list SwapchainPresentModePreferences) : option Z :=
  match prefs with
  | [] => None
  | pref :: rest =>
      match select_present_mode_by modes pref with
      | Some m => Some m
      | None => select_swapchain_present_mode modes rest
      end
  end.

(** [std::clamp(v, lo, hi)] is undefined when [hi < lo]. *)
Definition clamp (v lo hi : Z) : res Z :=
  if (hi <? lo)%Z then Fault Misuse else Ok (if (v <? lo)%Z then lo else if (hi <? v)%Z then hi else v).

Definition fix_to_extremes (c : VkSurfaceCapabilitiesKHR) (extent : VkExtent2D) : res VkExtent2D :=
  w ← clamp (width extent) (width (minImageExtent c)) (width (maxImageExtent c));
  h ← clamp (height extent) (height (minImageExtent c)) (height (maxImageExtent c));
  Ok (mkExtent w h).

Definition get_real_swap_extent (c : VkSurfaceCapabilitiesKHR) : res VkExtent2D :=
  if negb (width (currentExtent c) =? 4294967295)%Z then Ok (currentExtent c)
  else
    let '(w, h) := glfwGetFramebufferSize in
    fix_to_extremes c (mkExtent (u32 w) (u32 h)).

End Selector.

(** ** The swapchain *)

Record VkSwapchainCreateInfoKHR := mkSwapchainInfo {
  ci_minImageCount : Z; ci_imageFormat : Z; ci_imageColorSpace : Z; ci_imageExtent : VkExtent2D;
  ci_preTransform : Z; ci_presentMode : Z; ci_clipped : bool }.

(** The calls of the constructor, on a driver state [W]. *)
Class SwapchainCalls (W : Type) := {
  vkCreateSwapchainKHR : VkSwapchainCreateInfoKHR → ST W (option Z);
  vkGetSwapchainImagesKHR : Z → ST W (list Z);
  vkCreateImageView : Z → Z → ST W (option Z);
  vkCreateDevice : Z → nat → list string → ST W (option Z);
  vmaCreateAllocator : Z → Z → ST W (option Z) }.

Record Swapchain := mkSwapchain {
  sc_native : Z; sc_images : list Z; sc_image_views : list Z; sc_format : Z; sc_extent : VkExtent2D }.

Record LogicalDevice := mkLogicalDevice {
  ld_dev : Z; ld_queue_family : option DeviceQueueFamily; ld_vma : option Z }.

Section Swapchain.
Context `{BC : BuildConfig} `{SS : StdSort} `{PD : PhysicalDevices} `{VKS : VkSession}.

(** The description the constructor fills in, with its assertions. *)
Definition swapchain_create_info (queue_family : option DeviceQueueFamily) (prefs : SwapchainSelectorPreferences)
    : res VkSwapchainCreateInfoKHR :=
  _ ← tz_assert (bool_decide (is_Some queue_family));
  family ← of_option NullDeref queue_family;
  support ← get_window_swapchain_support (qf_dev family);
  let maybe_format := select_swapchain_format (sd_formats support) (format_pref prefs) in
  let maybe_present_mode := select_swapchain_present_mode (sd_present_modes support) (present_mode_pref prefs) in
  extent ← get_real_swap_extent (sd_capabilities support);
  _ ← tz_assert (bool_decide (is_Some maybe_format));
  _ ← tz_assert (bool_decide (is_Some maybe_present_mode));
  let image_count := minImageCount (sd_capabilities support) in
  let image_count := Z.min image_count (maxImageCount (sd_capabilities support)) in
  fmt ← of_option Uninitialised maybe_format;
  _ ← tz_assert (EnumField.contains_field (types_supported family) [Graphics; Present]);
  mode ← of_option BadOptional maybe_present_mode;
  Ok (mkSwapchainInfo image_count (format fmt) (colorSpace fmt) extent
        (currentTransform (sd_capabilities support)) mode (negb is_headless)).

Context {W : Type} `{SC : SwapchainCalls W}.

Definition add_view (fmt : Z) (image : Z) (views : list Z) : ST W (list Z) :=
  v ← vkCreateImageView image fmt;
  _ ← lift (tz_assert (bool_decide (is_Some v)));
  mret (views ++ [default VK_NULL_HANDLE v]).

(** [ImageViews(const Swapchain&)]. *)
Definition ImageViews_new (native fmt : Z) : ST W (list Z) :=
  images ← vkGetSwapchainImagesKHR native;
  st_fold (add_view fmt) images [].

Definition Swapchain_new (device : LogicalDevice) (prefs : SwapchainSelectorPreferences) : ST W Swapchain :=
  create ← lift (swapchain_create_info (ld_queue_family device) prefs);
  r ← vkCreateSwapchainKHR create;
  _ ← lift (tz_assert (bool_decide (is_Some r)));
  let native := default VK_NULL_HANDLE r in
  views ← ImageViews_new native (ci_imageFormat create);
  mret (mkSwapchain native [] views (ci_imageFormat create) (ci_imageExtent create)).

(** ** The choice of a device *)

Definition LogicalDevice_null : LogicalDevice := mkLogicalDevice VK_NULL_HANDLE None None.

Definition LogicalDevice_new (family : DeviceQueueFamily) (extensions : list string) : ST W LogicalDevice :=
  d ← vkCreateDevice (qf_dev family) (qf_index family) extensions;
  _ ← lift (tz_assert (bool_decide (is_Some d)));
  let dev := default VK_NULL_HANDLE d in
  a ← vmaCreateAllocator (qf_dev family) dev;
  _ ← lift (tz_assert (bool_decide (is_Some a)));
  mret (mkLogicalDevice dev (Some family) (Some (default VK_NULL_HANDLE a))).

(** Every family that fits replaces the one chosen before. *)
Definition choose_family (types : list QueueFamilyType) (families : list DeviceQueueFamily)
    : option DeviceQueueFamily :=
  foldl (λ chosen family,
           if EnumField.contains_field (types_supported family) types then Some family else chosen) None families.

Definition device_extensions : list string :=
  let extensions := ["VK_KHR_maintenance1"%string] in
  if negb is_headless then BasicList.add extensions "VK_KHR_swapchain"%string else extensions.

Definition type_requirements : list QueueFamilyType := [Graphics; Transfer].

Definition select_device : res (Z * DeviceQueueFamily) :=
  all_devices ← get_all_devices;
  all_devices ← filter_all [DeviceQueueFamilyFilter type_requirements;
                            DeviceExtensionSupportFilter device_extensions] all_devices;
  _ ← tz_assert (negb (BasicList.empty all_devices));
  dev ← BasicList.front all_devices;
  families ← get_queue_families dev;
  let chosen := choose_family type_requirements families in
  _ ← tz_assert (bool_decide (is_Some chosen));
  family ← of_option BadOptional chosen;
  Ok (dev, family).

Definition my_prefs : SwapchainSelectorPreferences :=
  mkPreferences [Goldilocks; FlexibleGoldilocks; FormatDontCare] [PreferTripleBuffering; PresentDontCare].

(** [DeviceVulkan] of a window application: device, queue and swapchain. *)
Definition DeviceVulkan_new_windowed : ST W (Z * LogicalDevice * Swapchain) :=
  '(dev, family) ← lift select_device;
  device ← LogicalDevice_new family device_extensions;
  swapchain ← Swapchain_new device my_prefs;
  mret (dev, device, swapchain).

End Swapchain.

(** ** Facts *)

Section Facts.
Context `{BC : BuildConfig} `{SS : StdSort} `{PD : PhysicalDevices} `{VKS : VkSession}.

Lemma is_perfect_spec f : is_perfect f = true ↔ f = perfect_format.
Proof.
  unfold is_perfect. rewrite andb_true_iff, !Z.eqb_eq. destruct f; simpl. split; [intros [-> ->]; done|by intros [= -> ->]].
Qed.

Lemma find_format_spec formats f : find_format formats = Some f → f ∈ formats ∧ f = perfect_format.
Proof.
  induction formats as [|x rest IH]; [done|]. simpl. destruct (is_perfect _) eqn:E.
  - intros [= <-]. apply is_perfect_spec in E. split; [set_solver|done].
  - intros H%IH. set_solver.
Qed.

Lemma find_format_perfect formats : perfect_format ∈ formats → find_format formats = Some perfect_format.
Proof.
  induction formats as [|x rest IH]; [by intros ?%elem_of_nil|]. simpl. intros Hin.
  destruct (is_perfect x) eqn:E.
  - by apply is_perfect_spec in E as ->.
  - apply IH. apply elem_of_cons in Hin as [<-|]; done.
Qed.

Lemma select_format_offered `{SL : !StdSortLaws} formats prefs f :
  select_swapchain_format formats prefs = Some f → f ∈ formats.
Proof.
  revert formats. induction prefs as [|p prefs IH]; intros formats; [done|]. simpl.
  destruct (select_format_by formats p) as [[g|] formats'] eqn:E.
  - intros [= <-]. destruct p; simpl in E.
    + injection E as E <-. by apply find_format_spec in E as [? _].
    + destruct formats as [|x l]; [done|]. injection E as E <-. rewrite <- (std_sort_perm (λ lhs rhs, (rate_perfect lhs <? rate_perfect rhs)%Z)).
      unfold sort_by_rate_perfect in E. destruct std_sort; [done|]. injection E as ->. set_solver.
    + injection E as E <-. destruct formats; [done|]. injection E as ->. set_solver.
  - intros H%IH. destruct p; simpl in E; [by injection E as _ <-| |by injection E as _ <-].
    destruct formats as [|x l]; [by injection E as <-|]. injection E as _ <-.
    by rewrite <- (std_sort_perm (λ lhs rhs, (rate_perfect lhs <? rate_perfect rhs)%Z)).
Qed.

Lemma find_mode_spec mode modes m : find_mode mode modes = Some m → m ∈ modes ∧ m = mode.
Proof.
  induction modes as [|x rest IH]; [done|]. simpl. destruct (Z.eqb_spec x mode).
  - intros [= <-]. set_solver.
  - intros H%IH. set_solver.
Qed.

Lemma select_mode_offered modes prefs m : select_swapchain_present_mode modes prefs = Some m → m ∈ modes.
Proof.
  induction prefs as [|p prefs IH]; [done|]. simpl. destruct (select_present_mode_by modes p) as [x|] eqn:E; [|done].
  intros [= <-]. destruct p; simpl in E; [by apply find_mode_spec in E as [? _]|].
  destruct modes; [done|]. injection E as ->. set_solver.
Qed.

(** With the engine's own preferences a choice is made whenever something is
    offered, and the perfect format is taken where it is offered. *)
Lemma my_format_chosen `{SL : !StdSortLaws} formats : formats ≠ [] →
  ∃ f, select_swapchain_format formats (format_pref my_prefs) = Some f ∧ f ∈ formats ∧
       (perfect_format ∈ formats → f = perfect_format).
Proof.
  intros Hne. cut (∃ f, select_swapchain_format formats (format_pref my_prefs) = Some f ∧
                        (perfect_format ∈ formats → f = perfect_format)).
  { intros (f & H & ?). eauto using select_format_offered. }
  simpl. destruct (find_format formats) as [g|] eqn:E.
  - exists g. split; [done|]. intros _. by apply find_format_spec in E as [_ ?].
  - destruct formats as [|x l]; [done|]. simpl.
    pose proof (std_sort_perm (λ lhs rhs, (rate_perfect lhs <? rate_perfect rhs)%Z) (x :: l)) as Hp.
    unfold sort_by_rate_perfect. destruct std_sort as [|y l'].
    { by apply Permutation_nil_l in Hp. }
    exists y. split; [done|]. intros H%find_format_perfect. congruence.
Qed.

Lemma my_mode_chosen modes : modes ≠ [] →
  ∃ m, select_swapchain_present_mode modes (present_mode_pref my_prefs) = Some m ∧ m ∈ modes.
Proof.
  intros Hne. cut (∃ m, select_swapchain_present_mode modes (present_mode_pref my_prefs) = Some m).
  { intros (m & H). eauto using select_mode_offered. }
  simpl. destruct (find_mode MAILBOX modes); [eauto|]. destruct modes; [done|]. simpl. eauto.
Qed.

(** What the driver documents of a surface: its extent limits are ordered. *)
Definition capabilities_ok (c : VkSurfaceCapabilitiesKHR) : Prop :=
  (width (minImageExtent c) ≤ width (maxImageExtent c))%Z ∧
  (height (minImageExtent c) ≤ height (maxImageExtent c))%Z ∧
  (width (currentExtent c) ≠ 4294967295%Z →
   width (minImageExtent c) ≤ width (currentExtent c) ≤ width (maxImageExtent c) ∧
   height (minImageExtent c) ≤ height (currentExtent c) ≤ height (maxImageExtent c))%Z.

Definition extent_in (c : VkSurfaceCapabilitiesKHR) (e : VkExtent2D) : Prop :=
  (width (minImageExtent c) ≤ width e ≤ width (maxImageExtent c) ∧
   height (minImageExtent c) ≤ height e ≤ height (maxImageExtent c))%Z.

Lemma clamp_spec v lo hi : (lo ≤ hi)%Z → ∃ r, clamp v lo hi = Ok r ∧ (lo ≤ r ≤ hi)%Z.
Proof.
  intros H. unfold clamp. destruct (Z.ltb_spec hi lo); [lia|]. eexists. split; [done|].
  destruct (Z.ltb_spec v lo); [lia|]. destruct (Z.ltb_spec hi v); lia.
Qed.

Lemma real_extent_in c : capabilities_ok c → ∃ e, get_real_swap_extent c = Ok e ∧ extent_in c e.
Proof.
  intros (Hw & Hh & Hcur). unfold get_real_swap_extent. destruct (Z.eqb_spec (width (currentExtent c)) 4294967295); simpl.
  - destruct glfwGetFramebufferSize as [w h]. unfold fix_to_extremes. simpl.
    destruct (clamp_spec (u32 w) _ _ Hw) as (w' & -> & ?). destruct (clamp_spec (u32 h) _ _ Hh) as (h' & -> & ?).
    rewrite !bind_Ok. eexists. split; [done|]. done.
  - eexists. split; [done|]. by apply Hcur.
Qed.

(** A device that can show images: the swapchain extension, and a surface that
    offers something. *)
Record presentable (dev : Z) : Prop := {
  pr_window : is_headless = false;
  pr_extension : "VK_KHR_swapchain"%string ∈ extensionNames dev;
  pr_formats : surfaceFormats dev ≠ [];
  pr_modes : surfacePresentModes dev ≠ [];
  pr_capabilities : capabilities_ok (surfaceCapabilities dev) }.

(** The answer is read through the slot behind the only filter of the list
    ([list_satisfies_spec]). *)
Lemma supports_swapchain_true dev : presentable dev → supports_swapchain dev = (_ ← beyond 1; Ok true).
Proof.
  intros [Hw He _ _ _]. unfold supports_swapchain.
  rewrite (list_satisfies_spec _ dev (λ _, true)).
  - cbn [length]. destruct (beyond 1) as [[|g]|]; [done|destruct g|]; done.
  - intros f ->%list_elem_of_singleton. unfold filter_satisfies. f_equal. apply all_extensions_spec. set_solver.
Qed.

Lemma window_support dev : presentable dev → get_window_swapchain_support dev =
  (_ ← beyond 1; Ok (mkSupport (surfaceCapabilities dev) (surfaceFormats dev) (surfacePresentModes dev) true)).
Proof.
  intros Hp. unfold get_window_swapchain_support, get_window_surface_capabilities, get_window_surface_formats,
    get_window_surface_present_modes, window_surface.
  rewrite (pr_window _ Hp), (supports_swapchain_true dev Hp), !bind_Ok. destruct (beyond 1); [|done].
  by rewrite !bind_Ok, tz_assert_true.
Qed.

Lemma create_info_value `{SL : !StdSortLaws} family : presentable (qf_dev family) →
  ∃ f m e, f ∈ surfaceFormats (qf_dev family) ∧ m ∈ surfacePresentModes (qf_dev family) ∧
    (perfect_format ∈ surfaceFormats (qf_dev family) → f = perfect_format) ∧
    extent_in (surfaceCapabilities (qf_dev family)) e ∧
    swapchain_create_info (Some family) my_prefs =
    (_ ← beyond 1;
     _ ← tz_assert (EnumField.contains_field (types_supported family) [Graphics; Present]);
     let c := surfaceCapabilities (qf_dev family) in
     Ok (mkSwapchainInfo (Z.min (minImageCount c) (maxImageCount c)) (format f) (colorSpace f) e
           (currentTransform c) m true)).
Proof.
  intros Hp. destruct (my_format_chosen _ (pr_formats _ Hp)) as (f & Ef & Hf & Hperf).
  destruct (my_mode_chosen _ (pr_modes _ Hp)) as (m & Em & Hm).
  destruct (real_extent_in _ (pr_capabilities _ Hp)) as (e & Ee & He).
  exists f, m, e. split; [done|]. split; [done|]. split; [done|]. split; [done|].
  unfold swapchain_create_info. cbn [of_option]. rewrite bool_decide_eq_true_2 by eauto.
  rewrite tz_assert_true, !bind_Ok, window_support by done. destruct (beyond 1); [|done]. rewrite !bind_Ok.
  cbn [sd_formats sd_present_modes sd_capabilities]. rewrite Ef, Em, Ee, bind_Ok.
  rewrite !(bool_decide_eq_true_2 (is_Some _)), tz_assert_true, !bind_Ok by eauto. cbn [of_option]. rewrite !bind_Ok.
  rewrite (pr_window _ Hp). by destruct tz_assert.
Qed.

(** What [DeviceVulkan] looks for. *)
Definition suitable_flags (flag : Z) : bool := negb (Z.land flag 1 =? 0)%Z && negb (Z.land flag 4 =? 0)%Z.

Definition suitable (dev : Z) : bool :=
  existsb suitable_flags (queueFlags dev) && all_extensions device_extensions (extensionNames dev).

(** What a device passes when the filters are evaluated up to the [g]-th: both of
    them when there are two before it. *)
Definition passes (g : nat) (dev : Z) : bool :=
  forallb id (take g [existsb suitable_flags (queueFlags dev);
                      all_extensions device_extensions (extensionNames dev)]).

Lemma passes_suitable g dev : 2 ≤ g → passes g dev = suitable dev.
Proof.
  intros Hg. unfold passes, suitable. rewrite take_ge by (cbn; lia). cbn. by rewrite andb_true_r.
Qed.

Definition family_at (dev : Z) (i : nat) (flag : Z) : DeviceQueueFamily := mkFamily dev i (family_types dev i flag).

Lemma contains_requirements dev i flag :
  EnumField.contains_field (types_supported (family_at dev i flag)) type_requirements = suitable_flags flag.
Proof.
  apply eq_bool_prop_intro. rewrite !Is_true_true, EnumField.contains_field_spec. cbn [types_supported family_at].
  unfold suitable_flags, type_requirements. rewrite andb_true_iff.
  setoid_rewrite elem_of_family_types. split.
  - intros H. split; [apply (H Graphics)|apply (H Transfer)]; set_solver.
  - intros [H1 H2] t [->| ->%list_elem_of_singleton]%elem_of_cons; done.
Qed.

Lemma some_family_suitable dev :
  some_family type_requirements (imap (family_at dev) (queueFlags dev)) = existsb suitable_flags (queueFlags dev).
Proof.
  generalize (family_at dev), (contains_requirements dev), (queueFlags dev). intros g Hg l. revert g Hg.
  induction l as [|flag l IH]; intros g Hg; [done|]. cbn [imap some_family existsb]. rewrite Hg.
  destruct (suitable_flags flag); [done|]. apply (IH (g ∘ S)). intros i. apply Hg.
Qed.

(** The family chosen is the last one that fits. *)
Lemma choose_family_last dev :
  existsb suitable_flags (queueFlags dev) = true →
  ∃ i flag, choose_family type_requirements (imap (family_at dev) (queueFlags dev)) = Some (family_at dev i flag) ∧
    queueFlags dev !! i = Some flag ∧ suitable_flags flag = true ∧
    ∀ j f, i < j → queueFlags dev !! j = Some f → suitable_flags f = false.
Proof.
  unfold choose_family. induction (queueFlags dev) as [|flag l IH] using rev_ind; [done|].
  rewrite existsb_app, imap_app, foldl_app. cbn [imap foldl existsb]. unfold compose. rewrite contains_requirements, Nat.add_0_r.
  destruct (suitable_flags flag) eqn:E; intros H.
  - exists (length l), flag. split; [done|]. rewrite list_lookup_middle by done. split_and!; [done|done|].
    intros j f Hj Hf%lookup_lt_Some. rewrite length_app in Hf. simpl in Hf. lia.
  - simpl in H. rewrite orb_false_r in H. destruct (IH H) as (i & fl & E1 & E2 & E3 & E4). exists i, fl.
    split; [done|]. split; [by apply lookup_app_l_Some|]. split; [done|].
    intros j f Hj [Hf|[Hl Hf]]%lookup_app_Some; [by apply (E4 j)|].
    apply list_lookup_singleton_Some in Hf as [_ <-]. done.
Qed.

Lemma choose_family_none dev : existsb suitable_flags (queueFlags dev) = false →
  choose_family type_requirements (imap (family_at dev) (queueFlags dev)) = None.
Proof.
  unfold choose_family. induction (queueFlags dev) as [|flag l IH] using rev_ind; [done|].
  rewrite existsb_app, imap_app, foldl_app. cbn [imap foldl existsb]. unfold compose. rewrite contains_requirements.
  destruct (suitable_flags flag); [by rewrite orb_true_r|]. rewrite orb_false_r. exact IH.
Qed.

Lemma select_device_family dev family : select_device = Ok (dev, family) → ∃ i flag, family = family_at dev i flag.
Proof.
  unfold select_device. intros E.
  do 4 (apply bind_Ok_inv in E as (? & _ & E)). apply bind_Ok_inv in E as (families & Ef & E).
  apply bind_Ok_inv in E as (? & _ & E). apply bind_Ok_inv in E as (fam & Ec & E). injection E as -> ->.
  rewrite get_queue_families_spec in Ef. injection Ef as <-.
  assert (H : ∀ l (acc : option DeviceQueueFamily) f,
    foldl (λ chosen g, if EnumField.contains_field (types_supported g) type_requirements then Some g else chosen) acc l
    = Some f → acc = Some f ∨ f ∈ l).
  { induction l as [|g l IH]; intros acc f; cbn [foldl]; [auto|]. intros [H|H]%IH; [|set_solver].
    destruct (EnumField.contains_field (types_supported g) type_requirements); [|auto]. injection H as ->. set_solver. }
  unfold choose_family in Ec. destruct (foldl _ None _) as [f|] eqn:E; [|done]. injection Ec as ->.
  apply H in E as [?|(i & flag & -> & _)%elem_of_lookup_imap]; [done|]. by exists i, flag.
Qed.

Lemma foldl_add_app (l acc : list Z) : foldl BasicList.add acc l = acc ++ l.
Proof.
  revert acc. induction l as [|x l IH]; intros acc; simpl; [by rewrite app_nil_r|].
  rewrite IH. unfold BasicList.add. by rewrite <- app_assoc.
Qed.

Lemma filter_find (p : Z → bool) l :
  head (filter (λ d, p d = true) l) = List.find p l.
Proof. induction l as [|x l IH]; [done|]. rewrite filter_cons. simpl. by destruct (p x) eqn:E; case_decide. Qed.

Lemma filtered_devices devices : devices ≠ [] →
  filter_all [DeviceQueueFamilyFilter type_requirements; DeviceExtensionSupportFilter device_extensions] devices =
  (g ← beyond 2; Ok (filter (λ d, passes g d = true) devices)).
Proof.
  intros Hne. rewrite (filter_all_spec _ _ (λ f d, match f with
    | DeviceQueueFamilyFilter _ => existsb suitable_flags (queueFlags d)
    | _ => all_extensions device_extensions (extensionNames d) end)).
  - cbn [length]. destruct (beyond 2) as [g|]; [|done]. rewrite !bind_Ok. f_equal. apply list_filter_iff. intros d.
    by destruct g as [|[|[|]]].
  - done.
  - intros f d Hf _. apply elem_of_cons in Hf as [->| ->%list_elem_of_singleton]; [|done].
    cbn [filter_satisfies]. rewrite get_queue_families_spec, bind_Ok.
    by rewrite <- some_family_suitable.
Qed.

End Facts.

(** ** Properties *)

Section Properties.
Context `{BC : BuildConfig} `{SS : StdSort} `{PD : PhysicalDevices} `{VKS : VkSession}.

(** C17: to choose a device the filters are enumerated, and every comparison with
    the end of their list reads the slot behind the last of them, which is
    undefined in C++ ([beyond 2] is what the machine gives there).  Where that
    read faults, so does the choice.  Where it does not, [DeviceVulkan] takes the
    first physical device that passes the filters in front of the one the slot
    points to, which are both of them unless the slot happens to hold one of
    their addresses: a queue family for graphics and transfer, and all the
    extensions.  Of that device it takes the last such family; when no device
    passes it traps (debug) or reads the front of an empty list (release). *)
Theorem device_selection :
  is_initialised = true → vkEnumeratePhysicalDevices ≠ [] →
  match beyond 2 with
  | Fault e => select_device = Fault e
  | Ok g =>
      (2 ≤ g → ∀ dev, passes g dev = suitable dev) ∧
      match List.find (passes g) vkEnumeratePhysicalDevices with
      | Some dev =>
          if existsb suitable_flags (queueFlags dev) then
            ∃ i flag, select_device = Ok (dev, family_at dev i flag) ∧
              queueFlags dev !! i = Some flag ∧ suitable_flags flag = true ∧
              (∀ j f, i < j → queueFlags dev !! j = Some f → suitable_flags f = false) ∧
              (2 ≤ g → ∀ e, e ∈ device_extensions → e ∈ extensionNames dev)
          else select_device = Fault (if TZ_DEBUG then AssertTrap else BadOptional)
      | None => select_device = Fault (if TZ_DEBUG then AssertTrap else OutOfBounds)
      end
  end.
Proof.
  intros Hi Hne. unfold select_device, get_all_devices. rewrite Hi, foldl_add_app.
  destruct (Nat.ltb_spec 0 (length vkEnumeratePhysicalDevices)) as [_|H].
  2: { destruct vkEnumeratePhysicalDevices; [done|]. simpl in H. lia. }
  rewrite tz_assert_true, !bind_Ok. cbn [app]. rewrite filtered_devices by done.
  destruct (beyond 2) as [g|e]; [|done]. split; [intros; by apply passes_suitable|].
  rewrite !bind_Ok, <- filter_find.
  destruct (filter _ _) as [|dev rest] eqn:Ef; cbn [head].
  - unfold tz_assert. simpl. by destruct TZ_DEBUG.
  - change (BasicList.empty (dev :: rest)) with false. change (BasicList.front (dev :: rest)) with (Ok dev).
    cbn [negb]. rewrite tz_assert_true, !bind_Ok.
    assert (Hs : passes g dev = true).
    { assert (dev ∈ filter (λ d, passes g d = true) vkEnumeratePhysicalDevices) as [? _]%list_elem_of_filter
        by (rewrite Ef; set_solver). done. }
    rewrite get_queue_families_spec, bind_Ok.
    change (imap (λ i flag, mkFamily dev i (family_types dev i flag)) (queueFlags dev))
      with (imap (family_at dev) (queueFlags dev)).
    destruct (existsb suitable_flags (queueFlags dev)) eqn:Hfam.
    2: { rewrite (choose_family_none dev Hfam). unfold tz_assert. by destruct TZ_DEBUG. }
    destruct (choose_family_last dev Hfam) as (i & flag & E & Hl & Hf & Hlast). rewrite E.
    exists i, flag. rewrite bool_decide_eq_true_2 by eauto. rewrite tz_assert_true, !bind_Ok.
    split_and!; try done. intros Hg. rewrite (passes_suitable _ _ Hg) in Hs. unfold suitable in Hs.
    apply andb_true_iff in Hs as [_ Hext]. by apply all_extensions_spec.
Qed.

(** C16: for a device that can show images and a family with graphics and
    presentation, where the read behind the end of the list of filters, which is
    undefined in C++ ([beyond 1] is what the machine gives there), does not
    fault, the swapchain that is asked for is one the surface allows: its format
    and present mode are offered (the format the engine prefers if it is among
    them), its extent lies in the limits of the surface and, on a surface that
    bounds the number of images, the number asked for lies in the bounds.  Where
    that read faults, so does the constructor. *)
Theorem swapchain_request_valid `{SL : !StdSortLaws} family :
  presentable (qf_dev family) →
  EnumField.contains_field (types_supported family) [Graphics; Present] = true →
  match beyond 1 with
  | Fault e => swapchain_create_info (Some family) my_prefs = Fault e
  | Ok _ => ∃ create f, swapchain_create_info (Some family) my_prefs = Ok create ∧
    f ∈ surfaceFormats (qf_dev family) ∧ ci_imageFormat create = format f ∧ ci_imageColorSpace create = colorSpace f ∧
    (perfect_format ∈ surfaceFormats (qf_dev family) → f = perfect_format) ∧
    ci_presentMode create ∈ surfacePresentModes (qf_dev family) ∧
    extent_in (surfaceCapabilities (qf_dev family)) (ci_imageExtent create) ∧
    let c := surfaceCapabilities (qf_dev family) in
    ((minImageCount c ≤ maxImageCount c)%Z → ci_minImageCount create = minImageCount c)
  end.
Proof.
  intros Hp Hq. destruct (create_info_value family Hp) as (f & m & e & Hf & Hm & Hperf & He & E).
  destruct (beyond 1) as [g|]; [|done].
  rewrite Hq, tz_assert_true, !bind_Ok in E. eexists _, f. split; [exact E|]. cbn.
  split_and!; try done; try apply He. lia.
Qed.

(** a surface that sets no upper bound reports [maxImageCount = 0]; the
    minimum with it asks for no image at all, below the [minImageCount] that
    must be respected. *)
Theorem unbounded_surface_requests_no_images `{SL : !StdSortLaws} family g :
  beyond 1 = Ok g → presentable (qf_dev family) →
  EnumField.contains_field (types_supported family) [Graphics; Present] = true →
  maxImageCount (surfaceCapabilities (qf_dev family)) = 0%Z →
  (0 < minImageCount (surfaceCapabilities (qf_dev family)))%Z →
  ∃ create, swapchain_create_info (Some family) my_prefs = Ok create ∧ ci_minImageCount create = 0%Z.
Proof.
  intros Hb Hp Hq Hmax Hmin. destruct (create_info_value family Hp) as (f & m & e & _ & _ & _ & _ & E).
  rewrite Hb, Hq, tz_assert_true, !bind_Ok in E. eexists. split; [exact E|]. cbn. lia.
Qed.

(** the family is chosen for graphics and transfer only: if the one chosen
    cannot present, the swapchain traps in a debug build, whatever the other
    families of the device can do. *)
Theorem chosen_family_may_not_present `{SL : !StdSortLaws} dev family g :
  beyond 1 = Ok g → select_device = Ok (dev, family) → presentable (qf_dev family) →
  surfaceSupport (qf_dev family) (qf_index family) = false → TZ_DEBUG = true →
  swapchain_create_info (Some family) my_prefs = Fault AssertTrap.
Proof.
  intros Hb Hsel Hp Hs Hd. destruct (select_device_family dev family Hsel) as (i & flag & Hf). rewrite Hf in Hs. simpl in Hs.
  destruct (create_info_value family Hp) as (f & m & e & _ & _ & _ & _ & E).
  assert (EnumField.contains_field (types_supported family) [Graphics; Present] = false) as Hc.
  { apply not_true_iff_false. rewrite EnumField.contains_field_spec, Hf. cbn [types_supported family_at].
    intros H. specialize (H Present ltac:(set_solver)). apply elem_of_family_types in H. simpl in H.
    rewrite Hs, andb_false_r in H. done. }
  rewrite E, Hb, Hc. unfold tz_assert. by rewrite Hd.
Qed.

(** [get_modules_matching] returns exactly the memory types that have the
    types of a field and no others, if the field lists them in the order of the
    enumeration; the same types in another order match nothing. *)
Theorem memory_modules_matching dev field :
  (∀ flags, parse_field flags = field → ∀ m, m ∈ get_modules_matching (MemoryProperties_new dev) field ↔
     m ∈ MemoryProperties_new dev ∧ ∀ t, t ∈ mm_types m ↔ t ∈ field) ∧
  ((∀ flags, parse_field flags ≠ field) → get_modules_matching (MemoryProperties_new dev) field = []).
Proof.
  assert (Hmod : ∀ m, m ∈ MemoryProperties_new dev → ∃ flags, mm_types m = parse_field flags).
  { intros m (i & [flags heap] & -> & _)%elem_of_lookup_imap. by exists flags. }
  split.
  - intros flags Hfield m. rewrite get_modules_matching_spec. split; [intros [Hm Ht]; rewrite Ht; done|].
    intros [Hm Ht]. split; [done|]. destruct (Hmod m Hm) as [flags' Hf']. rewrite Hf', <- Hfield in *. clear Hfield Hf'.
    rewrite !parse_field_spec in *. apply list_filter_iff. intros t. specialize (Ht t). rewrite !list_elem_of_filter in Ht.
    assert (t ∈ [DeviceLocal; HostVisible; HostCoherent; HostCached]) by (destruct t; rewrite !elem_of_cons; auto). naive_solver.
  - intros Hne. destruct (get_modules_matching _ field) as [|m l] eqn:E; [done|]. exfalso.
    assert (m ∈ get_modules_matching (MemoryProperties_new dev) field) as [Hm Ht]%get_modules_matching_spec
      by (rewrite E; apply elem_of_cons; auto).
    destruct (Hmod m Hm) as [flags Hf]. apply (Hne flags). congruence.
Qed.

End Properties.

(** ** A machine

    Device 7 has a family for everything, and a second one that cannot
    present. *)

Definition identity_sort : StdSort := {| std_sort _ l := l |}.

Lemma identity_sort_laws : @StdSortLaws identity_sort.
Proof. split. intros lt l. reflexivity. Qed.

Definition sample_capabilities (max : Z) : VkSurfaceCapabilitiesKHR :=
  mkCapabilities 2 max (mkExtent 4294967295 4294967295) (mkExtent 1 1) (mkExtent 4096 4096) 1.

Definition machine (flags : list Z) (max : Z) : PhysicalDevices := {|
  vkEnumeratePhysicalDevices := [6; 7]%Z;
  deviceType _ := VK_PHYSICAL_DEVICE_TYPE_DISCRETE_GPU;
  queueFlags d := if (d =? 6)%Z then [2%Z] else flags;
  surfaceSupport _ i := Nat.eqb i 0;
  extensionNames _ := ["VK_KHR_maintenance1"%string; "VK_KHR_swapchain"%string];
  memoryTypes _ := [(1, 0); (6, 1)]%Z;
  surfaceCapabilities _ := sample_capabilities max;
  surfaceFormats _ := [mkSurfaceFormat 37 0; perfect_format];
  surfacePresentModes _ := [2; 1]%Z;
  glfwGetFramebufferSize := (800, 600)%Z |}.

(** A machine on which the slot behind the filters can be read and holds none of
    their addresses. *)
Definition window_session : VkSession := {| is_initialised := true; is_headless := false; beyond n := Ok n |}.

(** A machine that checks every read chooses no device. *)
Example checked_reads_choose_nothing :
  let VKS := {| is_initialised := true; is_headless := false; beyond _ := Fault OutOfBounds |} in
  select_device (BC := debug_build) (PD := machine [7]%Z 3) (VKS := VKS) = Fault OutOfBounds.
Proof. reflexivity. Qed.

Lemma machine_presentable flags max : @presentable (machine flags max) window_session 7.
Proof.
  split; simpl; try done.
  rewrite !elem_of_cons. auto.
Qed.

Lemma device_selection_witness :
  let _ := machine [7; 5]%Z 3 in let _ := window_session in let _ := debug_build in
  ∃ i flag, select_device = Ok (7%Z, family_at 7 i flag) ∧ i = 1 ∧ flag = 5%Z.
Proof.
  intros PD VKS BC.
  destruct (device_selection (PD := PD) (VKS := VKS)) as [_ (i & flag & E & Hl & Hs & _)];
    [reflexivity|discriminate|].
  exists i, flag. split; [exact E|]. vm_compute in E. injection E as -> E. by destruct i as [|[|[]]]; simplify_eq/=.
Defined.

Lemma swapchain_request_valid_witness :
  let _ := machine [7]%Z 3 in let _ := window_session in let _ := debug_build in let _ := identity_sort in
  ∃ create f, swapchain_create_info (Some (family_at 7 0 7)) my_prefs = Ok create ∧
    f ∈ surfaceFormats 7 ∧ ci_imageFormat create = format f ∧ ci_imageColorSpace create = colorSpace f ∧
    (perfect_format ∈ surfaceFormats 7 → f = perfect_format) ∧
    ci_presentMode create ∈ surfacePresentModes 7 ∧ extent_in (surfaceCapabilities 7) (ci_imageExtent create) ∧
    let c := surfaceCapabilities 7 in ((minImageCount c ≤ maxImageCount c)%Z → ci_minImageCount create = minImageCount c).
Proof.
  intros PD VKS BC SS.
  refine (swapchain_request_valid (SL := identity_sort_laws) (family_at 7 0 7) _ _).
  - apply machine_presentable.
  - vm_compute. reflexivity.
Defined.

Lemma unbounded_surface_requests_no_images_witness :
  let _ := machine [7]%Z 0 in let _ := window_session in let _ := release_build in let _ := identity_sort in
  ∃ create, swapchain_create_info (Some (family_at 7 0 7)) my_prefs = Ok create ∧ ci_minImageCount create = 0%Z.
Proof.
  intros PD VKS BC SS.
  apply (unbounded_surface_requests_no_images (SL := identity_sort_laws) (family_at 7 0 7) 1).
  - reflexivity.
  - apply machine_presentable.
  - vm_compute. reflexivity.
  - reflexivity.
  - vm_compute. reflexivity.
Defined.

Lemma chosen_family_may_not_present_witness :
  let _ := machine [7; 5]%Z 3 in let _ := window_session in let _ := debug_build in let _ := identity_sort in
  EnumField.contains_field (family_types 7 0 7) [Graphics; Transfer; Present] = true ∧
  swapchain_create_info (Some (family_at 7 1 5)) my_prefs = Fault AssertTrap.
Proof.
  intros PD VKS BC SS. split; [vm_compute; reflexivity|].
  apply (chosen_family_may_not_present (SL := identity_sort_laws) 7 (family_at 7 1 5) 1).
  - reflexivity.
  - vm_compute. reflexivity.
  - apply machine_presentable.
  - reflexivity.
  - reflexivity.
Defined.
