(* ===== verification/VkCommand.v ===== *)
(** * Vulkan: buffers, images and command buffers

    [vk::Buffer] (backend/vk/buffer.{hpp,cpp}), [vk::Image] (image.{hpp,cpp}),
    [CommandBuffer], [CommandBufferRecording] and [CommandPool]
    (command.{hpp,inl,cpp}).  Memory belongs to the allocator and the device: a
    class of calls and what their documentation says of them.  The calls that
    record a command are kept, per command buffer, in the order they are made;
    the commands of a submission take effect on the memory at the latest when
    its fence has been waited for. *)

From S2P Require Import Prelude Memory VkFrame.

(** ** Commands *)

Inductive Layout :=
  LayoutUndefined | ColourAttachment | DepthAttachment | LayoutPresent
| LayoutTransferSource | LayoutTransferDestination | ShaderResource.

#[export] Instance Layout_eq_dec : EqDecision Layout.
Proof. solve_decision. Defined.

Inductive stage := TOP_OF_PIPE | TRANSFER | ALL_GRAPHICS.
Inductive access := NO_ACCESS | TRANSFER_WRITE | SHADER_READ.

(** A [VkClearValue], a union: four floats, or a depth, a float, and a stencil. *)
Inductive VkClearValue := ClearColor (rgba : list Z) | ClearDepthStencil (depth stencil : Z).

(** The area rendered to starts at the origin. *)
Inductive vkcmd :=
| CmdBeginRenderPass (render_pass framebuffer : Z) (area : Z * Z) (clear_values : list VkClearValue)
| CmdEndRenderPass
| CmdBindPipeline (pipeline : Z)
| CmdBindDescriptorSets (layout set : Z)
| CmdBindVertexBuffers (buf : Z)
| CmdBindIndexBuffer (buf : Z)
| CmdDraw (vertex_count instance_count first_vertex first_instance : Z)
| CmdDrawIndexed (index_count instance_count first_index vertex_offset first_instance : Z)
| CmdDrawIndexedIndirect (buf drawCount stride : Z)
| CmdCopyBuffer (src dst : Z) (size : nat)
| CmdCopyBufferToImage (src dst : Z) (layout : Layout) (w h : Z)
| CmdPipelineBarrier (src_stage dst_stage : stage) (src_access dst_access : access) (image : Z) (old new : Layout).

(** ** The allocator and the device *)

Class Vma := {
  vma_state : Type;
  vmaCreateBuffer : heap * vma_state → Z → bool → bool → nat → heap * vma_state * option (Z * option ptr);
  vmaMapMemory : vma_state → Z → vma_state * option ptr;
  vmaUnmapMemory : vma_state → Z → vma_state;
  vmaDestroyBuffer : heap * vma_state → Z → heap * vma_state;
  vmaCreateImage : vma_state → Z → Z → Z → Z → vma_state * option Z;
  vkAllocateCommandBuffers : vma_state → nat → vma_state * option (list Z);
  vkFreeCommandBuffers : vma_state → list Z → vma_state;
  vkBeginCommandBuffer : vma_state → Z → bool;
  vkEndCommandBuffer : vma_state → Z → bool;
  device_execute : heap * vma_state → list vkcmd → heap * vma_state }.

(** What is documented of the calls that succeed: [vma_block m b] is the memory
    of buffer [b], and the host may map the memory it sees, which is that of the
    buffers created for its access. *)
Class VmaSpec `{VM : Vma} := {
  vma_block : vma_state → Z → option nat;
  host_visible : nat → bool;
  create_buffer_spec : ∀ h m usage cpu mapped size h' m' b p,
    vmaCreateBuffer (h, m) usage cpu mapped size = (h', m', Some (b, p)) →
    usage ≠ 0%Z → 0 < size → (mapped = true → cpu = true) →
    ∃ blk bs, p = (if mapped then Some (mkPtr blk 0) else None) ∧ b ≠ 0%Z ∧
      vma_block m b = None ∧ h !! blk = None ∧ (∀ n, vma_block m n ≠ Some blk) ∧
      h' = <[blk := bs]> h ∧ length bs = size ∧ (cpu = true → host_visible blk = true) ∧
      ∀ n, vma_block m' n = if decide (n = b) then Some blk else vma_block m n;
  map_memory_spec : ∀ m b blk, vma_block m b = Some blk → host_visible blk = true →
    (∀ p, snd (vmaMapMemory m b) = Some p → p = mkPtr blk 0) ∧
    ∀ n, vma_block (fst (vmaMapMemory m b)) n = vma_block m n;
  unmap_memory_spec : ∀ m b n, vma_block (vmaUnmapMemory m b) n = vma_block m n;
  destroy_buffer_spec : ∀ h m b n, n ≠ b →
    vma_block (snd (vmaDestroyBuffer (h, m) b)) n = vma_block m n ∧
    ∀ blk, vma_block m n = Some blk → fst (vmaDestroyBuffer (h, m) b) !! blk = h !! blk;
  destroyed_buffer_spec : ∀ h m b, vma_block (snd (vmaDestroyBuffer (h, m) b)) b = None;
  create_image_spec : ∀ m w hh f u n, vma_block (fst (vmaCreateImage m w hh f u)) n = vma_block m n;
  allocate_spec : ∀ m n, (∀ l, snd (vkAllocateCommandBuffers m n) = Some l → length l = n ∧ NoDup l) ∧
    ∀ b, vma_block (fst (vkAllocateCommandBuffers m n)) b = vma_block m b;
  free_spec : ∀ m l b, vma_block (vkFreeCommandBuffers m l) b = vma_block m b;
  execute_copy_spec : ∀ h m src dst n bs bd ls ld, vma_block m src = Some bs → vma_block m dst = Some bd →
    h !! bs = Some ls → h !! bd = Some ld → bs ≠ bd → n ≤ length ls → n ≤ length ld →
    device_execute (h, m) [CmdCopyBuffer src dst n] = (<[bd := splice 0 (take n ls) ld]> h, m);
  (* commands on images do not write to buffers, when copies read within the buffers they name (a texel of
     every format the engine gives its images has four bytes) *)
  execute_image_spec : ∀ h m l, Forall (λ x, match x with
      | CmdPipelineBarrier _ _ _ _ _ _ _ => True
      | CmdCopyBufferToImage src _ _ w hh => ∃ bs ls, vma_block m src = Some bs ∧ h !! bs = Some ls ∧
          (4 * w * hh ≤ Z.of_nat (length ls))%Z
      | _ => False
      end) l →
    ∀ b blk, vma_block m b = Some blk → fst (device_execute (h, m) l) !! blk = h !! blk;
  execute_blocks_spec : ∀ h m l b, vma_block (snd (device_execute (h, m) l)) b = vma_block m b }.

(** Calls fail only when a resource of the machine runs out.  This machine has
    enough of them. *)
Class VmaSucceeds `{VM : Vma} {VMS : VmaSpec} : Prop := {
  buffer_created : ∀ s usage cpu mapped size, usage ≠ 0%Z → 0 < size →
    is_Some (snd (vmaCreateBuffer s usage cpu mapped size));
  memory_mapped : ∀ m b blk, vma_block m b = Some blk → host_visible blk = true → is_Some (snd (vmaMapMemory m b));
  command_buffers_allocated : ∀ m n, is_Some (snd (vkAllocateCommandBuffers m n));
  recording_begun : ∀ m c, vkBeginCommandBuffer m c = true;
  recording_ended : ∀ m c, vkEndCommandBuffer m c = true }.

(** ** The world *)

Record vkworld `{VM : Vma} `{V : Vk} := mkVkWorld {
  v_heap : heap; v_vma : vma_state; v_sync : vk_state; v_cmds : gmap Z (list vkcmd) }.
Arguments mkVkWorld {_ _}.

Section Primitives.
Context `{VM : Vma} `{V : Vk}.

Definition on_sync {A} (m : ST vk_state A) : ST vkworld A := λ w,
  match m (v_sync w) with
  | Ok (a, s) => Ok (a, mkVkWorld (v_heap w) (v_vma w) s (v_cmds w))
  | Fault e => Fault e
  end.

Definition on_vma {A} (f : vma_state → vma_state * A) : ST vkworld A := λ w,
  let '(m, a) := f (v_vma w) in Ok (a, mkVkWorld (v_heap w) m (v_sync w) (v_cmds w)).

Definition on_memory {A} (f : heap * vma_state → heap * vma_state * A) : ST vkworld A := λ w,
  let '(h, m, a) := f (v_heap w, v_vma w) in Ok (a, mkVkWorld h m (v_sync w) (v_cmds w)).

Definition on_vheap {A} (f : heap → res (heap * A)) : ST vkworld A := λ w,
  match f (v_heap w) with
  | Ok (h, a) => Ok (a, mkVkWorld h (v_vma w) (v_sync w) (v_cmds w))
  | Fault e => Fault e
  end.

Definition on_cmds (f : gmap Z (list vkcmd) → gmap Z (list vkcmd)) : ST vkworld unit := λ w,
  Ok (tt, mkVkWorld (v_heap w) (v_vma w) (v_sync w) (f (v_cmds w))).

(** A [vkCmd...] call on command buffer [c]. *)
Definition cmd (c : Z) (x : vkcmd) : ST vkworld unit :=
  on_cmds (λ m, <[c := default [] (m !! c) ++ [x]]> m).

End Primitives.

(** ** Buffer *)

Inductive BufferType := Vertex | Index | Staging | Uniform | DrawIndirect.
Inductive BufferPurpose := TransferSource | TransferDestination | NothingSpecial.
Inductive MemoryResidency := CPU | CPUPersistent | GPU.

#[export] Instance BufferType_eq_dec : EqDecision BufferType.
Proof. solve_decision. Defined.
#[export] Instance MemoryResidency_eq_dec : EqDecision MemoryResidency.
Proof. solve_decision. Defined.

Record Buffer := mkBuffer { buffer : Z; persistent_mapped_ptr : option ptr; type : BufferType }.

Section Buffer.
Context `{BC : BuildConfig} `{VM : Vma} `{V : Vk}.

Definition type_usage (t : BufferType) : Z :=
  match t with Vertex => 128 | Index => 64 | Staging => 0 | Uniform => 16 | DrawIndirect => 256 end.

Definition purpose_usage (t : BufferType) (p : BufferPurpose) : res Z :=
  match p with
  | TransferSource => _ ← tz_assert (bool_decide (t = Staging)); Ok 1%Z
  | TransferDestination => Ok (Z.lor (type_usage t) 2)
  | NothingSpecial => Ok (type_usage t)
  end.

(** A failed creation leaves [alloc_result] indeterminate, which a persistent
    buffer reads before the assertion. *)
Definition Buffer_new (t : BufferType) (purpose : BufferPurpose) (residency : MemoryResidency) (size_bytes : nat)
    : ST vkworld Buffer :=
  usage ← lift (purpose_usage t purpose);
  let persistent := bool_decide (residency = CPUPersistent) in
  r ← on_memory (λ s, vmaCreateBuffer s usage (bool_decide (residency ≠ GPU)) persistent size_bytes);
  match r with
  | Some (b, p) => mret (mkBuffer b (if persistent then p else None) t)
  | None =>
      if persistent then lift (Fault Uninitialised) else
      _ ← lift (tz_assert false); mret (mkBuffer 0 None t)
  end.

Definition Buffer_null : Buffer := mkBuffer 0 None Vertex.

Definition Buffer_is_null (b : Buffer) : bool := (buffer b =? 0)%Z.

Definition ensure_notnull (b : Buffer) : res unit := tz_assert (negb (Buffer_is_null b)).

Definition Buffer_get_type (b : Buffer) : res BufferType := _ ← ensure_notnull b; Ok (type b).

Definition Buffer_destroy (b : Buffer) : ST vkworld unit :=
  if Buffer_is_null b then mret tt else on_memory (λ s, (vmaDestroyBuffer s (buffer b), tt)).

(** [operator=(Buffer&&)] exchanges the buffers; the second component is what
    the source then owns. *)
Definition Buffer_move_assign (this rhs : Buffer) : Buffer * Buffer := (rhs, this).

(** Mapping memory that cannot be mapped leaves [data] indeterminate. *)
Definition Buffer_map_memory (b : Buffer) : ST vkworld ptr :=
  _ ← lift (ensure_notnull b);
  match persistent_mapped_ptr b with
  | Some p => mret p
  | None => p ← on_vma (λ m, vmaMapMemory m (buffer b)); lift (of_option Uninitialised p)
  end.

Definition Buffer_unmap_memory (b : Buffer) : ST vkworld unit :=
  _ ← lift (ensure_notnull b);
  match persistent_mapped_ptr b with
  | Some _ => mret tt
  | None => on_vma (λ m, (vmaUnmapMemory m (buffer b), tt))
  end.

Definition Buffer_write (b : Buffer) (bytes : list Z) : ST vkworld unit :=
  _ ← lift (ensure_notnull b);
  data ← Buffer_map_memory b;
  _ ← on_vheap (λ h, h' ← memcpy h data (Owned bytes); Ok (h', tt));
  Buffer_unmap_memory b.

(** A member assigned from a temporary: exchanged, then the temporary, which
    holds the old buffer, is destroyed. *)
Definition Buffer_assign (member value : Buffer) : ST vkworld Buffer :=
  let '(member, temporary) := Buffer_move_assign member value in
  _ ← Buffer_destroy temporary; mret member.

Definition optional_assign (member : option Buffer) (value : Buffer) : ST vkworld (option Buffer) :=
  match member with
  | Some b => b ← Buffer_assign b value; mret (Some b)
  | None => mret (Some value)
  end.

Definition optional_reset (member : option Buffer) : ST vkworld (option Buffer) :=
  match member with
  | Some b => _ ← Buffer_destroy b; mret None
  | None => mret None
  end.

End Buffer.

(** ** Image *)

Record Image := mkImage { image : Z; img_width : Z; img_height : Z; img_format : Z; layout : Layout }.

Section Image.
Context `{BC : BuildConfig} `{VM : Vma} `{V : Vk}.

Definition Image_new (w h fmt usage : Z) (residency : MemoryResidency) : ST vkworld Image :=
  _ ← match residency with CPU | GPU => mret tt | CPUPersistent => lift tz_error end;
  r ← on_vma (λ m, vmaCreateImage m w h fmt usage);
  _ ← lift (tz_assert (bool_decide (is_Some r)));
  mret (mkImage (default 0%Z r) w h fmt LayoutUndefined).

End Image.

(** ** Command buffers *)

Record CommandBuffer := mkCommandBuffer { command_buffer : Z; currently_recording : bool }.
Record CommandPool := mkCommandPool { pool_native : Z; buffers : list CommandBuffer }.

Section Commands.
Context `{BC : BuildConfig} `{VM : Vma} `{V : Vk}.

Definition get_buffer_natives (pool : CommandPool) : list Z := command_buffer <$> buffers pool.

(** [with(count)]: the handles are written over the first [count] natives. *)
Definition CommandPool_with (pool : CommandPool) (count : nat) : ST vkworld (nat * CommandPool) :=
  let index := length (buffers pool) in
  let bufs := buffers pool ++ replicate count (mkCommandBuffer 0 false) in
  let natives := command_buffer <$> bufs in
  r ← on_vma (λ m, vkAllocateCommandBuffers m count);
  let natives := match r with Some l => l ++ drop count natives | None => natives end in
  let bufs := zip_with (λ b n, mkCommandBuffer n (currently_recording b)) bufs natives in
  _ ← lift (tz_assert (bool_decide (is_Some r)));
  mret (index, mkCommandPool (pool_native pool) bufs).

Definition CommandPool_empty (pool : CommandPool) : bool := match buffers pool with [] => true | _ => false end.

(** Every buffer of the pool is freed: none may be pending. *)
Definition CommandPool_clear (pool : CommandPool) : ST vkworld CommandPool :=
  _ ← st_each (λ c, on_sync (reuse_command_buffer c)) (get_buffer_natives pool);
  _ ← on_vma (λ m, (vkFreeCommandBuffers m (get_buffer_natives pool), tt));
  mret (mkCommandPool (pool_native pool) []).

Definition CommandPool_at (pool : CommandPool) (idx : nat) : res CommandBuffer := at_index (buffers pool) idx.

(** [CommandBuffer::reset]: the buffer may not be pending. *)
Definition CommandBuffer_reset (pool : CommandPool) (idx : nat) : ST vkworld unit :=
  b ← lift (CommandPool_at pool idx);
  _ ← lift (tz_assert (negb (currently_recording b)));
  _ ← on_sync (reuse_command_buffer (command_buffer b));
  on_cmds (λ m, <[command_buffer b := []]> m).

Definition set_recording (pool : CommandPool) (idx : nat) (r : bool) : res CommandPool :=
  b ← CommandPool_at pool idx;
  _ ← tz_assert (if r then negb (currently_recording b) else currently_recording b);
  bufs ← set_index (buffers pool) idx (mkCommandBuffer (command_buffer b) r);
  Ok (mkCommandPool (pool_native pool) bufs).

(** [CommandBuffer::record] and the end of the recording's scope, around what is
    recorded.  Beginning a recording discards what the buffer held, which may
    not be pending. *)
Definition recording (pool : CommandPool) (idx : nat) (body : Z → ST vkworld unit) : ST vkworld CommandPool :=
  pool ← lift (set_recording pool idx true);
  b ← lift (CommandPool_at pool idx);
  let c := command_buffer b in
  _ ← on_sync (reuse_command_buffer c);
  ok ← gets (λ w, vkBeginCommandBuffer (v_vma w) c);
  _ ← lift (tz_assert ok);
  _ ← on_cmds (λ m, <[c := []]> m);
  _ ← body c;
  ok ← gets (λ w, vkEndCommandBuffer (v_vma w) c);
  _ ← lift (tz_assert ok);
  lift (set_recording pool idx false).

Definition buffer_copy_buffer (c : Z) (source destination : Buffer) (n : nat) : ST vkworld unit :=
  _ ← lift (tz_assert (negb (Buffer_is_null source)));
  _ ← lift (tz_assert (negb (Buffer_is_null destination)));
  cmd c (CmdCopyBuffer (buffer source) (buffer destination) n).

Definition buffer_copy_image (c : Z) (source : Buffer) (destination : Image) : ST vkworld unit :=
  _ ← lift (tz_assert (negb (Buffer_is_null source)));
  cmd c (CmdCopyBufferToImage (buffer source) (image destination) LayoutTransferDestination
           (img_width destination) (img_height destination)).

(** The stages of a layout that is not handled stay indeterminate. *)
Definition source_barrier (l : Layout) : res (access * stage) :=
  match l with
  | LayoutUndefined => Ok (NO_ACCESS, TOP_OF_PIPE)
  | LayoutTransferDestination => Ok (TRANSFER_WRITE, TRANSFER)
  | _ => _ ← tz_error; Fault Uninitialised
  end.

Definition destination_barrier (l : Layout) : res (access * stage) :=
  match l with
  | LayoutTransferDestination => Ok (TRANSFER_WRITE, TRANSFER)
  | ShaderResource => Ok (SHADER_READ, ALL_GRAPHICS)
  | _ => _ ← tz_error; Fault Uninitialised
  end.

(** [transition_image_layout] does not touch the image it is given. *)
Definition transition_image_layout (c : Z) (i : Image) (new_layout : Layout) : ST vkworld unit :=
  '(src_access, src_stage) ← lift (source_barrier (layout i));
  '(dst_access, dst_stage) ← lift (destination_barrier new_layout);
  cmd c (CmdPipelineBarrier src_stage dst_stage src_access dst_access (image i) (layout i) new_layout).

(** [Image::set_layout]. *)
Definition Image_set_layout (c : Z) (i : Image) (new_layout : Layout) : ST vkworld Image :=
  _ ← transition_image_layout c i new_layout;
  mret (mkImage (image i) (img_width i) (img_height i) (img_format i) new_layout).

Definition bind_buffer (c : Z) (b : Buffer) : ST vkworld unit :=
  _ ← lift (tz_assert (negb (Buffer_is_null b)));
  t ← lift (Buffer_get_type b);
  match t with
  | Vertex => cmd c (CmdBindVertexBuffers (buffer b))
  | Index => cmd c (CmdBindIndexBuffer (buffer b))
  | _ => lift tz_error
  end.

Definition bind_descriptor_set (c set layout : Z) : ST vkworld unit := cmd c (CmdBindDescriptorSets layout set).

Definition draw (c vert_count inst_count first_index first_instance : Z) : ST vkworld unit :=
  cmd c (CmdDraw vert_count inst_count first_index first_instance).

Definition draw_indexed (c index_count inst_count first_index vertex_offset first_instance : Z) : ST vkworld unit :=
  cmd c (CmdDrawIndexed index_count inst_count first_index vertex_offset first_instance).

Definition sizeof_VkDrawIndexedIndirectCommand : nat := 20.

Definition draw_indirect (c : Z) (draw_indirect_buffer : Buffer) (draw_count : nat) : ST vkworld unit :=
  _ ← lift (tz_assert (negb (Buffer_is_null draw_indirect_buffer)));
  cmd c (CmdDrawIndexedIndirect (buffer draw_indirect_buffer) (u32 (Z.of_nat draw_count))
           (Z.of_nat sizeof_VkDrawIndexedIndirectCommand)).

(** A submission of one command buffer: its commands are executed. *)
Definition submit_commands (c : Z) (fence : Z) : ST vkworld unit :=
  _ ← on_sync (Submit_call (Submit_new [c] [] [] []) fence);
  l ← gets (λ w, default [] (v_cmds w !! c));
  on_memory (λ s, (device_execute s l, tt)).

End Commands.
