(* ===== verification/VkRenderer.v ===== *)
(** * The Vulkan renderer

    [RendererBuilderVulkan], [RendererBufferManagerVulkan],
    [RendererImageManagerVulkan], [RendererProcessorVulkan] and [RendererVulkan]
    (gl/impl/frontend/vk/renderer.{hpp,cpp}), with the descriptor sets they fill
    (backend/vk/descriptor.cpp, descriptor_set_layout.cpp), over any inputs and
    resources that implement the interfaces.  The managers hold pointers into
    the renderer's own lists of inputs and resources, so these lists are passed
    along with them. *)

From S2P Require Import Prelude Containers Memory RenderTypes VkFrame VkCommand.

(** ** VkDrawIndexedIndirectCommand *)

Record DrawIndirectCommand := mkCmd {
  indexCount : Z; instanceCount : Z; firstIndex : Z; vertexOffset : Z; firstInstance : Z }.

#[export] Instance DrawIndirectCommand_eq_dec : EqDecision DrawIndirectCommand.
Proof. solve_decision. Defined.

(** Its object representation ([vertexOffset] is an [int]). *)
Definition cmd_bytes (c : DrawIndirectCommand) : list Z :=
  u32s_bytes [indexCount c; instanceCount c; firstIndex c; u32 (vertexOffset c); firstInstance c].

Definition cmd_default : DrawIndirectCommand := mkCmd 0 0 0 0 0.

(** ** Descriptors *)

Inductive DescriptorType := UniformBuffer | CombinedImageSampler.

#[export] Instance DescriptorType_eq_dec : EqDecision DescriptorType.
Proof. solve_decision. Defined.

(** The types of the bindings of a [LayoutBuilder]; the builder with the stages
    and the bindings it makes is in [VkPipeline]. *)
Definition LayoutBuilder_add (binding_types : list DescriptorType) (t : DescriptorType)
    : list DescriptorType * nat :=
  let binding_types := binding_types ++ [t] in (binding_types, length binding_types - 1).

(** [DescriptorSetsCreationRequest]: three vectors of the same length. *)
Inductive resource_info := BufferInfo (buffer : Z) | ImageInfo (view sampler : Z).

Record DescriptorSetsCreationRequest := mkRequest {
  rq_resources : list resource_info; rq_types : list DescriptorType; rq_bindings : list nat }.

Definition request_new : DescriptorSetsCreationRequest := mkRequest [] [] [].

Record VkWriteDescriptorSet := mkWrite {
  dstSet : Z; dstBinding : nat; descriptorType : DescriptorType; info : resource_info }.

(** [max_sets] is indeterminate until [with_capacity] sets it.  A layout is the
    types of its bindings. *)
Record DescriptorPoolBuilder := mkPoolBuilder {
  pb_sizes : list (DescriptorType * Z); pb_layouts : list (list DescriptorType); pb_max_sets : option Z }.

Definition DescriptorPoolBuilder_new : DescriptorPoolBuilder := mkPoolBuilder [] [] None.

(** The numbers are [std::size_t]s converted to [std::uint32_t]. *)
Definition with_size (type : DescriptorType) (descriptor_count : nat) (b : DescriptorPoolBuilder)
    : DescriptorPoolBuilder :=
  mkPoolBuilder (pb_sizes b ++ [(type, u32 (Z.of_nat descriptor_count))]) (pb_layouts b) (pb_max_sets b).

Definition with_layout (layout : list DescriptorType) (b : DescriptorPoolBuilder) : DescriptorPoolBuilder :=
  mkPoolBuilder (pb_sizes b) (pb_layouts b ++ [layout]) (pb_max_sets b).

Definition with_capacity (max_sets : nat) (b : DescriptorPoolBuilder) : DescriptorPoolBuilder :=
  mkPoolBuilder (pb_sizes b) (pb_layouts b) (Some (u32 (Z.of_nat max_sets))).

(** A pool with what it was created with, its sets, and what was written to
    them. *)
Record DescriptorPool := mkDescriptorPool {
  dp_pool : Z; pool_sizes : list (DescriptorType * Z); max_sets : Z; layouts : list (list DescriptorType);
  sets : list Z; writes : list VkWriteDescriptorSet }.

(** What a pool promises: so many sets, and of each type as many descriptors as
    its sizes for that type add up to. *)
Definition descriptors_of (t : DescriptorType) (ls : list (list DescriptorType)) : nat :=
  length (filter (λ u, u = t) (concat ls)).

Definition room_for (t : DescriptorType) (sizes : list (DescriptorType * Z)) : Z :=
  foldr (λ s n, if decide (s.1 = t) then s.2 + n else n)%Z 0%Z sizes.

Definition fits (sizes : list (DescriptorType * Z)) (max_sets : Z) (ls : list (list DescriptorType)) : Prop :=
  (Z.of_nat (length ls) ≤ max_sets)%Z ∧ ∀ t, (Z.of_nat (descriptors_of t ls) ≤ room_for t sizes)%Z.

(** ** Image views and samplers *)

Inductive VkImageAspect := VK_IMAGE_ASPECT_COLOR_BIT | VK_IMAGE_ASPECT_DEPTH_BIT.

(** A view of two dimensions, of the first level and layer of an image. *)
Record VkImageViewCreateInfo := mkViewInfo { iv_image : Z; iv_format : Z; iv_aspect : VkImageAspect }.

(** [ImageView(device, image)]: 126 is [Image::Format::DepthFloat32]. *)
Definition ImageView_info (image format : Z) : VkImageViewCreateInfo :=
  mkViewInfo image format
    (if (format =? 126)%Z then VK_IMAGE_ASPECT_DEPTH_BIT else VK_IMAGE_ASPECT_COLOR_BIT).

Inductive VkFilter := VK_FILTER_NEAREST | VK_FILTER_LINEAR.
Inductive VkSamplerAddressMode := VK_SAMPLER_ADDRESS_MODE_CLAMP_TO_EDGE.

Record SamplerProperties := mkSamplerProperties {
  sp_min_filter : VkFilter; sp_mag_filter : VkFilter;
  sp_address_mode_u : VkSamplerAddressMode; sp_address_mode_v : VkSamplerAddressMode;
  sp_address_mode_w : VkSamplerAddressMode }.

Record VkSamplerCreateInfo := mkSamplerInfo {
  magFilter : VkFilter; minFilter : VkFilter;
  addressModeU : VkSamplerAddressMode; addressModeV : VkSamplerAddressMode; addressModeW : VkSamplerAddressMode;
  anisotropyEnable : bool; unnormalizedCoordinates : bool; compareEnable : bool;
  minLod : Z; maxLod : Z }.

(** [Sampler(device, props)]. *)
Definition Sampler_info (props : SamplerProperties) : VkSamplerCreateInfo :=
  mkSamplerInfo (sp_mag_filter props) (sp_min_filter props)
    (sp_address_mode_u props) (sp_address_mode_v props) (sp_address_mode_w props) false false false 0 0.

Definition convert_filter (filter : TexturePropertyFilter) : VkFilter :=
  match filter with Nearest => VK_FILTER_NEAREST | Linear => VK_FILTER_LINEAR end.

Definition convert_address_mode (addr_mode : TextureAddressMode) : VkSamplerAddressMode :=
  match addr_mode with ClampToEdge => VK_SAMPLER_ADDRESS_MODE_CLAMP_TO_EDGE end.

(** The sampler properties of a texture. *)
Definition sampler_properties (gl_props : TextureProperties) : SamplerProperties :=
  mkSamplerProperties (convert_filter (min_filter gl_props)) (convert_filter (mag_filter gl_props))
    (convert_address_mode (address_mode_u gl_props)) (convert_address_mode (address_mode_v gl_props))
    (convert_address_mode (address_mode_w gl_props)).

(** ** Calls that create the other objects of a renderer *)

Class VkObjects `{VM : Vma} := {
  vkCreateImageView : vma_state → VkImageViewCreateInfo → vma_state * option Z;
  vkCreateSampler : vma_state → VkSamplerCreateInfo → vma_state * option Z;
  vkCreateFramebuffer : vma_state → list Z → Z → Z → vma_state * option Z;
  vkCreateGraphicsPipelines : vma_state → vma_state * option Z;
  vkCreateCommandPool : vma_state → Z → vma_state * option Z;
  vkCreateDescriptorPool : vma_state → list (DescriptorType * Z) → Z → vma_state * option Z;
  vkAllocateDescriptorSets : vma_state → Z → list (list DescriptorType) → vma_state * option (list Z) }.

Class VkObjectsSpec `{VM : Vma} `{!VmaSpec} `{VO : !VkObjects} : Prop := {
  image_view_spec : ∀ m i b, vma_block (fst (vkCreateImageView m i)) b = vma_block m b;
  sampler_spec : ∀ m p b, vma_block (fst (vkCreateSampler m p)) b = vma_block m b;
  framebuffer_spec : ∀ m l w h b, vma_block (fst (vkCreateFramebuffer m l w h)) b = vma_block m b;
  pipeline_spec : ∀ m b, vma_block (fst (vkCreateGraphicsPipelines m)) b = vma_block m b;
  command_pool_spec : ∀ m f b, vma_block (fst (vkCreateCommandPool m f)) b = vma_block m b;
  descriptor_pool_spec : ∀ m l n b, vma_block (fst (vkCreateDescriptorPool m l n)) b = vma_block m b;
  descriptor_sets_spec : ∀ m p ls b, vma_block (fst (vkAllocateDescriptorSets m p ls)) b = vma_block m b;
  descriptor_sets_length : ∀ m p ls l, snd (vkAllocateDescriptorSets m p ls) = Some l → length l = length ls }.

(** The window (or offscreen image) a renderer draws to. *)
Class Target := {
  headless : bool;
  image_views : list Z;
  offscreen_image : Z;
  target_width : Z; target_height : Z }.

(** ** RendererBuilderVulkan *)

Section Builder.
Context `{BC : BuildConfig} {I : Type} `{II : IRendererInput I} {R : Type} `{IR : IResource R}.

Record RendererBuilderVulkan := mkBuilder {
  b_inputs : list I;
  b_pass : RenderPassAttachment;
  b_output : option RendererOutputType;
  b_buffer_resources : list R;
  b_texture_resources : list R;
  b_culling_strategy : RendererCullingStrategy;
  b_shader : option Z }.

Definition builder_new : RendererBuilderVulkan := mkBuilder [] ColourDepth None [] [] NoCulling None.

Definition add_input (b : RendererBuilderVulkan) (input : I) : RendererBuilderVulkan * nat :=
  let sz := length (b_inputs b) in
  (mkBuilder (b_inputs b ++ [input]) (b_pass b) (b_output b) (b_buffer_resources b)
     (b_texture_resources b) (b_culling_strategy b) (b_shader b), sz).

Definition get_input_of_builder (b : RendererBuilderVulkan) (handle : nat) : res I :=
  _ ← tz_assert (handle <? length (b_inputs b)); at_index (b_inputs b) handle.

Definition set_pass (b : RendererBuilderVulkan) (pass : RenderPassAttachment) : RendererBuilderVulkan :=
  mkBuilder (b_inputs b) pass (b_output b) (b_buffer_resources b) (b_texture_resources b)
    (b_culling_strategy b) (b_shader b).

Definition set_output (b : RendererBuilderVulkan) (o : RendererOutputType) : RendererBuilderVulkan :=
  mkBuilder (b_inputs b) (b_pass b) (Some o) (b_buffer_resources b) (b_texture_resources b)
    (b_culling_strategy b) (b_shader b).

Definition add_resource (b : RendererBuilderVulkan) (r : R) : RendererBuilderVulkan * nat :=
  let total_resource_size := length (b_buffer_resources b) + length (b_texture_resources b) in
  match get_type r with
  | BufferType_ =>
      (mkBuilder (b_inputs b) (b_pass b) (b_output b) (b_buffer_resources b ++ [r]) (b_texture_resources b)
         (b_culling_strategy b) (b_shader b), total_resource_size)
  | TextureType_ =>
      (mkBuilder (b_inputs b) (b_pass b) (b_output b) (b_buffer_resources b) (b_texture_resources b ++ [r])
         (b_culling_strategy b) (b_shader b), total_resource_size)
  end.

Definition set_culling_strategy (b : RendererBuilderVulkan) (c : RendererCullingStrategy) : RendererBuilderVulkan :=
  mkBuilder (b_inputs b) (b_pass b) (b_output b) (b_buffer_resources b) (b_texture_resources b) c (b_shader b).

Definition set_shader (b : RendererBuilderVulkan) (s : Z) : RendererBuilderVulkan :=
  mkBuilder (b_inputs b) (b_pass b) (b_output b) (b_buffer_resources b) (b_texture_resources b)
    (b_culling_strategy b) (Some s).

Definition get_shader (b : RendererBuilderVulkan) : res Z :=
  _ ← tz_assert (bool_decide (is_Some (b_shader b))); of_option NullDeref (b_shader b).

(** [vk_get_vertex_input]: the stride and rate of the one binding, and format
    and offset of every attribute ([VK_FORMAT_R32_SFLOAT] and its two- and
    three-component variants). *)
Definition attribute_vk_format (t : RendererComponentType) : Z :=
  match t with Float32 => 100 | Float32x2 => 103 | Float32x3 => 106 end.

Definition vk_get_vertex_input (b : RendererBuilderVulkan)
    : res (option (nat * RendererInputFrequency * list (nat * Z * nat))) :=
  match b_inputs b with
  | [] => Ok None
  | i :: _ =>
      let f := get_format i in
      Ok (Some (binding_size f, basis f,
            imap (λ n a, (n, attribute_vk_format (attribute_type a), element_attribute_offset a))
              (binding_attributes f)))
  end.

Definition vk_get_descriptor_set_layout (b : RendererBuilderVulkan) : list DescriptorType :=
  let layout_builder := foldl (λ l _, fst (LayoutBuilder_add l UniformBuffer)) [] (b_buffer_resources b) in
  foldl (λ l _, fst (LayoutBuilder_add l CombinedImageSampler)) layout_builder (b_texture_resources b).

End Builder.
Arguments RendererBuilderVulkan : clear implicits.

(** ** RendererBufferManagerVulkan *)

Section Renderer.
Context `{BC : BuildConfig} `{VM : Vma} `{V : Vk} `{VO : !VkObjects} `{TG : Target}.
Context {I : Type} `{II : IRendererInput I} {R : Type} `{IR : IResource R}.

(** A buffer component: its buffer, and the position of its resource. *)
Record BufferManager := mkBufferManager {
  vertex_buffer : Buffer; dynamic_vertex_buffer : Buffer;
  index_buffer : Buffer; dynamic_index_buffer : Buffer;
  buffer_components : list (Buffer * nat) }.

Definition BufferManager_new : BufferManager := mkBufferManager Buffer_null Buffer_null Buffer_null Buffer_null [].

(** [initialise_resources]: the buffer resources are the first of the
    renderer's resources. *)
Definition initialise_buffer_resources (bm : BufferManager) (buffer_resources : list nat) : BufferManager :=
  mkBufferManager (vertex_buffer bm) (dynamic_vertex_buffer bm) (index_buffer bm) (dynamic_index_buffer bm)
    (buffer_components bm ++ map (λ k, (Buffer_null, k)) buffer_resources).

(** [DynamicInputMapRegion]. *)
Record Region := mkRegion { r_input : nat; r_offset : nat; r_length : nat }.

Record compiled := mkCompiled {
  static_vertex_bytes : list Z; dynamic_vertex_bytes : list Z;
  static_indices : list Z; dynamic_indices : list Z;
  vertex_regions : list Region; index_regions : list Region;
  any_static_geometry : bool; any_dynamic_geometry : bool }.

Definition compile_input (h : heap) (ki : nat * I) (c : compiled) : res compiled :=
  let '(k, input) := ki in
  input_vertices ← span_read h (get_vertex_bytes input);
  input_indices ← ispan_read h (get_indices input);
  match data_access input with
  | StaticFixed =>
      Ok (mkCompiled (static_vertex_bytes c ++ input_vertices) (dynamic_vertex_bytes c)
            (static_indices c ++ input_indices) (dynamic_indices c) (vertex_regions c) (index_regions c)
            true (any_dynamic_geometry c))
  | DynamicFixed =>
      let vertex_region_offset := length (dynamic_vertex_bytes c) in
      let index_region_offset := length (dynamic_indices c) * 4 in
      Ok (mkCompiled (static_vertex_bytes c) (dynamic_vertex_bytes c ++ input_vertices)
            (static_indices c) (dynamic_indices c ++ input_indices)
            (vertex_regions c ++ [mkRegion k vertex_region_offset (length input_vertices)])
            (index_regions c ++ [mkRegion k index_region_offset (4 * length input_indices)])
            (any_static_geometry c) true)
  end.

Definition compile (h : heap) (ins : list I) : res compiled :=
  for_each (compile_input h) (imap pair ins) (mkCompiled [] [] [] [] [] [] false false).

Definition setup_static (c : compiled) (bm : BufferManager) : ST vkworld BufferManager :=
  if any_static_geometry c then
    vb ← Buffer_new Vertex TransferDestination GPU (length (static_vertex_bytes c));
    vb ← Buffer_assign (vertex_buffer bm) vb;
    ib ← Buffer_new Index TransferDestination GPU (length (static_indices c) * 4);
    ib ← Buffer_assign (index_buffer bm) ib;
    mret (mkBufferManager vb (dynamic_vertex_buffer bm) ib (dynamic_index_buffer bm) (buffer_components bm))
  else mret bm.

(** The loops that hand each dynamic input its part of the mapped memory; the
    second adds the offset to a pointer to [unsigned int]. *)
Definition map_vertex_region (vtx_mem : ptr) (rg : Region) (ins : list I) : ST vkworld (list I) :=
  i ← lift (at_index ins (r_input rg));
  i' ← on_vheap (λ h, set_vertex_data h i (ptr_add vtx_mem (r_offset rg)));
  mret (<[r_input rg := i']> ins).

Definition map_index_region (idx_mem : ptr) (rg : Region) (ins : list I) : ST vkworld (list I) :=
  i ← lift (at_index ins (r_input rg));
  i' ← on_vheap (λ h, set_index_data h i (ptr_add_u32 idx_mem (r_offset rg)));
  mret (<[r_input rg := i']> ins).

Definition setup_dynamic (c : compiled) (bm : BufferManager) (ins : list I) : ST vkworld (BufferManager * list I) :=
  if any_dynamic_geometry c then
    vb ← Buffer_new Vertex NothingSpecial CPUPersistent (length (dynamic_vertex_bytes c));
    vb ← Buffer_assign (dynamic_vertex_buffer bm) vb;
    ib ← Buffer_new Index NothingSpecial CPUPersistent (length (dynamic_indices c) * 4);
    ib ← Buffer_assign (dynamic_index_buffer bm) ib;
    vtx_mem ← Buffer_map_memory vb;
    ins ← st_fold (map_vertex_region vtx_mem) (vertex_regions c) ins;
    idx_mem ← Buffer_map_memory ib;
    ins ← st_fold (map_index_region idx_mem) (index_regions c) ins;
    mret (mkBufferManager (vertex_buffer bm) vb (index_buffer bm) ib (buffer_components bm), ins)
  else mret (bm, ins).

(** The buffer of one component. *)
Definition setup_component (bk : Buffer * nat) (st : list (Buffer * nat) * list R)
    : ST vkworld (list (Buffer * nat) * list R) :=
  let '(b, k) := bk in
  let '(done_, rs) := st in
  r ← lift (at_index rs k);
  let size := span_size (get_resource_bytes r) in
  match resource_access r with
  | StaticFixed =>
      nb ← Buffer_new Uniform TransferDestination GPU size;
      nb ← Buffer_assign b nb;
      mret (done_ ++ [(nb, k)], rs)
  | DynamicFixed =>
      nb ← Buffer_new Uniform NothingSpecial CPUPersistent size;
      nb ← Buffer_assign b nb;
      p ← Buffer_map_memory nb;
      r' ← on_vheap (λ h, set_resource_data h r p);
      mret (done_ ++ [(nb, k)], <[k := r']> rs)
  end.

Definition setup_buffers (bm : BufferManager) (ins : list I) (rs : list R)
    : ST vkworld (BufferManager * list I * list R) :=
  '(bm, ins) ← match ins with
               | [] => mret (bm, ins)
               | _ =>
                   h ← gets v_heap;
                   c ← lift (compile h ins);
                   bm ← setup_static c bm;
                   setup_dynamic c bm ins
               end;
  '(components, rs) ← st_fold setup_component (buffer_components bm) ([], rs);
  mret (mkBufferManager (vertex_buffer bm) (dynamic_vertex_buffer bm) (index_buffer bm) (dynamic_index_buffer bm)
          components, ins, rs).

(** ** RendererImageManagerVulkan *)

Record TextureComponent := mkTextureComponent { img : Image; view : Z; sampler : Z; tc_resource : nat }.

Record ImageManager := mkImageManager {
  offscreen_view : option Z; texture_components : list TextureComponent;
  depth_image : option Image; depth_imageview : option Z; swapchain_framebuffers : list Z }.

Definition create {A} (f : vma_state → vma_state * option A) (dflt : A) : ST vkworld A :=
  r ← on_vma f; _ ← lift (tz_assert (bool_decide (is_Some r))); mret (default dflt r).

(** [VK_FORMAT_R8G8B8A8_SINT], [_UINT], [_SRGB] and [VK_FORMAT_D32_SFLOAT]. *)
Definition image_format (f : TextureFormat) : Z :=
  match f with Rgba32Signed => 42 | Rgba32Unsigned => 41 | Rgba32sRGB => 43 | DepthFloat32 => 126 end.

Definition ImageManager_new : ST vkworld ImageManager :=
  v ← (if headless then v ← create (λ m, vkCreateImageView m (ImageView_info offscreen_image 43)) 0%Z; mret (Some v) else mret None);
  mret (mkImageManager v [] None None []).

(** Usages: transfer destination and sampled. *)
Definition initialise_texture (rs : list R) (k : nat) (im : ImageManager) : ST vkworld ImageManager :=
  r ← lift (at_index rs k);
  t ← lift (of_option NullDeref (as_texture r));
  let fmt := image_format (tv_format t) in
  i ← Image_new (tv_width t) (tv_height t) fmt 6 GPU;
  v ← create (λ m, vkCreateImageView m (ImageView_info (image i) fmt)) 0%Z;
  s ← create (λ m, vkCreateSampler m (Sampler_info (sampler_properties (tv_properties t)))) 0%Z;
  mret (mkImageManager (offscreen_view im) (texture_components im ++ [mkTextureComponent i v s k])
          (depth_image im) (depth_imageview im) (swapchain_framebuffers im)).

Definition initialise_texture_resources (rs : list R) (ks : list nat) (im : ImageManager) : ST vkworld ImageManager :=
  st_fold (initialise_texture rs) ks im.

Definition setup_depth_image (im : ImageManager) : ST vkworld ImageManager :=
  i ← Image_new target_width target_height 126 32 GPU;
  v ← create (λ m, vkCreateImageView m (ImageView_info (image i) 126)) 0%Z;
  mret (mkImageManager (offscreen_view im) (texture_components im) (Some i) (Some v) (swapchain_framebuffers im)).

(** The attachments of a framebuffer: a colour view, and the depth view if
    there is one. *)
Definition framebuffer_views (depth : option Z) (colour : Z) : list Z := colour :: option_list depth.

Definition add_framebuffer (depth : option Z) (colour : Z) (l : list Z) : ST vkworld (list Z) :=
  fb ← create (λ m, vkCreateFramebuffer m (framebuffer_views depth colour) target_width target_height) 0%Z;
  mret (l ++ [fb]).

Definition setup_swapchain_framebuffers (im : ImageManager) : ST vkworld ImageManager :=
  fbs ← (if headless
         then v ← lift (of_option BadOptional (offscreen_view im));
              add_framebuffer (depth_imageview im) v []
         else st_fold (add_framebuffer (depth_imageview im)) image_views []);
  mret (mkImageManager (offscreen_view im) (texture_components im) (depth_image im) (depth_imageview im) fbs).

End Renderer.
