(* ===== verification/VkDriver.v ===== *)
(** * A memory allocator and device that meet the specification

    Buffers and their blocks are numbered in turn; a destroyed buffer loses its
    name and its memory stays with the allocator; the device executes copies
    between buffers and ignores what it draws.  The concrete inputs of the
    Vulkan witnesses run on it, beside the queue of [VkFrame]. *)

From S2P Require Import Prelude Containers Memory RenderTypes Inputs VkFrame VkCommand VkRenderer.

(** The blocks of the live buffers, and the last handle given to another object. *)
Record allocator := mkAllocator { a_blocks : gmap Z nat; a_last : Z }.

(** The memory the host sees has odd numbers. *)
Definition free_block (h : heap) (m : allocator) (cpu : bool) : nat :=
  let top := S (foldr Nat.max 0 ((fst <$> map_to_list h) ++ (snd <$> map_to_list (a_blocks m)))) in
  if eqb (Nat.odd top) cpu then top else S top.

Lemma free_block_visible h m : Nat.odd (free_block h m true) = true.
Proof.
  unfold free_block. generalize (S (foldr Nat.max 0 ((fst <$> map_to_list h) ++ (snd <$> map_to_list (a_blocks m))))). intros n.
  destruct (Nat.odd n) eqn:E; cbn [eqb]; [done|]. by rewrite Nat.odd_succ, <- Nat.negb_odd, E.
Qed.

Lemma free_block_above h m cpu x : x ∈ (fst <$> map_to_list h) ++ (snd <$> map_to_list (a_blocks m)) →
  x < free_block h m cpu.
Proof. intros Hx%max_elem. unfold free_block. destruct (eqb _ _); lia. Qed.

Lemma free_block_fresh h m cpu : h !! free_block h m cpu = None ∧ ∀ n, a_blocks m !! n ≠ Some (free_block h m cpu).
Proof.
  split.
  - destruct (h !! free_block h m cpu) as [x|] eqn:E; [exfalso|done].
    apply elem_of_map_to_list, (list_elem_of_fmap_2 fst) in E. cbn in E.
    assert (H := free_block_above h m cpu (free_block h m cpu)). rewrite elem_of_app in H. specialize (H (or_introl E)). lia.
  - intros n E. apply elem_of_map_to_list, (list_elem_of_fmap_2 snd) in E. cbn in E.
    assert (H := free_block_above h m cpu (free_block h m cpu)). rewrite elem_of_app in H. specialize (H (or_intror E)). lia.
Qed.

Definition new_object (m : allocator) : allocator * option Z :=
  (mkAllocator (a_blocks m) (1 + a_last m), Some (1 + a_last m)%Z).

Definition execute_one (s : heap * allocator) (x : vkcmd) : heap * allocator :=
  let '(h, m) := s in
  match x with
  | CmdCopyBuffer src dst n =>
      match a_blocks m !! src, a_blocks m !! dst with
      | Some bs, Some bd =>
          match h !! bs, h !! bd with
          | Some ls, Some ld =>
              if (n <=? length ls) && (n <=? length ld) then (<[bd := splice 0 (take n ls) ld]> h, m) else (h, m)
          | _, _ => (h, m)
          end
      | _, _ => (h, m)
      end
  | _ => (h, m)
  end.

(** The device does not allocate. *)
Lemma execute_allocator l s : snd (foldl execute_one s l) = snd s.
Proof.
  revert s. induction l as [|x l IH]; intros s; [done|]. cbn [foldl]. rewrite IH. destruct s as [h m].
  destruct x; try done. simpl. repeat case_match; done.
Qed.

Lemma execute_ignores s l : Forall (λ x, match x with CmdCopyBuffer _ _ _ => False | _ => True end) l →
  foldl execute_one s l = s.
Proof. induction 1 as [|x l Hx _ IH]; [done|]. cbn [foldl]. destruct s as [h m]. by destruct x. Qed.

#[export] Instance driver_vma : Vma := {|
  vma_state := allocator;
  vmaCreateBuffer s usage cpu mapped size :=
    let '(h, m) := s in
    let b := next_name (a_blocks m) in
    let blk := free_block h m cpu in
    (<[blk := replicate size 0%Z]> h, mkAllocator (<[b := blk]> (a_blocks m)) (a_last m),
     Some (b, if mapped then Some (mkPtr blk 0) else None));
  vmaMapMemory m b := (m, match a_blocks m !! b with
                          | Some blk => if Nat.odd blk then Some (mkPtr blk 0) else None
                          | None => None end);
  vmaUnmapMemory m b := m;
  vmaDestroyBuffer s b := (fst s, mkAllocator (delete b (a_blocks (snd s))) (a_last (snd s)));
  vmaCreateImage m w h f u := new_object m;
  vkAllocateCommandBuffers m n :=
    (mkAllocator (a_blocks m) (a_last m + Z.of_nat n), Some (map (λ k, (1 + a_last m + Z.of_nat k)%Z) (seq 0 n)));
  vkFreeCommandBuffers m l := m;
  vkBeginCommandBuffer m c := true;
  vkEndCommandBuffer m c := true;
  device_execute s l := foldl execute_one s l |}.

#[export] Instance driver_objects : VkObjects := {|
  vkCreateImageView m i := new_object m;
  vkCreateSampler m p := new_object m;
  vkCreateFramebuffer m l w h := new_object m;
  vkCreateGraphicsPipelines m := new_object m;
  vkCreateCommandPool m f := new_object m;
  vkCreateDescriptorPool m l n := new_object m;
  vkAllocateDescriptorSets m p ls :=
    (mkAllocator (a_blocks m) (a_last m + Z.of_nat (length ls)),
     Some (map (λ k, (1 + a_last m + Z.of_nat k)%Z) (seq 0 (length ls)))) |}.

#[export] Instance driver_vma_spec : VmaSpec.
Proof.
  refine {| vma_block m b := a_blocks m !! b; host_visible := Nat.odd |}; cbn [vmaCreateBuffer vmaMapMemory
    vmaUnmapMemory vmaDestroyBuffer vmaCreateImage vkAllocateCommandBuffers vkFreeCommandBuffers device_execute driver_vma
    vma_state fst snd new_object a_blocks].
  - intros h m _ cpu mapped size h' m' b p [= <- <- <- <-] _ _ _. destruct (next_name_fresh (a_blocks m)) as [Hz Hn].
    destruct (free_block_fresh h m cpu) as [Hh Hm].
    eexists _, _. split_and!; try done; [by rewrite length_replicate|intros ->; apply free_block_visible|]. intros n. cbn.
    case_decide as Hc; [subst; by rewrite lookup_insert_eq|by rewrite lookup_insert_ne].
  - intros m b blk Hb Hv. split; [|done]. rewrite Hb, Hv. by intros p [= <-].
  - done.
  - intros h m b n Hn. by rewrite lookup_delete_ne.
  - intros h m b. by rewrite lookup_delete_eq.
  - done.
  - intros m n. split; [|done]. intros l [= <-]. rewrite length_map, length_seq. split; [done|].
    apply NoDup_fmap_2; [|apply NoDup_seq]. intros a b. lia.
  - done.
  - intros h m src dst n bs bd ls ld Hs Hd Hls Hld _ Hn Hn'. cbn. rewrite Hs, Hd, Hls, Hld.
    by rewrite (proj2 (Nat.leb_le _ _) Hn), (proj2 (Nat.leb_le _ _) Hn').
  - intros h m l HF b blk _. by rewrite (execute_ignores (h, m) l) by (eapply Forall_impl; [exact HF|]; by intros []).
  - intros h m l b. by rewrite execute_allocator.
Defined.

#[export] Instance driver_vma_succeeds : VmaSucceeds.
Proof.
  split; cbn; try done; try by eauto.
  - intros [h m] usage cpu mapped size _ _. by eexists.
  - intros m b blk -> ->. by eexists.
Qed.

#[export] Instance driver_objects_spec : VkObjectsSpec.
Proof. split; try done. intros m p ls l [= <-]. by rewrite length_map, length_seq. Qed.

(** A window of two images, and a device that has not been used. *)
Definition two_views : Target := {| headless := false; image_views := [501; 502]%Z; offscreen_image := 0;
                                    target_width := 800; target_height := 600 |}.

Definition new_device : vkworld (VM := driver_vma) (V := driver_vk) :=
  mkVkWorld (VM := driver_vma) (V := driver_vk) ∅ (mkAllocator ∅ 0) (mkDriver [] [] [] 2 0 false) ∅.

(** Triangles as inputs. *)
Definition static_triangle (x : Z) : input := Static (mkMeshInput (triangle x) []).
Definition dynamic_triangle (x : Z) : input := Dynamic (MeshDynamicInput_new (triangle x) []).

(** A builder with two static inputs, a dynamic one, two buffers and a texture. *)
Definition sample_texture : resource :=
  RTexture (mkTextureResource (mkTextureData 1 1 [10; 20; 30; 40]%Z) Rgba32sRGB default_properties).

Definition sample_builder : RendererBuilderVulkan input resource :=
  mkBuilder [static_triangle 5; dynamic_triangle 9; static_triangle 7] ColourDepth (Some Window)
    [RBuffer (mkBufferResource [1; 2; 3; 4]%Z); RDynamicBuffer (DynamicBufferResource_new [5; 6]%Z)]
    [sample_texture] NoCulling (Some 1%Z).
