(* ===== verification/VkProcessor.v ===== *)
(** * The Vulkan renderer: recording, scratch operations and rendering

    [RendererProcessorVulkan] and [RendererVulkan]
    (gl/impl/frontend/vk/renderer.cpp), over the managers of [VkRenderer]. *)

From S2P Require Import Prelude Containers Memory RenderTypes VkFrame VkCommand VkRenderer.

Section Processor.
Context `{BC : BuildConfig} `{VM : Vma} `{V : Vk} `{VO : !VkObjects} `{TG : Target}.
Context {I : Type} `{II : IRendererInput I} {R : Type} `{IR : IResource R}.

Record Processor := mkProcessor {
  resource_descriptor_pool : option DescriptorPool;
  command_pool : CommandPool;
  draw_indirect_buffer : option Buffer;
  draw_indirect_dynamic_buffer : option Buffer;
  draw_cache : RendererDrawList;
  frame_admin : FrameAdmin }.

Definition get_view_count : nat := if headless then 1 else length image_views.

(** ** Counting *)

Definition num_inputs_of (acc : RendererInputDataAccess) (ins : list I) : nat :=
  foldl (λ n i, n + if bool_decide (data_access i = acc) then 1 else 0) 0 ins.

Definition num_draws_of (acc : RendererInputDataAccess) (ins : list I) (draws : RendererDrawList) : res nat :=
  for_each (λ handle n, i ← at_index ins handle; Ok (n + if bool_decide (data_access i = acc) then 1 else 0)) draws 0.

(** ** Construction *)

Definition frames_in_flight : nat := 2.

Definition initialise_command_pool (pool : CommandPool) : ST vkworld CommandPool :=
  pool ← (if negb (CommandPool_empty pool) then CommandPool_clear pool else mret pool);
  '(_, pool) ← CommandPool_with pool (get_view_count + 1);
  mret pool.

Definition indirect_buffer (n : nat) : ST vkworld (option Buffer) :=
  if 0 <? n then
    b ← Buffer_new DrawIndirect TransferDestination GPU (sizeof_VkDrawIndexedIndirectCommand * n); mret (Some b)
  else mret None.

Definition VK_COMMAND_POOL_CREATE_RESET_COMMAND_BUFFER_BIT : Z := 2.

(** The two constructors of [CommandPool]: without and with
    [RecycleableBufferTag]. *)
Definition CommandPool_new (recycleable : bool) : ST vkworld CommandPool :=
  let flags := if recycleable then VK_COMMAND_POOL_CREATE_RESET_COMMAND_BUFFER_BIT else 0%Z in
  pool ← create (λ m, vkCreateCommandPool m flags) 0%Z;
  mret (mkCommandPool pool []).

Definition Processor_new (ins : list I) : ST vkworld Processor :=
  pool ← CommandPool_new true;
  static ← indirect_buffer (num_inputs_of StaticFixed ins);
  dynamic ← indirect_buffer (num_inputs_of DynamicFixed ins);
  admin ← on_sync (FrameAdmin_new (if headless then 1 else frames_in_flight));
  pool ← initialise_command_pool pool;
  mret (mkProcessor None pool static dynamic [] admin).

(** ** Descriptor sets *)

Definition add_buffer (b : Buffer) (binding_id : nat) (rq : DescriptorSetsCreationRequest)
    : res DescriptorSetsCreationRequest :=
  t ← Buffer_get_type b;
  types ← match t with
          | Uniform => Ok (rq_types rq ++ [UniformBuffer])
          | _ => _ ← tz_error; Ok (rq_types rq)
          end;
  Ok (mkRequest (rq_resources rq ++ [BufferInfo (buffer b)]) types (rq_bindings rq ++ [binding_id])).

Definition add_image (v s : Z) (binding_id : nat) (rq : DescriptorSetsCreationRequest)
    : DescriptorSetsCreationRequest :=
  mkRequest (rq_resources rq ++ [ImageInfo v s]) (rq_types rq ++ [CombinedImageSampler])
    (rq_bindings rq ++ [binding_id]).

(** The request of every set. *)
Definition fill_request (bm : BufferManager) (im : ImageManager) (num_buffer_resources num_texture_resources : nat)
    : res DescriptorSetsCreationRequest :=
  rq ← for_range num_buffer_resources (λ j rq,
         '(b, _) ← at_index (buffer_components bm) j; add_buffer b j rq) request_new;
  for_range num_texture_resources (λ j rq,
    t ← at_index (texture_components im) j; Ok (add_image (view t) (sampler t) (j + num_buffer_resources) rq)) rq.

(** [DescriptorPool::initialise_set]: one write per resource of the request. *)
Definition set_writes (set : Z) (rq : DescriptorSetsCreationRequest) : res (list VkWriteDescriptorSet) :=
  for_range (length (rq_resources rq)) (λ i writes,
    t ← at_index (rq_types rq) i; r ← at_index (rq_resources rq) i; b ← at_index (rq_bindings rq) i;
    Ok (writes ++ [mkWrite set b t r])) [].

Definition all_writes (sets : list Z) (requests : list DescriptorSetsCreationRequest)
    : res (list VkWriteDescriptorSet) :=
  for_range (length requests) (λ i acc,
    rq ← at_index requests i; s ← at_index sets i; w ← set_writes s rq; Ok (acc ++ w)) [].

Definition DescriptorPool_new (builder : DescriptorPoolBuilder) : ST vkworld DescriptorPool :=
  max ← lift (of_option Uninitialised (pb_max_sets builder));
  pool ← create (λ m, vkCreateDescriptorPool m (pb_sizes builder) max) 0%Z;
  mret (mkDescriptorPool pool (pb_sizes builder) max (pb_layouts builder) [] []).

(** The layouts are read through a pointer to the pool's vector, one per request. *)
Definition initialise_sets (requests : list DescriptorSetsCreationRequest) (dp : DescriptorPool)
    : ST vkworld DescriptorPool :=
  let count := length requests in
  ls ← lift (if count <=? length (layouts dp) then Ok (take count (layouts dp)) else Fault OutOfBounds);
  r ← on_vma (λ m, vkAllocateDescriptorSets m (dp_pool dp) ls);
  _ ← lift (tz_assert (bool_decide (is_Some r)));
  let sets := default (take count (sets dp) ++ replicate (count - length (sets dp)) 0%Z) r in
  ws ← lift (all_writes sets requests);
  mret (mkDescriptorPool (dp_pool dp) (pool_sizes dp) (max_sets dp) (layouts dp) sets (writes dp ++ ws)).

(** [operator[]] of the pool: the set itself. *)
Definition DescriptorPool_at (dp : DescriptorPool) (index : nat) : res Z := at_index (sets dp) index.

(** The pool a processor asks for. *)
Definition resource_pool_builder (layout : list DescriptorType) (view_count resource_count nb nt : nat)
    : DescriptorPoolBuilder :=
  let pool_builder := with_capacity (view_count * resource_count) DescriptorPoolBuilder_new in
  let pool_builder := Nat.iter nb (with_size UniformBuffer view_count) pool_builder in
  let pool_builder := Nat.iter nt (with_size CombinedImageSampler view_count) pool_builder in
  Nat.iter view_count (with_layout layout) pool_builder.

Definition resource_requests (bm : BufferManager) (im : ImageManager) (view_count nb nt : nat)
    : res (list DescriptorSetsCreationRequest) :=
  for_range view_count (λ _ requests, rq ← fill_request bm im nb nt; Ok (requests ++ [rq])) [].

Definition initialise_resource_descriptors (layout : list DescriptorType) (bm : BufferManager) (im : ImageManager)
    (rs : list R) (p : Processor) : ST vkworld Processor :=
  match rs with
  | [] => mret p
  | _ =>
      let image_count := get_view_count in
      let nb := length (filter (λ r, bool_decide (get_type r = BufferType_) = true) rs) in
      let nt := length (filter (λ r, bool_decide (get_type r = TextureType_) = true) rs) in
      dp ← DescriptorPool_new (resource_pool_builder layout image_count (length rs) nb nt);
      requests ← lift (resource_requests bm im image_count nb nt);
      dp ← initialise_sets requests dp;
      mret (mkProcessor (Some dp) (command_pool p) (draw_indirect_buffer p) (draw_indirect_dynamic_buffer p)
              (draw_cache p) (frame_admin p))
  end.

(** ** Recording *)

(** One block of [record_rendering_commands]: bind the geometry and draw. *)
Definition record_draws (c : Z) (indirect : option Buffer) (vb ib : Buffer) (draws : res nat) : ST vkworld unit :=
  match indirect with
  | None => mret tt
  | Some b =>
      _ ← bind_buffer c vb;
      _ ← bind_buffer c ib;
      n ← lift draws;
      draw_indirect c b n
  end.

(** [1.0f]. *)
Definition float_one : Z := 0x3F800000.

(** The values a render pass starts with: the clear colour for the first
    attachment, a depth for the second. *)
Definition clear_vals (clear_colour : list Z) : list VkClearValue :=
  [ClearColor clear_colour; ClearDepthStencil float_one 0].

Definition RenderPassRun_new (c render_pass framebuffer : Z) (render_area : Z * Z) (clear_colour : list Z)
    : ST vkworld unit :=
  cmd c (CmdBeginRenderPass render_pass framebuffer render_area (clear_vals clear_colour)).

Definition RenderPassRun_destroy (c : Z) : ST vkworld unit := cmd c CmdEndRenderPass.

Definition record_view (render_pass pipeline pipeline_layout : Z) (bm : BufferManager) (im : ImageManager)
    (ins : list I) (clear_colour : list Z) (p : Processor) (i : nat) (pool : CommandPool) : ST vkworld CommandPool :=
  recording pool i (λ c,
    fb ← lift (at_index (swapchain_framebuffers im) i);
    _ ← RenderPassRun_new c render_pass fb (target_width, target_height) clear_colour;
    _ ← cmd c (CmdBindPipeline pipeline);
    _ ← match resource_descriptor_pool p with
        | Some dp => s ← lift (DescriptorPool_at dp i); bind_descriptor_set c s pipeline_layout
        | None => mret tt
        end;
    _ ← record_draws c (draw_indirect_buffer p) (vertex_buffer bm) (index_buffer bm)
          (num_draws_of StaticFixed ins (draw_cache p));
    _ ← record_draws c (draw_indirect_dynamic_buffer p) (dynamic_vertex_buffer bm) (dynamic_index_buffer bm)
          (num_draws_of DynamicFixed ins (draw_cache p));
    RenderPassRun_destroy c).

Definition set_pool (p : Processor) (pool : CommandPool) : Processor :=
  mkProcessor (resource_descriptor_pool p) pool (draw_indirect_buffer p) (draw_indirect_dynamic_buffer p)
    (draw_cache p) (frame_admin p).

Definition record_rendering_commands (render_pass pipeline pipeline_layout : Z) (bm : BufferManager)
    (im : ImageManager) (ins : list I) (clear_colour : list Z) (p : Processor) : ST vkworld Processor :=
  pool ← st_fold (record_view render_pass pipeline pipeline_layout bm im ins clear_colour p)
           (seq 0 get_view_count) (command_pool p);
  mret (set_pool p pool).

Definition clear_rendering_commands (p : Processor) : ST vkworld unit :=
  st_each (λ i, _ ← on_sync (wait_for (frame_admin p) i); CommandBuffer_reset (command_pool p) i)
    (seq 0 get_view_count).

(** ** Scratch operations *)

(** Record a copy in the scratch buffer. *)
Definition record_copy (pool : CommandPool) (source destination : Buffer) (n : nat) : ST vkworld CommandPool :=
  recording pool get_view_count (λ c, buffer_copy_buffer c source destination n).

Definition scratch_submit (pool : CommandPool) (fence : Z) : ST vkworld unit :=
  b ← lift (CommandPool_at pool get_view_count);
  _ ← submit_commands (command_buffer b) fence;
  on_sync (Fence_wait_for fence).

(** A staging buffer is filled, copied on the device and destroyed.  [early]:
    the fence is reset before the staging buffer is made rather than after. *)
Definition staged_copy (early : bool) (pool : CommandPool) (fence : Z) (data : list Z) (destination : Buffer)
    : ST vkworld CommandPool :=
  _ ← (if early then on_sync (Fence_signal fence) else mret tt);
  staging ← Buffer_new Staging TransferSource CPU (length data);
  _ ← Buffer_write staging data;
  pool ← record_copy pool staging destination (length data);
  _ ← (if early then mret tt else on_sync (Fence_signal fence));
  _ ← scratch_submit pool fence;
  _ ← Buffer_destroy staging;
  mret pool.

(** *** Draw lists *)

Record draw_tables := mkTables {
  static_vtx_count : nat; static_idx_count : nat; dynamic_vtx_count : nat; dynamic_idx_count : nat;
  input_draws : gmap nat DrawIndirectCommand; dynamic_input_draws : gmap nat DrawIndirectCommand }.

Definition table_input (ki : nat * I) (t : draw_tables) : res draw_tables :=
  let '(k, input) := ki in
  vtx ← vertex_count input;
  let idx := index_count input in
  match data_access input with
  | StaticFixed =>
      let cmd := mkCmd (u32 (Z.of_nat idx)) 1 (u32 (Z.of_nat (static_idx_count t)))
                   (to_i32 (Z.of_nat (static_vtx_count t))) 0 in
      Ok (mkTables (static_vtx_count t + vtx) (static_idx_count t + idx) (dynamic_vtx_count t) (dynamic_idx_count t)
            (<[k := cmd]> (input_draws t)) (dynamic_input_draws t))
  | DynamicFixed =>
      let cmd := mkCmd (u32 (Z.of_nat idx)) 1 (u32 (Z.of_nat (dynamic_idx_count t)))
                   (to_i32 (Z.of_nat (dynamic_vtx_count t))) 0 in
      Ok (mkTables (static_vtx_count t) (static_idx_count t) (dynamic_vtx_count t + vtx) (dynamic_idx_count t + idx)
            (input_draws t) (<[k := cmd]> (dynamic_input_draws t)))
  end.

Definition draw_table (ins : list I) : res draw_tables :=
  for_each table_input (imap pair ins) (mkTables 0 0 0 0 ∅ ∅).

Definition convert_draw (ins : list I) (t : draw_tables) (handle : nat)
    (ds : list DrawIndirectCommand * list DrawIndirectCommand)
    : res (list DrawIndirectCommand * list DrawIndirectCommand) :=
  let '(static, dynamic) := ds in
  input ← at_index ins handle;
  match data_access input with
  | StaticFixed => Ok (static ++ [default cmd_default (input_draws t !! handle)], dynamic)
  | DynamicFixed => Ok (static, dynamic ++ [default cmd_default (dynamic_input_draws t !! handle)])
  end.

Definition convert_draws (ins : list I) (t : draw_tables) (draws : RendererDrawList)
    : res (list DrawIndirectCommand * list DrawIndirectCommand) :=
  for_each (convert_draw ins t) draws ([], []).

Definition draws_match_cache (p : Processor) (draws : RendererDrawList) : bool :=
  bool_decide (draw_cache p = draws).

(** The indirect buffer is replaced, and filled by a staged copy. *)
Definition write_draws (pool : CommandPool) (fence : Z) (member : option Buffer) (draws : list DrawIndirectCommand)
    : ST vkworld (option Buffer * CommandPool) :=
  match draws with
  | [] => m ← optional_reset member; mret (m, pool)
  | _ =>
      let draw_size_bytes := length draws * sizeof_VkDrawIndexedIndirectCommand in
      b ← Buffer_new DrawIndirect TransferDestination GPU draw_size_bytes;
      m ← optional_assign member b;
      pool ← staged_copy false pool fence (concat (map cmd_bytes draws)) b;
      mret (m, pool)
  end.

Definition record_draw_list (ins : list I) (draws : RendererDrawList) (p : Processor) : ST vkworld Processor :=
  if draws_match_cache p draws then mret p else
  t ← lift (draw_table ins);
  '(internal_draws, internal_draws_dynamic) ← lift (convert_draws ins t draws);
  _ ← lift (tz_assert (length internal_draws + length internal_draws_dynamic =? length draws));
  copy_fence ← on_sync Fence_new;
  _ ← on_sync (Fence_signal copy_fence);
  _ ← lift (CommandPool_at (command_pool p) get_view_count);
  '(static, pool) ← write_draws (command_pool p) copy_fence (draw_indirect_buffer p) internal_draws;
  '(dynamic, pool) ← write_draws pool copy_fence (draw_indirect_dynamic_buffer p) internal_draws_dynamic;
  _ ← on_sync (Fence_destroy copy_fence);
  mret (mkProcessor (resource_descriptor_pool p) pool static dynamic draws (frame_admin p)).

Definition all_inputs_once (ins : list I) : RendererDrawList := seq 0 (length ins).

(** *** The scratch commands of the constructor *)

(** The loop over the inputs: the total data of the static inputs, and the
    commands written through the mapped staging buffers (whose contents are not
    used afterwards). *)
Record scratch := mkScratch {
  total_vertices : list Z; total_indices : list Z;
  index_count_so_far : Z; vertex_count_so_far : Z; dyn_index_count_so_far : Z; dyn_vertex_count_so_far : Z;
  cmd_ptr : option ptr; dyn_cmd_ptr : option ptr }.

Definition write_command (p : option ptr) (c : DrawIndirectCommand) : ST vkworld (option ptr) :=
  match p with
  | None => mret None
  | Some q =>
      _ ← on_vheap (λ h, h' ← store h q (cmd_bytes c); Ok (h', tt));
      mret (Some (ptr_add q sizeof_VkDrawIndexedIndirectCommand))
  end.

Definition scratch_input (input : I) (s : scratch) : ST vkworld scratch :=
  h ← gets v_heap;
  input_vertices ← lift (span_read h (get_vertex_bytes input));
  input_indices ← lift (ispan_read h (get_indices input));
  vtx ← lift (vertex_count input);
  let idx := Z.of_nat (index_count input) in
  match data_access input with
  | StaticFixed =>
      p ← write_command (cmd_ptr s)
            (mkCmd (u32 idx) 1 (index_count_so_far s) (to_i32 (vertex_count_so_far s)) 0);
      mret (mkScratch (total_vertices s ++ input_vertices) (total_indices s ++ input_indices)
              (u32 (index_count_so_far s + idx)) (u32 (vertex_count_so_far s + Z.of_nat vtx))
              (dyn_index_count_so_far s) (dyn_vertex_count_so_far s) p (dyn_cmd_ptr s))
  | DynamicFixed =>
      p ← write_command (dyn_cmd_ptr s)
            (mkCmd (u32 idx) 1 (dyn_index_count_so_far s) (to_i32 (dyn_vertex_count_so_far s)) 0);
      mret (mkScratch (total_vertices s) (total_indices s) (index_count_so_far s) (vertex_count_so_far s)
              (u32 (dyn_index_count_so_far s + idx)) (u32 (dyn_vertex_count_so_far s + Z.of_nat vtx))
              (cmd_ptr s) p)
  end.

Definition draw_staging (n : nat) : ST vkworld (option Buffer) :=
  if 0 <? n then
    b ← Buffer_new Staging TransferSource CPU (sizeof_VkDrawIndexedIndirectCommand * n); mret (Some b)
  else mret None.

Definition map_staging (b : option Buffer) : ST vkworld (option ptr) :=
  match b with Some b => p ← Buffer_map_memory b; mret (Some p) | None => mret None end.

Definition unmap_staging (b : option Buffer) : ST vkworld unit :=
  match b with Some b => Buffer_unmap_memory b | None => mret tt end.

Definition scratch_inputs (bm : BufferManager) (ins : list I) (fence : Z) (p : Processor) : ST vkworld Processor :=
  static ← draw_staging (num_inputs_of StaticFixed ins);
  dynamic ← draw_staging (num_inputs_of DynamicFixed ins);
  cmd ← map_staging static;
  dyn_cmd ← map_staging dynamic;
  s ← st_fold scratch_input ins (mkScratch [] [] 0 0 0 0 cmd dyn_cmd);
  _ ← unmap_staging static;
  _ ← unmap_staging dynamic;
  pool ← (if (0 <? index_count_so_far s)%Z then
            pool ← staged_copy true (command_pool p) fence (total_vertices s) (vertex_buffer bm);
            _ ← CommandBuffer_reset pool get_view_count;
            pool ← staged_copy false pool fence (u32s_bytes (total_indices s)) (index_buffer bm);
            _ ← CommandBuffer_reset pool get_view_count;
            mret pool
          else mret (command_pool p));
  p ← record_draw_list ins (all_inputs_once ins) (set_pool p pool);
  _ ← optional_reset dynamic;
  _ ← optional_reset static;
  mret p.

Definition scratch_buffer_resource (rs : list R) (fence : Z) (bk : Buffer * nat) (pool : CommandPool)
    : ST vkworld CommandPool :=
  let '(b, k) := bk in
  r ← lift (at_index rs k);
  match resource_access r with
  | StaticFixed =>
      _ ← CommandBuffer_reset pool get_view_count;
      bytes ← (λ w, lift (span_read (v_heap w) (get_resource_bytes r)) w);
      staged_copy false pool fence bytes b
  | DynamicFixed => mret pool
  end.

Definition record_texture (pool : CommandPool) (staging : Buffer) (i : Image) : ST vkworld CommandPool :=
  recording pool get_view_count (λ c,
    _ ← transition_image_layout c i LayoutTransferDestination;
    _ ← buffer_copy_image c staging i;
    transition_image_layout c i ShaderResource).

Definition scratch_texture_resource (rs : list R) (fence : Z) (t : TextureComponent) (pool : CommandPool)
    : ST vkworld CommandPool :=
  r ← lift (at_index rs (tc_resource t));
  _ ← lift (tz_assert (bool_decide (resource_access r = StaticFixed)));
  _ ← CommandBuffer_reset pool get_view_count;
  bytes ← (λ w, lift (span_read (v_heap w) (get_resource_bytes r)) w);
  staging ← Buffer_new Staging TransferSource CPU (length bytes);
  _ ← Buffer_write staging bytes;
  pool ← record_texture pool staging (img t);
  _ ← on_sync (Fence_signal fence);
  _ ← scratch_submit pool fence;
  _ ← Buffer_destroy staging;
  mret pool.

Definition record_and_run_scratch_commands (bm : BufferManager) (im : ImageManager) (ins : list I) (rs : list R)
    (p : Processor) : ST vkworld Processor :=
  fence ← on_sync Fence_new;
  _ ← on_sync (Fence_signal fence);
  _ ← lift (CommandPool_at (command_pool p) get_view_count);
  p ← scratch_inputs bm ins fence p;
  pool ← st_fold (scratch_buffer_resource rs fence) (buffer_components bm) (command_pool p);
  pool ← st_fold (scratch_texture_resource rs fence) (texture_components im) pool;
  _ ← on_sync (Fence_destroy fence);
  mret (set_pool p pool).

(** ** Rendering *)

Definition set_admin (p : Processor) (a : FrameAdmin) : Processor :=
  mkProcessor (resource_descriptor_pool p) (command_pool p) (draw_indirect_buffer p) (draw_indirect_dynamic_buffer p)
    (draw_cache p) a.

Definition Processor_render (p : Processor) : ST vkworld Processor :=
  let natives := get_buffer_natives (command_pool p) in
  a ← (if headless then on_sync (render_frame_headless natives [ColourAttachmentOutput] (frame_admin p))
       else on_sync (render_frame (length image_views) natives [ColourAttachmentOutput] (frame_admin p)));
  mret (set_admin p a).

(** ** RendererVulkan *)

Record RendererVulkan := mkRenderer {
  renderer_inputs : list I;
  renderer_resources : list R;
  render_pass : Z;
  buffer_manager : BufferManager;
  pipeline : Z; pipeline_layout : Z; resource_descriptor_layout : list DescriptorType;
  image_manager : ImageManager;
  processor : Processor;
  clear_colour : list Z;
  requires_depth_image : bool }.

Definition copy_inputs (b : RendererBuilderVulkan I R) : res (list I) :=
  for_each (λ input inputs, i ← unique_clone input; Ok (inputs ++ [i])) (b_inputs b) [].

Definition create_pipeline : ST vkworld Z := create vkCreateGraphicsPipelines 0%Z.

(** The constructor; [rp] and [layout] are the render pass and the pipeline
    layout, [regenerate] what [handle_resize] does to the queue. *)
Definition RendererVulkan_new (rp playout : Z) (regenerate : ST vk_state unit) (b : RendererBuilderVulkan I R)
    : ST vkworld RendererVulkan :=
  ins ← lift (copy_inputs b);
  let bm := BufferManager_new in
  _ ← lift (get_shader b);
  pl ← create_pipeline;
  im ← ImageManager_new;
  p ← Processor_new ins;
  let depth := bool_decide (b_pass b ≠ Colour) in
  let colour := [0; 0; 0; 0]%Z in
  let rs := map clone_resource (b_buffer_resources b) ++ map clone_resource (b_texture_resources b) in
  let nb := length (b_buffer_resources b) in
  let bm := initialise_buffer_resources bm (seq 0 nb) in
  '(bm, ins, rs) ← setup_buffers bm ins rs;
  im ← initialise_texture_resources rs (seq nb (length (b_texture_resources b))) im;
  im ← (if (depth : bool) then setup_depth_image im else mret im);
  im ← setup_swapchain_framebuffers im;
  let layout := vk_get_descriptor_set_layout b in
  p ← initialise_resource_descriptors layout bm im rs p;
  p ← record_rendering_commands rp pl playout bm im ins colour p;
  p ← record_and_run_scratch_commands bm im ins rs p;
  let p := set_admin p (set_regeneration_function (frame_admin p) regenerate) in
  mret (mkRenderer ins rs rp bm pl playout layout im p colour depth).

Definition with_processor (r : RendererVulkan) (p : Processor) : RendererVulkan :=
  mkRenderer (renderer_inputs r) (renderer_resources r) (render_pass r) (buffer_manager r) (pipeline r)
    (pipeline_layout r) (resource_descriptor_layout r) (image_manager r) p (clear_colour r) (requires_depth_image r).

Definition record_all (r : RendererVulkan) (p : Processor) : ST vkworld Processor :=
  record_rendering_commands (render_pass r) (pipeline r) (pipeline_layout r) (buffer_manager r) (image_manager r)
    (renderer_inputs r) (clear_colour r) p.

(** [handle_clear_colour_change]; [idle] is [vkDeviceWaitIdle]. *)
Definition handle_clear_colour_change (idle : vk_state → vk_state) (r : RendererVulkan) : ST vkworld RendererVulkan :=
  _ ← on_sync (modify idle);
  pool ← initialise_command_pool (command_pool (processor r));
  p ← record_all r (set_pool (processor r) pool);
  mret (with_processor r p).

Definition set_clear_colour (idle : vk_state → vk_state) (c : list Z) (r : RendererVulkan) : ST vkworld RendererVulkan :=
  handle_clear_colour_change idle
    (mkRenderer (renderer_inputs r) (renderer_resources r) (render_pass r) (buffer_manager r) (pipeline r)
       (pipeline_layout r) (resource_descriptor_layout r) (image_manager r) (processor r) c (requires_depth_image r)).

Definition get_clear_colour (r : RendererVulkan) : list Z := clear_colour r.

Definition handle_resize (r : RendererVulkan) : ST vkworld RendererVulkan :=
  pl ← create_pipeline;
  im ← (if requires_depth_image r then setup_depth_image (image_manager r) else mret (image_manager r));
  im ← setup_swapchain_framebuffers im;
  let r := mkRenderer (renderer_inputs r) (renderer_resources r) (render_pass r) (buffer_manager r) pl
             (pipeline_layout r) (resource_descriptor_layout r) im (processor r) (clear_colour r)
             (requires_depth_image r) in
  pool ← initialise_command_pool (command_pool (processor r));
  p ← record_all r (set_pool (processor r) pool);
  mret (with_processor r p).

Definition render (r : RendererVulkan) : ST vkworld RendererVulkan :=
  p ← Processor_render (processor r); mret (with_processor r p).

Definition render_list (draws : RendererDrawList) (r : RendererVulkan) : ST vkworld RendererVulkan :=
  r ← (if draws_match_cache (processor r) draws then mret r
       else
         _ ← clear_rendering_commands (processor r);
         p ← record_draw_list (renderer_inputs r) draws (processor r);
         p ← record_all r p;
         mret (with_processor r p));
  render r.

Definition input_count (r : RendererVulkan) : nat := length (renderer_inputs r).

Definition input_count_of (r : RendererVulkan) (acc : RendererInputDataAccess) : nat :=
  num_inputs_of acc (renderer_inputs r).

Definition get_input (r : RendererVulkan) (handle : nat) : option I :=
  if length (renderer_inputs r) <=? handle then None else renderer_inputs r !! handle.

Definition resource_count (r : RendererVulkan) : nat := length (renderer_resources r).

Definition resource_count_of (r : RendererVulkan) (t : ResourceType) : nat :=
  foldl (λ n x, n + if bool_decide (get_type x = t) then 1 else 0) 0 (renderer_resources r).

Definition get_resource (r : RendererVulkan) (handle : nat) : option R :=
  if length (renderer_resources r) <=? handle then None else renderer_resources r !! handle.

End Processor.
Arguments RendererVulkan {V} I R.
