(* ===== verification/Backends.v ===== *)
(** * The two backends compute the same draws

    The OpenGL renderer counts in [unsigned int], the Vulkan renderer in
    [std::size_t] and converts when it fills a command.  Both write commands of
    five 32-bit words to the indirect buffers of the device. *)

From S2P Require Import Prelude Containers Memory RenderTypes OpenGL OGLRenderer VkFrame VkCommand VkRenderer VkProcessor.

Section Backends.
Context `{BC : BuildConfig} {I : Type} `{II : IRendererInput I}.

(** The contents of the static and the dynamic indirect buffer for a draw list. *)
Definition ogl_draw_bytes (ins : list I) (draws : RendererDrawList) : res (list Z * list Z) :=
  t ← OGLRenderer.draw_table ins;
  '(s, d) ← OGLRenderer.convert_draws ins t draws;
  Ok (concat (map OGLRenderer.cmd_bytes s), concat (map OGLRenderer.cmd_bytes d)).

Definition vk_draw_bytes (ins : list I) (draws : RendererDrawList) : res (list Z * list Z) :=
  t ← VkProcessor.draw_table ins;
  '(s, d) ← VkProcessor.convert_draws ins t draws;
  Ok (concat (map VkRenderer.cmd_bytes s), concat (map VkRenderer.cmd_bytes d)).

(** The same command in the two representations. *)
Definition same_cmd (o : OGLRenderer.DrawIndirectCommand) (v : VkRenderer.DrawIndirectCommand) : Prop :=
  OGLRenderer.cmd_bytes o = VkRenderer.cmd_bytes v.

Definition same_map (mo : gmap nat OGLRenderer.DrawIndirectCommand) (mv : gmap nat VkRenderer.DrawIndirectCommand)
    : Prop :=
  ∀ k, option_Forall2 same_cmd (mo !! k) (mv !! k).

Record same_tables (o : OGLRenderer.draw_tables) (v : VkProcessor.draw_tables) : Prop := {
  st_sv : OGLRenderer.static_vtx_count o = u32 (Z.of_nat (VkProcessor.static_vtx_count v));
  st_si : OGLRenderer.static_idx_count o = u32 (Z.of_nat (VkProcessor.static_idx_count v));
  st_dv : OGLRenderer.dynamic_vtx_count o = u32 (Z.of_nat (VkProcessor.dynamic_vtx_count v));
  st_di : OGLRenderer.dynamic_idx_count o = u32 (Z.of_nat (VkProcessor.dynamic_idx_count v));
  st_s : same_map (OGLRenderer.input_draws o) (VkProcessor.input_draws v);
  st_d : same_map (OGLRenderer.dynamic_input_draws o) (VkProcessor.dynamic_input_draws v) }.

Lemma u32_add_nat a n : u32 (u32 (Z.of_nat a) + Z.of_nat n) = u32 (Z.of_nat (a + n)).
Proof. rewrite u32_add_l. f_equal. lia. Qed.

Lemma same_map_insert mo mv k o v : same_map mo mv → same_cmd o v → same_map (<[k := o]> mo) (<[k := v]> mv).
Proof.
  intros Hm Hc j. destruct (decide (j = k)) as [->|Hne].
  - rewrite !lookup_insert_eq. by constructor.
  - by rewrite !lookup_insert_ne.
Qed.

Lemma same_cmd_fill idx i v : same_cmd (OGLRenderer.mkCmd (u32 idx) 1 (u32 i) (u32 v) 0)
                                       (VkRenderer.mkCmd (u32 idx) 1 (u32 i) (to_i32 v) 0).
Proof. unfold same_cmd, OGLRenderer.cmd_bytes, VkRenderer.cmd_bytes. simpl. by rewrite u32_to_i32. Qed.

(** Outcomes that agree: both faults the same, or both values related. *)
Definition agree {A B} (P : A → B → Prop) (x : res A) (y : res B) : Prop :=
  match x, y with Ok a, Ok b => P a b | Fault e, Fault e' => e = e' | _, _ => False end.

Lemma for_each_agree {X A B} (P : A → B → Prop) (f : X → A → res A) (g : X → B → res B) l a b :
  P a b → (∀ x a b, P a b → agree P (f x a) (g x b)) → agree P (for_each f l a) (for_each g l b).
Proof.
  intros HP Hs. revert a b HP. induction l as [|x l IH]; intros a b HP; [done|]. simpl.
  specialize (Hs x a b HP). destruct (f x a), (g x b); try done. by apply IH.
Qed.

Lemma table_input_agree ki o v : same_tables o v →
  agree same_tables (OGLRenderer.table_input ki o) (VkProcessor.table_input ki v).
Proof.
  destruct ki as [k i]. intros []. unfold OGLRenderer.table_input, VkProcessor.table_input.
  destruct (vertex_count i) as [n|]; [|done]. rewrite !bind_Ok.
  destruct (data_access i); simpl; split; simpl; rewrite ?st_sv0, ?st_si0, ?st_dv0, ?st_di0, ?u32_add_nat; try done;
    apply same_map_insert; try done; apply same_cmd_fill.
Qed.

Lemma draw_table_agree ins : agree same_tables (OGLRenderer.draw_table ins) (VkProcessor.draw_table ins).
Proof.
  apply for_each_agree; [|intros; by apply table_input_agree].
  split; try done; intros k; simpl; rewrite !lookup_empty; constructor.
Qed.

Definition same_draws (o : list OGLRenderer.DrawIndirectCommand * list OGLRenderer.DrawIndirectCommand)
    (v : list VkRenderer.DrawIndirectCommand * list VkRenderer.DrawIndirectCommand) : Prop :=
  Forall2 same_cmd o.1 v.1 ∧ Forall2 same_cmd o.2 v.2.

Lemma default_agree mo mv k : same_map mo mv →
  same_cmd (default OGLRenderer.cmd_default (mo !! k)) (default VkRenderer.cmd_default (mv !! k)).
Proof. intros H. by destruct (H k). Qed.

Lemma convert_draw_agree ins o v handle do_ dv : same_tables o v → same_draws do_ dv →
  agree same_draws (OGLRenderer.convert_draw ins o handle do_) (VkProcessor.convert_draw ins v handle dv).
Proof.
  intros Ht [H1 H2]. destruct do_ as [so d_o], dv as [sv dv]. simpl in H1, H2.
  unfold OGLRenderer.convert_draw, VkProcessor.convert_draw. destruct (at_index ins handle) as [i|]; [|done].
  rewrite !bind_Ok. destruct (data_access i); split; simpl; try done; apply Forall2_app; try done; constructor;
    try constructor; apply default_agree, Ht.
Qed.

Lemma convert_draws_agree ins o v draws : same_tables o v →
  agree same_draws (OGLRenderer.convert_draws ins o draws) (VkProcessor.convert_draws ins v draws).
Proof. intros Ht. apply for_each_agree; [split; constructor|]. intros. by apply convert_draw_agree. Qed.

Lemma same_bytes so sv : Forall2 same_cmd so sv →
  concat (map OGLRenderer.cmd_bytes so) = concat (map VkRenderer.cmd_bytes sv).
Proof. induction 1 as [|o v so sv Hc _ IH]; [done|]. unfold same_cmd in Hc. cbn [map concat]. by rewrite Hc, IH. Qed.


End Backends.
