(* ===== verification/VkRendererFacts.v ===== *)
(** * The Vulkan renderer: what is recorded, and where

    A calculus for the commands a computation records: [emits c P m] says that
    [m] records in command buffer [c] only, and only commands that satisfy
    [P]. *)

From S2P Require Import Prelude Containers Memory RenderTypes VkFrame VkCommand VkRenderer VkProcessor.

Section Emits.
Context `{BC : BuildConfig} `{VM : Vma} `{V : Vk}.

Definition commands (w : vkworld) (c : Z) : list vkcmd := default [] (v_cmds w !! c).

Definition emits {A} (c : Z) (P : vkcmd → Prop) (m : ST vkworld A) : Prop :=
  ∀ w a w', m w = Ok (a, w') →
    (∀ c', c' ≠ c → commands w' c' = commands w c') ∧ (Forall P (commands w c) → Forall P (commands w' c)).

(** Computations that record nothing. *)
Definition silent {A} (m : ST vkworld A) : Prop := ∀ w a w', m w = Ok (a, w') → v_cmds w' = v_cmds w.

Lemma silent_emits {A} c P (m : ST vkworld A) : silent m → emits c P m.
Proof. intros Hs w a w' E. unfold commands. rewrite (Hs w a w' E). done. Qed.

Lemma emits_bind {A B} c P (m : ST vkworld A) (f : A → ST vkworld B) :
  emits c P m → (∀ a, emits c P (f a)) → emits c P (m ≫= f).
Proof.
  intros Hm Hf w b w' (a & w1 & E1 & E2)%st_bind_inv.
  destruct (Hm _ _ _ E1) as [K1 P1], (Hf a _ _ _ E2) as [K2 P2]. split; [|auto].
  intros c' Hc. rewrite K2, K1; done.
Qed.

Lemma emits_lift {A B} c P (m : res A) (f : A → ST vkworld B) :
  (∀ a, m = Ok a → emits c P (f a)) → emits c P (lift m ≫= f).
Proof.
  intros Hf w b w' (a & w1 & E1 & E2)%st_bind_inv. unfold lift in E1. destruct m as [x|]; [|done].
  injection E1 as -> ->. by apply (Hf a eq_refl _ _ _ E2).
Qed.

Lemma silent_bind {A B} (m : ST vkworld A) (f : A → ST vkworld B) :
  silent m → (∀ a, silent (f a)) → silent (m ≫= f).
Proof.
  intros Hm Hf w b w' (a & w1 & E1 & E2)%st_bind_inv. rewrite (Hf a _ _ _ E2). by apply (Hm _ _ _ E1).
Qed.

Lemma silent_ret {A} (a : A) : silent (mret a).
Proof. by intros w x w' [= <- <-]. Qed.
Lemma silent_lift {A} (m : res A) : silent (lift m).
Proof. intros w x w'. unfold lift. destruct m; [by intros [= <- <-]|done]. Qed.
Lemma silent_gets {A} (f : vkworld → A) : silent (gets f).
Proof. by intros w x w' [= <- <-]. Qed.
Lemma silent_read {A} (f : vkworld → res A) : silent (λ w, lift (f w) w).
Proof. intros w x w'. unfold lift. destruct (f w); [by intros [= <- <-]|done]. Qed.
Lemma silent_on_sync {A} (m : ST vk_state A) : silent (on_sync m).
Proof. intros w x w'. unfold on_sync. destruct (m (v_sync w)) as [[? ?]|]; [by intros [= <- <-]|done]. Qed.
Lemma silent_on_vma {A} (f : vma_state → vma_state * A) : silent (on_vma f).
Proof. intros w x w'. unfold on_vma. destruct (f (v_vma w)). by intros [= <- <-]. Qed.
Lemma silent_on_memory {A} (f : heap * vma_state → heap * vma_state * A) : silent (on_memory f).
Proof. intros w x w'. unfold on_memory. destruct (f _) as [[? ?] ?]. by intros [= <- <-]. Qed.
Lemma silent_on_vheap {A} (f : heap → res (heap * A)) : silent (on_vheap f).
Proof. intros w x w'. unfold on_vheap. destruct (f _) as [[? ?]|]; [by intros [= <- <-]|done]. Qed.

Lemma silent_fold {A S} (f : A → S → ST vkworld S) l s : (∀ x s, silent (f x s)) → silent (st_fold f l s).
Proof.
  intros Hf. revert s. induction l as [|x l IH]; intros s; simpl; [apply silent_ret|].
  apply silent_bind; auto.
Qed.

Lemma silent_each {A} (f : A → ST vkworld unit) l : (∀ x, silent (f x)) → silent (st_each f l).
Proof.
  intros Hf. induction l as [|x l IH]; simpl; [apply silent_ret|]. apply silent_bind; auto.
Qed.

(** Asking whether a command buffer may be used again changes nothing. *)
Lemma reuse_inv c w a w' : on_sync (reuse_command_buffer c) w = Ok (a, w') → w' = w.
Proof.
  unfold on_sync, reuse_command_buffer. destruct (vkReuseCommandBuffer _ _); [|done].
  intros [= _ <-]. by destruct w.
Qed.

Lemma clear_pool_inv pool w pool' w' : CommandPool_clear pool w = Ok (pool', w') →
  pool' = mkCommandPool (pool_native pool) [] ∧
  w' = mkVkWorld (v_heap w) (vkFreeCommandBuffers (v_vma w) (get_buffer_natives pool)) (v_sync w) (v_cmds w).
Proof.
  unfold CommandPool_clear. intros ([] & w1 & E1 & E)%st_bind_inv.
  assert (w1 = w) as ->.
  { revert E1. generalize (get_buffer_natives pool). intros l. induction l as [|c l IH]; cbn [st_each]; [by intros [= <-]|].
    by intros ([] & ? & ->%reuse_inv & ?%IH)%st_bind_inv. }
  apply st_bind_inv in E as (? & ? & [= _ <-] & [= <- <-]). done.
Qed.

Lemma emits_cmd c (P : vkcmd → Prop) x : P x → emits c P (cmd c x).
Proof.
  intros HP w a w' [= <- <-]. unfold commands. simpl. split.
  - intros c' Hc. by rewrite lookup_insert_ne.
  - intros HF. rewrite lookup_insert_eq. simpl. apply Forall_app. auto.
Qed.

Lemma emits_clear c P (f : gmap Z (list vkcmd) → gmap Z (list vkcmd)) :
  (∀ m, f m = <[c := []]> m) → emits c P (on_cmds f).
Proof.
  intros Hf w a w' [= <- <-]. unfold commands. simpl. rewrite Hf. split.
  - intros c' Hc. by rewrite lookup_insert_ne.
  - intros _. by rewrite lookup_insert_eq.
Qed.

End Emits.

Create HintDb silent.
#[export] Hint Resolve silent_ret silent_lift silent_gets silent_read silent_on_sync silent_on_vma silent_on_memory
  silent_on_vheap : silent.

(** [solve_silent] takes a computation apart down to its primitive calls. *)
Ltac silent_step :=
  match goal with
  | |- silent _ => solve [eauto with silent]
  | |- silent (_ ≫= _) => apply silent_bind
  | |- silent (match ?x with _ => _ end) => destruct x
  | |- silent (st_fold _ _ _) => apply silent_fold
  | |- silent (st_each _ _) => apply silent_each
  | |- forall _, _ => intro
  end.
Ltac solve_silent := repeat silent_step.

Ltac emits_step :=
  match goal with
  | |- emits _ _ _ => solve [apply silent_emits; solve_silent]
  | |- emits _ _ (cmd _ _) => apply emits_cmd
  | |- emits _ _ (lift _ ≫= _) => apply emits_lift
  | |- emits _ _ (_ ≫= _) => apply emits_bind
  | |- emits _ _ (match ?x with _ => _ end) => destruct x
  | |- forall _, _ => intro
  end.
Ltac solve_emits := repeat emits_step.

Section Silent.
Context `{BC : BuildConfig} `{VM : Vma} `{V : Vk} `{VO : !VkObjects} `{TG : Target}.
Context {I : Type} `{II : IRendererInput I} {R : Type} `{IR : IResource R}.

Lemma Buffer_new_silent t p r n : silent (Buffer_new t p r n).
Proof. unfold Buffer_new. solve_silent. Qed.
Lemma Buffer_destroy_silent b : silent (Buffer_destroy b).
Proof. unfold Buffer_destroy. solve_silent. Qed.
Lemma Buffer_map_silent b : silent (Buffer_map_memory b).
Proof. unfold Buffer_map_memory. solve_silent. Qed.
Lemma Buffer_unmap_silent b : silent (Buffer_unmap_memory b).
Proof. unfold Buffer_unmap_memory. solve_silent. Qed.
Hint Resolve Buffer_new_silent Buffer_destroy_silent Buffer_map_silent Buffer_unmap_silent : silent.
Lemma Buffer_write_silent b d : silent (Buffer_write b d).
Proof. unfold Buffer_write. solve_silent. Qed.
Lemma Buffer_assign_silent b d : silent (Buffer_assign b d).
Proof. unfold Buffer_assign. simpl. solve_silent. Qed.
Hint Resolve Buffer_write_silent Buffer_assign_silent : silent.
Lemma optional_assign_silent b d : silent (optional_assign b d).
Proof. unfold optional_assign. solve_silent. Qed.
Lemma optional_reset_silent b : silent (optional_reset b).
Proof. unfold optional_reset. solve_silent. Qed.
Lemma create_silent {A} f (d : A) : silent (create f d).
Proof. unfold create. solve_silent. Qed.
Lemma Image_new_silent w h f u r : silent (Image_new w h f u r).
Proof. unfold Image_new. solve_silent. Qed.
Lemma write_command_silent p c : silent (write_command p c).
Proof. unfold write_command. solve_silent. Qed.
Hint Resolve optional_assign_silent optional_reset_silent create_silent Image_new_silent write_command_silent : silent.

Lemma scratch_input_silent (i : I) s : silent (scratch_input i s).
Proof. unfold scratch_input. solve_silent. Qed.
Lemma draw_staging_silent n : silent (draw_staging n).
Proof. unfold draw_staging. solve_silent. Qed.
Lemma map_staging_silent b : silent (map_staging b).
Proof. unfold map_staging. solve_silent. Qed.
Lemma unmap_staging_silent b : silent (unmap_staging b).
Proof. unfold unmap_staging. solve_silent. Qed.
Lemma submit_commands_silent c f : silent (submit_commands c f).
Proof. unfold submit_commands. solve_silent. Qed.
Hint Resolve scratch_input_silent draw_staging_silent map_staging_silent unmap_staging_silent submit_commands_silent : silent.
Lemma scratch_submit_silent pool f : silent (scratch_submit pool f).
Proof. unfold scratch_submit. solve_silent. Qed.

Lemma with_silent pool n : silent (CommandPool_with pool n).
Proof. unfold CommandPool_with. solve_silent. Qed.
Lemma clear_silent pool : silent (CommandPool_clear pool).
Proof. unfold CommandPool_clear. solve_silent. Qed.
Hint Resolve with_silent clear_silent : silent.
Lemma initialise_command_pool_silent pool : silent (initialise_command_pool pool).
Proof. unfold initialise_command_pool. solve_silent. Qed.

End Silent.

#[export] Hint Resolve Buffer_new_silent Buffer_destroy_silent Buffer_map_silent Buffer_unmap_silent Buffer_write_silent
  Buffer_assign_silent optional_assign_silent optional_reset_silent create_silent Image_new_silent
  write_command_silent scratch_input_silent draw_staging_silent map_staging_silent unmap_staging_silent
  submit_commands_silent scratch_submit_silent with_silent clear_silent initialise_command_pool_silent : silent.

(** ** Recordings *)

Section Recordings.
Context `{BC : BuildConfig} `{VM : Vma} `{V : Vk} `{VO : !VkObjects} `{TG : Target}.
Context {I : Type} `{II : IRendererInput I} {R : Type} `{IR : IResource R}.

Definition cleared (w : vkworld) (c : Z) : vkworld :=
  mkVkWorld (v_heap w) (v_vma w) (v_sync w) (<[c := []]> (v_cmds w)).

Lemma set_recording_natives pool idx b pool' :
  set_recording pool idx b = Ok pool' → get_buffer_natives pool' = get_buffer_natives pool.
Proof.
  unfold set_recording, CommandPool_at. intros E.
  apply bind_Ok_inv in E as (cb & Hcb%at_index_inv & E). apply bind_Ok_inv in E as (_ & _ & E).
  apply bind_Ok_inv in E as (bufs & [Hlt ->]%set_index_inv & E). injection E as <-.
  unfold get_buffer_natives. simpl.
  rewrite list_fmap_insert. simpl. apply list_insert_id. by rewrite list_lookup_fmap, Hcb.
Qed.

(** A recording runs its body on the emptied command buffer. *)
Lemma recording_inv pool idx body w pool' w' :
  recording pool idx body w = Ok (pool', w') →
  ∃ c, get_buffer_natives pool !! idx = Some c ∧ get_buffer_natives pool' = get_buffer_natives pool ∧
       body c (cleared w c) = Ok (tt, w').
Proof.
  unfold recording. intros E.
  apply st_bind_inv in E as (pool1 & w1 & E1 & E). unfold lift in E1.
  destruct (set_recording pool idx true) as [p1|] eqn:Es; [|done]. injection E1 as <- <-.
  apply st_bind_inv in E as (cb & w1 & E1 & E). unfold lift, CommandPool_at in E1.
  destruct (at_index (buffers p1) idx) as [cb'|] eqn:Ec; [|done]. injection E1 as <- <-.
  apply st_bind_inv in E as ([] & w1 & ->%reuse_inv & E).
  apply st_bind_inv in E as (ok & w1 & [= <- <-] & E). apply st_bind_inv in E as ([] & w1 & E1 & E).
  unfold lift in E1. destruct (tz_assert _) as [[]|]; [|done]. injection E1 as <-.
  apply st_bind_inv in E as ([] & w1 & [= <-] & E). apply st_bind_inv in E as ([] & w1 & Eb & E).
  apply st_bind_inv in E as (ok & w2 & [= <- <-] & E). apply st_bind_inv in E as ([] & w2 & E2 & E).
  unfold lift in E2. destruct (tz_assert _) as [[]|]; [|done]. injection E2 as <-.
  unfold lift in E. destruct (set_recording p1 idx false) as [p2|] eqn:Es2; [|done]. injection E as <- <-.
  exists (command_buffer cb'). apply set_recording_natives in Es, Es2. apply at_index_inv in Ec.
  rewrite <- Es. split; [unfold get_buffer_natives; by rewrite list_lookup_fmap, Ec|]. by rewrite Es2, Es.
Qed.

(** An operation on a pool that records in the scratch buffer [c] only. *)
Definition scratch_only {A} (c : Z) (l : list Z) (pool_of : A → CommandPool) (m : ST vkworld A) : Prop :=
  ∀ w a w', m w = Ok (a, w') →
    get_buffer_natives (pool_of a) = l ∧ ∀ c', c' ≠ c → commands w' c' = commands w c'.

Lemma scratch_only_ret {A} c l (pool_of : A → CommandPool) a :
  get_buffer_natives (pool_of a) = l → scratch_only c l pool_of (mret a).
Proof. intros H w x w' [= <- <-]. done. Qed.

Lemma scratch_only_silent {A B} c l (pool_of : B → CommandPool) (m : ST vkworld A) (f : A → ST vkworld B) :
  silent m → (∀ a, scratch_only c l pool_of (f a)) → scratch_only c l pool_of (m ≫= f).
Proof.
  intros Hs Hf w b w' (a & w1 & E1 & E2)%st_bind_inv. destruct (Hf a _ _ _ E2) as [H1 H2].
  split; [done|]. intros c' Hc. rewrite H2 by done. unfold commands. by rewrite (Hs _ _ _ E1).
Qed.

Lemma scratch_only_bind {A B} c l (pool_of' : A → CommandPool) (pool_of : B → CommandPool) (m : ST vkworld A)
    (f : A → ST vkworld B) :
  scratch_only c l pool_of' m → (∀ a, get_buffer_natives (pool_of' a) = l → scratch_only c l pool_of (f a)) →
  scratch_only c l pool_of (m ≫= f).
Proof.
  intros Hm Hf w b w' (a & w1 & E1 & E2)%st_bind_inv. destruct (Hm _ _ _ E1) as [H1 H2].
  destruct (Hf a H1 _ _ _ E2) as [H3 H4]. split; [done|]. intros c' Hc. rewrite H4, H2; done.
Qed.

(** A step that yields no pool but may reset the scratch buffer. *)
Lemma scratch_only_unit {B} c l (pool_of : B → CommandPool) (m : ST vkworld unit) (f : unit → ST vkworld B) :
  emits c (λ _, True) m → (∀ a, scratch_only c l pool_of (f a)) → scratch_only c l pool_of (m ≫= f).
Proof.
  intros Hm Hf w b w' (a & w1 & E1 & E2)%st_bind_inv. destruct (Hm _ _ _ E1) as [H1 _].
  destruct (Hf a _ _ _ E2) as [H3 H4]. split; [done|]. intros c' Hc. rewrite H4, H1; done.
Qed.

Lemma scratch_only_fold {A} c l (f : A → CommandPool → ST vkworld CommandPool) xs pool :
  get_buffer_natives pool = l →
  (∀ x pool, get_buffer_natives pool = l → scratch_only c l id (f x pool)) →
  scratch_only c l id (st_fold f xs pool).
Proof.
  intros Hp Hf. revert pool Hp. induction xs as [|x xs IH]; intros pool Hp; simpl.
  - by apply scratch_only_ret.
  - eapply scratch_only_bind; [by apply Hf|]. intros p Hp'. by apply IH.
Qed.

Section Scratch.
Variables (c : Z) (l : list Z).
Hypothesis scratch_buffer : l !! get_view_count = Some c.

Lemma recording_scratch pool body : get_buffer_natives pool = l →
  emits c (λ _, True) (body c) → scratch_only c l id (recording pool get_view_count body).
Proof.
  intros Hp Hb w p w' (c' & Hc & Hn & E)%recording_inv. rewrite Hp in Hc. rewrite scratch_buffer in Hc.
  injection Hc as <-. split; [by rewrite <- Hp|]. intros c' Hne. destruct (Hb _ _ _ E) as [H _].
  rewrite H by done. unfold commands, cleared. simpl. by rewrite lookup_insert_ne.
Qed.

Lemma reset_scratch pool : get_buffer_natives pool = l →
  emits c (λ _, True) (CommandBuffer_reset pool get_view_count).
Proof.
  intros Hp w [] w' E. unfold CommandBuffer_reset in E. apply st_bind_inv in E as (b & w1 & E1 & E).
  unfold lift, CommandPool_at in E1. destruct (at_index _ _) as [b'|] eqn:Eb; [|done]. injection E1 as <- <-.
  apply st_bind_inv in E as ([] & w1 & E1 & E). unfold lift in E1. destruct (tz_assert _) as [[]|]; [|done].
  injection E1 as <-. apply st_bind_inv in E as ([] & w1 & ->%reuse_inv & E). apply at_index_inv in Eb.
  assert (command_buffer b' = c) as Hc.
  { rewrite <- Hp in scratch_buffer. unfold get_buffer_natives in scratch_buffer.
    rewrite list_lookup_fmap, Eb in scratch_buffer. by injection scratch_buffer. }
  injection E as <-. unfold commands. simpl. rewrite Hc. split.
  - intros c' Hne. by rewrite lookup_insert_ne.
  - intros _. by rewrite lookup_insert_eq.
Qed.

Lemma staged_copy_scratch early pool fence data dst : get_buffer_natives pool = l →
  scratch_only c l id (staged_copy early pool fence data dst).
Proof.
  intros Hp. unfold staged_copy.
  apply scratch_only_silent; [solve_silent|]. intros _. apply scratch_only_silent; [solve_silent|]. intros st.
  apply scratch_only_silent; [solve_silent|]. intros _.
  eapply scratch_only_bind.
  - apply recording_scratch; [done|]. unfold buffer_copy_buffer. solve_emits. done.
  - intros p Hp'. repeat (apply scratch_only_silent; [solve_silent|]; intros _). by apply scratch_only_ret.
Qed.

Lemma write_draws_scratch pool fence member draws : get_buffer_natives pool = l →
  scratch_only c l snd (write_draws pool fence member draws).
Proof.
  intros Hp. unfold write_draws. destruct draws as [|d ds].
  - apply scratch_only_silent; [solve_silent|]. intros m. by apply scratch_only_ret.
  - apply scratch_only_silent; [solve_silent|]. intros b. apply scratch_only_silent; [solve_silent|]. intros m.
    eapply scratch_only_bind; [by apply staged_copy_scratch|]. intros p Hp'. by apply scratch_only_ret.
Qed.

Lemma record_draw_list_scratch ins draws p : get_buffer_natives (command_pool p) = l →
  scratch_only c l command_pool (record_draw_list ins draws p).
Proof.
  intros Hp. unfold record_draw_list. destruct (draws_match_cache p draws); [by apply scratch_only_ret|].
  apply scratch_only_silent; [solve_silent|]. intros t. apply scratch_only_silent; [solve_silent|]. intros [s d].
  apply scratch_only_silent; [solve_silent|]. intros _. apply scratch_only_silent; [solve_silent|]. intros f.
  apply scratch_only_silent; [solve_silent|]. intros _. apply scratch_only_silent; [solve_silent|]. intros b.
  eapply scratch_only_bind; [by apply write_draws_scratch|]. intros [m1 p1] Hp1.
  eapply scratch_only_bind; [by apply write_draws_scratch|]. intros [m2 p2] Hp2.
  apply scratch_only_silent; [solve_silent|]. intros _. by apply scratch_only_ret.
Qed.

Lemma scratch_inputs_scratch bm ins fence p : get_buffer_natives (command_pool p) = l →
  scratch_only c l command_pool (scratch_inputs bm ins fence p).
Proof.
  intros Hp. unfold scratch_inputs.
  do 5 (apply scratch_only_silent; [solve_silent|]; intros ?).
  do 2 (apply scratch_only_silent; [solve_silent|]; intros _).
  eapply (scratch_only_bind _ _ id).
  - case_match; [|by apply scratch_only_ret].
    eapply scratch_only_bind; [by apply staged_copy_scratch|]. intros p1 Hp1.
    apply scratch_only_unit; [by apply reset_scratch|]. intros _.
    eapply scratch_only_bind; [by apply staged_copy_scratch|]. intros p2 Hp2.
    apply scratch_only_unit; [by apply reset_scratch|]. intros _. by apply scratch_only_ret.
  - intros pool Hpool. eapply scratch_only_bind; [by apply record_draw_list_scratch|]. intros p' Hp'.
    do 2 (apply scratch_only_silent; [solve_silent|]; intros _). by apply scratch_only_ret.
Qed.

Lemma scratch_commands_scratch bm im ins rs p : get_buffer_natives (command_pool p) = l →
  scratch_only c l command_pool (record_and_run_scratch_commands bm im ins rs p).
Proof.
  intros Hp. unfold record_and_run_scratch_commands.
  do 3 (apply scratch_only_silent; [solve_silent|]; intros ?).
  eapply scratch_only_bind; [by apply scratch_inputs_scratch|]. intros p1 Hp1.
  eapply scratch_only_bind.
  { apply scratch_only_fold; [done|]. intros [b k] pool Hpool. unfold scratch_buffer_resource.
    apply scratch_only_silent; [solve_silent|]. intros r. destruct (resource_access r); [|by apply scratch_only_ret].
    apply scratch_only_unit; [by apply reset_scratch|]. intros _.
    apply scratch_only_silent; [solve_silent|]. intros bytes. by apply staged_copy_scratch. }
  intros pool1 Hpool1. eapply scratch_only_bind.
  { apply scratch_only_fold; [done|]. intros t pool Hpool. unfold scratch_texture_resource.
    do 2 (apply scratch_only_silent; [solve_silent|]; intros ?).
    apply scratch_only_unit; [by apply reset_scratch|]. intros _.
    do 3 (apply scratch_only_silent; [solve_silent|]; intros ?).
    eapply scratch_only_bind.
    - apply recording_scratch; [done|]. unfold transition_image_layout, buffer_copy_image. solve_emits; done.
    - intros p2 Hp2. do 3 (apply scratch_only_silent; [solve_silent|]; intros _). by apply scratch_only_ret. }
  intros pool2 Hpool2. apply scratch_only_silent; [solve_silent|]. intros _. by apply scratch_only_ret.
Qed.

End Scratch.
End Recordings.
