(* ===== verification/VkProperties.v ===== *)
(** * The Vulkan renderer: properties *)

From S2P Require Import Prelude Containers Memory RenderTypes Inputs VkFrame VkCommand VkRenderer VkDriver VkProcessor VkRendererFacts.

(** ** What is recorded for the views *)

Section Views.
Context `{BC : BuildConfig} `{VM : Vma} `{V : Vk} `{VO : !VkObjects} `{TG : Target}.
Context {I : Type} `{II : IRendererInput I} {R : Type} `{IR : IResource R}.

Definition draw_commands (indirect : option Buffer) (vb ib : Buffer) (n : nat) : list vkcmd :=
  match indirect with
  | None => []
  | Some b => [CmdBindVertexBuffers (buffer vb); CmdBindIndexBuffer (buffer ib);
               CmdDrawIndexedIndirect (buffer b) (u32 (Z.of_nat n)) 20]
  end.

Definition set_commands (playout : Z) (p : Processor) (i : nat) : list vkcmd :=
  match resource_descriptor_pool p with
  | Some dp => [CmdBindDescriptorSets playout (default 0%Z (sets dp !! i))]
  | None => []
  end.

(** The whole recording of view [i]. *)
Definition view_commands (rp pl playout fb : Z) (bm : BufferManager) (colour : list Z) (p : Processor)
    (i ns nd : nat) : list vkcmd :=
  [CmdBeginRenderPass rp fb (target_width, target_height) (clear_vals colour); CmdBindPipeline pl] ++ set_commands playout p i ++
  draw_commands (draw_indirect_buffer p) (vertex_buffer bm) (index_buffer bm) ns ++
  draw_commands (draw_indirect_dynamic_buffer p) (dynamic_vertex_buffer bm) (dynamic_index_buffer bm) nd ++
  [CmdEndRenderPass].

(** How many commands are drawn: counting them fails only when nothing is drawn. *)
Definition count_of (n : res nat) : nat := match n with Ok n => n | Fault _ => 0 end.

(** The geometry buffers have the types they are created with. *)
Definition geometry_typed (bm : BufferManager) (p : Processor) : Prop :=
  (is_Some (draw_indirect_buffer p) → type (vertex_buffer bm) = Vertex ∧ type (index_buffer bm) = Index) ∧
  (is_Some (draw_indirect_dynamic_buffer p) →
   type (dynamic_vertex_buffer bm) = Vertex ∧ type (dynamic_index_buffer bm) = Index).

(** [m] appends the commands [l] to [c] and changes nothing else. *)
Definition appends (c : Z) (l : list vkcmd) (w w' : vkworld) : Prop :=
  commands w' c = commands w c ++ l ∧ ∀ c', c' ≠ c → commands w' c' = commands w c'.

Lemma appends_nil c w : appends c [] w w.
Proof. split; [by rewrite app_nil_r|done]. Qed.

Lemma appends_trans c l1 l2 w1 w2 w3 : appends c l1 w1 w2 → appends c l2 w2 w3 → appends c (l1 ++ l2) w1 w3.
Proof.
  intros [H1 K1] [H2 K2]. split; [by rewrite H2, H1, app_assoc|]. intros c' Hc. rewrite K2, K1; done.
Qed.

Lemma cmd_appends c x w w' : cmd c x w = Ok (tt, w') → appends c [x] w w'.
Proof.
  intros [= <-]. unfold appends, commands. simpl. split; [by rewrite lookup_insert_eq|].
  intros c' Hc. by rewrite lookup_insert_ne.
Qed.

Lemma bind_buffer_appends c b w w' : bind_buffer c b w = Ok (tt, w') →
  match type b with
  | Vertex => appends c [CmdBindVertexBuffers (buffer b)] w w'
  | Index => appends c [CmdBindIndexBuffer (buffer b)] w w'
  | _ => True
  end.
Proof.
  unfold bind_buffer. intros ([] & w1 & [_ ->]%lift_inv & E)%st_bind_inv.
  apply st_bind_inv in E as (t & w1 & [Et ->]%lift_inv & E). unfold Buffer_get_type in Et.
  apply bind_Ok_inv in Et as ([] & _ & [= <-]). destruct (type b); try done; by apply cmd_appends.
Qed.

Lemma record_draws_appends c indirect vb ib draws w w' :
  (is_Some indirect → type vb = Vertex ∧ type ib = Index) →
  record_draws c indirect vb ib draws w = Ok (tt, w') → appends c (draw_commands indirect vb ib (count_of draws)) w w'.
Proof.
  intros Ht E. destruct indirect as [b|]; simpl in *; [|injection E as <-; apply appends_nil].
  destruct Ht as [Hv Hi]; [done|]. apply st_bind_inv in E as ([] & w1 & E1 & E).
  apply st_bind_inv in E as ([] & w2 & E2 & E). apply st_bind_inv in E as (? & w3 & [-> ->]%lift_inv & E).
  apply bind_buffer_appends in E1, E2. rewrite Hv in E1. rewrite Hi in E2.
  apply st_bind_inv in E as ([] & w4 & [_ ->]%lift_inv & E%cmd_appends).
  apply (appends_trans _ [_] [_; _] _ _ _ E1), (appends_trans _ [_] [_] _ _ _ E2), E.
Qed.

(** What the recording of view [i] holds for the current draw list. *)
Definition current_view_commands (rp pl playout fb : Z) (bm : BufferManager) (ins : list I) (colour : list Z)
    (p : Processor) (i : nat) : list vkcmd :=
  view_commands rp pl playout fb bm colour p i (count_of (num_draws_of StaticFixed ins (draw_cache p)))
    (count_of (num_draws_of DynamicFixed ins (draw_cache p))).

Lemma record_view_inv rp pl playout bm im ins colour p i pool w pool' w' :
  geometry_typed bm p →
  record_view rp pl playout bm im ins colour p i pool w = Ok (pool', w') →
  ∃ c fb, get_buffer_natives pool !! i = Some c ∧ get_buffer_natives pool' = get_buffer_natives pool ∧
    swapchain_framebuffers im !! i = Some fb ∧
    commands w' c = current_view_commands rp pl playout fb bm ins colour p i ∧
    (∀ dp, resource_descriptor_pool p = Some dp → i < length (sets dp)) ∧
    ∀ c', c' ≠ c → commands w' c' = commands w c'.
Proof.
  intros [Hs Hd] E. unfold record_view in E.
  apply recording_inv in E as (c & Hc & Hn & E). exists c.
  apply st_bind_inv in E as (fb & w1 & [Hfb%at_index_inv ->]%lift_inv & E). exists fb. split_and!; try done.
  all: apply st_bind_inv in E as ([] & w1 & E1%cmd_appends & E);
    apply st_bind_inv in E as ([] & w2 & E2%cmd_appends & E);
    apply st_bind_inv in E as ([] & w3 & E3 & E);
    apply st_bind_inv in E as ([] & w4 & E4%record_draws_appends & E); [|done];
    apply st_bind_inv in E as ([] & w5 & E5%record_draws_appends & E6%cmd_appends); [|done].
  all: assert (E3' : appends c (set_commands playout p i) w2 w3) by
    (unfold set_commands; destruct (resource_descriptor_pool p) as [dp|];
     [apply st_bind_inv in E3 as (s & w3' & [Hset%at_index_inv ->]%lift_inv & E3%cmd_appends); by rewrite Hset
     |injection E3 as <-; apply appends_nil]).
  all: pose proof (appends_trans _ _ _ _ _ _ E1 (appends_trans _ _ _ _ _ _ E2 (appends_trans _ _ _ _ _ _ E3'
    (appends_trans _ _ _ _ _ _ E4 (appends_trans _ _ _ _ _ _ E5 E6))))) as [Happ Hkeep].
  - rewrite Happ. unfold commands, cleared. simpl. by rewrite lookup_insert_eq.
  - intros dp Hdp. rewrite Hdp in E3. apply st_bind_inv in E3 as (x & ? & [Hset%at_index_inv _]%lift_inv & _).
    by apply lookup_lt_Some in Hset.
  - intros c' Hne. rewrite Hkeep by done. unfold commands, cleared. simpl. by rewrite lookup_insert_ne.
Qed.

(** All views, each in its own command buffer. *)
Lemma record_rendering_inv rp pl playout bm im ins colour p w p' w' :
  geometry_typed bm p → NoDup (get_buffer_natives (command_pool p)) →
  record_rendering_commands rp pl playout bm im ins colour p w = Ok (p', w') →
  get_buffer_natives (command_pool p') = get_buffer_natives (command_pool p) ∧
  p' = set_pool p (command_pool p') ∧
  (∀ i, i < get_view_count → ∃ c fb, get_buffer_natives (command_pool p) !! i = Some c ∧
    swapchain_framebuffers im !! i = Some fb ∧
    commands w' c = current_view_commands rp pl playout fb bm ins colour p i ∧
    ∀ dp, resource_descriptor_pool p = Some dp → i < length (sets dp)) ∧
  ∀ c, c ∉ get_buffer_natives (command_pool p) → commands w' c = commands w c.
Proof.
  intros Hg Hnd E. unfold record_rendering_commands in E.
  apply st_bind_inv in E as (pool & w1 & E & [= <- <-]). simpl.
  apply (st_fold_Ok_ind (λ done_ pool w', done_ = seq 0 (length done_) →
    get_buffer_natives pool = get_buffer_natives (command_pool p) ∧
    (∀ i, i < length done_ → ∃ c fb, get_buffer_natives (command_pool p) !! i = Some c ∧
      swapchain_framebuffers im !! i = Some fb ∧
      commands w' c = current_view_commands rp pl playout fb bm ins colour p i ∧
      ∀ dp, resource_descriptor_pool p = Some dp → i < length (sets dp)) ∧
    ∀ c, c ∉ get_buffer_natives (command_pool p) → commands w' c = commands w c)) in E.
  - rewrite length_seq in E. by destruct E as (? & ? & ?).
  - intros _. split; [done|]. split; [simpl; lia|done].
  - intros done_ x pool1 wa pool2 wb IH Ev Hseq. rewrite length_app, seq_app in Hseq. simpl in Hseq.
    apply app_inj_2 in Hseq as [Hdone [= ->]]; [|done]. destruct (IH Hdone) as (Hn & Hv & Ho).
    destruct (record_view_inv _ _ _ _ _ _ _ _ _ _ _ _ _ Hg Ev) as (c & fb & Hc & Hn' & Hfb & Hcm & Hds & Hk).
    rewrite Hn in Hc. split; [congruence|]. split.
    + intros i Hi. rewrite length_app in Hi. simpl in Hi.
      destruct (decide (i = length done_)) as [->|Hne]; [by exists c, fb|].
      destruct (Hv i) as (c' & fb' & Hc' & Hfb' & Hcm' & ?); [lia|]. exists c', fb'. split_and!; try done.
      rewrite Hk; [done|]. intros ->. apply Hne. by eapply NoDup_lookup.
    + intros c' Hc'. rewrite Hk; [auto|]. intros ->. by apply Hc', (list_elem_of_lookup_2 _ _ _ Hc).
  - by rewrite length_seq.
Qed.

(** ** Recording with an empty draw cache *)

(** A command that draws nothing. *)
Definition no_draw (x : vkcmd) : Prop :=
  match x with
  | CmdDraw n _ _ _ | CmdDrawIndexed n _ _ _ _ | CmdDrawIndexedIndirect _ n _ => n = 0%Z
  | _ => True
  end.

Lemma bind_buffer_no_draw c b : emits c no_draw (bind_buffer c b).
Proof. unfold bind_buffer. solve_emits; done. Qed.

Lemma record_draws_no_draw c indirect vb ib : emits c no_draw (record_draws c indirect vb ib (Ok 0)).
Proof.
  unfold record_draws. destruct indirect; [|solve_emits].
  apply emits_bind; [apply bind_buffer_no_draw|intros _]. apply emits_bind; [apply bind_buffer_no_draw|intros _].
  apply emits_lift. intros n [= <-]. unfold draw_indirect. solve_emits. done.
Qed.

Lemma record_rendering_no_draw rp pl playout bm im (ins : list I) colour p w p' w' :
  draw_cache p = [] → NoDup (get_buffer_natives (command_pool p)) →
  record_rendering_commands rp pl playout bm im ins colour p w = Ok (p', w') →
  get_buffer_natives (command_pool p') = get_buffer_natives (command_pool p) ∧
  ∀ i, i < get_view_count → ∃ c, get_buffer_natives (command_pool p) !! i = Some c ∧ Forall no_draw (commands w' c).
Proof.
  intros Hc Hnd E. unfold record_rendering_commands in E.
  apply st_bind_inv in E as (pool & w1 & E & [= <- <-]). simpl.
  apply (st_fold_Ok_ind (λ done_ pool w', done_ = seq 0 (length done_) →
    get_buffer_natives pool = get_buffer_natives (command_pool p) ∧
    ∀ i, i < length done_ → ∃ c, get_buffer_natives (command_pool p) !! i = Some c ∧
      Forall no_draw (commands w' c))) in E.
  - rewrite length_seq in E. by destruct E.
  - intros _. split; [done|]. simpl. lia.
  - intros done_ x pool1 wa pool2 wb IH Ev Hseq. rewrite length_app, seq_app in Hseq. simpl in Hseq.
    apply app_inj_2 in Hseq as [Hdone [= ->]]; [|done]. destruct (IH Hdone) as [Hn Hv].
    unfold record_view in Ev. apply recording_inv in Ev as (c & Hci & Hn' & Ev).
    assert (Hem : emits c no_draw (
      fb ← lift (at_index (swapchain_framebuffers im) (length done_));
      _ ← RenderPassRun_new c rp fb (target_width, target_height) colour; _ ← cmd c (CmdBindPipeline pl);
      _ ← match resource_descriptor_pool p with
          | Some dp => s ← lift (DescriptorPool_at dp (length done_)); bind_descriptor_set c s playout
          | None => mret tt end;
      _ ← record_draws c (draw_indirect_buffer p) (vertex_buffer bm) (index_buffer bm)
            (num_draws_of StaticFixed ins (draw_cache p));
      _ ← record_draws c (draw_indirect_dynamic_buffer p) (dynamic_vertex_buffer bm) (dynamic_index_buffer bm)
            (num_draws_of DynamicFixed ins (draw_cache p));
      RenderPassRun_destroy c)).
    { rewrite Hc. unfold bind_descriptor_set, RenderPassRun_new, RenderPassRun_destroy. solve_emits; try done; apply record_draws_no_draw. }
    destruct (Hem _ _ _ Ev) as [Hk HF]. split; [congruence|]. intros i Hi. rewrite length_app in Hi. simpl in Hi.
    rewrite Hn in Hci. destruct (decide (i = length done_)) as [->|Hne].
    + exists c. split; [done|]. apply HF. unfold commands, cleared. simpl. by rewrite lookup_insert_eq.
    + destruct (Hv i) as (c' & Hc' & HF'); [lia|]. exists c'. split; [done|].
      assert (c' ≠ c) by (intros ->; apply Hne; by eapply NoDup_lookup).
      rewrite Hk by done. unfold commands, cleared. simpl. by rewrite lookup_insert_ne.
  - by rewrite length_seq.
Qed.

End Views.

(** ** The constructor *)

Section Constructor.
Context `{BC : BuildConfig} `{VM : Vma} {VMS : VmaSpec} {VMU : VmaSucceeds} `{V : Vk} `{VO : !VkObjects} `{TG : Target}.
Context {I : Type} `{II : IRendererInput I} {R : Type} `{IR : IResource R}.

(** Handles allocated for an empty pool are its natives. *)
Lemma with_inv pool n w k pool' w' :
  buffers pool = [] → CommandPool_with pool n w = Ok (k, pool', w') →
  snd (vkAllocateCommandBuffers (v_vma w) n) = Some (get_buffer_natives pool') ∧
  v_vma w' = fst (vkAllocateCommandBuffers (v_vma w) n).
Proof.
  intros Hb E. unfold CommandPool_with in E. rewrite Hb in E. simpl in E.
  apply st_bind_inv in E as (r & w1 & E1 & E). unfold on_vma in E1.
  destruct (command_buffers_allocated (v_vma w) n) as [l Hr].
  destruct (proj1 (allocate_spec (v_vma w) n) l Hr) as [Hl _].
  destruct (vkAllocateCommandBuffers (v_vma w) n) as [m r']. simpl in Hr. subst r'. injection E1 as <- <-.
  apply st_bind_inv in E as ([] & w2 & [_ ->]%lift_inv & [= _ <- <-]). split; [|done]. cbn. f_equal.
  unfold get_buffer_natives. simpl. rewrite drop_ge, app_nil_r by (by rewrite length_fmap, length_replicate).
  rewrite <- Hl. clear. induction l as [|x l IH]; [done|]. cbn [length replicate zip_with]. by rewrite fmap_cons, <- IH.
Qed.

Lemma with_natives pool n w k pool' w' :
  buffers pool = [] → CommandPool_with pool n w = Ok (k, pool', w') →
  NoDup (get_buffer_natives pool') ∧ length (get_buffer_natives pool') = n.
Proof.
  intros Hb [E _]%(with_inv _ _ _ _ _ _ Hb).
  by destruct (proj1 (allocate_spec (v_vma w) n) _ E).
Qed.

Lemma initialise_command_pool_natives pool w pool' w' :
  initialise_command_pool pool w = Ok (pool', w') →
  NoDup (get_buffer_natives pool') ∧ length (get_buffer_natives pool') = get_view_count + 1.
Proof.
  unfold initialise_command_pool. intros (p1 & w1 & E1 & E)%st_bind_inv.
  apply st_bind_inv in E as ([k p2] & w2 & E2 & [= <- _]). eapply with_natives; [|exact E2].
  destruct (CommandPool_empty pool) eqn:Ee; simpl in E1.
  - injection E1 as <- _. unfold CommandPool_empty in Ee. by destruct (buffers pool).
  - apply st_bind_inv in E1 as (? & ? & _ & [= <- _]). done.
Qed.

Lemma record_draw_list_cache (ins : list I) draws p w p' w' :
  record_draw_list ins draws p w = Ok (p', w') → draw_cache p' = draws.
Proof.
  unfold record_draw_list, draws_match_cache. case_bool_decide as Hd; [by intros [= <- _]|].
  intros E. apply st_bind_inv in E as (t & ? & _ & E). apply st_bind_inv in E as ([s d] & ? & _ & E).
  do 4 (apply st_bind_inv in E as (? & ? & _ & E)).
  apply st_bind_inv in E as ([m1 p1] & ? & _ & E). apply st_bind_inv in E as ([m2 p2] & ? & _ & E).
  apply st_bind_inv in E as (? & ? & _ & E). by injection E as <- _.
Qed.

Lemma scratch_commands_cache bm im (ins : list I) (rs : list R) p w p' w' :
  record_and_run_scratch_commands bm im ins rs p w = Ok (p', w') → draw_cache p' = all_inputs_once ins.
Proof.
  unfold record_and_run_scratch_commands. intros E.
  do 3 (apply st_bind_inv in E as (? & ? & _ & E)). apply st_bind_inv in E as (p1 & w1 & E1 & E).
  do 3 (apply st_bind_inv in E as (? & ? & _ & E)). injection E as <- _. simpl.
  unfold scratch_inputs in E1. do 8 (apply st_bind_inv in E1 as (? & ? & _ & E1)).
  apply st_bind_inv in E1 as (p2 & w2 & E2%record_draw_list_cache & E1).
  do 2 (apply st_bind_inv in E1 as (? & ? & _ & E1)). by injection E1 as <- _.
Qed.

Lemma descriptors_keep layout bm im (rs : list R) p w p' w' :
  initialise_resource_descriptors layout bm im rs p w = Ok (p', w') →
  command_pool p' = command_pool p ∧ draw_cache p' = draw_cache p ∧
  draw_indirect_buffer p' = draw_indirect_buffer p ∧
  draw_indirect_dynamic_buffer p' = draw_indirect_dynamic_buffer p.
Proof.
  unfold initialise_resource_descriptors. destruct rs; [by intros [= <- _]|].
  intros E. do 3 (apply st_bind_inv in E as (? & ? & _ & E)). by injection E as <- _.
Qed.

(** C28: the constructor of [RendererVulkan] records the commands of every view
    while the draw list is still empty, and fills it afterwards: whatever is
    recorded draws nothing, and since the draw list then matches, asking for
    every input to be drawn once does not record anything else. *)
Theorem vk_constructor_records_no_draws rp playout regenerate (b : RendererBuilderVulkan I R) w r w' :
  RendererVulkan_new rp playout regenerate b w = Ok (r, w') →
  (∀ i, i < get_view_count → ∃ c, get_buffer_natives (command_pool (processor r)) !! i = Some c ∧
     Forall no_draw (commands w' c)) ∧
  render_list (all_inputs_once (renderer_inputs r)) r w' = render r w'.
Proof.
  intros E. unfold RendererVulkan_new in E.
  do 4 (apply st_bind_inv in E as (? & ? & _ & E)). apply st_bind_inv in E as (p0 & w0 & E0 & E).
  unfold Processor_new in E0. do 4 (apply st_bind_inv in E0 as (? & ? & _ & E0)).
  apply st_bind_inv in E0 as (pool & ? & [Hnd Hlen]%initialise_command_pool_natives & [= <- _]).
  apply st_bind_inv in E as ([[bm ins] rs] & ? & _ & E). do 3 (apply st_bind_inv in E as (? & ? & _ & E)).
  apply st_bind_inv in E as (p1 & w1 & (Hp1 & Hc1 & _)%descriptors_keep & E). simpl in Hp1, Hc1.
  apply st_bind_inv in E as (p2 & w2 & E2 & E). apply st_bind_inv in E as (p3 & w3 & E3 & [= <- <-]). simpl.
  rewrite <- Hp1 in Hnd, Hlen.
  apply record_rendering_no_draw in E2 as [Hn2 Hv]; [|done|done].
  destruct (lookup_lt_is_Some_2 (get_buffer_natives (command_pool p1)) get_view_count) as [c Hc]; [lia|].
  pose proof (scratch_commands_scratch c _ Hc _ _ _ _ _ Hn2 _ _ _ E3) as [Hn3 Hk].
  split.
  - intros i Hi. destruct (Hv i Hi) as (ci & Hci & HF). exists ci. rewrite Hn3. split; [done|].
    rewrite Hk; [done|]. intros ->. assert (i = get_view_count) by (by eapply NoDup_lookup). lia.
  - unfold render_list, draws_match_cache. simpl. rewrite (scratch_commands_cache _ _ _ _ _ _ _ _ E3).
    by rewrite bool_decide_eq_true_2.
Qed.

(** A change of the clear colour records the views for the current draw list. *)
Lemma clear_colour_commands idle colour (r : RendererVulkan I R) w r' w' :
  set_clear_colour idle colour r w = Ok (r', w') → geometry_typed (buffer_manager r) (processor r) →
  get_clear_colour r' = colour ∧
  ∀ i, i < get_view_count → ∃ c fb, get_buffer_natives (command_pool (processor r')) !! i = Some c ∧
    swapchain_framebuffers (image_manager r) !! i = Some fb ∧
    commands w' c = current_view_commands (render_pass r) (pipeline r) (pipeline_layout r) fb (buffer_manager r)
                      (renderer_inputs r) colour (processor r) i.
Proof.
  intros E Hg. unfold set_clear_colour, handle_clear_colour_change in E. cbn in E.
  apply st_bind_inv in E as (? & ? & _ & E).
  apply st_bind_inv in E as (pool & w1 & [Hnd Hlen]%initialise_command_pool_natives & E).
  apply st_bind_inv in E as (p & w2 & E & [= <- <-]). split; [done|].
  unfold record_all in E. cbn in E. apply record_rendering_inv in E as (Hn & _ & Hv & _); try done.
  cbn [with_processor processor]. rewrite Hn. intros i Hi. destruct (Hv i Hi) as (c & fb & ? & ? & Hc & _). by exists c, fb.
Qed.

End Constructor.

(** ** Concrete inputs *)

#[local] Instance views_config : BuildConfig := debug_build.
#[local] Existing Instance two_views.

Lemma vk_constructor_records_no_draws_witness :
  match RendererVulkan_new 900 901 (mret tt) sample_builder new_device with
  | Ok (r, w') =>
      (∀ i, i < 2 → ∃ c, get_buffer_natives (command_pool (processor r)) !! i = Some c ∧
         Forall no_draw (commands w' c)) ∧
      render_list [0; 1; 2] r w' = render r w'
  | Fault _ => False
  end.
Proof.
  assert (Hok : is_Ok (RendererVulkan_new 900 901 (mret tt) sample_builder new_device) = true)
    by (vm_compute; reflexivity).
  destruct (RendererVulkan_new 900 901 (mret tt) sample_builder new_device) as [[r w']|e] eqn:E; [|discriminate Hok].
  assert (Hi : all_inputs_once (renderer_inputs r) = [0; 1; 2]).
  { assert (Hl : match RendererVulkan_new 900 901 (mret tt) sample_builder new_device with
                   | Ok (r, _) => length (renderer_inputs r) = 3 | Fault _ => False end) by (vm_compute; reflexivity).
      rewrite E in Hl. unfold all_inputs_once. by rewrite Hl. }
  rewrite <- Hi.
  exact (vk_constructor_records_no_draws (VM := driver_vma) (V := driver_vk) 900 901 (mret tt) sample_builder
             new_device r w' E).
Defined.
