(* ===== verification/VkDraws.v ===== *)
(** * The Vulkan renderer: draw lists reach the device

    Staged copies put their bytes in the buffer they are for, and recording a
    draw list leaves the commands it stands for in the two indirect buffers. *)

From S2P Require Import Prelude Containers Memory RenderTypes Inputs OpenGL OGLRenderer VkFrame VkCommand VkRenderer VkDriver VkProcessor Backends VkRendererFacts VkProperties.

Section Staged.
Context `{BC : BuildConfig} `{VM : Vma} {VMS : VmaSpec} {VMU : VmaSucceeds} `{V : Vk} {VS : VkSpec} `{VO : !VkObjects} `{TG : Target}.

(** ** Buffers *)

(** What creating buffer [b] in block [blk] does to the world. *)
Record created (b : Buffer) (blk n : nat) (w w' : vkworld) : Prop := {
  cr_name : buffer b ≠ 0%Z;
  cr_fresh : vma_block (v_vma w) (buffer b) = None;
  cr_unused : v_heap w !! blk = None;
  cr_block : ∀ k, vma_block (v_vma w) k ≠ Some blk;
  cr_heap : ∃ bs, v_heap w' = <[blk := bs]> (v_heap w) ∧ length bs = n;
  cr_blocks : ∀ k, vma_block (v_vma w') k = if decide (k = buffer b) then Some blk else vma_block (v_vma w) k;
  cr_sync : v_sync w' = v_sync w;
  cr_cmds : v_cmds w' = v_cmds w }.

Lemma Buffer_new_ok t p r n u w : purpose_usage t p = Ok u → u ≠ 0%Z → 0 < n →
  ∃ b blk w', Buffer_new t p r n w = Ok (b, w') ∧ created b blk n w w' ∧ type b = t ∧
    (persistent_mapped_ptr b = if bool_decide (r = CPUPersistent) then Some (mkPtr blk 0) else None) ∧
    (r ≠ GPU → host_visible blk = true).
Proof.
  intros Hu Hz Hn. unfold Buffer_new. rewrite Hu, lift_bind. unfold on_memory, mbind at 1, ST_bind.
  destruct (vmaCreateBuffer _ _ _ _ _) as [[h m] r'] eqn:Ec.
  destruct (buffer_created (v_heap w, v_vma w) u (bool_decide (r ≠ GPU)) (bool_decide (r = CPUPersistent)) n Hz Hn)
    as [[b q] Hr]. rewrite Ec in Hr. cbn in Hr. subst r'.
  destruct (create_buffer_spec _ _ _ _ _ _ _ _ _ _ Ec Hz Hn) as (blk & bs & -> & Hb & Hf & Hh & Hm & -> & Hl & Hv & Hk).
  { rewrite !bool_decide_eq_true. by intros ->. }
  eexists _, blk, _. split; [done|]. split; [split; simpl; eauto|]. simpl. split; [done|].
  split; [by destruct (bool_decide (r = CPUPersistent))|]. intros Hr. by apply Hv, bool_decide_eq_true_2.
Qed.

Lemma ensure_notnull_ok b : buffer b ≠ 0%Z → ensure_notnull b = Ok tt.
Proof. intros Hb. unfold ensure_notnull, Buffer_is_null. rewrite (proj2 (Z.eqb_neq _ _) Hb). apply tz_assert_true. Qed.

Lemma Buffer_write_ok b blk old data w :
  buffer b ≠ 0%Z → vma_block (v_vma w) (buffer b) = Some blk → host_visible blk = true → persistent_mapped_ptr b = None →
  v_heap w !! blk = Some old → length data ≤ length old →
  ∃ w', Buffer_write b data w = Ok (tt, w') ∧ v_heap w' = <[blk := splice 0 data old]> (v_heap w) ∧
    (∀ k, vma_block (v_vma w') k = vma_block (v_vma w) k) ∧ v_sync w' = v_sync w ∧ v_cmds w' = v_cmds w.
Proof.
  intros Hz Hb Hv Hp Hh Hl. unfold Buffer_write. rewrite (ensure_notnull_ok _ Hz), lift_bind.
  unfold Buffer_map_memory. rewrite Hp, (ensure_notnull_ok _ Hz). unfold mbind, ST_bind. simpl. unfold on_vma.
  destruct (map_memory_spec _ _ _ Hb Hv) as [Hm Hk]. destruct (memory_mapped _ _ _ Hb Hv) as [q Hq].
  specialize (Hm q Hq). subst q. destruct (vmaMapMemory _ _) as [m r]. simpl in Hq, Hk. subst r.
  simpl. unfold on_vheap. simpl.
  assert (Hc : memcpy (v_heap w) (mkPtr blk 0) (Owned data) = Ok (<[blk := splice 0 data old]> (v_heap w))).
  { unfold memcpy. simpl. unfold store. simpl. by rewrite Hh, (proj2 (Nat.leb_le _ _) Hl). }
  rewrite Hc. simpl.
  unfold Buffer_unmap_memory. rewrite Hp, (ensure_notnull_ok _ Hz). eexists. split; [reflexivity|]. simpl.
  split_and!; try done. intros k. by rewrite unmap_memory_spec.
Qed.

Lemma Buffer_destroy_ok b w : ∃ w', Buffer_destroy b w = Ok (tt, w') ∧ v_sync w' = v_sync w ∧ v_cmds w' = v_cmds w ∧
  (∀ k, k ≠ buffer b → vma_block (v_vma w') k = vma_block (v_vma w) k ∧
        ∀ blk, vma_block (v_vma w) k = Some blk → v_heap w' !! blk = v_heap w !! blk) ∧
  (buffer b ≠ 0%Z → vma_block (v_vma w') (buffer b) = None) ∧
  ∀ k x, vma_block (v_vma w') k = Some x → vma_block (v_vma w) k = Some x.
Proof.
  unfold Buffer_destroy, Buffer_is_null. destruct (Z.eqb_spec (buffer b) 0) as [Hz|Hz].
  - eexists. split; [done|]. done.
  - unfold on_memory.
    pose proof (λ k, destroy_buffer_spec (v_heap w) (v_vma w) (buffer b) k) as Hd.
    pose proof (destroyed_buffer_spec (v_heap w) (v_vma w) (buffer b)) as Hb.
    destruct (vmaDestroyBuffer _ _) as [h m]. eexists. split; [done|]. split_and!; try done. cbn in *.
    intros k x Hx. destruct (decide (k = buffer b)) as [->|Hne]; [congruence|]. by destruct (Hd k Hne) as [<- _].
Qed.

(** ** Recording and submitting *)

Lemma set_recording_ok pool idx c r : buffers pool !! idx = Some (mkCommandBuffer c (negb r)) →
  set_recording pool idx r = Ok (mkCommandPool (pool_native pool) (<[idx := mkCommandBuffer c r]> (buffers pool))).
Proof.
  intros Hp. unfold set_recording, CommandPool_at. rewrite (at_index_Some _ _ _ Hp), bind_Ok. simpl.
  replace (if r then _ else _) with true by (by destruct r).
  by rewrite tz_assert_true, bind_Ok, (set_index_lt _ _ _ (lookup_lt_Some _ _ _ Hp)).
Qed.

(** A command buffer that is not pending may be used again. *)
Lemma reuse_ok c w : (∀ f, (f, c) ∉ pending (v_sync w)) → on_sync (reuse_command_buffer c) w = Ok (tt, w).
Proof. intros Hn. unfold on_sync, reuse_command_buffer. rewrite reuse_spec by done. by destruct w. Qed.

Lemma reset_ok pool idx c w : buffers pool !! idx = Some (mkCommandBuffer c false) →
  (∀ f, (f, c) ∉ pending (v_sync w)) → CommandBuffer_reset pool idx w = Ok (tt, cleared w c).
Proof.
  intros Hp Hn. unfold CommandBuffer_reset, CommandPool_at. rewrite (at_index_Some _ _ _ Hp), lift_bind.
  cbn [currently_recording command_buffer negb]. rewrite tz_assert_true, lift_bind.
  by rewrite (st_bind_Ok _ _ _ _ _ (reuse_ok c w Hn)).
Qed.

Lemma recording_ok pool idx c body w w' : buffers pool !! idx = Some (mkCommandBuffer c false) →
  (∀ f, (f, c) ∉ pending (v_sync w)) → body c (cleared w c) = Ok (tt, w') → recording pool idx body w = Ok (pool, w').
Proof.
  intros Hp Hn Hb. assert (Hlt := lookup_lt_Some _ _ _ Hp). unfold recording.
  rewrite (set_recording_ok pool idx c true Hp), lift_bind.
  assert (Hi : <[idx := mkCommandBuffer c true]> (buffers pool) !! idx = Some (mkCommandBuffer c true))
    by (by apply list_lookup_insert_eq).
  unfold CommandPool_at at 1. cbn [buffers]. rewrite (at_index_Some _ _ _ Hi), lift_bind. cbn [command_buffer].
  rewrite (st_bind_Ok _ _ _ _ _ (reuse_ok c w Hn)).
  rewrite (st_bind_Ok (gets _) _ _ true w) by (unfold gets; by rewrite recording_begun). rewrite tz_assert_true, lift_bind.
  rewrite (st_bind_Ok (on_cmds _) _ _ tt (cleared w c)) by done. rewrite (st_bind_Ok _ _ _ _ _ Hb).
  rewrite (st_bind_Ok (gets _) _ _ true w') by (unfold gets; by rewrite recording_ended). rewrite tz_assert_true, lift_bind.
  rewrite (set_recording_ok (mkCommandPool (pool_native pool) (<[idx := mkCommandBuffer c true]> (buffers pool))) idx c false Hi). unfold lift. cbn [buffers pool_native].
  rewrite list_insert_insert_eq, list_insert_id by done. by destruct pool.
Qed.

(** Calls after which the same fences and images exist, nothing more is on the
    device, and the fences of [P] that were signalled still are. *)
Definition settles (P : Z → Prop) (s s' : vk_state) : Prop :=
  fences s' = fences s ∧ images s' = images s ∧ (∀ p, p ∈ pending s' → p ∈ pending s) ∧
  ∀ g, P g → signalled s g = true → signalled s' g = true.

Lemma settles_refl P s : settles P s s.
Proof. done. Qed.

Lemma settles_trans P s1 s2 s3 : settles P s1 s2 → settles P s2 s3 → settles P s1 s3.
Proof. intros (F1 & I1 & P1 & S1) (F2 & I2 & P2 & S2). split_and!; [congruence|congruence|auto|auto]. Qed.

Lemma settles_weaken (P Q : Z → Prop) s s' : (∀ g, Q g → P g) → settles P s s' → settles Q s s'.
Proof. intros H (? & ? & ? & ?). split_and!; auto. Qed.

(** The scratch command buffer [c] and fence [f] can be used. *)
Record scratch_ready (pool : CommandPool) (c f : Z) (w : vkworld) : Prop := {
  sr_buffer : buffers pool !! get_view_count = Some (mkCommandBuffer c false);
  sr_fence : f ∈ fences (v_sync w);
  sr_free : ∀ x, (f, x) ∉ pending (v_sync w);
  sr_idle : ∀ g, (g, c) ∉ pending (v_sync w) }.

(** The fence and the scratch buffer only depend on the queue. *)
Lemma scratch_ready_sync pool c f w w' : v_sync w' = v_sync w → scratch_ready pool c f w → scratch_ready pool c f w'.
Proof. intros Hs []. split; rewrite ?Hs; done. Qed.

Lemma Fence_signal_ok pool c f w : scratch_ready pool c f w →
  ∃ s, on_sync (Fence_signal f) w = Ok (tt, mkVkWorld (v_heap w) (v_vma w) s (v_cmds w)) ∧
    scratch_ready pool c f (mkVkWorld (v_heap w) (v_vma w) s (v_cmds w)) ∧ signalled s f = false ∧
    settles (λ g, g ≠ f) (v_sync w) s.
Proof.
  intros []. destruct (reset_spec (v_sync w) f) as (s & E & Hf & Hi & Hs & Hg & Hp & _); [done|done|].
  exists s. unfold on_sync, Fence_signal, vk_call. rewrite E. split; [done|]. split; [|by split_and!].
  split; simpl; [done|by rewrite Hf| |]; intros x Hx%Hp; [by apply sr_free0 in Hx|by apply sr_idle0 in Hx].
Qed.

(** A submission of the scratch buffer and the wait for its fence: the recorded
    commands are executed, and buffer and fence can be used again. *)
Lemma scratch_submit_ok pool c f w l : scratch_ready pool c f w → signalled (v_sync w) f = false →
  commands w c = l →
  ∃ s, scratch_submit pool f w =
         Ok (tt, mkVkWorld (fst (device_execute (v_heap w, v_vma w) l)) (snd (device_execute (v_heap w, v_vma w) l))
                   s (v_cmds w)) ∧
    (∀ h m, scratch_ready pool c f (mkVkWorld h m s (v_cmds w))) ∧ settles (λ g, g ≠ f) (v_sync w) s.
Proof.
  intros [Hb Hf Hfree Hidle] Hs Hl.
  destruct (submit_spec (v_sync w) (Submit_new [c] [] [] []) f) as (s1 & E1 & Hf1 & Hi1 & Hs1 & Hp1 & Hq1); try done.
  { intros g x ->%list_elem_of_singleton. apply Hidle. }
  destruct (wait_spec s1 f) as (s2 & E2 & (Hf2 & Hi2 & Hp2 & Hs2 & _) & _ & Hn2).
  { by rewrite Hf1. }
  { destruct (Hq1 f c) as [H|H]; [right; split; [done|by apply list_elem_of_singleton]|right; eauto|auto]. }
  exists s2. unfold scratch_submit, CommandPool_at. rewrite (at_index_Some _ _ _ Hb), lift_bind. simpl.
  unfold submit_commands, on_sync, Submit_call, vk_call, Fence_wait_for, mbind, ST_bind. rewrite E1. simpl.
  unfold gets, on_memory. simpl. unfold commands in Hl. rewrite Hl.
  destruct (device_execute (v_heap w, v_vma w) l) as [h m]. simpl. unfold vk_call. rewrite E2. split; [done|].
  assert (Hsub : ∀ p, p ∈ pending s2 → p ∈ pending (v_sync w)).
  { intros [g x] Hx. destruct (Hp1 g x (Hp2 _ Hx)) as [H|[-> _]]; [done|]. by apply Hn2 in Hx. }
  split; [|split_and!; [congruence|congruence|done|auto]]. intros h' m'. split; simpl; [done|by rewrite Hf2, Hf1|done|]. intros g Hg. by apply Hsub, Hidle in Hg.
Qed.

(** ** Staged copies *)

(** Buffer [b] is live, with the bytes [bs]. *)
Definition holds (w : vkworld) (b : Z) (bs : list Z) : Prop :=
  b ≠ 0%Z ∧ ∃ blk, vma_block (v_vma w) b = Some blk ∧ v_heap w !! blk = Some bs.

(** The other buffers keep their blocks and contents. *)
Definition keeps (P : Z → Prop) (w w' : vkworld) : Prop :=
  ∀ k blk, P k → vma_block (v_vma w) k = Some blk →
    vma_block (v_vma w') k = Some blk ∧ v_heap w' !! blk = v_heap w !! blk.

Lemma keeps_holds P w w' b bs : keeps P w w' → P b → holds w b bs → holds w' b bs.
Proof. intros Hk HP (Hz & blk & Hb & Hh). destruct (Hk _ _ HP Hb) as [? E]. split; [done|]. exists blk. by rewrite E. Qed.

Lemma keeps_trans P w1 w2 w3 : keeps P w1 w2 → keeps P w2 w3 → keeps P w1 w3.
Proof. intros H1 H2 k blk HP Hk. destruct (H1 _ _ HP Hk) as [Hk' <-]. by apply H2. Qed.

Lemma keeps_weaken (P Q : Z → Prop) w w' : (∀ k, Q k → P k) → keeps P w w' → keeps Q w w'.
Proof. intros H HP k blk HQ. apply HP. auto. Qed.

Lemma created_keeps b blk n w w' P : created b blk n w w' → keeps P w w'.
Proof.
  intros [] k blk' _ Hk. destruct cr_heap0 as (bs & -> & _). rewrite cr_blocks0.
  rewrite decide_False by congruence. split; [done|]. rewrite lookup_insert_ne; [done|]. intros ->. by apply (cr_block0 k).
Qed.

(** Two live buffers with different names have different blocks. *)
Definition separate (w : vkworld) (b : Z) : Prop :=
  ∀ k blk, k ≠ b → vma_block (v_vma w) b = Some blk → vma_block (v_vma w) k ≠ Some blk.

(** A staging buffer that holds [data]. *)
Record staged (st : Buffer) (blk : nat) (data : list Z) (w w' : vkworld) : Prop := {
  sg_name : buffer st ≠ 0%Z;
  sg_fresh : vma_block (v_vma w) (buffer st) = None;
  sg_block : ∀ k, vma_block (v_vma w) k ≠ Some blk;
  sg_heap : v_heap w' = <[blk := data]> (v_heap w);
  sg_blocks : ∀ k, vma_block (v_vma w') k = if decide (k = buffer st) then Some blk else vma_block (v_vma w) k;
  sg_sync : v_sync w' = v_sync w }.

Lemma staging_ok data w : data ≠ [] →
  ∃ st blk w1 w2, Buffer_new Staging TransferSource CPU (length data) w = Ok (st, w1) ∧
    Buffer_write st data w1 = Ok (tt, w2) ∧ staged st blk data w w2.
Proof.
  intros Hne. destruct (Buffer_new_ok Staging TransferSource CPU (length data) 1 w) as (st & bs & w1 & E1 & Hc & _ & Hp & Hv).
  { unfold purpose_usage. rewrite bool_decide_eq_true_2 by done. by rewrite tz_assert_true. }
  { done. } { destruct data; [done|simpl; lia]. }
  destruct Hc as [Hsz Hfr _ Hbl (b0 & Hh1 & Hl1) Hbk Hsy _].
  destruct (Buffer_write_ok st bs b0 data w1) as (w2 & E2 & Hh2 & Hk2 & Hs2 & _).
  { done. } { rewrite Hbk. by rewrite decide_True. } { by apply Hv. } { exact Hp. } { by rewrite Hh1, lookup_insert_eq. } { lia. }
  exists st, bs, w1, w2. split; [done|]. split; [done|]. split; try done.
  - rewrite Hh2, Hh1, insert_insert_eq. f_equal. unfold splice. simpl. rewrite drop_ge by lia. by rewrite app_nil_r.
  - intros k. by rewrite Hk2.
  - by rewrite Hs2.
Qed.

(** A fence that is reset only when asked for. *)
Lemma maybe_signal_ok (now : bool) pool c f w : scratch_ready pool c f w → 
  ∃ s, (if now then on_sync (Fence_signal f) else mret tt) w =
         Ok (tt, mkVkWorld (v_heap w) (v_vma w) s (v_cmds w)) ∧
       scratch_ready pool c f (mkVkWorld (v_heap w) (v_vma w) s (v_cmds w)) ∧
       signalled s f = (if now then false else signalled (v_sync w) f) ∧ settles (λ g, g ≠ f) (v_sync w) s.
Proof.
  intros Hr. destruct now.
  - destruct (Fence_signal_ok _ _ _ _ Hr) as (s & ? & ? & ? & ?). by exists s.
  - exists (v_sync w). by destruct w.
Qed.

Lemma record_copy_ok pool c f st dst n w : scratch_ready pool c f w → buffer st ≠ 0%Z → buffer dst ≠ 0%Z →
  ∃ cmds, record_copy pool st dst n w = Ok (pool, mkVkWorld (v_heap w) (v_vma w) (v_sync w) cmds) ∧
    default [] (cmds !! c) = [CmdCopyBuffer (buffer st) (buffer dst) n].
Proof.
  intros Hr Hs Hd. eexists. split.
  - unfold record_copy. eapply recording_ok; [apply Hr..|]. unfold buffer_copy_buffer, Buffer_is_null.
    rewrite (proj2 (Z.eqb_neq _ _) Hs), (proj2 (Z.eqb_neq _ _) Hd). cbn [negb]. rewrite tz_assert_true, !lift_bind.
    unfold cmd, on_cmds, cleared. cbn. rewrite lookup_insert_eq. reflexivity.
  - by rewrite lookup_insert_eq.
Qed.

(** The device executes the copy from a staging buffer. *)
Lemma execute_staged st blk data dst bd old w w2 : staged st blk data w w2 → buffer dst ≠ buffer st →
  vma_block (v_vma w) (buffer dst) = Some bd → v_heap w !! bd = Some old → length data ≤ length old →
  device_execute (v_heap w2, v_vma w2) [CmdCopyBuffer (buffer st) (buffer dst) (length data)] =
    (<[bd := splice 0 data old]> (v_heap w2), v_vma w2).
Proof.
  intros [] Hne Hbd Hld Hl. assert (Hb : bd ≠ blk) by (intros ->; by apply (sg_block0 (buffer dst))).
  erewrite (execute_copy_spec (v_heap w2) (v_vma w2) _ _ _ blk bd data old); try done.
  - by rewrite take_ge by lia.
  - by rewrite sg_blocks0, decide_True.
  - by rewrite sg_blocks0, decide_False.
  - by rewrite sg_heap0, lookup_insert_eq.
  - by rewrite sg_heap0, lookup_insert_ne.
Qed.

(** What is left when the staging buffer is gone. *)
Lemma staged_done st blk data bd new w w2 w5 w6 : staged st blk data w w2 →
  v_heap w5 = <[bd := new]> (v_heap w2) → v_vma w5 = v_vma w2 → bd ≠ blk →
  (∀ k, k ≠ buffer st → vma_block (v_vma w6) k = vma_block (v_vma w5) k ∧
        ∀ x, vma_block (v_vma w5) k = Some x → v_heap w6 !! x = v_heap w5 !! x) →
  vma_block (v_vma w6) (buffer st) = None →
  (∀ k, vma_block (v_vma w6) k = vma_block (v_vma w) k) ∧
  ∀ k x, vma_block (v_vma w) k = Some x → v_heap w6 !! x = <[bd := new]> (v_heap w) !! x.
Proof.
  intros [] Hh Hm Hbd Hk Hd. split.
  - intros k. destruct (decide (k = buffer st)) as [->|Hne]; [congruence|].
    destruct (Hk k Hne) as [-> _]. by rewrite Hm, sg_blocks0, decide_False.
  - intros k x Hx. assert (Hne : k ≠ buffer st) by congruence.
    destruct (Hk k Hne) as [_ H]. rewrite (H x) by (by rewrite Hm, sg_blocks0, decide_False).
    assert (x ≠ blk) by (intros ->; by apply (sg_block0 k)). rewrite Hh, sg_heap0.
    destruct (decide (x = bd)) as [->|]; [by rewrite !lookup_insert_eq|]. by rewrite !lookup_insert_ne.
Qed.

Lemma staged_copy_ok early pool c f data dst old w :
  scratch_ready pool c f w → holds w (buffer dst) old → separate w (buffer dst) →
  data ≠ [] → length data ≤ length old →
  ∃ w', staged_copy early pool f data dst w = Ok (pool, w') ∧ scratch_ready pool c f w' ∧
    holds w' (buffer dst) (splice 0 data old) ∧ keeps (λ k, k ≠ buffer dst) w w' ∧
    (∀ k, vma_block (v_vma w') k = vma_block (v_vma w) k) ∧ settles (λ g, g ≠ f) (v_sync w) (v_sync w').
Proof.
  intros Hr (Hz & bd & Hbd & Hld) Hsep Hne Hlen. unfold staged_copy.
  destruct (maybe_signal_ok early _ _ _ _ Hr) as (s0 & E0 & Hr0 & Hs0 & Hp0). rewrite (st_bind_Ok _ _ _ _ _ E0).
  set (w0 := mkVkWorld _ _ s0 _) in *. destruct (staging_ok data w0 Hne) as (st & blk & w1 & w2 & E1 & E2 & Hg).
  rewrite (st_bind_Ok _ _ _ _ _ E1), (st_bind_Ok _ _ _ _ _ E2). pose proof Hg as [Hsz Hfr Hbl _ _ Hsy]. cbn in Hfr, Hbl.
  assert (Hdst : buffer dst ≠ buffer st) by congruence. assert (Hbd' : bd ≠ blk) by (intros ->; by apply (Hbl (buffer dst))).
  destruct (record_copy_ok pool c f st dst (length data) w2) as (cmds & E3 & Hcm); [by eapply scratch_ready_sync|done|done|].
  rewrite (st_bind_Ok _ _ _ _ _ E3). set (w3 := mkVkWorld _ _ _ cmds) in *.
  assert (Hr3 : scratch_ready pool c f w3) by (by eapply scratch_ready_sync, Hr0).
  destruct (maybe_signal_ok (negb early) _ _ _ _ Hr3) as (s4 & E4 & Hr4 & Hs4 & Hp4).
  replace (if early then mret tt else on_sync (Fence_signal f))
    with (if negb early then on_sync (Fence_signal f) else mret tt) by (by destruct early).
  rewrite (st_bind_Ok _ _ _ _ _ E4). set (w4 := mkVkWorld _ _ s4 _) in *.
  destruct (scratch_submit_ok pool c f w4 [CmdCopyBuffer (buffer st) (buffer dst) (length data)])
    as (s5 & E5 & Hr5 & Hp5); [done| |done|].
  { cbn. rewrite Hs4. destruct early; [|done]. cbn. by rewrite Hsy. }
  cbn [w4 w3 v_heap v_vma] in E5. rewrite (execute_staged st blk data dst bd old w0 w2 Hg Hdst Hbd Hld Hlen) in E5.
  cbn in E5. rewrite (st_bind_Ok _ _ _ _ _ E5). set (w5 := mkVkWorld (<[bd := _]> _) _ s5 _) in *.
  destruct (Buffer_destroy_ok st w5) as (w6 & E6 & Hs6 & _ & Hk6 & Hd6 & _).
  rewrite (st_bind_Ok _ _ _ _ _ E6). exists w6. split; [done|].
  destruct (staged_done st blk data bd (splice 0 data old) w0 w2 w5 w6 Hg eq_refl eq_refl Hbd' Hk6 (Hd6 Hsz)) as [Hblocks Hheap].
  split_and!; auto.
  - eapply scratch_ready_sync, (Hr5 (v_heap w) (v_vma w)). done.
  - split; [done|]. exists bd. rewrite Hblocks. split; [done|]. rewrite (Hheap (buffer dst)) by done. by rewrite lookup_insert_eq.
  - intros k x Hk Hx. rewrite Hblocks. split; [done|]. rewrite (Hheap k) by done.
    rewrite lookup_insert_ne; [done|]. intros <-. by apply (Hsep k bd).
  - rewrite Hs6. apply (settles_trans _ _ _ _ Hp0). cbn in Hp4. rewrite Hsy in Hp4.
    exact (settles_trans _ _ _ _ Hp4 Hp5).
Qed.

End Staged.

(** ** Draw lists *)

Section DrawLists.
Context `{BC : BuildConfig} `{VM : Vma} {VMS : VmaSpec} {VMU : VmaSucceeds} `{V : Vk} {VS : VkSpec} `{VO : !VkObjects} `{TG : Target}.
Context {I : Type} `{II : IRendererInput I}.

(** An indirect buffer is there exactly when there is something to draw. *)
Definition indirect_holds (w : vkworld) (m : option Buffer) (bs : list Z) : Prop :=
  match m with
  | None => bs = []
  | Some b => bs ≠ [] ∧ type b = DrawIndirect ∧ holds w (buffer b) bs
  end.

Definition member_live (w : vkworld) (m : option Buffer) : Prop :=
  ∀ b, m = Some b → is_Some (vma_block (v_vma w) (buffer b)).

Definition not_member (m : option Buffer) (k : Z) : Prop := ∀ b, m = Some b → k ≠ buffer b.

Lemma length_cmd_bytes c : length (VkRenderer.cmd_bytes c) = sizeof_VkDrawIndexedIndirectCommand.
Proof. done. Qed.

Lemma length_draw_bytes (l : list VkRenderer.DrawIndirectCommand) :
  length (concat (map VkRenderer.cmd_bytes l)) = length l * sizeof_VkDrawIndexedIndirectCommand.
Proof. induction l as [|x l IH]; [done|]. cbn [map concat]. rewrite length_app, IH, length_cmd_bytes. simpl. lia. Qed.

Lemma keeps_destroyed b (w w' : vkworld) :
  (∀ k, k ≠ buffer b → vma_block (v_vma w') k = vma_block (v_vma w) k ∧
        ∀ blk, vma_block (v_vma w) k = Some blk → v_heap w' !! blk = v_heap w !! blk) →
  keeps (λ k, k ≠ buffer b) w w'.
Proof. intros H k blk Hk Hb. destruct (H k Hk) as [-> Hh]. split; [done|]. by apply Hh. Qed.

Lemma optional_reset_ok m w : ∃ w', optional_reset m w = Ok (None, w') ∧ v_sync w' = v_sync w ∧ keeps (not_member m) w w'.
Proof.
  destruct m as [b|].
  - destruct (Buffer_destroy_ok b w) as (w' & E & Hs & _ & Hk & _). exists w'. unfold optional_reset.
    rewrite (st_bind_Ok _ _ _ _ _ E). split; [done|]. split; [done|].
    eapply keeps_weaken, keeps_destroyed, Hk. intros k Hn. by apply Hn.
  - exists w. done.
Qed.

Lemma optional_assign_ok m v w : ∃ w', optional_assign m v w = Ok (Some v, w') ∧ v_sync w' = v_sync w ∧
  keeps (not_member m) w w' ∧ ∀ k x, vma_block (v_vma w') k = Some x → vma_block (v_vma w) k = Some x.
Proof.
  destruct m as [b|].
  - destruct (Buffer_destroy_ok b w) as (w' & E & Hs & _ & Hk & _ & Hx). exists w'.
    unfold optional_assign, Buffer_assign. simpl. unfold mbind, ST_bind. rewrite E. simpl.
    split_and!; try done. eapply keeps_weaken, keeps_destroyed, Hk. intros k Hn. by apply Hn.
  - exists w. split_and!; try done.
Qed.

Lemma write_draws_ok pool c f m draws w : scratch_ready pool c f w → member_live w m →
  ∃ m' w', write_draws pool f m draws w = Ok ((m', pool), w') ∧ scratch_ready pool c f w' ∧
    indirect_holds w' m' (concat (map VkRenderer.cmd_bytes draws)) ∧ keeps (not_member m) w w' ∧
    (∀ b, m' = Some b → vma_block (v_vma w) (buffer b) = None) ∧
    settles (λ g, g ≠ f) (v_sync w) (v_sync w').
Proof.
  intros Hr Hlive. unfold write_draws. destruct draws as [|d ds] eqn:Ed.
  { destruct (optional_reset_ok m w) as (w' & E & Hs & Hk). rewrite (st_bind_Ok _ _ _ _ _ E).
    exists None, w'. rewrite Hs. split; [done|]. split_and!; try done. by eapply scratch_ready_sync. }
  rewrite <- Ed. assert (Hpos : 0 < length draws * sizeof_VkDrawIndexedIndirectCommand) by (rewrite Ed; simpl; lia).
  assert (Hne : concat (map VkRenderer.cmd_bytes draws) ≠ []) by (by rewrite Ed).
  clear Ed. destruct (Buffer_new_ok DrawIndirect TransferDestination GPU _ _ w eq_refl ltac:(done) Hpos)
    as (b & blk & w1 & E1 & Hc & Ht & _). rewrite (st_bind_Ok _ _ _ _ _ E1).
  pose proof (created_keeps _ _ _ _ _ (not_member m) Hc) as K1. destruct Hc as [Hz Hfr _ Hbl (bs & Hh & Hl) Hbk Hsy _].
  destruct (optional_assign_ok m b w1) as (w2 & E2 & Hs2 & K2 & Hx2). rewrite (st_bind_Ok _ _ _ _ _ E2).
  assert (Hb1 : vma_block (v_vma w1) (buffer b) = Some blk) by (by rewrite Hbk, decide_True).
  assert (Hnm : not_member m (buffer b)).
  { intros b0 Hm Heq. destruct (Hlive b0 Hm) as [x Hx]. congruence. }
  destruct (K2 _ _ Hnm Hb1) as [Hb2 Hh2]. rewrite Hh, lookup_insert_eq in Hh2.
  destruct (staged_copy_ok false pool c f (concat (map VkRenderer.cmd_bytes draws)) b bs w2)
    as (w3 & E3 & Hr3 & Hd3 & K3 & _ & Hp3).
  { eapply scratch_ready_sync, Hr. by rewrite Hs2. }
  { split; [done|]. by exists blk. }
  { intros k x Hk Hx Hk2. assert (x = blk) as -> by congruence. apply Hx2 in Hk2. rewrite Hbk, decide_False in Hk2 by done.
    by apply (Hbl k). }
  { exact Hne. }
  { by rewrite length_draw_bytes, Hl. }
  rewrite (st_bind_Ok _ _ _ _ _ E3). exists (Some b), w3. split; [done|]. split_and!; try done.
  - split; [exact Hne|]. split; [done|]. replace (splice _ _ _) with (concat (map VkRenderer.cmd_bytes draws)) in Hd3; [done|].
    unfold splice. simpl. rewrite drop_ge; [by rewrite app_nil_r|]. by rewrite length_draw_bytes, Hl.
  - intros k x Hn Hk. destruct (K1 _ _ Hn Hk) as [Hk1 <-], (K2 k x Hn) as [Hk2 <-]; [by apply K1|].
    apply K3; [|done]. intros ->. congruence.
  - by intros b' [= <-].
  - by rewrite Hs2, Hsy in Hp3.
Qed.

Lemma vk_draw_table_ok (ins : list I) : Forall (λ i, binding_size (get_format i) ≠ 0) ins →
  ∃ t, VkProcessor.draw_table ins = Ok t.
Proof.
  intros HF. destruct (for_each_imap_ind (λ _ (_ : VkProcessor.draw_tables), True) VkProcessor.table_input ins
    (VkProcessor.mkTables 0 0 0 0 ∅ ∅)) as (t & E & _); [done| |by exists t].
  intros k i t Hi _. rewrite Forall_lookup in HF. specialize (HF k i Hi). unfold VkProcessor.table_input, vertex_count.
  destruct (Nat.eqb_spec (binding_size (get_format i)) 0); [done|]. rewrite bind_Ok. destruct (data_access i); eauto.
Qed.

Lemma vk_convert_draws_ok (ins : list I) t draws : Forall (λ k, k < length ins) draws →
  ∃ s d, VkProcessor.convert_draws ins t draws = Ok (s, d) ∧ length s + length d = length draws.
Proof.
  intros HF. destruct (for_each_ind (λ done_ '(s, d), length s + length d = length done_)
    (VkProcessor.convert_draw ins t) draws ([], [])) as ([s d] & E & H); [done| |by exists s, d].
  intros done_ k rest [s d] -> H. apply Forall_app in HF as [_ [Hk _]%Forall_cons].
  destruct (at_index_lt ins k Hk) as (i & Ei & _). unfold VkProcessor.convert_draw. rewrite Ei, bind_Ok.
  destruct (data_access i); eexists (_, _); (split; [done|]); rewrite !length_app; simpl; lia.
Qed.

(** A processor whose scratch buffer is idle and whose indirect buffers are live. *)
Record processor_ready (p : Processor) (w : vkworld) : Prop := {
  pr_scratch : ∃ c, buffers (command_pool p) !! get_view_count = Some (mkCommandBuffer c false) ∧
                    ∀ g, (g, c) ∉ pending (v_sync w);
  pr_static : member_live w (draw_indirect_buffer p);
  pr_dynamic : member_live w (draw_indirect_dynamic_buffer p);
  pr_distinct : ∀ b, draw_indirect_dynamic_buffer p = Some b → not_member (draw_indirect_buffer p) (buffer b) }.

Lemma fence_ready (p : Processor) w : processor_ready p w → (∀ s, is_Some (snd (vkCreateFence s))) →
  ∃ c f s, on_sync Fence_new w = Ok (f, mkVkWorld (v_heap w) (v_vma w) s (v_cmds w)) ∧
    scratch_ready (command_pool p) c f (mkVkWorld (v_heap w) (v_vma w) s (v_cmds w)).
Proof.
  intros [(c & Hc & Hi) _ _ _] Hf. destruct (vkCreateFence (v_sync w)) as [s r] eqn:Ec.
  destruct (Hf (v_sync w)) as [f Hr]. rewrite Ec in Hr. simpl in Hr. subst r.
  destruct (create_fence_spec _ _ _ Ec) as (_ & Hfs & _ & _ & _ & Hp & Hn & _).
  exists c, f, s. unfold on_sync, Fence_new. rewrite Ec, tz_assert_true. split; [done|].
  split; simpl; rewrite ?Hfs; try done; [apply elem_of_cons; by left|]. intros g ?%Hp. by apply (Hi g).
Qed.

Lemma fence_destroyed pool c f w : scratch_ready pool c f w →
  ∃ s, on_sync (Fence_destroy f) w = Ok (tt, mkVkWorld (v_heap w) (v_vma w) s (v_cmds w)).
Proof.
  intros []. unfold on_sync, Fence_destroy, vk_call. destruct (f =? 0)%Z; [by eexists|].
  destruct (destroy_fence_spec (v_sync w) f) as (s & E & _); [done|done|]. exists s. by rewrite E.
Qed.

(** Recording a draw list that is not the current one puts on the device,
    by staged copies it has waited for, exactly the commands the list stands
    for: the static ones in the static indirect buffer, the dynamic ones in the
    dynamic one, each buffer being there only if it has a command to hold; and
    the list becomes the current one. *)
Theorem vk_draw_list_reaches_device (ins : list I) draws (p : Processor) w :
  processor_ready p w → (∀ s, is_Some (snd (vkCreateFence s))) →
  Forall (λ i, binding_size (get_format i) ≠ 0) ins → Forall (λ k, k < length ins) draws → draw_cache p ≠ draws →
  ∃ p' w' static dynamic,
    vk_draw_bytes ins draws = Ok (static, dynamic) ∧ record_draw_list ins draws p w = Ok (p', w') ∧
    indirect_holds w' (draw_indirect_buffer p') static ∧
    indirect_holds w' (draw_indirect_dynamic_buffer p') dynamic ∧
    draw_cache p' = draws ∧ command_pool p' = command_pool p.
Proof.
  intros Hp Hf Hb Hd Hne. destruct (vk_draw_table_ok ins Hb) as [t Et].
  destruct (vk_convert_draws_ok ins t draws Hd) as (s & d & Ec & Hl).
  assert (Ev : vk_draw_bytes ins draws = Ok (concat (map VkRenderer.cmd_bytes s), concat (map VkRenderer.cmd_bytes d))).
  { unfold vk_draw_bytes. by rewrite Et, bind_Ok, Ec. }
  destruct (fence_ready p w Hp Hf) as (c & f & s0 & E0 & Hr0).
  destruct (Fence_signal_ok _ _ _ _ Hr0) as (s1 & E1 & Hr1 & _). set (w1 := mkVkWorld _ _ s1 _) in *.
  destruct Hp as [_ Ls Ld Hdis].
  destruct (write_draws_ok (command_pool p) c f (draw_indirect_buffer p) s w1 Hr1 Ls)
    as (ms & w2 & E2 & Hr2 & H2 & K2 & F2 & _).
  destruct (write_draws_ok (command_pool p) c f (draw_indirect_dynamic_buffer p) d w2 Hr2)
    as (md & w3 & E3 & Hr3 & H3 & K3 & _).
  { intros b Hm. destruct (Ld b Hm) as [x Hx]. destruct (K2 _ _ (Hdis b Hm) Hx) as [-> _]. done. }
  destruct (fence_destroyed _ _ _ _ Hr3) as (s4 & E4).
  eexists _, _, _, _. split; [exact Ev|]. split.
  { unfold record_draw_list, draws_match_cache. rewrite bool_decide_eq_false_2 by done.
    rewrite Et, lift_bind, Ec, lift_bind. rewrite (proj2 (Nat.eqb_eq _ _) Hl), tz_assert_true, lift_bind.
    rewrite (st_bind_Ok _ _ _ _ _ E0), (st_bind_Ok _ _ _ _ _ E1). unfold CommandPool_at.
    rewrite (at_index_Some _ _ _ (sr_buffer _ _ _ _ Hr1)), lift_bind.
    rewrite (st_bind_Ok _ _ _ _ _ E2), (st_bind_Ok _ _ _ _ _ E3), (st_bind_Ok _ _ _ _ _ E4). reflexivity. }
  cbn. split_and!; try done. destruct ms as [b|]; [|done]. destruct H2 as (? & ? & H2). split; [done|]. split; [done|].
  eapply keeps_holds in H2; [exact H2|exact K3|]. intros b' Hb' Heq. destruct (Ld b' Hb') as [x Hx].
  specialize (F2 b eq_refl). cbn in F2. congruence.
Qed.

End DrawLists.

(** ** Concrete inputs *)

#[local] Instance draws_config : BuildConfig := debug_build.
#[local] Existing Instance two_views.

(** A processor that has not drawn anything. *)
Definition idle_processor : Processor (V := driver_vk) :=
  mkProcessor (V := driver_vk) None (mkCommandPool 1 (map (λ c, mkCommandBuffer c false) [21; 22; 23]%Z)) None None []
    (mkFrameAdmin (V := driver_vk) 2 [] 0 0 [] [] [] [] None).

Lemma vk_draw_list_reaches_device_witness :
  ∃ p' w' static dynamic,
    vk_draw_bytes [static_triangle 5; dynamic_triangle 9] [1; 0; 0] = Ok (static, dynamic) ∧
    record_draw_list [static_triangle 5; dynamic_triangle 9] [1; 0; 0] idle_processor new_device = Ok (p', w') ∧
    indirect_holds w' (draw_indirect_buffer p') static ∧ length static = 40 ∧ length dynamic = 20.
Proof.
  assert (Hl : match vk_draw_bytes [static_triangle 5; dynamic_triangle 9] [1; 0; 0] with
               | Ok (s, d) => length s = 40 ∧ length d = 20 | Fault _ => False end) by (vm_compute; split; reflexivity).
  destruct (vk_draw_list_reaches_device (VMS := driver_vma_spec) (VS := driver_vk_spec)
    [static_triangle 5; dynamic_triangle 9] [1; 0; 0] idle_processor new_device)
    as (p' & w' & st & dy & Ev & E & H & _).
  - split; try (intros ? [=]). exists 23%Z. split; [reflexivity|]. intros g Hg. cbn in Hg. by apply elem_of_nil in Hg.
  - intros s. eexists. reflexivity.
  - repeat constructor; discriminate.
  - repeat constructor; cbn; lia.
  - discriminate.
  - exists p', w', st, dy. split; [exact Ev|]. split; [exact E|]. split; [exact H|].
    rewrite Ev in Hl. exact Hl.
Defined.
