(* ===== verification/VkUpload.v ===== *)
(** * The Vulkan renderer: what reaches the device

    The memory handed to dynamic inputs, the descriptor sets, texture uploads
    and staged copies. *)

From S2P Require Import Prelude Containers Memory RenderTypes Inputs VkFrame VkCommand VkRenderer VkDriver VkProcessor VkRendererFacts VkProperties.

(** ** Dynamic inputs *)

Section Dynamic.
Context `{BC : BuildConfig} `{VM : Vma} {VMS : VmaSpec} {VMU : VmaSucceeds} `{V : Vk} `{VO : !VkObjects} `{TG : Target}.
Context {I : Type} `{II : IRendererInput I} {LI : RendererInputLaws I} {R : Type} `{IR : IResource R}.

Lemma store_size h p bs h' b : store h p bs = Ok h' → length <$> h' !! b = length <$> h !! b.
Proof.
  unfold store. destruct (h !! block p) as [l|] eqn:El; [|done].
  destruct (Nat.leb_spec (offset p + length bs) (length l)); [|done]. intros [= <-].
  destruct (decide (b = block p)) as [->|Hne].
  - rewrite lookup_insert_eq, El. simpl. by rewrite length_splice.
  - by rewrite lookup_insert_ne.
Qed.

(** What one step of the vertex loop does to the inputs and the memory. *)
Lemma map_vertex_region_inv p rg (ins : list I) i bs w ins' w' :
  ins !! r_input rg = Some i → data_access i = DynamicFixed → get_vertex_bytes i = Owned bs →
  map_vertex_region p rg ins w = Ok (ins', w') →
  ∃ h j, store (v_heap w) (ptr_add p (r_offset rg)) bs = Ok h ∧ v_heap w' = h ∧ v_vma w' = v_vma w ∧
    ins' = <[r_input rg := j]> ins ∧ get_indices j = get_indices i ∧ data_access j = data_access i.
Proof.
  intros Hi Ha Hb. unfold map_vertex_region. rewrite (at_index_Some _ _ _ Hi), lift_bind.
  intros (j & w1 & E & [= <- <-])%st_bind_inv. unfold on_vheap in E.
  destruct (store (v_heap w) (ptr_add p (r_offset rg)) bs) as [h|e] eqn:Es.
  - destruct (adopt_vertices _ _ _ _ _ Ha Hb Es) as (j' & E' & _ & Hix & _ & Hda).
    rewrite E' in E. injection E as <- <-. exists h, j'. done.
  - by rewrite (adopt_vertices_fault _ _ _ _ _ Ha Hb Es) in E.
Qed.

Lemma map_index_region_inv p rg (ins : list I) i ixs w ins' w' :
  ins !! r_input rg = Some i → data_access i = DynamicFixed → get_indices i = OwnedI ixs →
  map_index_region p rg ins w = Ok (ins', w') →
  ∃ h j, store (v_heap w) (ptr_add_u32 p (r_offset rg)) (u32s_bytes ixs) = Ok h ∧ v_heap w' = h ∧
    ins' = <[r_input rg := j]> ins.
Proof.
  intros Hi Ha Hb. unfold map_index_region. rewrite (at_index_Some _ _ _ Hi), lift_bind.
  intros (j & w1 & E & [= <- <-])%st_bind_inv. unfold on_vheap in E.
  destruct (store (v_heap w) (ptr_add_u32 p (r_offset rg)) (u32s_bytes ixs)) as [h|e] eqn:Es.
  - destruct (adopt_indices _ _ _ _ _ Ha Hb Es) as (j' & E' & _).
    rewrite E' in E. injection E as <- <-. exists h, j'. done.
  - by rewrite (adopt_indices_fault _ _ _ _ _ Ha Hb Es) in E.
Qed.

(** The inputs a renderer starts from: clones that own their data. *)
Definition all_detached (ins : list I) : Prop := Forall (λ i, ∃ bs ixs, detached i bs ixs) ins.

(** The regions of [compile] belong to dynamic inputs. *)
Definition regions_dynamic (ins : list I) (rgs : list Region) : Prop :=
  Forall (λ rg, ∃ i, ins !! r_input rg = Some i ∧ data_access i = DynamicFixed) rgs.

Lemma regions_dynamic_app ins x rgs : regions_dynamic ins rgs → regions_dynamic (ins ++ [x]) rgs.
Proof.
  intros H. eapply Forall_impl; [exact H|]. intros rg (i & Hi & Ha). exists i. split; [|done]. by apply lookup_app_l_Some.
Qed.

Lemma compile_snoc h (ins : list I) i :
  compile h (ins ++ [i]) = (c ← compile h ins; compile_input h (length ins, i) c).
Proof.
  unfold compile. rewrite imap_app, for_each_app. cbn [imap]. unfold compose. rewrite Nat.add_0_r.
  destruct (for_each _ _ _); [|done]. rewrite !bind_Ok. cbn [for_each]. by destruct (compile_input _ _ _).
Qed.

Lemma compile_regions h (ins : list I) c : all_detached ins → compile h ins = Ok c →
  regions_dynamic ins (vertex_regions c) ∧ regions_dynamic ins (index_regions c) ∧
  NoDup (r_input <$> vertex_regions c) ∧ NoDup (r_input <$> index_regions c) ∧
  (∀ rg, rg ∈ vertex_regions c → r_input rg < length ins) ∧ (∀ rg, rg ∈ index_regions c → r_input rg < length ins).
Proof.
  intros Hd. revert c. induction ins as [|i ins IH] using rev_ind; intros c E.
  { injection E as <-. simpl. split_and!; try constructor; intros rg Hrg; by apply elem_of_nil in Hrg. }
  apply Forall_app in Hd as [Hd _]. rewrite compile_snoc in E.
  apply bind_Ok_inv in E as (c0 & E0 & E). destruct (IH Hd c0 E0) as (Hv & Hi & Nv & Ni & Lv & Li).
  apply bind_Ok_inv in E as (vs & _ & E). apply bind_Ok_inv in E as (ixs & _ & E).
  destruct (data_access i) eqn:Ea; injection E as <-; simpl; rewrite length_app; simpl.
  - split_and!; auto using regions_dynamic_app; intros rg Hrg; [apply Lv in Hrg|apply Li in Hrg]; lia.
  - assert (Hnew : ∀ a b, regions_dynamic (ins ++ [i]) [mkRegion (length ins) a b]).
    { intros a b. constructor; [|constructor]. exists i. simpl. split; [by apply list_lookup_middle|done]. }
    assert (Hfresh : ∀ rgs a b, (∀ rg, rg ∈ rgs → r_input rg < length ins) → NoDup (r_input <$> rgs) →
      NoDup (r_input <$> rgs ++ [mkRegion (length ins) a b])).
    { intros rgs a b Hl Hn. rewrite fmap_app. apply NoDup_app. split_and!; [done| |apply NoDup_singleton].
      intros k (rg & -> & Hrg)%list_elem_of_fmap Hk%list_elem_of_singleton. simpl in Hk. apply Hl in Hrg. lia. }
    split_and!; auto; try (apply Forall_app; split; [by apply regions_dynamic_app|apply Hnew]).
    + intros rg [Hrg| ->%list_elem_of_singleton]%elem_of_app; [apply Lv in Hrg|simpl]; lia.
    + intros rg [Hrg| ->%list_elem_of_singleton]%elem_of_app; [apply Li in Hrg|simpl]; lia.
Qed.

(** Regions whose inputs have a property. *)
Definition regions_with (Q : I → Prop) (ins : list I) (rgs : list Region) : Prop :=
  Forall (λ rg, ∃ i, ins !! r_input rg = Some i ∧ Q i) rgs.

Definition owns_vertices (i : I) : Prop := data_access i = DynamicFixed ∧ ∃ bs, get_vertex_bytes i = Owned bs.
Definition owns_indices (i : I) : Prop := data_access i = DynamicFixed ∧ ∃ ixs, get_indices i = OwnedI ixs.

Lemma regions_with_insert Q (ins : list I) k j rgs :
  k ∉ r_input <$> rgs → regions_with Q ins rgs → regions_with Q (<[k := j]> ins) rgs.
Proof.
  intros Hk H. apply Forall_forall. intros rg Hrg. unfold regions_with in H. rewrite Forall_forall in H.
  destruct (H rg Hrg) as (i & Hi & HQ). exists i. split; [|done]. rewrite list_lookup_insert_ne; [done|].
  intros ->. apply Hk. by apply list_elem_of_fmap_2.
Qed.

(** Handing out vertex memory leaves the sizes of the blocks and the indices of
    the inputs as they are. *)
Lemma fold_vertex_regions p rgs (ins : list I) w ins' w' :
  NoDup (r_input <$> rgs) → regions_with owns_vertices ins rgs →
  st_fold (map_vertex_region p) rgs ins w = Ok (ins', w') →
  (∀ b, length <$> v_heap w' !! b = length <$> v_heap w !! b) ∧
  ∀ k i, ins !! k = Some i → ∃ j, ins' !! k = Some j ∧ get_indices j = get_indices i ∧ data_access j = data_access i.
Proof.
  revert ins w. induction rgs as [|rg rgs IH]; intros ins w Hnd Ho E; simpl in E.
  { injection E as <- <-. split; [done|eauto]. }
  apply NoDup_cons in Hnd as [Hni Hnd]. inversion Ho as [|? ? (i & Hi & Ha & bs & Hb) Ho']; subst.
  apply st_bind_inv in E as (ins1 & w1 & E1 & E).
  destruct (map_vertex_region_inv _ _ _ _ _ _ _ _ Hi Ha Hb E1) as (h & j & Hst & Hh & _ & -> & Hix & Hda).
  edestruct IH as [Hsz Hin]; [exact Hnd|by apply regions_with_insert|exact E|].
  split.
  - intros b. rewrite Hsz, Hh. by eapply store_size.
  - intros k i' Hk. destruct (decide (k = r_input rg)) as [->|Hne].
    + destruct (Hin (r_input rg) j) as (j' & ? & ? & ?).
      { apply list_lookup_insert_eq. by eapply lookup_lt_Some. }
      exists j'. simplify_eq. split; [done|]. split; congruence.
    + apply Hin. by rewrite list_lookup_insert_ne.
Qed.

Lemma fold_index_regions p rgs (ins : list I) w ins' w' :
  NoDup (r_input <$> rgs) → regions_with owns_indices ins rgs →
  st_fold (map_index_region p) rgs ins w = Ok (ins', w') →
  (∀ b, length <$> v_heap w' !! b = length <$> v_heap w !! b) ∧
  ∀ k, k ∉ r_input <$> rgs → ins' !! k = ins !! k.
Proof.
  revert ins w. induction rgs as [|rg rgs IH]; intros ins w Hnd Ho E; simpl in E.
  { injection E as <- <-. done. }
  apply NoDup_cons in Hnd as [Hni Hnd]. inversion Ho as [|? ? (i & Hi & Ha & bs & Hb) Ho']; subst.
  apply st_bind_inv in E as (ins1 & w1 & E1 & E).
  destruct (map_index_region_inv _ _ _ _ _ _ _ _ Hi Ha Hb E1) as (h & j & Hst & Hh & ->).
  edestruct IH as [Hsz Hin]; [exact Hnd|by apply regions_with_insert|exact E|].
  split.
  - intros b. rewrite Hsz, Hh. by eapply store_size.
  - intros k Hk. cbn in Hk. rewrite not_elem_of_cons in Hk. destruct Hk as [Hne Hk].
    rewrite Hin by done. by rewrite list_lookup_insert_ne.
Qed.

(** The memory of a new persistently mapped buffer. *)
Lemma Buffer_new_persistent t n w b w' : t ≠ Staging → 0 < n →
  Buffer_new t NothingSpecial CPUPersistent n w = Ok (b, w') →
  ∃ blk bs, persistent_mapped_ptr b = Some (mkPtr blk 0) ∧ v_heap w' !! blk = Some bs ∧ length bs = n ∧
            Buffer_is_null b = false.
Proof.
  intros Ht Hn. unfold Buffer_new. intros (u & w1 & [Eu ->]%lift_inv & E)%st_bind_inv.
  simpl in Eu. injection Eu as <-. apply st_bind_inv in E as (r & w2 & E1 & E). unfold on_memory in E1.
  destruct (vmaCreateBuffer _ _ _ _ _) as [[h m] r'] eqn:Ec. injection E1 as <- <-.
  destruct (buffer_created (v_heap w, v_vma w) (type_usage t) true true n) as [[b' q] Hr]; [by destruct t|done|].
  change (bool_decide (CPUPersistent ≠ GPU)) with true in Ec.
  change (bool_decide (CPUPersistent = CPUPersistent)) with true in Ec.
  rewrite Ec in Hr. cbn in Hr. subst r'.
  destruct (create_buffer_spec _ _ _ _ _ _ _ _ _ _ Ec) as (blk & bs & -> & Hb & _ & _ & _ & -> & Hl & _ & _);
    [by destruct t|done|done|]. simpl in E. injection E as <- <-. exists blk, bs. simpl.
  rewrite lookup_insert_eq. split_and!; try done. unfold Buffer_is_null. simpl. by apply Z.eqb_neq.
Qed.

Lemma Buffer_assign_null v w b w' : Buffer_assign Buffer_null v w = Ok (b, w') → b = v ∧ w' = w.
Proof. unfold Buffer_assign. simpl. intros ([] & ? & [= <-] & [= <- <-])%st_bind_inv. done. Qed.

Lemma Buffer_map_persistent b p w q w' : persistent_mapped_ptr b = Some p →
  Buffer_map_memory b w = Ok (q, w') → q = p ∧ w' = w.
Proof.
  intros Hp. unfold Buffer_map_memory. rewrite Hp. intros ([] & w1 & [_ ->]%lift_inv & [= <- <-])%st_bind_inv. done.
Qed.

Lemma Buffer_map_heap b w q w' : Buffer_map_memory b w = Ok (q, w') → v_heap w' = v_heap w.
Proof.
  unfold Buffer_map_memory. intros ([] & w1 & [_ ->]%lift_inv & E)%st_bind_inv.
  destruct (persistent_mapped_ptr b); [by injection E as _ <-|].
  apply st_bind_inv in E as (p & w2 & E1 & [_ ->]%lift_inv). unfold on_vma in E1.
  destruct (vmaMapMemory _ _). by injection E1 as _ <-.
Qed.

(** The dynamic part of the setup, when the last input is dynamic and another
    dynamic input before it has an index. *)
Lemma setup_dynamic_faults h (pre : list I) i ixs bm c w :
  all_detached (pre ++ [i]) → data_access i = DynamicFixed → get_indices i = OwnedI ixs →
  (∀ c0, compile h pre = Ok c0 → dynamic_indices c0 ≠ []) → dynamic_index_buffer bm = Buffer_null →
  compile h (pre ++ [i]) = Ok c → ∀ r, setup_dynamic c bm (pre ++ [i]) w ≠ Ok r.
Proof.
  intros Hdet Ha Hix Hne Hbm Ec [[bm' ins'] w'] E.
  destruct (compile_regions h _ c Hdet Ec) as (Hv & Hi & Nv & Ni & _ & _).
  rewrite compile_snoc in Ec. apply bind_Ok_inv in Ec as (c0 & E0 & Ec). specialize (Hne c0 E0).
  apply bind_Ok_inv in Ec as (vs & _ & Ec). apply bind_Ok_inv in Ec as (ixs' & Eix & Ec).
  rewrite Hix in Eix. injection Eix as <-. rewrite Ha in Ec. injection Ec as <-. cbn in *.
  assert (Hown : ∀ rgs, regions_dynamic (pre ++ [i]) rgs →
    regions_with owns_vertices (pre ++ [i]) rgs ∧ regions_with owns_indices (pre ++ [i]) rgs).
  { intros rgs Hr. split; (eapply Forall_impl; [exact Hr|]); intros rg (x & Hx & Hxa); exists x; (split; [done|]);
      unfold all_detached in Hdet; rewrite Forall_forall in Hdet;
      destruct (Hdet x) as (bs & xs & H1 & H2); try (by eapply list_elem_of_lookup_2); split; eauto. }
  unfold setup_dynamic in E. cbn in E.
  apply st_bind_inv in E as (vb & w1 & _ & E). apply st_bind_inv in E as (vb' & w2 & _ & E).
  apply st_bind_inv in E as (ib & w3 & Eib & E).
  apply Buffer_new_persistent in Eib as (blk & bs & Hp & Hblk & Hl & _); [|done|].
  2: { rewrite length_app. destruct (dynamic_indices c0); [done|simpl; lia]. }
  apply st_bind_inv in E as (ib' & w4 & Eas & E). rewrite Hbm in Eas. apply Buffer_assign_null in Eas as [-> ->].
  apply st_bind_inv in E as (vp & w5 & Ev%Buffer_map_heap & E).
  apply st_bind_inv in E as (ins1 & w6 & Ef & E).
  destruct (fold_vertex_regions _ _ _ _ _ _ Nv (proj1 (Hown _ Hv)) Ef) as [Hsz1 Hin1].
  apply st_bind_inv in E as (ip & w7 & Ei & E). destruct (Buffer_map_persistent _ _ _ _ _ Hp Ei) as [-> ->].
  apply st_bind_inv in E as (ins2 & w8 & Ef2 & _).
  destruct (st_fold (map_index_region (mkPtr blk 0)) (index_regions c0) ins1 w6) as [[ins3 w9]|e] eqn:E3.
  2: { assert (Hf : ∀ (l1 l2 : list Region) (s : list I) (w : vkworld) e,
         st_fold (map_index_region (mkPtr blk 0)) l1 s w = Fault e →
         st_fold (map_index_region (mkPtr blk 0)) (l1 ++ l2) s w = Fault e).
       { induction l1 as [|x l1 IHl]; intros l2 s wx ex Hx; [done|]. simpl in *. unfold mbind, ST_bind in *.
         destruct (map_index_region _ x s wx) as [[s' w'']|]; [by apply IHl|done]. }
       by rewrite (Hf _ _ _ _ _ E3) in Ef2. }
  rewrite (st_fold_app _ _ _ _ _ _ _ E3) in Ef2. simpl in Ef2. apply st_bind_inv in Ef2 as (ins4 & w10 & El & _).
  rewrite fmap_app in Ni. apply NoDup_app in Ni as (Ni & Hdis & _).
  apply Forall_app in Hi as [Hi _]. pose proof (proj2 (Hown _ Hi)) as Ho.
  assert (Ho1 : regions_with owns_indices ins1 (index_regions c0)).
  { eapply Forall_impl; [exact Ho|]. intros rg (x & Hx & Hxa & xs & Hxi). destruct (Hin1 _ _ Hx) as (j & Hj & Hji & Hja).
    exists j. split; [done|]. split; [congruence|]. exists xs. congruence. }
  destruct (fold_index_regions _ _ _ _ _ _ Ni Ho1 E3) as [Hsz2 Hin2].
  destruct (Hin1 (length pre) i) as (j & Hj & Hji & Hja); [by apply list_lookup_middle|].
  destruct (map_index_region_inv (mkPtr blk 0) (mkRegion (length pre) (length (dynamic_indices c0) * 4) (4 * length ixs))
              ins3 j ixs w9 ins4 w10) as (h' & j' & Hst & _).
  { simpl. rewrite Hin2; [done|]. intros Hk. apply (Hdis _ Hk), elem_of_cons. by left. }
  { congruence. } { congruence. } { exact El. }
  unfold store, ptr_add_u32, ptr_add in Hst. cbn [block offset r_offset] in Hst.
  assert (Hlen : length <$> v_heap w9 !! blk = Some (length bs)) by (rewrite Hsz2, Hsz1, Ev, Hblk; done).
  destruct (v_heap w9 !! blk) as [l|]; [|done]. injection Hlen as Hlen.
  rewrite length_u32s_bytes in Hst. destruct (_ <=? _) eqn:Hle in Hst; [apply Nat.leb_le in Hle|done].
  rewrite Hlen, Hl, length_app in Hle. destruct (dynamic_indices c0); [done|]. simpl in Hle. lia.
Qed.

(** The dynamic indices collected hold those of every dynamic input. *)
Lemma compile_dynamic_indices h (ins : list I) c j ixs :
  compile h ins = Ok c → j ∈ ins → data_access j = DynamicFixed → get_indices j = OwnedI ixs → ixs ≠ [] →
  dynamic_indices c ≠ [].
Proof.
  intros E Hj Ha Hix Hne. revert c E. induction ins as [|i ins IH] using rev_ind; intros c E.
  { by apply elem_of_nil in Hj. }
  rewrite compile_snoc in E. apply bind_Ok_inv in E as (c0 & E0 & E).
  apply bind_Ok_inv in E as (vs & _ & E). apply bind_Ok_inv in E as (xs & Ex & E).
  apply elem_of_app in Hj as [Hj| ->%list_elem_of_singleton].
  - specialize (IH Hj c0 E0). destruct (data_access i); injection E as <-; cbn; [done|].
    by destruct (dynamic_indices c0).
  - rewrite Ha in E. injection E as <-. cbn. rewrite Hix in Ex. injection Ex as <-.
    intros [_ ?]%app_eq_nil. done.
Qed.

(** C29: a renderer whose last input is dynamic cannot be set up when an earlier
    dynamic input has an index.  The offset of a region of the dynamic index
    buffer is counted in bytes, but it is added to a pointer to [unsigned int],
    so the indices of the last input are written four times too far, beyond the
    end of the mapped memory. *)
Theorem vk_second_dynamic_input_overruns ks (pre : list I) i j ixs (rs : list R) w :
  all_detached (pre ++ [i]) → data_access i = DynamicFixed →
  j ∈ pre → data_access j = DynamicFixed → get_indices j = OwnedI ixs → ixs ≠ [] →
  ∃ e, setup_buffers (initialise_buffer_resources BufferManager_new ks) (pre ++ [i]) rs w = Fault e.
Proof.
  intros Hdet Ha Hj Hja Hjx Hne. destruct (setup_buffers _ _ _ w) as [[[[bm ins'] rs'] w']|e] eqn:E; [exfalso|eauto].
  assert (Hi : ∃ bs xs, detached i bs xs).
  { unfold all_detached in Hdet. rewrite Forall_app in Hdet. by destruct Hdet as [_ (?&_)%Forall_cons]. }
  destruct Hi as (bs & xs & _ & Hix). unfold setup_buffers in E.
  apply st_bind_inv in E as ([bm1 ins1] & w1 & E & _).
  destruct (pre ++ [i]) as [|i0 rest] eqn:El; [by destruct pre|]. rewrite <- El in *. clear El.
  apply st_bind_inv in E as (h & w2 & [= <- <-] & E). apply st_bind_inv in E as (c & w2 & [Ec ->]%lift_inv & E).
  apply st_bind_inv in E as (bm2 & w3 & Es & E).
  refine (setup_dynamic_faults (v_heap w) pre i xs bm2 c w3 Hdet Ha Hix _ _ Ec _ E).
  - intros c0 E0. by eapply compile_dynamic_indices.
  - unfold setup_static in Es. destruct (any_static_geometry c); [|by injection Es as <- _].
    do 4 (apply st_bind_inv in Es as (? & ? & _ & Es)). by injection Es as <- _.
Qed.

End Dynamic.

(** ** Concrete inputs *)

#[local] Instance upload_config : BuildConfig := debug_build.

Lemma vk_second_dynamic_input_overruns_witness :
  (∃ e, setup_buffers (VM := driver_vma) (V := driver_vk) (initialise_buffer_resources BufferManager_new [])
          ([dynamic_triangle 1] ++ [dynamic_triangle 5]) ([] : list resource) new_device = Fault e) ∧
  setup_buffers (VM := driver_vma) (V := driver_vk) (initialise_buffer_resources BufferManager_new [])
    ([dynamic_triangle 1] ++ [dynamic_triangle 5]) ([] : list resource) new_device = Fault OutOfBounds.
Proof.
  split; [|vm_compute; reflexivity].
  apply (vk_second_dynamic_input_overruns (VMS := driver_vma_spec) (V := driver_vk) [] [dynamic_triangle 1]
           (dynamic_triangle 5) (dynamic_triangle 1) [0; 1; 2]%Z [] new_device); try done.
  - repeat constructor; eexists _, _; done.
  - by apply list_elem_of_singleton.
Defined.
