(* ===== verification/VkResources.v ===== *)
(** * The Vulkan renderer: textures and descriptor sets

    What the constructor records to upload a texture, and how the descriptor
    sets it fills relate to the layout of the builder. *)

From S2P Require Import Prelude Containers Memory RenderTypes Inputs VkFrame VkCommand VkRenderer VkDriver VkProcessor VkRendererFacts VkProperties.

(** ** Textures *)

Section Textures.
Context `{BC : BuildConfig} `{VM : Vma} `{V : Vk} `{VO : !VkObjects} `{TG : Target}.
Context {R : Type} `{IR : IResource R}.

(** The texture components are made one per resource, with new images. *)
Definition fresh_components (ks : list nat) (l : list TextureComponent) : Prop :=
  tc_resource <$> l = ks ∧ Forall (λ t, layout (img t) = LayoutUndefined) l.

Lemma initialise_texture_inv (rs : list R) k im w im' w' :
  initialise_texture rs k im w = Ok (im', w') →
  ∃ t, texture_components im' = texture_components im ++ [t] ∧ tc_resource t = k ∧ layout (img t) = LayoutUndefined.
Proof.
  unfold initialise_texture. intros E. do 2 (apply st_bind_inv in E as (? & ? & _ & E)).
  apply st_bind_inv in E as (i & w1 & Ei & E). do 2 (apply st_bind_inv in E as (? & ? & _ & E)).
  injection E as <- _. eexists. split; [done|]. split; [done|]. simpl. unfold Image_new in Ei.
  do 3 (apply st_bind_inv in Ei as (? & ? & _ & Ei)). by injection Ei as <- _.
Qed.

Lemma initialise_textures_inv (rs : list R) ks im w im' w' :
  texture_components im = [] → initialise_texture_resources rs ks im w = Ok (im', w') →
  fresh_components ks (texture_components im').
Proof.
  intros Him. apply (st_fold_Ok_ind (λ ks im' _, fresh_components ks (texture_components im'))).
  - rewrite Him. by split.
  - intros done_ k s w1 s' w2 [Hk HF] (t & -> & Ht & Hl)%initialise_texture_inv. split.
    + rewrite fmap_app, Hk. simpl. by rewrite Ht.
    + apply Forall_app. auto.
Qed.

Lemma transition_records c i new sa ss da ds w :
  source_barrier (layout i) = Ok (sa, ss) → destination_barrier new = Ok (da, ds) →
  transition_image_layout c i new w = cmd c (CmdPipelineBarrier ss ds sa da (image i) (layout i) new) w.
Proof. intros Hs Hd. unfold transition_image_layout, mbind, ST_bind. by rewrite Hs, Hd. Qed.

(** C30: the commands that upload a texture.  The layout an image is created with
    is not updated when it is moved to the transfer layout, so the barrier after
    the copy also starts from the undefined layout, at the top of the pipeline
    and with no access to wait for: it neither waits for the copy nor keeps what
    the copy wrote. *)
Theorem vk_texture_barrier_discards (rs : list R) ks im w im' w' t pool staging w1 pool' w2 :
  texture_components im = [] → initialise_texture_resources rs ks im w = Ok (im', w') →
  t ∈ texture_components im' → record_texture pool staging (img t) w1 = Ok (pool', w2) →
  ∃ c, get_buffer_natives pool !! get_view_count = Some c ∧
    commands w2 c =
      [CmdPipelineBarrier TOP_OF_PIPE TRANSFER NO_ACCESS TRANSFER_WRITE (image (img t))
         LayoutUndefined LayoutTransferDestination;
       CmdCopyBufferToImage (buffer staging) (image (img t)) LayoutTransferDestination
         (img_width (img t)) (img_height (img t));
       CmdPipelineBarrier TOP_OF_PIPE ALL_GRAPHICS NO_ACCESS SHADER_READ (image (img t))
         LayoutUndefined ShaderResource].
Proof.
  intros Him Ei Ht E. destruct (initialise_textures_inv _ _ _ _ _ _ Him Ei) as [_ HF].
  rewrite Forall_forall in HF. specialize (HF t Ht).
  apply recording_inv in E as (c & Hc & _ & E). exists c. split; [done|].
  apply st_bind_inv in E as ([] & wa & E1 & E). apply st_bind_inv in E as ([] & wb & E2 & E3).
  erewrite transition_records in E1, E3 by (rewrite ?HF; done). rewrite HF in E1, E3.
  apply cmd_appends in E1 as [H1 _], E3 as [H3 _]. apply st_bind_inv in E2 as ([] & wc & [_ ->]%lift_inv & E2).
  apply cmd_appends in E2 as [H2 _]. rewrite H3, H2, H1.
  unfold commands, cleared. simpl. by rewrite lookup_insert_eq.
Qed.

End Textures.

(** ** Descriptor sets *)

Section Descriptors.
Context `{BC : BuildConfig} `{VM : Vma} {VMS : VmaSpec} {VMU : VmaSucceeds} `{V : Vk} `{VO : !VkObjects} {VOS : VkObjectsSpec} `{TG : Target}.
Context {I : Type} `{II : IRendererInput I} {R : Type} `{IR : IResource R} {LR : ResourceLaws R}.

(** Every component has a uniform buffer and stays with its resource; the
    resources keep their types. *)
Definition components_for (ks : list nat) (types : list ResourceType) (cs : list (Buffer * nat)) (rs : list R) : Prop :=
  snd <$> cs = ks ∧ Forall (λ bk, type bk.1 = Uniform) cs ∧ get_type <$> rs = types.

Lemma Buffer_new_type t p m n w b w' : Buffer_new t p m n w = Ok (b, w') → type b = t.
Proof.
  unfold Buffer_new. intros (? & ? & _ & E)%st_bind_inv. apply st_bind_inv in E as (r & ? & _ & E).
  destruct r as [[? ?]|]; [by injection E as <- _|]. destruct (bool_decide _); [done|].
  apply st_bind_inv in E as (? & ? & _ & E). by injection E as <- _.
Qed.

Lemma Buffer_assign_value b v w b' w' : Buffer_assign b v w = Ok (b', w') → b' = v.
Proof. unfold Buffer_assign. simpl. intros (? & ? & _ & [= <- _])%st_bind_inv. done. Qed.

Lemma setup_component_inv bk ks types cs rs w cs' rs' w' :
  components_for ks types cs rs → setup_component bk (cs, rs) w = Ok ((cs', rs'), w') →
  components_for (ks ++ [snd bk]) types cs' rs'.
Proof.
  destruct bk as [b k]. intros (Hk & Hu & Ht). unfold setup_component.
  intros (r & w1 & [Hr%at_index_inv ->]%lift_inv & E)%st_bind_inv.
  destruct (resource_access r).
  all: apply st_bind_inv in E as (nb & w2 & Hnb%Buffer_new_type & E);
    apply st_bind_inv in E as (nb' & w3 & ->%Buffer_assign_value & E).
  2: apply st_bind_inv in E as (p & w4 & _ & E); apply st_bind_inv in E as (r' & w5 & Er & E).
  all: injection E as <- <- _; split_and!; [by rewrite fmap_app, Hk|apply Forall_app; auto|].
  - done.
  - rewrite list_fmap_insert. unfold on_vheap in Er.
    destruct (set_resource_data _ _ _) as [[h x]|] eqn:Es; [|done]. injection Er as <- _.
    rewrite (set_data_type _ _ _ _ _ Es), list_insert_id; [done|]. by rewrite list_lookup_fmap, Hr.
Qed.

Lemma setup_buffers_components ks (ins : list I) (rs : list R) w bm ins' rs' w' :
  setup_buffers (initialise_buffer_resources BufferManager_new ks) ins rs w = Ok (bm, ins', rs', w') →
  components_for ks (get_type <$> rs) (buffer_components bm) rs'.
Proof.
  unfold setup_buffers. intros ([bm1 ins1] & w1 & E1 & E)%st_bind_inv.
  assert (Hb : buffer_components bm1 = map (λ k, (Buffer_null, k)) ks).
  { destruct ins as [|i ins]; [by injection E1 as <- _|].
    do 2 (apply st_bind_inv in E1 as (? & ? & _ & E1)). apply st_bind_inv in E1 as (bm2 & ? & E2 & E1).
    assert (buffer_components bm2 = map (λ k, (Buffer_null, k)) ks) as Hb2.
    { unfold setup_static in E2. destruct (any_static_geometry _); [|by injection E2 as <- _].
      do 4 (apply st_bind_inv in E2 as (? & ? & _ & E2)). by injection E2 as <- _. }
    unfold setup_dynamic in E1. destruct (any_dynamic_geometry _); [|by injection E1 as <- _].
    do 8 (apply st_bind_inv in E1 as (? & ? & _ & E1)). by injection E1 as <- _ _. }
  apply st_bind_inv in E as ([cs rs1] & w2 & E & [= <- _ <- _]). simpl. rewrite Hb in E.
  apply (st_fold_Ok_ind (λ bks '(cs, rs'), λ _, components_for (snd <$> bks) (get_type <$> rs) cs rs')) in E.
  - rewrite <- list_fmap_compose in E. simpl in E. by rewrite list_fmap_id in E.
  - by split.
  - intros done_ bk [cs0 rs0] wa [cs1 rs2] wb Hc Es. rewrite fmap_app. by eapply setup_component_inv.
Qed.

(** What a request asks for, as one list of bindings. *)
Definition bindings_of (cs : list (Buffer * nat)) (ts : list TextureComponent) : list (DescriptorType * resource_info) :=
  map (λ bk, (UniformBuffer, BufferInfo (buffer bk.1))) cs ++
  map (λ t, (CombinedImageSampler, ImageInfo (view t) (sampler t))) ts.

Lemma bindings_types cs ts : fst <$> bindings_of cs ts =
  replicate (length cs) UniformBuffer ++ replicate (length ts) CombinedImageSampler.
Proof.
  unfold bindings_of. rewrite fmap_app. f_equal; [induction cs as [|x l IH]|induction ts as [|x l IH]]; try done;
    cbn [map fmap list_fmap length replicate fst]; f_equal; exact IH.
Qed.

Definition request_for (l : list (DescriptorType * resource_info)) : DescriptorSetsCreationRequest :=
  mkRequest (snd <$> l) (fst <$> l) (seq 0 (length l)).

Lemma request_for_snoc l t i : 
  mkRequest (rq_resources (request_for l) ++ [i]) (rq_types (request_for l) ++ [t])
    (rq_bindings (request_for l) ++ [length l]) = request_for (l ++ [(t, i)]).
Proof. unfold request_for. simpl. by rewrite !fmap_app, length_app, Nat.add_1_r, seq_S. Qed.

Lemma fill_request_inv bm im rq :
  Forall (λ bk, type bk.1 = Uniform) (buffer_components bm) →
  fill_request bm im (length (buffer_components bm)) (length (texture_components im)) = Ok rq →
  rq = request_for (bindings_of (buffer_components bm) (texture_components im)).
Proof.
  intros Hu E. unfold fill_request in E. apply bind_Ok_inv in E as (rq1 & E1 & E).
  apply (for_range_Ok_ind (λ n rq, rq = request_for (bindings_of (take n (buffer_components bm)) []))) in E1; [|done|].
  2: { intros i s s' Hi -> Ea. apply bind_Ok_inv in Ea as ([b k] & Hb%at_index_inv & Ea). rewrite Forall_lookup in Hu.
       pose proof (Hu _ _ Hb) as Ht. simpl in Ht. unfold add_buffer, Buffer_get_type in Ea. rewrite Ht in Ea.
       apply bind_Ok_inv in Ea as (t & Et & Ea). apply bind_Ok_inv in Et as (_ & _ & [= <-]). rewrite bind_Ok in Ea.
       injection Ea as <-. rewrite (take_S_r _ _ _ Hb). unfold bindings_of. simpl. rewrite !app_nil_r, map_app.
       simpl. rewrite <- request_for_snoc. do 2 f_equal. rewrite length_map, length_take, Nat.min_l by lia. done. }
  rewrite take_ge in E1 by lia. subst rq1.
  apply (for_range_Ok_ind (λ n rq, rq = request_for (bindings_of (buffer_components bm) (take n (texture_components im))))) in E.
  - by rewrite take_ge in E by lia.
  - done.
  - intros i s s' Hi -> (t & Ht%at_index_inv & [= <-])%bind_Ok_inv. rewrite (take_S_r _ _ _ Ht).
    unfold bindings_of. rewrite map_app, app_assoc. simpl. rewrite <- request_for_snoc. unfold add_image. f_equal.
    rewrite length_app, !length_map, length_take, Nat.min_l by lia. do 2 f_equal. lia.
Qed.

Lemma set_writes_request s l :
  set_writes s (request_for l) = Ok (imap (λ k ti, mkWrite s k ti.1 ti.2) l).
Proof.
  unfold set_writes. simpl. rewrite length_fmap.
  edestruct (for_range_ind (λ n ws, ws = imap (λ k ti, mkWrite s k ti.1 ti.2) (take n l))) as (ws & E & ->);
    [reflexivity| |erewrite E; by rewrite take_ge by lia].
  intros i ws Hi ->. destruct (lookup_lt_is_Some_2 l i Hi) as [ti Hti].
  erewrite !at_index_Some by (first [rewrite lookup_seq_lt by done; done|rewrite list_lookup_fmap, Hti; done]).
  rewrite !bind_Ok. eexists. split; [done|]. rewrite (take_S_r _ _ _ Hti), imap_app. simpl.
  by rewrite length_take, Nat.min_l, Nat.add_0_r by lia.
Qed.

Lemma all_writes_request sets l n : length sets = n →
  all_writes sets (replicate n (request_for l)) = Ok (concat (map (λ s, imap (λ k ti, mkWrite s k ti.1 ti.2) l) sets)).
Proof.
  intros <-. unfold all_writes. rewrite length_replicate.
  edestruct (for_range_ind (λ n ws, ws = concat (map (λ s, imap (λ k ti, mkWrite s k ti.1 ti.2) l) (take n sets))))
    as (ws & E & ->); [reflexivity| |erewrite E; by rewrite take_ge by lia].
  intros i ws Hi ->. destruct (lookup_lt_is_Some_2 sets i Hi) as [s Hs].
  rewrite (at_index_Some _ _ _ Hs), (at_index_Some (replicate _ _) i (request_for l)) by (by apply lookup_replicate_2).
  rewrite !bind_Ok, set_writes_request, bind_Ok. eexists. split; [done|].
  rewrite (take_S_r _ _ _ Hs), map_app, concat_app. simpl. by rewrite app_nil_r.
Qed.

Lemma count_types (t : ResourceType) (rs : list R) l : get_type <$> rs = l →
  length (filter (λ r, bool_decide (get_type r = t) = true) rs) = length (filter (λ x, x = t) l).
Proof.
  intros <-. induction rs as [|r rs IH]; [done|]. rewrite fmap_cons, !filter_cons.
  destruct (decide (get_type r = t)).
  - rewrite decide_True by (by apply bool_decide_eq_true). simpl. by rewrite IH.
  - rewrite decide_False by (by rewrite bool_decide_eq_true). done.
Qed.

Lemma count_replicate (t u : ResourceType) n m : t ≠ u →
  length (filter (λ x, x = t) (replicate n t ++ replicate m u)) = n ∧
  length (filter (λ x, x = u) (replicate n t ++ replicate m u)) = m.
Proof.
  intros Htu. rewrite !filter_app, !length_app. split.
  - induction n as [|n IHn]; simpl.
    + induction m as [|m IHm]; [done|]. simpl. rewrite filter_cons_False by congruence. done.
    + rewrite filter_cons_True by done. simpl. by rewrite IHn.
  - induction n as [|n IHn]; simpl.
    + induction m as [|m IHm]; [done|]. simpl. rewrite filter_cons_True by done. simpl. by rewrite IHm.
    + rewrite filter_cons_False by congruence. done.
Qed.

(** The builder of the pool, in closed form. *)
Lemma iter_with_size t n k b :
  Nat.iter n (with_size t k) b = mkPoolBuilder (pb_sizes b ++ replicate n (t, u32 (Z.of_nat k))) (pb_layouts b) (pb_max_sets b).
Proof.
  induction n as [|n IH]; [by destruct b; cbn; rewrite app_nil_r|]. rewrite Nat.iter_succ, IH. unfold with_size. cbn.
  by rewrite <- app_assoc, <- replicate_cons_app.
Qed.

Lemma iter_with_layout l n b :
  Nat.iter n (with_layout l) b = mkPoolBuilder (pb_sizes b) (pb_layouts b ++ replicate n l) (pb_max_sets b).
Proof.
  induction n as [|n IH]; [by destruct b; cbn; rewrite app_nil_r|]. rewrite Nat.iter_succ, IH. unfold with_layout. cbn.
  by rewrite <- app_assoc, <- replicate_cons_app.
Qed.

Definition sizes_for (view_count nb nt : nat) : list (DescriptorType * Z) :=
  replicate nb (UniformBuffer, u32 (Z.of_nat view_count)) ++ replicate nt (CombinedImageSampler, u32 (Z.of_nat view_count)).

Lemma resource_pool_builder_eq layout view_count count nb nt :
  resource_pool_builder layout view_count count nb nt =
    mkPoolBuilder (sizes_for view_count nb nt) (replicate view_count layout) (Some (u32 (Z.of_nat (view_count * count)))).
Proof. unfold resource_pool_builder. by rewrite iter_with_layout, !iter_with_size. Qed.

Lemma resource_requests_eq bm im view_count nb nt : resource_requests bm im view_count nb nt =
  match view_count with 0 => Ok [] | _ => rq ← fill_request bm im nb nt; Ok (replicate view_count rq) end.
Proof.
  unfold resource_requests, for_range. destruct (fill_request bm im nb nt) as [rq|e]; [|by destruct view_count].
  enough (∀ l acc, for_each (λ (_ : nat) requests, rq ← Ok rq; Ok (requests ++ [rq])) l acc =
            Ok (acc ++ replicate (length l) rq)) as ->
    by (rewrite length_seq; by destruct view_count).
  intros l. induction l as [|x l IH]; intros acc; cbn [for_each]; [by cbn; rewrite app_nil_r|].
  rewrite !bind_Ok, IH. cbn. by rewrite <- app_assoc.
Qed.

(** ** The room in the pool *)

Lemma descriptors_of_replicate t n (l : list DescriptorType) :
  descriptors_of t (replicate n l) = n * length (filter (λ u, u = t) l).
Proof.
  unfold descriptors_of. induction n as [|n IH]; [done|]. cbn. rewrite filter_app, length_app, IH. done.
Qed.

Lemma filter_replicate t u n : length (filter (λ x : DescriptorType, x = t) (replicate n u)) = if decide (u = t) then n else 0.
Proof.
  induction n as [|n IH]; cbn [replicate]; [by case_decide|]. rewrite filter_cons. case_decide; cbn [length]; by rewrite IH.
Qed.

Lemma room_for_sizes t view_count nb nt : room_for t (sizes_for view_count nb nt) =
  (Z.of_nat (match t with UniformBuffer => nb | CombinedImageSampler => nt end) * u32 (Z.of_nat view_count))%Z.
Proof.
  assert (H : ∀ u k n acc, foldr (λ (s : DescriptorType * Z) n, if decide (s.1 = t) then s.2 + n else n)%Z acc (replicate n (u, k)) =
            ((if decide (u = t) then Z.of_nat n * k else 0) + acc)%Z).
  { intros u k n acc. induction n as [|n IH]; cbn [replicate foldr]; [by case_decide|].
    rewrite IH. cbn [fst snd]. case_decide; lia. }
  unfold room_for, sizes_for. rewrite foldr_app, !H. destruct t; repeat case_decide; try done; lia.
Qed.

(** The pool has room for a set of every view. *)
Lemma resource_pool_fits view_count nb nt :
  0 < nb + nt → (Z.of_nat (view_count * (nb + nt)) < modulus32)%Z →
  fits (sizes_for view_count nb nt) (u32 (Z.of_nat (view_count * (nb + nt))))
    (replicate view_count (replicate nb UniformBuffer ++ replicate nt CombinedImageSampler)).
Proof.
  intros Hn Hb. assert (view_count ≤ view_count * (nb + nt)) by nia.
  assert (Hv : u32 (Z.of_nat view_count) = Z.of_nat view_count) by (apply Z.mod_small; unfold modulus32 in *; lia).
  assert (Hm : u32 (Z.of_nat (view_count * (nb + nt))) = Z.of_nat (view_count * (nb + nt))) by (apply Z.mod_small; lia).
  unfold fits. rewrite length_replicate, Hm.
  split; [lia|]. intros t. rewrite descriptors_of_replicate, room_for_sizes, Hv, filter_app, length_app, !filter_replicate.
  destruct t; repeat case_decide; try done; lia.
Qed.

Lemma descriptors_writes layout bm im (rs : list R) p w p' w' nb nt :
  initialise_resource_descriptors layout bm im rs p w = Ok (p', w') → rs ≠ [] →
  get_type <$> rs = replicate nb BufferType_ ++ replicate nt TextureType_ →
  length (buffer_components bm) = nb → length (texture_components im) = nt →
  Forall (λ bk, type bk.1 = Uniform) (buffer_components bm) →
  ∃ dp, resource_descriptor_pool p' = Some dp ∧ length (sets dp) = get_view_count ∧
    pool_sizes dp = sizes_for get_view_count nb nt ∧ max_sets dp = u32 (Z.of_nat (get_view_count * (nb + nt))) ∧
    layouts dp = replicate get_view_count layout ∧
    writes dp = concat (map (λ s, imap (λ k ti, mkWrite s k ti.1 ti.2)
                   (bindings_of (buffer_components bm) (texture_components im))) (sets dp)).
Proof.
  intros E Hne Ht Hb Ht' Hu. unfold initialise_resource_descriptors in E.
  assert (Hc : length rs = nb + nt). { pose proof (f_equal length Ht) as Hl. by rewrite length_fmap, length_app, !length_replicate in Hl. }
  destruct rs as [|r0 rs0]; [done|]. set (rs := r0 :: rs0) in *. clearbody rs.
  destruct (count_replicate BufferType_ TextureType_ nb nt) as [Cb Ct]; [done|].
  rewrite !(count_types _ _ _ Ht), Cb, Ct, Hc in E.
  apply st_bind_inv in E as (dp & w1 & E1 & E). rewrite resource_pool_builder_eq in E1. unfold DescriptorPool_new in E1. cbn in E1.
  rewrite lift_bind in E1. apply st_bind_inv in E1 as (pool & w2 & _ & [= <- _]).
  apply st_bind_inv in E as (requests & w3 & [Erq ->]%lift_inv & E). rewrite resource_requests_eq in Erq.
  assert (requests = replicate get_view_count (request_for (bindings_of (buffer_components bm) (texture_components im)))) as ->.
  { destruct get_view_count; [by injection Erq as <-|]. apply bind_Ok_inv in Erq as (rq & Erq & [= <-]).
    rewrite <- Hb, <- Ht' in Erq. by apply fill_request_inv in Erq as ->. }
  apply st_bind_inv in E as (dp & w4 & E4 & [= <- _]). unfold initialise_sets in E4. cbn [layouts dp_pool sets writes] in E4.
  rewrite !length_replicate, Nat.leb_refl, lift_bind, take_replicate, Nat.min_id in E4.
  apply st_bind_inv in E4 as (r & w5 & Er & E4). apply st_bind_inv in E4 as (? & w6 & _ & E4).
  apply st_bind_inv in E4 as (ws & w7 & [Ew ->]%lift_inv & [= <- _]).
  match type of Ew with all_writes ?l _ = _ => assert (Hs : length l = get_view_count) end.
  { destruct r as [l|]; cbn; [|rewrite take_nil, length_app, length_replicate; cbn; lia]. unfold on_vma in Er.
    destruct (vkAllocateDescriptorSets _ _ _) as [m r'] eqn:Ea. injection Er as -> _.
    erewrite (descriptor_sets_length _ _ _ l); [by rewrite length_replicate|by rewrite Ea]. }
  rewrite (all_writes_request _ _ _ Hs) in Ew. injection Ew as <-. eexists. split; [done|]. by split_and!.
Qed.

Lemma layout_bindings (b : RendererBuilderVulkan I R) :
  vk_get_descriptor_set_layout b =
    replicate (length (b_buffer_resources b)) UniformBuffer ++
    replicate (length (b_texture_resources b)) CombinedImageSampler.
Proof.
  assert (H : ∀ t (l : list R) acc,
    foldl (λ l _, fst (LayoutBuilder_add l t)) acc l = acc ++ replicate (length l) t).
  { intros t l. induction l as [|x l IH]; intros acc; simpl; [by rewrite app_nil_r|]. by rewrite IH, <- app_assoc. }
  unfold vk_get_descriptor_set_layout. by rewrite !H.
Qed.

Lemma types_of_builder (b : RendererBuilderVulkan I R) :
  Forall (λ r, get_type r = BufferType_) (b_buffer_resources b) →
  Forall (λ r, get_type r = TextureType_) (b_texture_resources b) →
  get_type <$> map clone_resource (b_buffer_resources b) ++ map clone_resource (b_texture_resources b) =
    replicate (length (b_buffer_resources b)) BufferType_ ++ replicate (length (b_texture_resources b)) TextureType_.
Proof.
  assert (H : ∀ t (l : list R), Forall (λ r, get_type r = t) l →
    get_type <$> map clone_resource l = replicate (length l) t).
  { intros t l HF. induction HF as [|x l Hx _ IH]; [done|]. cbn [map fmap list_fmap length replicate].
    destruct (clone_resource_same x) as [-> _]. rewrite Hx. f_equal. exact IH. }
  intros Hb Ht. by rewrite fmap_app, (H _ _ Hb), (H _ _ Ht).
Qed.

Lemma record_draw_list_descriptors (ins : list I) draws p w p' w' :
  record_draw_list ins draws p w = Ok (p', w') → resource_descriptor_pool p' = resource_descriptor_pool p.
Proof.
  unfold record_draw_list. destruct (draws_match_cache p draws); [by intros [= <- _]|].
  intros E. apply st_bind_inv in E as (t & ? & _ & E). apply st_bind_inv in E as ([s d] & ? & _ & E).
  do 4 (apply st_bind_inv in E as (? & ? & _ & E)).
  apply st_bind_inv in E as ([m1 p1] & ? & _ & E). apply st_bind_inv in E as ([m2 p2] & ? & _ & E).
  apply st_bind_inv in E as (? & ? & _ & E). by injection E as <- _.
Qed.

Lemma scratch_commands_descriptors bm im (ins : list I) (rs : list R) p w p' w' :
  record_and_run_scratch_commands bm im ins rs p w = Ok (p', w') →
  resource_descriptor_pool p' = resource_descriptor_pool p.
Proof.
  unfold record_and_run_scratch_commands. intros E.
  do 3 (apply st_bind_inv in E as (? & ? & _ & E)). apply st_bind_inv in E as (p1 & w1 & E1 & E).
  do 3 (apply st_bind_inv in E as (? & ? & _ & E)). injection E as <- _. simpl.
  unfold scratch_inputs in E1. do 8 (apply st_bind_inv in E1 as (? & ? & _ & E1)).
  apply st_bind_inv in E1 as (p2 & w2 & E2%record_draw_list_descriptors & E1).
  do 2 (apply st_bind_inv in E1 as (? & ? & _ & E1)). by injection E1 as <- _.
Qed.

(** The image manager's textures are not touched by depth image and framebuffers. *)
Lemma targets_keep_textures (depth : bool) im w im1 w1 im2 w2 :
  (if depth then setup_depth_image im else mret im) w = Ok (im1, w1) →
  setup_swapchain_framebuffers im1 w1 = Ok (im2, w2) → texture_components im2 = texture_components im.
Proof.
  intros E1 E2. apply st_bind_inv in E2 as (? & ? & _ & [= <- _]). simpl.
  destruct depth; [|by injection E1 as <- _]. do 2 (apply st_bind_inv in E1 as (? & ? & _ & E1)).
  by injection E1 as <- _.
Qed.

(** C12: a constructed renderer has one descriptor set per view.  Each set is
    written exactly once per resource of the renderer, binding [k] with the
    uniform buffer or the view and sampler of resource [k], and the type of
    every write is the one the layout the builder made has at that binding.  The
    sets are of that layout, and unless its 32-bit capacity overflows the pool
    they come from was created with room for all of them. *)
Theorem vk_descriptor_sets_match_layout rp playout regenerate (b : RendererBuilderVulkan I R) w r w' :
  RendererVulkan_new rp playout regenerate b w = Ok (r, w') →
  Forall (λ r, get_type r = BufferType_) (b_buffer_resources b) →
  Forall (λ r, get_type r = TextureType_) (b_texture_resources b) →
  renderer_resources r ≠ [] →
  let bindings := bindings_of (buffer_components (buffer_manager r)) (texture_components (image_manager r)) in
  (snd <$> buffer_components (buffer_manager r)) ++ (tc_resource <$> texture_components (image_manager r)) =
    seq 0 (resource_count r) ∧
  fst <$> bindings = resource_descriptor_layout r ∧
  ∃ dp, resource_descriptor_pool (processor r) = Some dp ∧ length (sets dp) = get_view_count ∧
    writes dp = concat (map (λ s, imap (λ k ti, mkWrite s k ti.1 ti.2) bindings) (sets dp)) ∧
    layouts dp = replicate get_view_count (resource_descriptor_layout r) ∧
    ((Z.of_nat (get_view_count * resource_count r) < modulus32)%Z → fits (pool_sizes dp) (max_sets dp) (layouts dp)).
Proof.
  intros E Hb Ht Hne. unfold RendererVulkan_new in E.
  do 3 (apply st_bind_inv in E as (? & ? & _ & E)).
  apply st_bind_inv in E as (im0 & w0 & Eim & E). apply st_bind_inv in E as (p0 & ? & _ & E).
  apply st_bind_inv in E as ([[bm ins] rs] & ? & (Hk & Hu & Hty)%setup_buffers_components & E).
  rewrite (types_of_builder b Hb Ht) in Hty.
  apply st_bind_inv in E as (im1 & w1 & E1 & E). apply st_bind_inv in E as (im2 & w2 & E2 & E).
  apply st_bind_inv in E as (im3 & w3 & E3 & E). pose proof (targets_keep_textures _ _ _ _ _ _ _ E2 E3) as Him.
  apply initialise_textures_inv in E1 as [Hk1 _].
  2: { unfold ImageManager_new in Eim. apply st_bind_inv in Eim as (? & ? & _ & Eim). by injection Eim as <- _. }
  apply st_bind_inv in E as (p1 & w4 & E4 & E). apply st_bind_inv in E as (p2 & w5 & E5 & E).
  apply st_bind_inv in E as (p3 & w6 & E6%scratch_commands_descriptors & [= <- _]). simpl in *.
  apply st_bind_inv in E5 as (pool & ? & _ & [= <- _]). simpl in E6.
  rewrite <- Him in Hk1. pose proof (f_equal length Hk) as Lb. pose proof (f_equal length Hk1) as Lt.
  rewrite length_fmap, length_seq in Lb. rewrite length_fmap, length_seq in Lt. unfold resource_count. simpl.
  assert (Hr : length rs = length (b_buffer_resources b) + length (b_texture_resources b)).
  { apply (f_equal length) in Hty. by rewrite length_fmap, length_app, !length_replicate in Hty. }
  split_and!.
  - by rewrite Hk, Hk1, Hr, seq_app.
  - rewrite layout_bindings, <- Lb, <- Lt. apply bindings_types.
  - destruct (descriptors_writes _ _ _ _ _ _ _ _ _ _ E4 Hne Hty Lb Lt Hu) as (dp & Hdp & Hs & Hz & Hm & Hl & Hw).
    exists dp. rewrite E6. split_and!; try done. rewrite Hz, Hm, Hl, Hr, layout_bindings.
    apply resource_pool_fits. destruct rs; [done|]. cbn in Hr. lia.
Qed.

End Descriptors.

(** ** Concrete inputs *)

#[local] Instance resources_config : BuildConfig := debug_build.
#[local] Existing Instance two_views.

Definition sample_pool : CommandPool := mkCommandPool 1 (map (λ c, mkCommandBuffer c false) [21; 22; 23]%Z).

(** The image manager and the world after its texture was made. *)
Definition textured : res (ImageManager * vkworld (VM := driver_vma) (V := driver_vk)) :=
  initialise_texture_resources [sample_texture] [0] (mkImageManager None [] None None []) new_device.

Lemma vk_texture_barrier_discards_witness :
  match textured with
  | Ok (im', w') =>
      match texture_components im' with
      | [t] =>
          match record_texture sample_pool (mkBuffer 5 None Staging) (img t) w' with
          | Ok (_, w2) => ∃ c, get_buffer_natives sample_pool !! 2 = Some c ∧ length (commands w2 c) = 3
          | Fault _ => False
          end
      | _ => False
      end
  | Fault _ => False
  end.
Proof.
  assert (Hok : match textured with
    | Ok (im', w') =>
        match texture_components im' with
        | [t] => is_Ok (record_texture sample_pool (mkBuffer 5 None Staging) (img t) w')
        | _ => false
        end
    | Fault _ => false end = true) by (vm_compute; reflexivity).
  destruct textured as [[im' w']|e] eqn:E; [|discriminate Hok].
  destruct (texture_components im') as [|t [|? ?]] eqn:Et; try discriminate Hok.
  destruct (record_texture sample_pool (mkBuffer 5 None Staging) (img t) w') as [[pool' w2]|e] eqn:E2;
    [|discriminate Hok].
  destruct (vk_texture_barrier_discards (VM := driver_vma) (V := driver_vk) [sample_texture] [0]
    (mkImageManager None [] None None []) new_device im' w' t sample_pool (mkBuffer 5 None Staging) w' pool' w2
    eq_refl E) as (c & Hc & Hcm).
  - rewrite Et. by apply list_elem_of_singleton.
  - exact E2.
  - exists c. split; [exact Hc|]. by rewrite Hcm.
Defined.

Lemma vk_descriptor_sets_match_layout_witness :
  match RendererVulkan_new 900 901 (mret tt) sample_builder new_device with
  | Ok (r, _) => ∃ dp, resource_descriptor_pool (processor r) = Some dp ∧ length (sets dp) = 2 ∧
      fits (pool_sizes dp) (max_sets dp) (layouts dp)
  | Fault _ => False
  end.
Proof.
  assert (Hn : match RendererVulkan_new 900 901 (mret tt) sample_builder new_device with
               | Ok (r, _) => length (renderer_resources r) = 3 | Fault _ => False end) by (vm_compute; reflexivity).
  destruct (RendererVulkan_new 900 901 (mret tt) sample_builder new_device) as [[r w']|e] eqn:E; [|destruct Hn].
  destruct (vk_descriptor_sets_match_layout (VM := driver_vma) (V := driver_vk) 900 901 (mret tt) sample_builder
    new_device r w' E) as (_ & _ & dp & Hdp & Hl & _ & _ & Hfit).
  - repeat constructor.
  - repeat constructor.
  - intros Hr. by rewrite Hr in Hn.
  - exists dp. split; [exact Hdp|]. split; [exact Hl|]. apply Hfit. unfold resource_count. rewrite Hn. done.
Defined.
