(* ===== verification/VkMemory.v ===== *)
(** * Vulkan: what the buffers hold

    An abstract view of the memory of a device: [memory] maps the name of a
    buffer to its block and contents, and [stores m w] says that the world [w]
    implements [m].  Creating, destroying, filling and copying buffers are
    updates of the map, so that what a sequence of them leaves behind is read
    off by map lookups. *)

From S2P Require Import Prelude Containers Memory RenderTypes Inputs OpenGL OGLRenderer VkFrame VkCommand VkRenderer VkDriver VkProcessor Backends VkRendererFacts VkProperties VkDraws.

Abbreviation memory := (gmap Z (nat * list Z)).

Section Memory.
Context `{BC : BuildConfig} `{VM : Vma} {VMS : VmaSpec} {VMU : VmaSucceeds} `{V : Vk} {VS : VkSpec} `{VO : !VkObjects} `{TG : Target}.
Implicit Types (m : memory) (w : vkworld).

Record stores m w : Prop := mkStores {
  so_buffers : ∀ b blk bs, m !! b = Some (blk, bs) →
    b ≠ 0%Z ∧ vma_block (v_vma w) b = Some blk ∧ v_heap w !! blk = Some bs;
  so_distinct : ∀ k l blk, vma_block (v_vma w) k = Some blk → vma_block (v_vma w) l = Some blk → k = l }.

Lemma stores_null m w : stores m w → m !! 0%Z = None.
Proof. intros [Hb _]. destruct (m !! 0%Z) as [[blk bs]|] eqn:E; [|done]. by destruct (Hb _ _ _ E). Qed.

Lemma stores_holds m w b blk bs : stores m w → m !! b = Some (blk, bs) → holds w b bs.
Proof. intros [Hb _] (Hz & Hk & Hh)%Hb. split; [done|]. by exists blk. Qed.

Lemma stores_separate m w b : stores m w → separate w b.
Proof. intros [_ Hd] k blk Hne Hb Hk. by destruct (Hne (Hd _ _ _ Hk Hb)). Qed.

(** Steps that change neither buffers nor their memory. *)
Definition untouched w w' : Prop :=
  v_heap w' = v_heap w ∧ (∀ b, vma_block (v_vma w') b = vma_block (v_vma w) b) ∧ v_sync w' = v_sync w.

Lemma untouched_refl w : untouched w w.
Proof. done. Qed.

Lemma untouched_trans w1 w2 w3 : untouched w1 w2 → untouched w2 w3 → untouched w1 w3.
Proof.
  intros (H1 & B1 & S1) (H2 & B2 & S2). split; [congruence|]. split; [|congruence]. intros b. by rewrite B2, B1.
Qed.

Lemma stores_same m w w' : v_heap w' = v_heap w → (∀ b, vma_block (v_vma w') b = vma_block (v_vma w) b) →
  stores m w → stores m w'.
Proof.
  intros Hh Hk [Hb Hd]. split.
  - intros b blk bs Hm. rewrite Hk, Hh. auto.
  - intros k l blk. rewrite !Hk. apply Hd.
Qed.

Lemma stores_untouched m w w' : untouched w w' → stores m w → stores m w'.
Proof. intros (? & ? & _). by apply stores_same. Qed.

(** A live buffer is not one that is created. *)
Lemma stores_new t p r n u m w : stores m w → purpose_usage t p = Ok u → u ≠ 0%Z → 0 < n →
  ∃ b blk bs w', Buffer_new t p r n w = Ok (b, w') ∧ m !! buffer b = None ∧ length bs = n ∧
    stores (<[buffer b := (blk, bs)]> m) w' ∧ type b = t ∧
    persistent_mapped_ptr b = (if bool_decide (r = CPUPersistent) then Some (mkPtr blk 0) else None) ∧
    v_sync w' = v_sync w ∧ v_cmds w' = v_cmds w ∧ (r ≠ GPU → host_visible blk = true).
Proof.
  intros [Hb Hd] Hu Hz Hn. destruct (Buffer_new_ok t p r n u w Hu Hz Hn) as (b & blk & w' & E & Hc & Ht & Hp & Hv).
  destruct Hc as [Hname Hfresh Hunused Hblock (bs & Hheap & Hlen) Hblocks Hsync Hcmds].
  exists b, blk, bs, w'. split; [done|].
  assert (Hnone : m !! buffer b = None).
  { destruct (m !! buffer b) as [[k ks]|] eqn:E'; [|done]. destruct (Hb _ _ _ E') as (_ & ? & _). congruence. }
  split; [done|]. split; [done|]. split; [|done]. split.
  - intros k kb ks [[<- [= <- <-]]|[Hne Hk]]%lookup_insert_Some.
    + split; [done|]. by rewrite Hblocks, decide_True, Hheap, lookup_insert_eq.
    + destruct (Hb _ _ _ Hk) as (? & Hkb & Hks). split; [done|]. rewrite Hblocks, decide_False by done.
      split; [done|]. rewrite Hheap, lookup_insert_ne; [done|]. intros ->. by apply (Hblock k).
  - intros k l kb. rewrite !Hblocks. intros Hk Hl.
    destruct (decide (k = buffer b)) as [->|], (decide (l = buffer b)) as [->|]; simplify_eq; try done.
    + by edestruct Hblock.
    + by edestruct Hblock.
    + by eapply Hd.
Qed.

Lemma stores_destroy b m w : stores m w →
  ∃ w', Buffer_destroy b w = Ok (tt, w') ∧ stores (delete (buffer b) m) w' ∧ v_sync w' = v_sync w ∧ v_cmds w' = v_cmds w.
Proof.
  intros [Hb Hd]. destruct (Buffer_destroy_ok b w) as (w' & E & Hs & Hc & Hk & _ & Hx).
  exists w'. split; [done|]. split; [|done]. split.
  - intros k kb ks [Hne Hm]%lookup_delete_Some. destruct (Hb _ _ _ Hm) as (? & Hkb & Hks).
    destruct (Hk k) as [E' Hh]; [done|]. split; [done|]. rewrite E'. split; [done|]. by rewrite (Hh kb).
  - intros k l kb Hk1 Hk2. eapply Hd; by apply Hx.
Qed.

(** Assigning to a member that owned nothing. *)
Lemma assign_null v w : Buffer_assign Buffer_null v w = Ok (v, w).
Proof. done. Qed.

(** Mapping, for memory that is not mapped persistently. *)
Lemma stores_map b blk bs m w : stores m w → m !! buffer b = Some (blk, bs) → host_visible blk = true →
  persistent_mapped_ptr b = None →
  ∃ w', Buffer_map_memory b w = Ok (mkPtr blk 0, w') ∧ untouched w w' ∧ v_cmds w' = v_cmds w.
Proof.
  intros [Hb _] (Hz & Hk & _)%Hb Hv Hp. unfold Buffer_map_memory. rewrite (ensure_notnull_ok _ Hz), lift_bind, Hp.
  destruct (map_memory_spec _ _ _ Hk Hv) as [Hm Hkeep]. destruct (memory_mapped _ _ _ Hk Hv) as [q Hq].
  specialize (Hm q Hq). subst q. unfold on_vma, mbind, ST_bind.
  destruct (vmaMapMemory _ _) as [m' r]. cbn in Hq, Hkeep. subst r. eexists. split; [reflexivity|]. by split; [split|].
Qed.

Lemma stores_unmap b m w : stores m w → is_Some (m !! buffer b) →
  ∃ w', Buffer_unmap_memory b w = Ok (tt, w') ∧ untouched w w' ∧ v_cmds w' = v_cmds w.
Proof.
  intros [Hb _] [[blk bs] (Hz & _)%Hb]. unfold Buffer_unmap_memory. rewrite (ensure_notnull_ok _ Hz), lift_bind.
  destruct (persistent_mapped_ptr b); eexists; (split; [reflexivity|]); (split; [|done]); [done|].
  split; [done|]. split; [|done]. intros k. cbn. apply unmap_memory_spec.
Qed.

(** Writing through a pointer into a buffer. *)
Lemma stores_store b blk bs m w off data : stores m w → m !! b = Some (blk, bs) → off + length data ≤ length bs →
  ∃ h, store (v_heap w) (mkPtr blk off) data = Ok h ∧
    ∀ w', v_heap w' = h → (∀ k, vma_block (v_vma w') k = vma_block (v_vma w) k) →
      stores (<[b := (blk, splice off data bs)]> m) w'.
Proof.
  intros [Hb Hd] Hm Hl. destruct (Hb _ _ _ Hm) as (Hz & Hk & Hh). unfold store. cbn. rewrite Hh.
  rewrite (proj2 (Nat.leb_le _ _) Hl). eexists. split; [done|]. intros w' Hh' Hk'. split.
  - intros k kb ks [[<- [= <- <-]]|[Hne Hk2]]%lookup_insert_Some.
    + rewrite Hk', Hh', lookup_insert_eq. done.
    + destruct (Hb _ _ _ Hk2) as (? & Hkb & Hks). rewrite Hk', Hh'. split; [done|]. split; [done|].
      rewrite lookup_insert_ne; [done|]. intros <-. by apply Hne, (Hd b k blk).
  - intros k l kb. rewrite !Hk'. apply Hd.
Qed.

(** A staged copy fills the start of its destination. *)
Lemma stores_copy early pool c f data dst blk old m w :
  stores m w → scratch_ready pool c f w → m !! buffer dst = Some (blk, old) → data ≠ [] → length data ≤ length old →
  ∃ w', staged_copy early pool f data dst w = Ok (pool, w') ∧ scratch_ready pool c f w' ∧
    stores (<[buffer dst := (blk, splice 0 data old)]> m) w' ∧ settles (λ g, g ≠ f) (v_sync w) (v_sync w').
Proof.
  intros Hst Hr Hm Hne Hl. pose proof (stores_holds _ _ _ _ _ Hst Hm) as Hh.
  destruct (staged_copy_ok early pool c f data dst old w Hr Hh (stores_separate _ _ _ Hst) Hne Hl)
    as (w' & E & Hr' & (Hz & kb & Hk & Hb') & Hkeep & Hblocks & Hp).
  exists w'. split; [done|]. split; [done|]. split; [|done]. destruct Hst as [Hb Hd].
  destruct (Hb _ _ _ Hm) as (_ & Hk0 & _). rewrite Hblocks, Hk0 in Hk. injection Hk as <-. split.
  - intros k kb ks [[<- [= <- <-]]|[Hne' Hk]]%lookup_insert_Some; [by rewrite Hblocks|].
    destruct (Hb _ _ _ Hk) as (? & Hkb & Hks). rewrite Hblocks. split; [done|]. split; [done|].
    destruct (Hkeep k kb) as [_ ->]; done.
  - intros k l kb. rewrite !Hblocks. apply Hd.
Qed.

(** ** Members that may be empty *)

Definition without (member : option Buffer) m : memory :=
  match member with Some b => delete (buffer b) m | None => m end.

Lemma stores_reset member m w : stores m w →
  ∃ w', optional_reset member w = Ok (None, w') ∧ stores (without member m) w' ∧ v_sync w' = v_sync w ∧ v_cmds w' = v_cmds w.
Proof.
  intros Hst. destruct member as [b|]; [|by exists w]. destruct (stores_destroy b m w Hst) as (w' & E & ?).
  exists w'. unfold optional_reset. by rewrite (st_bind_Ok _ _ _ _ _ E).
Qed.

Lemma stores_assign member v m w : stores m w →
  ∃ w', optional_assign member v w = Ok (Some v, w') ∧ stores (without member m) w' ∧ v_sync w' = v_sync w ∧
    v_cmds w' = v_cmds w.
Proof.
  intros Hst. destruct member as [b|]; [|by exists w]. destruct (stores_destroy b m w Hst) as (w' & E & ?).
  exists w'. unfold optional_assign, Buffer_assign. cbn. unfold mbind, ST_bind in *. by rewrite E.
Qed.

(** An indirect buffer holds the commands of a draw list, if there are any. *)
Definition commands_in m (member : option Buffer) (bytes : list Z) : Prop :=
  match member with
  | None => bytes = []
  | Some b => type b = DrawIndirect ∧ ∃ blk, m !! buffer b = Some (blk, bytes)
  end.

Lemma stores_write_draws pool c f member draws m w : stores m w → scratch_ready pool c f w →
  (∀ b, member = Some b → is_Some (m !! buffer b)) →
  ∃ member' m' w', write_draws pool f member draws w = Ok ((member', pool), w') ∧ scratch_ready pool c f w' ∧
    stores m' w' ∧ commands_in m' member' (concat (map VkRenderer.cmd_bytes draws)) ∧
    (is_Some member' ↔ draws ≠ []) ∧ (∀ b, member' = Some b → m !! buffer b = None) ∧
    (∀ k x, m !! k = Some x → (∀ b, member = Some b → k ≠ buffer b) → m' !! k = Some x) ∧
    settles (λ g, g ≠ f) (v_sync w) (v_sync w').
Proof.
  intros Hst Hr Hlive. unfold write_draws. destruct draws as [|d ds] eqn:Ed.
  { destruct (stores_reset member m w Hst) as (w' & E & Hst' & Hs & _). rewrite (st_bind_Ok _ _ _ _ _ E).
    exists None, (without member m), w'. split; [done|]. split; [by eapply scratch_ready_sync|]. split; [done|].
    split; [done|]. split; [split; [by intros []|done]|]. split; [done|]. split; [|by rewrite Hs].
    intros k x Hk Hne. destruct member as [b|]; [|done]. cbn. rewrite lookup_delete_ne; [done|]. intros <-. by apply (Hne b). }
  rewrite <- Ed. assert (Hpos : 0 < length draws * sizeof_VkDrawIndexedIndirectCommand) by (rewrite Ed; simpl; lia).
  assert (Hne : concat (map VkRenderer.cmd_bytes draws) ≠ []) by (by rewrite Ed).
  assert (Hdr : draws ≠ []) by (by rewrite Ed). clear Ed.
  destruct (stores_new DrawIndirect TransferDestination GPU _ _ m w Hst eq_refl ltac:(done) Hpos)
    as (b & blk & bs & w1 & E1 & Hnone & Hlen & Hst1 & Ht & _ & Hs1 & _). rewrite (st_bind_Ok _ _ _ _ _ E1).
  destruct (stores_assign member b _ w1 Hst1) as (w2 & E2 & Hst2 & Hs2 & _). rewrite (st_bind_Ok _ _ _ _ _ E2).
  assert (Hb2 : without member (<[buffer b := (blk, bs)]> m) !! buffer b = Some (blk, bs)).
  { destruct member as [b0|]; cbn; [|by rewrite lookup_insert_eq]. destruct (Hlive b0 eq_refl) as [x Hx].
    rewrite lookup_delete_ne; [by rewrite lookup_insert_eq|]. intros Heq. rewrite Heq in Hx. congruence. }
  destruct (stores_copy false pool c f _ b _ _ _ w2 Hst2 ltac:(by eapply scratch_ready_sync, Hr; rewrite Hs2) Hb2 Hne)
    as (w3 & E3 & Hr3 & Hst3 & Hp3); [by rewrite length_draw_bytes, Hlen|].
  rewrite (st_bind_Ok _ _ _ _ _ E3). eexists (Some b), _, w3. split; [done|]. split; [done|]. split; [exact Hst3|].
  split; [|split; [|split; [|split]]].
  - split; [done|]. exists blk. rewrite lookup_insert_eq. unfold splice. cbn. rewrite drop_ge; [by rewrite app_nil_r|].
    by rewrite length_draw_bytes, Hlen.
  - done.
  - by intros b' [= <-].
  - intros k x Hk Hnm. assert (k ≠ buffer b) by congruence. rewrite lookup_insert_ne by done.
    destruct member as [b0|]; cbn; [rewrite lookup_delete_ne by (by intros <-; apply (Hnm b0))|]; by rewrite lookup_insert_ne.
  - by rewrite Hs2, Hs1 in Hp3.
Qed.

End Memory.
