(* ===== verification/VkGeometry.v ===== *)
(** * The Vulkan renderer: the geometry buffers

    What [setup_buffers] makes of well-formed inputs of which at most one is
    dynamic: room for the static geometry, and the dynamic geometry in buffers
    that its input is a window into. *)

From S2P Require Import Prelude Containers Memory RenderTypes Inputs OpenGL OGLRenderer OGLRendererFacts OGLConstruct VkFrame VkCommand VkRenderer VkDriver VkProcessor Backends VkRendererFacts VkProperties VkDraws VkMemory.

(** Whether there is an input of a kind. *)
Definition any {I} `{IRendererInput I} (acc : RendererInputDataAccess) (ins : list I) : bool :=
  existsb (λ i, bool_decide (data_access i = acc)) ins.

Section Compile.
Context `{BC : BuildConfig} {I : Type} `{II : IRendererInput I}.
Implicit Types (ins : list I).

Definition is_dynamic ins (k : nat) (i : I) : Prop := ins !! k = Some i ∧ data_access i = DynamicFixed.

(** At most one input is dynamic. *)
Definition one_dynamic ins : Prop := ∀ k l i j, is_dynamic ins k i → is_dynamic ins l j → k = l.

Lemma no_dynamic_data ins (g : I → list Z) : (∀ j, j ∈ ins → data_access j ≠ DynamicFixed) →
  all_data DynamicFixed g ins = [].
Proof.
  intros Hn. unfold all_data. induction ins as [|j l IH]; [done|]. cbn.
  rewrite data_of_other by (apply Hn; left). apply IH. intros j' Hj'. apply Hn. by right.
Qed.

Lemma one_dynamic_data ins k i (g : I → list Z) : one_dynamic ins → is_dynamic ins k i →
  all_data DynamicFixed g ins = g i.
Proof.
  intros H1 [Hk Ha]. rewrite <- (take_drop_middle ins k i Hk) at 1. unfold all_data.
  rewrite map_app, concat_app. cbn. rewrite data_of_same by done.
  fold (all_data DynamicFixed g (take k ins)) (all_data DynamicFixed g (drop (S k) ins)).
  rewrite !no_dynamic_data; [by rewrite app_nil_r|..].
  - intros j [l Hl]%list_elem_of_lookup Hj. rewrite lookup_drop in Hl.
    assert (S k + l = k) by (by eapply (H1 _ _ j i)). lia.
  - intros j [l Hl]%list_elem_of_lookup Hj. apply lookup_take_Some in Hl as [Hl Hlt].
    assert (l = k) by (by eapply (H1 _ _ j i)). lia.
Qed.

Lemma one_dynamic_before ins m k i : one_dynamic ins → is_dynamic ins m i → k ≤ m →
  any DynamicFixed (take k ins) = false ∧ ∀ g : I → list Z, all_data DynamicFixed g (take k ins) = [].
Proof.
  intros H1 Hm Hk.
  assert (Hn : ∀ j, j ∈ take k ins → data_access j ≠ DynamicFixed).
  { intros j [l Hl]%list_elem_of_lookup Ha. apply lookup_take_Some in Hl as [Hl Hlt].
    assert (l = m) by (eapply (H1 l m j i); [by split|done]). lia. }
  split.
  - unfold any. apply not_true_is_false. intros (j & Hj & Ha)%existsb_exists.
    apply list_elem_of_In in Hj. apply bool_decide_eq_true in Ha. by apply (Hn j).
  - intros g. by apply no_dynamic_data.
Qed.

(** The regions when at most one input is dynamic: they start at 0. *)
Record regions_ok ins (c : VkRenderer.compiled) : Prop := mkRegionsOk {
  ro_none : any DynamicFixed ins = false → VkRenderer.vertex_regions c = [] ∧ VkRenderer.index_regions c = [];
  ro_one : ∀ k i, is_dynamic ins k i →
    VkRenderer.vertex_regions c = [VkRenderer.mkRegion k 0 (length (owned_bytes i))] ∧
    VkRenderer.index_regions c = [VkRenderer.mkRegion k 0 (4 * length (owned_indices i))] }.

Lemma vk_compile_spec h ins : (∀ i, i ∈ ins → ∃ bs ixs, detached i bs ixs) → one_dynamic ins →
  ∃ c, VkRenderer.compile h ins = Ok c ∧
    static_vertex_bytes c = all_data StaticFixed owned_bytes ins ∧
    static_indices c = all_data StaticFixed owned_indices ins ∧
    dynamic_vertex_bytes c = all_data DynamicFixed owned_bytes ins ∧
    dynamic_indices c = all_data DynamicFixed owned_indices ins ∧
    VkRenderer.any_static_geometry c = any StaticFixed ins ∧
    VkRenderer.any_dynamic_geometry c = any DynamicFixed ins ∧ regions_ok ins c.
Proof.
  intros Hd H1. unfold VkRenderer.compile.
  destruct (for_each_imap_ind (λ m c,
    static_vertex_bytes c = all_data StaticFixed owned_bytes (take m ins) ∧
    static_indices c = all_data StaticFixed owned_indices (take m ins) ∧
    dynamic_vertex_bytes c = all_data DynamicFixed owned_bytes (take m ins) ∧
    dynamic_indices c = all_data DynamicFixed owned_indices (take m ins) ∧
    VkRenderer.any_static_geometry c = any StaticFixed (take m ins) ∧
    VkRenderer.any_dynamic_geometry c = any DynamicFixed (take m ins) ∧ regions_ok (take m ins) c)
    (VkRenderer.compile_input h) ins (VkRenderer.mkCompiled [] [] [] [] [] [] false false)) as (c & E & HQ).
  - split_and!; try done. split; [done|]. intros k i [Hk _]. done.
  - intros m i c Hi (E1 & E2 & E3 & E4 & E5 & E6 & R1 & R2).
    destruct (Hd i) as (bs & ixs & Hb & Hx); [by eapply list_elem_of_lookup_2|].
    assert (Hlen : length (take m ins) = m) by (rewrite length_take; apply lookup_lt_Some in Hi; lia).
    rewrite !(take_S_r _ m i Hi), !all_data_snoc. unfold any. rewrite !existsb_app.
    fold (any StaticFixed (take m ins)) (any DynamicFixed (take m ins)). rewrite <- E1, <- E2, <- E3, <- E4, <- E5, <- E6.
    unfold VkRenderer.compile_input, data_of. assert (owned_bytes i = bs) as -> by (unfold owned_bytes; by rewrite Hb).
    assert (owned_indices i = ixs) as -> by (unfold owned_indices; by rewrite Hx). rewrite Hb, Hx. simpl.
    destruct (data_access i) eqn:Ea; eexists; (split; [done|]); simpl;
      rewrite ?app_nil_r, ?orb_true_r, ?orb_false_r; split_and!; try done; split; cbn.
    + intros Hn. apply R1. unfold any in Hn. rewrite existsb_app in Hn. by apply orb_false_iff in Hn as [Hn _].
    + intros k j [Hk Ha]. apply lookup_app_Some in Hk as [Hk|[_ Hk]]; [by apply (R2 k j)|].
      apply list_lookup_singleton_Some in Hk as [_ <-]. congruence.
    + intros Hn. unfold any in Hn. rewrite existsb_app in Hn. apply orb_false_iff in Hn as [_ Hn]. cbn in Hn.
      by rewrite bool_decide_true in Hn.
    + intros k j [Hk Ha]. assert (is_dynamic ins m i) as Hdyn by done.
      destruct (one_dynamic_before ins m m i H1 Hdyn ltac:(lia)) as [Hany Hnil].
      destruct (R1 Hany) as [V1 I1]. rewrite V1, I1, E3, E4, !Hnil. cbn.
      apply lookup_app_Some in Hk as [Hk|[Hge Hk]].
      * exfalso. apply lookup_take_Some in Hk as [Hk Hlt]. assert (k = m) by (eapply (H1 k m j i); done). lia.
      * apply list_lookup_singleton_Some in Hk as [Hz <-]. assert (k = m) as -> by lia.
        unfold owned_bytes, owned_indices. rewrite Hb, Hx. by split.
  - rewrite take_ge in HQ by done. eauto 10.
Qed.

End Compile.

Section Setup.
Context `{BC : BuildConfig} `{VM : Vma} {VMS : VmaSpec} {VMU : VmaSucceeds} `{V : Vk} {VS : VkSpec} `{VO : !VkObjects} `{TG : Target}.
Context {I : Type} `{II : IRendererInput I} {LI : RendererInputLaws I} {R : Type} `{IR : IResource R}.
Implicit Types (ins : list I) (m : memory) (w : vkworld).

(** Room for the static geometry. *)
Definition static_room ins (vb ib : Buffer) m : Prop :=
  type vb = Vertex ∧ type ib = Index ∧ buffer vb ≠ buffer ib ∧
  (∃ blk old, m !! buffer vb = Some (blk, old) ∧ length old = length (all_data StaticFixed owned_bytes ins)) ∧
  ∃ blk old, m !! buffer ib = Some (blk, old) ∧ length old = 4 * length (all_data StaticFixed owned_indices ins).

(** The dynamic geometry is in its two buffers. *)
Definition geometry_in acc ins (vb ib : Buffer) m : Prop :=
  type vb = Vertex ∧ type ib = Index ∧
  (∃ blk, m !! buffer vb = Some (blk, all_data acc owned_bytes ins)) ∧
  ∃ blk, m !! buffer ib = Some (blk, u32s_bytes (all_data acc owned_indices ins)).

(** An input of the renderer and what became of it: static ones are the same,
    the dynamic one is a window into the two buffers. *)
Definition adopted_in (vb ib : Buffer) m (i j : I) : Prop :=
  same_shape i j ∧
  match data_access i with
  | StaticFixed => j = i
  | DynamicFixed => ∃ b1 b2,
      get_vertex_bytes j = At (mkPtr b1 0) (length (owned_bytes i)) ∧ m !! buffer vb = Some (b1, owned_bytes i) ∧
      get_indices j = AtI (mkPtr b2 0) (length (owned_indices i)) ∧ m !! buffer ib = Some (b2, u32s_bytes (owned_indices i))
  end.

(** Inputs that own their data, none of it empty. *)
Definition owns_data (i : I) : Prop := (∃ bs ixs, detached i bs ixs) ∧ owned_bytes i ≠ [] ∧ owned_indices i ≠ [].

Lemma st_fold_one {W A S} (f : A → S → ST W S) x s (v : W) s' v' :
  f x s v = Ok (s', v') → st_fold f [x] s v = Ok (s', v').
Proof. intros H. cbn. by rewrite (st_bind_Ok _ _ _ _ _ H). Qed.

Lemma any_length acc g ins : (∀ i, i ∈ ins → data_access i = acc → g i ≠ []) → any acc ins = true →
  0 < length (all_data acc g ins).
Proof. apply existsb_all_data. Qed.

Lemma setup_static_ok ins c bm m w : stores m w → Forall owns_data ins →
  vertex_buffer bm = Buffer_null → index_buffer bm = Buffer_null →
  static_vertex_bytes c = all_data StaticFixed owned_bytes ins →
  static_indices c = all_data StaticFixed owned_indices ins →
  VkRenderer.any_static_geometry c = any StaticFixed ins →
  ∃ bm' m' w', setup_static c bm w = Ok (bm', w') ∧ stores m' w' ∧ v_sync w' = v_sync w ∧
    (∀ k x, m !! k = Some x → m' !! k = Some x) ∧
    dynamic_vertex_buffer bm' = dynamic_vertex_buffer bm ∧ dynamic_index_buffer bm' = dynamic_index_buffer bm ∧
    buffer_components bm' = buffer_components bm ∧
    (any StaticFixed ins = true → static_room ins (vertex_buffer bm') (index_buffer bm') m' ∧
       m !! buffer (vertex_buffer bm') = None ∧ m !! buffer (index_buffer bm') = None).
Proof.
  intros Hst Ho Hv0 Hi0 Hv Hi Ha. unfold setup_static. rewrite Ha, Hv, Hi. rewrite Forall_forall in Ho.
  destruct (any StaticFixed ins) eqn:Hany; [|by exists bm, m, w].
  assert (Hlv : 0 < length (all_data StaticFixed owned_bytes ins)).
  { apply any_length; [|done]. intros i Hin _. by apply Ho. }
  assert (Hli : 0 < length (all_data StaticFixed owned_indices ins) * 4).
  { assert (0 < length (all_data StaticFixed owned_indices ins)); [|lia].
    apply any_length; [|done]. intros i Hin _. by apply Ho. }
  destruct (stores_new Vertex TransferDestination GPU _ _ m w Hst eq_refl ltac:(done) Hlv)
    as (vb & b1 & o1 & w1 & E1 & N1 & L1 & S1 & T1 & _ & Y1 & _).
  rewrite (st_bind_Ok _ _ _ _ _ E1), Hv0, (st_bind_Ok _ _ _ _ _ (assign_null vb w1)).
  destruct (stores_new Index TransferDestination GPU _ _ _ w1 S1 eq_refl ltac:(done) Hli)
    as (ib & b2 & o2 & w2 & E2 & N2 & L2 & S2 & T2 & _ & Y2 & _).
  rewrite (st_bind_Ok _ _ _ _ _ E2), Hi0, (st_bind_Ok _ _ _ _ _ (assign_null ib w2)).
  apply lookup_insert_None in N2 as [N2 Hne].
  eexists _, _, w2. split; [reflexivity|]. cbn. split; [exact S2|]. split; [congruence|]. split_and!; try done.
  - intros k x Hk. rewrite !lookup_insert_ne; [done|congruence|congruence].
  - intros _. split; [|done]. unfold static_room. split_and!; try done.
    + exists b1, o1. by rewrite lookup_insert_ne, lookup_insert_eq.
    + exists b2, o2. rewrite lookup_insert_eq. split; [done|]. lia.
Qed.

Lemma any_dynamic ins : any DynamicFixed ins = true → ∃ k i, is_dynamic ins k i.
Proof.
  intros (i & Hi & Ha)%existsb_exists. apply bool_decide_eq_true in Ha.
  apply list_elem_of_In, list_elem_of_lookup in Hi as [k Hk]. by exists k, i.
Qed.

Lemma same_shape_refl (i : I) : same_shape i i.
Proof. done. Qed.

(** An input that is not dynamic stays as it is. *)
Lemma adopted_static vb ib m (i : I) : data_access i = StaticFixed → adopted_in vb ib m i i.
Proof. intros Ha. split; [done|]. by rewrite Ha. Qed.

(** Both loops of [setup_dynamic] over the region of the only dynamic input. *)
Lemma adopt_one_ok ins k i vb ib b1 b2 o1 o2 m w : stores m w → is_dynamic ins k i → owns_data i →
  m !! buffer vb = Some (b1, o1) → m !! buffer ib = Some (b2, o2) → buffer vb ≠ buffer ib →
  length o1 = length (owned_bytes i) → length o2 = 4 * length (owned_indices i) →
  ∃ j w1 w2, map_vertex_region (mkPtr b1 0) (VkRenderer.mkRegion k 0 (length (owned_bytes i))) ins w = 
      Ok (<[k := j.1]> ins, w1) ∧
    map_index_region (mkPtr b2 0) (VkRenderer.mkRegion k 0 (4 * length (owned_indices i))) (<[k := j.1]> ins) w1 =
      Ok (<[k := j.2]> ins, w2) ∧
    let m' := <[buffer ib := (b2, u32s_bytes (owned_indices i))]> (<[buffer vb := (b1, owned_bytes i)]> m) in
    stores m' w2 ∧ v_sync w2 = v_sync w ∧ adopted_in vb ib m' i j.2.
Proof.
  intros Hst [Hk Ha] ((bs & ixs & Hb & Hx) & _) Hm1 Hm2 Hne L1 L2.
  assert (owned_bytes i = bs) as Eb by (unfold owned_bytes; by rewrite Hb).
  assert (owned_indices i = ixs) as Ex by (unfold owned_indices; by rewrite Hx).
  rewrite Eb, Ex in *. pose proof (lookup_lt_Some _ _ _ Hk) as Hlt.
  destruct (stores_store (buffer vb) b1 o1 m w 0 bs Hst Hm1 ltac:(lia)) as (h1 & E1 & S1).
  destruct (adopt_vertices _ _ i (mkPtr b1 0) bs Ha Hb E1) as (j1 & F1 & V1 & X1 & Hf1 & A1).
  set (w1 := mkVkWorld h1 (v_vma w) (v_sync w) (v_cmds w)).
  specialize (S1 w1 eq_refl (λ _, eq_refl)).
  assert (Hsp1 : splice 0 bs o1 = bs) by (unfold splice; cbn; by rewrite drop_ge, app_nil_r by lia).
  rewrite Hsp1 in S1.
  assert (Hm2' : <[buffer vb := (b1, bs)]> m !! buffer ib = Some (b2, o2)) by (by rewrite lookup_insert_ne).
  destruct (stores_store (buffer ib) b2 o2 _ w1 0 (u32s_bytes ixs) S1 Hm2' ltac:(rewrite length_u32s_bytes; lia))
    as (h2 & E2 & S2).
  rewrite <- A1 in Ha. rewrite Hx in X1.
  destruct (adopt_indices _ _ j1 (mkPtr b2 0) ixs Ha X1 E2) as (j2 & F2 & X2 & V2 & Hf2 & A2).
  set (w2 := mkVkWorld h2 (v_vma w) (v_sync w) (v_cmds w)).
  specialize (S2 w2 eq_refl (λ _, eq_refl)).
  assert (Hsp2 : splice 0 (u32s_bytes ixs) o2 = u32s_bytes ixs).
  { unfold splice. cbn. rewrite drop_ge, app_nil_r; [done|]. rewrite length_u32s_bytes. lia. }
  rewrite Hsp2 in S2.
  exists (j1, j2), w1, w2. split; [|split; [|split; [exact S2|split; [done|]]]].
  - unfold map_vertex_region. cbn [VkRenderer.r_input VkRenderer.r_offset]. rewrite (at_index_Some _ _ _ Hk), lift_bind.
    unfold ptr_add. cbn [block offset Nat.add]. unfold on_vheap, mbind, ST_bind. by rewrite F1.
  - unfold map_index_region. cbn [VkRenderer.r_input VkRenderer.r_offset fst].
    rewrite (at_index_Some _ _ j1), lift_bind by (by apply list_lookup_insert_eq).
    unfold ptr_add_u32, ptr_add. cbn [block offset Nat.add Nat.mul]. unfold on_vheap, mbind, ST_bind. cbn [v_heap w1].
    cbn in F2. rewrite F2. by rewrite list_insert_insert_eq.
  - cbn [snd]. split.
    + split_and!; [congruence|congruence| |]; unfold vertex_count_bytes, index_count.
      * by rewrite V2, V1, Hb.
      * by rewrite X2, Hx.
    + rewrite <- A1, Ha. exists b1, b2. rewrite lookup_insert_eq, lookup_insert_ne, lookup_insert_eq by done.
      rewrite Eb, Ex. split; [by rewrite V2, V1|]. done.
Qed.

Lemma access_cases (i : I) : data_access i ≠ DynamicFixed → data_access i = StaticFixed.
Proof. by destruct (data_access i). Qed.

Lemma adopted_all_in ins k i j vb ib m : one_dynamic ins → is_dynamic ins k i → adopted_in vb ib m i j →
  Forall2 (adopted_in vb ib m) ins (<[k := j]> ins).
Proof.
  intros H1 Hk Hj. apply Forall2_same_length_lookup. split; [by rewrite length_insert|].
  intros l x y Hx Hy. apply list_lookup_insert_Some in Hy as [(<- & <- & _)|[Hne Hy]].
  - destruct Hk as [Hk _]. by simplify_eq.
  - assert (y = x) as -> by congruence. apply adopted_static, access_cases. intros Ha. apply Hne.
    by apply (H1 k l i x).
Qed.

Lemma setup_dynamic_ok ins c bm m w : stores m w → Forall owns_data ins → one_dynamic ins →
  dynamic_vertex_buffer bm = Buffer_null → dynamic_index_buffer bm = Buffer_null →
  dynamic_vertex_bytes c = all_data DynamicFixed owned_bytes ins →
  dynamic_indices c = all_data DynamicFixed owned_indices ins →
  VkRenderer.any_dynamic_geometry c = any DynamicFixed ins → regions_ok ins c →
  ∃ bm' ins' m' w', setup_dynamic c bm ins w = Ok ((bm', ins'), w') ∧ stores m' w' ∧ v_sync w' = v_sync w ∧
    (∀ k x, m !! k = Some x → m' !! k = Some x) ∧
    vertex_buffer bm' = vertex_buffer bm ∧ index_buffer bm' = index_buffer bm ∧
    buffer_components bm' = buffer_components bm ∧
    Forall2 (adopted_in (dynamic_vertex_buffer bm') (dynamic_index_buffer bm') m') ins ins' ∧
    (any DynamicFixed ins = true →
       geometry_in DynamicFixed ins (dynamic_vertex_buffer bm') (dynamic_index_buffer bm') m' ∧
       m !! buffer (dynamic_vertex_buffer bm') = None ∧ m !! buffer (dynamic_index_buffer bm') = None).
Proof.
  intros Hst Ho H1 Hv0 Hi0 Hv Hi Ha Hrg. unfold setup_dynamic. rewrite Ha, Hv, Hi.
  destruct (any DynamicFixed ins) eqn:Hany.
  2: { exists bm, ins, m, w. split_and!; try done. apply Forall2_same_length_lookup. split; [done|].
       intros k x y Hx Hy. simplify_eq. apply adopted_static, access_cases. intros Hd.
       enough (any DynamicFixed ins = true) by congruence. by eapply existsb_access. }
  destruct (any_dynamic ins Hany) as (k & i & Hk). destruct (ro_one _ _ Hrg k i Hk) as [-> ->].
  assert (Hoi : owns_data i) by (rewrite Forall_lookup in Ho; by apply (Ho k), Hk).
  unfold geometry_in. rewrite !(one_dynamic_data _ k i) by done.
  assert (Hlv : 0 < length (owned_bytes i)) by (destruct Hoi as (_ & ? & _); by destruct (owned_bytes i); [|cbn; lia]).
  assert (Hli : 0 < length (owned_indices i) * 4) by (destruct Hoi as (_ & _ & ?); destruct (owned_indices i); [done|cbn; lia]).
  destruct (stores_new Vertex NothingSpecial CPUPersistent _ _ m w Hst eq_refl ltac:(done) Hlv)
    as (vb & b1 & o1 & w1 & E1 & N1 & L1 & S1 & T1 & P1 & Y1 & _).
  rewrite (st_bind_Ok _ _ _ _ _ E1), Hv0, (st_bind_Ok _ _ _ _ _ (assign_null vb w1)).
  destruct (stores_new Index NothingSpecial CPUPersistent _ _ _ w1 S1 eq_refl ltac:(done) Hli)
    as (ib & b2 & o2 & w2 & E2 & N2 & L2 & S2 & T2 & P2 & Y2 & _).
  rewrite (st_bind_Ok _ _ _ _ _ E2), Hi0, (st_bind_Ok _ _ _ _ _ (assign_null ib w2)).
  apply lookup_insert_None in N2 as [N2 Hne]. cbn in P1, P2.
  assert (M1 : <[buffer ib := (b2, o2)]> (<[buffer vb := (b1, o1)]> m) !! buffer vb = Some (b1, o1)).
  { by rewrite lookup_insert_ne, lookup_insert_eq. }
  assert (M2 : <[buffer ib := (b2, o2)]> (<[buffer vb := (b1, o1)]> m) !! buffer ib = Some (b2, o2)).
  { by rewrite lookup_insert_eq. }
  assert (Hmap : ∀ b blk p bs w, stores (<[buffer ib := (b2, o2)]> (<[buffer vb := (b1, o1)]> m)) w →
    <[buffer ib := (b2, o2)]> (<[buffer vb := (b1, o1)]> m) !! buffer b = Some (blk, bs) →
    persistent_mapped_ptr b = Some p → ∀ w0, Buffer_map_memory b w0 = Ok (p, w0)).
  { intros b blk p bs w0 Hst0 Hm0 Hp0 w3. unfold Buffer_map_memory.
    destruct (so_buffers _ _ Hst0 _ _ _ Hm0) as (Hz & _). by rewrite (ensure_notnull_ok _ Hz), lift_bind, Hp0. }
  rewrite (st_bind_Ok _ _ _ _ _ (Hmap vb _ _ _ w2 S2 M1 P1 w2)).
  destruct (adopt_one_ok ins k i vb ib b1 b2 o1 o2 _ w2 S2 Hk Hoi M1 M2 Hne ltac:(lia) ltac:(lia))
    as (j & w3 & w4 & F1 & F2 & S4 & Y4 & Hj).
  rewrite (st_bind_Ok _ _ _ _ _ (st_fold_one _ _ _ _ _ _ F1)).
  rewrite (st_bind_Ok _ _ _ _ _ (Hmap ib _ _ _ w2 S2 M2 P2 w3)).
  rewrite (st_bind_Ok _ _ _ _ _ (st_fold_one _ _ _ _ _ _ F2)).
  eexists _, _, _, w4. split; [reflexivity|]. cbn. split; [exact S4|]. split; [congruence|]. split_and!; try done.
  - intros l x Hl. rewrite !lookup_insert_ne; [done|congruence..].
  - by apply (adopted_all_in _ _ i).
  - intros _. split; [|done]. split; [done|]. split; [done|].
    rewrite lookup_insert_eq, lookup_insert_ne, lookup_insert_eq by done. eauto.
Qed.

End Setup.
