(* ===== verification/VkRuns.v ===== *)
(** * Vulkan: running on an abstract device

    [runs d m Q]: on every world that implements the device [d], an abstract
    memory and the fences that are known to exist, the computation [m] ends
    without a fault, in a world that implements a device [Q] describes.  The
    rules below turn the driver's specification into updates of [d]; what a
    handler does is then read off its own text. *)

From S2P Require Import Prelude Containers Memory RenderTypes Inputs OpenGL OGLRenderer VkFrame VkCommand VkRenderer VkDriver VkProcessor Backends VkRendererFacts VkProperties VkDraws VkMemory.

(** A driver that never runs out of memory for objects; sets are allocated from a
    new pool that has room for them. *)
Class DriverSucceeds `{VM : Vma} `{V : Vk} `{VO : !VkObjects} : Prop := {
  fence_created : ∀ s, is_Some (snd (vkCreateFence s));
  semaphore_created : ∀ s, is_Some (snd (vkCreateSemaphore s));
  image_created : ∀ m w h f u, is_Some (snd (vmaCreateImage m w h f u));
  image_view_created : ∀ m i, is_Some (snd (vkCreateImageView m i));
  sampler_created : ∀ m p, is_Some (snd (vkCreateSampler m p));
  descriptor_pool_created : ∀ m l n, is_Some (snd (vkCreateDescriptorPool m l n));
  descriptor_sets_created : ∀ m sizes max p ls, snd (vkCreateDescriptorPool m sizes max) = Some p → fits sizes max ls →
    is_Some (snd (vkAllocateDescriptorSets (fst (vkCreateDescriptorPool m sizes max)) p ls));
  framebuffer_created : ∀ m l w h, is_Some (snd (vkCreateFramebuffer m l w h));
  pipeline_created : ∀ m, is_Some (snd (vkCreateGraphicsPipelines m));
  command_pool_created : ∀ m f, is_Some (snd (vkCreateCommandPool m f)) }.

(** The fences a renderer uses for its own copies, those of its frames, and the
    images of the swapchain. *)
Record fence_state := mkFences { fs_scratch : list Z; fs_frames : list Z; fs_images : nat }.

#[export] Instance fence_elem : ElemOf Z fence_state := λ f F, f ∈ fs_scratch F.

Definition add_fence (f : Z) (F : fence_state) : fence_state := mkFences (f :: fs_scratch F) (fs_frames F) (fs_images F).

Definition add_frames (l : list Z) (F : fence_state) : fence_state := mkFences (fs_scratch F) (l ++ fs_frames F) (fs_images F).

Lemma elem_of_add_fence f F : f ∈ add_fence f F.
Proof. by left. Qed.
#[export] Hint Resolve elem_of_add_fence : topaz.

Record device := mkDevice { d_mem : memory; d_fences : fence_state }.

Section Runs.
Context `{BC : BuildConfig} `{VM : Vma} {VMS : VmaSpec} {VMU : VmaSucceeds} `{V : Vk} {VS : VkSpec} `{VO : !VkObjects} `{TG : Target}.
Implicit Types (d : device) (mem : memory) (F : fence_state) (w : vkworld).

(** Nothing is left on the device between two operations: each waits for what
    it has submitted.  The fences of frames are not used for anything else. *)
Record represents d w : Prop := mkRepresents {
  rp_mem : stores (d_mem d) w;
  rp_fences : ∀ f, f ∈ d_fences d → f ∈ fences (v_sync w) ∧ f ∉ fs_frames (d_fences d);
  rp_frames : ∀ f, f ∈ fs_frames (d_fences d) → f ∈ fences (v_sync w) ∧ signalled (v_sync w) f = true;
  rp_images : images (v_sync w) = fs_images (d_fences d);
  rp_idle : ∀ p, p ∉ pending (v_sync w) }.

Definition runs {A} d (m : ST vkworld A) (Q : A → device → Prop) : Prop :=
  ∀ w, represents d w → ∃ a d' w', m w = Ok (a, w') ∧ represents d' w' ∧ Q a d'.

(** ** Structure *)

Lemma runs_ret {A} d (a : A) (Q : A → device → Prop) : Q a d → runs d (mret a) Q.
Proof. intros H w Hw. by exists a, d, w. Qed.

Lemma runs_bind {A B} d (m : ST vkworld A) (f : A → ST vkworld B) P Q :
  runs d m P → (∀ a d', P a d' → runs d' (f a) Q) → runs d (m ≫= f) Q.
Proof.
  intros Hm Hf w Hw. destruct (Hm w Hw) as (a & d1 & w1 & E1 & H1 & P1).
  destruct (Hf a d1 P1 w1 H1) as (b & d2 & w2 & E2 & H2 & Q2). exists b, d2, w2. by rewrite (st_bind_Ok _ _ _ _ _ E1).
Qed.

Lemma runs_post {A} d (m : ST vkworld A) (P Q : A → device → Prop) :
  runs d m P → (∀ a d', P a d' → Q a d') → runs d m Q.
Proof. intros Hm H w Hw. destruct (Hm w Hw) as (a & d1 & w1 & E1 & H1 & P1). exists a, d1, w1. auto. Qed.

Lemma runs_lift {A} d (r : res A) a (Q : A → device → Prop) : r = Ok a → Q a d → runs d (lift r) Q.
Proof. intros -> H w Hw. by exists a, d, w. Qed.

Lemma runs_lift_bind {A B} d (r : res A) a (f : A → ST vkworld B) Q : r = Ok a → runs d (f a) Q → runs d (lift r ≫= f) Q.
Proof. intros -> H. exact H. Qed.

Lemma runs_ret_bind {A B} d (a : A) (f : A → ST vkworld B) Q : runs d (f a) Q → runs d (mret a ≫= f) Q.
Proof. intros H. exact H. Qed.

(** What is read from the world is known of every world the device stands for. *)
Lemma runs_gets {A B} d (g : vkworld → A) (f : A → ST vkworld B) Q :
  (∀ w, represents d w → runs d (f (g w)) Q) → runs d (gets g ≫= f) Q.
Proof. intros H w Hw. exact (H w Hw w Hw). Qed.

Lemma runs_fold {A S} (Inv : list A → S → device → Prop) (f : A → S → ST vkworld S) l s d :
  Inv [] s d →
  (∀ done_ x rest s d, l = done_ ++ x :: rest → Inv done_ s d → runs d (f x s) (Inv (done_ ++ [x]))) →
  runs d (st_fold f l s) (Inv l).
Proof.
  intros H0 Hs w Hw.
  destruct (st_fold_ind (λ done_ s w, ∃ d, represents d w ∧ Inv done_ s d) f l s w) as (s' & w' & E & d' & Hw' & HI).
  - by exists d.
  - intros done_ x rest s1 w1 Hl (d1 & Hw1 & HI1). destruct (Hs _ _ _ _ _ Hl HI1 w1 Hw1) as (s2 & d2 & w2 & E2 & H2 & HI2).
    eauto 10.
  - by exists s', d', w'.
Qed.

(** From a lemma about the memory of a world. *)
Lemma runs_stores {A} mem F (m : ST vkworld A) (Q : A → device → Prop) :
  (∀ w, represents (mkDevice mem F) w → ∃ a mem' w', m w = Ok (a, w') ∧ stores mem' w' ∧
     settles (λ g, g ∈ fs_frames F) (v_sync w) (v_sync w') ∧ Q a (mkDevice mem' F)) →
  runs (mkDevice mem F) m Q.
Proof.
  intros H w Hw. destruct (H w Hw) as (a & mem' & w' & E & Hst & (HF & HI & Hp & Hs) & HQ). exists a, (mkDevice mem' F), w'.
  split; [done|]. split; [|done]. destruct Hw as [_ Hf Hg Hn Hi]. cbn in *. split; cbn; [done|by rewrite HF| |congruence|].
  - intros f Hin. rewrite HF. destruct (Hg f Hin). auto.
  - intros p Hin%Hp. by apply (Hi p).
Qed.

(** ** Calls that leave the device as it is *)

Lemma runs_untouched {A} d (m : ST vkworld A) (Q : A → Prop) :
  (∀ w, ∃ a w', m w = Ok (a, w') ∧ untouched w w' ∧ Q a) → runs d m (λ a d', d' = d ∧ Q a).
Proof.
  intros H w [Hm Hf Hg Hn Hi]. destruct (H w) as (a & w' & E & (Hh & Hb & Hs) & HQ). exists a, d, w'. split; [done|].
  split; [|done]. split; [by eapply stores_same|by rewrite Hs..].
Qed.

Lemma runs_on_cmds d f : runs d (on_cmds f) (λ _ d', d' = d).
Proof. eapply runs_post; [apply (runs_untouched _ _ (λ _, True))|by intros ? ? []]. intros w. by eexists _, _. Qed.

Lemma runs_cmd d c x : runs d (cmd c x) (λ _ d', d' = d).
Proof. apply runs_on_cmds. Qed.

Lemma runs_on_vma {A} d (f : vma_state → vma_state * A) (Q : A → Prop) :
  (∀ m b, vma_block (fst (f m)) b = vma_block m b) → (∀ m, Q (snd (f m))) → runs d (on_vma f) (λ a d', d' = d ∧ Q a).
Proof.
  intros Hb HQ. apply runs_untouched. intros w. unfold on_vma. specialize (Hb (v_vma w)). specialize (HQ (v_vma w)).
  destruct (f (v_vma w)) as [m a]. by eexists _, _.
Qed.

Lemma runs_create {A} d (f : vma_state → vma_state * option A) x :
  (∀ m b, vma_block (fst (f m)) b = vma_block m b) → (∀ m, is_Some (snd (f m))) →
  runs d (create f x) (λ _ d', d' = d).
Proof.
  intros Hb HQ. unfold create. eapply runs_bind; [by apply (runs_on_vma _ _ is_Some)|]. intros r d' [-> [y ->]].
  eapply runs_lift_bind; [apply tz_assert_true|]. by apply runs_ret.
Qed.

Lemma runs_assert {B} d (b : bool) (f : unit → ST vkworld B) Q :
  b = true → runs d (f tt) Q → runs d (lift (tz_assert b) ≫= f) Q.
Proof. intros -> H. eapply runs_lift_bind; [apply tz_assert_true|done]. Qed.

(** ** Buffers *)

Lemma runs_new t p r n u mem F : purpose_usage t p = Ok u → u ≠ 0%Z → 0 < n →
  runs (mkDevice mem F) (Buffer_new t p r n) (λ b d', ∃ blk bs,
    d' = mkDevice (<[buffer b := (blk, bs)]> mem) F ∧ mem !! buffer b = None ∧ length bs = n ∧ type b = t ∧
    persistent_mapped_ptr b = (if bool_decide (r = CPUPersistent) then Some (mkPtr blk 0) else None) ∧
    (r ≠ GPU → host_visible blk = true)).
Proof.
  intros Hu Hz Hn. apply runs_stores. intros w [Hst _ _ _ _].
  destruct (stores_new t p r n u mem w Hst Hu Hz Hn) as (b & blk & bs & w' & E & ? & ? & ? & ? & ? & Hs & _ & ?).
  exists b, (<[buffer b := (blk, bs)]> mem), w'. rewrite Hs. split_and!; try done. by exists blk, bs.
Qed.

Lemma runs_reset m mem F :
  runs (mkDevice mem F) (optional_reset m) (λ m' d', m' = None ∧ d' = mkDevice (without m mem) F).
Proof.
  apply runs_stores. intros w [Hst _ _ _ _]. destruct (stores_reset m mem w Hst) as (w' & E & Hst' & Hs & _).
  exists None, (without m mem), w'. by rewrite Hs.
Qed.

Lemma runs_map b blk bs d : d_mem d !! buffer b = Some (blk, bs) → host_visible blk = true → persistent_mapped_ptr b = None →
  runs d (Buffer_map_memory b) (λ p d', p = mkPtr blk 0 ∧ d' = d).
Proof.
  intros Hm Hv Hp w [Hst Hf Hg Hn Hi]. destruct (stores_map b blk bs (d_mem d) w Hst Hm Hv Hp) as (w' & E & Hu & _).
  exists (mkPtr blk 0), d, w'. split; [done|]. split; [|done]. pose proof Hu as (_ & _ & Hs).
  split; [by eapply stores_untouched|by rewrite Hs..].
Qed.

Lemma runs_unmap b d : is_Some (d_mem d !! buffer b) → runs d (Buffer_unmap_memory b) (λ _ d', d' = d).
Proof.
  intros Hm w [Hst Hf Hg Hn Hi]. destruct (stores_unmap b (d_mem d) w Hst Hm) as (w' & E & Hu & _).
  exists tt, d, w'. split; [done|]. split; [|done]. pose proof Hu as (_ & _ & Hs).
  split; [by eapply stores_untouched|by rewrite Hs..].
Qed.

(** A buffer of the device can be used in commands. *)
Lemma live_not_null d w b : represents d w → is_Some (d_mem d !! b) → b ≠ 0%Z.
Proof. intros [[Hb _] _ _ _ _] [[blk bs] (Hz & _)%Hb]. done. Qed.

(** ** Fences *)

Lemma runs_fence_new {DS : DriverSucceeds} mem F :
  runs (mkDevice mem F) (on_sync Fence_new) (λ f d', (f ∉ F) ∧ d' = mkDevice mem (add_fence f F)).
Proof.
  intros w [Hst Hf Hg Hn Hi]. cbn in *. destruct (vkCreateFence (v_sync w)) as [s r] eqn:Ec.
  destruct (fence_created (v_sync w)) as [f Hr]. rewrite Ec in Hr. cbn in Hr. subst r.
  destruct (create_fence_spec _ _ _ Ec) as (Hnew & Hfs & _ & Him & Hsig & Hp & _).
  exists f, (mkDevice mem (add_fence f F)), (mkVkWorld (v_heap w) (v_vma w) s (v_cmds w)). split.
  { unfold on_sync, Fence_new. by rewrite Ec, tz_assert_true. }
  assert (Hne : ∀ g, g ∈ fences (v_sync w) → g ≠ f) by (by intros g Hx ->).
  split; [split; cbn|].
  - by eapply stores_same, Hst.
  - intros g [-> | Hin]%elem_of_cons; rewrite Hfs, elem_of_cons.
    + split; [by left|]. intros [Hx _]%Hg. by apply Hnew.
    + destruct (Hf g Hin). auto.
  - intros g Hin. destruct (Hg g Hin) as [Hl ?]. rewrite Hfs, elem_of_cons. split; [by right|]. apply Hsig; auto.
  - congruence.
  - intros p ?%Hp. by apply (Hi p).
  - split; [|done]. intros Hin. by apply Hnew, Hf.
Qed.

Lemma runs_fence_signal d f : f ∈ d_fences d → runs d (on_sync (Fence_signal f)) (λ _ d', d' = d).
Proof.
  intros Hin w [Hst Hf Hg Hn Hi]. destruct (Hf f Hin) as [Hl Hnf].
  destruct (reset_spec (v_sync w) f) as (s & E & Hfs & Him & _ & Hsig & Hp & _); [auto|by intros ? ?%Hi|].
  exists tt, d, (mkVkWorld (v_heap w) (v_vma w) s (v_cmds w)). split.
  { unfold on_sync, Fence_signal, vk_call. by rewrite E. }
  split; [|done]. split; cbn; [by eapply stores_same, Hst|by rewrite Hfs| |congruence|intros p Hp'%Hp; by apply Hi in Hp'].
  intros g Hgf. rewrite Hfs. destruct (Hg g Hgf). split; [done|]. apply Hsig; [congruence|done].
Qed.

Lemma runs_fence_destroy mem f F : f ∉ F →
  runs (mkDevice mem (add_fence f F)) (on_sync (Fence_destroy f)) (λ _ d', d' = mkDevice mem F).
Proof.
  intros Hnf w [Hst Hf Hg Hn Hi]. cbn in *. assert (Hf' : ∀ g, g ∈ F → g ∈ fences (v_sync w) ∧ g ∉ fs_frames F).
  { intros g Hgf. apply Hf. by right. }
  destruct (Hf f) as [Hl Hnfr]; [by left|]. unfold on_sync, Fence_destroy, vk_call. destruct (f =? 0)%Z.
  { eexists _, (mkDevice mem F), _. split; [reflexivity|]. split; [|done]. by split; cbn; [eapply stores_same, Hst|..]. }
  destruct (destroy_fence_spec (v_sync w) f) as (s & E & Him & Hkeep & Hsig & Hp & _); [done|by intros ? ?%Hi|].
  rewrite E. eexists _, (mkDevice mem F), _. split; [reflexivity|]. split; [|done]. split; cbn.
  - by eapply stores_same, Hst.
  - intros g Hin. destruct (Hf' g Hin). split; [|done]. apply Hkeep; [congruence|done].
  - intros g Hin. destruct (Hg g Hin). split; [apply Hkeep|apply Hsig]; congruence.
  - congruence.
  - intros p Hp'%Hp. by apply Hi in Hp'.
Qed.

(** *** Frames *)

(** A new [FrameAdmin] of [n] frames. *)
Record admin_new (n : nat) (a : FrameAdmin) : Prop := mkAdminNew {
  an_depth : frame_depth a = n;
  an_counter : frame_counter a = 0;
  an_fences : length (in_flight_fences a) = n;
  an_avail : length (image_available_semaphores a) = n;
  an_finish : length (render_finish_semaphores a) = n;
  an_frames : image_index_at_frame a = replicate n None;
  an_flight : images_in_flight a = [];
  an_nodup : NoDup (in_flight_fences a) }.

(** Fences that exist and are signalled stay so while the objects of frames are made. *)
Definition keeps_fences (s s' : vk_state) : Prop :=
  ∀ f, f ∈ fences s → f ∈ fences s' ∧ (signalled s f = true → signalled s' f = true).

Lemma semaphore_ok {DS : DriverSucceeds} s : ∃ x s', Semaphore_new s = Ok (x, s') ∧ progress s s'.
Proof.
  unfold Semaphore_new. pose proof (create_semaphore_spec s) as H. destruct (semaphore_created s) as [x Hx].
  destruct (vkCreateSemaphore s) as [s' r]. cbn in *. subst r. rewrite tz_assert_true. by eexists _, _.
Qed.

Lemma frame_objects_total {DS : DriverSucceeds} x st s :
  ∃ st' s', new_frame_objects x st s = Ok (st', s') ∧ keeps_fences s s'.
Proof.
  destruct st as [[a r] f]. unfold new_frame_objects.
  destruct (semaphore_ok s) as (x1 & s1 & E1 & F1 & _ & _ & S1 & _).
  destruct (semaphore_ok s1) as (x2 & s2 & E2 & F2 & _ & _ & S2 & _).
  rewrite (st_bind_Ok _ _ _ _ _ E1), (st_bind_Ok _ _ _ _ _ E2). unfold mbind, ST_bind, Fence_new.
  destruct (vkCreateFence s2) as [s3 r3] eqn:E3. destruct (fence_created s2) as [f3 H3]. rewrite E3 in H3. cbn in H3.
  subst r3. destruct (create_fence_spec _ _ _ E3) as (Hnew & F3 & _ & _ & S3 & _). cbn. rewrite tz_assert_true. cbn.
  eexists _, _. split; [reflexivity|]. intros g Hg. rewrite F3, elem_of_cons, F2, F1. split; [auto|].
  intros Hs. apply S3; [|auto]. intros ->. apply Hnew. by rewrite F2, F1.
Qed.

(** The frames of a new renderer: their fences are made, and the others stay. *)
Lemma runs_admin_new {DS : DriverSucceeds} mem F n : runs (mkDevice mem F) (on_sync (FrameAdmin_new n))
  (λ a d', admin_new n a ∧ d' = mkDevice mem (add_frames (in_flight_fences a) F) ∧
     ∀ f, f ∈ F → f ∉ in_flight_fences a).
Proof.
  intros w [Hst Hf Hg Hn Hi]. cbn in *.
  destruct (st_fold_ind (λ done_ st s, frame_objects_ok (v_sync w) done_ st s ∧ keeps_fences (v_sync w) s ∧
    ∀ f, f ∈ st.2 → f ∉ fences (v_sync w)) new_frame_objects (seq 0 n) ([], [], []) (v_sync w))
    as ([[a r] fs] & s & E & (La & Lr & Lf & Hnd & Hin & Hp & Him) & Hk & Hnew).
  - split; [|split; [done|set_solver]]. split_and!; try done; [apply NoDup_nil_2|set_solver].
  - intros done_ x rest st s _ (Hok & Hk & Hnew). destruct (frame_objects_total x st s) as (st' & s' & E & Hk').
    exists st', s'. split; [done|]. split; [eapply new_frame_objects_ok; [exact Hok|apply fence_created|exact E]|]. split.
    + intros f Hin. destruct (Hk f Hin) as [H1 ?], (Hk' f) as [? ?]; auto.
    + destruct st as [[a r] fs]. unfold new_frame_objects in E.
      apply st_bind_inv in E as (x1 & s1 & E1 & E). apply st_bind_inv in E as (x2 & s2 & E2 & E).
      apply st_bind_inv in E as (x3 & s3 & E3 & [= <- <-]). cbn. intros f [Hin| ->%list_elem_of_singleton]%elem_of_app; [by apply Hnew|].
      destruct (semaphore_ok s) as (y1 & t1 & G1 & (F1 & _)). rewrite G1 in E1. injection E1 as <- <-.
      destruct (semaphore_ok t1) as (y2 & t2 & G2 & (F2 & _)). rewrite G2 in E2. injection E2 as <- <-.
      unfold Fence_new in E3. destruct (vkCreateFence t2) as [s4 r4] eqn:E4. destruct (fence_created t2) as [f4 H4].
      rewrite E4 in H4. cbn in H4. subst r4. destruct (create_fence_spec _ _ _ E4) as (Hn4 & _). cbn in E3.
      rewrite tz_assert_true in E3. injection E3 as <- _. intros Hx. apply Hn4. rewrite F2, F1. by apply Hk.
  - rewrite length_seq in La, Lr, Lf. eexists _, (mkDevice mem (add_frames fs F)), _. split.
    { unfold on_sync, FrameAdmin_new. by rewrite (st_bind_Ok _ _ _ _ _ E). }
    assert (Hap : ∀ f, f ∈ F → f ∉ fs).
    { intros f Hff Hfs. by apply (Hnew f Hfs), Hf. }
    split; [|split; [by split|split; [reflexivity|done]]]. split; cbn.
    + by eapply stores_same, Hst.
    + intros f Hff. destruct (Hf f Hff). split; [by apply Hk|]. rewrite not_elem_of_app. split; [by apply Hap|done].
    + intros f [Hff|Hff]%elem_of_app; [by destruct (Hin f Hff) as (? & ? & _)|]. destruct (Hg f Hff) as [H1 H2]. destruct (Hk f H1). auto.
    + congruence.
    + intros p Hpp%Hp. by apply Hi in Hpp.
Qed.

(** On an idle device, the frames of a new renderer are in order. *)
Lemma admin_new_inv win views pool n a mem F w : admin_new n a → 0 < n → represents (mkDevice mem F) w →
  (∀ f, f ∈ in_flight_fences a → f ∈ fs_frames F) → (win = true → fs_images F = views) →
  frame_inv win views pool a (v_sync w).
Proof.
  intros [] Hpos [_ _ Hg Hn Hi] Hfr Him. cbn in *. split; try lia; try done.
  - by rewrite an_frames0, length_replicate.
  - rewrite an_flight0. cbn. by rewrite length_replicate.
  - intros k g. by rewrite an_flight0.
  - intros k g. rewrite an_frames0. by intros [? _]%lookup_replicate.
  - intros f Hf. by apply Hg, Hfr.
  - intros f Hf. left. by apply Hg, Hfr.
  - by intros f c k ?%Hi.
  - by intros f c ?%Hi.
  - intros Hw. rewrite Hn. auto.
Qed.

(** ** Command buffers *)

Lemma runs_recording {d idx pool} c body (Q : device → Prop) : buffers pool !! idx = Some (mkCommandBuffer c false) →
  runs d (body c) (λ _, Q) → runs d (recording pool idx body) (λ pool' d', pool' = pool ∧ Q d').
Proof.
  intros Hp Hb w [Hst Hf Hg Hn Hi]. destruct (Hb (cleared w c)) as ([] & d' & w' & E & Hd & HQ).
  { split; [by eapply stores_same, Hst|done..]. }
  exists pool, d', w'. split; [|done]. eapply recording_ok; [done| |done]. by intros f ?%Hi.
Qed.

(** No command buffer is pending, so all of them may be freed. *)
Lemma runs_pool_clear d pool : runs d (CommandPool_clear pool) (λ p d', d' = d ∧ buffers p = []).
Proof.
  unfold CommandPool_clear. eapply (runs_bind _ _ _ (λ _ d', d' = d)).
  - intros w Hw. exists tt, d, w. split; [|done]. generalize (get_buffer_natives pool). intros l.
    induction l as [|c l IH]; cbn [st_each]; [done|].
    rewrite (st_bind_Ok _ _ _ tt w); [done|]. apply reuse_ok. by intros f ?%(rp_idle _ _ Hw).
  - intros _ d' ->. eapply runs_bind.
    { apply (runs_on_vma _ _ (λ _, True)); [|done]. intros m b. apply free_spec. }
    intros _ d' [-> _]. by apply runs_ret.
Qed.

Lemma runs_buffer_reset d pool idx c : buffers pool !! idx = Some (mkCommandBuffer c false) →
  runs d (CommandBuffer_reset pool idx) (λ _ d', d' = d).
Proof.
  intros Hp w Hw. exists tt, d, (cleared w c). split; [|split; [|done]].
  - eapply reset_ok; [done|]. by intros f ?%(rp_idle _ _ Hw).
  - destruct Hw as [Hst Hf Hg Hn Hi]. split; [by eapply stores_same, Hst|done..].
Qed.

(** The scratch buffer of an idle device. *)
Lemma represents_scratch d w pool c f : represents d w → f ∈ d_fences d →
  buffers pool !! get_view_count = Some (mkCommandBuffer c false) → scratch_ready pool c f w.
Proof. intros [_ Hf _ _ Hi] Hin Hp. split; [done|by apply Hf|by intros ? ?%Hi..]. Qed.

(** A copy with a scratch fence does not disturb the frames. *)
Lemma represents_settles d w f s : represents d w → f ∈ d_fences d → settles (λ g, g ≠ f) (v_sync w) s →
  settles (λ g, g ∈ fs_frames (d_fences d)) (v_sync w) s.
Proof. intros Hw Hf. apply settles_weaken. intros g Hg ->. by apply (rp_fences _ _ Hw) in Hf as [_ ?]. Qed.

Lemma runs_copy early pool c f data dst blk old mem F : f ∈ F →
  buffers pool !! get_view_count = Some (mkCommandBuffer c false) → mem !! buffer dst = Some (blk, old) →
  data ≠ [] → length data = length old →
  runs (mkDevice mem F) (staged_copy early pool f data dst)
    (λ pool' d', pool' = pool ∧ d' = mkDevice (<[buffer dst := (blk, data)]> mem) F).
Proof.
  intros Hf Hp Hm Hne Hl. apply runs_stores. intros w Hw.
  pose proof (represents_scratch _ _ pool c f Hw Hf Hp) as Hr. pose proof (rp_mem _ _ Hw) as Hst.
  destruct (stores_copy early pool c f data dst blk old mem w Hst Hr Hm Hne) as (w' & E & _ & Hst' & Hs); [lia|].
  assert (splice 0 data old = data) as Hsp by (unfold splice; cbn; by rewrite drop_ge, app_nil_r by lia).
  rewrite Hsp in Hst'. apply (represents_settles _ _ _ _ Hw Hf) in Hs. by exists pool, (<[buffer dst := (blk, data)]> mem), w'.
Qed.

(** A device without the buffers [gone], and at least what [mem] has otherwise. *)
Definition grows (gone : Z → Prop) mem mem' : Prop := ∀ k x, ¬ gone k → mem !! k = Some x → mem' !! k = Some x.

Definition names (m : option Buffer) (k : Z) : Prop := ∃ b, m = Some b ∧ k = buffer b.

Lemma runs_write_draws pool c f member draws mem F : f ∈ F →
  buffers pool !! get_view_count = Some (mkCommandBuffer c false) → (∀ b, member = Some b → is_Some (mem !! buffer b)) →
  runs (mkDevice mem F) (write_draws pool f member draws) (λ mp d', ∃ mem', mp.2 = pool ∧ d' = mkDevice mem' F ∧
    commands_in mem' mp.1 (concat (map VkRenderer.cmd_bytes draws)) ∧ (is_Some mp.1 ↔ draws ≠ []) ∧
    (∀ b, mp.1 = Some b → mem !! buffer b = None) ∧ grows (names member) mem mem').
Proof.
  intros Hf Hp Hlive. apply runs_stores. intros w Hw.
  pose proof (represents_scratch _ _ pool c f Hw Hf Hp) as Hr. pose proof (rp_mem _ _ Hw) as Hst.
  destruct (stores_write_draws pool c f member draws mem w Hst Hr Hlive)
    as (member' & mem' & w' & E & _ & Hst' & Hc & Hi & Hn & Hk & Hs).
  apply (represents_settles _ _ _ _ Hw Hf) in Hs.
  exists (member', pool), mem', w'. split_and!; try done. exists mem'. split_and!; try done.
  intros k x Hg Hm. apply Hk; [done|]. intros b Hb ->. apply Hg. by exists b.
Qed.

End Runs.
