(* ===== verification/VkConstruct.v ===== *)
(** * The Vulkan renderer: construction

    Every stage of the constructor of [RendererVulkan] on an idle device whose
    calls succeed, resources apart: none of them faults, and
    what the buffers hold afterwards. *)

From S2P Require Import Prelude Containers Memory RenderTypes Inputs OpenGL OGLRenderer OGLRendererFacts OGLConstruct VkFrame VkCommand VkRenderer VkDriver VkProcessor Backends VkRendererFacts VkProperties VkDraws VkMemory VkGeometry VkRuns.

Section Construct.
Context `{BC : BuildConfig} `{VM : Vma} {VMS : VmaSpec} {VMU : VmaSucceeds} `{V : Vk} {VS : VkSpec} `{VO : !VkObjects} {VOS : VkObjectsSpec}.
Context {DS : DriverSucceeds} `{TG : Target}.
Context {I : Type} `{II : IRendererInput I} {LI : RendererInputLaws I} {R : Type} `{IR : IResource R}.
Implicit Types (ins : list I) (mem : memory) (F : fence_state) (d : device).

(** ** Command pools *)

(** One command buffer per view and the scratch buffer, none being recorded. *)
Definition idle_pool (pool : CommandPool) : Prop :=
  length (buffers pool) = get_view_count + 1 ∧ ∀ k b, buffers pool !! k = Some b → currently_recording b = false.

Lemma idle_pool_at pool k : idle_pool pool → k ≤ get_view_count →
  ∃ c, buffers pool !! k = Some (mkCommandBuffer c false).
Proof.
  intros [Hl Hr] Hk. destruct (lookup_lt_is_Some_2 (buffers pool) k) as [[c r] Hb]; [lia|].
  exists c. specialize (Hr _ _ Hb). cbn in Hr. by subst.
Qed.

Lemma runs_with d pool n : buffers pool = [] →
  runs d (CommandPool_with pool n) (λ kp d', d' = d ∧ length (buffers kp.2) = n ∧
    ∀ k b, buffers kp.2 !! k = Some b → currently_recording b = false).
Proof.
  intros Hb. unfold CommandPool_with. rewrite Hb. cbn [app length].
  eapply runs_bind.
  { apply (runs_on_vma _ _ (λ r, ∃ l, r = Some l ∧ length l = n)).
    - intros m b. apply (allocate_spec m n).
    - intros m. destruct (command_buffers_allocated m n) as [l Hl]. exists l.
      by destruct (proj1 (allocate_spec m n) l Hl). }
  intros r d' (-> & l & -> & Hl). apply runs_assert; [done|]. apply runs_ret. split; [done|]. cbn.
  rewrite drop_ge, app_nil_r by (by rewrite length_fmap, length_replicate). split.
  - rewrite length_zip_with, length_replicate. lia.
  - intros k b (x & y & -> & Hx & _)%lookup_zip_with_Some. by apply lookup_replicate in Hx as [-> _].
Qed.

Lemma runs_initialise_pool d pool : runs d (initialise_command_pool pool) (λ p d', d' = d ∧ idle_pool p).
Proof.
  unfold initialise_command_pool. eapply (runs_bind _ _ _ (λ p d', d' = d ∧ buffers p = [])).
  - destruct (CommandPool_empty pool) eqn:Ee; cbn.
    + apply runs_ret. split; [done|]. unfold CommandPool_empty in Ee. by destruct (buffers pool).
    + apply runs_pool_clear.
  - intros p d' [-> Hp]. eapply runs_bind; [by apply runs_with|]. intros [k p'] d' (-> & ? & ?). by apply runs_ret.
Qed.

(** ** Processor *)

(** An indirect buffer of a class, if there is an input of it. *)
Definition reserved (n : nat) (member : option Buffer) mem mem' : Prop :=
  (is_Some member ↔ 0 < n) ∧ ∀ b, member = Some b → mem !! buffer b = None ∧ is_Some (mem' !! buffer b).

Lemma runs_indirect n mem F :
  runs (mkDevice mem F) (indirect_buffer n) (λ m d', ∃ mem', d' = mkDevice mem' F ∧ mem ⊆ mem' ∧ reserved n m mem mem').
Proof.
  unfold indirect_buffer. destruct (Nat.ltb_spec 0 n) as [Hn|Hn].
  - eapply runs_bind; [by eapply (runs_new DrawIndirect TransferDestination); [done..|unfold sizeof_VkDrawIndexedIndirectCommand; lia]|].
    intros b d' (blk & bs & -> & Hnone & _). apply runs_ret. eexists. split; [done|].
    split; [by apply insert_subseteq|]. split; [done|]. intros b' [= <-]. split; [done|]. by rewrite lookup_insert_eq.
  - apply runs_ret. exists mem. split; [done|]. split; [done|]. split; [|done]. split; [by intros []|lia].
Qed.

(** A set for every view, if there are any. *)
Definition sets_ok (p : Processor) : Prop :=
  ∀ dp, resource_descriptor_pool p = Some dp → length (sets dp) = get_view_count.

(** A new processor: no draw list, no descriptors, indirect buffers by class. *)
Record processor_new ins (p : Processor) mem mem' : Prop := mkProcessorNew {
  pn_pool : idle_pool (command_pool p);
  pn_cache : draw_cache p = [];
  pn_descriptors : sets_ok p;
  pn_static : reserved (num_inputs_of StaticFixed ins) (draw_indirect_buffer p) mem mem';
  pn_dynamic : reserved (num_inputs_of DynamicFixed ins) (draw_indirect_dynamic_buffer p) mem mem';
  pn_distinct : ∀ b b', draw_indirect_buffer p = Some b → draw_indirect_dynamic_buffer p = Some b' → buffer b' ≠ buffer b;
  pn_admin : admin_new (if headless then 1 else frames_in_flight) (frame_admin p) }.

Lemma runs_processor_new ins mem F :
  runs (mkDevice mem F) (Processor_new ins) (λ p d', ∃ mem',
    d' = mkDevice mem' (add_frames (in_flight_fences (frame_admin p)) F) ∧ mem ⊆ mem' ∧ processor_new ins p mem mem').
Proof.
  unfold Processor_new.
  eapply (runs_bind _ _ _ (λ _ d', d' = mkDevice mem F)).
  { unfold CommandPool_new. eapply runs_bind; [apply runs_create; [intros; apply command_pool_spec|intros; apply command_pool_created]|].
    intros pool d' ->. by apply runs_ret. }
  intros pool d' ->.
  eapply runs_bind; [apply runs_indirect|]. intros s d' (m1 & -> & Hsub1 & Hi1 & Hs).
  eapply runs_bind; [apply runs_indirect|]. intros dy d' (m2 & -> & Hsub2 & Hi2 & Hd).
  eapply runs_bind; [apply runs_admin_new|]. intros admin d' (Ha & -> & _).
  eapply runs_bind; [apply runs_initialise_pool|]. intros pool' d' [-> Hpool]. apply runs_ret.
  exists m2. split; [done|]. split; [by transitivity m1|]. split; cbn; try done.
  - split; [done|]. intros b Hb. destruct (Hs b Hb) as [? [x Hx]]. split; [done|]. exists x. by eapply lookup_weaken.
  - split; [done|]. intros b Hb. destruct (Hd b Hb) as [? ?]. split; [|done]. by eapply lookup_weaken_None.
  - intros b b' Hb Hb' Heq. destruct (Hs b Hb) as [_ [x Hx]], (Hd b' Hb') as [Hn _]. congruence.
Qed.

(** ** Geometry *)

(** The buffers after [setup_buffers], all of them new: room for the static
    geometry, the dynamic geometry in place and its input adopted. *)
Record geometry_ready ins ins' (bm : BufferManager) mem mem' : Prop := mkGeometryReady {
  gr_grows : mem ⊆ mem';
  gr_inputs : Forall2 (adopted_in (dynamic_vertex_buffer bm) (dynamic_index_buffer bm) mem') ins ins';
  gr_static : any StaticFixed ins = true → static_room ins (vertex_buffer bm) (index_buffer bm) mem' ∧
    mem !! buffer (vertex_buffer bm) = None ∧ mem !! buffer (index_buffer bm) = None;
  gr_dynamic : any DynamicFixed ins = true →
    geometry_in DynamicFixed ins (dynamic_vertex_buffer bm) (dynamic_index_buffer bm) mem' ∧
    mem !! buffer (dynamic_vertex_buffer bm) = None ∧ mem !! buffer (dynamic_index_buffer bm) = None;
  gr_apart : any StaticFixed ins = true → any DynamicFixed ins = true →
    ∀ k, k = buffer (dynamic_vertex_buffer bm) ∨ k = buffer (dynamic_index_buffer bm) →
      k ≠ buffer (vertex_buffer bm) ∧ k ≠ buffer (index_buffer bm) }.

Lemma static_room_grows ins vb ib mem mem' : mem ⊆ mem' → static_room ins vb ib mem → static_room ins vb ib mem'.
Proof.
  intros Hs (? & ? & ? & (b1 & o1 & Hm1 & ?) & b2 & o2 & Hm2 & ?). split_and!; try done.
  - exists b1, o1. split; [|done]. by eapply lookup_weaken.
  - exists b2, o2. split; [|done]. by eapply lookup_weaken.
Qed.

Lemma geometry_in_grows acc ins vb ib mem mem' :
  (∀ k x, k = buffer vb ∨ k = buffer ib → mem !! k = Some x → mem' !! k = Some x) →
  geometry_in acc ins vb ib mem → geometry_in acc ins vb ib mem'.
Proof. intros H (Tv & Ti & [b1 M1] & b2 & M2). split; [done|]. split; [done|]. split; eexists; apply H; eauto. Qed.

Lemma adopted_in_grows vb ib mem mem' (i j : I) : mem ⊆ mem' → adopted_in vb ib mem i j → adopted_in vb ib mem' i j.
Proof.
  intros Hs [Hsh Hj]. split; [done|]. destruct (data_access i); [done|]. destruct Hj as (b1 & b2 & ? & ? & ? & ?).
  exists b1, b2. split_and!; try done; by eapply lookup_weaken.
Qed.

Lemma geometry_ready_grows ins ins' bm mem m1 m2 : m1 ⊆ m2 → geometry_ready ins ins' bm mem m1 → geometry_ready ins ins' bm mem m2.
Proof.
  intros Hs [Hg HF Hst Hdy Hap]. split; [by transitivity m1| | | |done].
  - eapply Forall2_impl; [exact HF|]. intros i j. by apply adopted_in_grows.
  - intros Ha. destruct (Hst Ha) as (? & ? & ?). split; [by eapply static_room_grows|done].
  - intros Ha. destruct (Hdy Ha) as (? & ? & ?). split; [|done]. eapply geometry_in_grows; [|done].
    intros k x _ Hx. by eapply lookup_weaken.
Qed.

(** The half of [setup_buffers] that is about the inputs. *)
Lemma runs_setup_geometry ins bm0 mem F : Forall owns_data ins → one_dynamic ins →
  vertex_buffer bm0 = Buffer_null → index_buffer bm0 = Buffer_null →
  dynamic_vertex_buffer bm0 = Buffer_null → dynamic_index_buffer bm0 = Buffer_null →
  runs (mkDevice mem F)
    (match ins with
     | [] => mret (bm0, ins)
     | _ => h ← gets v_heap; c ← lift (compile h ins); bm ← setup_static c bm0; setup_dynamic c bm ins
     end)
    (λ bi d', ∃ mem', d' = mkDevice mem' F ∧ geometry_ready ins bi.2 bi.1 mem mem' ∧
       buffer_components bi.1 = buffer_components bm0).
Proof.
  intros Ho H1 N1 N2 N3 N4. destruct ins as [|i0 rest] eqn:El.
  { apply runs_ret. exists mem. split; [done|]. split; [|done]. split; try done. }
  rewrite <- El in *. clear El. apply runs_gets. intros w _.
  destruct (vk_compile_spec (v_heap w) ins) as (c & Ec & Tv & Ti & Dv & Di & Es & Ed & Hrg).
  { intros i Hi. rewrite Forall_forall in Ho. by apply Ho. } { done. }
  eapply runs_lift_bind; [exact Ec|].
  eapply (runs_bind _ _ _ (λ bm d', ∃ m1, d' = mkDevice m1 F ∧ mem ⊆ m1 ∧ dynamic_vertex_buffer bm = Buffer_null ∧
    dynamic_index_buffer bm = Buffer_null ∧ buffer_components bm = buffer_components bm0 ∧
    (any StaticFixed ins = true → static_room ins (vertex_buffer bm) (index_buffer bm) m1 ∧
       mem !! buffer (vertex_buffer bm) = None ∧ mem !! buffer (index_buffer bm) = None))).
  { apply runs_stores. intros w' [Hst _ _ _ _].
    destruct (setup_static_ok ins c bm0 mem w' Hst Ho N1 N2 Tv Ti Es)
      as (bm & m1 & w1 & E & Hst1 & Hs & Hk & ? & ? & ? & ?).
    exists bm, m1, w1. rewrite Hs. split_and!; try done. exists m1. split_and!; try done; [|congruence..].
    by apply map_subseteq_spec. }
  intros bm1 d' (m1 & -> & Hsub & Hdv & Hdi & Hbc & Hroom). apply runs_stores. intros w' [Hst _ _ _ _].
  destruct (setup_dynamic_ok ins c bm1 m1 w' Hst Ho H1 Hdv Hdi Dv Di Ed Hrg)
    as (bm2 & ins' & m2 & w2 & E & Hst2 & Hs & Hk & Hv & Hi & Hc & HF & Hdyn).
  exists (bm2, ins'), m2, w2. rewrite Hs. split_and!; try done. exists m2. split; [done|]. cbn.
  split; [|by rewrite Hc]. assert (Hsub2 : m1 ⊆ m2) by (by apply map_subseteq_spec). split.
  - by transitivity m1.
  - done.
  - intros Ha. rewrite Hv, Hi. destruct (Hroom Ha) as (Hr & ? & ?). split; [by eapply static_room_grows|done].
  - intros Ha. destruct (Hdyn Ha) as (? & ? & ?). split_and!; [done|by eapply lookup_weaken_None..].
  - intros Ha Hb k Hkk. rewrite Hv, Hi. destruct (Hroom Ha) as ((_ & _ & _ & (? & ? & Hx & _) & ? & ? & Hy & _) & _).
    destruct (Hdyn Hb) as (_ & ? & ?). split; intros ->; destruct Hkk as [Hkk|Hkk]; rewrite Hkk in *; congruence.
Qed.

(** ** Images *)

(** The textures of the resources; an offscreen view exists when it is needed. *)
Definition images_ok ts (im : ImageManager) : Prop :=
  texture_components im = ts ∧ (headless = true → is_Some (offscreen_view im)).

Lemma runs_image_manager d : runs d ImageManager_new (λ im d', d' = d ∧ images_ok [] im).
Proof.
  unfold ImageManager_new. eapply (runs_bind _ _ _ (λ v d', d' = d ∧ (headless = true → is_Some v))).
  - destruct headless; [|by apply runs_ret].
    eapply runs_bind; [apply runs_create; [intros; apply image_view_spec|intros; apply image_view_created]|].
    intros v d' ->. by apply runs_ret.
  - intros v d' [-> Hv]. by apply runs_ret.
Qed.

Lemma runs_depth d ts im : images_ok ts im → runs d (setup_depth_image im) (λ im' d', d' = d ∧ images_ok ts im').
Proof.
  intros Hi. unfold setup_depth_image, Image_new. eapply (runs_bind _ _ _ (λ _ d', d' = d)).
  - apply runs_ret_bind. eapply runs_bind.
    { apply (runs_on_vma _ _ is_Some); [intros; apply create_image_spec|intros; apply image_created]. }
    intros r d' [-> [x ->]]. apply runs_assert; [done|]. by apply runs_ret.
  - intros i d' ->. eapply runs_bind; [apply runs_create; [intros; apply image_view_spec|intros; apply image_view_created]|].
    intros v d' ->. by apply runs_ret.
Qed.

Lemma runs_add_framebuffer d depth v l :
  runs d (add_framebuffer depth v l) (λ l' d', d' = d ∧ length l' = S (length l)).
Proof.
  unfold add_framebuffer. eapply runs_bind; [apply runs_create; [intros; apply framebuffer_spec|intros; apply framebuffer_created]|].
  intros fb d' ->. apply runs_ret. split; [done|]. rewrite length_app. simpl. lia.
Qed.

(** A framebuffer for every view. *)
Lemma runs_framebuffers d ts im : images_ok ts im → runs d (setup_swapchain_framebuffers im) (λ im' d', d' = d ∧
  images_ok ts im' ∧ length (swapchain_framebuffers im') = get_view_count).
Proof.
  intros Hi. unfold setup_swapchain_framebuffers, get_view_count.
  eapply (runs_bind _ _ _ (λ l d', d' = d ∧ length l = get_view_count)).
  - unfold get_view_count. destruct headless eqn:Eh.
    + destruct Hi as [_ Hv]. destruct (Hv Eh) as [v Ev]. eapply runs_lift_bind; [by rewrite Ev|]. apply runs_add_framebuffer.
    + apply (runs_fold (λ done_ l d', d' = d ∧ length l = length done_)); [done|].
      intros done_ v rest l d1 _ [-> Hl]. eapply runs_post; [apply runs_add_framebuffer|]. cbn.
      intros l' d' [-> Hl']. rewrite length_app. cbn. split; [done|lia].
  - intros l d' [-> Hl]. apply runs_ret. by split_and!.
Qed.

(** ** Recording *)

(** A draw of a class can be recorded: its buffers are live. *)
Definition drawable d (indirect : option Buffer) (vb ib : Buffer) : Prop :=
  ∀ b, indirect = Some b → is_Some (d_mem d !! buffer b) ∧ is_Some (d_mem d !! buffer vb) ∧
    is_Some (d_mem d !! buffer ib) ∧ type vb = Vertex ∧ type ib = Index.

Lemma runs_not_null {B} d b (f : unit → ST vkworld B) Q : is_Some (d_mem d !! buffer b) → runs d (f tt) Q →
  runs d (lift (tz_assert (negb (Buffer_is_null b))) ≫= f) Q.
Proof.
  intros Hl Hf w Hw. unfold Buffer_is_null. rewrite (proj2 (Z.eqb_neq _ _) (live_not_null _ _ _ Hw Hl)). cbn [negb].
  rewrite tz_assert_true, lift_bind. by apply Hf.
Qed.

Lemma runs_bind_buffer d c b : is_Some (d_mem d !! buffer b) → type b = Vertex ∨ type b = Index →
  runs d (bind_buffer c b) (λ _ d', d' = d).
Proof.
  intros Hl Ht. unfold bind_buffer. apply runs_not_null; [done|]. unfold Buffer_get_type.
  intros w Hw. rewrite (ensure_notnull_ok _ (live_not_null _ _ _ Hw Hl)), bind_Ok, lift_bind.
  by destruct Ht as [-> | ->]; apply runs_cmd.
Qed.

Lemma runs_record_draws d c indirect vb ib n : drawable d indirect vb ib →
  runs d (record_draws c indirect vb ib (Ok n)) (λ _ d', d' = d).
Proof.
  intros Hd. destruct indirect as [b|]; [|by apply runs_ret]. destruct (Hd b eq_refl) as (Hb & Hv & Hi & Tv & Ti). cbn.
  eapply runs_bind; [apply runs_bind_buffer; auto|]. intros _ _ ->.
  eapply runs_bind; [apply runs_bind_buffer; auto|]. intros _ _ ->. eapply runs_lift_bind; [done|].
  unfold draw_indirect. apply runs_not_null; [done|]. apply runs_cmd.
Qed.

(** What recording the views needs. *)
Record recordable d (bm : BufferManager) (im : ImageManager) ins (p : Processor) : Prop := mkRecordable {
  rc_pool : idle_pool (command_pool p);
  rc_framebuffers : length (swapchain_framebuffers im) = get_view_count;
  rc_descriptors : sets_ok p;
  rc_draws : ∀ acc, is_Ok (num_draws_of acc ins (draw_cache p)) = true;
  rc_static : drawable d (draw_indirect_buffer p) (vertex_buffer bm) (index_buffer bm);
  rc_dynamic : drawable d (draw_indirect_dynamic_buffer p) (dynamic_vertex_buffer bm) (dynamic_index_buffer bm) }.

Lemma runs_record_rendering d rp pl playout bm im ins colour p : recordable d bm im ins p →
  runs d (record_rendering_commands rp pl playout bm im ins colour p) (λ p' d', d' = d ∧ p' = p).
Proof.
  intros [Hp Hf Hds Hn Hs Hd]. unfold record_rendering_commands.
  eapply (runs_bind _ _ _ (λ pool d', d' = d ∧ pool = command_pool p)).
  2: { intros pool d' [-> ->]. apply runs_ret. split; [done|]. by destruct p. }
  eapply (runs_fold (λ _ pool d', d' = d ∧ pool = command_pool p)); [done|].
  intros done_ i rest pool d' Hseq [-> ->].
  assert (Hi : i < get_view_count).
  { assert (Hin : i ∈ seq 0 get_view_count) by (rewrite Hseq; set_solver). apply elem_of_seq in Hin. lia. }
  destruct (idle_pool_at _ i Hp) as [c Hc]; [lia|]. unfold record_view, RenderPassRun_new, RenderPassRun_destroy.
  eapply runs_post; [eapply (runs_recording c _ (λ d', d' = d)); [exact Hc|]|by intros ? ? [-> ->]].
  destruct (at_index_lt (swapchain_framebuffers im) i) as (fb & Efb & _); [lia|].
  eapply runs_lift_bind; [exact Efb|]. do 2 (eapply runs_bind; [apply runs_cmd|]; intros _ ? ->).
  eapply (runs_bind _ _ _ (λ _ d', d' = d)).
  { destruct (resource_descriptor_pool p) as [dp|] eqn:Edp; [|by apply runs_ret].
    destruct (at_index_lt (sets dp) i) as (st & Est & _); [rewrite (Hds dp Edp); lia|].
    eapply runs_lift_bind; [exact Est|]. apply runs_cmd. }
  intros _ ? ->.
  pose proof (Hn StaticFixed) as Hns. pose proof (Hn DynamicFixed) as Hnd.
  destruct (num_draws_of StaticFixed ins (draw_cache p)) as [ns|]; [|done].
  destruct (num_draws_of DynamicFixed ins (draw_cache p)) as [nd|]; [|done].
  do 2 (eapply runs_bind; [by apply runs_record_draws|]; intros _ ? ->). apply runs_cmd.
Qed.

End Construct.
