(* ===== verification/VkUniforms.v ===== *)
(** * The Vulkan renderer: resources on the abstract device

    The stages of the constructor of [RendererVulkan] that deal with resources:
    uniform buffers and images are made, descriptor sets are written, and the
    data of the static resources is staged.  None of them faults, the sets
    match the views, and every uniform buffer ends up with the bytes of its
    resource. *)

From S2P Require Import Prelude Containers Memory RenderTypes Inputs OpenGL OGLRenderer OGLRendererFacts OGLConstruct VkFrame VkCommand VkRenderer VkDriver VkProcessor Backends VkRendererFacts VkProperties VkResources VkDraws VkMemory VkGeometry VkRuns VkConstruct.

(** ** Uniform buffers *)

Section Buffers.
Context `{BC : BuildConfig} `{VM : Vma} {VMS : VmaSpec} {VMU : VmaSucceeds} `{V : Vk} {VS : VkSpec} `{VO : !VkObjects} `{TG : Target}.
Context {I : Type} `{II : IRendererInput I} {LI : RendererInputLaws I} {R : Type} `{IR : IResource R} {LR : ResourceLaws R}.
Implicit Types (rs : list R) (mem : memory) (F : fence_state) (d : device) (cs : list (Buffer * nat)).

(** The data of a resource that no renderer has moved yet. *)
Definition resource_data (r : R) : list Z :=
  match get_resource_bytes r with Owned bs => bs | At _ _ => [] end.

Definition resource_owned (r : R) : Prop := get_resource_bytes r = Owned (resource_data r) ∧ resource_data r ≠ [].

(** The buffer [b] of the resource [r], which is [r'] afterwards: room for the
    data of a static one, the data and a window to it for a dynamic one. *)
Definition component_ok (r r' : R) (b : Buffer) mem mem' : Prop :=
  type b = Uniform ∧ mem !! buffer b = None ∧ get_type r' = get_type r ∧ resource_access r' = resource_access r ∧
  ∃ blk old, mem' !! buffer b = Some (blk, old) ∧ length old = length (resource_data r) ∧
    match resource_access r with
    | StaticFixed => r' = r
    | DynamicFixed => old = resource_data r ∧ get_resource_bytes r' = At (mkPtr blk 0) (length old)
    end.

(** The first [n] resources have their buffers, new ones, and the others are
    as they were. *)
Record uniforms_ready n rs cs rs' mem mem' : Prop := mkUniformsReady {
  ur_grows : mem ⊆ mem';
  ur_count : length cs = n;
  ur_length : length rs' = length rs;
  ur_rest : ∀ k, n ≤ k → rs' !! k = rs !! k;
  ur_component : ∀ j b k, cs !! j = Some (b, k) → k = j ∧ ∃ r r', rs !! j = Some r ∧ rs' !! j = Some r' ∧
    component_ok r r' b mem mem';
  ur_distinct : ∀ i j b b' k k', cs !! i = Some (b, k) → cs !! j = Some (b', k') → buffer b = buffer b' → i = j }.

Lemma uniforms_ready_nil rs mem : uniforms_ready 0 rs [] rs mem mem.
Proof. by split. Qed.

Lemma uniforms_ready_snoc n rs cs rs' mem m1 m2 r r' b : uniforms_ready n rs cs rs' mem m1 → rs !! n = Some r →
  m1 !! buffer b = None → (∀ k, k ≠ buffer b → m2 !! k = m1 !! k) → component_ok r r' b m1 m2 →
  uniforms_ready (S n) rs (cs ++ [(b, n)]) (<[n := r']> rs') mem m2.
Proof.
  intros [Hg Hc Hl Hr Hco Hd] Hn Hf Hk (Ht & _ & Hty & Hac & Hm).
  assert (Hlive : ∀ j b' k, cs !! j = Some (b', k) → buffer b' ≠ buffer b).
  { intros j b' k Hj Heq. destruct (Hco j b' k Hj) as (_ & ? & ? & _ & _ & _ & _ & _ & _ & blk & old & Hx & _). congruence. }
  assert (Hlt : n < length rs') by (rewrite Hl; by eapply lookup_lt_Some).
  split.
  - apply map_subseteq_spec. intros k x Hx. assert (Hx1 : m1 !! k = Some x) by (by eapply lookup_weaken).
    rewrite Hk; [done|]. intros ->. congruence.
  - rewrite length_app. cbn. lia.
  - by rewrite length_insert.
  - intros k Hkn. rewrite list_lookup_insert_ne by lia. apply Hr. lia.
  - intros j b' k [[Hj Hb]|[Hj Hb]]%lookup_snoc_Some.
    + destruct (Hco _ _ _ Hb) as (-> & r0 & r0' & E1 & E2 & T & N & G & A & blk & old & M & L & D).
      split; [done|]. exists r0, r0'. split; [done|]. rewrite list_lookup_insert_ne by lia. split; [done|].
      split_and!; try done. exists blk, old. rewrite Hk by (by eapply Hlive). done.
    + injection Hb as <- <-. rewrite Hc in Hj. split; [done|]. subst j. exists r, r'. split; [done|].
      rewrite list_lookup_insert_eq by done. split; [done|]. split_and!; try done. by eapply lookup_weaken_None.
  - intros i j b1 b2 k1 k2 [[Hi H1]|[Hi H1]]%lookup_snoc_Some [[Hj H2]|[Hj H2]]%lookup_snoc_Some Heq.
    + by eapply Hd.
    + injection H2 as -> _. by apply Hlive in H1.
    + injection H1 as -> _. by eapply Hlive in H2.
    + congruence.
Qed.

Lemma uniforms_types n rs cs rs' mem mem' : uniforms_ready n rs cs rs' mem mem' → get_type <$> rs' = get_type <$> rs.
Proof.
  intros [_ Hc Hl Hr Hco _]. apply list_eq. intros k. rewrite !list_lookup_fmap.
  destruct (decide (n ≤ k)) as [Hk|Hk]; [by rewrite Hr|].
  destruct (lookup_lt_is_Some_2 cs k) as [[b i] Hb]; [lia|].
  destruct (Hco _ _ _ Hb) as (_ & r & r' & -> & -> & _ & _ & Ht & _). cbn. by rewrite Ht.
Qed.

Lemma uniforms_live n rs cs rs' mem mem' : uniforms_ready n rs cs rs' mem mem' →
  Forall (λ bk, type bk.1 = Uniform ∧ is_Some (mem' !! buffer bk.1)) cs.
Proof.
  intros [_ _ _ _ Hco _]. apply Forall_lookup. intros j [b k] Hj.
  destruct (Hco _ _ _ Hj) as (_ & r & r' & _ & _ & Ht & _ & _ & _ & blk & old & Hm & _). split; [done|by eexists].
Qed.

Lemma runs_assign_null {B} d v (f : Buffer → ST vkworld B) Q : runs d (f v) Q → runs d (Buffer_assign Buffer_null v ≫= f) Q.
Proof. intros H w Hw. rewrite (st_bind_Ok _ _ _ _ _ (assign_null v w)). by apply H. Qed.

(** Persistently mapped memory. *)
Lemma runs_map_persistent d b p : is_Some (d_mem d !! buffer b) → persistent_mapped_ptr b = Some p →
  runs d (Buffer_map_memory b) (λ q d', q = p ∧ d' = d).
Proof.
  intros Hl Hp w Hw. unfold Buffer_map_memory.
  rewrite (ensure_notnull_ok _ (live_not_null _ _ _ Hw Hl)), lift_bind, Hp. by exists p, d, w.
Qed.

(** A dynamic resource moves its data to the start of its buffer. *)
Lemma runs_adopt_resource r b blk old mem F : resource_access r = DynamicFixed → resource_owned r →
  mem !! b = Some (blk, old) → length old = length (resource_data r) →
  runs (mkDevice mem F) (on_vheap (λ h, set_resource_data h r (mkPtr blk 0))) (λ r' d',
    d' = mkDevice (<[b := (blk, resource_data r)]> mem) F ∧ get_type r' = get_type r ∧
    resource_access r' = resource_access r ∧ get_resource_bytes r' = At (mkPtr blk 0) (length (resource_data r))).
Proof.
  intros Ha [Ho _] Hm Hl. apply runs_stores. intros w [Hst _ _ _ _].
  destruct (stores_store b blk old mem w 0 (resource_data r) Hst Hm) as (h & Eh & Hst'); [lia|].
  destruct (adopt_resource _ _ r _ _ Ha Ho Eh) as (r' & E & Hb & Ht & Hac).
  unfold splice in Hst'. cbn in Hst'. rewrite drop_ge, app_nil_r in Hst' by lia.
  eexists r', _, _. split; [unfold on_vheap; by rewrite E|]. split; [by apply Hst'|]. done.
Qed.

Lemma runs_setup_component n rs cs rs' r mem m1 F : uniforms_ready n rs cs rs' mem m1 → rs !! n = Some r → resource_owned r →
  runs (mkDevice m1 F) (setup_component (Buffer_null, n) (cs, rs')) (λ st d', ∃ m2, d' = mkDevice m2 F ∧
    uniforms_ready (S n) rs st.1 st.2 mem m2).
Proof.
  intros Hu Hn [Ho Hne]. unfold setup_component. pose proof (ur_rest _ _ _ _ _ _ Hu n ltac:(done)) as Hn'. rewrite Hn in Hn'.
  eapply runs_lift_bind; [by apply at_index_Some|]. rewrite Ho. cbn [span_size].
  assert (Hpos : 0 < length (resource_data r)) by (by destruct (resource_data r); [|cbn; lia]).
  destruct (resource_access r) eqn:Ea.
  - eapply runs_bind; [by eapply (runs_new Uniform TransferDestination)|]. intros b d' (blk & bs & -> & Hf & Hl & Ht & _).
    apply runs_assign_null, runs_ret. eexists. split; [done|]. rewrite <- (list_insert_id rs' n r) by done.
    eapply (uniforms_ready_snoc _ _ _ _ _ _ _ _ _ _ Hu Hn Hf); [intros k Hk; by rewrite lookup_insert_ne|].
    split_and!; try done. exists blk, bs. rewrite lookup_insert_eq, Ea. done.
  - eapply runs_bind; [by eapply (runs_new Uniform NothingSpecial)|]. intros b d' (blk & bs & -> & Hf & Hl & Ht & Hp & _).
    apply runs_assign_null. rewrite bool_decide_true in Hp by done.
    eapply runs_bind; [apply runs_map_persistent; [cbn; by rewrite lookup_insert_eq|exact Hp]|]. intros p d' [-> ->].
    eapply runs_bind; [eapply (runs_adopt_resource r (buffer b)); [done|done|by rewrite lookup_insert_eq|done]|].
    intros r' d' (-> & Hty & Hac & Hb). apply runs_ret. eexists. split; [done|].
    eapply (uniforms_ready_snoc _ _ _ _ _ _ _ _ _ _ Hu Hn Hf); [intros k Hk; by rewrite !lookup_insert_ne|].
    split_and!; try done. exists blk, (resource_data r). rewrite lookup_insert_eq, Ea. by split_and!.
Qed.

Lemma runs_setup_buffers ins rs nb mem F : Forall owns_data ins → one_dynamic ins → nb ≤ length rs →
  Forall resource_owned (take nb rs) →
  runs (mkDevice mem F) (setup_buffers (initialise_buffer_resources BufferManager_new (seq 0 nb)) ins rs) (λ bir d', ∃ m1 m2,
    d' = mkDevice m2 F ∧ geometry_ready ins bir.1.2 bir.1.1 mem m1 ∧
    uniforms_ready nb rs (buffer_components bir.1.1) bir.2 m1 m2).
Proof.
  intros Ho H1 Hnb HF. unfold setup_buffers. eapply runs_bind; [by apply runs_setup_geometry|].
  intros [bm ins'] d' (m1 & -> & Hg & Hc). cbn in Hg, Hc. rewrite Hc.
  eapply (runs_bind _ _ _ (λ st d', ∃ m2, d' = mkDevice m2 F ∧ uniforms_ready nb rs st.1 st.2 m1 m2)).
  2: { intros [cs rs'] d' (m2 & -> & Hu). apply runs_ret. exists m1, m2. split; [done|]. split; [|done]. by destruct Hg. }
  cut (runs (mkDevice m1 F) (st_fold setup_component (map (λ k, (Buffer_null, k)) (seq 0 nb)) ([], rs)) (λ st d', ∃ m2,
    d' = mkDevice m2 F ∧ uniforms_ready (length (map (λ k, (Buffer_null, k)) (seq 0 nb))) rs st.1 st.2 m1 m2)).
  { by rewrite length_map, length_seq. }
  apply (runs_fold (λ done_ st d', ∃ m2, d' = mkDevice m2 F ∧ uniforms_ready (length done_) rs st.1 st.2 m1 m2)).
  - exists m1. split; [done|]. apply uniforms_ready_nil.
  - intros done_ [b k] rest [cs rs'] d' Hl (m2 & -> & Hu).
    assert (Hk : seq 0 nb !! length done_ = Some k ∧ b = Buffer_null).
    { assert (Hx : map (λ k, (Buffer_null, k)) (seq 0 nb) !! length done_ = Some (b, k)) by (rewrite Hl; by apply list_lookup_middle).
      apply list_lookup_fmap_Some in Hx as (y & [= -> ->] & Hy). done. }
    destruct Hk as [[-> Hlt]%lookup_seq ->]. cbn.
    destruct (lookup_lt_is_Some_2 rs (length done_)) as [r Hr]; [lia|].
    eapply runs_post; [eapply runs_setup_component; [exact Hu|exact Hr|]|].
    + eapply Forall_lookup_1; [exact HF|]. by rewrite lookup_take_lt.
    + intros st d' (m3 & -> & Hu3). exists m3. split; [done|]. rewrite length_app. cbn. by rewrite Nat.add_1_r.
Qed.

End Buffers.

(** ** Images of textures *)

Section Textures.
Context `{BC : BuildConfig} `{VM : Vma} {VMS : VmaSpec} {VMU : VmaSucceeds} `{V : Vk} {VS : VkSpec} `{VO : !VkObjects} {VOS : VkObjectsSpec}.
Context {DS : DriverSucceeds} `{TG : Target} {R : Type} `{IR : IResource R}.
Implicit Types (rs : list R) (mem : memory) (F : fence_state) (d : device).

(** The component of a texture: a new image of the texture's size. *)
Definition texture_ok rs (t : TextureComponent) : Prop :=
  layout (img t) = LayoutUndefined ∧ ∃ r tv, rs !! tc_resource t = Some r ∧ as_texture r = Some tv ∧
    img_width (img t) = tv_width tv ∧ img_height (img t) = tv_height tv.

Definition textures_ok rs (ks : list nat) (ts : list TextureComponent) : Prop :=
  tc_resource <$> ts = ks ∧ Forall (texture_ok rs) ts.

Lemma runs_texture d rs k im ks ts r tv : images_ok ts im → textures_ok rs ks ts →
  rs !! k = Some r → as_texture r = Some tv →
  runs d (initialise_texture rs k im) (λ im' d', d' = d ∧ ∃ ts', images_ok ts' im' ∧ textures_ok rs (ks ++ [k]) ts').
Proof.
  intros [Hts Hv] [Hk HF] Hr Htv. unfold initialise_texture, Image_new.
  eapply runs_lift_bind; [by apply at_index_Some|]. eapply runs_lift_bind; [by rewrite Htv|].
  eapply (runs_bind _ _ _ (λ i d', d' = d ∧ layout i = LayoutUndefined ∧ img_width i = tv_width tv ∧ img_height i = tv_height tv)).
  { apply runs_ret_bind. eapply runs_bind.
    { apply (runs_on_vma _ _ is_Some); [intros; apply create_image_spec|intros; apply image_created]. }
    intros i d' [-> [x ->]]. apply runs_assert; [done|]. by apply runs_ret. }
  intros i d' (-> & Hl & Hw & Hh).
  eapply runs_bind; [apply runs_create; [intros; apply image_view_spec|intros; apply image_view_created]|]. intros v d' ->.
  eapply runs_bind; [apply runs_create; [intros; apply sampler_spec|intros; apply sampler_created]|]. intros s d' ->.
  apply runs_ret. split; [done|]. eexists. split; [by split; [reflexivity|]|]. cbn. rewrite Hts. split.
  - by rewrite fmap_app, Hk.
  - apply Forall_app. split; [done|]. apply Forall_singleton. split; [done|]. by exists r, tv.
Qed.

Lemma runs_textures d rs ks im : images_ok [] im →
  (∀ k, k ∈ ks → ∃ r tv, rs !! k = Some r ∧ as_texture r = Some tv) →
  runs d (initialise_texture_resources rs ks im) (λ im' d', d' = d ∧ ∃ ts, images_ok ts im' ∧ textures_ok rs ks ts).
Proof.
  intros Hi Hk. apply (runs_fold (λ done_ im' d', d' = d ∧ ∃ ts, images_ok ts im' ∧ textures_ok rs done_ ts)).
  - split; [done|]. by exists [].
  - intros done_ k rest im' d' Hl (-> & ts & Hts & Hok). destruct (Hk k) as (r & tv & Hr & Htv); [rewrite Hl; set_solver|].
    by eapply runs_texture.
Qed.

(** ** Descriptor sets *)

Definition with_descriptors (p : Processor) (o : option DescriptorPool) : Processor :=
  mkProcessor o (command_pool p) (draw_indirect_buffer p) (draw_indirect_dynamic_buffer p) (draw_cache p) (frame_admin p).

Lemma fill_request_ok bm im :
  Forall (λ bk, type bk.1 = Uniform ∧ buffer bk.1 ≠ 0%Z) (buffer_components bm) →
  fill_request bm im (length (buffer_components bm)) (length (texture_components im)) =
    Ok (request_for (bindings_of (buffer_components bm) (texture_components im))).
Proof.
  intros HF.
  assert (Hex : ∃ rq, fill_request bm im (length (buffer_components bm)) (length (texture_components im)) = Ok rq).
  { unfold fill_request. edestruct (for_range_ind (λ _ (_ : DescriptorSetsCreationRequest), True)) as (rq & E & _); [done| |rewrite E, bind_Ok].
    - intros j rq Hj _. destruct (lookup_lt_is_Some_2 _ _ Hj) as [[b k] Hb]. rewrite (at_index_Some _ _ _ Hb), bind_Ok.
      destruct (Forall_lookup_1 _ _ _ _ HF Hb) as [Ht Hz]. cbn in Ht, Hz. unfold add_buffer, Buffer_get_type.
      rewrite (ensure_notnull_ok _ Hz), !bind_Ok, Ht. by eexists.
    - edestruct (for_range_ind (λ _ (_ : DescriptorSetsCreationRequest), True)) as (rq' & E' & _); [done| |by eexists].
      intros j rq' Hj _. destruct (lookup_lt_is_Some_2 _ _ Hj) as [t Ht]. rewrite (at_index_Some _ _ _ Ht). by eexists. }
  destruct Hex as [rq Erq]. rewrite Erq. f_equal. eapply fill_request_inv, Erq. eapply Forall_impl; [exact HF|]. by intros [b k] [].
Qed.

(** A new pool gives the sets it has room for. *)
Lemma runs_new_sets layout count nb nt l d :
  0 < nb + nt → count = nb + nt → (Z.of_nat (get_view_count * count) < modulus32)%Z →
  layout = replicate nb UniformBuffer ++ replicate nt CombinedImageSampler →
  runs d (dp ← DescriptorPool_new (resource_pool_builder layout get_view_count count nb nt);
          initialise_sets (replicate get_view_count (request_for l)) dp)
    (λ dp d', d' = d ∧ length (sets dp) = get_view_count).
Proof.
  intros Hn -> Hb ->. rewrite resource_pool_builder_eq. apply runs_untouched. intros w.
  pose proof (resource_pool_fits get_view_count nb nt Hn Hb) as Hfit.
  unfold DescriptorPool_new, create, on_vma, mbind, ST_bind, lift. cbn [of_option pb_max_sets pb_sizes pb_layouts].
  set (max := u32 (Z.of_nat (get_view_count * (nb + nt)))) in *. set (sizes := sizes_for get_view_count nb nt) in *.
  remember (replicate get_view_count (replicate nb UniformBuffer ++ replicate nt CombinedImageSampler)) as ls eqn:Els.
  assert (Hlen : length ls = get_view_count) by (subst ls; apply length_replicate). clear Els.
  destruct (descriptor_pool_created (v_vma w) sizes max) as [p Hp].
  pose proof (descriptor_sets_created (v_vma w) sizes max p ls Hp Hfit) as [ss Hs].
  pose proof (λ b, descriptor_pool_spec (v_vma w) sizes max b) as Hb1.
  destruct (vkCreateDescriptorPool (v_vma w) sizes max) as [m1 r] eqn:E1. cbn in Hp, Hs, Hb1. subst r.
  pose proof (λ b, descriptor_sets_spec m1 p ls b) as Hb2. pose proof (descriptor_sets_length m1 p ls ss Hs) as Hl.
  destruct (vkAllocateDescriptorSets m1 p ls) as [m2 r] eqn:E2. cbn in Hs, Hb2. subst r.
  unfold initialise_sets, on_vma, mbind, ST_bind, lift. cbn [bool_decide default from_option v_vma layouts dp_pool].
  rewrite bool_decide_true, tz_assert_true by eauto. cbn [layouts dp_pool v_vma].
  unfold mret, ST_ret. cbn [id layouts dp_pool v_vma sets writes pool_sizes max_sets].
  rewrite length_replicate, Hlen, Nat.leb_refl, take_ge by lia. cbn [v_vma v_heap v_sync v_cmds]. rewrite E2.
  rewrite bool_decide_true, tz_assert_true by eauto. cbn [default from_option id].
  rewrite (all_writes_request ss _ get_view_count) by congruence. eexists _, _. split; [reflexivity|]. split; [|cbn; congruence].
  split; [done|]. split; [|done]. intros b. cbn. by rewrite Hb2, Hb1.
Qed.

Lemma runs_descriptors layout bm im rs p d : sets_ok p →
  Forall (λ bk, type bk.1 = Uniform ∧ is_Some (d_mem d !! buffer bk.1)) (buffer_components bm) →
  get_type <$> rs = replicate (length (buffer_components bm)) BufferType_ ++
                    replicate (length (texture_components im)) TextureType_ →
  layout = replicate (length (buffer_components bm)) UniformBuffer ++
           replicate (length (texture_components im)) CombinedImageSampler →
  (Z.of_nat (get_view_count * length rs) < modulus32)%Z →
  runs d (initialise_resource_descriptors layout bm im rs p) (λ p' d', d' = d ∧ sets_ok p' ∧
    p' = with_descriptors p (resource_descriptor_pool p')).
Proof.
  intros Hp Hu Ht Hla Hb. unfold initialise_resource_descriptors. destruct rs as [|r0 rs0] eqn:Ers.
  { apply runs_ret. split; [done|]. split; [done|]. by destruct p. }
  assert (Hc : length rs = length (buffer_components bm) + length (texture_components im)).
  { subst rs. pose proof (f_equal length Ht) as Hl. by rewrite length_fmap, length_app, !length_replicate in Hl. }
  assert (Hpos : 0 < length rs) by (subst; cbn; lia).
  rewrite <- Ers in *. clear Ers. destruct (count_replicate BufferType_ TextureType_
    (length (buffer_components bm)) (length (texture_components im))) as [Cb Ct]; [done|].
  rewrite !(count_types _ _ _ Ht), Cb, Ct.
  intros w Hw. assert (Erq : resource_requests bm im get_view_count (length (buffer_components bm)) (length (texture_components im)) =
            Ok (replicate get_view_count (request_for (bindings_of (buffer_components bm) (texture_components im))))).
  { rewrite resource_requests_eq. rewrite fill_request_ok; [by destruct get_view_count|].
    eapply Forall_impl; [exact Hu|]. intros bk [? Hl]. split; [done|]. by eapply live_not_null. }
  rewrite Erq.
  destruct (runs_new_sets layout (length rs) _ _ (bindings_of (buffer_components bm) (texture_components im)) d
    ltac:(rewrite <- Hc; exact Hpos) Hc Hb Hla w Hw) as (dp & d' & w' & E & Hw' & -> & Hs).
  apply st_bind_inv in E as (dp0 & w0 & E0 & E). eexists _, d, w'. split.
  { erewrite st_bind_Ok by exact E0. rewrite lift_bind. erewrite st_bind_Ok by exact E. reflexivity. }
  split; [done|]. split; [done|]. split; [|done]. by intros ? [= <-].
Qed.

(** Descriptors are all that changes. *)
Lemma with_descriptors_new {I : Type} `{II : IRendererInput I} (ins : list I) p o mem mem' : sets_ok (with_descriptors p o) →
  processor_new ins p mem mem' → processor_new ins (with_descriptors p o) mem mem'.
Proof. intros Hs []. by split. Qed.

End Textures.

(** ** Staged data of the resources *)

Section Uploads.
Context `{BC : BuildConfig} `{VM : Vma} {VMS : VmaSpec} {VMU : VmaSucceeds} `{V : Vk} {VS : VkSpec} `{VO : !VkObjects} {VOS : VkObjectsSpec}.
Context `{TG : Target} {R : Type} `{IR : IResource R} {LR : ResourceLaws R}.
Implicit Types (rs : list R) (mem : memory) (F : fence_state) (d : device).

(** The commands of a texture upload, recorded in the scratch buffer. *)
Lemma record_texture_ok pool c f st i w : scratch_ready pool c f w → buffer st ≠ 0%Z → layout i = LayoutUndefined →
  ∃ cmds b1 b2, record_texture pool st i w = Ok (pool, mkVkWorld (v_heap w) (v_vma w) (v_sync w) cmds) ∧
    default [] (cmds !! c) =
      [CmdPipelineBarrier b1.1.1 b1.1.2 b1.2.1 b1.2.2 (image i) LayoutUndefined LayoutTransferDestination;
       CmdCopyBufferToImage (buffer st) (image i) LayoutTransferDestination (img_width i) (img_height i);
       CmdPipelineBarrier b2.1.1 b2.1.2 b2.2.1 b2.2.2 (image i) LayoutUndefined ShaderResource].
Proof.
  intros Hr Hs Hl. eexists _, (_, _, (_, _)), (_, _, (_, _)). split.
  - unfold record_texture. eapply recording_ok; [apply Hr..|]. unfold transition_image_layout, buffer_copy_image, Buffer_is_null.
    rewrite Hl, (proj2 (Z.eqb_neq _ _) Hs). cbn [negb source_barrier destination_barrier]. rewrite tz_assert_true.
    unfold cmd, on_cmds, cleared, mbind, ST_bind, lift. cbn. reflexivity.
  - cbn. rewrite !lookup_insert_eq. reflexivity.
Qed.

(** The device works on a staging buffer and leaves the other buffers alone. *)
Lemma staged_gone st blk data w w2 w5 w6 : staged st blk data w w2 →
  (∀ k, vma_block (v_vma w5) k = vma_block (v_vma w2) k) →
  (∀ k x, vma_block (v_vma w2) k = Some x → v_heap w5 !! x = v_heap w2 !! x) →
  (∀ k, k ≠ buffer st → vma_block (v_vma w6) k = vma_block (v_vma w5) k ∧
        ∀ x, vma_block (v_vma w5) k = Some x → v_heap w6 !! x = v_heap w5 !! x) →
  vma_block (v_vma w6) (buffer st) = None →
  (∀ k, vma_block (v_vma w6) k = vma_block (v_vma w) k) ∧
  ∀ k x, vma_block (v_vma w) k = Some x → v_heap w6 !! x = v_heap w !! x.
Proof.
  intros [_ Hfr Hbl Hgh Hgb _] Hm Hh Hk Hd. split.
  - intros k. destruct (decide (k = buffer st)) as [->|Hne]; [congruence|].
    destruct (Hk k Hne) as [-> _]. by rewrite Hm, Hgb, decide_False.
  - intros k x Hx. assert (Hne : k ≠ buffer st) by congruence. assert (Hx2 : vma_block (v_vma w2) k = Some x)
      by (by rewrite Hgb, decide_False).
    destruct (Hk k Hne) as [_ ->]; [|by rewrite Hm]. rewrite (Hh k x Hx2), Hgh, lookup_insert_ne; [done|].
    intros ->. by apply (Hbl k).
Qed.

Lemma upload_ok pool c f data i w : scratch_ready pool c f w → data ≠ [] → layout i = LayoutUndefined →
  (4 * img_width i * img_height i ≤ Z.of_nat (length data))%Z →
  ∃ w', (staging ← Buffer_new Staging TransferSource CPU (length data);
         _ ← Buffer_write staging data;
         pool ← record_texture pool staging i;
         _ ← on_sync (Fence_signal f);
         _ ← scratch_submit pool f;
         _ ← Buffer_destroy staging;
         mret pool) w = Ok (pool, w') ∧
    (∀ k, vma_block (v_vma w') k = vma_block (v_vma w) k) ∧
    (∀ k x, vma_block (v_vma w) k = Some x → v_heap w' !! x = v_heap w !! x) ∧ settles (λ g, g ≠ f) (v_sync w) (v_sync w').
Proof.
  intros Hr Hne Hl Hsz. destruct (staging_ok data w Hne) as (st & blk & w1 & w2 & E1 & E2 & Hg).
  rewrite (st_bind_Ok _ _ _ _ _ E1), (st_bind_Ok _ _ _ _ _ E2). pose proof Hg as [Hz _ _ Hh2 Hb2 Hsy].
  assert (Hr2 : scratch_ready pool c f w2) by (by eapply scratch_ready_sync).
  destruct (record_texture_ok pool c f st i w2 Hr2 Hz Hl) as (cmds & b1 & b2 & E3 & Hcm). rewrite (st_bind_Ok _ _ _ _ _ E3).
  destruct (Fence_signal_ok pool c f (mkVkWorld (v_heap w2) (v_vma w2) (v_sync w2) cmds)) as (s4 & E4 & Hr4 & Hs4 & Hp4).
  { by eapply scratch_ready_sync, Hr2. }
  rewrite (st_bind_Ok _ _ _ _ _ E4). cbn in Hp4.
  destruct (scratch_submit_ok pool c f _ _ Hr4 Hs4 Hcm) as (s5 & E5 & _ & Hp5).
  rewrite (st_bind_Ok _ _ _ _ _ E5). cbn [v_heap v_vma v_cmds].
  set (w5 := mkVkWorld _ _ s5 cmds). destruct (Buffer_destroy_ok st w5) as (w6 & E6 & Hs6 & _ & Hk6 & Hd6 & _).
  rewrite (st_bind_Ok _ _ _ _ _ E6). exists w6. split; [done|].
  destruct (staged_gone st blk data w w2 w5 w6 Hg) as [Hb6 Hh6]; [| |done|by apply Hd6|].
  - intros k. cbn. apply execute_blocks_spec.
  - intros k x Hx. cbn. eapply (execute_image_spec _ _ _); [|exact Hx].
    repeat constructor. exists blk, data. rewrite Hb2, decide_True, Hh2, lookup_insert_eq by done. by split_and!.
  - split; [done|]. split; [done|]. rewrite Hs6. eapply settles_trans; [|exact Hp5]. by rewrite Hsy in Hp4.
Qed.

Lemma stores_kept mem w w' : (∀ k, vma_block (v_vma w') k = vma_block (v_vma w) k) →
  (∀ k x, vma_block (v_vma w) k = Some x → v_heap w' !! x = v_heap w !! x) → stores mem w → stores mem w'.
Proof.
  intros Hb Hh [Hm Hd]. split.
  - intros b blk bs Hx. destruct (Hm _ _ _ Hx) as (? & Hk & ?). by rewrite Hb, (Hh b blk Hk).
  - intros k l blk. rewrite !Hb. apply Hd.
Qed.

Definition texture_data_ok (r : R) : Prop := resource_access r = StaticFixed ∧ resource_owned r ∧
  ∃ tv, as_texture r = Some tv ∧ (4 * tv_width tv * tv_height tv ≤ Z.of_nat (length (resource_data r)))%Z.

(** The textures leave the buffers as they are. *)
Lemma runs_upload_texture rs t r pool f mem F : texture_ok rs t → rs !! tc_resource t = Some r → texture_data_ok r →
  idle_pool pool → f ∈ F →
  runs (mkDevice mem F) (scratch_texture_resource rs f t pool) (λ pool' d', pool' = pool ∧ d' = mkDevice mem F).
Proof.
  intros (Hl & r' & tv & Hr' & Htv & Hw & Hh) Hr (Ha & [Ho Hne] & tv' & Htv' & Hsz) Hp Hf.
  rewrite Hr in Hr'. injection Hr' as <-. rewrite Htv in Htv'. injection Htv' as <-. unfold scratch_texture_resource. eapply runs_lift_bind; [by apply at_index_Some|].
  apply runs_assert; [by apply bool_decide_eq_true|]. destruct (idle_pool_at _ get_view_count Hp) as [c Hc]; [done|].
  eapply runs_bind; [by eapply runs_buffer_reset|]. intros _ d' ->.
  apply runs_stores. intros w Hrep. rewrite Ho.
  destruct (upload_ok pool c f (resource_data r) (img t) w) as (w' & E & Hb & Hh' & Hs).
  { by eapply represents_scratch. } { done. } { done. } { congruence. }
  exists pool, mem, w'. split; [exact E|].
  split; [eapply stores_kept; [done..|]; apply Hrep|]. split; [|done]. by apply (represents_settles _ _ f _ Hrep).
Qed.

Lemma runs_upload_textures rs ks ts pool f mem F : textures_ok rs ks ts → idle_pool pool → f ∈ F →
  (∀ k, k ∈ ks → ∃ r, rs !! k = Some r ∧ texture_data_ok r) →
  runs (mkDevice mem F) (st_fold (scratch_texture_resource rs f) ts pool) (λ pool' d', pool' = pool ∧ d' = mkDevice mem F).
Proof.
  intros [Hk HF] Hp Hf Hd. apply (runs_fold (λ _ pool' d', pool' = pool ∧ d' = mkDevice mem F)); [done|].
  intros done_ t rest pool' d' Hl [-> ->]. rewrite Forall_forall in HF.
  destruct (Hd (tc_resource t)) as (r & Hr & Hok); [rewrite <- Hk, Hl, fmap_app; set_solver|].
  eapply runs_upload_texture; try done. apply HF. rewrite Hl. set_solver.
Qed.

(** Every uniform buffer holds the data of its resource. *)
Definition uniforms_in rs (cs : list (Buffer * nat)) mem : Prop :=
  ∀ j b k, cs !! j = Some (b, k) → ∃ r blk, rs !! j = Some r ∧ mem !! buffer b = Some (blk, resource_data r).

Definition uniform_name (cs : list (Buffer * nat)) (k : Z) : Prop := ∃ j b i, cs !! j = Some (b, i) ∧ k = buffer b.

(** One component: a static resource is copied, a dynamic one is in place. *)
Lemma runs_upload_buffer n rs cs rs' m0 m1 mem F pool f j b r : uniforms_ready n rs cs rs' m0 m1 →
  cs !! j = Some (b, j) → rs !! j = Some r → resource_owned r → mem !! buffer b = m1 !! buffer b → idle_pool pool → f ∈ F →
  runs (mkDevice mem F) (scratch_buffer_resource rs' f (b, j) pool) (λ pool' d', ∃ mem' blk, pool' = pool ∧ d' = mkDevice mem' F ∧
    mem' !! buffer b = Some (blk, resource_data r) ∧ ∀ k, k ≠ buffer b → mem' !! k = mem !! k).
Proof.
  intros Hu Hj Hr [Ho Hne] Hb Hp Hf. unfold scratch_buffer_resource.
  destruct (ur_component _ _ _ _ _ _ Hu _ _ _ Hj) as (_ & r0 & r' & Hr0 & Hr' & _ & _ & _ & Ha & blk & old & Hm & Hl & Hd).
  rewrite Hr in Hr0. injection Hr0 as <-. eapply runs_lift_bind; [by apply at_index_Some|]. rewrite Ha. rewrite Hm in Hb.
  destruct (resource_access r).
  2: { apply runs_ret. destruct Hd as [-> _]. by exists mem, blk. }
  subst r'. destruct (idle_pool_at _ get_view_count Hp) as [c Hc]; [done|].
  eapply runs_bind; [by eapply runs_buffer_reset|]. intros _ d' ->. rewrite Ho.
  change (runs (mkDevice mem F) (staged_copy false pool f (resource_data r) b) (λ pool' d', ∃ mem' blk, pool' = pool ∧
    d' = mkDevice mem' F ∧ mem' !! buffer b = Some (blk, resource_data r) ∧ ∀ k, k ≠ buffer b → mem' !! k = mem !! k)).
  eapply runs_post; [eapply (runs_copy _ _ c); [done|done|exact Hb|done|done]|]. intros pool' d' [-> ->].
  eexists _, blk. split; [done|]. split; [done|]. rewrite lookup_insert_eq. split; [done|]. intros k Hk. by rewrite lookup_insert_ne.
Qed.

Lemma runs_upload_buffers n rs cs rs' m0 m1 mem F pool f : uniforms_ready n rs cs rs' m0 m1 →
  Forall resource_owned (take n rs) → (∀ k, uniform_name cs k → mem !! k = m1 !! k) → idle_pool pool → f ∈ F →
  runs (mkDevice mem F) (st_fold (scratch_buffer_resource rs' f) cs pool) (λ pool' d', ∃ mem', pool' = pool ∧
    d' = mkDevice mem' F ∧ uniforms_in rs cs mem' ∧ ∀ k, ¬ uniform_name cs k → mem' !! k = mem !! k).
Proof.
  intros Hu HF Hmem Hp Hf.
  apply (runs_fold (λ done_ pool' d', ∃ mem', pool' = pool ∧ d' = mkDevice mem' F ∧ uniforms_in rs done_ mem' ∧
    ∀ k, ¬ uniform_name done_ k → mem' !! k = mem !! k)).
  { exists mem. by split_and!. }
  intros done_ [b i] rest pool' d' Hl (mem' & -> & -> & Hin & Hk).
  assert (Hj : cs !! length done_ = Some (b, i)) by (rewrite Hl; by apply list_lookup_middle).
  destruct (ur_component _ _ _ _ _ _ Hu _ _ _ Hj) as (-> & r & _ & Hr & _).
  assert (Hnew : ∀ j b' k, done_ !! j = Some (b', k) → buffer b' ≠ buffer b).
  { intros j b' k Hb' Heq. assert (Hj' : cs !! j = Some (b', k)) by (rewrite Hl; by apply lookup_app_l_Some).
    apply (ur_distinct _ _ _ _ _ _ Hu _ _ _ _ _ _ Hj' Hj) in Heq. apply lookup_lt_Some in Hb'. lia. }
  eapply runs_post; [eapply (runs_upload_buffer n rs cs rs' m0 m1); try done|].
  - eapply Forall_lookup_1; [exact HF|]. rewrite lookup_take_lt; [done|]. rewrite <- (ur_count _ _ _ _ _ _ Hu).
    by eapply lookup_lt_Some.
  - rewrite Hk; [apply Hmem; by exists (length done_), b, (length done_)|]. intros (j & b' & k & Hb' & Heq).
    by apply (Hnew _ _ _ Hb').
  - intros p' d' (m2 & blk & -> & -> & Hb & Hother). exists m2. split; [done|]. split; [done|]. split.
    + intros j b' k [[_ Hb']|[-> [= <- <-]]]%lookup_snoc_Some.
      * rewrite Hother by (by eapply Hnew). by eapply Hin.
      * by exists r, blk.
    + intros k Hn. rewrite Hother, Hk; [done|..].
      * intros (j & b' & i & Hb' & ->). apply Hn. exists j, b', i. split; [by apply lookup_app_l_Some|done].
      * intros ->. apply Hn. exists (length done_), b, (length done_). split; [by apply list_lookup_middle|done].
Qed.

End Uploads.
