(* ===== verification/VkScratch.v ===== *)
(** * The Vulkan renderer: the scratch commands of the constructor

    The loop over the inputs and the staged copies that follow it, on an
    abstract device: the static geometry, the commands of the first draw list
    and the data of the resources reach their buffers. *)

From S2P Require Import Prelude Containers Memory RenderTypes Inputs OpenGL OGLRenderer OGLRendererFacts OGLConstruct VkFrame VkCommand VkRenderer VkDriver VkProcessor Backends VkRendererFacts VkProperties VkDraws VkMemory VkGeometry VkRuns VkConstruct VkUniforms.

(** ** Draw lists *)

Section Draws.
Context `{BC : BuildConfig} `{VM : Vma} {VMS : VmaSpec} {VMU : VmaSucceeds} `{V : Vk} {VS : VkSpec} `{VO : !VkObjects} {VOS : VkObjectsSpec}.
Context {DS : DriverSucceeds} `{TG : Target} {I : Type} `{II : IRendererInput I}.
Implicit Types (ins : list I) (mem : memory) (F : fence_state) (d : device).

(** The commands of a draw list, in the representation of the other back end. *)
Lemma vk_commands ins draws :
  (∀ i, i ∈ ins → binding_size (get_format i) ≠ 0) → Forall (λ k, k < length ins) draws →
  ∃ t cs cd, VkProcessor.draw_table ins = Ok t ∧ VkProcessor.convert_draws ins t draws = Ok (cs, cd) ∧
    Forall2 same_cmd (draws_of StaticFixed ins draws) cs ∧ Forall2 same_cmd (draws_of DynamicFixed ins draws) cd.
Proof.
  intros Hb Hd. destruct (draw_table_spec ins Hb) as (o & Eo & Ho). pose proof (draw_table_agree ins) as Ht.
  rewrite Eo in Ht. destruct (VkProcessor.draw_table ins) as [t|]; [|done]. cbn in Ht.
  pose proof (convert_draws_agree ins o t draws Ht) as Hc. rewrite (convert_draws_spec ins o draws Ho Hd) in Hc.
  destruct (VkProcessor.convert_draws ins t draws) as [[cs cd]|] eqn:Ec; [|done]. destruct Hc as [H1 H2].
  exists t, cs, cd. by split_and!.
Qed.

(** The contents of an indirect buffer. *)
Definition draw_bytes acc ins (draws : RendererDrawList) : list Z :=
  concat (map OGLRenderer.cmd_bytes (draws_of acc ins draws)).

Lemma same_nonempty (os : list OGLRenderer.DrawIndirectCommand) (cs : list VkRenderer.DrawIndirectCommand) :
  Forall2 same_cmd os cs → (cs ≠ [] ↔ os ≠ []).
Proof. by intros []. Qed.

(** Recorded draw lists: the members that replace the old ones hold the
    commands, and have names that nothing else on the device has. *)
Record recorded ins draws (p p' : Processor) mem mem' : Prop := mkRecorded {
  re_pool : command_pool p' = command_pool p;
  re_descriptors : resource_descriptor_pool p' = resource_descriptor_pool p;
  re_cache : draw_cache p' = draws;
  re_admin : frame_admin p' = frame_admin p;
  re_static : commands_in mem' (draw_indirect_buffer p') (draw_bytes StaticFixed ins draws);
  re_dynamic : commands_in mem' (draw_indirect_dynamic_buffer p') (draw_bytes DynamicFixed ins draws);
  re_any_static : is_Some (draw_indirect_buffer p') ↔ draws_of StaticFixed ins draws ≠ [];
  re_any_dynamic : is_Some (draw_indirect_dynamic_buffer p') ↔ draws_of DynamicFixed ins draws ≠ [];
  re_grows : grows (λ k, names (draw_indirect_buffer p) k ∨ names (draw_indirect_dynamic_buffer p) k) mem mem';
  re_fresh : ∀ k, is_Some (mem !! k) → ¬ names (draw_indirect_buffer p) k → ¬ names (draw_indirect_dynamic_buffer p) k →
    ¬ names (draw_indirect_buffer p') k ∧ ¬ names (draw_indirect_dynamic_buffer p') k;
  re_distinct : ∀ b, draw_indirect_dynamic_buffer p' = Some b → ¬ names (draw_indirect_buffer p') (buffer b) }.

(** The members of a processor are live and distinct. *)
Definition members_live (p : Processor) mem : Prop :=
  (∀ b, draw_indirect_buffer p = Some b → is_Some (mem !! buffer b)) ∧
  (∀ b, draw_indirect_dynamic_buffer p = Some b → is_Some (mem !! buffer b) ∧ ¬ names (draw_indirect_buffer p) (buffer b)).

Lemma runs_record_draw_list ins draws p mem F :
  (∀ i, i ∈ ins → binding_size (get_format i) ≠ 0) → Forall (λ k, k < length ins) draws → draw_cache p ≠ draws →
  idle_pool (command_pool p) → members_live p mem →
  runs (mkDevice mem F) (record_draw_list ins draws p) (λ p' d', ∃ mem', d' = mkDevice mem' F ∧ recorded ins draws p p' mem mem').
Proof.
  intros Hb Hd Hne Hp [Ls Ld]. destruct (vk_commands ins draws Hb Hd) as (t & cs & cd & Et & Ec & Hcs & Hcd).
  unfold record_draw_list, draws_match_cache. rewrite bool_decide_eq_false_2 by done.
  eapply runs_lift_bind; [exact Et|]. eapply runs_lift_bind; [exact Ec|]. apply runs_assert.
  { apply Nat.eqb_eq. rewrite <- (Forall2_length _ _ _ Hcs), <- (Forall2_length _ _ _ Hcd). by apply draws_of_length. }
  destruct (idle_pool_at _ get_view_count Hp) as [c Hc]; [done|].
  eapply runs_bind; [apply runs_fence_new|]. intros f d' [Hf ->].
  eapply runs_bind; [apply runs_fence_signal, elem_of_add_fence|]. intros _ d' ->.
  eapply runs_lift_bind; [unfold CommandPool_at; by apply at_index_Some|].
  eapply runs_bind; [eapply (runs_write_draws _ c); [auto with topaz|done|done]|].
  intros [ms pool] d' (m1 & Hpool & -> & C1 & I1 & N1 & G1). cbn in *. subst pool.
  eapply runs_bind; [eapply (runs_write_draws _ c); [auto with topaz|done|]|].
  { intros b Hm. destruct (Ld b Hm) as [[x Hx] Hn]. exists x. by apply G1. }
  intros [md pool] d' (m2 & Hpool & -> & C2 & I2 & N2 & G2). cbn in *. subst pool.
  eapply runs_bind; [by apply runs_fence_destroy|]. intros _ d' ->. apply runs_ret. exists m2. split; [done|].
  rewrite <- (same_bytes _ _ Hcs) in C1. rewrite <- (same_bytes _ _ Hcd) in C2.
  rewrite (same_nonempty _ _ Hcs) in I1. rewrite (same_nonempty _ _ Hcd) in I2. split; cbn; try done.
  - destruct ms as [b|]; [|done]. destruct C1 as [? [blk Hblk]]. split; [done|]. exists blk. apply G2; [|done].
    intros (b' & Hb' & Heq). destruct (Ld b' Hb') as [[x Hx] _]. specialize (N1 b eq_refl). congruence.
  - intros k x Hk Hx. apply G2; [tauto|]. apply G1; [tauto|done].
  - intros k [x Hx] Hs Hdy. split; intros (b & -> & ->).
    + by rewrite (N1 b eq_refl) in Hx.
    + apply G1 in Hx; [|done]. by rewrite (N2 b eq_refl) in Hx.
  - intros b -> (b' & -> & Heq). destruct C1 as (_ & blk & Hblk). specialize (N2 b eq_refl). congruence.
Qed.

End Draws.

(** ** The loop over the inputs *)

Section Inputs.
Context `{BC : BuildConfig} `{VM : Vma} {VMS : VmaSpec} {VMU : VmaSucceeds} `{V : Vk} {VS : VkSpec} `{VO : !VkObjects} {VOS : VkObjectsSpec}.
Context {DS : DriverSucceeds} `{TG : Target} {I : Type} `{II : IRendererInput I}.
Implicit Types (ins : list I) (mem : memory) (F : fence_state) (d : device).

Lemma num_inputs_snoc acc ins i :
  num_inputs_of acc (ins ++ [i]) = num_inputs_of acc ins + if bool_decide (data_access i = acc) then 1 else 0.
Proof. unfold num_inputs_of. by rewrite foldl_app. Qed.

Lemma num_inputs_app acc ins ins' : num_inputs_of acc ins ≤ num_inputs_of acc (ins ++ ins').
Proof.
  induction ins' as [|i l IH] using rev_ind; [by rewrite app_nil_r|]. rewrite app_assoc, num_inputs_snoc. lia.
Qed.

Lemma num_inputs_any acc ins : 0 < num_inputs_of acc ins ↔ any acc ins = true.
Proof.
  induction ins as [|i l IH] using rev_ind; [split; [cbn; lia|done]|].
  rewrite num_inputs_snoc. unfold any in *. rewrite existsb_app, orb_true_iff, <- IH. cbn. rewrite orb_false_r.
  case_bool_decide; split; intros Hx; try lia; auto.
Qed.

(** The place in a staging buffer for [N] commands, after [n] of them. *)
Definition cursor mem (st : option Buffer) (p : option ptr) (n N : nat) : Prop :=
  match st with
  | None => p = None
  | Some b => ∃ blk bs, mem !! buffer b = Some (blk, bs) ∧ length bs = 20 * N ∧ p = Some (mkPtr blk (20 * n))
  end.

Lemma cursor_same mem mem' st p n N : (∀ k, names st k → mem' !! k = mem !! k) → cursor mem st p n N → cursor mem' st p n N.
Proof. intros H. destruct st as [b|]; [|done]. unfold cursor. rewrite H by (by exists b). done. Qed.

Lemma on_vheap_Ok {A} (f : heap → res (heap * A)) w h a : f (v_heap w) = Ok (h, a) →
  on_vheap f w = Ok (a, mkVkWorld h (v_vma w) (v_sync w) (v_cmds w)).
Proof. intros E. unfold on_vheap. by rewrite E. Qed.

Lemma runs_write_command mem F st p n N c : cursor mem st p n N → n < N →
  runs (mkDevice mem F) (write_command p c) (λ p' d', ∃ mem', d' = mkDevice mem' F ∧ cursor mem' st p' (S n) N ∧
    ∀ k, ¬ names st k → mem' !! k = mem !! k).
Proof.
  intros Hc Hn. unfold cursor in Hc. destruct st as [b|].
  2: { subst p. apply runs_ret. by exists mem. }
  destruct Hc as (blk & bs & Hm & Hl & ->). unfold write_command. eapply runs_bind.
  - apply (runs_stores _ _ _ (λ _ d', d' = mkDevice (<[buffer b := (blk, splice (20 * n) (VkRenderer.cmd_bytes c) bs)]> mem) F)).
    intros w [Hst _ _ _ _]. destruct (stores_store (buffer b) blk bs mem w (20 * n) (VkRenderer.cmd_bytes c) Hst Hm)
      as (h & E & Hst'); [rewrite length_cmd_bytes; unfold sizeof_VkDrawIndexedIndirectCommand; lia|].
    eexists _, _, _. split; [apply on_vheap_Ok; by rewrite E|]. split; [by apply Hst'|]. done.
  - intros _ d' ->. apply runs_ret. eexists. split; [done|]. split.
    + unfold cursor. rewrite lookup_insert_eq. eexists _, _. split; [done|]. split.
      * rewrite length_splice; [done|]. rewrite length_cmd_bytes. unfold sizeof_VkDrawIndexedIndirectCommand. lia.
      * unfold ptr_add. cbn. do 2 f_equal. unfold sizeof_VkDrawIndexedIndirectCommand. lia.
    + intros k Hk. rewrite lookup_insert_ne; [done|]. intros <-. apply Hk. by exists b.
Qed.

(** What the loop reads of an input: its own data, or the memory it has adopted. *)
Definition readable (vb ib : Z) mem (j : I) : Prop :=
  match data_access j with
  | StaticFixed => ∃ bs ixs, detached j bs ixs
  | DynamicFixed => ∃ b1 bs1 b2 bs2 n, get_vertex_bytes j = At (mkPtr b1 0) (length bs1) ∧ mem !! vb = Some (b1, bs1) ∧
      get_indices j = AtI (mkPtr b2 0) n ∧ mem !! ib = Some (b2, bs2) ∧ length bs2 = 4 * n
  end.

Lemma readable_reads vb ib mem F w j : represents (mkDevice mem F) w → readable vb ib mem j →
  ∃ bs ixs, span_read (v_heap w) (get_vertex_bytes j) = Ok bs ∧ ispan_read (v_heap w) (get_indices j) = Ok ixs ∧
    (data_access j = StaticFixed → bs = owned_bytes j ∧ ixs = owned_indices j ∧ index_count j = length ixs).
Proof.
  intros [[Hb _] _ _ _ _]. unfold readable. destruct (data_access j).
  - intros (bs & ixs & Hv & Hi). exists bs, ixs. unfold owned_bytes, owned_indices, index_count. by rewrite Hv, Hi.
  - intros (b1 & bs1 & b2 & bs2 & n & -> & (_ & _ & H1)%Hb & -> & (_ & _ & H2)%Hb & Hn).
    exists (slice 0 (length bs1) bs1), (bytes_u32s n (slice 0 (4 * n) bs2)). unfold span_read, ispan_read, load. cbn.
    rewrite H1, H2, Nat.leb_refl, (proj2 (Nat.leb_le _ _)) by lia. done.
Qed.

Lemma adopted_readable (vb ib : Buffer) mem i j : owns_data i → adopted_in vb ib mem i j →
  readable (buffer vb) (buffer ib) mem j.
Proof.
  intros (Hd & _) [(Ha & _) Hj]. unfold readable. rewrite Ha. destruct (data_access i).
  - by subst j.
  - destruct Hj as (b1 & b2 & Hv & Hm1 & Hi & Hm2). eexists b1, _, b2, _, _.
    rewrite Hv, Hi. split_and!; try done. by rewrite length_u32s_bytes.
Qed.

(** The state of the loop after the inputs [done_]. *)
Record scratched (st dst : option Buffer) Ns Nd mem0 (done_ : list I) (s : scratch) mem : Prop := mkScratched {
  sc_static : cursor mem st (cmd_ptr s) (num_inputs_of StaticFixed done_) Ns;
  sc_dynamic : cursor mem dst (dyn_cmd_ptr s) (num_inputs_of DynamicFixed done_) Nd;
  sc_others : ∀ k, ¬ names st k → ¬ names dst k → mem !! k = mem0 !! k;
  sc_vertices : VkProcessor.total_vertices s = all_data StaticFixed owned_bytes done_;
  sc_indices : VkProcessor.total_indices s = all_data StaticFixed owned_indices done_;
  sc_count : index_count_so_far s = u32 (Z.of_nat (length (all_data StaticFixed owned_indices done_))) }.

Lemma runs_scratch_input st dst Ns Nd mem0 done_ i s mem F vb ib :
  scratched st dst Ns Nd mem0 done_ s mem → (∀ k, names st k → ¬ names dst k) →
  (data_access i = StaticFixed → num_inputs_of StaticFixed done_ < Ns) →
  (data_access i = DynamicFixed → num_inputs_of DynamicFixed done_ < Nd) →
  readable vb ib mem i → binding_size (get_format i) ≠ 0 →
  runs (mkDevice mem F) (scratch_input i s) (λ s' d', ∃ mem', d' = mkDevice mem' F ∧
    scratched st dst Ns Nd mem0 (done_ ++ [i]) s' mem').
Proof.
  intros [Cs Cd Ho Hv Hi Hc] Hdis Hs Hd Hr Hb. unfold scratch_input. apply runs_gets. intros w Hw.
  destruct (readable_reads vb ib mem F w i Hw Hr) as (bs & ixs & Ev & Ei & Hown).
  eapply runs_lift_bind; [exact Ev|]. eapply runs_lift_bind; [exact Ei|].
  eapply runs_lift_bind; [unfold vertex_count; by rewrite (proj2 (Nat.eqb_neq _ _) Hb)|].
  destruct (data_access i) eqn:Ea.
  - destruct (Hown eq_refl) as (-> & -> & Hn). eapply runs_bind; [by eapply runs_write_command; [exact Cs|apply Hs]|].
    intros p d' (mem' & -> & Cs' & Hk). apply runs_ret. exists mem'. split; [done|].
    split; cbn; rewrite ?num_inputs_snoc, ?all_data_snoc, ?Ea.
    + by rewrite bool_decide_true, Nat.add_1_r.
    + rewrite bool_decide_false, Nat.add_0_r by done. eapply cursor_same, Cd. intros k Hkk. apply Hk. intros Hst. by apply (Hdis k).
    + intros k ??. rewrite Hk by done. by apply Ho.
    + by rewrite Hv, data_of_same.
    + by rewrite Hi, data_of_same.
    + rewrite Hc, Hn, data_of_same by done. rewrite length_app, u32_add_l. f_equal. lia.
  - eapply runs_bind; [by eapply runs_write_command; [exact Cd|apply Hd]|].
    intros p d' (mem' & -> & Cd' & Hk). apply runs_ret. exists mem'. split; [done|].
    split; cbn; rewrite ?num_inputs_snoc, ?all_data_snoc, ?Ea.
    + rewrite bool_decide_false, Nat.add_0_r by done. eapply cursor_same, Cs. intros k Hkk. apply Hk. by apply Hdis.
    + by rewrite bool_decide_true, Nat.add_1_r.
    + intros k ??. rewrite Hk by done. by apply Ho.
    + by rewrite Hv, data_of_other, app_nil_r by congruence.
    + by rewrite Hi, data_of_other, app_nil_r by congruence.
    + by rewrite Hc, data_of_other, app_nil_r by congruence.
Qed.

(** The staging buffer of a class, mapped. *)
Lemma runs_staging n mem F :
  runs (mkDevice mem F) (draw_staging n) (λ st d', ∃ mem', d' = mkDevice mem' F ∧ mem ⊆ mem' ∧
    ∀ b, st = Some b → mem !! buffer b = None ∧ persistent_mapped_ptr b = None ∧
      ∃ blk bs, mem' !! buffer b = Some (blk, bs) ∧ host_visible blk = true ∧ length bs = 20 * n).
Proof.
  unfold draw_staging. destruct (Nat.ltb_spec 0 n) as [Hn|Hn].
  - eapply runs_bind; [eapply (runs_new Staging TransferSource); [|by instantiate (1 := 1%Z)|unfold sizeof_VkDrawIndexedIndirectCommand; lia]|].
    { cbn. by rewrite tz_assert_true. }
    intros b d' (blk & bs & -> & Hnone & Hl & _ & Hp & Hv). apply runs_ret. eexists. split; [done|].
    split; [by apply insert_subseteq|]. intros b' [= <-]. split; [done|]. split; [done|]. exists blk, bs. rewrite lookup_insert_eq. split; [done|]. split; [by apply Hv|done].
  - apply runs_ret. by exists mem.
Qed.

Lemma runs_map_staging st n mem F :
  (∀ b, st = Some b → persistent_mapped_ptr b = None ∧ ∃ blk bs, mem !! buffer b = Some (blk, bs) ∧ host_visible blk = true ∧ length bs = 20 * n) →
  runs (mkDevice mem F) (map_staging st) (λ p d', d' = mkDevice mem F ∧ cursor mem st p 0 n).
Proof.
  intros H. destruct st as [b|]; [|by apply runs_ret]. destruct (H b eq_refl) as (Hp & blk & bs & Hm & Hv & Hl). cbn.
  eapply runs_bind; [by eapply runs_map|]. intros p d' [-> ->]. apply runs_ret. split; [done|]. by exists blk, bs.
Qed.

Lemma runs_unmap_staging st p n N mem F : cursor mem st p n N →
  runs (mkDevice mem F) (unmap_staging st) (λ _ d', d' = mkDevice mem F).
Proof.
  intros H. destruct st as [b|]; [|by apply runs_ret]. destruct H as (blk & bs & Hm & _). by apply runs_unmap; eexists.
Qed.

End Inputs.

(** ** Copies of the static geometry *)

Section Scratch.
Context `{BC : BuildConfig} `{VM : Vma} {VMS : VmaSpec} {VMU : VmaSucceeds} `{V : Vk} {VS : VkSpec} `{VO : !VkObjects} {VOS : VkObjectsSpec}.
Context {DS : DriverSucceeds} `{TG : Target} {I : Type} `{II : IRendererInput I} {LI : RendererInputLaws I} {R : Type} `{IR : IResource R} {LR : ResourceLaws R}.
Implicit Types (ins : list I) (mem : memory) (F : fence_state) (d : device).

(** The names of the static geometry buffers. *)
Definition static_name ins (bm : BufferManager) (k : Z) : Prop :=
  any StaticFixed ins = true ∧ (k = buffer (vertex_buffer bm) ∨ k = buffer (index_buffer bm)).

Lemma runs_static_copies ins bm pool fence (s : scratch) mem F :
  (any StaticFixed ins = true → static_room ins (vertex_buffer bm) (index_buffer bm) mem) → Forall owns_data ins →
  (Z.of_nat (length (all_data StaticFixed owned_indices ins)) < modulus32)%Z → fence ∈ F → idle_pool pool →
  VkProcessor.total_vertices s = all_data StaticFixed owned_bytes ins →
  VkProcessor.total_indices s = all_data StaticFixed owned_indices ins →
  index_count_so_far s = u32 (Z.of_nat (length (all_data StaticFixed owned_indices ins))) →
  runs (mkDevice mem F)
    (if (0 <? index_count_so_far s)%Z then
       pool ← staged_copy true pool fence (VkProcessor.total_vertices s) (vertex_buffer bm);
       _ ← CommandBuffer_reset pool get_view_count;
       pool ← staged_copy false pool fence (u32s_bytes (VkProcessor.total_indices s)) (index_buffer bm);
       _ ← CommandBuffer_reset pool get_view_count;
       mret pool
     else mret pool)
    (λ pool' d', ∃ mem', pool' = pool ∧ d' = mkDevice mem' F ∧
       (any StaticFixed ins = true → geometry_in StaticFixed ins (vertex_buffer bm) (index_buffer bm) mem') ∧
       ∀ k, ¬ static_name ins bm k → mem' !! k = mem !! k).
Proof.
  intros Hroom Ho Hb Hf Hp Hv Hi Hc. rewrite Hc, u32_small by lia. rewrite Forall_forall in Ho.
  destruct (any StaticFixed ins) eqn:Ha.
  2: { assert (Hnil : all_data StaticFixed owned_indices ins = []).
       { unfold all_data, any in *. clear -Ha. induction ins as [|i l IH]; [done|]. cbn in *.
         apply orb_false_iff in Ha as [Hi Hl]. rewrite data_of_other; [by apply IH|]. by apply bool_decide_eq_false in Hi. }
       rewrite Hnil. cbn. apply runs_ret. exists mem. by split_and!. }
  destruct (Hroom eq_refl) as (Tv & Ti & Hne & (b1 & o1 & M1 & L1) & b2 & o2 & M2 & L2).
  assert (Hpos : ∀ g : I → list Z, (∀ i, i ∈ ins → g i ≠ []) → 0 < length (all_data StaticFixed g ins)).
  { intros g Hg. apply any_length; [|done]. intros i Hin _. by apply Hg. }
  assert (Hlv : 0 < length (all_data StaticFixed owned_bytes ins)) by (apply Hpos; intros; by apply Ho).
  assert (Hli : 0 < length (all_data StaticFixed owned_indices ins)) by (apply Hpos; intros; by apply Ho).
  rewrite (proj2 (Z.ltb_lt _ _)) by lia. rewrite Hv, Hi. destruct (idle_pool_at _ get_view_count Hp) as [c Hpc]; [done|].
  eapply runs_bind; [eapply (runs_copy _ _ c); [done|done|exact M1| |done]|].
  { by destruct (all_data StaticFixed owned_bytes ins); [cbn in Hlv; lia|]. }
  intros pool' d' [-> ->]. eapply runs_bind; [by eapply runs_buffer_reset|]. intros _ d' ->.
  eapply runs_bind; [eapply (runs_copy _ _ c); [done|done|by rewrite lookup_insert_ne| |by rewrite length_u32s_bytes]|].
  { intros Hnil. apply (f_equal length) in Hnil. rewrite length_u32s_bytes in Hnil. cbn in Hnil. lia. }
  intros pool' d' [-> ->]. eapply runs_bind; [by eapply runs_buffer_reset|]. intros _ d' ->. apply runs_ret.
  eexists. split; [done|]. split; [done|]. split.
  - intros _. unfold geometry_in. split; [done|]. split; [done|].
    rewrite lookup_insert_eq, lookup_insert_ne, lookup_insert_eq by done. eauto.
  - intros k Hk. rewrite !lookup_insert_ne; [done|..]; intros <-; apply Hk; split; auto.
Qed.

(** ** Adopted inputs count and weigh what the originals do *)

Lemma adopted_shape vb ib mem ins ins' : Forall2 (adopted_in vb ib mem) ins ins' → Forall2 same_shape ins ins'.
Proof. intros H. eapply Forall2_impl; [exact H|]. by intros i j []. Qed.

Lemma adopted_static_data vb ib mem ins ins' (g : I → list Z) : Forall2 (adopted_in vb ib mem) ins ins' →
  all_data StaticFixed g ins' = all_data StaticFixed g ins.
Proof.
  intros HF. unfold all_data. induction HF as [|i j l l' [(Ha & _) Hj] _ IH]; [done|]. cbn. rewrite IH. f_equal.
  unfold data_of. rewrite Ha. case_bool_decide as Hs; [|done]. rewrite Hs in Hj. by subst.
Qed.

Lemma same_shape_num acc ins ins' : Forall2 same_shape ins ins' → num_inputs_of acc ins' = num_inputs_of acc ins.
Proof.
  intros HF. unfold num_inputs_of. set (f := λ (n : nat) (i : I), _).
  cut (∀ n, foldl f n ins' = foldl f n ins); [auto|].
  induction HF as [|i j l l' (Ha & _) _ IH]; [done|]. intros n. cbn. unfold f at 2 4. by rewrite Ha, IH.
Qed.

(** *** The whole of [scratch_inputs] *)

Lemma readable_grows vb ib mem mem' (j : I) : (∀ k x, mem !! k = Some x → mem' !! k = Some x) →
  readable vb ib mem j → readable vb ib mem' j.
Proof.
  intros Hk. unfold readable. destruct (data_access j); [done|].
  intros (b1 & bs1 & b2 & bs2 & n & ? & H1 & ? & H2 & ?). exists b1, bs1, b2, bs2, n. auto 10.
Qed.

(** The loop that fills the staging buffers of the commands; [mem0] is the
    memory before these were made. *)
Lemma runs_scratch_loop st dst ins cmd dyn mem0 mem F vb ib :
  (∀ j, j ∈ ins → readable vb ib mem0 j ∧ binding_size (get_format j) ≠ 0) → (∀ k, names st k → ¬ names dst k) →
  mem0 ⊆ mem → (∀ k, is_Some (mem0 !! k) → ¬ names st k ∧ ¬ names dst k) →
  cursor mem st cmd 0 (num_inputs_of StaticFixed ins) → cursor mem dst dyn 0 (num_inputs_of DynamicFixed ins) →
  runs (mkDevice mem F) (st_fold scratch_input ins (mkScratch [] [] 0 0 0 0 cmd dyn)) (λ s d', ∃ mem', d' = mkDevice mem' F ∧
    scratched st dst (num_inputs_of StaticFixed ins) (num_inputs_of DynamicFixed ins) mem ins s mem').
Proof.
  intros Hr Hdis Hg Hap Cs Cd.
  apply (runs_fold (λ done_ s d, ∃ mem', d = mkDevice mem' F ∧
    scratched st dst (num_inputs_of StaticFixed ins) (num_inputs_of DynamicFixed ins) mem done_ s mem')).
  { exists mem. split; [done|]. by split. }
  intros done_ i rest s d Hl (mem' & -> & Hsc). destruct (Hr i) as [Hri Hb]; [rewrite Hl; set_solver|].
  assert (Hn : ∀ acc, data_access i = acc → num_inputs_of acc done_ < num_inputs_of acc ins).
  { intros acc Ha. rewrite Hl, cons_middle, app_assoc. eapply Nat.lt_le_trans; [|apply num_inputs_app].
    rewrite num_inputs_snoc, bool_decide_true by done. lia. }
  eapply (runs_scratch_input _ _ _ _ _ _ _ _ _ _ vb ib); [exact Hsc|done|by apply Hn|by apply Hn| |done].
  eapply readable_grows, Hri. intros k x Hk. destruct (Hap k) as [??]; [by exists x|].
  rewrite (sc_others _ _ _ _ _ _ _ _ Hsc) by done. by eapply lookup_weaken.
Qed.

(** What the device holds when the inputs are loaded. *)
Record loaded ins (bm : BufferManager) (p p' : Processor) mem mem' : Prop := mkLoaded {
  lo_pool : command_pool p' = command_pool p;
  lo_descriptors : resource_descriptor_pool p' = resource_descriptor_pool p;
  lo_cache : draw_cache p' = all_inputs_once ins;
  lo_admin : frame_admin p' = frame_admin p;
  lo_static : commands_in mem' (draw_indirect_buffer p') (draw_bytes StaticFixed ins (all_inputs_once ins));
  lo_dynamic : commands_in mem' (draw_indirect_dynamic_buffer p') (draw_bytes DynamicFixed ins (all_inputs_once ins));
  lo_any_static : is_Some (draw_indirect_buffer p') ↔ draws_of StaticFixed ins (all_inputs_once ins) ≠ [];
  lo_any_dynamic : is_Some (draw_indirect_dynamic_buffer p') ↔ draws_of DynamicFixed ins (all_inputs_once ins) ≠ [];
  lo_geometry : any StaticFixed ins = true → geometry_in StaticFixed ins (vertex_buffer bm) (index_buffer bm) mem';
  lo_grows : grows (λ k, static_name ins bm k ∨ names (draw_indirect_buffer p) k ∨
                         names (draw_indirect_dynamic_buffer p) k) mem mem';
  lo_fresh : ∀ k, is_Some (mem !! k) → ¬ names (draw_indirect_buffer p) k → ¬ names (draw_indirect_dynamic_buffer p) k →
    ¬ names (draw_indirect_buffer p') k ∧ ¬ names (draw_indirect_dynamic_buffer p') k;
  lo_distinct : ∀ b, draw_indirect_dynamic_buffer p' = Some b → ¬ names (draw_indirect_buffer p') (buffer b) }.

(** The staging buffers after the loop. *)
Record filled ins (st dst : option Buffer) (s : scratch) mem mem' : Prop := mkFilled {
  fl_grows : mem ⊆ mem';
  fl_fresh : ∀ k, is_Some (mem !! k) → ¬ names st k ∧ ¬ names dst k;
  fl_live : ∀ k, names st k ∨ names dst k → is_Some (mem' !! k);
  fl_vertices : VkProcessor.total_vertices s = all_data StaticFixed owned_bytes ins;
  fl_indices : VkProcessor.total_indices s = all_data StaticFixed owned_indices ins;
  fl_count : index_count_so_far s = u32 (Z.of_nat (length (all_data StaticFixed owned_indices ins))) }.

Lemma scratched_filled st dst Ns Nd mem m2 ins s mem' : mem ⊆ m2 →
  (∀ k, is_Some (mem !! k) → ¬ names st k ∧ ¬ names dst k) → scratched st dst Ns Nd m2 ins s mem' →
  filled ins st dst s mem mem'.
Proof.
  intros Hsub Hfr [Cs Cd Ho Hv Hi Hc]. split; try done.
  - apply map_subseteq_spec. intros k x Hk. destruct (Hfr k) as [??]; [by exists x|]. rewrite Ho by done.
    by eapply lookup_weaken.
  - intros k [(b & -> & ->)|(b & -> & ->)]; [destruct Cs as (? & ? & Hm & _)|destruct Cd as (? & ? & Hm & _)]; by eexists.
Qed.

(** The first half of [scratch_inputs], whatever follows it. *)
Lemma runs_scratch_staging {B} (k : option Buffer → option Buffer → scratch → ST vkworld B) Q ins mem F vb ib :
  (∀ j, j ∈ ins → readable vb ib mem j ∧ binding_size (get_format j) ≠ 0) →
  (∀ st dst s mem', filled ins st dst s mem mem' → runs (mkDevice mem' F) (k st dst s) Q) →
  runs (mkDevice mem F)
    (static ← draw_staging (num_inputs_of StaticFixed ins);
     dynamic ← draw_staging (num_inputs_of DynamicFixed ins);
     cmd ← map_staging static;
     dyn_cmd ← map_staging dynamic;
     s ← st_fold scratch_input ins (mkScratch [] [] 0 0 0 0 cmd dyn_cmd);
     _ ← unmap_staging static;
     _ ← unmap_staging dynamic;
     k static dynamic s) Q.
Proof.
  intros Hr Hk.
  eapply runs_bind; [apply runs_staging|]. intros st d' (m1 & -> & Hs1 & Hst).
  eapply runs_bind; [apply runs_staging|]. intros dst d' (m2 & -> & Hs2 & Hdst).
  assert (Hsub : mem ⊆ m2) by (by transitivity m1).
  assert (Hdis : ∀ k, names st k → ¬ names dst k).
  { intros x (b & -> & ->) (b' & -> & Heq). destruct (Hst b eq_refl) as (_ & _ & blk & bs & Hm & _).
    destruct (Hdst b' eq_refl) as (Hn & _). congruence. }
  assert (Hfresh : ∀ k, is_Some (mem !! k) → ¬ names st k ∧ ¬ names dst k).
  { intros x [y Hx]. split; intros (b & Hb' & ->).
    - destruct (Hst b Hb') as (Hn & _). congruence.
    - destruct (Hdst b Hb') as (Hn & _). eapply lookup_weaken in Hx; [|exact Hs1]. congruence. }
  eapply runs_bind; [apply (runs_map_staging _ (num_inputs_of StaticFixed ins))|].
  { intros b Hb'. destruct (Hst b Hb') as (_ & ? & blk & bs & Hm & ?). split; [done|]. exists blk, bs. split; [|done].
    by eapply lookup_weaken. }
  intros cmd d' [-> Cs]. eapply runs_bind; [apply (runs_map_staging _ (num_inputs_of DynamicFixed ins))|].
  { intros b Hb'. by destruct (Hdst b Hb') as (_ & ?). }
  intros dyn d' [-> Cd]. eapply runs_bind; [by apply (runs_scratch_loop st dst ins cmd dyn mem m2 F vb ib)|].
  intros s d' (m3 & -> & Hsc). eapply runs_bind; [eapply runs_unmap_staging, (sc_static _ _ _ _ _ _ _ _ Hsc)|].
  intros _ d' ->. eapply runs_bind; [eapply runs_unmap_staging, (sc_dynamic _ _ _ _ _ _ _ _ Hsc)|]. intros _ d' ->.
  apply Hk. by eapply scratched_filled.
Qed.

Lemma without_other st mem k : ¬ names st k → without st mem !! k = mem !! k.
Proof. intros H. destruct st as [b|]; [|done]. cbn. rewrite lookup_delete_ne; [done|]. intros <-. apply H. by exists b. Qed.

Lemma commands_in_same mem mem' member bs : (∀ k, names member k → mem' !! k = mem !! k) →
  commands_in mem member bs → commands_in mem' member bs.
Proof. intros H. destruct member as [b|]; [|done]. unfold commands_in. by rewrite H by (by exists b). Qed.

(** Everything after the staging buffers are gone. *)
Lemma recorded_loaded ins ins' bm p p' st dst s mem m3 m4 m5 :
  Forall2 same_shape ins ins' →
  (any StaticFixed ins = true → static_room ins (vertex_buffer bm) (index_buffer bm) mem) → members_live p mem →
  (∀ k, static_name ins bm k → ¬ names (draw_indirect_buffer p) k ∧ ¬ names (draw_indirect_dynamic_buffer p) k) →
  filled ins' st dst s mem m3 →
  (any StaticFixed ins = true → geometry_in StaticFixed ins (vertex_buffer bm) (index_buffer bm) m4) →
  (∀ k, ¬ static_name ins bm k → m4 !! k = m3 !! k) → recorded ins' (all_inputs_once ins') p p' m4 m5 →
  loaded ins bm p p' mem (without st (without dst m5)).
Proof.
  intros HS Hroom [Ls Ld] Hap [Hg Hfr Hlive _ _ _] Hgeo H4 [Rp Rd Rc Ra Rs Rdy As Ad Rg Rf Rdis].
  assert (Hlen : all_inputs_once ins' = all_inputs_once ins) by (unfold all_inputs_once; by rewrite (Forall2_length _ _ _ HS)).
  unfold draw_bytes in *. rewrite Hlen in *. rewrite !(draws_of_same_shape _ ins ins' _ HS) in *.
  assert (Hstat : ∀ k, static_name ins bm k → is_Some (mem !! k)).
  { intros k [Ha Hk]. destruct (Hroom Ha) as (_ & _ & _ & (? & ? & ? & _) & ? & ? & ? & _). destruct Hk as [-> | ->]; by eexists. }
  assert (Hw : ∀ k, ¬ names st k → ¬ names dst k → without st (without dst m5) !! k = m5 !! k).
  { intros k ??. by rewrite !without_other. }
  assert (Hstaging : ∀ k, names st k ∨ names dst k → ¬ names (draw_indirect_buffer p') k ∧ ¬ names (draw_indirect_dynamic_buffer p') k).
  { intros k Hk. assert (Hm : mem !! k = None).
    { destruct (mem !! k) as [x|] eqn:E; [|done]. destruct (Hfr k) as [??]; [by exists x|]. tauto. }
    apply Rf.
    - rewrite H4; [by apply Hlive|]. intros [x Hx]%Hstat. congruence.
    - intros (b & Hb & ->). destruct (Ls b Hb) as [x Hx]. congruence.
    - intros (b & Hb & ->). destruct (Ld b Hb) as [[x Hx] _]. congruence. }
  split; try done.
  - eapply commands_in_same, Rs. intros k Hk. apply Hw; intros Hn; destruct (Hstaging k); auto.
  - eapply commands_in_same, Rdy. intros k Hk. apply Hw; intros Hn; destruct (Hstaging k); auto.
  - intros Ha. eapply geometry_in_grows, (Hgeo Ha). intros k x Hk Hx. assert (Hn : static_name ins bm k) by done.
    destruct (Hfr k) as [??]; [by apply Hstat|]. rewrite Hw by done. apply Rg; [|done]. destruct (Hap k Hn). tauto.
  - intros k x Hk Hx. destruct (Hfr k) as [??]; [by exists x|]. rewrite Hw by done. apply Rg; [tauto|].
    rewrite H4 by tauto. by eapply lookup_weaken.
  - intros k [x Hx] Hns Hnd. apply Rf; [|done|done]. destruct (any StaticFixed ins) eqn:Ha.
    + destruct (decide (k = buffer (vertex_buffer bm) ∨ k = buffer (index_buffer bm))) as [Hk|Hk].
      * destruct (Hgeo eq_refl) as (_ & _ & [b1 M1] & b2 & M2). destruct Hk as [-> | ->]; by eexists.
      * exists x. rewrite H4 by (by intros [_ ?]). by eapply lookup_weaken.
    + exists x. rewrite H4; [by eapply lookup_weaken|]. intros [Hc _]. congruence.
Qed.

(** What the loading of the inputs starts from. *)
Record loadable ins ins' (bm : BufferManager) (p : Processor) mem : Prop := mkLoadable {
  ld_owns : Forall owns_data ins;
  ld_adopted : Forall2 (adopted_in (dynamic_vertex_buffer bm) (dynamic_index_buffer bm) mem) ins ins';
  ld_binding : ∀ j, j ∈ ins' → binding_size (get_format j) ≠ 0;
  ld_some : ins ≠ [];
  ld_room : any StaticFixed ins = true → static_room ins (vertex_buffer bm) (index_buffer bm) mem;
  ld_fits : (Z.of_nat (length (all_data StaticFixed owned_indices ins)) < modulus32)%Z;
  ld_pool : idle_pool (command_pool p);
  ld_cache : draw_cache p = [];
  ld_live : members_live p mem;
  ld_apart : ∀ k, static_name ins bm k → ¬ names (draw_indirect_buffer p) k ∧ ¬ names (draw_indirect_dynamic_buffer p) k }.

Lemma runs_scratch_inputs ins ins' bm p mem F fence : loadable ins ins' bm p mem → fence ∈ F →
  runs (mkDevice mem F) (scratch_inputs bm ins' fence p) (λ p' d', ∃ mem', d' = mkDevice mem' F ∧ loaded ins bm p p' mem mem').
Proof.
  intros [Ho HA Hb Hne Hroom Hlen Hp Hcache Hlive Hap] Hf. unfold scratch_inputs.
  apply (runs_scratch_staging _ _ _ _ _ (buffer (dynamic_vertex_buffer bm)) (buffer (dynamic_index_buffer bm))).
  { intros j Hj. split; [|by apply Hb]. apply list_elem_of_lookup in Hj as [k Hk].
    destruct (Forall2_lookup_r _ _ _ _ _ HA Hk) as (i & Hi & Had). eapply adopted_readable; [|exact Had].
    rewrite Forall_lookup in Ho. by apply (Ho k). }
  intros st dst s m3 Hfl. pose proof Hfl as [Hg Hfr _ Hv Hi Hc]. 
  rewrite (adopted_static_data _ _ _ _ _ owned_bytes HA) in Hv. rewrite (adopted_static_data _ _ _ _ _ owned_indices HA) in Hi, Hc.
  eapply runs_bind; [apply (runs_static_copies ins); try done|].
  { intros Ha. eapply static_room_grows; [exact Hg|]. by apply Hroom. }
  intros pool d' (m4 & -> & -> & Hgeo & H4).
  assert (set_pool p (command_pool p) = p) as -> by (by destruct p).
  assert (Hkeep : ∀ k, names (draw_indirect_buffer p) k ∨ names (draw_indirect_dynamic_buffer p) k →
    is_Some (mem !! k) → is_Some (m4 !! k)).
  { intros k Hk [x Hx]. rewrite H4; [exists x; by eapply lookup_weaken|]. intros Hn. destruct (Hap k Hn). tauto. }
  eapply runs_bind; [apply runs_record_draw_list; try done|].
  - apply Forall_forall. intros k Hk%elem_of_seq. lia.
  - rewrite Hcache. unfold all_inputs_once. pose proof (Forall2_length _ _ _ HA). destruct ins, ins'; done.
  - destruct Hlive as [Ls Ld]. split.
    + intros b Hbb. apply Hkeep; [left; by exists b|]. by apply Ls.
    + intros b Hbb. destruct (Ld b Hbb). split; [|done]. apply Hkeep; [right; by exists b|done].
  - intros p' d' (m5 & -> & Hre). eapply runs_bind; [apply runs_reset|]. intros _ d' [_ ->].
    eapply runs_bind; [apply runs_reset|]. intros _ d' [_ ->]. apply runs_ret. eexists. split; [done|].
    eapply recorded_loaded; try done. by eapply adopted_shape.
Qed.

(** The buffers of the resources are not those of the inputs. *)
Lemma uniform_apart ins bm p n rs rs' m0 mem k : uniforms_ready n rs (buffer_components bm) rs' m0 mem →
  (∀ k, static_name ins bm k ∨ names (draw_indirect_buffer p) k ∨ names (draw_indirect_dynamic_buffer p) k → is_Some (m0 !! k)) →
  uniform_name (buffer_components bm) k →
  is_Some (mem !! k) ∧ ¬ (static_name ins bm k ∨ names (draw_indirect_buffer p) k ∨ names (draw_indirect_dynamic_buffer p) k).
Proof.
  intros Hu Hold (j & b & i & Hj & ->).
  destruct (ur_component _ _ _ _ _ _ Hu _ _ _ Hj) as (_ & r & r' & _ & _ & _ & Hn & _ & _ & blk & old & Hm & _).
  split; [by eexists|]. intros [x Hx]%Hold. congruence.
Qed.

(** The whole of [record_and_run_scratch_commands]. *)
Lemma runs_scratch_commands ins ins' bm im p mem F n rs rs' m0 ks : loadable ins ins' bm p mem →
  uniforms_ready n rs (buffer_components bm) rs' m0 mem → Forall resource_owned (take n rs) →
  (∀ k, static_name ins bm k ∨ names (draw_indirect_buffer p) k ∨ names (draw_indirect_dynamic_buffer p) k → is_Some (m0 !! k)) →
  textures_ok rs' ks (texture_components im) → (∀ k, k ∈ ks → ∃ r, rs' !! k = Some r ∧ texture_data_ok r) →
  runs (mkDevice mem F) (record_and_run_scratch_commands bm im ins' rs' p) (λ p' d', ∃ m5 m6, d' = mkDevice m6 F ∧
    loaded ins bm p p' mem m5 ∧ uniforms_in rs (buffer_components bm) m6 ∧
    ∀ k, ¬ uniform_name (buffer_components bm) k → m6 !! k = m5 !! k).
Proof.
  intros Hl Hu Ho Hold Ht Hd. unfold record_and_run_scratch_commands.
  eapply runs_bind; [apply runs_fence_new|]. intros f d' [Hf ->].
  eapply runs_bind; [apply runs_fence_signal, elem_of_add_fence|]. intros _ d' ->.
  destruct (idle_pool_at _ get_view_count (ld_pool _ _ _ _ _ Hl)) as [c Hc]; [done|].
  eapply runs_lift_bind; [unfold CommandPool_at; by apply at_index_Some|].
  eapply runs_bind; [eapply runs_scratch_inputs; [exact Hl|auto with topaz]|]. intros p' d' (m5 & -> & Hlo).
  assert (Hp' : idle_pool (command_pool p')) by (rewrite (lo_pool _ _ _ _ _ _ Hlo); apply (ld_pool _ _ _ _ _ Hl)).
  eapply runs_bind; [eapply (runs_upload_buffers _ _ _ _ _ _ _ _ _ _ Hu); [done| |done|auto with topaz]|].
  { intros k Hk. destruct (uniform_apart ins bm p _ _ _ _ _ _ Hu Hold Hk) as [[x Hx] Hn].
    rewrite Hx. by apply (lo_grows _ _ _ _ _ _ Hlo). }
  intros pool d' (m6 & -> & -> & Hin & Hk).
  eapply runs_bind; [eapply runs_upload_textures; [exact Ht|done|auto with topaz|done]|]. intros pool d' [-> ->].
  eapply runs_bind; [by apply runs_fence_destroy|]. intros _ d' ->. apply runs_ret.
  exists m5, m6. split; [done|]. assert (set_pool p' (command_pool p') = p') as -> by (by destruct p'). done.
Qed.

End Scratch.
