(* ===== verification/VkDrawing.v ===== *)
(** * The Vulkan renderer: what a constructed renderer draws

    The constructor and a change of the clear colour on an idle device whose
    calls succeed, end to end: the commands recorded for every view are
    interpreted against the contents of the buffers they name. *)

From S2P Require Import Prelude Containers Memory RenderTypes Inputs OpenGL OGLRenderer OGLRendererFacts OGLConstruct OGLProperties VkFrame VkCommand VkRenderer VkDriver VkProcessor Backends VkRendererFacts VkProperties VkResources VkDraws VkMemory VkGeometry VkRuns VkConstruct VkUniforms VkScratch.

(** ** Construction *)

Section Construct.
Context `{BC : BuildConfig} `{VM : Vma} {VMS : VmaSpec} {VMU : VmaSucceeds} `{V : Vk} {VS : VkSpec} `{VO : !VkObjects} {VOS : VkObjectsSpec}.
Context {DS : DriverSucceeds} `{TG : Target} {I : Type} `{II : IRendererInput I} {LI : RendererInputLaws I} {R : Type} `{IR : IResource R} {LR : ResourceLaws R}.
Implicit Types (ins : list I) (mem : memory) (F : fence_state) (d : device).

(** The buffers of a class. *)
Definition vertex_of acc (bm : BufferManager) : Buffer :=
  match acc with StaticFixed => vertex_buffer bm | DynamicFixed => dynamic_vertex_buffer bm end.
Definition index_of acc (bm : BufferManager) : Buffer :=
  match acc with StaticFixed => index_buffer bm | DynamicFixed => dynamic_index_buffer bm end.
Definition indirect_of acc (p : Processor) : option Buffer :=
  match acc with StaticFixed => draw_indirect_buffer p | DynamicFixed => draw_indirect_dynamic_buffer p end.

(** What a builder must provide: a shader and well-formed inputs of one stride,
    none of them empty, at most one of them dynamic, whose data has sizes of
    31 bits (a second dynamic input faults, see [VkUpload]); buffer resources
    with some data, and static textures with the texels their sizes ask for. *)
Record vk_builder_ok (stride : nat) (b : RendererBuilderVulkan I R) : Prop := mkVkBuilderOk {
  vo_shader : is_Some (b_shader b);
  vo_stride : stride ≠ 0;
  vo_some : b_inputs b ≠ [];
  vo_inputs : Forall (input_data_ok stride) (b_inputs b);
  vo_data : Forall (λ i, owned_bytes i ≠ [] ∧ owned_indices i ≠ []) (b_inputs b);
  vo_dynamic : one_dynamic (b_inputs b);
  vo_buffers : Forall (λ r, get_type r = BufferType_ ∧ resource_owned r) (b_buffer_resources b);
  vo_textures : Forall (λ r, get_type r = TextureType_ ∧ texture_data_ok r) (b_texture_resources b);
  vo_descriptors :
    (Z.of_nat (get_view_count * (length (b_buffer_resources b) + length (b_texture_resources b))) < modulus32)%Z;
  vo_vertices : ∀ acc, (Z.of_nat (length (all_data acc owned_bytes (b_inputs b))) < 2147483648)%Z;
  vo_indices : ∀ acc, (Z.of_nat (4 * length (all_data acc owned_indices (b_inputs b))) < 2147483648)%Z }.

(** The resources of the renderer as they are copied: buffers, then textures. *)
Definition resources_of (b : RendererBuilderVulkan I R) : list R :=
  map clone_resource (b_buffer_resources b) ++ map clone_resource (b_texture_resources b).

(** The buffers whose contents the views read: geometry and uniform buffers. *)
Definition read_name ins (bm : BufferManager) (k : Z) : Prop :=
  (∃ acc, any acc ins = true ∧ (k = buffer (vertex_of acc bm) ∨ k = buffer (index_of acc bm))) ∨
  uniform_name (buffer_components bm) k.

(** A renderer [r] made from the copies [ins] of the inputs, with the current
    draw list [draws]. *)
Record vk_constructed (b : RendererBuilderVulkan I R) ins draws (r : RendererVulkan I R) mem : Prop := mkVkConstructed {
  vc_copies : Forall2 same_data (b_inputs b) ins;
  vc_shapes : Forall2 same_shape ins (renderer_inputs r);
  vc_framebuffers : length (swapchain_framebuffers (image_manager r)) = get_view_count;
  vc_descriptors : sets_ok (processor r);
  vc_pool : idle_pool (command_pool (processor r));
  vc_cache : draw_cache (processor r) = draws;
  vc_range : Forall (λ k, k < length ins) draws;
  vc_short : ∀ acc, (Z.of_nat (length (draws_of acc ins draws)) < modulus32)%Z;
  vc_commands : ∀ acc, commands_in mem (indirect_of acc (processor r)) (draw_bytes acc ins draws);
  vc_any : ∀ acc, is_Some (indirect_of acc (processor r)) ↔ draws_of acc ins draws ≠ [];
  vc_distinct : ∀ x, draw_indirect_dynamic_buffer (processor r) = Some x → ¬ names (draw_indirect_buffer (processor r)) (buffer x);
  vc_apart : ∀ acc k, read_name ins (buffer_manager r) k → ¬ names (indirect_of acc (processor r)) k;
  vc_geometry : ∀ acc, any acc ins = true →
    geometry_in acc ins (vertex_of acc (buffer_manager r)) (index_of acc (buffer_manager r)) mem;
  vc_uniforms : uniforms_in (resources_of b) (buffer_components (buffer_manager r)) mem;
  vc_components : length (buffer_components (buffer_manager r)) = length (b_buffer_resources b);
  vc_positions : ∀ k x i, buffer_components (buffer_manager r) !! k = Some (x, i) → i = k }.

(** The copies are as well formed as the inputs of the builder. *)
Lemma copies_ok stride b ins : vk_builder_ok stride b → Forall2 same_data (b_inputs b) ins →
  Forall (input_data_ok stride) ins ∧ Forall owns_data ins ∧ one_dynamic ins ∧ ins ≠ [] ∧
  (∀ acc, all_data acc owned_bytes ins = all_data acc owned_bytes (b_inputs b)) ∧
  ∀ acc, all_data acc owned_indices ins = all_data acc owned_indices (b_inputs b).
Proof.
  intros [_ _ Hne Hok Hd H1 _ _ _ _ _] HF. pose proof (same_data_ok stride _ _ HF Hok) as Hok'. split_and!.
  - done.
  - apply Forall_lookup. intros k j Hj. destruct (Forall2_lookup_r _ _ _ _ _ HF Hj) as (i & Hi & Hs).
    destruct (same_data_owned _ _ Hs) as [Eb Ei]. rewrite Forall_lookup in Hok', Hd. unfold owns_data. rewrite Eb, Ei.
    split; [apply (Hok' k j Hj)|by apply (Hd k)].
  - intros k l i j [Hi Ha] [Hj Hb]. destruct (Forall2_lookup_r _ _ _ _ _ HF Hi) as (i' & Hi' & Ai & _).
    destruct (Forall2_lookup_r _ _ _ _ _ HF Hj) as (j' & Hj' & Aj & _). eapply (H1 k l i' j'); split; congruence.
  - intros ->. inversion HF. congruence.
  - intros acc. eapply all_data_same; [done|]. intros i j Hij. by apply same_data_owned.
  - intros acc. eapply all_data_same; [done|]. intros i j Hij. by apply same_data_owned.
Qed.

(** The processor and the geometry of the constructor can be loaded. *)
Lemma ready_loadable stride b ins ins' bm p m0 m1 m2 : vk_builder_ok stride b → Forall2 same_data (b_inputs b) ins →
  processor_new ins p m0 m1 → geometry_ready ins ins' bm m1 m2 → loadable ins ins' bm p m2.
Proof.
  intros Hb HF [Hp Hc _ [_ Hs] [_ Hd] Hdi _] [Hg HA Hst _ _].
  destruct (copies_ok _ _ _ Hb HF) as (Hok & Ho & _ & Hne & _ & Hi). split; try done.
  - apply (binding_sizes stride ins); [apply (vo_stride _ _ Hb)|done|]. by eapply adopted_shape.
  - intros Ha. by apply Hst.
  - rewrite Hi. pose proof (vo_indices _ _ Hb StaticFixed). unfold modulus32. lia.
  - split.
    + intros b0 Hb0. destruct (Hs b0 Hb0) as [_ [x Hx]]. exists x. by eapply lookup_weaken.
    + intros b0 Hb0. destruct (Hd b0 Hb0) as [_ [x Hx]]. split; [exists x; by eapply lookup_weaken|].
      intros (b1 & Hb1 & Heq). by apply (Hdi b1 b0).
  - intros k [Ha Hk]. destruct (Hst Ha) as (_ & N1 & N2).
    assert (Hn : m1 !! k = None) by (by destruct Hk as [-> | ->]).
    split; intros (b0 & Hb0 & ->); [destruct (Hs b0 Hb0) as [_ [x Hx]]|destruct (Hd b0 Hb0) as [_ [x Hx]]]; congruence.
Qed.

(** The first recording, before anything is loaded. *)
Lemma ready_recordable ins ins' bm im p m0 m1 m2 F : processor_new ins p m0 m1 → geometry_ready ins ins' bm m1 m2 →
  length (swapchain_framebuffers im) = get_view_count → recordable (mkDevice m2 F) bm im ins' p.
Proof.
  intros [Hp Hc Hd [As Hs] [Ad Hdy] _ _] [Hg _ Hst Hdyn _] Hf. split; try done.
  - intros acc. by rewrite Hc.
  - intros b Hb. destruct (Hs b Hb) as [_ [x Hx]].
    destruct Hst as ((Tv & Ti & _ & (? & ? & M1 & _) & ? & ? & M2 & _) & _).
    { apply num_inputs_any, As. by exists b. }
    split_and!; try done; [exists x; by eapply lookup_weaken|by eexists..].
  - intros b Hb. destruct (Hdy b Hb) as [_ [x Hx]].
    destruct Hdyn as ((Tv & Ti & [? M1] & ? & M2) & _).
    { apply num_inputs_any, Ad. by exists b. }
    split_and!; try done; [exists x; by eapply lookup_weaken|by eexists..].
Qed.

(** Resources are copied with their data. *)
Lemma clone_owned (r : R) : resource_owned r → resource_owned (clone_resource r) ∧ resource_data (clone_resource r) = resource_data r.
Proof. unfold resource_owned, resource_data. destruct (clone_resource_same r) as (_ & _ & -> & _). done. Qed.

Lemma clone_texture (r : R) : texture_data_ok r → texture_data_ok (clone_resource r).
Proof.
  intros (Ha & Ho & tv & Htv & Hs). destruct (clone_owned r Ho) as [Ho' Hd]. destruct (clone_resource_same r) as (_ & Ha' & _ & Ht).
  split; [congruence|]. split; [done|]. exists tv. rewrite Ht, Hd. done.
Qed.

Lemma resources_ok stride b : vk_builder_ok stride b →
  length (b_buffer_resources b) ≤ length (resources_of b) ∧
  Forall resource_owned (take (length (b_buffer_resources b)) (resources_of b)) ∧
  (∀ k, k ∈ seq (length (b_buffer_resources b)) (length (b_texture_resources b)) →
     ∃ r, resources_of b !! k = Some r ∧ texture_data_ok r) ∧
  get_type <$> resources_of b = replicate (length (b_buffer_resources b)) BufferType_ ++
                                replicate (length (b_texture_resources b)) TextureType_.
Proof.
  intros Hb. pose proof (vo_buffers _ _ Hb) as Hbuf. pose proof (vo_textures _ _ Hb) as Htex. unfold resources_of. split_and!.
  - rewrite length_app, length_map. lia.
  - rewrite take_app_length' by (by rewrite length_map). apply Forall_fmap. eapply Forall_impl; [exact Hbuf|].
    intros r [_ Ho]. by apply clone_owned.
  - intros k Hk%elem_of_seq. rewrite lookup_app_r by (rewrite length_map; lia). rewrite length_map, list_lookup_fmap.
    destruct (lookup_lt_is_Some_2 (b_texture_resources b) (k - length (b_buffer_resources b))) as [r Hr]; [lia|]. rewrite Hr.
    exists (clone_resource r). split; [done|]. apply clone_texture. by apply (Forall_lookup_1 _ _ _ _ Htex Hr).
  - apply types_of_builder; eapply Forall_impl; [exact Hbuf|by intros ? []|exact Htex|by intros ? []].
Qed.

(** Names that are taken before the buffers of the resources are made. *)
Lemma names_before ins ins' bm p m0 m1 m2 k : processor_new ins p m0 m1 → geometry_ready ins ins' bm m1 m2 →
  static_name ins bm k ∨ names (draw_indirect_buffer p) k ∨ names (draw_indirect_dynamic_buffer p) k → is_Some (m2 !! k).
Proof.
  intros [_ _ _ [_ Rs] [_ Rd] _ _] [Hg _ Hst _ _] [[Ha Hk]|[(b & Hb & ->)|(b & Hb & ->)]].
  - destruct (Hst Ha) as ((_ & _ & _ & (? & ? & M1 & _) & ? & ? & M2 & _) & _). destruct Hk as [-> | ->]; by eexists.
  - destruct (Rs b Hb) as [_ [x Hx]]. exists x. by eapply lookup_weaken.
  - destruct (Rd b Hb) as [_ [x Hx]]. exists x. by eapply lookup_weaken.
Qed.

Lemma once_in_range ins : Forall (λ k, k < length ins) (all_inputs_once ins).
Proof. apply Forall_forall. intros k Hk%elem_of_seq. lia. Qed.

Lemma class_count acc ins : Forall owns_data ins →
  length (draws_of acc ins (all_inputs_once ins)) ≤ length (all_data acc owned_indices ins).
Proof.
  intros Ho. pose proof (map_draws_once acc ins (λ _, tt) (λ _, tt) ltac:(done)) as E.
  apply (f_equal length) in E. rewrite !length_map in E. unfold all_inputs_once. rewrite E.
  clear E. unfold all_data. induction Ho as [|i l (_ & _ & Hi) _ IH]; [done|]. cbn. rewrite length_app. unfold data_of at 1.
  case_bool_decide; [|exact IH]. destruct (owned_indices i); [done|]. cbn in *. lia.
Qed.

(** The buffers the views read are not those of the draw commands. *)
Lemma read_apart ins ins' bm p n rs rs' m0 m1 m2 m3 k : processor_new ins p m0 m1 → geometry_ready ins ins' bm m1 m2 →
  uniforms_ready n rs (buffer_components bm) rs' m2 m3 → read_name ins bm k →
  is_Some (m3 !! k) ∧ ¬ names (draw_indirect_buffer p) k ∧ ¬ names (draw_indirect_dynamic_buffer p) k.
Proof.
  intros Hp Hg Hu [(acc & Ha & Hk)|Hk].
  2: { destruct (uniform_apart ins bm p _ _ _ _ _ _ Hu (λ k, names_before _ _ _ _ _ _ _ k Hp Hg) Hk). tauto. }
  assert (Hn : m1 !! k = None ∧ is_Some (m2 !! k)).
  { destruct Hg as [_ _ Hst Hdyn _]. destruct acc; cbn in Hk.
    - destruct (Hst Ha) as ((_ & _ & _ & (? & ? & M1 & _) & ? & ? & M2 & _) & N1 & N2). by destruct Hk as [-> | ->]; (split; [|eexists]).
    - destruct (Hdyn Ha) as ((_ & _ & [? M1] & ? & M2) & N1 & N2). by destruct Hk as [-> | ->]; (split; [|eexists]). }
  destruct Hn as [Hn [x Hx]]. destruct Hp as [_ _ _ [_ Rs] [_ Rd] _ _].
  split; [exists x; eapply lookup_weaken; [exact Hx|apply Hu]|].
  split; intros (b0 & Hb0 & ->); [destruct (Rs b0 Hb0) as [_ [y Hy]]|destruct (Rd b0 Hb0) as [_ [y Hy]]]; congruence.
Qed.

(** What the scratch commands leave is what the renderer needs: the data of the
    resources is written to buffers that nothing else uses. *)
Lemma loaded_constructed stride b ins ins' rs' rp pl playout bm im p p' admin colour depth n m0 m1 m2 m3 m5 m6 :
  vk_builder_ok stride b →
  Forall2 same_data (b_inputs b) ins → processor_new ins p m0 m1 → geometry_ready ins ins' bm m1 m2 →
  uniforms_ready n (resources_of b) (buffer_components bm) rs' m2 m3 → n = length (b_buffer_resources b) →
  length (swapchain_framebuffers im) = get_view_count → loaded ins bm p p' m3 m5 →
  uniforms_in (resources_of b) (buffer_components bm) m6 →
  (∀ k, ¬ uniform_name (buffer_components bm) k → m6 !! k = m5 !! k) →
  vk_constructed b ins (all_inputs_once ins)
    (mkRenderer ins' rs' rp bm pl playout (vk_get_descriptor_set_layout b) im (set_admin p' admin) colour depth) m6.
Proof.
  intros Hb HF Hp Hg Hu -> Hfb Hlo Hin Hk.
  pose proof (λ k, read_apart _ _ _ _ _ _ _ _ _ _ _ k Hp Hg Hu) as Hread.
  assert (Hapart : ∀ k, read_name ins bm k → ¬ names (draw_indirect_buffer p') k ∧ ¬ names (draw_indirect_dynamic_buffer p') k).
  { intros k Hr. destruct (Hread k Hr) as (? & ? & ?). by apply (lo_fresh _ _ _ _ _ _ Hlo). }
  assert (Hun : ∀ k, is_Some (m2 !! k) → m6 !! k = m5 !! k).
  { intros k [x Hx]. apply Hk. intros (j & y & i & Hj & ->).
    destruct (ur_component _ _ _ _ _ _ Hu _ _ _ Hj) as (_ & ? & ? & _ & _ & _ & ? & _). congruence. }
  assert (Hcmd : ∀ k, names (draw_indirect_buffer p') k ∨ names (draw_indirect_dynamic_buffer p') k → m6 !! k = m5 !! k).
  { intros k Hn. apply Hk. intros Hc. destruct (Hapart k); [by right|]. tauto. }
  destruct (copies_ok _ _ _ Hb HF) as (_ & Ho & _ & _ & _ & Hi).
  pose proof Hlo as [Hpl Hd Hc _ Hcs Hcd As Ad Hgeo Hgr _ Hdis]. pose proof Hg as [Hsub HA Hst Hdyn Hap].
  split; try done; cbn.
  - by eapply adopted_shape.
  - unfold sets_ok. cbn. rewrite Hd. apply (pn_descriptors _ _ _ _ Hp).
  - rewrite Hpl. apply (pn_pool _ _ _ _ Hp).
  - apply once_in_range.
  - intros acc. pose proof (class_count acc ins Ho). pose proof (vo_indices _ _ Hb acc) as Hbd. rewrite <- Hi in Hbd.
    unfold modulus32. lia.
  - intros []; (eapply commands_in_same; [|done]); intros k Hn; apply Hcmd; auto.
  - by intros [].
  - intros [] k Hr; by apply Hapart.
  - intros [] Ha; cbn.
    + eapply geometry_in_grows, (Hgeo Ha). intros k x Hkk Hx. rewrite Hun; [done|].
      apply (names_before ins ins' bm p m0 m1); [done|done|]. left. by split.
    + destruct (Hdyn Ha) as (Hgi & _ & _). eapply geometry_in_grows, Hgi. intros k x Hkk Hx. rewrite Hun by (by eexists).
      destruct (Hread k) as (_ & ? & ?); [left; by exists DynamicFixed|].
      apply Hgr; [|eapply lookup_weaken; [exact Hx|apply Hu]]. intros [[Hs Hsn]|[?|?]]; [|done..].
      destruct (Hap Hs Ha k Hkk). destruct Hsn; congruence.
  - apply (ur_count _ _ _ _ _ _ Hu).
  - intros k x i Hx. by destruct (ur_component _ _ _ _ _ _ Hu _ _ _ Hx).
Qed.

Lemma runs_renderer_new stride rp playout regenerate b mem F : vk_builder_ok stride b →
  runs (mkDevice mem F) (RendererVulkan_new rp playout regenerate b)
    (λ r d', ∃ ins mem' a, d' = mkDevice mem' (add_frames (in_flight_fences a) F) ∧
       admin_new (if headless then 1 else frames_in_flight) a ∧
       frame_admin (processor r) = set_regeneration_function a regenerate ∧
       vk_constructed b ins (all_inputs_once ins) r mem').
Proof.
  intros Hb. unfold RendererVulkan_new. destruct (clone_inputs_spec (b_inputs b)) as (ins & Ei & HF).
  { intros i Hi. pose proof (vo_inputs _ _ Hb) as Hok. rewrite Forall_forall in Hok. apply (Hok i Hi). }
  destruct (copies_ok _ _ _ Hb HF) as (Hok & Ho & H1 & Hne & _ & _).
  destruct (resources_ok _ _ Hb) as (Hnb & Hown & Htex & Hty). fold (resources_of b).
  eapply runs_lift_bind; [exact Ei|]. destruct (vo_shader _ _ Hb) as [sh Esh].
  eapply runs_lift_bind; [unfold get_shader; rewrite Esh, bool_decide_eq_true_2, tz_assert_true by done; reflexivity|].
  eapply runs_bind; [apply runs_create; [apply pipeline_spec|apply pipeline_created]|]. intros pl d' ->.
  eapply runs_bind; [apply runs_image_manager|]. intros im d' [-> Him].
  eapply runs_bind; [apply runs_processor_new|]. intros p d' (m1 & -> & Hs1 & Hp). cbv zeta.
  eapply runs_bind; [by apply runs_setup_buffers|]. intros [[bm ins'] rs] d' (m2 & m3 & -> & Hg & Hu). cbn in Hg, Hu.
  assert (Htex' : ∀ k, k ∈ seq (length (b_buffer_resources b)) (length (b_texture_resources b)) →
    ∃ r, rs !! k = Some r ∧ texture_data_ok r).
  { intros k Hk. rewrite (ur_rest _ _ _ _ _ _ Hu); [by apply Htex|]. apply elem_of_seq in Hk. lia. }
  eapply runs_bind; [apply runs_textures; [exact Him|]|].
  { intros k Hk. destruct (Htex' k Hk) as (r & Hr & _ & _ & tv & Htv & _). by exists r, tv. }
  intros im1 d' (-> & ts & Him1 & Hts).
  eapply (runs_bind _ _ _ (λ im d', d' = mkDevice m3 (add_frames (in_flight_fences (frame_admin p)) F) ∧ images_ok ts im)).
  { case_bool_decide; [by apply runs_depth|by apply runs_ret]. }
  intros im2 d' [-> Him2]. eapply runs_bind; [by apply runs_framebuffers|]. intros im3 d' (-> & [Him3 _] & Hfb).
  rewrite <- Him3 in Hts.
  pose proof (f_equal length (proj1 Hts)) as Hlen. rewrite length_fmap, length_seq in Hlen.
  assert (Htys : get_type <$> rs = replicate (length (buffer_components bm)) BufferType_ ++
                                   replicate (length (texture_components im3)) TextureType_).
  { by rewrite (uniforms_types _ _ _ _ _ _ Hu), Hty, (ur_count _ _ _ _ _ _ Hu), Hlen. }
  eapply runs_bind; [apply runs_descriptors; [apply (pn_descriptors _ _ _ _ Hp)|by eapply uniforms_live|exact Htys| |]|].
  { by rewrite layout_bindings, (ur_count _ _ _ _ _ _ Hu), Hlen. }
  { apply (f_equal length) in Htys. rewrite length_fmap, length_app, !length_replicate, (ur_count _ _ _ _ _ _ Hu), Hlen in Htys.
    rewrite Htys. apply (vo_descriptors _ _ Hb). }
  intros p1 d' (-> & Hsets & Ep1). rewrite Ep1 in Hsets.
  pose proof (with_descriptors_new ins p _ _ _ Hsets Hp) as Hp1. rewrite <- Ep1 in Hp1.
  assert (Hg3 : geometry_ready ins ins' bm m1 m3) by (eapply geometry_ready_grows, Hg; apply Hu).
  eapply runs_bind; [apply runs_record_rendering; by eapply ready_recordable|]. intros p2 d' [-> ->].
  eapply runs_bind; [apply (runs_scratch_commands ins _ _ _ _ _ _ _ _ _ _ _ (ready_loadable _ _ _ _ _ _ _ _ _ Hb HF Hp1 Hg3) Hu Hown
    (λ k, names_before _ _ _ _ _ _ _ k Hp1 Hg) Hts Htex')|].
  intros p3 d' (m5 & m6 & -> & Hlo & Hin & Hk). apply runs_ret. exists ins, m6, (frame_admin p).
  split; [done|]. split; [apply (pn_admin _ _ _ _ Hp)|]. split; [cbn; rewrite (lo_admin _ _ _ _ _ _ Hlo), Ep1; done|].
  eapply loaded_constructed; [exact Hb|exact HF|exact Hp1|exact Hg|exact Hu|done|exact Hfb|exact Hlo|exact Hin|exact Hk].
Qed.

End Construct.

(** ** Executing what is recorded *)

Section Fetch.
Context `{BC : BuildConfig} `{VM : Vma} {VMS : VmaSpec} {VMU : VmaSucceeds} `{V : Vk} {VS : VkSpec} `{VO : !VkObjects} {VOS : VkObjectsSpec}.
Context {DS : DriverSucceeds} `{TG : Target} {I : Type} `{II : IRendererInput I} {LI : RendererInputLaws I} {R : Type} `{IR : IResource R} {LR : ResourceLaws R}.
Implicit Types (ins : list I) (mem : memory) (F : fence_state) (d : device).

Definition contents_of (w : vkworld) (b : Z) : option (list Z) := blk ← vma_block (v_vma w) b; v_heap w !! blk.

(** A [VkDrawIndexedIndirectCommand] read from memory. *)
Definition decode_cmd (bs : list Z) : VkRenderer.DrawIndirectCommand :=
  VkRenderer.mkCmd (of_le32 (slice 0 4 bs)) (of_le32 (slice 4 4 bs)) (of_le32 (slice 8 4 bs))
    (to_i32 (of_le32 (slice 12 4 bs))) (of_le32 (slice 16 4 bs)).

(** The vertices an indexed draw fetches, once per instance: [vertexOffset] is
    added to the index. *)
Definition vk_fetch (stride : nat) (ib vb : list Z) (c : VkRenderer.DrawIndirectCommand) : list (list (list Z)) :=
  replicate (Z.to_nat (VkRenderer.instanceCount c))
    (map (λ k, let ix := of_le32 (slice (4 * (Z.to_nat (VkRenderer.firstIndex c) + k)) 4 ib) in
               slice (stride * Z.to_nat (vertexOffset c + ix)) stride vb)
       (seq 0 (Z.to_nat (indexCount c)))).

(** The meshes a list of recorded commands draws, from the buffers as they are
    when it is executed.  A draw without its buffers, or beyond the end of the
    indirect buffer, is no draw at all. *)
Fixpoint fetched (stride : nat) (w : vkworld) (vb ib : option Z) (l : list vkcmd) : option (list (list (list Z))) :=
  match l with
  | [] => Some []
  | CmdBindVertexBuffers b :: l => fetched stride w (Some b) ib l
  | CmdBindIndexBuffer b :: l => fetched stride w vb (Some b) l
  | CmdDrawIndexedIndirect b n sz :: l =>
      v ← vb; vbs ← contents_of w v; i ← ib; ibs ← contents_of w i; cs ← contents_of w b;
      rest ← fetched stride w vb ib l;
      if Z.to_nat n * Z.to_nat sz <=? length cs then
        Some (concat (map (λ k, vk_fetch stride ibs vbs (decode_cmd (slice (k * Z.to_nat sz) 20 cs)))
                        (seq 0 (Z.to_nat n))) ++ rest)
      else None
  | _ :: l => fetched stride w vb ib l
  end.

(** A command reads back as it was written. *)
Lemma decode_command ins k i : decode_cmd (OGLRenderer.cmd_bytes (command ins k i)) =
  let c := command ins k i in
  VkRenderer.mkCmd (OGLRenderer.count c) 1 (OGLRenderer.firstIndex c) (to_i32 (OGLRenderer.baseVertex c)) 0.
Proof.
  set (c := command ins k i). unfold decode_cmd.
  assert (slice 0 4 (OGLRenderer.cmd_bytes c) = le32 (OGLRenderer.count c)) as -> by done.
  assert (slice 4 4 (OGLRenderer.cmd_bytes c) = le32 (OGLRenderer.instanceCount c)) as -> by done.
  assert (slice 8 4 (OGLRenderer.cmd_bytes c) = le32 (OGLRenderer.firstIndex c)) as -> by done.
  assert (slice 12 4 (OGLRenderer.cmd_bytes c) = le32 (OGLRenderer.baseVertex c)) as -> by done.
  assert (slice 16 4 (OGLRenderer.cmd_bytes c) = le32 (OGLRenderer.baseInstance c)) as -> by done.
  subst c. unfold command. cbn -[le32 of_le32 to_i32 u32]. rewrite !of_le32_le32; try done; apply u32_range.
Qed.

(** The signed offset is the one the other back end counts in [unsigned int]. *)
Lemma vk_fetch_command stride ib vb ins k i :
  (Z.of_nat (offset_of (OGLRendererFacts.count_of (data_access i) vertex_number) ins k) < 2147483648)%Z →
  vk_fetch stride ib vb (decode_cmd (OGLRenderer.cmd_bytes (command ins k i))) =
  [fetch_draw ib vb stride (command ins k i)].
Proof.
  intros Hk. rewrite decode_command. unfold vk_fetch, fetch_draw, command. cbn -[u32 to_i32 seq].
  set (z := Z.of_nat (offset_of (OGLRendererFacts.count_of (data_access i) vertex_number) ins k)) in *.
  rewrite (u32_small z) by (unfold modulus32; lia). rewrite to_i32_small by lia. done.
Qed.

(** ** The draws of a constructed renderer *)

Lemma vk_num_draws acc ins draws : Forall (λ k, k < length ins) draws →
  num_draws_of acc ins draws = Ok (length (draws_of acc ins draws)).
Proof. apply count_draws_spec. Qed.

(** The meshes of a class of inputs, in order. *)
Definition meshes (stride : nat) acc ins : list (list (list Z)) :=
  map (λ i, mesh_vertices stride (owned_bytes i) (owned_indices i)) (List.filter (λ i, bool_decide (data_access i = acc)) ins).

Lemma drawn_once stride acc ins : drawn stride acc ins (all_inputs_once ins) = meshes stride acc ins.
Proof.
  unfold drawn, meshes, all_inputs_once. induction ins as [|i l IH] using rev_ind; [done|].
  rewrite length_app. cbn. rewrite Nat.add_1_r, seq_S, omap_app, List.filter_app, map_app. f_equal.
  - rewrite <- IH. apply list_omap_ext, Forall2_same_length_lookup. split; [done|].
    intros n k k' Hk Hk'. simplify_eq. apply lookup_seq in Hk as [-> Hlt]. by rewrite lookup_app_l by lia.
  - cbn. rewrite list_lookup_middle by done. by case_bool_decide.
Qed.

Lemma drawn_copies stride acc ins ins' draws : Forall2 same_data ins ins' →
  drawn stride acc ins' draws = drawn stride acc ins draws.
Proof.
  intros HF. unfold drawn. apply list_omap_ext, Forall2_same_length_lookup. split; [done|]. intros n k k' Hk Hk'. simplify_eq.
  destruct (ins !! k) as [i|] eqn:Ei.
  - destruct (Forall2_lookup_l _ _ _ _ _ HF Ei) as (j & -> & Hij). destruct (same_data_owned i j Hij) as [-> ->].
    by rewrite (proj1 Hij).
  - destruct (ins' !! k) as [j|] eqn:Ej; [|done]. by destruct (Forall2_lookup_r _ _ _ _ _ HF Ej) as (i & ? & _); simplify_eq.
Qed.

(** Executing the commands of a class fetches its meshes. *)
Lemma class_fetched stride (b : RendererBuilderVulkan I R) ins acc draws :
  vk_builder_ok stride b → Forall2 same_data (b_inputs b) ins →
  let cs := draws_of acc ins draws in
  concat (map (λ k, vk_fetch stride (u32s_bytes (all_data acc owned_indices ins)) (all_data acc owned_bytes ins)
                      (decode_cmd (slice (k * 20) 20 (draw_bytes acc ins draws)))) (seq 0 (length cs))) =
  drawn stride acc (b_inputs b) draws.
Proof.
  intros Hb HF cs. destruct (copies_ok _ _ _ Hb HF) as (Hok & _ & _ & _ & Hv & Hi).
  pose proof (slices_concat 20 OGLRenderer.cmd_bytes cs ltac:(done)) as Hsl.
  rewrite <- (map_map (λ k, slice (k * 20) 20 (draw_bytes acc ins draws))
                (λ bs, vk_fetch stride _ _ (decode_cmd bs))). unfold draw_bytes. fold cs. rewrite Hsl, map_map.
  assert (Hone : concat (map (λ c, vk_fetch stride (u32s_bytes (all_data acc owned_indices ins))
      (all_data acc owned_bytes ins) (decode_cmd (OGLRenderer.cmd_bytes c))) cs) =
    map (fetch_draw (u32s_bytes (all_data acc owned_indices ins)) (all_data acc owned_bytes ins) stride) cs).
  { assert (Hcs : ∀ c, c ∈ cs → ∃ k i, ins !! k = Some i ∧ data_access i = acc ∧ c = command ins k i).
    { intros c (k & _ & Hk)%list_elem_of_omap. destruct (ins !! k) as [i|] eqn:Ei; [|done].
      case_bool_decide; [|done]. injection Hk as <-. by exists k, i. }
    clearbody cs. clear Hsl. induction cs as [|c cs IH]; [done|]. cbn [map concat].
    rewrite IH by (intros; apply Hcs; set_solver). destruct (Hcs c) as (k & i & Hk & Ha & ->); [set_solver|].
    rewrite vk_fetch_command; [done|]. rewrite Ha.
    pose proof (vertex_total stride ins acc k i (vo_stride _ _ Hb) Hok Hk Ha) as Ht. rewrite Hv in Ht.
    pose proof (vo_vertices _ _ Hb acc). lia. }
  rewrite Hone, <- (drawn_copies stride acc _ _ draws HF). unfold cs.
  apply (map_draws acc ins _ (λ i, mesh_vertices stride (owned_bytes i) (owned_indices i))).
  intros k i Hk <-. apply fetch_draw_command; [done|done| |].
  + rewrite Hi. pose proof (vo_indices _ _ Hb (data_access i)). unfold modulus32. lia.
  + pose proof (vertex_total stride ins _ k i (vo_stride _ _ Hb) Hok Hk eq_refl) as Ht.
    rewrite Hv in Ht. pose proof (vo_vertices _ _ Hb (data_access i)). unfold modulus32. lia.
Qed.

Lemma length_draws_bytes acc ins draws : length (draw_bytes acc ins draws) = length (draws_of acc ins draws) * 20.
Proof. unfold draw_bytes. rewrite length_concat_map. induction (draws_of acc ins draws); [done|]. cbn in *. lia. Qed.

Lemma contents_stored mem w b blk bs : stores mem w → mem !! b = Some (blk, bs) → contents_of w b = Some bs.
Proof. intros [Hb _] (_ & Hk & Hh)%Hb. unfold contents_of. by rewrite Hk. Qed.

(** The commands of one class fetch its meshes. *)
Lemma fetched_class stride (b : RendererBuilderVulkan I R) ins draws r mem w acc vb ib rest m :
  vk_builder_ok stride b → vk_constructed b ins draws r mem → stores mem w →
  (∀ vb ib, fetched stride w vb ib rest = Some m) →
  fetched stride w vb ib
    (draw_commands (indirect_of acc (processor r)) (vertex_of acc (buffer_manager r)) (index_of acc (buffer_manager r))
       (length (draws_of acc ins draws)) ++ rest) = Some (drawn stride acc (b_inputs b) draws ++ m).
Proof.
  intros Hb Hc Hw Hm. pose proof (vc_copies _ _ _ _ _ Hc) as HF. pose proof (class_fetched stride b ins acc draws Hb HF) as Hf.
  cbv zeta in Hf. pose proof (vc_any _ _ _ _ _ Hc acc) as Ha. pose proof (vc_commands _ _ _ _ _ Hc acc) as Hcm.
  destruct (indirect_of acc (processor r)) as [ind|].
  - assert (Hne : draws_of acc ins draws ≠ []) by (by apply Ha).
    destruct (draws_of acc ins draws) as [|c0 l] eqn:El; [done|]. rewrite <- El in *.
    destruct (vc_geometry _ _ _ _ _ Hc acc) as (_ & _ & [b1 M1] & b2 & M2); [by eapply draws_of_nonempty|].
    destruct Hcm as [_ [b3 M3]]. cbn [draw_commands app fetched mbind option_bind].
    rewrite (contents_stored _ _ _ _ _ Hw M1), (contents_stored _ _ _ _ _ Hw M2), (contents_stored _ _ _ _ _ Hw M3), Hm.
    cbn [mbind option_bind]. rewrite length_draws_bytes.
    assert (Hn : Z.to_nat (u32 (Z.of_nat (length (draws_of acc ins draws)))) = length (draws_of acc ins draws)).
    { rewrite u32_small; [lia|]. pose proof (vc_short _ _ _ _ _ Hc acc). lia. }
    rewrite Hn. change (Z.to_nat 20) with 20. by rewrite Nat.leb_refl, Hf.
  - assert (Hn : draws_of acc ins draws = []).
    { destruct (draws_of acc ins draws) eqn:E; [done|]. destruct (proj2 Ha ltac:(done)) as [? [=]]. }
    rewrite Hn in Hf. cbn in Hf. rewrite <- Hf. apply Hm.
Qed.

Lemma constructed_drawable (b : RendererBuilderVulkan I R) ins draws r mem F acc : vk_constructed b ins draws r mem →
  drawable (mkDevice mem F) (indirect_of acc (processor r)) (vertex_of acc (buffer_manager r)) (index_of acc (buffer_manager r)).
Proof.
  intros Hc d Hd. pose proof (vc_any _ _ _ _ _ Hc acc) as Ha. pose proof (vc_commands _ _ _ _ _ Hc acc) as Hcm.
  rewrite Hd in Ha, Hcm. destruct Hcm as [_ [b3 M3]].
  assert (Hne : draws_of acc ins draws ≠ []) by (apply Ha; by exists d).
  destruct (draws_of acc ins draws) as [|c0 l] eqn:El; [done|].
  destruct (vc_geometry _ _ _ _ _ Hc acc) as (Tv & Ti & [b1 M1] & b2 & M2); [by eapply draws_of_nonempty|].
  split_and!; try done; by eexists.
Qed.

Lemma constructed_typed (b : RendererBuilderVulkan I R) ins draws r mem : vk_constructed b ins draws r mem →
  geometry_typed (buffer_manager r) (processor r).
Proof.
  intros Hc. split; intros [x Hx].
  - by destruct (constructed_drawable b ins draws r mem (mkFences [] [] 0) StaticFixed Hc x Hx) as (_ & _ & _ & ? & ?).
  - by destruct (constructed_drawable b ins draws r mem (mkFences [] [] 0) DynamicFixed Hc x Hx) as (_ & _ & _ & ? & ?).
Qed.

Lemma constructed_count (b : RendererBuilderVulkan I R) ins draws r mem acc : vk_constructed b ins draws r mem →
  num_draws_of acc (renderer_inputs r) (draw_cache (processor r)) = Ok (length (draws_of acc ins draws)).
Proof.
  intros Hc. rewrite (vc_cache _ _ _ _ _ Hc), vk_num_draws.
  - by rewrite (draws_of_same_shape _ _ _ _ (vc_shapes _ _ _ _ _ Hc)).
  - rewrite <- (Forall2_length _ _ _ (vc_shapes _ _ _ _ _ Hc)). apply (vc_range _ _ _ _ _ Hc).
Qed.

(** A constructed renderer can be recorded, with any idle pool. *)
Lemma constructed_recordable (b : RendererBuilderVulkan I R) ins draws r mem F pool : vk_constructed b ins draws r mem →
  idle_pool pool →
  recordable (mkDevice mem F) (buffer_manager r) (image_manager r) (renderer_inputs r) (set_pool (processor r) pool).
Proof.
  intros Hc Hp. split; cbn; try done; try apply Hc.
  - intros acc. change (is_Ok (num_draws_of acc (renderer_inputs r) (draw_cache (processor r))) = true).
    by rewrite (constructed_count _ _ _ _ _ _ Hc).
  - apply (constructed_drawable b ins draws r mem F StaticFixed Hc).
  - apply (constructed_drawable b ins draws r mem F DynamicFixed Hc).
Qed.

(** [vkDeviceWaitIdle]: everything that was submitted is finished. *)
Record waits_idle (idle : vk_state → vk_state) : Prop := mkWaitsIdle {
  wi_fences : ∀ s, fences (idle s) = fences s;
  wi_images : ∀ s, images (idle s) = images s;
  wi_pending : ∀ s p, p ∉ pending (idle s);
  wi_signalled : ∀ s f, signalled s f = true ∨ (∃ c, (f, c) ∈ pending s) → signalled (idle s) f = true }.

Lemma represents_idle idle d w : waits_idle idle → represents d w →
  represents d (mkVkWorld (v_heap w) (v_vma w) (idle (v_sync w)) (v_cmds w)).
Proof.
  intros [Hf Hn Hp Hs] [Hm Hfs Hg Hi _]. split; cbn; [by eapply stores_same, Hm|by rewrite Hf| |by rewrite Hn|done].
  intros f Hin. rewrite Hf. destruct (Hg f Hin). auto.
Qed.

(** The renderer after a change of the clear colour. *)
Definition recoloured (r r' : RendererVulkan I R) (colour : list Z) : Prop :=
  ∃ pool, idle_pool pool ∧ NoDup (get_buffer_natives pool) ∧
    r' = mkRenderer (renderer_inputs r) (renderer_resources r) (render_pass r) (buffer_manager r) (pipeline r)
           (pipeline_layout r) (resource_descriptor_layout r) (image_manager r) (set_pool (processor r) pool) colour
           (requires_depth_image r).

(** Changing the clear colour records every view again. *)
Lemma clear_colour_ok idle colour (b : RendererBuilderVulkan I R) ins draws r mem F w :
  represents (mkDevice mem F) (mkVkWorld (v_heap w) (v_vma w) (idle (v_sync w)) (v_cmds w)) →
  vk_constructed b ins draws r mem →
  ∃ r' w', set_clear_colour idle colour r w = Ok (r', w') ∧ represents (mkDevice mem F) w' ∧ recoloured r r' colour.
Proof.
  intros Hw Hc. unfold set_clear_colour, handle_clear_colour_change. cbn [processor].
  rewrite (st_bind_Ok (on_sync (modify idle)) _ w tt _ eq_refl).
  destruct (runs_initialise_pool _ (command_pool (processor r)) _ Hw) as (pool & d1 & w1 & E1 & Hw1 & -> & Hpool).
  pose proof (initialise_command_pool_natives _ _ _ _ E1) as [Hnd _]. rewrite (st_bind_Ok _ _ _ _ _ E1).
  destruct (runs_record_rendering _ (render_pass r) (pipeline r) (pipeline_layout r) _ _ _ colour _
    (constructed_recordable b ins draws r mem F pool Hc Hpool) w1 Hw1) as (p & d2 & w2 & E2 & Hw2 & -> & ->).
  unfold record_all. cbn. rewrite (st_bind_Ok _ _ _ _ _ E2). eexists _, w2. split; [reflexivity|]. split; [done|].
  by exists pool.
Qed.

Lemma fetched_sets stride w vb ib playout p i l :
  fetched stride w vb ib (set_commands playout p i ++ l) = fetched stride w vb ib l.
Proof. unfold set_commands. by destruct (resource_descriptor_pool p). Qed.

(** The recorded commands of a view fetch what the draw list names. *)
Lemma view_fetched stride (b : RendererBuilderVulkan I R) ins draws r mem w fb colour i :
  vk_builder_ok stride b → vk_constructed b ins draws r mem → stores mem w →
  fetched stride w None None (current_view_commands (render_pass r) (pipeline r) (pipeline_layout r) fb (buffer_manager r)
    (renderer_inputs r) colour (processor r) i) =
  Some (drawn stride StaticFixed (b_inputs b) draws ++ drawn stride DynamicFixed (b_inputs b) draws).
Proof.
  intros Hb Hc Hw. unfold current_view_commands, view_commands. rewrite !(constructed_count b ins draws r mem _ Hc).
  cbn [app fetched VkProperties.count_of]. rewrite fetched_sets.
  apply (fetched_class stride b ins draws r mem w StaticFixed None None _ _ Hb Hc Hw). intros vb ib.
  rewrite <- (app_nil_r (drawn stride DynamicFixed _ _)).
  by apply (fetched_class stride b ins draws r mem w DynamicFixed vb ib [CmdEndRenderPass] [] Hb Hc Hw).
Qed.

(** The buffers of a builder's resources. *)
Lemma constructed_uniforms stride (b : RendererBuilderVulkan I R) ins draws r mem w k res : vk_builder_ok stride b →
  vk_constructed b ins draws r mem → stores mem w → b_buffer_resources b !! k = Some res →
  ∃ u, buffer_components (buffer_manager r) !! k = Some (u, k) ∧ contents_of w (buffer u) = Some (resource_data res).
Proof.
  intros Hb Hc Hw Hk. destruct (lookup_lt_is_Some_2 (buffer_components (buffer_manager r)) k) as [[u i] Hu].
  { rewrite (vc_components _ _ _ _ _ Hc). by eapply lookup_lt_Some. }
  pose proof (vc_positions _ _ _ _ _ Hc _ _ _ Hu) as ->. exists u. split; [done|].
  destruct (vc_uniforms _ _ _ _ _ Hc _ _ _ Hu) as (r0 & blk & Hr & Hm).
  rewrite (contents_stored _ _ _ _ _ Hw Hm). f_equal. unfold resources_of in Hr.
  rewrite lookup_app_l, list_lookup_fmap, Hk in Hr by (rewrite length_map; by eapply lookup_lt_Some). injection Hr as <-.
  apply clone_owned. by apply (Forall_lookup_1 _ _ _ _ (vo_buffers _ _ Hb) Hk).
Qed.

(** C6: constructing a renderer from a well-formed builder on an idle device
    succeeds, so does changing the clear colour afterwards, and the commands
    then recorded for every view, executed on the buffers they name, fetch the
    meshes of the static and then of the dynamic inputs of the builder, in
    order: the vertex and index data, the staged copies, the indirect commands
    and the recorded draws fit together.  Every buffer resource of the builder,
    static or dynamic, is in the uniform buffer of its component. *)
Theorem vk_draws_fetch_inputs stride (b : RendererBuilderVulkan I R) rp playout regenerate idle colour d w :
  vk_builder_ok stride b → represents d w → waits_idle idle →
  ∃ r w1 r' w2, RendererVulkan_new rp playout regenerate b w = Ok (r, w1) ∧
    set_clear_colour idle colour r w1 = Ok (r', w2) ∧
    (∀ i, i < get_view_count → ∃ c, get_buffer_natives (command_pool (processor r')) !! i = Some c ∧
       fetched stride w2 None None (commands w2 c) =
       Some (meshes stride StaticFixed (b_inputs b) ++ meshes stride DynamicFixed (b_inputs b))) ∧
    ∀ k res, b_buffer_resources b !! k = Some res →
      ∃ u, buffer_components (buffer_manager r') !! k = Some (u, k) ∧ contents_of w2 (buffer u) = Some (resource_data res).
Proof.
  intros Hb Hw Hidle. destruct d as [mem F].
  destruct (runs_renderer_new stride rp playout regenerate b mem F Hb w Hw)
    as (r & d1 & w1 & E1 & Hw1 & ins & m1 & a & -> & _ & _ & Hc).
  destruct (clear_colour_ok idle colour b ins _ r m1 _ w1 (represents_idle _ _ _ Hidle Hw1) Hc)
    as (r' & w2 & E2 & [Hst _ _ _ _] & pool & _ & _ & Hr').
  exists r, w1, r', w2. split; [done|]. split; [done|].
  split; [|subst r'; cbn; intros k res; exact (constructed_uniforms stride b ins _ r m1 w2 k res Hb Hc Hst)].
  destruct (clear_colour_commands _ _ _ _ _ _ E2 (constructed_typed _ _ _ _ _ Hc)) as [_ Hv]. intros i Hi.
  destruct (Hv i Hi) as (c & fb & Hn & _ & Hcm). exists c. split; [done|].
  rewrite Hcm, (view_fetched stride b ins _ r m1 w2 fb colour i Hb Hc Hst).
  unfold all_inputs_once. rewrite <- (Forall2_length _ _ _ (vc_copies _ _ _ _ _ Hc)).
  by rewrite <- !drawn_once.
Qed.

End Fetch.

(** ** Concrete inputs *)

#[local] Instance drawing_config : BuildConfig := debug_build.
#[local] Existing Instance two_views.

#[export] Instance driver_succeeds : DriverSucceeds (VM := driver_vma) (V := driver_vk).
Proof. split; intros; by eexists. Qed.

Lemma vk_sample_builder_ok : vk_builder_ok 56 sample_builder.
Proof.
  split.
  - by eexists.
  - done.
  - done.
  - repeat constructor; try (by vm_compute); try (eexists _, _; by split).
  - repeat constructor; done.
  - intros k l i j [Hi Hdi] [Hj Hdj]. destruct k as [|[|[|k]]]; try done; destruct l as [|[|[|l]]]; try done;
      injection Hi as <-; injection Hj as <-; done.
  - repeat constructor; done.
  - repeat constructor; try done. by eexists.
  - by vm_compute.
  - intros []; by vm_compute.
  - intros []; by vm_compute.
Qed.

Lemma new_device_idle : represents (VMS := driver_vma_spec) (VS := driver_vk_spec) (mkDevice ∅ (mkFences [] [] 2)) new_device.
Proof.
  split; cbn.
  - split; [intros b blk bs Hm; by rewrite lookup_empty in Hm|]. intros k l blk Hk. by apply (lookup_empty_Some (A := nat) (M := gmap Z) k blk) in Hk.
  - intros f Hf. by apply elem_of_nil in Hf.
  - intros f Hf. by apply elem_of_nil in Hf.
  - done.
  - intros p Hp. by apply elem_of_nil in Hp.
Qed.

(** The device finishes everything. *)
Definition finish_all (d : driver) : driver :=
  mkDriver (VkFrame.d_fences d) ((d_pending d).*1 ++ d_signalled d) [] (d_images d) (d_cursor d) (d_stale d).

Lemma finish_all_idle : waits_idle (VS := driver_vk_spec) finish_all.
Proof.
  split; try done.
  - intros s p Hp. by apply (elem_of_nil p) in Hp.
  - intros s f Hf. cbn in *. apply bool_decide_eq_true, elem_of_app. destruct Hf as [Hf|[c Hc]].
    + right. by apply bool_decide_eq_true in Hf.
    + left. apply list_elem_of_fmap. by exists (f, c).
Qed.

Lemma vk_draws_fetch_inputs_witness :
  ∃ r w1 r' w2, RendererVulkan_new 900 901 (mret tt) sample_builder new_device = Ok (r, w1) ∧
    set_clear_colour finish_all [1; 0; 0; 1]%Z r w1 = Ok (r', w2) ∧
    (∀ i, i < 2 → ∃ c, get_buffer_natives (command_pool (processor r')) !! i = Some c ∧
      fetched (VMS := driver_vma_spec) 56 w2 None None (commands w2 c) =
      Some [map vertex_bytes (vertices (triangle 5)); map vertex_bytes (vertices (triangle 7));
            map vertex_bytes (vertices (triangle 9))]) ∧
    (∃ u, buffer_components (buffer_manager r') !! 0 = Some (u, 0) ∧
       contents_of (VMS := driver_vma_spec) w2 (buffer u) = Some [1; 2; 3; 4]%Z) ∧
    ∃ u, buffer_components (buffer_manager r') !! 1 = Some (u, 1) ∧
       contents_of (VMS := driver_vma_spec) w2 (buffer u) = Some [5; 6]%Z.
Proof.
  assert (Hm : Some [map vertex_bytes (vertices (triangle 5)); map vertex_bytes (vertices (triangle 7));
            map vertex_bytes (vertices (triangle 9))] =
    Some (meshes 56 StaticFixed (VkRenderer.b_inputs sample_builder) ++ meshes 56 DynamicFixed (VkRenderer.b_inputs sample_builder)))
    by (vm_compute; reflexivity).
  rewrite Hm.
  destruct (vk_draws_fetch_inputs (VM := driver_vma) (V := driver_vk) (VO := driver_objects) (TG := two_views)
           (VMS := driver_vma_spec) (VS := driver_vk_spec) 56 sample_builder 900 901 (mret tt) finish_all
           [1; 0; 0; 1]%Z (mkDevice ∅ (mkFences [] [] 2)) new_device) as (r & w1 & r' & w2 & E1 & E2 & Hf & Hu).
  - exact vk_sample_builder_ok.
  - exact new_device_idle.
  - exact finish_all_idle.
  - exists r, w1, r', w2. exact (conj E1 (conj E2 (conj Hf (conj
      (Hu 0 (RBuffer (mkBufferResource [1; 2; 3; 4]%Z)) eq_refl)
      (Hu 1 (RDynamicBuffer (DynamicBufferResource_new [5; 6]%Z)) eq_refl))))).
Defined.
