(* ===== verification/VkSession.v ===== *)
(** * The Vulkan renderer: sessions

    A renderer in use.  [session] is what holds between two calls on a renderer
    that draws to a window: frames may be in flight, the buffers hold what the
    views read, and every view is recorded for the current draw list and clear
    colour.  It is established by construction and a first change of the clear
    colour, and kept by rendering, by draw lists and by changes of the clear
    colour, in any order. *)

From S2P Require Import Prelude Containers Memory RenderTypes Inputs OpenGL OGLRenderer OGLRendererFacts OGLConstruct OGLProperties VkFrame VkCommand VkRenderer VkDriver VkProcessor Backends VkRendererFacts VkProperties VkResources VkDraws VkMemory VkGeometry VkRuns VkConstruct VkUniforms VkScratch VkDrawing.

Section Session.
Context `{BC : BuildConfig} `{VM : Vma} {VMS : VmaSpec} {VMU : VmaSucceeds} `{V : Vk} {VS : VkSpec} `{VO : !VkObjects} {VOS : VkObjectsSpec}.
Context {DS : DriverSucceeds} `{TG : Target} {I : Type} `{II : IRendererInput I} {LI : RendererInputLaws I} {R : Type} `{IR : IResource R} {LR : ResourceLaws R}.
Implicit Types (ins : list I) (mem : memory) (F : fence_state) (r : RendererVulkan I R) (draws : RendererDrawList).

Definition natives r : list Z := get_buffer_natives (command_pool (processor r)).

(** What view [i] is recorded with. *)
Definition recorded_view r (w : vkworld) (i : nat) : Prop :=
  ∃ c fb, natives r !! i = Some c ∧ swapchain_framebuffers (image_manager r) !! i = Some fb ∧
    commands w c = current_view_commands (render_pass r) (pipeline r) (pipeline_layout r) fb (buffer_manager r)
                     (renderer_inputs r) (clear_colour r) (processor r) i.

Record session (b : RendererBuilderVulkan I R) ins draws r w : Prop := mkSession {
  se_memory : ∃ mem, stores mem w ∧ vk_constructed b ins draws r mem;
  se_natives : NoDup (natives r);
  se_frames : frame_inv (negb headless) get_view_count (natives r) (frame_admin (processor r)) (v_sync w);
  se_depth : frame_depth (frame_admin (processor r)) = if headless then 1 else frames_in_flight;
  se_regen : regeneration_ok (frame_admin (processor r));
  se_pending : ∀ f c, (f, c) ∈ pending (v_sync w) → f ∈ in_flight_fences (frame_admin (processor r));
  se_recorded : ∀ i, i < get_view_count → recorded_view r w i }.

(** What a view shows. *)
Lemma session_view stride b ins draws r w i : vk_builder_ok stride b → session b ins draws r w → i < get_view_count →
  ∃ c fb rest, natives r !! i = Some c ∧ swapchain_framebuffers (image_manager r) !! i = Some fb ∧
    commands w c = CmdBeginRenderPass (render_pass r) fb (target_width, target_height) (clear_vals (clear_colour r)) :: rest ∧
    fetched stride w None None (commands w c) =
      Some (drawn stride StaticFixed (b_inputs b) draws ++ drawn stride DynamicFixed (b_inputs b) draws).
Proof.
  intros Hb [(mem & Hst & Hcons) _ _ _ _ _ Hrec] Hi. destruct (Hrec i Hi) as (c & fb & Hn & Hfb & Hcm).
  exists c, fb. eexists. split; [done|]. split; [done|]. rewrite Hcm. split; [reflexivity|]. by eapply view_fetched.
Qed.

(** ** Frames and the abstract device *)

Lemma idle_represents win views pool a mem w : frame_inv win views pool a (v_sync w) → (∀ p, p ∉ pending (v_sync w)) →
  stores mem w → represents (mkDevice mem (mkFences [] (in_flight_fences a) (images (v_sync w)))) w.
Proof.
  intros Hi Hp Hst. split; cbn; [done| | |done|done].
  - intros f Hf. by apply elem_of_nil in Hf.
  - intros f Hf. split; [by apply (fi_live _ _ _ _ _ Hi)|]. destruct (fi_ready _ _ _ _ _ Hi f Hf) as [?|[c Hc]]; [done|].
    by apply Hp in Hc.
Qed.

(** Whatever was run in between, the frames go on with any pool. *)
Lemma frames_resume win views pool pool' a s mem l n w : frame_inv win views pool a s → (win = true → n = views) →
  represents (mkDevice mem (mkFences l (in_flight_fences a) n)) w → frame_inv win views pool' a (v_sync w).
Proof.
  intros [] Hn' [_ _ Hg Hn Hi]. cbn in *. split; try done.
  - intros f Hf. by apply Hg.
  - intros f Hf. left. by apply Hg.
  - by intros f c k ?%Hi.
  - by intros f c ?%Hi.
  - intros Hw. rewrite Hn. auto.
Qed.

Lemma frame_inv_idle idle win views pool a s : waits_idle idle → frame_inv win views pool a s → frame_inv win views pool a (idle s).
Proof.
  intros [Hf Hn Hp Hs] []. split; try done.
  - intros f Hin. rewrite Hf. auto.
  - intros f Hin. left. auto.
  - by intros f c k ?%Hp.
  - by intros f c ?%Hp.
  - intros. rewrite Hn. auto.
Qed.

(** ** What does not matter to the buffers *)

Lemma constructed_processor (b : RendererBuilderVulkan I R) ins draws r mem r' : vk_constructed b ins draws r mem →
  renderer_inputs r' = renderer_inputs r → buffer_manager r' = buffer_manager r → image_manager r' = image_manager r →
  resource_descriptor_pool (processor r') = resource_descriptor_pool (processor r) →
  draw_indirect_buffer (processor r') = draw_indirect_buffer (processor r) →
  draw_indirect_dynamic_buffer (processor r') = draw_indirect_dynamic_buffer (processor r) →
  draw_cache (processor r') = draw_cache (processor r) → idle_pool (command_pool (processor r')) →
  vk_constructed b ins draws r' mem.
Proof.
  intros [] Ei Eb Em Ed Es Edy Ec Hp. assert (Hind : ∀ acc, indirect_of acc (processor r') = indirect_of acc (processor r)).
  { intros []; cbn; congruence. }
  unfold sets_ok in *. split; rewrite ?Ei, ?Eb, ?Em, ?Ed, ?Es, ?Edy, ?Ec; try done;
    intros acc; rewrite ?Hind, ?Ed; auto.
Qed.

(** ** Rendering *)

Lemma session_render b ins draws r w : headless = false → get_view_count ≤ frames_in_flight → session b ins draws r w →
  match render r w with
  | Ok (r', w') => session b ins draws r' w' ∧ clear_colour r' = clear_colour r
  | Fault e => acquire_fault e
  end.
Proof.
  intros Hh Hv [[mem [Hst Hc]] Hnd Hfr Hd Hreg Hp Hrec]. rewrite Hh in Hfr, Hd.
  assert (Hlen : get_view_count ≤ length (natives r)).
  { unfold natives, get_buffer_natives. rewrite length_fmap. destruct (vc_pool _ _ _ _ _ Hc) as [-> _]. lia. }
  pose proof (render_frame_outcome get_view_count (natives r) [ColourAttachmentOutput] _ _ Hfr ltac:(lia) Hlen Hnd Hreg) as Ho.
  unfold render, Processor_render. rewrite Hh. unfold mbind, ST_bind, on_sync. fold (natives r).
  assert (length image_views = get_view_count) as -> by (unfold get_view_count; by rewrite Hh).
  destruct (render_frame get_view_count (natives r) [ColourAttachmentOutput] (frame_admin (processor r)) (v_sync w)) as [[a s]|e]; [|done].
  destruct Ho as (Hi & Hd' & Hr' & _ & Hf' & Hp' & _). cbn. split; [|done]. split; cbn; rewrite ?Hh; try done.
  - exists mem. split; [by eapply stores_same, Hst|]. eapply constructed_processor; [exact Hc|done..|]. apply (vc_pool _ _ _ _ _ Hc).
  - congruence.
  - intros f s' e. rewrite Hr'. apply Hreg.
  - rewrite Hf'. intros f c Hx. destruct (Hp' f c Hx); eauto.
Qed.

(** ** A change of the clear colour *)

Lemma session_clear_colour idle colour b ins draws r w : waits_idle idle → session b ins draws r w →
  ∃ r' w', set_clear_colour idle colour r w = Ok (r', w') ∧ session b ins draws r' w' ∧ clear_colour r' = colour ∧
    frame_admin (processor r') = frame_admin (processor r) ∧ ∀ p, p ∉ pending (v_sync w').
Proof.
  intros Hidle [[mem [Hst Hc]] Hnd Hfr Hd Hreg Hp Hrec].
  pose proof (frame_inv_idle _ _ _ _ _ _ Hidle Hfr) as Hfi. set (w0 := mkVkWorld (v_heap w) (v_vma w) (idle (v_sync w)) (v_cmds w)).
  assert (Hw0 : represents (mkDevice mem (mkFences [] (in_flight_fences (frame_admin (processor r))) (images (idle (v_sync w))))) w0).
  { eapply (idle_represents _ _ _ _ _ w0 Hfi); [apply (wi_pending _ Hidle)|by eapply stores_same, Hst]. }
  destruct (clear_colour_ok idle colour b ins draws r mem _ w Hw0 Hc) as (r' & w' & E & Hw' & pool & Hpool & Hnd' & Hr').
  destruct (clear_colour_commands _ _ _ _ _ _ E (constructed_typed _ _ _ _ _ Hc)) as [_ Hv].
  exists r', w'. split; [done|]. subst r'. split; [|split; [done|split; [done|apply (rp_idle _ _ Hw')]]]. split; cbn; try done.
  - exists mem. split; [apply Hw'|]. by eapply constructed_processor.
  - eapply frames_resume; [exact Hfi|apply (fi_images _ _ _ _ _ Hfi)|exact Hw'].
  - intros f c Hx. by apply (rp_idle _ _ Hw') in Hx.
Qed.

(** ** Draw lists *)

(** Before the views are recorded again, the device has finished with them. *)
Definition clears r w : Prop :=
  ∃ w', clear_rendering_commands (processor r) w = Ok (tt, w') ∧ v_heap w' = v_heap w ∧ v_vma w' = v_vma w ∧
    frame_inv (negb headless) get_view_count (natives r) (frame_admin (processor r)) (v_sync w') ∧
    ∀ p, p ∉ pending (v_sync w').

Lemma session_clear_commands b ins draws r w : headless = false → get_view_count ≤ frames_in_flight →
  session b ins draws r w → clears r w.
Proof.
  unfold clears. intros Hw Hv [[mem [Hst Hc]] Hnd Hfr Hd Hreg Hp Hrec]. rewrite Hw in Hfr, Hd |- *. cbn [negb] in *.
  destruct (st_each_ind (λ done_ w', v_heap w' = v_heap w ∧ v_vma w' = v_vma w ∧
      frame_inv true get_view_count (natives r) (frame_admin (processor r)) (v_sync w') ∧
      (∀ p, p ∈ pending (v_sync w') → p ∈ pending (v_sync w)) ∧
      ∀ k c f, k ∈ done_ → natives r !! k = Some c → (f, c) ∉ pending (v_sync w'))
    (λ i, _ ← on_sync (wait_for (frame_admin (processor r)) i); CommandBuffer_reset (command_pool (processor r)) i)
    (seq 0 get_view_count) w) as (w' & E & Hh & Hm & Hi & Hsub & Hfree).
  - split_and!; try done. by intros k c f ?%elem_of_nil.
  - intros done_ k rest w1 Hl (Hh & Hm & Hi & Hsub & Hfree).
    assert (Hk : k < get_view_count).
    { assert (Hin : k ∈ seq 0 get_view_count) by (rewrite Hl; set_solver). apply elem_of_seq in Hin. lia. }
    destruct (idle_pool_at _ k (vc_pool _ _ _ _ _ Hc)) as [c Hpc]; [lia|].
    assert (Hn : natives r !! k = Some c) by (unfold natives, get_buffer_natives; by rewrite list_lookup_fmap, Hpc).
    destruct (wait_for_outcome _ _ _ _ k c Hi Hk ltac:(lia) Hn) as (s' & E & Hi' & Hno & Hsub').
    eexists. split.
    { rewrite (st_bind_Ok _ _ _ tt (mkVkWorld (v_heap w1) (v_vma w1) s' (v_cmds w1))) by (unfold on_sync; by rewrite E).
      by apply (reset_ok _ _ c). }
    cbn. split_and!; try done; [auto|]. intros k' c' f [Hin| ->%list_elem_of_singleton]%elem_of_app Hc' Hx.
    + by apply (Hfree k' c' f Hin Hc'), Hsub'.
    + simplify_eq. by apply (Hno f).
  - exists w'. split_and!; try done. intros [f c] Hx. destruct (fi_owned _ _ _ _ _ Hfr f c) as (k & Hk & Hlt); [auto|by eauto|].
    apply (Hfree k c f); [|done|done]. apply elem_of_seq. lia.
Qed.

Lemma read_live b ins draws r mem k : vk_constructed b ins draws r mem → read_name ins (buffer_manager r) k → is_Some (mem !! k).
Proof.
  intros Hc [(acc & Ha & Hk)|(j & x & i & Hj & ->)].
  - destruct (vc_geometry _ _ _ _ _ Hc acc Ha) as (_ & _ & [b1 M1] & b2 & M2). destruct Hk as [-> | ->]; by eexists.
  - destruct (vc_uniforms _ _ _ _ _ Hc _ _ _ Hj) as (? & ? & _ & ?). by eexists.
Qed.

(** A recorded draw list replaces the commands and nothing else the views read. *)
Lemma recorded_constructed b ins draws draws' r p' mem mem' : vk_constructed b ins draws r mem →
  recorded (renderer_inputs r) draws' (processor r) p' mem mem' → Forall (λ k, k < length ins) draws' →
  (Z.of_nat (length draws') < modulus32)%Z → vk_constructed b ins draws' (with_processor r p') mem'.
Proof.
  intros Hc [Rp Rd Rc _ Rs Rdy As Ad Rg Rf Rdis] Hr Hl. pose proof (vc_shapes _ _ _ _ _ Hc) as HS.
  assert (Hkeep : ∀ k x, read_name ins (buffer_manager r) k → mem !! k = Some x → mem' !! k = Some x).
  { intros k x Hk Hx. apply Rg; [|done]. intros [Hn|Hn].
    - by apply (vc_apart _ _ _ _ _ Hc StaticFixed k).
    - by apply (vc_apart _ _ _ _ _ Hc DynamicFixed k). }
  unfold draw_bytes in *. rewrite !(draws_of_same_shape _ _ _ _ HS) in *.
  split; cbn; try done; try apply Hc.
  - unfold sets_ok. cbn. rewrite Rd. apply (vc_descriptors _ _ _ _ _ Hc).
  - rewrite Rp. apply (vc_pool _ _ _ _ _ Hc).
  - pose proof (draws_of_length ins draws' Hr). intros []; lia.
  - by intros [].
  - by intros [].
  - intros acc k Hk. destruct (Rf k) as [??]; [by eapply read_live| | |by destruct acc].
    + by apply (vc_apart _ _ _ _ _ Hc StaticFixed k).
    + by apply (vc_apart _ _ _ _ _ Hc DynamicFixed k).
  - intros acc Ha. eapply geometry_in_grows, (vc_geometry _ _ _ _ _ Hc acc Ha). intros k x Hk. apply Hkeep. left. by exists acc.
  - intros j x k Hj. destruct (vc_uniforms _ _ _ _ _ Hc _ _ _ Hj) as (res & blk & Hres & Hm). exists res, blk.
    split; [done|]. apply Hkeep; [|done]. right. by exists j, x, k.
Qed.

Lemma session_record stride b ins draws draws' r w : vk_builder_ok stride b → clears r w →
  session b ins draws r w → draws' ≠ draws → Forall (λ k, k < length ins) draws' → (Z.of_nat (length draws') < modulus32)%Z →
  ∃ r' w', (_ ← clear_rendering_commands (processor r);
            p ← record_draw_list (renderer_inputs r) draws' (processor r);
            p ← record_all r p;
            mret (with_processor r p)) w = Ok (r', w') ∧ session b ins draws' r' w' ∧ clear_colour r' = clear_colour r ∧
    frame_admin (processor r') = frame_admin (processor r).
Proof.
  intros Hb (w1 & E1 & Hh & Hm & Hi & Hno) Hse Hne Hr Hl.
  destruct Hse as [[mem [Hst Hc]] Hnd Hfr Hd Hreg Hp Hrec]. rewrite (st_bind_Ok _ _ _ _ _ E1).
  assert (Hst1 : stores mem w1) by (eapply stores_same, Hst; [done|by rewrite Hm]).
  pose proof (idle_represents _ _ _ _ _ _ Hi Hno Hst1) as Hw1. destruct (copies_ok _ _ _ Hb (vc_copies _ _ _ _ _ Hc)) as (Hok & _).
  destruct (runs_record_draw_list (renderer_inputs r) draws' (processor r) mem
    (mkFences [] (in_flight_fences (frame_admin (processor r))) (images (v_sync w1)))) with (w := w1)
    as (p & d2 & w2 & E2 & Hw2 & m2 & -> & Hre); try done.
  { eapply binding_sizes; [apply (vo_stride _ _ Hb)|exact Hok|apply (vc_shapes _ _ _ _ _ Hc)]. }
  { by rewrite <- (Forall2_length _ _ _ (vc_shapes _ _ _ _ _ Hc)). }
  { rewrite (vc_cache _ _ _ _ _ Hc). congruence. }
  { apply (vc_pool _ _ _ _ _ Hc). }
  { pose proof (vc_commands _ _ _ _ _ Hc) as Hcm. split.
    - intros x Hx. specialize (Hcm StaticFixed). cbn in Hcm. rewrite Hx in Hcm. destruct Hcm as [_ [? ?]]. by eexists.
    - intros x Hx. split; [|by apply (vc_distinct _ _ _ _ _ Hc)]. specialize (Hcm DynamicFixed). cbn in Hcm.
      rewrite Hx in Hcm. destruct Hcm as [_ [? ?]]. by eexists. }
  rewrite (st_bind_Ok _ _ _ _ _ E2). pose proof (recorded_constructed _ _ _ _ _ _ _ _ Hc Hre Hr Hl) as Hc2.
  assert (Hpool : set_pool p (command_pool p) = p) by (by destruct p).
  pose proof (constructed_recordable b ins draws' (with_processor r p) m2
    (mkFences [] (in_flight_fences (frame_admin (processor r))) (images (v_sync w1))) (command_pool p) Hc2 (vc_pool _ _ _ _ _ Hc2)) as Hrc.
  cbn in Hrc. rewrite Hpool in Hrc.
  destruct (runs_record_rendering _ (render_pass r) (pipeline r) (pipeline_layout r) _ _ _ (clear_colour r) _ Hrc w2 Hw2)
    as (p3 & d3 & w3 & E3 & Hw3 & -> & ->). unfold record_all. rewrite (st_bind_Ok _ _ _ _ _ E3).
  eexists _, w3. split; [reflexivity|]. split; [|split; [done|apply (re_admin _ _ _ _ _ _ Hre)]].
  assert (Hnat : natives (with_processor r p) = natives r) by (unfold natives; cbn; by rewrite (re_pool _ _ _ _ _ _ Hre)).
  pose proof (re_admin _ _ _ _ _ _ Hre) as Ha.
  split; rewrite ?Hnat; cbn; rewrite ?Ha; try done.
  - exists m2. split; [apply Hw3|done].
  - eapply frames_resume; [exact Hi|apply (fi_images _ _ _ _ _ Hi)|exact Hw3].
  - intros f c Hx. by apply (rp_idle _ _ Hw3) in Hx.
  - intros i Hi'. apply record_rendering_inv in E3 as (_ & _ & Hvw & _).
    + destruct (Hvw i Hi') as (c & fb & Hn & Hfb & Hcm & _). by exists c, fb.
    + apply (constructed_typed _ _ _ _ _ Hc2).
    + rewrite (re_pool _ _ _ _ _ _ Hre). exact Hnd.
Qed.

Lemma session_render_list stride b ins draws draws' r w : headless = false → vk_builder_ok stride b →
  get_view_count ≤ frames_in_flight → session b ins draws r w → Forall (λ k, k < length ins) draws' →
  (Z.of_nat (length draws') < modulus32)%Z →
  match render_list draws' r w with
  | Ok (r', w') => session b ins draws' r' w' ∧ clear_colour r' = clear_colour r
  | Fault e => acquire_fault e
  end.
Proof.
  intros Hh Hb Hv Hse Hr Hl. unfold render_list, draws_match_cache. pose proof Hse as [[mem [_ Hc]] _ _ _ _ _ _].
  rewrite (vc_cache _ _ _ _ _ Hc). case_bool_decide as Heq.
  { subst draws'. by apply session_render. }
  destruct (session_record stride b ins draws draws' r w Hb) as (r1 & w1 & E & Hse1 & Hcol & _); try done.
  { by eapply session_clear_commands. }
  rewrite (st_bind_Ok _ _ _ _ _ E), <- Hcol. by apply session_render.
Qed.

(** ** From construction on *)

Lemma represents_frames mem F l w : represents (mkDevice mem (add_frames l F)) w →
  represents (mkDevice mem (mkFences [] l (fs_images F))) w.
Proof.
  intros [Hm _ Hg Hn Hi]. cbn in *. split; cbn; try done.
  - intros f Hf. by apply elem_of_nil in Hf.
  - intros f Hf. apply Hg, elem_of_app. by left.
Qed.

(** A first change of the clear colour records what the constructor has set up. *)
Lemma session_start stride rp playout regenerate idle colour b mem F w : vk_builder_ok stride b →
  represents (mkDevice mem F) w → (headless = false → fs_images F = get_view_count) → waits_idle idle →
  (∀ s e, regenerate s = Fault e → acquire_fault e) →
  ∃ r w1 r1 w2 ins, RendererVulkan_new rp playout regenerate b w = Ok (r, w1) ∧
    set_clear_colour idle colour r w1 = Ok (r1, w2) ∧ session b ins (all_inputs_once (b_inputs b)) r1 w2 ∧
    clear_colour r1 = colour ∧ length ins = length (b_inputs b) ∧
    image_index_at_frame (frame_admin (processor r1)) = replicate (if headless then 1 else frames_in_flight) None ∧
    ∀ p, p ∉ pending (v_sync w2).
Proof.
  intros Hb Hw Him Hidle Hreg.
  destruct (runs_renderer_new stride rp playout regenerate b mem F Hb w Hw)
    as (r & d1 & w1 & E1 & Hw1 & ins & m1 & a & -> & Ha & Hadm & Hc).
  destruct (clear_colour_ok idle colour b ins _ r m1 _ w1 (represents_idle _ _ _ Hidle Hw1) Hc)
    as (r' & w2 & E2 & Hw2 & pool & Hpool & Hnd & Hr').
  destruct (clear_colour_commands _ _ _ _ _ _ E2 (constructed_typed _ _ _ _ _ Hc)) as [_ Hv].
  apply represents_frames in Hw2.
  pose proof (Forall2_length _ _ _ (vc_copies _ _ _ _ _ Hc)) as Hlen.
  exists r, w1, r', w2, ins. split; [done|]. split; [done|]. subst r'. split.
  2:{ split_and!; [done|done|cbn; rewrite Hadm; apply (an_frames _ _ Ha)|apply (rp_idle _ _ Hw2)]. }
  assert (all_inputs_once (b_inputs b) = all_inputs_once ins) as -> by (unfold all_inputs_once; by rewrite Hlen).
  assert (Hfi : frame_inv (negb headless) get_view_count (get_buffer_natives pool) a (v_sync w2)).
  { eapply admin_new_inv; [exact Ha|destruct headless; unfold frames_in_flight; lia|exact Hw2|done|].
    destruct headless; [done|intros _; by apply Him]. }
  split; cbn; rewrite ?Hadm; try done.
  - exists m1. split; [apply Hw2|]. by eapply constructed_processor.
  - by destruct Hfi; split.
  - apply (an_depth _ _ Ha).
  - intros f s e [= <-]. apply Hreg.
  - intros f c Hx. by apply (rp_idle _ _ Hw2) in Hx.
Qed.

(** What an application asks of a renderer, and what it then expects to see: a
    draw list and a clear colour. *)
Inductive renderer_op := Render | RenderList (draws : RendererDrawList) | SetClearColour (colour : list Z).

Definition do_op (idle : vk_state → vk_state) (o : renderer_op) r : ST vkworld (RendererVulkan I R) :=
  match o with
  | Render => render r
  | RenderList draws => render_list draws r
  | SetClearColour colour => set_clear_colour idle colour r
  end.

Definition expect (s : RendererDrawList * list Z) (o : renderer_op) : RendererDrawList * list Z :=
  match o with
  | Render => s
  | RenderList draws => (draws, s.2)
  | SetClearColour colour => (s.1, colour)
  end.

Definition op_ok (n : nat) (o : renderer_op) : Prop :=
  match o with RenderList draws => Forall (λ k, k < n) draws ∧ (Z.of_nat (length draws) < modulus32)%Z | _ => True end.

Lemma session_ops stride b ins idle ops draws r w : headless = false → vk_builder_ok stride b →
  get_view_count ≤ frames_in_flight → waits_idle idle → Forall (op_ok (length ins)) ops → session b ins draws r w →
  match st_fold (do_op idle) ops r w with
  | Ok (r', w') => session b ins (foldl expect (draws, clear_colour r) ops).1 r' w' ∧
                   clear_colour r' = (foldl expect (draws, clear_colour r) ops).2
  | Fault e => acquire_fault e
  end.
Proof.
  intros Hh Hb Hv Hidle Hops. revert draws r w. induction Hops as [|o ops Ho _ IH]; intros draws r w Hse; [done|].
  cbn [st_fold foldl]. unfold mbind, ST_bind. destruct o as [|l|colour]; cbn [do_op expect fst snd].
  - pose proof (session_render b ins draws r w Hh Hv Hse) as H. destruct (render r w) as [[r1 w1]|]; [|done].
    destruct H as [H1 <-]. by apply IH.
  - destruct Ho as [Hl Hlen]. pose proof (session_render_list stride b ins draws l r w Hh Hb Hv Hse Hl Hlen) as H.
    destruct (render_list l r w) as [[r1 w1]|]; [|done]. destruct H as [H1 <-]. by apply IH.
  - destruct (session_clear_colour idle colour b ins draws r w Hidle Hse) as (r1 & w1 & -> & H1 & <- & _). by apply IH.
Qed.


End Session.

(** ** Concrete inputs *)

#[local] Instance session_config : BuildConfig := debug_build.
#[local] Existing Instance two_views.

(** A window that is never regenerated. *)
Definition no_regeneration : ST (vk_state (Vk := driver_vk)) unit := λ s, Ok (tt, s).

(** The second mesh twice and the dynamic one, on blue, after some frames. *)
Definition sample_ops : list renderer_op :=
  [Render; Render; RenderList [0; 1; 2]; RenderList []; SetClearColour [0; 0; 1; 1]%Z; RenderList [2; 1; 2]; Render].

