(* ===== verification/VkHeadless.v ===== *)
(** * The Vulkan renderer without a window

    A renderer of a headless application in use: one image, one frame in flight,
    and a [wait_for] that never waits, because a headless frame is not entered in
    the table [wait_for] reads.  So the views may be recorded for other draws only
    while the device is idle, since a command buffer that is pending may not be
    reset; [undisturbed] says which uses of a renderer keep to that, and those
    never stop. *)

From S2P Require Import Prelude Containers Memory RenderTypes Inputs OpenGL OGLRenderer OGLRendererFacts OGLConstruct VkFrame VkCommand VkRenderer VkDriver VkProcessor Backends VkRendererFacts VkProperties VkResources VkDraws VkMemory VkGeometry VkRuns VkConstruct VkUniforms VkScratch VkDrawing VkSession.

Section Headless.
Context `{BC : BuildConfig} `{VM : Vma} {VMS : VmaSpec} {VMU : VmaSucceeds} `{V : Vk} {VS : VkSpec} `{VO : !VkObjects} {VOS : VkObjectsSpec}.
Context {DS : DriverSucceeds} `{TG : Target} {I : Type} `{II : IRendererInput I} {LI : RendererInputLaws I} {R : Type} `{IR : IResource R} {LR : ResourceLaws R}.
Implicit Types (ins : list I) (r : RendererVulkan I R) (draws : RendererDrawList).
Context (Hheadless : headless = true).

Lemma one_view : get_view_count = 1.
Proof. unfold get_view_count. by rewrite Hheadless. Qed.

(** No frame was ever entered. *)
Definition quiet r : Prop := image_index_at_frame (frame_admin (processor r)) = [None].

(** Clearing the commands waits for nothing: it resets the command buffer of the
    view at once, and may do so only when that is not pending. *)
Lemma headless_clears_at_once b ins draws r w : session b ins draws r w → quiet r →
  ∃ c, natives r !! 0 = Some c ∧ buffers (command_pool (processor r)) !! 0 = Some (mkCommandBuffer c false) ∧
    clear_rendering_commands (processor r) w = CommandBuffer_reset (command_pool (processor r)) 0 w.
Proof.
  intros [[mem [_ Hc]] _ _ _ _ _ _] Hq. destruct (idle_pool_at _ 0 (vc_pool _ _ _ _ _ Hc)) as [c Hpc]; [lia|].
  exists c. split; [by unfold natives, get_buffer_natives; rewrite list_lookup_fmap, Hpc|]. split; [done|].
  unfold clear_rendering_commands. rewrite one_view. cbn [seq st_each]. unfold wait_for. rewrite Hq.
  unfold mbind at 1, ST_bind at 1. rewrite (st_bind_Ok _ _ _ tt w) by by destruct w.
  by destruct (CommandBuffer_reset _ 0 w) as [[[] w']|].
Qed.

Lemma headless_clears b ins draws r w : session b ins draws r w → quiet r → (∀ p, p ∉ pending (v_sync w)) → clears r w.
Proof.
  intros Hse Hq Hp. destruct (headless_clears_at_once _ _ _ _ _ Hse Hq) as (c & _ & Hb & E).
  rewrite (reset_ok _ _ c) in E by (try done; intros f; apply Hp).
  eexists. split; [exact E|]. cbn. split_and!; try done. apply (se_frames _ _ _ _ _ Hse).
Qed.

(** A frame never stops, and leaves the device at work. *)
Lemma headless_render b ins draws r w : session b ins draws r w → quiet r →
  ∃ r' w', render r w = Ok (r', w') ∧ session b ins draws r' w' ∧ clear_colour r' = clear_colour r ∧ quiet r'.
Proof.
  intros [[mem [Hst Hc]] Hnd Hfr Hd Hreg Hp Hrec] Hq. rewrite Hheadless in Hd, Hfr. cbn [negb] in Hfr.
  assert (Hlen : 1 ≤ length (natives r)).
  { unfold natives, get_buffer_natives. rewrite length_fmap. destruct (vc_pool _ _ _ _ _ Hc) as [-> _]. lia. }
  destruct (headless_frame_outcome (natives r) [ColourAttachmentOutput] (frame_admin (processor r)) (v_sync w))
    as (a & s & E & Hi & Hd' & Hr' & _ & Hf' & Hp' & _).
  - by rewrite Hd, <- one_view.
  - by rewrite Hd.
  - done.
  - assert (Hqa : image_index_at_frame a = [None]).
    { rewrite <- Hq. unfold render_frame_headless in E.
      repeat (apply st_bind_inv in E as (? & ? & _ & E)). by injection E as <- <-. }
    unfold render, Processor_render. rewrite Hheadless. unfold mbind, ST_bind, on_sync. fold (natives r). rewrite E. cbn.
    do 2 eexists. split; [reflexivity|]. split; [|done]. split; cbn; rewrite ?Hheadless; try done.
    + exists mem. split; [by eapply stores_same, Hst|]. eapply constructed_processor; [exact Hc|done..|]. apply (vc_pool _ _ _ _ _ Hc).
    + by rewrite one_view, <- Hd.
    + congruence.
    + intros f s' e. rewrite Hr'. apply Hreg.
    + rewrite Hf'. intros f c Hx. destruct (Hp' f c Hx); eauto.
Qed.

(** ** Undisturbed uses *)

(** The draw list is changed only while the device is idle, which it is after a
    change of the clear colour and not after a frame. *)
Fixpoint undisturbed (busy : bool) (draws : RendererDrawList) (ops : list renderer_op) : Prop :=
  match ops with
  | [] => True
  | Render :: ops => undisturbed true draws ops
  | RenderList draws' :: ops => (busy = true → draws' = draws) ∧ undisturbed true draws' ops
  | SetClearColour _ :: ops => undisturbed false draws ops
  end.

Lemma headless_render_list stride b ins draws draws' r w : vk_builder_ok stride b → session b ins draws r w → quiet r →
  (draws' ≠ draws → ∀ p, p ∉ pending (v_sync w)) →
  Forall (λ k, k < length ins) draws' → (Z.of_nat (length draws') < modulus32)%Z →
  ∃ r' w', render_list draws' r w = Ok (r', w') ∧ session b ins draws' r' w' ∧ clear_colour r' = clear_colour r ∧ quiet r'.
Proof.
  intros Hb Hse Hq Hp Hr Hl. unfold render_list, draws_match_cache. pose proof Hse as [[mem [_ Hc]] _ _ _ _ _ _].
  rewrite (vc_cache _ _ _ _ _ Hc). case_bool_decide as Heq.
  { subst draws'. by apply headless_render. }
  destruct (session_record stride b ins draws draws' r w Hb) as (r1 & w1 & E & Hse1 & Hcol & Ha); try done.
  { apply (headless_clears _ _ _ _ _ Hse Hq), Hp. congruence. }
  rewrite (st_bind_Ok _ _ _ _ _ E), <- Hcol. eapply headless_render; [done|]. unfold quiet. by rewrite Ha.
Qed.

Lemma headless_ops stride b ins idle ops busy draws r w : vk_builder_ok stride b → waits_idle idle →
  Forall (op_ok (length ins)) ops → undisturbed busy draws ops → session b ins draws r w → quiet r →
  (busy = false → ∀ p, p ∉ pending (v_sync w)) →
  ∃ r' w', st_fold (do_op idle) ops r w = Ok (r', w') ∧
    session b ins (foldl expect (draws, clear_colour r) ops).1 r' w' ∧
    clear_colour r' = (foldl expect (draws, clear_colour r) ops).2.
Proof.
  intros Hb Hidle Hops. revert busy draws r w. induction Hops as [|o ops Ho _ IH]; intros busy draws r w Hu Hse Hq Hp.
  { by exists r, w. }
  cbn [st_fold foldl]. destruct o as [|l|colour]; cbn [do_op expect fst snd undisturbed] in *.
  - destruct (headless_render b ins draws r w Hse Hq) as (r1 & w1 & E & H1 & <- & Hq1).
    rewrite (st_bind_Ok _ _ _ _ _ E). by eapply IH.
  - destruct Ho as [Hl Hlen], Hu as [Hsame Hu].
    destruct (headless_render_list stride b ins draws l r w) as (r1 & w1 & E & H1 & <- & Hq1); try done.
    { intros Hne. apply Hp. destruct busy; [|done]. by destruct Hne; apply Hsame. }
    rewrite (st_bind_Ok _ _ _ _ _ E). by eapply IH.
  - destruct (session_clear_colour idle colour b ins draws r w Hidle Hse) as (r1 & w1 & E & H1 & <- & Ha & Hp1).
    rewrite (st_bind_Ok _ _ _ _ _ E). eapply IH; [exact Hu|done|unfold quiet; by rewrite Ha|done].
Qed.

Lemma headless_session_runs stride (b : RendererBuilderVulkan I R) rp playout regenerate idle colour ops d w :
  vk_builder_ok stride b → represents d w → waits_idle idle → (∀ s e, regenerate s = Fault e → acquire_fault e) →
  Forall (op_ok (length (b_inputs b))) ops → undisturbed false (all_inputs_once (b_inputs b)) ops →
  ∃ r w1 r1 w2 r' w' ins, RendererVulkan_new rp playout regenerate b w = Ok (r, w1) ∧
    set_clear_colour idle colour r w1 = Ok (r1, w2) ∧ st_fold (do_op idle) ops r1 w2 = Ok (r', w') ∧
    let s := foldl expect (all_inputs_once (b_inputs b), colour) ops in
    session b ins s.1 r' w' ∧ clear_colour r' = s.2.
Proof.
  intros Hb Hw Hidle Hreg Hops Hu. destruct d as [mem F].
  destruct (session_start stride rp playout regenerate idle colour b mem F w)
    as (r & w1 & r1 & w2 & ins & E1 & E2 & Hse & Hcol & Hlen & Hq & Hp); try done.
  { intros H. by rewrite Hheadless in H. }
  rewrite Hheadless in Hq. rewrite <- Hlen in Hops.
  destruct (headless_ops stride b ins idle ops false _ r1 w2 Hb Hidle Hops Hu Hse Hq ltac:(done)) as (r' & w' & E & H & Hc').
  rewrite Hcol in H, Hc'. by exists r, w1, r1, w2, r', w', ins.
Qed.


End Headless.

(** ** Concrete inputs *)

#[local] Instance headless_config : BuildConfig := debug_build.

#[local] Instance offscreen_target : Target :=
  {| headless := true; image_views := []; offscreen_image := 500; target_width := 256; target_height := 256 |}.

(** Another draw list at first, frames, and the first list again on blue. *)
Definition headless_use : list renderer_op :=
  [RenderList [2; 1; 2]; Render; Render; SetClearColour [0; 0; 1; 1]%Z; RenderList [0; 1; 2]; Render].

Lemma headless_builder_ok : vk_builder_ok 56 sample_builder.
Proof. destruct vk_sample_builder_ok. by split. Qed.


(** A frame, then another draw list: nothing waits for the frame, and the driver
    refuses the reset of the command buffer that is pending. *)
Example headless_disturbed :
  match RendererVulkan_new 900 901 no_regeneration sample_builder new_device with
  | Ok (r, w1) => match st_fold (do_op finish_all) [SetClearColour [1; 0; 0; 1]%Z; Render] r w1 with
    | Ok (r1, w2) => render_list [2; 1; 2] r1 w2
    | Fault _ => Fault NullDeref end
  | Fault _ => Fault NullDeref end = Fault Misuse.
Proof. vm_compute. reflexivity. Qed.
