(* ===== verification/BackendSession.v ===== *)
(** * The two back ends in use

    The same inputs, draw lists and clear colours given to a renderer of each
    back end: the frame OpenGL draws next and the views Vulkan has recorded show
    the same meshes on the same colour. *)

From S2P Require Import Prelude Containers Memory RenderTypes Inputs OpenGL OGLRenderer OGLRendererFacts OGLConstruct OGLProperties OGLSession VkFrame VkCommand VkRenderer VkDriver VkProcessor Backends VkRendererFacts VkProperties VkResources VkDraws VkMemory VkGeometry VkRuns VkConstruct VkUniforms VkScratch VkDrawing VkSession.

(** What is asked of both renderers, in a window of a size. *)
Definition to_ogl (window : Z * Z) (o : VkSession.renderer_op) : OGLSession.renderer_op :=
  match o with
  | VkSession.Render => OGLSession.Render window
  | VkSession.RenderList draws => OGLSession.RenderList window draws
  | VkSession.SetClearColour colour => OGLSession.SetClearColour colour
  end.

(** The meshes of a frame, and the colour it was cleared to. *)
Definition frame_meshes (f : list event) : list (list (list Z)) :=
  omap (λ e, match e with Drew _ _ _ _ vertices => Some vertices | _ => None end) f.
Definition frame_colours (f : list event) : list (list Z) :=
  omap (λ e, match e with Cleared _ _ colour => Some colour | _ => None end) f.

Lemma meshes_of_frame stride pass output program textures window s :
  let f := frame stride pass output program textures window s in
  frame_meshes f = drawn stride StaticFixed (sc_meshes s) (sc_draws s) ++ drawn stride DynamicFixed (sc_meshes s) (sc_draws s) ∧
  frame_colours f = [sc_colour s].
Proof.
  cbv zeta. unfold frame, frame_meshes, frame_colours. cbn [omap list_omap].
  split; [|f_equal]; induction (drawn _ _ _ _ ++ drawn _ _ _ _) as [|m l IH]; cbn; congruence.
Qed.

Lemma drawn_models {I} `{IRendererInput I} stride acc (ins : list I) draws :
  drawn stride acc (map model_of ins) draws = drawn stride acc ins draws.
Proof. unfold drawn. apply list_omap_ext, Forall_Forall2_diag, Forall_true. intros k. rewrite list_lookup_fmap. by destruct (ins !! k). Qed.

Lemma frames_app show ops ops' s : frames show (ops ++ ops') s = frames show ops s ++ frames show ops' (foldl (flip scene_step) s ops).
Proof. revert s. induction ops as [|o ops IH]; intros s; [done|]. cbn [frames app foldl flip]. by rewrite IH, app_assoc. Qed.

Lemma ops_ok_app ops ops' s : ops_ok s ops → ops_ok (foldl (flip scene_step) s ops) ops' → ops_ok s (ops ++ ops').
Proof. revert s. induction ops as [|o ops IH]; intros s; [done|]. intros [Ho Hok] H. split; [done|]. by apply IH. Qed.

(** Both expect the same. *)
Lemma scene_expects window ops s : let s' := foldl (flip scene_step) s (map (to_ogl window) ops) in
  sc_meshes s' = sc_meshes s ∧ (sc_draws s', sc_colour s') = foldl expect (sc_draws s, sc_colour s) ops.
Proof.
  cbv zeta. revert s. induction ops as [|o ops IH]; intros s; [done|]. cbn [map foldl flip]. destruct (IH (scene_step (to_ogl window o) s)) as [-> ->].
  destruct o as [|draws|colour]; cbn; try done. unfold show_list. by case_bool_decide as E; cbn; [rewrite <- E|].
Qed.

Section Alike.
Context `{BC : BuildConfig} `{G : GL} {GS : GLSpec} `{VM : Vma} {VMS : VmaSpec} {VMU : VmaSucceeds} `{V : Vk} {VS : VkSpec} `{VO : !VkObjects} {VOS : VkObjectsSpec}.
Context {DS : DriverSucceeds} `{TG : Target} {I : Type} `{II : IRendererInput I} {LI : RendererInputLaws I} {R : Type} `{IR : IResource R} {LR : ResourceLaws R}.


End Alike.

(** ** Concrete inputs *)

#[local] Instance alike_config : BuildConfig := debug_build.
#[local] Existing Instance two_views.

(** The inputs of the Vulkan builder, for OpenGL. *)
Definition same_inputs : RendererBuilderOGL input resource :=
  OGLRenderer.mkBuilder (VkRenderer.b_inputs VkDriver.sample_builder) ColourDepth (Some Window) [] [] (Some 1%Z) (Some NoCulling).

Lemma same_inputs_ok : builder_ok 56 same_inputs.
Proof.
  split; try (by eauto).
  - repeat (constructor; [split; [eexists _, _; done|]; split; [done|]; split; [done|];
      repeat constructor; cbn; lia|]). constructor.
  - by repeat constructor.
  - intros []; vm_compute; done.
  - intros []; vm_compute; done.
  - repeat constructor; done.
Qed.

Lemma same_ops_ok : ops_ok (new_scene same_inputs []) (map (to_ogl (800, 600)%Z) VkSession.sample_ops).
Proof.
  unfold VkSession.sample_ops. cbn [map to_ogl ops_ok].
  repeat lazymatch goal with
  | |- OGLSession.op_ok _ (OGLSession.RenderList _ _) ∧ _ =>
      split; [split; [repeat (constructor; [vm_compute; lia|]); constructor|intros []; vm_compute; lia]|]
  | |- OGLSession.op_ok _ _ ∧ _ => split; [exact Logic.I|]
  | |- True => exact Logic.I
  end.
Qed.

