(* ===== verification/VkRenderPass.v ===== *)
(** * Render passes

    [Attachment] (gl/impl/backend/vk/attachment.{hpp,cpp}), [RenderSubpass],
    [RenderPassBuilder] and [RenderPass] (gl/impl/backend/vk/render_pass.{hpp,inl,cpp}),
    [RenderPassBuilderVulkan] and [RenderPassVulkan]
    (gl/impl/frontend/vk/render_pass.{hpp,cpp}),
    [DeviceFunctionalityVulkan::vk_create_render_pass] (gl/impl/frontend/vk/device.cpp)
    and [RendererVulkan::make_simple_render_pass] (gl/impl/frontend/vk/renderer.cpp).

    A subpass points to the builder it was added to, and builders are copied on
    their way to the device.  Builders that are alive are kept in a store; a
    subpass has the address of its parent there, which a copy of the subpass
    keeps. *)

From S2P Require Import Prelude Containers Memory RenderTypes Inputs VkFrame VkCommand VkRenderer VkDriver VkProcessor.

(** ** Attachment *)

Inductive LoadOperation := Load | Clear | LoadDontCare.
Inductive StoreOperation := Store | StoreDontCare.

#[export] Instance LoadOperation_eq_dec : EqDecision LoadOperation.
Proof. solve_decision. Defined.
#[export] Instance StoreOperation_eq_dec : EqDecision StoreOperation.
Proof. solve_decision. Defined.

(** A [VkAttachmentDescription] with one sample; a format is the number of the
    [VkFormat] ([Image::Format] is cast from and to it). *)
Record Attachment := mkAttachment {
  get_format : Z;
  get_colour_depth_load_operation : LoadOperation; get_colour_depth_store_operation : StoreOperation;
  get_stencil_load_operation : LoadOperation; get_stencil_store_operation : StoreOperation;
  get_initial_image_layout : Layout; get_final_image_layout : Layout }.

#[export] Instance Attachment_eq_dec : EqDecision Attachment.
Proof. solve_decision. Defined.

Definition Format_Undefined : Z := 0.
Definition Format_DepthFloat32 : Z := 126.

(** The constructor without stencil operations. *)
Definition Attachment_new (format : Z) (colour_depth_load : LoadOperation) (colour_depth_store : StoreOperation)
    (initial_layout final_layout : Layout) : Attachment :=
  mkAttachment format colour_depth_load colour_depth_store LoadDontCare StoreDontCare initial_layout final_layout.

Definition set_format (a : Attachment) (format : Z) : Attachment :=
  mkAttachment format (get_colour_depth_load_operation a) (get_colour_depth_store_operation a)
    (get_stencil_load_operation a) (get_stencil_store_operation a)
    (get_initial_image_layout a) (get_final_image_layout a).

Definition set_colour_depth_load_operation (a : Attachment) (op : LoadOperation) : Attachment :=
  mkAttachment (get_format a) op (get_colour_depth_store_operation a)
    (get_stencil_load_operation a) (get_stencil_store_operation a) (get_initial_image_layout a) (get_final_image_layout a).

Definition set_colour_depth_store_operation (a : Attachment) (op : StoreOperation) : Attachment :=
  mkAttachment (get_format a) (get_colour_depth_load_operation a) op
    (get_stencil_load_operation a) (get_stencil_store_operation a) (get_initial_image_layout a) (get_final_image_layout a).

Definition set_stencil_load_operation (a : Attachment) (op : LoadOperation) : Attachment :=
  mkAttachment (get_format a) (get_colour_depth_load_operation a) (get_colour_depth_store_operation a)
    op (get_stencil_store_operation a) (get_initial_image_layout a) (get_final_image_layout a).

Definition set_stencil_store_operation (a : Attachment) (op : StoreOperation) : Attachment :=
  mkAttachment (get_format a) (get_colour_depth_load_operation a) (get_colour_depth_store_operation a)
    (get_stencil_load_operation a) op (get_initial_image_layout a) (get_final_image_layout a).

Definition set_initial_image_layout (a : Attachment) (op : Layout) : Attachment :=
  mkAttachment (get_format a) (get_colour_depth_load_operation a) (get_colour_depth_store_operation a)
    (get_stencil_load_operation a) (get_stencil_store_operation a) op (get_final_image_layout a).

Definition set_final_image_layout (a : Attachment) (l : Layout) : Attachment :=
  mkAttachment (get_format a) (get_colour_depth_load_operation a) (get_colour_depth_store_operation a)
    (get_stencil_load_operation a) (get_stencil_store_operation a) (get_initial_image_layout a) l.

(** [operator==]. *)
Definition attachment_eqb (a b : Attachment) : bool :=
  (get_format a =? get_format b)%Z
  && bool_decide (get_colour_depth_load_operation a = get_colour_depth_load_operation b)
  && bool_decide (get_colour_depth_store_operation a = get_colour_depth_store_operation b)
  && bool_decide (get_stencil_load_operation a = get_stencil_load_operation b)
  && bool_decide (get_stencil_store_operation a = get_stencil_store_operation b)
  && bool_decide (get_initial_image_layout a = get_initial_image_layout b)
  && bool_decide (get_final_image_layout a = get_final_image_layout b).

(** ** RenderPassBuilder and RenderSubpass *)

Record RenderSubpass := mkSubpass {
  parent : nat; attachments : list Attachment; attachments_offset : nat }.

(** A [RenderPassBuilderVulkan] and the [vk::RenderPassBuilder] in it. *)
Record RenderPassBuilder := mkPassBuilder { subpasses : list RenderSubpass; passes : list RenderPassAttachment }.

Definition pass_builder_new : RenderPassBuilder := mkPassBuilder [] [].

(** The builders that are alive, by address. *)
Definition store : Type := gmap nat RenderPassBuilder.

Definition builder_at (st : store) (a : nat) : res RenderPassBuilder := of_option OutOfBounds (st !! a).

Definition get_attachments (b : RenderPassBuilder) : list Attachment :=
  foldl (λ all_attachments subpass, foldl (λ all a, all ++ [a]) all_attachments (attachments subpass)) [] (subpasses b).

Definition has_depth_attachment (b : RenderPassBuilder) : bool :=
  existsb (λ a, (get_format a =? Format_DepthFloat32)%Z) (get_attachments b).

Definition remove_subpass (b : RenderPassBuilder) (subpass : nat) : res RenderPassBuilder :=
  if subpass <? length (subpasses b)
  then Ok (mkPassBuilder (take subpass (subpasses b) ++ drop (S subpass) (subpasses b)) (passes b))
  else Fault OutOfBounds.

Definition RenderSubpass_new (self : nat) (b : RenderPassBuilder) (atts : list Attachment) : RenderSubpass :=
  mkSubpass self atts (length (get_attachments b)).

(** [RenderPassBuilder::with] on the builder at [self]. *)
Definition with_ (self : nat) (atts : list Attachment) (b : RenderPassBuilder) : RenderPassBuilder :=
  mkPassBuilder (subpasses b ++ [RenderSubpass_new self b atts]) (passes b).

(** [std::find] and [std::find_if] with [operator==]: the first position. *)
Fixpoint find_attachment (a : Attachment) (l : list Attachment) : option nat :=
  match l with
  | [] => None
  | x :: l => if attachment_eqb x a then Some 0 else S <$> find_attachment a l
  end.

Section RenderPass.
Context `{BC : BuildConfig}.

(** Without the assertion an attachment that is not found has the number of
    attachments as its index. *)
Definition get_attachment_id (st : store) (this : RenderSubpass) (attachment : Attachment) : res nat :=
  match find_attachment attachment (attachments this) with
  | Some local_index => Ok (attachments_offset this + local_index)
  | None =>
      b ← builder_at st (parent this);
      let parent_list := get_attachments b in
      let global := find_attachment attachment parent_list in
      _ ← tz_assert (bool_decide (is_Some global));
      Ok (default (length parent_list) global)
  end.

(** [VkAttachmentReference] and the references of a [Description]; the input
    and preserved attachments stay empty. *)
Record AttachmentReference := mkRef { ref_attachment : Z; ref_layout : Layout }.

Record Description := mkDescription {
  referenced_colour_attachments : list AttachmentReference;
  referenced_depth_stencil_attachments : option AttachmentReference }.

Definition describe_attachment (st : store) (this : RenderSubpass) (a : Attachment) (desc : Description)
    : res Description :=
  id ← get_attachment_id st this a;
  let id := u32 (Z.of_nat id) in
  match get_final_image_layout a with
  | LayoutPresent | LayoutTransferSource | ColourAttachment =>
      Ok (mkDescription (referenced_colour_attachments desc ++ [mkRef id ColourAttachment])
            (referenced_depth_stencil_attachments desc))
  | DepthAttachment =>
      _ ← tz_assert (bool_decide (referenced_depth_stencil_attachments desc = None));
      Ok (mkDescription (referenced_colour_attachments desc) (Some (mkRef id DepthAttachment)))
  | _ => _ ← tz_error; Ok desc
  end.

Definition describe (st : store) (this : RenderSubpass) : res Description :=
  b ← builder_at st (parent this);
  for_each (describe_attachment st this) (get_attachments b) (mkDescription [] None).

(** ** RenderPass: what is passed to [vkCreateRenderPass] *)

Inductive dep_stage := COLOR_ATTACHMENT_OUTPUT | EARLY_FRAGMENT_TESTS.
Inductive dep_access := COLOR_ATTACHMENT_WRITE | DEPTH_STENCIL_ATTACHMENT_WRITE.

Record RenderPassCreateInfo := mkRenderPassInfo {
  pAttachments : list Attachment;
  pSubpasses : list Description;
  srcStageMask : list dep_stage; dstStageMask : list dep_stage; dstAccessMask : list dep_access }.

Definition RenderPass_new (st : store) (builder : RenderPassBuilder) : res RenderPassCreateInfo :=
  descriptions ← for_each (λ subpass l, d ← describe st subpass; Ok (l ++ [d])) (subpasses builder) [];
  let depth := has_depth_attachment builder in
  Ok (mkRenderPassInfo (get_attachments builder) descriptions
        (COLOR_ATTACHMENT_OUTPUT :: if depth then [EARLY_FRAGMENT_TESTS] else [])
        (COLOR_ATTACHMENT_OUTPUT :: if depth then [EARLY_FRAGMENT_TESTS] else [])
        (COLOR_ATTACHMENT_WRITE :: if depth then [DEPTH_STENCIL_ATTACHMENT_WRITE] else [])).

(** ** RenderPassBuilderVulkan *)

Definition default_colour_attachment : Attachment :=
  Attachment_new Format_Undefined Clear Store LayoutUndefined ColourAttachment.

Definition default_depth_attachment : Attachment :=
  mkAttachment Format_DepthFloat32 Clear Store LoadDontCare StoreDontCare LayoutUndefined DepthAttachment.

Definition pass_attachments (p : RenderPassAttachment) : list Attachment :=
  match p with
  | Colour => [default_colour_attachment]
  | Depth => [default_depth_attachment]
  | ColourDepth => [default_colour_attachment; default_depth_attachment]
  end.

Definition add_pass (self : nat) (p : RenderPassAttachment) (b : RenderPassBuilder) : RenderPassBuilder :=
  let b := with_ self (pass_attachments p) b in
  mkPassBuilder (subpasses b) (passes b ++ [p]).

Definition is_placeholder (a : Attachment) : bool := (get_format a =? Format_Undefined)%Z.

(** Change the first placeholder of a subpass, if there is one. *)
Fixpoint mark_first (l : Layout) (atts : list Attachment) : option (list Attachment) :=
  match atts with
  | [] => None
  | a :: atts =>
      if is_placeholder a then Some (set_final_image_layout a l :: atts) else (a ::.) <$> mark_first l atts
  end.

Definition with_attachments (sp : RenderSubpass) (atts : list Attachment) : RenderSubpass :=
  mkSubpass (parent sp) atts (attachments_offset sp).

(** [get_last_colour_attachment] walks the subpasses from the last one. *)
Fixpoint mark_last (l : Layout) (rev_subpasses : list RenderSubpass) : list RenderSubpass :=
  match rev_subpasses with
  | [] => []
  | sp :: rest =>
      match mark_first l (attachments sp) with
      | Some atts => with_attachments sp atts :: rest
      | None => sp :: mark_last l rest
      end
  end.

Definition replace_placeholder (format : Z) (a : Attachment) : Attachment :=
  if is_placeholder a then set_format a format else a.

Definition vk_finalise (headless : bool) (colour_attachment_format : Z) (b : RenderPassBuilder) : RenderPassBuilder :=
  let l := if headless then LayoutTransferSource else LayoutPresent in
  let sps := rev (mark_last l (rev (subpasses b))) in
  mkPassBuilder
    (map (λ sp, with_attachments sp (map (replace_placeholder colour_attachment_format) (attachments sp))) sps)
    (passes b).

Record RenderPassVulkan := mkRenderPass {
  rp_info : RenderPassCreateInfo; colour_attachment_format : Z; rp_has_depth_attachment : bool }.

Definition RenderPassVulkan_new (st : store) (builder : RenderPassBuilder) (format : Z) : res RenderPassVulkan :=
  info ← RenderPass_new st builder;
  Ok (mkRenderPass info format (bool_decide (ColourDepth ∈ passes builder))).

Definition pass_requires_depth_image (p : RenderPassVulkan) : bool := rp_has_depth_attachment p.

(** The parameter [builder] is a copy of the caller's. *)
Definition vk_create_render_pass (headless : bool) (format : Z) (st : store) (builder : RenderPassBuilder)
    : res RenderPassVulkan :=
  let builder := vk_finalise headless format builder in
  RenderPassVulkan_new st builder format.

(** The local [pass_builder] lives at a free address of the store. *)
Definition make_simple_render_pass (headless : bool) (format : Z) (st : store) (pass : RenderPassAttachment)
    : res RenderPassVulkan :=
  let self := fresh (dom st) in
  let pass_builder := add_pass self pass pass_builder_new in
  vk_create_render_pass headless format (<[self := pass_builder]> st) pass_builder.

End RenderPass.

(** ** The attachments of a builder *)

Lemma foldl_push (l acc : list Attachment) : foldl (λ all a, all ++ [a]) acc l = acc ++ l.
Proof. revert acc. induction l as [|a l IH]; intros acc; simpl; [by rewrite app_nil_r|]. by rewrite IH, <- app_assoc. Qed.

Lemma foldl_push_all (sps : list RenderSubpass) acc :
  foldl (λ all_attachments subpass, foldl (λ all a, all ++ [a]) all_attachments (attachments subpass)) acc sps =
  acc ++ concat (map attachments sps).
Proof.
  revert acc. induction sps as [|sp l IH]; intros acc; simpl; [by rewrite app_nil_r|].
  by rewrite foldl_push, IH, <- app_assoc.
Qed.

Lemma get_attachments_concat b : get_attachments b = concat (map attachments (subpasses b)).
Proof. unfold get_attachments. by rewrite foldl_push_all. Qed.

Lemma attachment_eqb_spec a b : attachment_eqb a b = true ↔ a = b.
Proof.
  unfold attachment_eqb. rewrite !andb_true_iff, Z.eqb_eq, !bool_decide_eq_true. destruct a, b; simpl. split; [|by intros [= -> -> -> -> -> -> ->]].
  by intros [[[[[[-> ->] ->] ->] ->] ->] ->].
Qed.

Lemma attachment_eqb_refl a : attachment_eqb a a = true.
Proof. by apply attachment_eqb_spec. Qed.

Lemma attachment_eqb_ne a b : a ≠ b → attachment_eqb a b = false.
Proof. intros H. apply not_true_is_false. by rewrite attachment_eqb_spec. Qed.

Lemma find_attachment_none a l : a ∉ l → find_attachment a l = None.
Proof.
  induction l as [|x l IH]; intros H; simpl; [done|]. apply not_elem_of_cons in H as [Hx H].
  rewrite attachment_eqb_ne by done. by rewrite IH.
Qed.

Lemma find_attachment_first a l1 l2 : a ∉ l1 → find_attachment a (l1 ++ a :: l2) = Some (length l1).
Proof.
  induction l1 as [|x l1 IH]; intros H; simpl; [by rewrite attachment_eqb_refl|].
  apply not_elem_of_cons in H as [Hx H]. rewrite attachment_eqb_ne by done. by rewrite IH.
Qed.

Lemma find_attachment_elem a l : a ∈ l → ∃ i, find_attachment a l = Some i.
Proof.
  induction 1 as [|a x l H [i IH]]; simpl; [by rewrite attachment_eqb_refl; eauto|].
  destruct (attachment_eqb x a); eauto. rewrite IH. eauto.
Qed.

(** The builder that [add_pass] makes of a list of passes. *)
Definition built (self : nat) (ps : list RenderPassAttachment) : RenderPassBuilder :=
  foldl (λ b p, add_pass self p b) pass_builder_new ps.

Definition all_attachments (ps : list RenderPassAttachment) : list Attachment := concat (map pass_attachments ps).

Lemma built_snoc self ps p : built self (ps ++ [p]) = add_pass self p (built self ps).
Proof. unfold built. by rewrite foldl_app. Qed.

Lemma built_attachments self ps : get_attachments (built self ps) = all_attachments ps.
Proof.
  unfold all_attachments. induction ps as [|p ps IH] using rev_ind; [done|].
  rewrite built_snoc, get_attachments_concat in *. simpl. rewrite map_app, concat_app, IH, map_app, concat_app. simpl.
  by rewrite app_nil_r.
Qed.

Lemma built_passes self ps : passes (built self ps) = ps.
Proof. induction ps as [|p ps IH] using rev_ind; [done|]. rewrite built_snoc. simpl. by rewrite IH. Qed.

Lemma built_subpasses self ps : subpasses (built self ps) =
  imap (λ i p, mkSubpass self (pass_attachments p) (length (all_attachments (take i ps)))) ps.
Proof.
  induction ps as [|p ps IH] using rev_ind; [done|].
  rewrite built_snoc, imap_app. simpl. rewrite IH. f_equal.
  - apply imap_ext. intros i x Hi. simpl. rewrite take_app_le; [done|]. apply lookup_lt_Some in Hi. lia.
  - unfold RenderSubpass_new. rewrite built_attachments, Nat.add_0_r, take_app_length. done.
Qed.

(** ** Finalising *)

(** The attachments of a pass with [c] as its colour attachment. *)
Definition shape (c : Attachment) (p : RenderPassAttachment) : list Attachment :=
  match p with
  | Colour => [c]
  | Depth => [default_depth_attachment]
  | ColourDepth => [c; default_depth_attachment]
  end.

Definition colour_with (format : Z) (l : Layout) : Attachment := Attachment_new format Clear Store LayoutUndefined l.

Definition has_colour (p : RenderPassAttachment) : bool := bool_decide (p ≠ Depth).

(** The layout of the colour attachment of pass [i]: presented if it is in the
    last pass that has one. *)
Definition last_colour (ps : list RenderPassAttachment) (i : nat) : bool :=
  negb (existsb has_colour (drop (S i) ps)).

Definition final_layout (headless : bool) (ps : list RenderPassAttachment) (i : nat) : Layout :=
  if last_colour ps i then (if headless then LayoutTransferSource else LayoutPresent) else ColourAttachment.

Definition finalised (headless : bool) (format : Z) (ps : list RenderPassAttachment) : list (list Attachment) :=
  imap (λ i p, shape (colour_with format (final_layout headless ps i)) p) ps.

Lemma mark_first_shape l c p : is_placeholder c = true →
  mark_first l (shape c p) = if has_colour p then Some (shape (set_final_image_layout c l) p) else None.
Proof. intros Hc. destruct p; simpl; by rewrite ?Hc. Qed.

Lemma mark_last_app l sps sp :
  rev (mark_last l (rev (sps ++ [sp]))) =
  match mark_first l (attachments sp) with
  | Some atts => sps ++ [with_attachments sp atts]
  | None => rev (mark_last l (rev sps)) ++ [sp]
  end.
Proof.
  rewrite rev_app_distr. cbn [rev app mark_last]. destruct (mark_first l (attachments sp)); cbn [rev]; [|done].
  by rewrite rev_involutive.
Qed.

Lemma last_colour_snoc ps p i : i < length ps → last_colour (ps ++ [p]) i = negb (has_colour p) && last_colour ps i.
Proof.
  intros Hi. unfold last_colour. rewrite drop_app_le by lia. rewrite existsb_app. simpl.
  rewrite orb_false_r, negb_orb. apply andb_comm.
Qed.

Lemma last_colour_end ps p : last_colour (ps ++ [p]) (length ps) = true.
Proof. unfold last_colour. rewrite drop_ge; [done|]. rewrite length_app. simpl. lia. Qed.

(** The subpasses before formats are replaced. *)
Lemma mark_last_built l self ps :
  rev (mark_last l (rev (subpasses (built self ps)))) =
  imap (λ i p, mkSubpass self (shape (colour_with Format_Undefined (if last_colour ps i then l else ColourAttachment)) p)
                 (length (all_attachments (take i ps)))) ps.
Proof.
  induction ps as [|p ps IH] using rev_ind; [done|].
  rewrite built_snoc. simpl. rewrite mark_last_app. simpl.
  assert (Hp : pass_attachments p = shape default_colour_attachment p) by by destruct p. rewrite Hp, mark_first_shape by done.
  rewrite imap_app. cbn [imap]. unfold compose. rewrite !Nat.add_0_r, last_colour_end, take_app_length.
  unfold RenderSubpass_new. rewrite built_attachments.
  destruct (has_colour p) eqn:Hc.
  - f_equal. rewrite built_subpasses. apply imap_ext. intros i x Hi.
    assert (i < length ps) by by eapply lookup_lt_Some. rewrite last_colour_snoc, Hc, take_app_le by lia. by destruct x.
  - rewrite IH. f_equal; [|destruct p; done]. apply imap_ext. intros i x Hi.
    assert (i < length ps) by by eapply lookup_lt_Some. by rewrite last_colour_snoc, Hc, take_app_le by lia.
Qed.

Lemma finalise_built headless format self ps :
  subpasses (vk_finalise headless format (built self ps)) =
  imap (λ i p, mkSubpass self (shape (colour_with format (final_layout headless ps i)) p)
                 (length (all_attachments (take i ps)))) ps.
Proof.
  unfold vk_finalise. cbn [subpasses]. rewrite mark_last_built.
  change (map ?f ?l) with (f <$> l). rewrite fmap_imap. apply imap_ext. intros i p _.
  unfold compose, with_attachments, final_layout. cbn [parent attachments attachments_offset]. f_equal.
  by destruct p.
Qed.

(** ** Descriptions *)

Abbreviation colour := default_colour_attachment.
Abbreviation depth := default_depth_attachment.

Definition count (a : Attachment) (l : list Attachment) : nat := length (filter (λ x, x = a) l).

Definition depths (ps : list RenderPassAttachment) : nat := count depth (all_attachments ps).

Definition index_in (a : Attachment) (l : list Attachment) : Z := u32 (Z.of_nat (default 0 (find_attachment a l))).

(** What every subpass of a builder with at most one depth attachment says: a
    reference to the first colour attachment for each colour attachment of the
    builder, and the depth attachment. *)
Definition described (ps : list RenderPassAttachment) : Description :=
  let all := all_attachments ps in
  mkDescription (replicate (count colour all) (mkRef (index_in colour all) ColourAttachment))
    (if bool_decide (depth ∈ all) then Some (mkRef (index_in depth all) DepthAttachment) else None).

Lemma count_cons a x l : count a (x :: l) = (if decide (x = a) then 1 else 0) + count a l.
Proof. unfold count. rewrite filter_cons. by destruct (decide (x = a)). Qed.

Lemma count_app a l1 l2 : count a (l1 ++ l2) = count a l1 + count a l2.
Proof. unfold count. by rewrite filter_app, length_app. Qed.

Lemma count_elem a l : 0 < count a l ↔ a ∈ l.
Proof.
  induction l as [|x l IH]; [unfold count; simpl; split; [lia|by intros ?%not_elem_of_nil]|].
  rewrite count_cons, elem_of_cons. case_decide; [subst; split; [by left|lia]|]. rewrite Nat.add_0_l, IH. naive_solver.
Qed.

Lemma all_attachments_kinds ps a : a ∈ all_attachments ps → a = colour ∨ a = depth.
Proof.
  intros Ha. induction ps as [|p ps IH]; simpl in Ha; [by apply elem_of_nil in Ha|].
  apply elem_of_app in Ha as [Ha|Ha]; [|by apply IH]. destruct p; simpl in Ha; set_solver.
Qed.

Lemma depth_not_colour l : depth ∈ colour :: l ↔ depth ∈ l.
Proof. rewrite elem_of_cons. split; [by intros [?|?]|by right]. Qed.

Section Describe.
Context `{BC : BuildConfig} (st : store) (sp : RenderSubpass) (ic id : nat).

Lemma describe_colour desc : get_attachment_id st sp colour = Ok ic →
  describe_attachment st sp colour desc =
  Ok (mkDescription (referenced_colour_attachments desc ++ [mkRef (u32 (Z.of_nat ic)) ColourAttachment])
        (referenced_depth_stencil_attachments desc)).
Proof. intros E. unfold describe_attachment. by rewrite E. Qed.

Lemma describe_depth desc : get_attachment_id st sp depth = Ok id → referenced_depth_stencil_attachments desc = None →
  describe_attachment st sp depth desc =
  Ok (mkDescription (referenced_colour_attachments desc) (Some (mkRef (u32 (Z.of_nat id)) DepthAttachment))).
Proof. intros E Hn. unfold describe_attachment. rewrite E, Hn. simpl. by rewrite tz_assert_true. Qed.

Definition depth_slots (o : option AttachmentReference) : nat := match o with Some _ => 1 | None => 0 end.

(** Attachments of the two kinds, and their indices. *)
Definition indexed (a : Attachment) : Prop :=
  (a = colour ∧ get_attachment_id st sp colour = Ok ic) ∨ (a = depth ∧ get_attachment_id st sp depth = Ok id).

Lemma describe_loop l cols o : Forall indexed l → count depth l + depth_slots o ≤ 1 →
  for_each (describe_attachment st sp) l (mkDescription cols o) =
  Ok (mkDescription (cols ++ replicate (count colour l) (mkRef (u32 (Z.of_nat ic)) ColourAttachment))
        (if bool_decide (depth ∈ l) then Some (mkRef (u32 (Z.of_nat id)) DepthAttachment) else o)).
Proof.
  intros Hl. revert cols o. induction Hl as [|a l Ha Hl IH]; intros cols o Hn; [by rewrite app_nil_r|].
  cbn [for_each]. rewrite !count_cons in *. destruct Ha as [[-> Ha]|[-> Ha]].
  - rewrite describe_colour, bind_Ok, IH by done.
    cbn. rewrite <- app_assoc. rewrite (bool_decide_ext _ _ (depth_not_colour l)). reflexivity.
  - destruct o as [x|]; [simpl in Hn; lia|]. rewrite describe_depth by done.
    rewrite bind_Ok, IH by (simpl in *; lia).
    cbn. rewrite (bool_decide_true (depth ∈ depth :: l)) by by left.
    destruct (decide (depth = colour)); [done|]. by destruct (bool_decide (depth ∈ l)).
Qed.

Lemma describe_loop_traps l cols o : TZ_DEBUG = true → Forall indexed l → 1 < count depth l + depth_slots o →
  for_each (describe_attachment st sp) l (mkDescription cols o) = Fault AssertTrap.
Proof.
  intros Hdbg Hl. revert cols o. induction Hl as [|a l Ha Hl IH]; intros cols o Hn.
  { unfold count in Hn. destruct o; simpl in Hn; lia. }
  cbn [for_each]. rewrite !count_cons in *. destruct Ha as [[-> Ha]|[-> Ha]].
  - by rewrite describe_colour, bind_Ok, IH.
  - destruct o as [x|].
    + unfold describe_attachment. rewrite Ha. cbn. unfold tz_assert. by rewrite Hdbg.
    + rewrite describe_depth by done. rewrite bind_Ok, IH; [done|simpl in *; lia].
Qed.

End Describe.

Section Ids.
Context `{BC : BuildConfig} (st : store) (self : nat) (ps : list RenderPassAttachment) (format : Z).
Context (Hself : st !! self = Some (built self ps)) (Hformat : format ≠ Format_Undefined).

Lemma global_id sp a i : parent sp = self → find_attachment a (attachments sp) = None →
  find_attachment a (all_attachments ps) = Some i → get_attachment_id st sp a = Ok i.
Proof.
  intros Hp Hn Hi. unfold get_attachment_id, builder_at. rewrite Hn, Hp, Hself. cbn [of_option].
  rewrite bind_Ok, built_attachments, Hi, bool_decide_true by eauto. by rewrite tz_assert_true.
Qed.

Lemma colour_id l p off : colour ∈ all_attachments ps →
  get_attachment_id st (mkSubpass self (shape (colour_with format l) p) off) colour =
  Ok (default 0 (find_attachment colour (all_attachments ps))).
Proof.
  intros H. destruct (find_attachment_elem _ _ H) as [i Hi]. rewrite Hi. apply global_id; [done| |done].
  apply find_attachment_none. intros Hin.
  destruct p; simpl in Hin; repeat (apply elem_of_cons in Hin as [Hin|Hin]);
    first [by apply elem_of_nil in Hin | discriminate Hin | by injection Hin as Hf _].
Qed.

(** The depth attachment is found in the subpass that has it, under its index
    in the whole render pass. *)
Lemma depth_id l i p : ps !! i = Some p → l ≠ DepthAttachment → depth ∈ all_attachments ps →
  ∃ j, get_attachment_id st (mkSubpass self (shape (colour_with format l) p) (length (all_attachments (take i ps)))) depth = Ok j ∧
    (depths ps ≤ 1 → j = default 0 (find_attachment depth (all_attachments ps))).
Proof.
  intros Hi Hl H. destruct (decide (p = Colour)) as [->|Hp].
  { destruct (find_attachment_elem _ _ H) as [j Hj]. exists j. rewrite Hj. split; [|done].
    apply global_id; [done| |done]. apply find_attachment_none. simpl. rewrite list_elem_of_singleton. by intros [= ? ?]. }
  assert (Hsplit : ∃ m, find_attachment depth (shape (colour_with format l) p) = Some (length m) ∧
    pass_attachments p = m ++ [depth] ∧ depth ∉ m).
  { destruct p; [done|exists []|exists [colour]]; simpl; (split_and!; [|done|set_solver]).
    - done.
    - rewrite attachment_eqb_ne by (intros [= ? ?]; done). done. }
  destruct Hsplit as (m & Hf & Hm & Hnm). eexists. unfold get_attachment_id. cbn [attachments attachments_offset].
  rewrite Hf. split; [done|]. intros Hone. unfold depths in Hone.
  assert (Hall : all_attachments ps = (all_attachments (take i ps) ++ m) ++ depth :: all_attachments (drop (S i) ps)).
  { rewrite <- (take_drop_middle ps i p Hi) at 1. unfold all_attachments. rewrite map_app, concat_app. simpl.
    by rewrite Hm, <- !app_assoc. }
  rewrite Hall in *. rewrite !count_app, count_cons in Hone. rewrite find_attachment_first, length_app; [done|].
  rewrite elem_of_app, <- !count_elem. intros [?|?]; [destruct (decide (depth = depth)); [lia|done]|].
  apply Hnm. by apply count_elem.
Qed.

End Ids.

Lemma collect_same {A B} (f : A → res B) (l : list A) (b : B) acc : Forall (λ a, f a = Ok b) l →
  for_each (λ a r, x ← f a; Ok (r ++ [x])) l acc = Ok (acc ++ replicate (length l) b).
Proof.
  intros H. revert acc. induction H as [|a l Ha _ IH]; intros acc; simpl; [by rewrite app_nil_r|].
  by rewrite Ha, bind_Ok, bind_Ok, IH, <- app_assoc.
Qed.

Lemma finalised_has_depth format (L : nat → Layout) ps : format ≠ Format_DepthFloat32 →
  existsb (λ a, (get_format a =? Format_DepthFloat32)%Z)
    (concat (imap (λ i p, shape (colour_with format (L i)) p) ps)) = bool_decide (depth ∈ all_attachments ps).
Proof.
  intros Hf. assert (Hc : (format =? Format_DepthFloat32)%Z = false) by by apply Z.eqb_neq.
  revert L. induction ps as [|p ps IH]; intros L; [done|].
  rewrite imap_cons. cbn [concat]. rewrite existsb_app. specialize (IH (L ∘ S)).
  change (imap (λ i p, shape (colour_with format ((L ∘ S) i)) p) ps)
    with (imap ((λ i p, shape (colour_with format (L i)) p) ∘ S) ps) in IH. rewrite IH.
  change (all_attachments (p :: ps)) with (pass_attachments p ++ all_attachments ps).
  destruct p; cbn -[bool_decide all_attachments]; rewrite ?Hc; cbn [orb].
  - apply bool_decide_ext. symmetry. apply depth_not_colour.
  - symmetry. apply bool_decide_eq_true_2. by left.
  - symmetry. apply bool_decide_eq_true_2. right. by left.
Qed.

Section Passes.
Context `{BC : BuildConfig}.

Lemma describe_built headless format st self ps i p :
  st !! self = Some (built self ps) → format ≠ Format_Undefined → ps !! i = Some p →
  let sp := mkSubpass self (shape (colour_with format (final_layout headless ps i)) p) (length (all_attachments (take i ps))) in
  (depths ps ≤ 1 → describe st sp = Ok (described ps)) ∧
  (TZ_DEBUG = true → 1 < depths ps → describe st sp = Fault AssertTrap).
Proof.
  intros Hst Hf Hi sp.
  assert (Hd : ∃ j, (depth ∈ all_attachments ps → get_attachment_id st sp depth = Ok j) ∧
    (depths ps ≤ 1 → depth ∈ all_attachments ps → j = default 0 (find_attachment depth (all_attachments ps)))).
  { destruct (decide (depth ∈ all_attachments ps)) as [Hin|]; [|by exists 0].
    destruct (depth_id st self ps format Hst Hf (final_layout headless ps i) i p) as (j & Ej & Hj); [done| |done|].
    - unfold final_layout. destruct (last_colour ps i), headless; done.
    - exists j. split; intros; [exact Ej|by apply Hj]. }
  destruct Hd as (j & Hj & Hone).
  assert (Hall : Forall (indexed st sp (default 0 (find_attachment colour (all_attachments ps))) j) (all_attachments ps)).
  { apply Forall_forall. intros a Ha. destruct (all_attachments_kinds _ _ Ha) as [-> | ->]; [left|right]; [|by auto].
    split; [done|]. by apply colour_id. }
  unfold describe, builder_at. cbn [parent sp]. rewrite Hst. cbn [of_option]. rewrite bind_Ok, built_attachments.
  split; [intros Hn|intros Hdbg Hn].
  - rewrite (describe_loop _ _ _ _ _ _ _ Hall) by (unfold depths in Hn; simpl; lia). unfold described, index_in. cbn [app].
    do 2 f_equal. case_bool_decide as Hin; [|done]. by rewrite Hone.
  - apply (describe_loop_traps _ _ _ _ _ _ _ Hdbg Hall). unfold depths in Hn. simpl. lia.
Qed.

Definition info_of (headless : bool) (format : Z) (ps : list RenderPassAttachment) : RenderPassCreateInfo :=
  let has_depth := bool_decide (depth ∈ all_attachments ps) in
  mkRenderPassInfo (concat (finalised headless format ps)) (replicate (length ps) (described ps))
    (COLOR_ATTACHMENT_OUTPUT :: if has_depth then [EARLY_FRAGMENT_TESTS] else [])
    (COLOR_ATTACHMENT_OUTPUT :: if has_depth then [EARLY_FRAGMENT_TESTS] else [])
    (COLOR_ATTACHMENT_WRITE :: if has_depth then [DEPTH_STENCIL_ATTACHMENT_WRITE] else []).

Lemma create_built headless format st self ps :
  st !! self = Some (built self ps) → format ≠ Format_Undefined → format ≠ Format_DepthFloat32 → depths ps ≤ 1 →
  vk_create_render_pass headless format st (built self ps) =
  Ok (mkRenderPass (info_of headless format ps) format (bool_decide (ColourDepth ∈ ps))).
Proof.
  intros Hst Hf Hd Hn. unfold vk_create_render_pass, RenderPassVulkan_new, RenderPass_new, info_of.
  unfold has_depth_attachment. rewrite get_attachments_concat, finalise_built.
  rewrite (collect_same _ _ (described ps)).
  2:{ apply Forall_lookup_2. intros i sp. rewrite list_lookup_imap_Some. intros (p & Hi & ->).
      by apply (describe_built headless format st self ps i p Hst Hf Hi). }
  rewrite bind_Ok, length_imap. cbn [mbind res_bind passes vk_finalise app]. rewrite built_passes.
  change (map attachments ?l) with (attachments <$> l). rewrite fmap_imap.
  change (imap (compose attachments ∘ ?f) ps) with (finalised headless format ps).
  unfold finalised. by rewrite (finalised_has_depth format (final_layout headless ps)).
Qed.

(** C35: The render pass of any list of passes.  With at most one depth
    attachment it has the attachments of all passes, the colour attachments in
    the target's format and the last of them presented (or copied from, without
    a window).  Every subpass gets the same description: it refers to all
    attachments of the builder, not to its own, and every colour reference is
    to the first colour attachment, because the finalised attachments no longer
    compare equal to those of the builder the subpasses point to.  With two
    depth attachments the assertion of a debug build traps. *)
Theorem render_pass_of_passes headless format st self ps :
  st !! self = Some (built self ps) → format ≠ Format_Undefined → format ≠ Format_DepthFloat32 →
  (depths ps ≤ 1 →
    vk_create_render_pass headless format st (built self ps) =
    Ok (mkRenderPass (info_of headless format ps) format (bool_decide (ColourDepth ∈ ps)))) ∧
  (TZ_DEBUG = true → 1 < depths ps →
    vk_create_render_pass headless format st (built self ps) = Fault AssertTrap).
Proof.
  intros Hst Hf Hd. split; [by apply create_built|]. intros Hdbg Hn.
  unfold vk_create_render_pass, RenderPassVulkan_new, RenderPass_new. rewrite finalise_built.
  destruct ps as [|p ps]; [unfold depths, count in Hn; simpl in Hn; lia|]. rewrite imap_cons. cbn [for_each].
  by rewrite (proj2 (describe_built headless format st self (p :: ps) 0 p Hst Hf eq_refl) Hdbg Hn).
Qed.

End Passes.

(** ** The render pass and the framebuffers of a renderer *)

Section Renderer.
Context `{BC : BuildConfig} `{VM : Vma} `{V : Vk} `{VO : !VkObjects} `{TG : Target}.
Context {I : Type} `{II : IRendererInput I} {R : Type} `{IR : IResource R}.

Lemma textures_keep_depth (rs : list R) ks im w im' w' :
  initialise_texture_resources rs ks im w = Ok (im', w') → depth_imageview im' = depth_imageview im.
Proof.
  apply (st_fold_Ok_ind (λ _ im' _, depth_imageview im' = depth_imageview im)); [done|].
  intros _ k s w1 s' w2 Hs E. unfold initialise_texture in E.
  do 5 (apply st_bind_inv in E as (? & ? & _ & E)). injection E as <- _. exact Hs.
Qed.

(** A constructed renderer has a depth view unless it only has a colour pass. *)
Lemma renderer_depth_view rp playout regenerate (b : RendererBuilderVulkan I R) w r w' :
  RendererVulkan_new rp playout regenerate b w = Ok (r, w') →
  length (option_list (depth_imageview (image_manager r))) = if decide (b_pass b = Colour) then 0 else 1.
Proof.
  unfold RendererVulkan_new. intros E. do 3 (apply st_bind_inv in E as (? & ? & _ & E)).
  apply st_bind_inv in E as (im0 & w0 & Eim & E). apply st_bind_inv in E as (? & ? & _ & E).
  apply st_bind_inv in E as ([[bm ins] rs] & ? & _ & E).
  apply st_bind_inv in E as (im1 & w1 & E1%textures_keep_depth & E).
  apply st_bind_inv in E as (im2 & w2 & E2 & E). apply st_bind_inv in E as (im3 & w3 & E3 & E).
  do 3 (apply st_bind_inv in E as (? & ? & _ & E)). injection E as <- _. cbn [image_manager].
  apply st_bind_inv in E3 as (? & ? & _ & [= <- _]). cbn [depth_imageview].
  unfold ImageManager_new in Eim. apply st_bind_inv in Eim as (? & ? & _ & [= <- _]). cbn [depth_imageview] in E1.
  destruct (decide (b_pass b = Colour)) as [Hp|Hp].
  - rewrite bool_decide_false in E2 by naive_solver. injection E2 as <- _. by rewrite E1.
  - rewrite bool_decide_true in E2 by done. do 2 (apply st_bind_inv in E2 as (? & ? & _ & E2)). by injection E2 as <- _.
Qed.

(** What [make_simple_render_pass] asks for, by the pass of the builder. *)
Definition simple_info (format : Z) (pass : RenderPassAttachment) : RenderPassCreateInfo :=
  let presented := colour_with format (if headless then LayoutTransferSource else LayoutPresent) in
  let stages := [COLOR_ATTACHMENT_OUTPUT; EARLY_FRAGMENT_TESTS] in
  let writes := [COLOR_ATTACHMENT_WRITE; DEPTH_STENCIL_ATTACHMENT_WRITE] in
  match pass with
  | Colour =>
      mkRenderPassInfo [presented] [mkDescription [mkRef 0 ColourAttachment] None]
        [COLOR_ATTACHMENT_OUTPUT] [COLOR_ATTACHMENT_OUTPUT] [COLOR_ATTACHMENT_WRITE]
  | Depth =>
      mkRenderPassInfo [depth] [mkDescription [] (Some (mkRef 0 DepthAttachment))] stages stages writes
  | ColourDepth =>
      mkRenderPassInfo [presented; depth] [mkDescription [mkRef 0 ColourAttachment] (Some (mkRef 1 DepthAttachment))]
        stages stages writes
  end.

Lemma make_simple_ok format st pass : format ≠ Format_Undefined → format ≠ Format_DepthFloat32 →
  make_simple_render_pass headless format st pass =
  Ok (mkRenderPass (simple_info format pass) format (bool_decide (pass = ColourDepth))).
Proof.
  intros Hf Hd. unfold make_simple_render_pass. change (add_pass ?self pass pass_builder_new) with (built self [pass]).
  rewrite create_built; [|by apply lookup_insert_eq|done|done|by destruct pass; apply Nat.leb_le].
  destruct pass; reflexivity.
Qed.

(** What an attachment that is cleared starts with: the clear value of its index,
    read as a colour or, for a depth format, as the depth of the union.  The first
    float of a colour is where the depth is. *)
Definition cleared_to (a : Attachment) (v : VkClearValue) : list Z :=
  if (get_format a =? Format_DepthFloat32)%Z then
    match v with ClearDepthStencil depth _ => [depth] | ClearColor rgba => take 1 rgba end
  else match v with ClearColor rgba => rgba | ClearDepthStencil depth stencil => [depth; stencil] end.

Definition starts_with (info : RenderPassCreateInfo) (clear_values : list VkClearValue) : list (list Z) :=
  zip_with cleared_to (pAttachments info) clear_values.

(** C25: A renderer's render pass has the attachments of its pass, each once and
    referred to by its index, with the colour attachment left in the layout the
    image is presented or copied from.  It has as many attachments as the
    renderer's framebuffers have views exactly when the pass is not [Depth]: a
    depth-only pass has one attachment and framebuffers with two views.  All its
    attachments are cleared, the colour to the clear colour and the depth to one,
    but the depth of a depth-only pass to the red of the clear colour. *)
Theorem simple_pass_fits_framebuffers rp playout regenerate (b : RendererBuilderVulkan I R) w r w' format st :
  RendererVulkan_new rp playout regenerate b w = Ok (r, w') →
  format ≠ Format_Undefined → format ≠ Format_DepthFloat32 →
  ∃ p, make_simple_render_pass headless format st (b_pass b) = Ok p ∧
    rp_info p = simple_info format (b_pass b) ∧
    (∀ view, length (pAttachments (rp_info p)) = length (framebuffer_views (depth_imageview (image_manager r)) view) ↔
      b_pass b ≠ Depth) ∧
    Forall (λ a, get_colour_depth_load_operation a = Clear) (pAttachments (rp_info p)) ∧
    ∀ red green blue alpha, starts_with (rp_info p) (clear_vals [red; green; blue; alpha]) =
      match b_pass b with
      | Colour => [[red; green; blue; alpha]]
      | ColourDepth => [[red; green; blue; alpha]; [float_one]]
      | Depth => [[red]]
      end.
Proof.
  intros E Hf Hd. apply renderer_depth_view in E. eexists. split; [by apply make_simple_ok|]. split; [done|]. split; [|split].
  2: { destruct (b_pass b); repeat constructor. }
  2: { intros red green blue alpha. assert (Hfmt : (format =? Format_DepthFloat32)%Z = false) by by apply Z.eqb_neq.
       unfold starts_with, cleared_to, clear_vals. destruct (b_pass b); cbn -[Z.eqb]; rewrite ?Hfmt; reflexivity. }
  intros view. unfold framebuffer_views. cbn [length rp_info]. rewrite E. destruct (b_pass b); simpl; naive_solver lia.
Qed.

End Renderer.

(** ** Concrete inputs *)

Definition two_colours : list RenderPassAttachment := [Colour; ColourDepth].

Lemma render_pass_of_passes_witness :
  let c := mkRef 0 ColourAttachment in
  let d := mkDescription [c; c] (Some (mkRef 2 DepthAttachment)) in
  (∃ p, vk_create_render_pass (BC := debug_build) false 50 {[ 7 := built 7 two_colours ]} (built 7 two_colours) = Ok p ∧
     pSubpasses (rp_info p) = [d; d] ∧
     pAttachments (rp_info p) = [colour_with 50 ColourAttachment; colour_with 50 LayoutPresent; depth]) ∧
  vk_create_render_pass (BC := debug_build) false 50 {[ 7 := built 7 [Depth; Depth] ]} (built 7 [Depth; Depth]) =
    Fault AssertTrap.
Proof.
  split.
  - eexists. split; [apply (render_pass_of_passes (BC := debug_build)); [done|done|done|by apply Nat.leb_le]|]. by vm_compute.
  - apply (render_pass_of_passes (BC := debug_build)); [done|done|done|done|by apply Nat.ltb_lt].
Defined.

#[local] Instance pass_config : BuildConfig := debug_build.
#[local] Existing Instance two_views.

Lemma simple_pass_fits_framebuffers_witness :
  match RendererVulkan_new 900 901 (mret tt) sample_builder new_device with
  | Ok (r, _) =>
      ∃ p, make_simple_render_pass false 50 ∅ ColourDepth = Ok p ∧
        length (pAttachments (rp_info p)) = length (framebuffer_views (depth_imageview (image_manager r)) 501)
  | Fault _ => False
  end.
Proof.
  assert (Hok : is_Ok (RendererVulkan_new 900 901 (mret tt) sample_builder new_device) = true) by (vm_compute; reflexivity).
  destruct (RendererVulkan_new 900 901 (mret tt) sample_builder new_device) as [[r w']|e] eqn:E; [|discriminate Hok].
  destruct (simple_pass_fits_framebuffers (VM := driver_vma) (V := driver_vk) 900 901 (mret tt) sample_builder
    new_device r w' 50 ∅ E) as (p & Hp & _ & Hv & _); [discriminate|discriminate|].
  exists p. split; [exact Hp|]. apply Hv. discriminate.
Defined.
