(* ===== verification/VkOwnership.v ===== *)
(** * Vulkan: who owns the objects of the driver

    Constructors aside, the moves and destructors of the classes that own an
    object of the driver: [Buffer], [Image], [ImageView], [Framebuffer],
    [Fence], [Semaphore], [Sampler], [RenderPass], [ShaderModule],
    [pipeline::Layout], [GraphicsPipeline], [DescriptorSetLayout],
    [DescriptorPool], [CommandPool], [Swapchain] and [LogicalDevice]
    (gl/impl/backend/vk/), and of [CommandBufferRecording], which owns a
    recording.  Every class is a Module with its members, the members its move
    constructor starts from, its move assignment and its destructor.  A move
    constructor is the move assignment to the null object.

    [Owner] states what a class promises; what programs that construct, move
    and destroy such objects may rely on is proved from it.  A pointer to a
    device is an address. *)

From S2P Require Import Prelude Memory VkHardware VkSwapchain.

(** ** The interface *)

Inductive kind :=
  KBuffer | KImage | KImageView | KFramebuffer | KFence | KSemaphore | KSampler | KRenderPass | KShaderModule
| KPipelineLayout | KPipeline | KDescriptorSetLayout | KDescriptorPool | KCommandPool | KSwapchain | KAllocator | KDevice.

#[export] Instance kind_eq_dec : EqDecision kind.
Proof. solve_decision. Defined.

(** An object of the driver. *)
Abbreviation resource := (kind * Z)%type.

(** [null_object] is what a move constructor initialises the members with;
    [move_both this rhs] are the two objects after a move assignment of two
    different objects; [run_destructor] gives what a destructor destroys; [held] those the
    object owns; [wf] what holds of every object. *)
Class Owner (O : Type) := {
  null_object : O;
  move_both : O → O → O * O;
  run_destructor : O → res (list resource);
  held : O → list resource;
  wf : O → Prop }.

Class OwnerLaws (O : Type) `{OW : Owner O} : Prop := {
  null_wf : wf null_object;
  null_held : held null_object = [];
  move_wf : ∀ a b, wf a → wf b → wf (move_both a b).1 ∧ wf (move_both a b).2;
  move_held : ∀ a b, held (move_both a b).1 = held b ∧ held (move_both a b).2 = held a;
  destroy_held : ∀ a, wf a → run_destructor a = Ok (held a) }.

(** A handle that is null owns nothing. *)
Definition owned (k : kind) (h : Z) : list resource := if decide (h = 0%Z) then [] else [(k, h)].

(** [if(handle != VK_NULL_HANDLE) vkDestroy...(device->native(), handle, nullptr)]. *)
Definition destroy_with (k : kind) (device : option nat) (h : Z) : res (list resource) :=
  if decide (h = 0%Z) then Ok [] else _ ← of_option NullDeref device; Ok [(k, h)].

(** An object with a handle has a device. *)
Definition has_device (device : option nat) (h : Z) : Prop := h ≠ 0%Z → is_Some device.

Lemma destroy_owned k device h : has_device device h → destroy_with k device h = Ok (owned k h).
Proof.
  unfold destroy_with, owned, has_device. destruct (decide (h = 0%Z)); [done|]. intros H.
  by destruct (H n) as [d ->].
Qed.

Ltac solve_owner :=
  split; cbn;
  [ first [done | by intros []] | done
  | by intros [] []; cbn; auto
  | by intros [] []
  | by intros [] ?; cbn in *; apply destroy_owned ].

(** ** The classes *)

Module Buffer.

Record t := mk { buffer : Z; persistent_mapped_ptr : option ptr; alloc : Z; device : option nat; type : Z }.
Definition null : t := mk 0%Z None 0%Z None 0%Z.
Definition move_assign (this rhs : t) : t * t :=
  (mk (buffer rhs) (persistent_mapped_ptr rhs) (alloc rhs) (device rhs) (type rhs), mk (buffer this) (persistent_mapped_ptr this) (alloc this) (device this) (type this)).
Definition destroy (this : t) : res (list resource) := destroy_with KBuffer (device this) (buffer this).

#[global] Instance owner : Owner t := {|
  null_object := null; move_both := move_assign; run_destructor := destroy;
  held o := owned KBuffer (buffer o); wf o := has_device (device o) (buffer o) |}.

#[global] Instance laws : OwnerLaws t.
Proof. solve_owner. Qed.

End Buffer.

Module Image.

Record t := mk { image : Z; alloc : Z; device : option nat; width : Z; height : Z; format : Z; layout : Z }.
Definition null : t := mk 0%Z 0%Z None 0%Z 0%Z 0%Z 0%Z.
Definition move_assign (this rhs : t) : t * t :=
  (mk (image rhs) (alloc rhs) (device rhs) (width rhs) (height rhs) (format rhs) (layout rhs), mk (image this) (alloc this) (device this) (width this) (height this) (format this) (layout this)).
Definition destroy (this : t) : res (list resource) := destroy_with KImage (device this) (image this).

#[global] Instance owner : Owner t := {|
  null_object := null; move_both := move_assign; run_destructor := destroy;
  held o := owned KImage (image o); wf o := has_device (device o) (image o) |}.

#[global] Instance laws : OwnerLaws t.
Proof. solve_owner. Qed.

End Image.

Module ImageView.

Record t := mk { view : Z; device : option nat }.
Definition null : t := mk 0%Z None.
Definition move_assign (this rhs : t) : t * t :=
  (mk (view rhs) (device rhs), mk (view this) (device this)).
Definition destroy (this : t) : res (list resource) := destroy_with KImageView (device this) (view this).

#[global] Instance owner : Owner t := {|
  null_object := null; move_both := move_assign; run_destructor := destroy;
  held o := owned KImageView (view o); wf o := has_device (device o) (view o) |}.

#[global] Instance laws : OwnerLaws t.
Proof. solve_owner. Qed.

End ImageView.

Module Framebuffer.

Record t := mk { frame_buffer : Z; device : option nat }.
Definition null : t := mk 0%Z None.
Definition move_assign (this rhs : t) : t * t :=
  (mk (frame_buffer rhs) (device rhs), mk (frame_buffer this) (device this)).
Definition destroy (this : t) : res (list resource) := destroy_with KFramebuffer (device this) (frame_buffer this).

#[global] Instance owner : Owner t := {|
  null_object := null; move_both := move_assign; run_destructor := destroy;
  held o := owned KFramebuffer (frame_buffer o); wf o := has_device (device o) (frame_buffer o) |}.

#[global] Instance laws : OwnerLaws t.
Proof. solve_owner. Qed.

End Framebuffer.

Module Fence.

Record t := mk { fence : Z; device : option nat }.
Definition null : t := mk 0%Z None.
Definition move_assign (this rhs : t) : t * t :=
  (mk (fence rhs) (device rhs), mk (fence this) (device this)).
Definition destroy (this : t) : res (list resource) := destroy_with KFence (device this) (fence this).

#[global] Instance owner : Owner t := {|
  null_object := null; move_both := move_assign; run_destructor := destroy;
  held o := owned KFence (fence o); wf o := has_device (device o) (fence o) |}.

#[global] Instance laws : OwnerLaws t.
Proof. solve_owner. Qed.

End Fence.

Module Semaphore.

Record t := mk { sem : Z; device : option nat }.
Definition null : t := mk 0%Z None.
Definition move_assign (this rhs : t) : t * t :=
  (mk (sem rhs) (device rhs), mk (sem this) (device this)).
Definition destroy (this : t) : res (list resource) := destroy_with KSemaphore (device this) (sem this).

#[global] Instance owner : Owner t := {|
  null_object := null; move_both := move_assign; run_destructor := destroy;
  held o := owned KSemaphore (sem o); wf o := has_device (device o) (sem o) |}.

#[global] Instance laws : OwnerLaws t.
Proof. solve_owner. Qed.

End Semaphore.

Module Sampler.

Record t := mk { sampler : Z; device : option nat }.
Definition null : t := mk 0%Z None.
Definition move_assign (this rhs : t) : t * t :=
  (mk (sampler rhs) (device rhs), mk (sampler this) (device this)).
Definition destroy (this : t) : res (list resource) := destroy_with KSampler (device this) (sampler this).

#[global] Instance owner : Owner t := {|
  null_object := null; move_both := move_assign; run_destructor := destroy;
  held o := owned KSampler (sampler o); wf o := has_device (device o) (sampler o) |}.

#[global] Instance laws : OwnerLaws t.
Proof. solve_owner. Qed.

End Sampler.

Module RenderPass.

Record t := mk { render_pass : Z; device : option nat }.
Definition null : t := mk 0%Z None.
Definition move_assign (this rhs : t) : t * t :=
  (mk (render_pass rhs) (device rhs), mk (render_pass this) (device this)).
Definition destroy (this : t) : res (list resource) := destroy_with KRenderPass (device this) (render_pass this).

#[global] Instance owner : Owner t := {|
  null_object := null; move_both := move_assign; run_destructor := destroy;
  held o := owned KRenderPass (render_pass o); wf o := has_device (device o) (render_pass o) |}.

#[global] Instance laws : OwnerLaws t.
Proof. solve_owner. Qed.

End RenderPass.

Module ShaderModule.

Record t := mk { device : option nat; shader_module : Z }.
Definition null : t := mk None 0%Z.
Definition move_assign (this rhs : t) : t * t :=
  (mk (device rhs) (shader_module rhs), mk (device this) (shader_module this)).
Definition destroy (this : t) : res (list resource) := destroy_with KShaderModule (device this) (shader_module this).

#[global] Instance owner : Owner t := {|
  null_object := null; move_both := move_assign; run_destructor := destroy;
  held o := owned KShaderModule (shader_module o); wf o := has_device (device o) (shader_module o) |}.

#[global] Instance laws : OwnerLaws t.
Proof. solve_owner. Qed.

End ShaderModule.

Module PipelineLayout.

Record t := mk { layout : Z; descriptor_layouts : list nat; device : option nat }.
Definition null : t := mk 0%Z [] None.
Definition move_assign (this rhs : t) : t * t :=
  (mk (layout rhs) (descriptor_layouts rhs) (device rhs), mk (layout this) (descriptor_layouts this) (device this)).
Definition destroy (this : t) : res (list resource) := destroy_with KPipelineLayout (device this) (layout this).

#[global] Instance owner : Owner t := {|
  null_object := null; move_both := move_assign; run_destructor := destroy;
  held o := owned KPipelineLayout (layout o); wf o := has_device (device o) (layout o) |}.

#[global] Instance laws : OwnerLaws t.
Proof. solve_owner. Qed.

End PipelineLayout.

Module GraphicsPipeline.

Record t := mk { shaders : list nat; device : option nat; graphics_pipeline : Z }.
Definition null : t := mk [] None 0%Z.
Definition move_assign (this rhs : t) : t * t :=
  (mk (shaders rhs) (device rhs) (graphics_pipeline rhs), mk (shaders this) (device this) (graphics_pipeline this)).
Definition destroy (this : t) : res (list resource) := destroy_with KPipeline (device this) (graphics_pipeline this).

#[global] Instance owner : Owner t := {|
  null_object := null; move_both := move_assign; run_destructor := destroy;
  held o := owned KPipeline (graphics_pipeline o); wf o := has_device (device o) (graphics_pipeline o) |}.

#[global] Instance laws : OwnerLaws t.
Proof. solve_owner. Qed.

End GraphicsPipeline.

Module DescriptorPool.

Record t := mk { pool : Z; layouts : list Z; sets : list Z; device : option nat }.
Definition null : t := mk 0%Z [] [] None.
Definition move_assign (this rhs : t) : t * t :=
  (mk (pool rhs) (layouts rhs) (sets rhs) (device rhs), mk (pool this) (layouts this) (sets this) (device this)).
Definition destroy (this : t) : res (list resource) := destroy_with KDescriptorPool (device this) (pool this).

#[global] Instance owner : Owner t := {|
  null_object := null; move_both := move_assign; run_destructor := destroy;
  held o := owned KDescriptorPool (pool o); wf o := has_device (device o) (pool o) |}.

#[global] Instance laws : OwnerLaws t.
Proof. solve_owner. Qed.

End DescriptorPool.

Module CommandPool.

Record t := mk { command_pool : Z; device : option nat; buffers : list Z }.
Definition null : t := mk 0%Z None [].
Definition move_assign (this rhs : t) : t * t :=
  (mk (command_pool rhs) (device rhs) (buffers rhs), mk (command_pool this) (device this) (buffers this)).
Definition destroy (this : t) : res (list resource) := destroy_with KCommandPool (device this) (command_pool this).

#[global] Instance owner : Owner t := {|
  null_object := null; move_both := move_assign; run_destructor := destroy;
  held o := owned KCommandPool (command_pool o); wf o := has_device (device o) (command_pool o) |}.

#[global] Instance laws : OwnerLaws t.
Proof. solve_owner. Qed.

End CommandPool.

(** The guard of this destructor is the device, not the handle; destroying a null
    handle has no effect. *)
Module DescriptorSetLayout.

Record t := mk { layout : Z; device : option nat }.
Definition null : t := mk 0%Z None.
Definition move_assign (this rhs : t) : t * t :=
  (mk (layout rhs) (device rhs), mk (layout this) (device this)).
Definition destroy (this : t) : res (list resource) := 
  match device this with Some _ => Ok (owned KDescriptorSetLayout (layout this)) | None => Ok [] end.

#[global] Instance owner : Owner t := {|
  null_object := null; move_both := move_assign; run_destructor := destroy;
  held o := owned KDescriptorSetLayout (layout o); wf o := has_device (device o) (layout o) |}.

#[global] Instance laws : OwnerLaws t.
Proof.
  split; cbn; [by intros []|done|by intros [] []; cbn; auto|by intros [] []|].
  intros [h [d|]] Hw; [done|]. unfold owned. cbn in *. destruct (decide (h = 0%Z)) as [|Hh]; [done|].
  by destruct (Hw Hh).
Qed.

End DescriptorSetLayout.

(** The image views are members and are destroyed after the body of the
    destructor. *)
Module Swapchain.

Record t := mk { swapchain : Z; logical_device : option nat; images : list Z; image_views : list ImageView.t; format : Z; extent : VkExtent2D }.
Definition null : t := mk 0%Z None [] [] 0%Z (mkExtent 0 0).
Definition move_assign (this rhs : t) : t * t :=
  (mk (swapchain rhs) (logical_device rhs) (images rhs) (image_views rhs) (format rhs) (extent rhs), mk (swapchain this) (logical_device this) (images this) (image_views this) (format this) (extent this)).
Definition destroy (this : t) : res (list resource) := 
  body ← destroy_with KSwapchain (logical_device this) (swapchain this);
  views ← for_each (λ v l, c ← ImageView.destroy v; Ok (l ++ c)) (image_views this) [];
  Ok (body ++ views).

#[global] Instance owner : Owner t := {|
  null_object := null; move_both := move_assign; run_destructor := destroy;
  held o := owned KSwapchain (swapchain o) ++ concat (map held (image_views o)); wf o := has_device (logical_device o) (swapchain o) ∧ Forall wf (image_views o) |}.

Lemma destroy_views l acc : Forall wf l →
  for_each (λ v l, c ← ImageView.destroy v; Ok (l ++ c)) l acc = Ok (acc ++ concat (map held l)).
Proof.
  intros H. revert acc. induction H as [|v l Hv _ IH]; intros acc; simpl; [by rewrite app_nil_r|].
  pose proof (destroy_held v Hv) as E. cbn [run_destructor ImageView.owner] in E. rewrite E, !bind_Ok, IH.
  by rewrite <- app_assoc.
Qed.

#[global] Instance laws : OwnerLaws t.
Proof.
  split; cbn; [by split; [intros []|]|done|by intros [] []; cbn; auto|by intros [] []|].
  intros [h d im v f e] [Hd Hv]. unfold destroy. cbn in *. by rewrite destroy_owned, bind_Ok, destroy_views by done.
Qed.

End Swapchain.

(** [LogicalDevice] owns an allocator, if it has one, and a device. *)
Module LogicalDevice.

Definition t : Type := VkSwapchain.LogicalDevice.
Definition null : t := LogicalDevice_null.
Definition move_assign (this rhs : t) : t * t :=
  (mkLogicalDevice (ld_dev rhs) (ld_queue_family rhs) (ld_vma rhs),
   mkLogicalDevice (ld_dev this) (ld_queue_family this) (ld_vma this)).
Definition destroy (this : t) : res (list resource) :=
  let vma := match ld_vma this with Some v => [(KAllocator, v)] | None => [] end in
  let dev := owned KDevice (ld_dev this) in
  Ok (vma ++ dev).

#[global] Instance owner : Owner t := {|
  null_object := null; move_both := move_assign; run_destructor := destroy;
  held o := match ld_vma o with Some v => [(KAllocator, v)] | None => [] end ++ owned KDevice (ld_dev o);
  wf o := True |}.

#[global] Instance laws : OwnerLaws t.
Proof. split; cbn; try done; by intros [] []. Qed.

End LogicalDevice.

(** A recording ends in its destructor, which does not ask whether the object
    was moved from. *)
Module CommandBufferRecording.

Record t := mk { command_buffer : option Z; on_recording_end : option nat }.
Definition null : t := mk None None.
Definition move_assign (this rhs : t) : t * t :=
  (mk (command_buffer rhs) (on_recording_end rhs), mk (command_buffer this) (on_recording_end this)).
Definition move_construct (other : t) : t * t := move_assign null other.

(** The command buffer that is ended and the notification that is sent. *)
Definition destroy (this : t) : res (Z * nat) :=
  c ← of_option NullDeref (command_buffer this);
  f ← of_option Misuse (on_recording_end this);
  Ok (c, f).

Example moved_recording_faults r : destroy (move_construct r).2 = Fault NullDeref.
Proof. reflexivity. Qed.

End CommandBufferRecording.

(** ** Objects of any class *)

Inductive object :=
| ABuffer (o : Buffer.t)
| AImage (o : Image.t)
| AImageView (o : ImageView.t)
| AFramebuffer (o : Framebuffer.t)
| AFence (o : Fence.t)
| ASemaphore (o : Semaphore.t)
| ASampler (o : Sampler.t)
| ARenderPass (o : RenderPass.t)
| AShaderModule (o : ShaderModule.t)
| APipelineLayout (o : PipelineLayout.t)
| AGraphicsPipeline (o : GraphicsPipeline.t)
| ADescriptorPool (o : DescriptorPool.t)
| ACommandPool (o : CommandPool.t)
| ADescriptorSetLayout (o : DescriptorSetLayout.t)
| ASwapchain (o : Swapchain.t)
| ALogicalDevice (o : LogicalDevice.t).

Definition object_held (a : object) : list resource :=
  match a with
  | ABuffer o => held o
  | AImage o => held o
  | AImageView o => held o
  | AFramebuffer o => held o
  | AFence o => held o
  | ASemaphore o => held o
  | ASampler o => held o
  | ARenderPass o => held o
  | AShaderModule o => held o
  | APipelineLayout o => held o
  | AGraphicsPipeline o => held o
  | ADescriptorPool o => held o
  | ACommandPool o => held o
  | ADescriptorSetLayout o => held o
  | ASwapchain o => held o
  | ALogicalDevice o => held o
  end.

Definition object_wf (a : object) : Prop :=
  match a with
  | ABuffer o => wf o
  | AImage o => wf o
  | AImageView o => wf o
  | AFramebuffer o => wf o
  | AFence o => wf o
  | ASemaphore o => wf o
  | ASampler o => wf o
  | ARenderPass o => wf o
  | AShaderModule o => wf o
  | APipelineLayout o => wf o
  | AGraphicsPipeline o => wf o
  | ADescriptorPool o => wf o
  | ACommandPool o => wf o
  | ADescriptorSetLayout o => wf o
  | ASwapchain o => wf o
  | ALogicalDevice o => wf o
  end.

Definition object_destroy (a : object) : res (list resource) :=
  match a with
  | ABuffer o => Buffer.destroy o
  | AImage o => Image.destroy o
  | AImageView o => ImageView.destroy o
  | AFramebuffer o => Framebuffer.destroy o
  | AFence o => Fence.destroy o
  | ASemaphore o => Semaphore.destroy o
  | ASampler o => Sampler.destroy o
  | ARenderPass o => RenderPass.destroy o
  | AShaderModule o => ShaderModule.destroy o
  | APipelineLayout o => PipelineLayout.destroy o
  | AGraphicsPipeline o => GraphicsPipeline.destroy o
  | ADescriptorPool o => DescriptorPool.destroy o
  | ACommandPool o => CommandPool.destroy o
  | ADescriptorSetLayout o => DescriptorSetLayout.destroy o
  | ASwapchain o => Swapchain.destroy o
  | ALogicalDevice o => LogicalDevice.destroy o
  end.

(** The object a move constructor starts from. *)
Definition object_null (a : object) : object :=
  match a with
  | ABuffer _ => ABuffer Buffer.null
  | AImage _ => AImage Image.null
  | AImageView _ => AImageView ImageView.null
  | AFramebuffer _ => AFramebuffer Framebuffer.null
  | AFence _ => AFence Fence.null
  | ASemaphore _ => ASemaphore Semaphore.null
  | ASampler _ => ASampler Sampler.null
  | ARenderPass _ => ARenderPass RenderPass.null
  | AShaderModule _ => AShaderModule ShaderModule.null
  | APipelineLayout _ => APipelineLayout PipelineLayout.null
  | AGraphicsPipeline _ => AGraphicsPipeline GraphicsPipeline.null
  | ADescriptorPool _ => ADescriptorPool DescriptorPool.null
  | ACommandPool _ => ACommandPool CommandPool.null
  | ADescriptorSetLayout _ => ADescriptorSetLayout DescriptorSetLayout.null
  | ASwapchain _ => ASwapchain Swapchain.null
  | ALogicalDevice _ => ALogicalDevice LogicalDevice.null
  end.

(** Only objects of one class are assigned to each other. *)
Definition object_move (a b : object) : option (object * object) :=
  match a, b with
  | ABuffer x, ABuffer y => Some (ABuffer (Buffer.move_assign x y).1, ABuffer (Buffer.move_assign x y).2)
  | AImage x, AImage y => Some (AImage (Image.move_assign x y).1, AImage (Image.move_assign x y).2)
  | AImageView x, AImageView y => Some (AImageView (ImageView.move_assign x y).1, AImageView (ImageView.move_assign x y).2)
  | AFramebuffer x, AFramebuffer y => Some (AFramebuffer (Framebuffer.move_assign x y).1, AFramebuffer (Framebuffer.move_assign x y).2)
  | AFence x, AFence y => Some (AFence (Fence.move_assign x y).1, AFence (Fence.move_assign x y).2)
  | ASemaphore x, ASemaphore y => Some (ASemaphore (Semaphore.move_assign x y).1, ASemaphore (Semaphore.move_assign x y).2)
  | ASampler x, ASampler y => Some (ASampler (Sampler.move_assign x y).1, ASampler (Sampler.move_assign x y).2)
  | ARenderPass x, ARenderPass y => Some (ARenderPass (RenderPass.move_assign x y).1, ARenderPass (RenderPass.move_assign x y).2)
  | AShaderModule x, AShaderModule y => Some (AShaderModule (ShaderModule.move_assign x y).1, AShaderModule (ShaderModule.move_assign x y).2)
  | APipelineLayout x, APipelineLayout y => Some (APipelineLayout (PipelineLayout.move_assign x y).1, APipelineLayout (PipelineLayout.move_assign x y).2)
  | AGraphicsPipeline x, AGraphicsPipeline y => Some (AGraphicsPipeline (GraphicsPipeline.move_assign x y).1, AGraphicsPipeline (GraphicsPipeline.move_assign x y).2)
  | ADescriptorPool x, ADescriptorPool y => Some (ADescriptorPool (DescriptorPool.move_assign x y).1, ADescriptorPool (DescriptorPool.move_assign x y).2)
  | ACommandPool x, ACommandPool y => Some (ACommandPool (CommandPool.move_assign x y).1, ACommandPool (CommandPool.move_assign x y).2)
  | ADescriptorSetLayout x, ADescriptorSetLayout y => Some (ADescriptorSetLayout (DescriptorSetLayout.move_assign x y).1, ADescriptorSetLayout (DescriptorSetLayout.move_assign x y).2)
  | ASwapchain x, ASwapchain y => Some (ASwapchain (Swapchain.move_assign x y).1, ASwapchain (Swapchain.move_assign x y).2)
  | ALogicalDevice x, ALogicalDevice y => Some (ALogicalDevice (LogicalDevice.move_assign x y).1, ALogicalDevice (LogicalDevice.move_assign x y).2)
  | _, _ => None
  end.

(** The laws hold of all objects. *)
Lemma object_null_wf a : object_wf (object_null a).
Proof. destruct a; cbn [object_wf object_null]; match goal with |- @wf ?O ?I _ => exact (@null_wf O I _) end. Qed.

Lemma object_null_held a : object_held (object_null a) = [].
Proof. by destruct a. Qed.

Lemma object_null_moves a : is_Some (object_move (object_null a) a).
Proof. destruct a; cbn; eauto. Qed.

Lemma object_destroy_held a : object_wf a → object_destroy a = Ok (object_held a).
Proof. destruct a; intros Hw; exact (destroy_held o Hw). Qed.

Lemma object_move_spec a b a' b' : object_move a b = Some (a', b') → object_wf a → object_wf b →
  object_wf a' ∧ object_wf b' ∧ object_held a' = object_held b ∧ object_held b' = object_held a.
Proof.
  intros E Ha Hb. destruct a, b; try discriminate E; cbn [object_move] in E; apply Some_inj in E;
    pose proof (f_equal fst E) as E1; pose proof (f_equal snd E) as E2; cbn [fst snd] in E1, E2; subst a' b';
    cbn [object_wf object_held] in *;
    match type of Ha with @wf ?O ?I ?x => match type of Hb with wf ?y =>
      pose proof (@move_wf O I _ x y Ha Hb) as [? ?]; pose proof (@move_held O I _ x y) as [? ?]; by split_and!
    end end.
Qed.

(** ** Programs *)

Inductive op := Construct (i : nat) (o : object) | MoveConstruct (i j : nat) | MoveAssign (i j : nat) | Destroy (i : nat).

(** The objects that are alive, by address, and the driver's. *)
Record world := mkWorld { objects : gmap nat object; live : list resource }.

(** Destroying what does not exist is misuse. *)
Fixpoint remove_one (r : resource) (l : list resource) : option (list resource) :=
  match l with
  | [] => None
  | x :: l => if decide (x = r) then Some l else (x ::.) <$> remove_one r l
  end.

Definition release (calls l : list resource) : res (list resource) :=
  for_each (λ r l, of_option Misuse (remove_one r l)) calls l.

Lemma remove_one_ok r l : r ∈ l → ∃ l', remove_one r l = Some l' ∧ l ≡ₚ r :: l'.
Proof.
  induction 1 as [r l|r x l _ (l' & E & P)]; cbn [remove_one]; [rewrite decide_True by done; eauto|].
  destruct (decide (x = r)) as [->|]; [eauto|]. rewrite E. exists (x :: l'). split; [done|]. rewrite P. apply Permutation_swap.
Qed.

Lemma release_ok calls l rest : l ≡ₚ calls ++ rest → ∃ l', release calls l = Ok l' ∧ l' ≡ₚ rest.
Proof.
  unfold release. revert l. induction calls as [|r calls IH]; intros l P; [by exists l|]. cbn [for_each].
  destruct (remove_one_ok r l) as (l1 & E & P1); [rewrite P; by left|]. rewrite E. cbn [of_option]. rewrite bind_Ok.
  apply IH. rewrite P1 in P. by apply Permutation_cons_inv in P.
Qed.

Definition object_at (i : nat) (w : world) : res object := of_option Misuse (objects w !! i).

Definition free_at (i : nat) (w : world) : res unit :=
  match objects w !! i with None => Ok tt | Some _ => Fault Misuse end.

Definition run_op (p : op) (w : world) : res world :=
  match p with
  | Construct i o => _ ← free_at i w; Ok (mkWorld (<[i := o]> (objects w)) (live w ++ object_held o))
  | MoveConstruct i j =>
      _ ← free_at i w; y ← object_at j w;
      '(x, y) ← of_option Misuse (object_move (object_null y) y);
      Ok (mkWorld (<[i := x]> (<[j := y]> (objects w))) (live w))
  | MoveAssign i j =>
      x ← object_at i w; y ← object_at j w;
      if decide (i = j) then Ok w else
      '(x, y) ← of_option Misuse (object_move x y);
      Ok (mkWorld (<[i := x]> (<[j := y]> (objects w))) (live w))
  | Destroy i =>
      x ← object_at i w; calls ← object_destroy x; l ← release calls (live w);
      Ok (mkWorld (delete i (objects w)) l)
  end.

Definition run (ops : list op) (w : world) : res world := for_each run_op ops w.

Definition nothing : world := mkWorld ∅ [].

(** What a C++ program respects, and the driver: objects are used while they
    live and assigned to objects of their class; what a constructor got from
    the driver is new. *)
Definition allowed (p : op) (w : world) : Prop :=
  match p with
  | Construct i o => objects w !! i = None ∧ object_wf o ∧ NoDup (live w ++ object_held o)
  | MoveConstruct i j => objects w !! i = None ∧ is_Some (objects w !! j)
  | MoveAssign i j => ∃ x y, objects w !! i = Some x ∧ objects w !! j = Some y ∧ is_Some (object_move x y)
  | Destroy i => is_Some (objects w !! i)
  end.

Fixpoint allowed_all (ops : list op) (w : world) : Prop :=
  match ops with
  | [] => True
  | p :: ops => allowed p w ∧ ∀ w', run_op p w = Ok w' → allowed_all ops w'
  end.

Definition held_all (m : gmap nat object) : list resource := map_to_list m ≫= λ io, object_held io.2.

Lemma held_insert m i o : m !! i = None → held_all (<[i := o]> m) ≡ₚ object_held o ++ held_all m.
Proof. intros H. unfold held_all. by rewrite map_to_list_insert. Qed.

Lemma held_delete m i o : m !! i = Some o → held_all m ≡ₚ object_held o ++ held_all (delete i m).
Proof. intros H. rewrite <- (insert_delete_id m i o H) at 1. apply held_insert, lookup_delete_eq. Qed.

(** Replacing the objects at two addresses. *)
Lemma held_two m i j x y : i ≠ j →
  held_all (<[i := x]> (<[j := y]> m)) ≡ₚ object_held x ++ object_held y ++ held_all (delete i (delete j m)).
Proof.
  intros Hij. rewrite (held_delete _ i x) by apply lookup_insert_eq. f_equiv.
  rewrite delete_insert_eq, delete_insert_ne by done.
  rewrite (held_delete _ j y) by apply lookup_insert_eq. f_equiv.
  by rewrite delete_insert_eq, delete_delete.
Qed.

Record owned_by (w : world) : Prop := mkOwned {
  owned_wf : map_Forall (λ _, object_wf) (objects w);
  owned_live : live w ≡ₚ held_all (objects w);
  owned_nodup : NoDup (live w) }.

Lemma run_op_owned p w : owned_by w → allowed p w → ∃ w', run_op p w = Ok w' ∧ owned_by w'.
Proof.
  intros [Hw Hl Hn] Ha. destruct p as [i o|i j|i j|i]; cbn [run_op allowed] in *.
  - destruct Ha as (Hi & Ho & Hnd). unfold free_at. rewrite Hi, bind_Ok. eexists. split; [done|]. split; cbn; [|by rewrite held_insert, Hl, Permutation_app_comm by done|done].
    by apply map_Forall_insert_2.
  - destruct Ha as (Hi & y & Hj). unfold free_at, object_at. rewrite Hi, Hj. cbn [of_option]. rewrite !bind_Ok.
    destruct (object_null_moves y) as [[x' y'] E]. rewrite E. cbn [of_option]. rewrite bind_Ok.
    assert (Hij : i ≠ j) by congruence. pose proof (map_Forall_lookup_1 _ _ _ _ Hw Hj) as Hy.
    destruct (object_move_spec _ _ _ _ E (object_null_wf y) Hy) as (Hx' & Hy' & Ex & Ey).
    eexists. split; [done|]. split; cbn; [by repeat apply map_Forall_insert_2| |done].
    rewrite held_two, Ex, Ey, object_null_held, Hl, (held_delete _ _ _ Hj), app_nil_l by done.
    by rewrite (delete_id (delete j _)) by by rewrite lookup_delete_ne.
  - destruct Ha as (x & y & Hi & Hj & [x' y'] & E). unfold object_at. rewrite Hi, Hj. cbn [of_option]. rewrite !bind_Ok.
    destruct (decide (i = j)); [by exists w|]. rewrite E. cbn [of_option]. rewrite bind_Ok.
    pose proof (map_Forall_lookup_1 _ _ _ _ Hw Hi) as Hx. pose proof (map_Forall_lookup_1 _ _ _ _ Hw Hj) as Hy.
    destruct (object_move_spec _ _ _ _ E Hx Hy) as (Hx' & Hy' & Ex & Ey).
    eexists. split; [done|]. split; cbn; [by repeat apply map_Forall_insert_2| |done].
    rewrite held_two, Ex, Ey, Hl, (held_delete _ _ _ Hj) by done.
    by rewrite (held_delete (delete j _) i x) by by rewrite lookup_delete_ne.
  - destruct Ha as [x Hi]. unfold object_at. rewrite Hi. cbn [of_option]. rewrite bind_Ok.
    rewrite object_destroy_held by exact (map_Forall_lookup_1 _ _ _ _ Hw Hi). rewrite bind_Ok.
    rewrite (held_delete _ _ _ Hi) in Hl.
    destruct (release_ok _ _ _ Hl) as (l & E & P). rewrite E, bind_Ok. eexists. split; [done|].
    split; cbn; [by apply map_Forall_delete|done|].
    rewrite Hl in Hn. apply NoDup_app in Hn as (_ & _ & Hn). by rewrite P.
Qed.

(** C22: Objects of the driver are owned.  A program that constructs, moves and
    destroys objects of these classes in any order, within their lifetimes, never
    destroys an object of the driver that does not exist (any more), and at every
    time the objects of the driver are exactly those its objects hold, each once.
    So when all its objects are destroyed nothing is left. *)
Theorem driver_objects_owned ops : allowed_all ops nothing →
  ∃ w, run ops nothing = Ok w ∧ live w ≡ₚ held_all (objects w) ∧ NoDup (live w) ∧
    (objects w = ∅ → live w = []).
Proof.
  assert (H0 : owned_by nothing) by (split; [apply map_Forall_empty|done|constructor]).
  revert H0. unfold run. generalize nothing as w. induction ops as [|p ops IH]; intros w Hw Ha.
  - exists w. destruct Hw as [_ Hl Hn]. split_and!; try done. intros He. rewrite He in Hl.
    by apply Permutation_nil_r in Hl.
  - destruct Ha as [Ha Hnext]. destruct (run_op_owned p w Hw Ha) as (w1 & E & Hw1).
    cbn [for_each]. rewrite E, bind_Ok. apply IH; [done|]. by apply Hnext.
Qed.

(** ** A concrete program *)

(** The depth image of a renderer: a temporary is moved into an empty slot, and
    another one is assigned over it later. *)
Definition depth_image_program : list op :=
  let img h := AImage (Image.mk h h (Some 0) 800 600 126 0) in
  [Construct 1 (img 10%Z); MoveConstruct 2 1; Destroy 1; Construct 3 (img 11%Z); MoveAssign 2 3; Destroy 3; Destroy 2].

Lemma depth_image_allowed : allowed_all depth_image_program nothing.
Proof.
  repeat (split;
    [cbn [allowed];
     first [split; [reflexivity|]; split; [by intros _; eexists|apply (bool_decide_unpack _); by vm_compute]
           |split; [reflexivity|eexists; reflexivity]
           |eexists _, _; split; [reflexivity|]; split; [reflexivity|eexists; reflexivity]
           |eexists; reflexivity]
    |let w' := fresh in let E := fresh in intros w' E; vm_compute in E; injection E as <-]).
  exact I.
Qed.

Lemma driver_objects_owned_witness : ∃ w, run depth_image_program nothing = Ok w ∧ live w = [].
Proof.
  destruct (driver_objects_owned depth_image_program depth_image_allowed) as (w & E & _ & _ & Hl).
  assert (Hok : is_Ok (run depth_image_program nothing) = true) by (vm_compute; reflexivity).
  exists w. split; [exact E|]. apply Hl. clear Hl. vm_compute in E. injection E as <-. reflexivity.
Defined.
