(* ===== verification/Device.v ===== *)
(** * Devices and the resizing of windows

    [DeviceBuilderVulkan], [DeviceWindowBufferVulkan],
    [DeviceFunctionalityVulkan] and [DeviceVulkan]
    (gl/impl/frontend/vk/device.{hpp,cpp}), with the accessors and the
    destructor of [Swapchain] (gl/impl/backend/vk/swapchain.cpp) they use.
    [DeviceBuilderOGL] has the same operations as [DeviceBuilderVulkan], and
    [DeviceOGL] only passes builders on to [RendererOGL] and [ShaderOGL].

    A device has the resize callbacks of its renderers, each the address of a
    renderer, and renderers refer to the device's swapchain.  Both are fields of
    one application state, so that a resize is seen by every renderer. *)

From S2P Require Import Prelude Containers Memory RenderTypes VkFrame VkHardware VkSwapchain VkCommand VkRenderer VkProcessor VkRendererFacts VkProperties.

(** ** Builders *)

Inductive GraphicsPrimitiveType := Triangles.

(** [PrimitiveTopology] with the values of Vulkan. *)
Inductive PrimitiveTopology := TPoints | TLines | TLineStrips | TTriangles | TTriangleStrips.

Definition topology_value (t : PrimitiveTopology) : Z :=
  match t with TPoints => 0 | TLines => 1 | TLineStrips => 2 | TTriangles => 3 | TTriangleStrips => 4 end.

Record DeviceBuilder := mkDeviceBuilder { b_primitive_type : GraphicsPrimitiveType }.

Definition DeviceBuilder_new : DeviceBuilder := mkDeviceBuilder Triangles.

Definition set_primitive_type (b : DeviceBuilder) (t : GraphicsPrimitiveType) : DeviceBuilder := mkDeviceBuilder t.

Definition get_primitive_type (b : DeviceBuilder) : GraphicsPrimitiveType := b_primitive_type b.

Definition vk_get_primitive_topology (b : DeviceBuilder) : PrimitiveTopology :=
  match b_primitive_type b with Triangles => TTriangles end.

(** ** Conversions between integers and [float] *)

Definition uint32_of_float (v : Z) : res Z :=
  if (-1 <? v)%Z && (v <? modulus32)%Z then Ok v else Fault BadConversion.

Definition int_of_float (v : Z) : res Z :=
  if (-(2 ^ 31) - 1 <? v)%Z && (v <? 2 ^ 31)%Z then Ok v else Fault BadConversion.

(** ** Swapchain *)

(** [get_width] and [get_height] return a [float]. *)
Definition Swapchain_get_width (s : Swapchain) : Z := float_round (VkHardware.width (sc_extent s)).
Definition Swapchain_get_height (s : Swapchain) : Z := float_round (VkHardware.height (sc_extent s)).

Definition get_image_views (s : Swapchain) : list Z := sc_image_views s.

Record VkRect2D := mkRect { rect_offset : Z * Z; rect_extent : VkExtent2D }.

Definition Swapchain_full_render_area (s : Swapchain) : VkRect2D := mkRect (0, 0)%Z (sc_extent s).

(** ** DeviceWindowBufferVulkan *)

Inductive DeviceWindowBuffer := Monostate | AsSwapchain (s : Swapchain) | AsImage (i : Image).

Section WindowBuffer.
Context `{BC : BuildConfig} `{VKS : VkSession}.

(** [std::get] of the variant. *)
Definition get_swapchain (b : DeviceWindowBuffer) : res Swapchain :=
  match b with AsSwapchain s => Ok s | _ => Fault BadVariant end.
Definition get_image (b : DeviceWindowBuffer) : res Image :=
  match b with AsImage i => Ok i | _ => Fault BadVariant end.

Definition get_format (b : DeviceWindowBuffer) : res Z :=
  if is_headless then i ← get_image b; Ok (img_format i) else s ← get_swapchain b; Ok (sc_format s).

Definition get_width (b : DeviceWindowBuffer) : res Z :=
  if is_headless then i ← get_image b; Ok (img_width i)
  else s ← get_swapchain b; uint32_of_float (Swapchain_get_width s).

Definition get_height (b : DeviceWindowBuffer) : res Z :=
  if is_headless then i ← get_image b; Ok (img_height i)
  else s ← get_swapchain b; uint32_of_float (Swapchain_get_height s).

Definition full_render_area (b : DeviceWindowBuffer) : res VkRect2D :=
  if is_headless then i ← get_image b; Ok (mkRect (0, 0)%Z (mkExtent (img_width i) (img_height i)))
  else s ← get_swapchain b; Ok (Swapchain_full_render_area s).

(** The explicit conversions to the members. *)
Definition to_Swapchain (b : DeviceWindowBuffer) : res Swapchain :=
  _ ← tz_assert (negb is_headless); get_swapchain b.
Definition to_Image (b : DeviceWindowBuffer) : res Image :=
  _ ← tz_assert is_headless; get_image b.

(** What a renderer sees of the window buffer it refers to. *)
Definition target_of (b : DeviceWindowBuffer) : res Target :=
  w ← get_width b;
  h ← get_height b;
  if is_headless then
    i ← to_Image b;
    Ok {| headless := true; image_views := []; offscreen_image := image i; target_width := w; target_height := h |}
  else
    s ← to_Swapchain b;
    Ok {| headless := false; image_views := get_image_views s; offscreen_image := 0; target_width := w;
          target_height := h |}.

End WindowBuffer.

(** ** The application *)

(** Calls to the device that a resize makes. *)
Class DeviceCalls `{VM : Vma} `{V : Vk} := {
  vkDeviceWaitIdle : Z → ST vkworld unit;
  vkDestroySwapchainKHR : Z → Z → ST vkworld unit;
  vkDestroyImageView : Z → Z → ST vkworld unit }.

Section Device.
Context `{BC : BuildConfig} `{SS : StdSort} `{PD : PhysicalDevices} `{VKS : VkSession}.
Context `{VM : Vma} `{V : Vk} `{VO : !VkObjects} `{SC : !SwapchainCalls vkworld} `{DC : !DeviceCalls}.
Context {I : Type} `{II : IRendererInput I} {R : Type} `{IR : IResource R}.

(** A resize callback is null or holds the address of a renderer. *)
Record DeviceVulkan := mkDevice {
  physical_device : Z;
  device : LogicalDevice;
  swapchain : DeviceWindowBuffer;
  primitive_type : option PrimitiveTopology;
  renderer_resize_callbacks : list (option nat) }.

(** The driver, the device, the renderers by address, and whether the window
    has the device's callback. *)
Record app := mkApp {
  a_vk : vkworld;
  a_device : DeviceVulkan;
  a_renderers : gmap nat (RendererVulkan I R);
  a_registered : bool }.

Definition on_vk {A} (m : ST vkworld A) : ST app A := λ a,
  match m (a_vk a) with
  | Ok (x, w) => Ok (x, mkApp w (a_device a) (a_renderers a) (a_registered a))
  | Fault e => Fault e
  end.

Definition set_device (d : DeviceVulkan) (a : app) : app := mkApp (a_vk a) d (a_renderers a) (a_registered a).
Definition set_renderers (m : gmap nat (RendererVulkan I R)) (a : app) : app :=
  mkApp (a_vk a) (a_device a) m (a_registered a).

Definition with_swapchain (d : DeviceVulkan) (b : DeviceWindowBuffer) : DeviceVulkan :=
  mkDevice (physical_device d) (device d) b (primitive_type d) (renderer_resize_callbacks d).
Definition with_callbacks (d : DeviceVulkan) (l : list (option nat)) : DeviceVulkan :=
  mkDevice (physical_device d) (device d) (swapchain d) (primitive_type d) l.

(** ** Construction *)

(** [DeviceFunctionalityVulkan()]: a null device, and the callback of the window. *)
Definition DeviceFunctionality_new : ST app unit :=
  modify (λ a, mkApp (a_vk a) (mkDevice 0 LogicalDevice_null Monostate None []) (a_renderers a)
                 (if is_headless then a_registered a else true)).

(** The offscreen image: usage [ColourAttachment] and [TransferSource]. *)
Definition offscreen : ST vkworld Image := Image_new 800 600 43 17 GPU.

Definition DeviceVulkan_new (b : DeviceBuilder) : ST app unit :=
  _ ← DeviceFunctionality_new;
  '(dev, family) ← lift select_device;
  ld ← on_vk (LogicalDevice_new family device_extensions);
  buf ← (if is_headless then i ← on_vk offscreen; mret (AsImage i)
         else s ← on_vk (Swapchain_new ld my_prefs); mret (AsSwapchain s));
  modify (λ a, set_device (mkDevice dev ld buf (Some (vk_get_primitive_topology b))
                             (renderer_resize_callbacks (a_device a))) a).

(** ** Renderers *)

Definition target (a : app) : res Target := target_of (swapchain (a_device a)).

(** [create_renderer]: the renderer is constructed at address [this], with the
    render pass [rp] and the pipeline layout [playout]; its constructor ends by
    setting the callback it was given.  What it sets as regeneration function
    does not use the queue. *)
Definition create_renderer (this : nat) (rp playout : Z) (b : RendererBuilderVulkan I R) : ST app unit :=
  d ← gets a_device;
  let on_resize := length (renderer_resize_callbacks d) in
  _ ← modify (set_device (with_callbacks d (renderer_resize_callbacks d ++ [None])));
  T ← (λ a, lift (target a) a);
  r ← on_vk (RendererVulkan_new (TG := T) rp playout (mret tt) b);
  modify (λ a, set_renderers (<[this := r]> (a_renderers a))
                 (set_device (with_callbacks (a_device a)
                    (<[on_resize := Some this]> (renderer_resize_callbacks (a_device a)))) a)).

(** The life of a renderer ends; its destructor leaves the device alone. *)
Definition destroy_renderer (this : nat) : ST app unit :=
  modify (λ a, set_renderers (delete this (a_renderers a)) a).

(** A call to the renderer at an address, which sees the window as it is now. *)
Definition use_renderer (this : nat) (f : Target → RendererVulkan I R → ST vkworld (RendererVulkan I R)) : ST app unit :=
  r ← (λ a, lift (of_option OutOfBounds (a_renderers a !! this)) a);
  T ← (λ a, lift (target a) a);
  r ← on_vk (f T r);
  modify (λ a, set_renderers (<[this := r]> (a_renderers a)) a).

(** [renderer->handle_resize()]. *)
Definition resize_renderer (this : nat) : ST app unit := use_renderer this (λ T r, handle_resize (TG := T) r).

(** ** Resizing *)

(** [ImageView::~ImageView]. *)
Definition destroy_view (dev view : Z) : ST vkworld unit :=
  if (view =? VK_NULL_HANDLE)%Z then mret tt else vkDestroyImageView dev view.

(** [Swapchain::~Swapchain], and the views it contains after it. *)
Definition Swapchain_destroy (dev : Z) (s : Swapchain) : ST vkworld unit :=
  _ ← (if (sc_native s =? VK_NULL_HANDLE)%Z then mret tt else vkDestroySwapchainKHR dev (sc_native s));
  st_each (destroy_view dev) (sc_image_views s).

Definition run_callback (callback : option nat) : ST app unit :=
  match callback with
  | None => mret tt
  | Some this => resize_renderer this
  end.

Definition rebuild_swapchain : ST app unit :=
  d ← gets a_device;
  real_swapchain ← lift (get_swapchain (swapchain d));
  _ ← on_vk (Swapchain_destroy (ld_dev (device d)) real_swapchain);
  s ← on_vk (Swapchain_new (device d) my_prefs);
  modify (set_device (with_swapchain d (AsSwapchain s))).

Definition on_window_resize : ST app unit :=
  d ← gets a_device;
  _ ← on_vk (vkDeviceWaitIdle (ld_dev (device d)));
  _ ← (if is_headless then mret tt else rebuild_swapchain);
  callbacks ← gets (λ a, renderer_resize_callbacks (a_device a));
  st_each run_callback callbacks.

(** The loop of the window's callback: [sizes] are the answers of GLFW to the
    next queries; the result is how many were asked for. *)
Fixpoint wait_visible (w h : Z) (sizes : list (Z * Z)) : res nat :=
  if (w =? 0)%Z || (h =? 0)%Z then
    match sizes with
    | [] => Fault Hang
    | (w, h) :: sizes =>
        w ← int_of_float (float_round w);
        h ← int_of_float (float_round h);
        n ← wait_visible w h sizes; Ok (S n)
    end
  else Ok 0.

(** The callback that the device adds to the window. *)
Definition window_callback (w h : Z) (sizes : list (Z * Z)) : ST app nat :=
  n ← lift (wait_visible w h sizes);
  _ ← on_window_resize;
  mret n.

(** The window is resized. *)
Definition resize_window (w h : Z) (sizes : list (Z * Z)) : ST app nat :=
  λ a, if a_registered a then window_callback w h sizes a else Ok (0, a).

End Device.
