(* ===== verification/DeviceFacts.v ===== *)
(** * Devices: command buffers across renderers

    The renderers of a device share the driver's command buffers.  [live] says
    which are allocated, [calm] that a computation frees none; what an operation
    of one renderer does to the others follows. *)

From S2P Require Import Prelude Containers Memory RenderTypes VkFrame VkHardware VkSwapchain VkCommand VkRenderer VkProcessor VkRendererFacts VkProperties VkResources Device.

(** What the driver promises: a command buffer it allocates is not one that is
    allocated already, and stays so until it is freed. *)
Class CommandBufferLaws `{VM : Vma} `{V : Vk} `{VO : !VkObjects} := {
  live : vma_state → Z → Prop;
  live_allocate : ∀ m n l, snd (vkAllocateCommandBuffers m n) = Some l →
    (∀ c, c ∈ l → ¬ live m c) ∧ ∀ c, live m c ∨ c ∈ l → live (fst (vkAllocateCommandBuffers m n)) c;
  live_free : ∀ m l c, c ∉ l → live m c → live (vkFreeCommandBuffers m l) c;
  live_create_buffer : ∀ s u cpu mapped n c, live (snd s) c → live (snd (fst (vmaCreateBuffer s u cpu mapped n))) c;
  live_destroy_buffer : ∀ s b c, live (snd s) c → live (snd (vmaDestroyBuffer s b)) c;
  live_execute : ∀ s l c, live (snd s) c → live (snd (device_execute s l)) c;
  live_map : ∀ m b c, live m c → live (fst (vmaMapMemory m b)) c;
  live_unmap : ∀ m b c, live m c → live (vmaUnmapMemory m b) c;
  live_image : ∀ m w h f u c, live m c → live (fst (vmaCreateImage m w h f u)) c;
  live_image_view : ∀ m i c, live m c → live (fst (VkRenderer.vkCreateImageView m i)) c;
  live_sampler : ∀ m p c, live m c → live (fst (vkCreateSampler m p)) c;
  live_framebuffer : ∀ m l w h c, live m c → live (fst (vkCreateFramebuffer m l w h)) c;
  live_pipeline : ∀ m c, live m c → live (fst (vkCreateGraphicsPipelines m)) c;
  live_command_pool : ∀ m f c, live m c → live (fst (vkCreateCommandPool m f)) c;
  live_descriptor_pool : ∀ m l n c, live m c → live (fst (vkCreateDescriptorPool m l n)) c;
  live_descriptor_sets : ∀ m p ls c, live m c → live (fst (vkAllocateDescriptorSets m p ls)) c }.

Section Calm.
Context `{BC : BuildConfig} `{VM : Vma} `{V : Vk} `{VO : !VkObjects} {CL : CommandBufferLaws} `{TG : Target}.
Context {I : Type} `{II : IRendererInput I} {R : Type} `{IR : IResource R}.

Definition calm {A} (m : ST vkworld A) : Prop :=
  ∀ w a w', m w = Ok (a, w') → ∀ c, live (v_vma w) c → live (v_vma w') c.

Lemma calm_bind {A B} (m : ST vkworld A) (f : A → ST vkworld B) : calm m → (∀ a, calm (f a)) → calm (m ≫= f).
Proof. intros Hm Hf w b w' (a & w1 & E1 & E2)%st_bind_inv c Hc. eapply Hf, Hm; eauto. Qed.
Lemma calm_ret {A} (a : A) : calm (mret a).
Proof. by intros w x w' [= <- <-]. Qed.
Lemma calm_lift {A} (m : res A) : calm (lift m).
Proof. intros w x w' [_ ->]%lift_inv. done. Qed.
Lemma calm_gets {A} (f : vkworld → A) : calm (gets f).
Proof. by intros w x w' [= <- <-]. Qed.
Lemma calm_read {A} (f : vkworld → res A) : calm (λ w, lift (f w) w).
Proof. by intros w x w' [_ ->]%lift_inv. Qed.
Lemma calm_on_sync {A} (m : ST vk_state A) : calm (on_sync m).
Proof. intros w x w'. unfold on_sync. destruct (m (v_sync w)) as [[? ?]|]; [by intros [= <- <-]|done]. Qed.
Lemma calm_on_vheap {A} (f : heap → res (heap * A)) : calm (on_vheap f).
Proof. intros w x w'. unfold on_vheap. destruct (f _) as [[? ?]|]; [by intros [= <- <-]|done]. Qed.
Lemma calm_on_cmds f : calm (on_cmds f).
Proof. by intros w x w' [= <- <-]. Qed.
Lemma calm_cmd c x : calm (cmd c x).
Proof. apply calm_on_cmds. Qed.
Lemma calm_on_vma {A} (f : vma_state → vma_state * A) : (∀ m c, live m c → live (fst (f m)) c) → calm (on_vma f).
Proof.
  intros Hf w x w' E c Hc. unfold on_vma in E. specialize (Hf (v_vma w) c Hc). destruct (f _). by injection E as _ <-.
Qed.
Lemma calm_on_memory {A} (f : heap * vma_state → heap * vma_state * A) :
  (∀ s c, live (snd s) c → live (snd (fst (f s))) c) → calm (on_memory f).
Proof.
  intros Hf w x w' E c Hc. unfold on_memory in E. specialize (Hf (v_heap w, v_vma w) c Hc).
  destruct (f _) as [[? ?] ?]. by injection E as _ <-.
Qed.
Lemma calm_fold {A S} (f : A → S → ST vkworld S) l s : (∀ x s, calm (f x s)) → calm (st_fold f l s).
Proof.
  intros Hf. revert s. induction l as [|x l IH]; intros s; simpl; [apply calm_ret|]. apply calm_bind; auto.
Qed.
Lemma calm_each {A} (f : A → ST vkworld unit) l : (∀ x, calm (f x)) → calm (st_each f l).
Proof. intros Hf. induction l as [|x l IH]; simpl; [apply calm_ret|]. apply calm_bind; auto. Qed.

End Calm.

Create HintDb calm.
#[export] Hint Resolve calm_ret calm_lift calm_gets calm_read calm_on_sync calm_on_vheap calm_on_cmds calm_cmd : calm.
#[export] Hint Resolve live_create_buffer live_destroy_buffer live_execute live_map live_unmap live_image
  live_image_view live_sampler live_framebuffer live_pipeline live_command_pool live_descriptor_pool
  live_descriptor_sets : calm.

Ltac calm_step :=
  match goal with
  | |- calm _ => solve [eauto with calm]
  | |- calm (_ ≫= _) => apply calm_bind
  | |- calm (on_vma _) => apply calm_on_vma; cbn [fst snd]; solve [eauto with calm]
  | |- calm (on_memory _) => apply calm_on_memory; cbn [fst snd]; solve [eauto with calm]
  | |- calm (match ?x with _ => _ end) => destruct x
  | |- calm (st_fold _ _ _) => apply calm_fold
  | |- calm (st_each _ _) => apply calm_each
  | |- forall _, _ => intro
  end.
Ltac solve_calm := repeat calm_step.

Section Operations.
Context `{BC : BuildConfig} `{VM : Vma} `{V : Vk} `{VO : !VkObjects} {CL : CommandBufferLaws} `{TG : Target}.
Context {I : Type} `{II : IRendererInput I} {R : Type} `{IR : IResource R}.

Lemma Buffer_new_calm t p r n : calm (Buffer_new t p r n).
Proof. unfold Buffer_new. solve_calm. Qed.
Lemma Buffer_destroy_calm b : calm (Buffer_destroy b).
Proof. unfold Buffer_destroy. solve_calm. Qed.
Lemma Buffer_map_calm b : calm (Buffer_map_memory b).
Proof. unfold Buffer_map_memory. solve_calm. Qed.
Lemma Buffer_unmap_calm b : calm (Buffer_unmap_memory b).
Proof. unfold Buffer_unmap_memory. solve_calm. Qed.
Hint Resolve Buffer_new_calm Buffer_destroy_calm Buffer_map_calm Buffer_unmap_calm : calm.
Lemma Buffer_write_calm b d : calm (Buffer_write b d).
Proof. unfold Buffer_write. solve_calm. Qed.
Lemma Buffer_assign_calm b d : calm (Buffer_assign b d).
Proof. unfold Buffer_assign. simpl. solve_calm. Qed.
Hint Resolve Buffer_write_calm Buffer_assign_calm : calm.
Lemma optional_assign_calm b d : calm (optional_assign b d).
Proof. unfold optional_assign. solve_calm. Qed.
Lemma optional_reset_calm b : calm (optional_reset b).
Proof. unfold optional_reset. solve_calm. Qed.
Lemma create_calm {A} f (d : A) : (∀ m c, live m c → live (fst (f m)) c) → calm (create f d).
Proof. intros Hf. unfold create. apply calm_bind; [by apply calm_on_vma|]. solve_calm. Qed.
Lemma Image_new_calm w h f u r : calm (Image_new w h f u r).
Proof. unfold Image_new. solve_calm. Qed.
Lemma recording_calm pool idx body : (∀ c, calm (body c)) → calm (recording pool idx body).
Proof. intros Hb. unfold recording. solve_calm. Qed.
Lemma reset_calm pool idx : calm (CommandBuffer_reset pool idx).
Proof. unfold CommandBuffer_reset. solve_calm. Qed.
Lemma submit_calm c f : calm (submit_commands c f).
Proof. unfold submit_commands. solve_calm. Qed.
Hint Resolve optional_assign_calm optional_reset_calm create_calm Image_new_calm reset_calm submit_calm : calm.

Lemma bind_buffer_calm c b : calm (bind_buffer c b).
Proof. unfold bind_buffer. solve_calm. Qed.
Lemma scratch_submit_calm pool f : calm (scratch_submit pool f).
Proof. unfold scratch_submit. solve_calm. Qed.
Hint Resolve bind_buffer_calm scratch_submit_calm : calm.
Lemma staged_copy_calm early pool f data dst : calm (staged_copy early pool f data dst).
Proof.
  unfold staged_copy, record_copy. solve_calm. apply recording_calm. unfold buffer_copy_buffer. solve_calm.
Qed.
Hint Resolve staged_copy_calm : calm.
Lemma write_draws_calm pool f m d : calm (write_draws pool f m d).
Proof. unfold write_draws. solve_calm. Qed.
Hint Resolve write_draws_calm : calm.
Lemma record_draw_list_calm (ins : list I) draws p : calm (record_draw_list ins draws p).
Proof. unfold record_draw_list. solve_calm. Qed.
Hint Resolve record_draw_list_calm : calm.

Lemma record_draws_calm c b vb ib n : calm (record_draws c b vb ib n).
Proof. unfold record_draws, draw_indirect. solve_calm. Qed.
Hint Resolve record_draws_calm : calm.
Lemma record_rendering_calm rp pl playout bm im (ins : list I) colour p :
  calm (record_rendering_commands rp pl playout bm im ins colour p).
Proof.
  unfold record_rendering_commands, record_view. solve_calm. apply recording_calm. unfold bind_descriptor_set, RenderPassRun_new, RenderPassRun_destroy. solve_calm.
Qed.

Lemma write_command_calm p c : calm (write_command p c).
Proof. unfold write_command. solve_calm. Qed.
Hint Resolve write_command_calm : calm.
Lemma scratch_inputs_calm bm (ins : list I) f p : calm (scratch_inputs bm ins f p).
Proof. unfold scratch_inputs, draw_staging, map_staging, unmap_staging, scratch_input. solve_calm. Qed.
Hint Resolve scratch_inputs_calm : calm.
Lemma scratch_commands_calm bm im (ins : list I) (rs : list R) p :
  calm (record_and_run_scratch_commands bm im ins rs p).
Proof.
  unfold record_and_run_scratch_commands, scratch_buffer_resource, scratch_texture_resource. solve_calm.
  unfold record_texture. apply recording_calm. unfold transition_image_layout, buffer_copy_image. solve_calm.
Qed.

(** The steps of the constructor that allocate no command buffer record nothing either. *)
Definition quiet {A} (m : ST vkworld A) : Prop := calm m ∧ silent m.

Lemma quiet_inv {A} (m : ST vkworld A) w a w' : quiet m → m w = Ok (a, w') →
  (∀ c, live (v_vma w) c → live (v_vma w') c) ∧ v_cmds w' = v_cmds w.
Proof. intros [Hc Hs] E. split; [by eapply Hc|by eapply Hs]. Qed.

Lemma quiet_then {A B} (m : ST vkworld A) (f : A → ST vkworld B) : quiet m → (∀ x, quiet (f x)) → quiet (m ≫= f).
Proof. intros [Hc Hs] Hf. split; [apply calm_bind|apply silent_bind]; try done; intros x; apply Hf. Qed.

Lemma quiet_mret {A} (x : A) : quiet (mret x).
Proof. split; [apply calm_ret|apply silent_ret]. Qed.

Lemma quiet_lift {A} (m : res A) : quiet (lift m).
Proof. split; [apply calm_lift|apply silent_lift]. Qed.

Lemma quiet_fold {A S} (f : A → S → ST vkworld S) l s : (∀ x s, quiet (f x s)) → quiet (st_fold f l s).
Proof. intros Hf. split; [apply calm_fold|apply silent_fold]; intros x s'; apply Hf. Qed.

Lemma setup_buffers_quiet bm (ins : list I) (rs : list R) : quiet (setup_buffers bm ins rs).
Proof.
  unfold setup_buffers, setup_static, setup_dynamic, setup_component, map_vertex_region, map_index_region.
  split; [solve_calm|solve_silent].
Qed.
Lemma textures_quiet (rs : list R) ks im : quiet (initialise_texture_resources rs ks im).
Proof. unfold initialise_texture_resources, initialise_texture. split; [solve_calm|solve_silent]. Qed.
Lemma depth_image_quiet (depth : bool) im : quiet (if depth then setup_depth_image im else mret im).
Proof. unfold setup_depth_image. destruct depth; split; [solve_calm|solve_silent|solve_calm|solve_silent]. Qed.
Lemma framebuffers_quiet im : quiet (setup_swapchain_framebuffers im).
Proof. unfold setup_swapchain_framebuffers, add_framebuffer. split; [solve_calm|solve_silent]. Qed.
Lemma pipeline_quiet : quiet create_pipeline.
Proof. unfold create_pipeline. split; [solve_calm|solve_silent]. Qed.
Lemma image_manager_quiet : quiet ImageManager_new.
Proof. unfold ImageManager_new. split; [solve_calm|solve_silent]. Qed.
Lemma descriptors_quiet l bm im (rs : list R) p : quiet (initialise_resource_descriptors l bm im rs p).
Proof. unfold initialise_resource_descriptors, DescriptorPool_new, initialise_sets. split; [solve_calm|solve_silent]. Qed.
Lemma indirect_quiet n : quiet (indirect_buffer n).
Proof. unfold indirect_buffer. split; [solve_calm|solve_silent]. Qed.
Lemma sync_quiet {A} (m : ST vk_state A) : quiet (on_sync m).
Proof. split; [solve_calm|solve_silent]. Qed.
Lemma native_pool_quiet recycleable : quiet (CommandPool_new recycleable).
Proof. unfold CommandPool_new. split; [solve_calm|solve_silent]. Qed.

End Operations.

#[export] Hint Resolve Buffer_new_calm Buffer_destroy_calm Image_new_calm create_calm reset_calm scratch_commands_calm
  record_draw_list_calm record_rendering_calm : calm.
