(* ===== verification/DeviceProperties.v ===== *)
(** * Devices: what a resize does to every renderer

    An application creates a device and renderers, draws, changes colours,
    destroys renderers and has its window resized, in any order.  [reachable]
    is what it can get to; [app_inv] holds there. *)

From S2P Require Import Prelude Containers Memory RenderTypes Inputs VkFrame VkHardware VkSwapchain VkCommand VkRenderer VkDriver VkProcessor VkRendererFacts VkProperties VkResources Device DeviceFacts.

Section Renderers.
Context `{BC : BuildConfig} `{VM : Vma} {VMS : VmaSpec} {VMU : VmaSucceeds} `{V : Vk} `{VO : !VkObjects} {CL : CommandBufferLaws}.
Context {I : Type} `{II : IRendererInput I} {LI : RendererInputLaws I} {R : Type} `{IR : IResource R}.
Implicit Types (r : RendererVulkan I R) (ins : list I).

Definition natives r : list Z := get_buffer_natives (command_pool (processor r)).

Definition has (acc : RendererInputDataAccess) ins : Prop := acc ∈ (data_access <$> ins).

(** Geometry of a kind has typed buffers, and is drawn only if there is some. *)
Record typed (bm : BufferManager) (p : Processor) ins : Prop := mkTyped {
  ty_static : has StaticFixed ins → type (vertex_buffer bm) = Vertex ∧ type (index_buffer bm) = Index;
  ty_dynamic : has DynamicFixed ins → type (dynamic_vertex_buffer bm) = Vertex ∧ type (dynamic_index_buffer bm) = Index;
  ty_indirect : is_Some (draw_indirect_buffer p) → has StaticFixed ins;
  ty_indirect_dynamic : is_Some (draw_indirect_dynamic_buffer p) → has DynamicFixed ins }.

Definition renderer_typed r : Prop := typed (buffer_manager r) (processor r) (renderer_inputs r).

Lemma typed_geometry bm p ins : typed bm p ins → geometry_typed bm p.
Proof. intros [Hs Hd Hi Hj]. split; auto. Qed.

(** What the operations of a renderer rely on and keep. *)
Definition renderer_ready r : Prop := renderer_typed r ∧ NoDup (natives r).

(** An operation takes renderer [r] to [r']: its command buffers are allocated,
    and those of others are left alone. *)
Record operation r (w : vkworld) r' (w' : vkworld) : Prop := mkOperation {
  op_live : ∀ c, c ∈ natives r' → live (v_vma w') c;
  op_others : ∀ c, live (v_vma w) c → c ∉ natives r →
    live (v_vma w') c ∧ (c ∉ natives r') ∧ commands w' c = commands w c;
  op_ready : renderer_ready r' }.

(** What no operation but a resize changes. *)
Definition same_renderer r r' : Prop :=
  renderer_inputs r' = renderer_inputs r ∧ renderer_resources r' = renderer_resources r ∧
  render_pass r' = render_pass r ∧ buffer_manager r' = buffer_manager r ∧
  pipeline_layout r' = pipeline_layout r ∧ clear_colour r' = clear_colour r ∧
  draw_cache (processor r') = draw_cache (processor r) ∧
  resource_descriptor_pool (processor r') = resource_descriptor_pool (processor r) ∧
  draw_indirect_buffer (processor r') = draw_indirect_buffer (processor r) ∧
  draw_indirect_dynamic_buffer (processor r') = draw_indirect_dynamic_buffer (processor r).

Lemma same_renderer_refl r : same_renderer r r.
Proof. done. Qed.
Lemma same_renderer_trans r1 r2 r3 : same_renderer r1 r2 → same_renderer r2 r3 → same_renderer r1 r3.
Proof. unfold same_renderer. intros (?&?&?&?&?&?&?&?&?&?) (?&?&?&?&?&?&?&?&?&?). split_and!; congruence. Qed.

Lemma commands_silent (w w' : vkworld) c : v_cmds w' = v_cmds w → commands w' c = commands w c.
Proof. unfold commands. by intros ->. Qed.

Section Target.
Context `{TG : Target}.

(** Allocating command buffers: they are new, and distinct. *)
Lemma with_fresh pool n w k pool' w' :
  buffers pool = [] → CommandPool_with pool n w = Ok (k, pool', w') →
  (∀ c, c ∈ get_buffer_natives pool' → ¬ live (v_vma w) c ∧ live (v_vma w') c) ∧
  ∀ c, live (v_vma w) c → live (v_vma w') c.
Proof.
  intros Hb [Hr ->]%(with_inv _ _ _ _ _ _ Hb). destruct (live_allocate _ _ _ Hr) as [Hnew Hkeep].
  split; auto.
Qed.

Lemma initialise_pool_fresh pool w pool' w' :
  initialise_command_pool pool w = Ok (pool', w') →
  (∀ c, c ∈ get_buffer_natives pool' → live (v_vma w') c) ∧
  ∀ c, live (v_vma w) c → c ∉ get_buffer_natives pool → live (v_vma w') c ∧ c ∉ get_buffer_natives pool'.
Proof.
  unfold initialise_command_pool. intros (p1 & w1 & E1 & E)%st_bind_inv.
  apply st_bind_inv in E as ([k p2] & w2 & E2 & [= <- <-]).
  assert (buffers p1 = [] ∧ ∀ c, live (v_vma w) c → c ∉ get_buffer_natives pool → live (v_vma w1) c) as [Hb Hk].
  { unfold CommandPool_empty in E1. destruct (buffers pool) as [|cb cbs] eqn:Eb; cbn in E1; [by injection E1 as <- <-|].
    apply clear_pool_inv in E1 as [-> ->].
    split; [done|]. intros c Hc Hn. cbn. by apply live_free. }
  destruct (with_fresh _ _ _ _ _ _ Hb E2) as [Hn Hl]. split; [intros c Hc; by apply Hn|].
  intros c Hc Hp. specialize (Hk c Hc Hp). split; [auto|]. intros [? _]%Hn. done.
Qed.

(** The common end of [handle_resize] and [handle_clear_colour_change]: new
    command buffers, and a recording of every view. *)
Lemma rerecord_inv rp pl playout bm im ins colour p pool w w1 p' w' :
  typed bm p ins → initialise_command_pool (command_pool p) w = Ok (pool, w1) →
  record_rendering_commands rp pl playout bm im ins colour (set_pool p pool) w1 = Ok (p', w') →
  p' = set_pool p (command_pool p') ∧ NoDup (get_buffer_natives (command_pool p')) ∧
  (∀ c, c ∈ get_buffer_natives (command_pool p') → live (v_vma w') c) ∧
  (∀ c, live (v_vma w) c → c ∉ get_buffer_natives (command_pool p) →
     live (v_vma w') c ∧ (c ∉ get_buffer_natives (command_pool p')) ∧ commands w' c = commands w c) ∧
  ∀ i, i < get_view_count → ∃ c fb, get_buffer_natives (command_pool p') !! i = Some c ∧
    swapchain_framebuffers im !! i = Some fb ∧
    commands w' c = current_view_commands rp pl playout fb bm ins colour p i ∧
    ∀ dp, resource_descriptor_pool p = Some dp → i < length (sets dp).
Proof.
  intros Ht E1 E2. destruct (initialise_command_pool_natives _ _ _ _ E1) as [Hnd _].
  destruct (initialise_pool_fresh _ _ _ _ E1) as [Hl Ho].
  pose proof (initialise_command_pool_silent (command_pool p) _ _ _ E1) as Hs.
  pose proof (record_rendering_calm _ _ _ _ _ _ _ _ _ _ _ E2) as Hc.
  apply record_rendering_inv in E2 as (Hn & Hp & Hv & Hr); [|by destruct Ht as [? ? ? ?]; split; auto|done].
  cbn in Hn. rewrite Hn. split_and!.
  - rewrite Hp. done.
  - done.
  - intros c Hin. apply Hc, Hl. done.
  - intros c Hlive Hni. destruct (Ho c Hlive Hni) as [Hlive' Hni']. split_and!; [by apply Hc|done|].
    rewrite Hr by done. by apply commands_silent.
  - intros i Hi. destruct (Hv i Hi) as (c & fb & Hci & Hfb & Hcm & Hdp). exists c, fb. split_and!; done.
Qed.

(** [fb] is a framebuffer on [view], with the depth view if there is one. *)
Definition framebuffer_on (depth : option Z) (view fb : Z) : Prop :=
  ∃ m, fb = default 0%Z (snd (vkCreateFramebuffer m (framebuffer_views depth view) target_width target_height)).

Lemma framebuffers_inv im w im' w' : headless = false →
  setup_swapchain_framebuffers im w = Ok (im', w') →
  Forall2 (framebuffer_on (depth_imageview im')) image_views (swapchain_framebuffers im').
Proof.
  intros Hh E. unfold setup_swapchain_framebuffers in E. rewrite Hh in E.
  apply st_bind_inv in E as (fbs & w1 & E & [= <- _]). simpl.
  apply (st_fold_Ok_ind (λ vs fbs _, Forall2 (framebuffer_on (depth_imageview im)) vs fbs)) in E; [done|done|].
  intros vs v l wa l' wb HF Ev. unfold add_framebuffer in Ev.
  apply st_bind_inv in Ev as (fb & w2 & E1 & [= <- _]). apply Forall2_app; [done|].
  constructor; [|done]. unfold create in E1. apply st_bind_inv in E1 as (x & ? & E1 & E2).
  apply st_bind_inv in E2 as (? & ? & _ & [= <- _]). unfold on_vma in E1.
  exists (v_vma wa). destruct (vkCreateFramebuffer _ _ _ _). by injection E1 as <- _.
Qed.

(** Renderer [r] after a resize: every view of the target has a framebuffer on
    it, and a recording of the current draw list with it. *)
Record follows_target r r' (w' : vkworld) : Prop := mkFollows {
  fo_framebuffers : Forall2 (framebuffer_on (depth_imageview (image_manager r'))) image_views
                      (swapchain_framebuffers (image_manager r'));
  fo_recorded : ∀ i fb, swapchain_framebuffers (image_manager r') !! i = Some fb →
    ∃ c, natives r' !! i = Some c ∧
      commands w' c = current_view_commands (render_pass r) (pipeline r') (pipeline_layout r) fb (buffer_manager r)
                        (renderer_inputs r) (clear_colour r) (processor r) i;
  fo_sets : ∀ dp, resource_descriptor_pool (processor r) = Some dp → length image_views ≤ length (sets dp) }.

Lemma handle_resize_inv r w r' w' : renderer_ready r → headless = false →
  handle_resize r w = Ok (r', w') → operation r w r' w' ∧ same_renderer r r' ∧ follows_target r r' w'.
Proof.
  intros [Ht _] Hh. unfold handle_resize.
  intros (pl & w1 & E1 & E)%st_bind_inv. apply (quiet_inv _ _ _ _ pipeline_quiet) in E1 as [C1 S1].
  apply st_bind_inv in E as (im1 & w2 & E2 & E). apply (quiet_inv _ _ _ _ (depth_image_quiet _ _)) in E2 as [C2 S2].
  apply st_bind_inv in E as (im2 & w3 & E3 & E). cbn in E.
  pose proof (quiet_inv _ _ _ _ (framebuffers_quiet _) E3) as [C3 S3]. apply framebuffers_inv in E3; [|done].
  apply st_bind_inv in E as (pool & w4 & E4 & E). apply st_bind_inv in E as (p & w5 & E5 & [= <- <-]).
  unfold record_all in E5. cbn in E5.
  destruct (rerecord_inv _ _ _ _ _ _ _ _ _ _ _ _ _ Ht E4 E5) as (Hp & Hnd & Hl & Ho & Hv).
  split_and!; [split| |split]; cbn.
  - exact Hl.
  - intros c Hc Hn. destruct (Ho c) as (? & ? & Hcm); [by apply C3, C2, C1|done|]. split_and!; try done.
    rewrite Hcm. apply commands_silent. by rewrite S3, S2, S1.
  - split; [|done]. unfold renderer_typed. cbn. rewrite Hp. by destruct Ht as [? ? ? ?].
  - unfold same_renderer. cbn. rewrite Hp. done.
  - done.
  - intros i fb Hi. destruct (Hv i) as (c & fb' & Hc & Hfb & Hcm & _).
    { unfold get_view_count. rewrite Hh, (Forall2_length _ _ _ E3). by eapply lookup_lt_Some. }
    simplify_eq. by exists c.
  - intros dp Hdp. apply Nat.nlt_ge. intros Hlt. destruct (Hv (length (sets dp))) as (? & ? & ? & ? & ? & H).
    { unfold get_view_count. by rewrite Hh. } specialize (H dp Hdp). lia.
Qed.

(** ** The other operations *)

Lemma set_clear_colour_inv idle colour r w r' w' : renderer_ready r →
  set_clear_colour idle colour r w = Ok (r', w') → operation r w r' w'.
Proof.
  intros [Ht _]. unfold set_clear_colour, handle_clear_colour_change. cbn. intros (? & w1 & E1 & E)%st_bind_inv.
  pose proof (calm_on_sync _ _ _ _ E1) as C1. pose proof (silent_on_sync _ _ _ _ E1) as S1.
  apply st_bind_inv in E as (pool & w2 & E2 & E). apply st_bind_inv in E as (p & w3 & E3 & [= <- <-]).
  unfold record_all in E3. cbn in E3.
  destruct (rerecord_inv _ _ _ _ _ _ _ _ _ _ _ _ _ Ht E2 E3) as (Hp & Hnd & Hl & Ho & _). split; cbn.
  - exact Hl.
  - intros c Hc Hn. destruct (Ho c) as (? & ? & Hcm); [by apply C1|done|]. split_and!; try done.
    rewrite Hcm. by apply commands_silent.
  - split; [|done]. unfold renderer_typed. cbn. rewrite Hp. by destruct Ht as [? ? ? ?].
Qed.

Lemma render_inv r w r' w' : render r w = Ok (r', w') →
  (∃ a, processor r' = set_admin (processor r) a) ∧ buffer_manager r' = buffer_manager r ∧
  renderer_inputs r' = renderer_inputs r ∧ v_cmds w' = v_cmds w ∧ ∀ c, live (v_vma w) c → live (v_vma w') c.
Proof.
  unfold render, Processor_render. intros (p & w1 & E & [= <- <-])%st_bind_inv.
  apply st_bind_inv in E as (a & w2 & E & [= <- <-]). split_and!; try done; [by exists a|..].
  - destruct headless; by apply silent_on_sync in E.
  - destruct headless; by apply calm_on_sync in E.
Qed.

Lemma clear_commands_inv p w w' : clear_rendering_commands p w = Ok (tt, w') →
  (∀ c, live (v_vma w) c → live (v_vma w') c) ∧
  ∀ c, c ∉ get_buffer_natives (command_pool p) → commands w' c = commands w c.
Proof.
  unfold clear_rendering_commands. generalize (seq 0 get_view_count). intros l. revert w.
  induction l as [|i l IH]; intros w E; simpl in E; [by injection E as <-|].
  apply st_bind_inv in E as ([] & w1 & E1 & E). destruct (IH _ E) as [Hl Hc].
  apply st_bind_inv in E1 as ([] & w2 & E1 & E2). pose proof (reset_calm _ _ _ _ _ E2) as C2.
  pose proof (calm_on_sync _ _ _ _ E1) as C1. pose proof (silent_on_sync _ _ _ _ E1) as S1.
  split; [auto|]. intros c Hn. rewrite Hc by done.
  unfold CommandBuffer_reset in E2. apply st_bind_inv in E2 as (b & ? & [Hb%at_index_inv ->]%lift_inv & E2).
  apply st_bind_inv in E2 as ([] & ? & [_ ->]%lift_inv & E2).
  apply st_bind_inv in E2 as ([] & ? & ->%reuse_inv & [= <-]). unfold commands. cbn. rewrite S1.
  rewrite lookup_insert_ne; [done|]. intros <-. apply Hn. unfold get_buffer_natives.
  by apply list_elem_of_fmap_2, (list_elem_of_lookup_2 _ i).
Qed.

(** Commands of a kind come from inputs of that kind. *)
Lemma convert_draws_has ins t draws s d : convert_draws ins t draws = Ok (s, d) →
  (s ≠ [] → has StaticFixed ins) ∧ (d ≠ [] → has DynamicFixed ins).
Proof.
  intros E. apply (for_each_Ok_ind (λ _ '(s, d), (s ≠ [] → has StaticFixed ins) ∧ (d ≠ [] → has DynamicFixed ins))) in E;
    [done|done|].
  intros _ k [s1 d1] [s2 d2] [Hs Hd] Ek. unfold convert_draw in Ek.
  apply bind_Ok_inv in Ek as (i & Hi%at_index_inv & Ek).
  assert (has (data_access i) ins) as Hh by (by apply list_elem_of_fmap_2, (list_elem_of_lookup_2 _ k)).
  destruct (data_access i); injection Ek as <- <-; auto.
Qed.
Lemma write_draws_member pool f m draws w m' pool' w' :
  write_draws pool f m draws w = Ok ((m', pool'), w') → is_Some m' → draws ≠ [].
Proof.
  unfold write_draws. destruct draws; [|done]. intros (m1 & w1 & E & [= <- _ _])%st_bind_inv [b ->].
  unfold optional_reset in E. destruct m; [|done]. by apply st_bind_inv in E as (? & ? & _ & [=]).
Qed.

(** A draw list is recorded with the scratch buffer only. *)
Lemma record_draw_list_inv ins draws bm p w p' w' : typed bm p ins →
  record_draw_list ins draws p w = Ok (p', w') →
  typed bm p' ins ∧ get_buffer_natives (command_pool p') = get_buffer_natives (command_pool p) ∧
  ∀ c, c ∉ get_buffer_natives (command_pool p) → commands w' c = commands w c.
Proof.
  intros Ht E. destruct (draws_match_cache p draws) eqn:Em.
  { unfold record_draw_list in E. rewrite Em in E. by injection E as <- <-. }
  assert (∃ c, get_buffer_natives (command_pool p) !! get_view_count = Some c) as [c Hc].
  { unfold record_draw_list in E. rewrite Em in E. apply st_bind_inv in E as (t & ? & _ & E).
    apply st_bind_inv in E as ([s d] & ? & _ & E). do 3 (apply st_bind_inv in E as (? & ? & _ & E)).
    apply st_bind_inv in E as (b & ? & [Hb%at_index_inv _]%lift_inv & _). exists (command_buffer b).
    unfold get_buffer_natives. by rewrite list_lookup_fmap, Hb. }
  destruct (record_draw_list_scratch c _ Hc ins draws p eq_refl _ _ _ E) as [Hn Hk].
  split; [|split; [done|]].
  - unfold record_draw_list in E. rewrite Em in E. apply st_bind_inv in E as (t & ? & _ & E).
    apply st_bind_inv in E as ([s d] & ? & [Ec _]%lift_inv & E). apply convert_draws_has in Ec as [Hs Hd].
    do 4 (apply st_bind_inv in E as (? & ? & _ & E)).
    apply st_bind_inv in E as ([m1 p1] & ? & E1 & E). apply st_bind_inv in E as ([m2 p2] & ? & E2 & E).
    apply st_bind_inv in E as (? & ? & _ & [= <- _]). destruct Ht as [? ? _ _].
    split; cbn; try done; intros Hm; [apply Hs; by eapply write_draws_member|apply Hd; by eapply write_draws_member].
  - intros c' Hn'. apply Hk. intros ->. by apply Hn', (list_elem_of_lookup_2 _ get_view_count).
Qed.

Lemma render_list_inv draws r w r' w' : renderer_ready r →
  (∀ c, c ∈ natives r → live (v_vma w) c) → render_list draws r w = Ok (r', w') → operation r w r' w'.
Proof.
  intros Hr Hlive. unfold render_list. intros (r1 & w1 & E1 & E2)%st_bind_inv.
  assert (renderer_ready r1 ∧ natives r1 = natives r ∧ (∀ c, live (v_vma w) c → live (v_vma w1) c) ∧
    ∀ c, c ∉ natives r → commands w1 c = commands w c) as ([Ht Hnd] & Hn & Hl & Hk).
  { destruct Hr as [Ht Hnd]. destruct (draws_match_cache _ _); [by injection E1 as <- <-|].
    apply st_bind_inv in E1 as ([] & wa & Ea & E1). apply clear_commands_inv in Ea as [La Ka].
    apply st_bind_inv in E1 as (p & wb & Eb & E1). pose proof (record_draw_list_calm _ _ _ _ _ _ Eb) as Lb.
    apply (record_draw_list_inv _ _ _ _ _ _ _ Ht) in Eb as (Htb & Hnb & Kb).
    apply st_bind_inv in E1 as (p' & wc & Ec & [= <- <-]). pose proof (record_rendering_calm _ _ _ _ _ _ _ _ _ _ _ Ec) as Lc.
    apply record_rendering_inv in Ec as (Hnc & Hp & _ & Kc); [|by eapply typed_geometry|by rewrite Hnb].
    unfold renderer_ready, renderer_typed, natives in *. cbn. rewrite Hnc, Hnb. split_and!; try done.
    - rewrite Hp. by destruct Htb as [? ? ? ?].
    - auto.
    - intros c Hc. rewrite Kc by (by rewrite Hnb). rewrite Kb by done. by apply Ka. }
  apply render_inv in E2 as ([a Hp] & Hb & Hi & Hc & Hl'). split.
  - intros c. unfold natives. rewrite Hp. cbn. fold (natives r1). rewrite Hn. auto.
  - intros c Hc' Hn'. split; [auto|]. unfold natives. rewrite Hp. cbn. fold (natives r1). rewrite Hn. split; [done|].
    rewrite <- Hk by done. by apply commands_silent.
  - split; [|unfold natives; by rewrite Hp]. unfold renderer_typed. rewrite Hp, Hb, Hi. by destruct Ht as [? ? ? ?].
Qed.

Lemma render_operation r w r' w' : renderer_ready r → (∀ c, c ∈ natives r → live (v_vma w) c) →
  render r w = Ok (r', w') → operation r w r' w'.
Proof.
  intros [Ht Hnd] Hlive ([a Hp] & Hb & Hi & Hc & Hl)%render_inv. unfold natives in *. split; unfold natives; rewrite ?Hp; cbn.
  - auto.
  - intros c Hc' Hn'. split_and!; [auto|done|by apply commands_silent].
  - split; [|unfold natives; by rewrite Hp]. unfold renderer_typed. rewrite Hp, Hb, Hi. by destruct Ht as [? ? ? ?].
Qed.

(** ** Construction *)

Lemma compile_geometry h ins c : compile h ins = Ok c →
  (has StaticFixed ins → any_static_geometry c = true) ∧ (has DynamicFixed ins → any_dynamic_geometry c = true).
Proof.
  unfold compile, has. intros E.
  assert (Hi : ∀ acc, acc ∈ (data_access <$> ins) → ∃ k i, (k, i) ∈ imap pair ins ∧ data_access i = acc).
  { intros acc (i & -> & [k Hk]%list_elem_of_lookup)%list_elem_of_fmap. exists k, i. split; [|done].
    apply (list_elem_of_lookup_2 _ k). by rewrite list_lookup_imap, Hk. }
  apply (for_each_Ok_ind (λ kis c,
    (∀ k i, (k, i) ∈ kis → data_access i = StaticFixed → any_static_geometry c = true) ∧
    (∀ k i, (k, i) ∈ kis → data_access i = DynamicFixed → any_dynamic_geometry c = true))) in E.
  - destruct E as [Hs Hd]. split; intros (k & i & Hk & Ha)%Hi; eauto.
  - split; intros k i []%not_elem_of_nil.
  - clear. intros kis [k i] c1 c2 [Hs Hd] E. unfold compile_input in E.
    apply bind_Ok_inv in E as (vs & _ & E). apply bind_Ok_inv in E as (ix & _ & E).
    destruct (data_access i) eqn:Ea; injection E as <-; cbn;
      (split; intros k' i' [Hk|Hk%list_elem_of_singleton]%elem_of_app Ha; try simplify_eq; eauto); congruence.
Qed.

(** Handing out memory keeps the kinds of the inputs. *)
Lemma map_vertex_access p rg ins w ins' w' : map_vertex_region p rg ins w = Ok (ins', w') →
  data_access <$> ins' = data_access <$> ins.
Proof.
  unfold map_vertex_region. intros (i & w1 & [Hi%at_index_inv ->]%lift_inv & E)%st_bind_inv.
  apply st_bind_inv in E as (j & w2 & E & [= <- _]). unfold on_vheap in E.
  destruct (set_vertex_data _ _ _) as [[h x]|] eqn:Es; [|done]. injection E as <- _.
  rewrite list_fmap_insert, (set_keeps_access _ _ _ _ _ (or_introl Es)), list_insert_id; [done|].
  by rewrite list_lookup_fmap, Hi.
Qed.

Lemma map_index_access p rg ins w ins' w' : map_index_region p rg ins w = Ok (ins', w') →
  data_access <$> ins' = data_access <$> ins.
Proof.
  unfold map_index_region. intros (i & w1 & [Hi%at_index_inv ->]%lift_inv & E)%st_bind_inv.
  apply st_bind_inv in E as (j & w2 & E & [= <- _]). unfold on_vheap in E.
  destruct (set_index_data _ _ _) as [[h x]|] eqn:Es; [|done]. injection E as <- _.
  rewrite list_fmap_insert, (set_keeps_access _ _ _ _ _ (or_intror Es)), list_insert_id; [done|].
  by rewrite list_lookup_fmap, Hi.
Qed.

Lemma fold_access (f : Region → list I → ST vkworld (list I)) rgs ins w ins' w' :
  (∀ rg ins w ins' w', f rg ins w = Ok (ins', w') → data_access <$> ins' = data_access <$> ins) →
  st_fold f rgs ins w = Ok (ins', w') → data_access <$> ins' = data_access <$> ins.
Proof.
  intros Hf E. apply (st_fold_Ok_ind (λ _ ins' _, data_access <$> ins' = data_access <$> ins)) in E; [done|done|].
  intros _ rg ins1 wa ins2 wb H1 H2%Hf. by rewrite H2.
Qed.

Lemma setup_buffers_typed bm ins (rs : list R) w bm' ins' rs' w' :
  setup_buffers bm ins rs w = Ok (bm', ins', rs', w') →
  data_access <$> ins' = data_access <$> ins ∧
  (has StaticFixed ins → type (vertex_buffer bm') = Vertex ∧ type (index_buffer bm') = Index) ∧
  (has DynamicFixed ins → type (dynamic_vertex_buffer bm') = Vertex ∧ type (dynamic_index_buffer bm') = Index).
Proof.
  unfold setup_buffers. intros ([bm1 ins1] & w1 & E1 & E)%st_bind_inv.
  apply st_bind_inv in E as ([cs rs1] & w2 & _ & [= <- <- _ _]). cbn.
  destruct ins as [|i ins].
  { injection E1 as <- <- _. split; [done|]. split; intros []%elem_of_nil. }
  revert E1. generalize (i :: ins). clear i ins. intros ins E1.
  apply st_bind_inv in E1 as (h & ? & _ & E1).
  apply st_bind_inv in E1 as (c & ? & [[Hs Hd]%compile_geometry _]%lift_inv & E1).
  apply st_bind_inv in E1 as (bm2 & w3 & E2 & E1). unfold setup_static in E2. unfold setup_dynamic in E1.
  assert (has StaticFixed ins → type (vertex_buffer bm2) = Vertex ∧ type (index_buffer bm2) = Index) as Hs2.
  { intros Hh. rewrite (Hs Hh) in E2. apply st_bind_inv in E2 as (vb & ? & Hv%Buffer_new_type & E2).
    apply st_bind_inv in E2 as (vb' & ? & ->%Buffer_assign_value & E2).
    apply st_bind_inv in E2 as (ib & ? & Hi%Buffer_new_type & E2).
    apply st_bind_inv in E2 as (ib' & ? & ->%Buffer_assign_value & [= <- _]). done. }
  destruct (any_dynamic_geometry c) eqn:Ed.
  - apply st_bind_inv in E1 as (vb & ? & Hv%Buffer_new_type & E1).
    apply st_bind_inv in E1 as (vb' & ? & ->%Buffer_assign_value & E1).
    apply st_bind_inv in E1 as (ib & ? & Hi%Buffer_new_type & E1).
    apply st_bind_inv in E1 as (ib' & ? & ->%Buffer_assign_value & E1).
    apply st_bind_inv in E1 as (vm & ? & _ & E1).
    apply st_bind_inv in E1 as (i1 & ? & F1%(fold_access _ _ _ _ _ _ (map_vertex_access vm)) & E1).
    apply st_bind_inv in E1 as (im & ? & _ & E1).
    apply st_bind_inv in E1 as (i2 & ? & F2%(fold_access _ _ _ _ _ _ (map_index_access im)) & [= <- <- _]).
    split; [by rewrite F2|]. cbn. auto.
  - injection E1 as <- <- _. split; [done|]. split; [done|]. intros Hh%Hd. congruence.
Qed.

Lemma num_inputs_has acc ins : 0 < num_inputs_of acc ins → has acc ins.
Proof.
  unfold num_inputs_of, has. intros H.
  cut (∀ n, n < foldl (λ n i, n + (if bool_decide (data_access i = acc) then 1 else 0)) n ins →
         acc ∈ (data_access <$> ins)); [intros Hc; by apply (Hc 0)|]. clear H.
  induction ins as [|i ins IH]; intros n H; cbn in *; [lia|].
  case_bool_decide as Ha; [subst; apply list_elem_of_here|]. apply list_elem_of_further, (IH n). by rewrite Nat.add_0_r in H.
Qed.

Lemma Processor_new_inv ins w p w' : Processor_new ins w = Ok (p, w') →
  NoDup (get_buffer_natives (command_pool p)) ∧
  length (get_buffer_natives (command_pool p)) = get_view_count + 1 ∧
  (∀ c, c ∈ get_buffer_natives (command_pool p) → live (v_vma w') c) ∧
  (∀ c, live (v_vma w) c → live (v_vma w') c ∧ c ∉ get_buffer_natives (command_pool p)) ∧
  v_cmds w' = v_cmds w ∧
  (is_Some (draw_indirect_buffer p) → has StaticFixed ins) ∧
  (is_Some (draw_indirect_dynamic_buffer p) → has DynamicFixed ins).
Proof.
  unfold Processor_new. intros (n & w1 & E1 & E)%st_bind_inv.
  assert (Hn : get_buffer_natives n = []).
  { unfold CommandPool_new in E1. by apply st_bind_inv in E1 as (? & ? & _ & [= <- _]). }
  apply (quiet_inv _ _ _ _ (native_pool_quiet true)) in E1 as [C1 S1].
  apply st_bind_inv in E as (s & w2 & E2 & E). apply st_bind_inv in E as (d & w3 & E3 & E).
  assert (∀ acc m wa wb, indirect_buffer (num_inputs_of acc ins) wa = Ok (m, wb) → is_Some m → has acc ins) as Hi.
  { intros acc m wa wb. unfold indirect_buffer. destruct (Nat.ltb_spec 0 (num_inputs_of acc ins)) as [Hlt|Hge].
    - intros _ _. by apply num_inputs_has.
    - intros [= <- _]. by intros []. }
  pose proof (Hi _ _ _ _ E2) as Hs. pose proof (Hi _ _ _ _ E3) as Hd.
  apply (quiet_inv _ _ _ _ (indirect_quiet _)) in E2 as [C2 S2], E3 as [C3 S3].
  apply st_bind_inv in E as (a & w4 & E4 & E). apply (quiet_inv _ _ _ _ (sync_quiet _)) in E4 as [C4 S4]. apply st_bind_inv in E as (pool & w5 & E5 & [= <- <-]). cbn.
  destruct (initialise_command_pool_natives _ _ _ _ E5) as [Hnd Hlen].
  destruct (initialise_pool_fresh _ _ _ _ E5) as [Hl Ho].
  pose proof (initialise_command_pool_silent _ _ _ _ E5) as S5.
  split_and!; try done; [|congruence]. intros c Hc. apply Ho; [auto|]. rewrite Hn. apply not_elem_of_nil.
Qed.

Lemma scratch_commands_typed bm im ins (rs : list R) p w p' w' : typed bm p ins →
  record_and_run_scratch_commands bm im ins rs p w = Ok (p', w') → typed bm p' ins.
Proof.
  unfold record_and_run_scratch_commands. intros Ht E. do 3 (apply st_bind_inv in E as (? & ? & _ & E)).
  apply st_bind_inv in E as (p1 & w1 & E1 & E). do 3 (apply st_bind_inv in E as (? & ? & _ & E)). injection E as <- _.
  unfold scratch_inputs in E1. do 8 (apply st_bind_inv in E1 as (? & ? & _ & E1)).
  apply st_bind_inv in E1 as (p2 & w2 & E2 & E1). do 2 (apply st_bind_inv in E1 as (? & ? & _ & E1)). injection E1 as <- _.
  apply (record_draw_list_inv _ _ bm) in E2 as (Hty & _); [by destruct Hty as [? ? ? ?]|by destruct Ht as [? ? ? ?]].
Qed.

(** The constructor changes no command buffer of another renderer. *)
Lemma RendererVulkan_new_inv rp playout regenerate (b : RendererBuilderVulkan I R) w r w' :
  RendererVulkan_new rp playout regenerate b w = Ok (r, w') →
  (∀ c, c ∈ natives r → live (v_vma w') c) ∧
  (∀ c, live (v_vma w) c → live (v_vma w') c ∧ (c ∉ natives r) ∧ commands w' c = commands w c) ∧
  renderer_ready r.
Proof.
  unfold RendererVulkan_new. intros (ins & w1 & [_ ->]%lift_inv & E)%st_bind_inv.
  apply st_bind_inv in E as (? & w1 & [_ ->]%lift_inv & E).
  apply st_bind_inv in E as (pl & w1 & [C1 S1]%(quiet_inv _ _ _ _ pipeline_quiet) & E).
  apply st_bind_inv in E as (im & w2 & [C2 S2]%(quiet_inv _ _ _ _ image_manager_quiet) & E).
  apply st_bind_inv in E as (p0 & w3 & (Hnd & Hlen & Hl & Ho & S3 & Hs & Hd)%Processor_new_inv & E).
  apply st_bind_inv in E as ([[bm ins'] rs] & w4 & E4 & E).
  pose proof (setup_buffers_typed _ _ _ _ _ _ _ _ E4) as (Ha & Hts & Htd).
  apply (quiet_inv _ _ _ _ (setup_buffers_quiet _ _ _)) in E4 as [C4 S4].
  apply st_bind_inv in E as (im1 & w5 & [C5 S5]%(quiet_inv _ _ _ _ (textures_quiet _ _ _)) & E).
  apply st_bind_inv in E as (im2 & w6 & [C6 S6]%(quiet_inv _ _ _ _ (depth_image_quiet _ _)) & E).
  apply st_bind_inv in E as (im3 & w7 & [C7 S7]%(quiet_inv _ _ _ _ (framebuffers_quiet _)) & E).
  apply st_bind_inv in E as (p1 & w8 & E8 & E). pose proof (quiet_inv _ _ _ _ (descriptors_quiet _ _ _ _ _) E8) as [C8 S8].
  destruct (descriptors_keep _ _ _ _ _ _ _ _ E8) as (Hp & _ & Hi & Hid).
  assert (Ht1 : typed bm p1 ins').
  { unfold has in *. split; unfold has; rewrite ?Ha, ?Hi, ?Hid; done. }
  apply st_bind_inv in E as (p2 & w9 & E9 & E). pose proof (record_rendering_calm _ _ _ _ _ _ _ _ _ _ _ E9) as C9.
  apply record_rendering_inv in E9 as (Hn2 & Hp2 & _ & K9); [|by eapply typed_geometry|by rewrite Hp].
  apply st_bind_inv in E as (p3 & w10 & E10 & [= <- <-]).
  pose proof (scratch_commands_calm _ _ _ _ _ _ _ _ E10) as C10.
  assert (Ht2 : typed bm p2 ins') by (rewrite Hp2; by destruct Ht1 as [? ? ? ?]).
  pose proof (scratch_commands_typed _ _ _ _ _ _ _ _ Ht2 E10) as Ht3. rewrite Hp in Hn2, K9.
  destruct (lookup_lt_is_Some_2 (get_buffer_natives (command_pool p0)) get_view_count) as [c Hc]; [lia|].
  destruct (scratch_commands_scratch c _ Hc _ _ _ _ _ Hn2 _ _ _ E10) as [Hn3 K10].
  assert (Hcv : c ∈ get_buffer_natives (command_pool p0)) by (by eapply list_elem_of_lookup_2).
  unfold natives, renderer_ready, renderer_typed, natives. cbn. rewrite Hn3. split_and!.
  - auto 10.
  - intros c' Hc'. destruct (Ho c') as [Hl' Hni]; [auto|]. split_and!; [auto 10|done|].
    rewrite K10 by (by intros ->). rewrite K9 by done. apply commands_silent.
    by rewrite S8, S7, S6, S5, S4, S3, S2, S1.
  - by destruct Ht3 as [? ? ? ?].
  - done.
Qed.

End Target.
End Renderers.

(** ** The application *)

(** None of the calls a device makes touches a command buffer. *)
Class DeviceCallLaws `{VM : Vma} `{V : Vk} `{VO : !VkObjects} {CL : CommandBufferLaws}
    `{SC : !SwapchainCalls vkworld} `{DC : !DeviceCalls} : Prop := {
  create_swapchain_quiet : ∀ i, quiet (vkCreateSwapchainKHR i);
  swapchain_images_quiet : ∀ s, quiet (vkGetSwapchainImagesKHR s);
  swapchain_view_quiet : ∀ i f, quiet (VkSwapchain.vkCreateImageView i f);
  create_device_quiet : ∀ d k l, quiet (vkCreateDevice d k l);
  create_allocator_quiet : ∀ d l, quiet (vmaCreateAllocator d l);
  wait_idle_quiet : ∀ d, quiet (vkDeviceWaitIdle d);
  destroy_swapchain_quiet : ∀ d s, quiet (vkDestroySwapchainKHR d s);
  destroy_view_quiet : ∀ d v, quiet (vkDestroyImageView d v) }.

Section Application.
Context `{BC : BuildConfig} `{SS : StdSort} `{VKS : VkSession}.
Context `{VM : Vma} {VMS : VmaSpec} {VMU : VmaSucceeds} `{V : Vk} `{VO : !VkObjects} {CL : CommandBufferLaws}.
Context `{SC : !SwapchainCalls vkworld} `{DC : !DeviceCalls} {DL : DeviceCallLaws}.
Context {I : Type} `{II : IRendererInput I} {LI : RendererInputLaws I} {R : Type} `{IR : IResource R}.
Implicit Types (r : RendererVulkan I R) (a : app (I := I) (R := R)).

(** What a program may do to a renderer. *)
Inductive renderer_call := CallRender | CallRenderList (draws : RendererDrawList) | CallClearColour (colour : list Z).

Definition perform (idle : vk_state → vk_state) (call : renderer_call) (T : Target) r : ST vkworld (RendererVulkan I R) :=
  match call with
  | CallRender => render (TG := T) r
  | CallRenderList draws => render_list (TG := T) draws r
  | CallClearColour colour => set_clear_colour (TG := T) idle colour r
  end.

(** One step of an application.  A renderer is constructed where there is none;
    the machine may report other capabilities at every resize. *)
Inductive app_step : app (I := I) (R := R) → app (I := I) (R := R) → Prop :=
| StepCreate this rp playout b a a' :
    a_renderers a !! this = None → create_renderer this rp playout b a = Ok (tt, a') → app_step a a'
| StepDestroy this a a' : destroy_renderer this a = Ok (tt, a') → app_step a a'
| StepUse idle this call a a' : use_renderer this (perform idle call) a = Ok (tt, a') → app_step a a'
| StepResize (PD : PhysicalDevices) w h sizes n a a' :
    resize_window w h sizes a = Ok (n, a') → app_step a a'.

(** An application starts by creating its device. *)
Definition reachable a : Prop :=
  ∃ (PD : PhysicalDevices) b w0 d0 a0, DeviceVulkan_new b (mkApp w0 d0 ∅ false) = Ok (tt, a0) ∧ rtc app_step a0 a.

Record app_inv a : Prop := mkAppInv {
  ai_ready : ∀ this r, a_renderers a !! this = Some r → renderer_ready r;
  ai_live : ∀ this r c, a_renderers a !! this = Some r → c ∈ natives r → live (v_vma (a_vk a)) c;
  ai_disjoint : ∀ this that r s c, this ≠ that → a_renderers a !! this = Some r → a_renderers a !! that = Some s →
    c ∈ natives r → c ∉ natives s;
  ai_callbacks : ∀ this r, a_renderers a !! this = Some r → Some this ∈ renderer_resize_callbacks (a_device a);
  ai_window : a_registered a = negb is_headless }.

Lemma on_vk_inv {A} (m : ST vkworld A) a x a' : on_vk m a = Ok (x, a') →
  ∃ w, m (a_vk a) = Ok (x, w) ∧ a' = mkApp w (a_device a) (a_renderers a) (a_registered a).
Proof. unfold on_vk. destruct (m (a_vk a)) as [[y w]|]; [|done]. intros [= <- <-]. eauto. Qed.

(** A computation of the device alone. *)
Lemma app_inv_quiet {A} (m : ST vkworld A) a x a' : quiet m → on_vk m a = Ok (x, a') → app_inv a → app_inv a'.
Proof.
  intros Hq (w & E & ->)%on_vk_inv [Hr Hl Hd Hcb Hw]. apply (quiet_inv _ _ _ _ Hq) in E as [Hc _].
  split; cbn; eauto.
Qed.

(** An operation of one renderer. *)
Lemma app_inv_operation a this r r' w' : app_inv a → a_renderers a !! this = Some r →
  operation r (a_vk a) r' w' → app_inv (mkApp w' (a_device a) (<[this := r']> (a_renderers a)) (a_registered a)).
Proof.
  intros [Hr Hl Hd Hcb Hw] Ht [Ol Oo Or]. split; cbn; [| | | |done].
  - intros k s [[<- <-]|[_ Hs]]%lookup_insert_Some; [done|eauto].
  - intros k s c [[<- <-]|[Hne Hs]]%lookup_insert_Some Hc; [auto|]. apply Oo; [eauto|]. by eapply (Hd k this s r).
  - intros k l s t c Hkl [[<- <-]|[Hk Hs]]%lookup_insert_Some [[<- <-]|[Hl' Ht']]%lookup_insert_Some Hc; [done|..].
    + intros Hc'. destruct (Oo c) as (_ & Hn & _); [by eapply Hl|by eapply (Hd l this t r)|done].
    + apply Oo; [by eapply Hl|by eapply (Hd k this s r)].
    + by eapply (Hd k l).
  - intros k s [[<- _]|[_ Hs]]%lookup_insert_Some; eauto.
Qed.

(** ** Every step keeps the invariant *)

Lemma use_renderer_inv this f a a' : use_renderer this f a = Ok (tt, a') →
  ∃ r T r' w', a_renderers a !! this = Some r ∧ target_of (swapchain (a_device a)) = Ok T ∧
    f T r (a_vk a) = Ok (r', w') ∧
    a' = mkApp w' (a_device a) (<[this := r']> (a_renderers a)) (a_registered a).
Proof.
  unfold use_renderer. intros (r & a1 & [Hr ->]%lift_inv & E)%st_bind_inv.
  apply st_bind_inv in E as (T & a1 & [HT ->]%lift_inv & E).
  apply st_bind_inv in E as (r' & a1 & (w' & Ef & ->)%on_vk_inv & [= <-]).
  exists r, T, r', w'. split_and!; try done. by destruct (a_renderers a !! this); simplify_eq/=.
Qed.

Lemma perform_operation idle call T a this r r' w' : app_inv a → a_renderers a !! this = Some r →
  perform idle call T r (a_vk a) = Ok (r', w') → operation r (a_vk a) r' w'.
Proof.
  intros [Hr Hl _ _ _] Ht E. destruct call; cbn in E.
  - eapply render_operation; eauto.
  - eapply render_list_inv; eauto.
  - eapply set_clear_colour_inv; eauto.
Qed.

Lemma create_renderer_inv this rp playout b a a' : app_inv a → a_renderers a !! this = None →
  create_renderer this rp playout b a = Ok (tt, a') → app_inv a' ∧
  renderer_resize_callbacks (a_device a') = renderer_resize_callbacks (a_device a) ++ [Some this] ∧
  swapchain (a_device a') = swapchain (a_device a).
Proof.
  intros [Hr Hl Hd Hcb Hw] Hnone. unfold create_renderer. intros (d & a1 & [= <- <-] & E)%st_bind_inv.
  apply st_bind_inv in E as ([] & a1 & [= <-] & E). apply st_bind_inv in E as (T & a1 & [HT ->]%lift_inv & E).
  apply st_bind_inv in E as (r & a1 & (w' & En & ->)%on_vk_inv & [= <-]).
  cbn in En. apply RendererVulkan_new_inv in En as (Nl & No & Nr). cbn.
  rewrite insert_app_r_alt, Nat.sub_diag by lia. cbn. split; [|done].
  - split; cbn; [| | | |done].
    + intros k s [[<- <-]|[_ Hs]]%lookup_insert_Some; [done|eauto].
    + intros k s c [[<- <-]|[Hne Hs]]%lookup_insert_Some Hc; [auto|]. apply No. eauto.
    + intros k l s t c Hkl [[<- <-]|[Hk Hs]]%lookup_insert_Some [[<- <-]|[Hl' Ht']]%lookup_insert_Some Hc; [done|..].
      * intros Hc'. destruct (No c) as (_ & Hn & _); [by eapply Hl|done].
      * apply No. by eapply Hl.
      * by eapply (Hd k l).
    + intros k s [[<- _]|[_ Hs]]%lookup_insert_Some; rewrite elem_of_app; [right; by apply list_elem_of_singleton|left; eauto].
Qed.

Lemma each_view_quiet dev l : quiet (st_each (destroy_view dev) l).
Proof.
  split.
  - apply calm_each. intros v. unfold destroy_view. destruct (v =? _)%Z; [apply calm_ret|apply destroy_view_quiet].
  - induction l as [|v l IH]; simpl; [apply silent_ret|]. apply silent_bind; [|auto].
    unfold destroy_view. destruct (v =? _)%Z; [apply silent_ret|apply destroy_view_quiet].
Qed.

Lemma Swapchain_destroy_quiet dev s : quiet (Swapchain_destroy dev s).
Proof.
  unfold Swapchain_destroy. apply quiet_then; [|intros _; apply each_view_quiet].
  destruct (_ =? _)%Z; [apply quiet_mret|apply destroy_swapchain_quiet].
Qed.

Lemma Swapchain_new_quiet `{PD : PhysicalDevices} d prefs : quiet (Swapchain_new d prefs).
Proof.
  unfold Swapchain_new, ImageViews_new, add_view.
  apply quiet_then; [apply quiet_lift|intros c]. apply quiet_then; [apply create_swapchain_quiet|intros s].
  apply quiet_then; [apply quiet_lift|intros _]. apply quiet_then; [|intros vs; apply quiet_mret].
  apply quiet_then; [apply swapchain_images_quiet|intros im]. apply quiet_fold. intros x l.
  apply quiet_then; [apply swapchain_view_quiet|intros v]. apply quiet_then; [apply quiet_lift|intros _]. apply quiet_mret.
Qed.

(** What the swapchain of a device is after it has been rebuilt. *)
Lemma Swapchain_new_inv `{PD : PhysicalDevices} d prefs w s w' : Swapchain_new d prefs w = Ok (s, w') →
  ∃ create, swapchain_create_info (ld_queue_family d) prefs = Ok create ∧ sc_extent s = ci_imageExtent create ∧
    sc_format s = ci_imageFormat create.
Proof.
  unfold Swapchain_new. intros (create & w1 & [Hc ->]%lift_inv & E)%st_bind_inv.
  do 3 (apply st_bind_inv in E as (? & ? & _ & E)). injection E as <- _. by exists create.
Qed.

Lemma DeviceVulkan_new_inv `{PD : PhysicalDevices} b w0 d0 a0 :
  DeviceVulkan_new b (mkApp w0 d0 ∅ false) = Ok (tt, a0) →
  a_renderers a0 = ∅ ∧ a_registered a0 = negb is_headless.
Proof.
  unfold DeviceVulkan_new. intros ([] & a1 & [= <-] & E)%st_bind_inv.
  apply st_bind_inv in E as ([dev family] & a1 & [_ ->]%lift_inv & E).
  apply st_bind_inv in E as (ld & a1 & (w1 & _ & ->)%on_vk_inv & E).
  apply st_bind_inv in E as (buf & a2 & Eb & [= <-]). cbn.
  destruct is_headless; by apply st_bind_inv in Eb as (x & a3 & (w2 & _ & ->)%on_vk_inv & [= <- <-]).
Qed.

(** ** Resizing *)

Lemma follows_same T r1 r2 r3 w : same_renderer r1 r2 → follows_target (TG := T) r2 r3 w → follows_target (TG := T) r1 r3 w.
Proof.
  intros (Hi & _ & Hrp & Hb & Hpl & Hc & Hdc & Hdp & Hs & Hd) [Hf Hr Hn]. split; [done| |by rewrite <- Hdp].
  intros i fb Hfb. destruct (Hr i fb Hfb) as (c & Hci & Hcm). exists c. split; [done|]. rewrite Hcm.
  unfold current_view_commands, view_commands, set_commands. by rewrite Hi, Hrp, Hb, Hpl, Hc, Hdc, Hdp, Hs, Hd.
Qed.

Lemma follows_others T r1 r2 w w' : (∀ c, c ∈ natives r2 → commands w' c = commands w c) →
  follows_target (TG := T) r1 r2 w → follows_target (TG := T) r1 r2 w'.
Proof.
  intros Hc [Hf Hr Hn]. split; [done| |done]. intros i fb Hfb. destruct (Hr i fb Hfb) as (c & Hci & Hcm).
  exists c. split; [done|]. rewrite Hc; [done|]. by apply (list_elem_of_lookup_2 _ i).
Qed.

(** What has been resized once the callbacks [done_] have run from [a] to [a']. *)
Record resized (T : Target) (done_ : list (option nat)) a a' : Prop := mkResized {
  rz_inv : app_inv a';
  rz_device : a_device a' = a_device a;
  rz_known : ∀ this, Some this ∈ done_ → is_Some (a_renderers a !! this);
  rz_renderers : ∀ this r, a_renderers a !! this = Some r → ∃ r', a_renderers a' !! this = Some r' ∧ same_renderer r r' ∧
    (Some this ∈ done_ → follows_target (TG := T) r r' (a_vk a'));
  rz_absent : ∀ this, a_renderers a !! this = None → a_renderers a' !! this = None }.

Lemma resized_step T done_ callback a a1 a2 : headless = false → target_of (swapchain (a_device a)) = Ok T →
  resized T done_ a a1 → run_callback callback a1 = Ok (tt, a2) → resized T (done_ ++ [callback]) a a2.
Proof.
  intros Hh HT [Hi Hd Hk Hr Hab] E. destruct callback as [this|]; cbn in E.
  2: { injection E as <-. assert (∀ k, Some k ∈ done_ ++ [None] → Some k ∈ done_) as Hin.
       { intros k [?|H%list_elem_of_singleton]%elem_of_app; [done|discriminate H]. }
       split; try done; [by auto|]. intros k r Hk'. destruct (Hr k r Hk') as (r' & ? & ? & ?). exists r'. eauto. }
  apply use_renderer_inv in E as (r1 & T' & r2 & w' & H1 & HT' & E & ->). rewrite Hd, HT in HT'. injection HT' as <-.
  destruct (handle_resize_inv r1 _ _ _ (ai_ready _ Hi _ _ H1) Hh E) as (Hop & Hsame & Hfol).
  split; cbn; [by eapply app_inv_operation|done| | |].
  - intros k [?|[= ->]%list_elem_of_singleton]%elem_of_app; [auto|].
    destruct (a_renderers a !! this) eqn:Ea; [done|]. rewrite (Hab _ Ea) in H1. done.
  - intros k r Hk'. destruct (Hr k r Hk') as (r' & Hr' & Hs' & Hf'). destruct (decide (k = this)) as [->|Hne].
    + rewrite H1 in Hr'. injection Hr' as <-. exists r2. rewrite lookup_insert_eq. split; [done|].
      split; [by eapply same_renderer_trans|]. intros _. by eapply follows_same.
    + exists r'. rewrite lookup_insert_ne by done. split; [done|]. split; [done|].
      intros [Hin|[= ->]%list_elem_of_singleton]%elem_of_app; [|done]. eapply follows_others, Hf', Hin.
      intros c Hc. apply (op_others _ _ _ _ Hop); [by eapply ai_live|by eapply (ai_disjoint _ Hi k this)].
  - intros k Hk'. destruct (decide (k = this)) as [->|Hne]; [rewrite (Hab _ Hk') in H1; done|].
    rewrite lookup_insert_ne by done. auto.
Qed.

Lemma target_windowed b T : is_headless = false → target_of b = Ok T →
  headless = false ∧ ∃ s, b = AsSwapchain s ∧ image_views = sc_image_views s.
Proof.
  intros Hh. unfold target_of. intros (w & _ & E)%bind_Ok_inv. apply bind_Ok_inv in E as (h & _ & E).
  rewrite Hh in E. apply bind_Ok_inv in E as (s & Es & E). injection E as <-. split; [done|].
  unfold to_Swapchain in Es. apply bind_Ok_inv in Es as (_ & _ & Es). destruct b; simplify_eq/=. by exists s.
Qed.

(** A resize: the swapchain is rebuilt, then every renderer follows it. *)
Lemma on_window_resize_inv `{PD : PhysicalDevices} a a' : is_headless = false → app_inv a →
  on_window_resize a = Ok (tt, a') →
  app_inv a' ∧ renderer_resize_callbacks (a_device a') = renderer_resize_callbacks (a_device a) ∧
  (∀ this, a_renderers a !! this = None → a_renderers a' !! this = None) ∧
  ∃ s create, swapchain (a_device a') = AsSwapchain s ∧
    swapchain_create_info (ld_queue_family (device (a_device a))) my_prefs = Ok create ∧
    sc_extent s = ci_imageExtent create ∧
    ∀ this, Some this ∈ renderer_resize_callbacks (a_device a) → ∃ T r r',
      target_of (AsSwapchain s) = Ok T ∧ a_renderers a !! this = Some r ∧ a_renderers a' !! this = Some r' ∧
      same_renderer r r' ∧ follows_target (TG := T) r r' (a_vk a').
Proof.
  intros Hh Hi. unfold on_window_resize. rewrite Hh. intros (d & a1 & [= <- <-] & E)%st_bind_inv.
  apply st_bind_inv in E as ([] & a1 & E1 & E). pose proof (app_inv_quiet _ _ _ _ (wait_idle_quiet _) E1 Hi) as Hi1.
  apply on_vk_inv in E1 as (w1 & _ & ->). apply st_bind_inv in E as ([] & a2 & E2 & E).
  unfold rebuild_swapchain in E2. apply st_bind_inv in E2 as (d & a3 & [= <- <-] & E2). cbn in E2.
  apply st_bind_inv in E2 as (s0 & a3 & [_ ->]%lift_inv & E2). apply st_bind_inv in E2 as ([] & a3 & E3 & E2).
  pose proof (app_inv_quiet _ _ _ _ (Swapchain_destroy_quiet _ _) E3 Hi1) as Hi3. apply on_vk_inv in E3 as (w3 & _ & ->).
  apply st_bind_inv in E2 as (s & a3 & E3 & [= <-]). pose proof (app_inv_quiet _ _ _ _ (Swapchain_new_quiet _ _) E3 Hi3) as Hi4.
  apply on_vk_inv in E3 as (w4 & Es & ->). cbn in *.
  destruct (Swapchain_new_inv _ _ _ _ _ Es) as (create & Hcreate & Hext & _).
  apply st_bind_inv in E as (cbs & a5 & [= <- <-] & E). cbn in E.
  set (a4 := set_device _ _) in E. assert (Hi5 : app_inv a4) by (by destruct Hi4).
  assert (Hrun : match target_of (AsSwapchain s) with
                 | Ok T => resized T (renderer_resize_callbacks (a_device a)) a4 a'
                 | Fault _ => a' = a4 ∧ ∀ this, Some this ∉ renderer_resize_callbacks (a_device a)
                 end).
  { apply (st_each_Ok_ind (λ done_ a', match target_of (AsSwapchain s) with
      | Ok T => resized T done_ a4 a' | Fault _ => a' = a4 ∧ ∀ this, Some this ∉ done_ end)) in E; [done|..].
    - destruct (target_of (AsSwapchain s)) as [T|] eqn:ET; [|split; [done|]; intros ?; apply not_elem_of_nil].
      split; try done; [by intros k []%not_elem_of_nil|]. intros k r Hk. exists r.
      split; [done|]. split; [done|]. by intros []%not_elem_of_nil.
    - intros done_ cb a5 a6 HP Ecb. destruct (target_of (AsSwapchain s)) as [T|] eqn:ET.
      + destruct (target_windowed _ _ Hh ET) as [HhT _]. by eapply resized_step.
      + destruct HP as [-> Hno]. destruct cb as [this|]; cbn in Ecb.
        * apply use_renderer_inv in Ecb as (? & T & ? & ? & _ & HT & _). cbn in HT. congruence.
        * injection Ecb as <-. split; [done|]. intros k [?|H%list_elem_of_singleton]%elem_of_app; [by eapply Hno|discriminate H]. }
  destruct (target_of (AsSwapchain s)) as [T|] eqn:ET.
  - destruct Hrun as [Hinv Hdev Hk Hr Hab]. split; [done|]. split; [by rewrite Hdev|]. split; [done|].
    exists s, create. split; [by rewrite Hdev|]. split; [done|]. split; [done|].
    intros this Hin. destruct (Hk this Hin) as [r Hthis]. destruct (Hr this r Hthis) as (r' & ? & ? & ?).
    exists T, r, r'. split_and!; auto.
  - destruct Hrun as [-> Hno]. split; [done|]. split; [done|]. split; [done|]. exists s, create.
    split; [done|]. split; [done|]. split; [done|]. intros this Hin. by destruct (Hno this).
Qed.

Lemma app_step_inv a a' : app_inv a → app_step a a' → app_inv a' ∧
  ∀ this, Some this ∈ renderer_resize_callbacks (a_device a) → Some this ∈ renderer_resize_callbacks (a_device a').
Proof.
  intros Hi Hs. destruct Hs as [this rp playout b a a' Hn E|this a a' [= <-]|idle this call a a' E|PD w h sizes n a a' E].
  - apply create_renderer_inv in E as (? & Hc & _); [|done|done]. split; [done|]. intros k Hk. rewrite Hc, elem_of_app. auto.
  - split; [|done]. destruct Hi as [Hr Hl Hd Hcb Hw]. split; cbn; [| | | |done].
    + intros k r [_ Hk]%lookup_delete_Some. eauto.
    + intros k r c [_ Hk]%lookup_delete_Some. eauto.
    + intros k l r s c Hkl [_ Hk]%lookup_delete_Some [_ Hl']%lookup_delete_Some. eauto.
    + intros k r [_ Hk]%lookup_delete_Some. eauto.
  - apply use_renderer_inv in E as (r & T & r' & w' & Ht & HT & E & ->). split; [|done].
    eapply app_inv_operation; eauto. by eapply perform_operation.
  - unfold resize_window in E. rewrite (ai_window _ Hi) in E. destruct is_headless eqn:Hh; cbn in E; [by injection E as _ <-|].
    unfold window_callback in E. apply st_bind_inv in E as (k & a1 & [_ ->]%lift_inv & E).
    apply st_bind_inv in E as ([] & a1 & E & [= _ <-]).
    apply on_window_resize_inv in E as (? & Hc & _); [|done|done]. split; [done|]. intros this. by rewrite Hc.
Qed.

Lemma app_steps_inv a a' : app_inv a → rtc app_step a a' → app_inv a' ∧
  ∀ this, Some this ∈ renderer_resize_callbacks (a_device a) → Some this ∈ renderer_resize_callbacks (a_device a').
Proof.
  intros Hi Hs. induction Hs as [a|a a1 a2 H1 _ IH]; [done|]. destruct (app_step_inv _ _ Hi H1) as [Hi1 Hc1].
  destruct (IH Hi1) as [Hi2 Hc2]. auto.
Qed.

Lemma reachable_inv a : reachable a → app_inv a.
Proof.
  intros (PD & b & w0 & d0 & a0 & E & Hs). eapply app_steps_inv, Hs.
  apply DeviceVulkan_new_inv in E as [Hr Hw]. split; try done; intros; rewrite Hr in *; simplify_map_eq.
Qed.

Lemma resize_window_inv `{PD : PhysicalDevices} w h sizes n a a' : is_headless = false → app_inv a →
  resize_window w h sizes a = Ok (n, a') → wait_visible w h sizes = Ok n ∧ on_window_resize a = Ok (tt, a').
Proof.
  intros Hh Hi. unfold resize_window. rewrite (ai_window _ Hi), Hh. cbn. unfold window_callback.
  intros (k & a1 & [Ek ->]%lift_inv & E)%st_bind_inv. by apply st_bind_inv in E as ([] & a1 & E & [= <- <-]).
Qed.

(** ** Properties *)

(** C18: whatever an application has done with its device, when a resize of its
    window succeeds, the swapchain is a new one of the extent asked for, and
    every renderer the application has was registered for the resize when it was
    created, is the same as before but for what depends on the window, has a
    framebuffer on every view of the new swapchain, with its depth image if it
    has one, and in a command buffer of its own for each the recording of its
    current draw list with that framebuffer, which no other renderer's resize has
    touched.  It has at least as many descriptor sets as there are views: with
    fewer the resize fails.  Every renderer that was ever registered still
    exists: with one that does not the resize fails. *)
Theorem window_resize_records_views `{PD : PhysicalDevices} a w h sizes n a' :
  is_headless = false → reachable a → resize_window w h sizes a = Ok (n, a') →
  ∃ s create, swapchain (a_device a') = AsSwapchain s ∧
    swapchain_create_info (ld_queue_family (device (a_device a))) my_prefs = Ok create ∧
    sc_extent s = ci_imageExtent create ∧
    (∀ this r, a_renderers a !! this = Some r → ∃ T r',
      target_of (AsSwapchain s) = Ok T ∧ image_views = sc_image_views s ∧
      a_renderers a' !! this = Some r' ∧
      same_renderer r r' ∧ follows_target (TG := T) r r' (a_vk a')) ∧
    ∀ this, Some this ∈ renderer_resize_callbacks (a_device a) ↔ is_Some (a_renderers a !! this).
Proof.
  intros Hh Hr%reachable_inv E. apply (resize_window_inv _ _ _ _ _ _ Hh Hr) in E as [_ E].
  destruct (on_window_resize_inv a a' Hh Hr E) as (_ & _ & _ & s & create & ? & ? & ? & Hall).
  exists s, create. do 3 (split; [done|]). split.
  - intros this r Hthis. destruct (Hall this (ai_callbacks _ Hr _ _ Hthis)) as (T & r1 & r' & HT & Hr1 & ?).
    simplify_eq. exists T, r'. split; [done|]. split; [|done].
    destruct (target_windowed _ _ Hh HT) as [_ (s' & [= <-] & Hv)]. done.
  - intros this. split; [|by intros [r ?%(ai_callbacks _ Hr)]].
    intros Hin. destruct (Hall this Hin) as (_ & r & _ & _ & -> & _). done.
Qed.


(** C38: the callback of the window waits until the window has an area: among the
    size it is called with and the sizes GLFW then reports, one per event, it
    stops at the first without a zero. *)
Theorem minimised_window_waits w h sizes :
  Forall (λ '(w, h), 0 ≤ w < 2 ^ 24 ∧ 0 ≤ h < 2 ^ 24)%Z sizes →
  Exists (λ '(w, h), w ≠ 0 ∧ h ≠ 0)%Z ((w, h) :: sizes) →
  ∃ n w' h', wait_visible w h sizes = Ok n ∧ ((w, h) :: sizes) !! n = Some (w', h') ∧ (w' ≠ 0 ∧ h' ≠ 0)%Z ∧
    ∀ k w' h', k < n → ((w, h) :: sizes) !! k = Some (w', h') → (w' = 0 ∨ h' = 0)%Z.
Proof.
  revert w h. induction sizes as [|[w1 h1] sizes IH]; intros w h HF HE.
  all: destruct (decide (w = 0 ∨ h = 0)%Z) as [Hz|Hz].
  2,4: exists 0, w, h; cbn [wait_visible]; rewrite (proj2 (Z.eqb_neq w 0)), (proj2 (Z.eqb_neq h 0)) by lia;
    (split; [done|]); (split; [done|]); (split; [lia|lia]).
  - apply Exists_cons in HE as [?|[]%Exists_nil]. lia.
  - apply Forall_cons in HF as [[Hw1 Hh1] HF]. apply Exists_cons in HE as [?|HE]; [lia|].
    destruct (IH w1 h1 HF HE) as (n & w' & h' & E & Hn & Hv & Hk). exists (S n), w', h'.
    split; [|split; [done|split; [done|]]].
    + assert ((w =? 0)%Z || (h =? 0)%Z = true) as Hb by (destruct Hz as [-> | ->]; [done|by rewrite orb_true_r]).
      cbn [wait_visible]. rewrite Hb.
      assert (∀ v, (0 ≤ v < 2 ^ 24)%Z → int_of_float (float_round v) = Ok v) as Hf.
      { intros v Hv'. unfold float_round. rewrite (Z.abs_eq v), (proj2 (Z.ltb_lt v _)) by lia. unfold int_of_float.
        by rewrite (proj2 (Z.ltb_lt _ v)), (proj2 (Z.ltb_lt v (2 ^ 31))) by lia. }
      by rewrite !Hf, !bind_Ok, E by lia.
    + intros [|k] w2 h2 Hlt Hl; cbn in Hl; [by simplify_eq|]. apply (Hk k); [lia|done].
Qed.

End Application.

(** ** Concrete inputs: an application on the driver of [VkDriver] *)

#[local] Instance device_config : BuildConfig := debug_build.
#[local] Existing Instance window_session.
#[local] Existing Instance identity_sort.

(** Command buffers are numbered like other objects and never reused. *)
#[local] Instance driver_command_buffers : CommandBufferLaws (VM := driver_vma) (V := driver_vk).
Proof.
  refine {| live m c := (c ≤ a_last m)%Z |}; cbn; try (intros; lia); try done.
  - intros m n l [= <-]. split.
    + intros c (k & -> & _)%list_elem_of_fmap. lia.
    + intros c [?|(k & -> & Hk%elem_of_seq)%list_elem_of_fmap]; lia.
  - by intros [h m] u cpu mapped n c.
  - intros s l c. by rewrite execute_allocator.
Defined.

#[local] Instance driver_swapchains : SwapchainCalls (vkworld (VM := driver_vma) (V := driver_vk)) := {|
  vkCreateSwapchainKHR _ := on_vma new_object;
  vkGetSwapchainImagesKHR _ := mret [601; 602]%Z;
  VkSwapchain.vkCreateImageView _ _ := on_vma new_object;
  vkCreateDevice _ _ _ := on_vma new_object;
  vmaCreateAllocator _ _ := on_vma new_object |}.

#[local] Instance driver_device : DeviceCalls (VM := driver_vma) (V := driver_vk) := {|
  vkDeviceWaitIdle _ := mret tt;
  vkDestroySwapchainKHR _ _ := mret tt;
  vkDestroyImageView _ _ := mret tt |}.

Lemma new_object_quiet : quiet (VM := driver_vma) (V := driver_vk) (on_vma (VM := driver_vma) (V := driver_vk) new_object).
Proof. split; [|apply silent_on_vma]. apply calm_on_vma. intros m c. cbn. lia. Qed.

#[local] Instance driver_device_laws : DeviceCallLaws (VM := driver_vma) (V := driver_vk).
Proof. split; intros; first [apply new_object_quiet | apply quiet_mret]. Qed.

Abbreviation driver_app := (app (VM := driver_vma) (V := driver_vk) (I := input) (R := resource)).

Definition blank : driver_app := mkApp new_device (mkDevice 0 LogicalDevice_null Monostate None []) ∅ false.

Definition state_of {A} (m : res (A * driver_app)) : driver_app := match m with Ok (_, a) => a | Fault _ => blank end.

(** The monitor the application runs on. *)
#[local] Instance monitor : PhysicalDevices := machine [7]%Z 3.

(** A device, and two renderers at the addresses 10 and 11. *)
Definition started : driver_app := state_of (DeviceVulkan_new DeviceBuilder_new blank).
Definition one_renderer : driver_app := state_of (create_renderer 10 900 901 sample_builder started).
Definition simple_builder : RendererBuilderVulkan input resource :=
  mkBuilder [static_triangle 3] Colour (Some Window) [] [] NoCulling (Some 1%Z).
Definition two_renderers : driver_app := state_of (create_renderer 11 902 903 simple_builder one_renderer).

Lemma state_of_Ok (m : res (unit * driver_app)) : is_Ok m = true → m = Ok (tt, state_of m).
Proof. by destruct m as [[[] a]|]. Qed.

Lemma started_reachable : reachable started.
Proof.
  exists monitor, DeviceBuilder_new, new_device, (a_device blank), started. split; [|reflexivity].
  apply state_of_Ok. vm_compute. reflexivity.
Qed.

Lemma reachable_create this rp playout b a : reachable a → a_renderers a !! this = None →
  is_Ok (create_renderer this rp playout b a) = true → reachable (state_of (create_renderer this rp playout b a)).
Proof.
  intros (PD & b0 & w0 & d0 & a0 & E & Hs) Hn Hok. exists PD, b0, w0, d0, a0. split; [exact E|].
  eapply rtc_r; [exact Hs|]. eapply StepCreate; [exact Hn|]. by apply state_of_Ok.
Qed.

Lemma one_renderer_reachable : reachable one_renderer.
Proof.
  apply reachable_create; [apply started_reachable|..]; vm_compute; reflexivity.
Qed.

Lemma two_renderers_reachable : reachable two_renderers.
Proof.
  apply reachable_create; [apply one_renderer_reachable|..]; vm_compute; reflexivity.
Qed.

Lemma window_resize_records_views_witness :
  match resize_window 0 5 [(0, 7); (300, 200)]%Z two_renderers with
  | Ok (n, a') => ∃ s create, swapchain (a_device a') = AsSwapchain s ∧
      swapchain_create_info (ld_queue_family (device (a_device two_renderers))) my_prefs = Ok create ∧
      sc_extent s = ci_imageExtent create ∧
      (∀ this r, a_renderers two_renderers !! this = Some r → ∃ T r',
        target_of (AsSwapchain s) = Ok T ∧ image_views = sc_image_views s ∧
        a_renderers a' !! this = Some r' ∧
        same_renderer r r' ∧ follows_target (TG := T) r r' (a_vk a')) ∧
      ∀ this, Some this ∈ [Some 10; Some 11] ↔ is_Some (a_renderers two_renderers !! this)
  | Fault _ => False
  end.
Proof.
  assert (Hok : is_Ok (resize_window 0 5 [(0, 7); (300, 200)]%Z two_renderers) = true) by (vm_compute; reflexivity).
  assert (Hc : renderer_resize_callbacks (a_device two_renderers) = [Some 10; Some 11]) by (vm_compute; reflexivity).
  rewrite <- Hc.
  destruct (resize_window 0 5 [(0, 7); (300, 200)]%Z two_renderers) as [[n a']|e] eqn:E; [|discriminate Hok].
  exact (window_resize_records_views (CL := driver_command_buffers) (DL := driver_device_laws)
           two_renderers 0 5 [(0, 7); (300, 200)]%Z n a' eq_refl two_renderers_reachable E).
Defined.


Lemma minimised_window_waits_witness :
  ∃ n w' h', wait_visible 0 5 [(0, 7); (300, 200)]%Z = Ok n ∧ [(0, 5); (0, 7); (300, 200)]%Z !! n = Some (w', h') ∧
    (w' ≠ 0 ∧ h' ≠ 0)%Z ∧
    ∀ k w' h', k < n → [(0, 5); (0, 7); (300, 200)]%Z !! k = Some (w', h') → (w' = 0 ∨ h' = 0)%Z.
Proof.
  apply (minimised_window_waits 0 5 [(0, 7); (300, 200)]%Z).
  - repeat constructor; lia.
  - apply Exists_cons. right. apply Exists_cons. right. apply Exists_cons. left. lia.
Defined.
