(* ===== verification/Tzslc.v ===== *)
(** * The shader preprocessor tzslc

    tools/tzslc: [transform] (source_transform.hpp), [preprocess] and
    [preprocess_samplers] (preprocessor.{hpp,cpp}), [selected_modules],
    [get_output_stream] and [main] (tzslc_main.cpp).

    The part of [std::regex] the tool uses (literals, a character range, one
    or more repetitions, a group, [regex_search]) is an ECMAScript matcher that
    lists the ways to match at a position in the order a backtracking search
    tries them.  [std::string::find] and [std::string::replace] are the
    standard library's.  Files are a map from names to contents. *)

From Stdlib Require Import Ascii String.
From S2P Require Import Prelude Containers Version.

(** ** Regular expressions *)

Inductive regex :=
| Eps
| Chr (c : ascii)
| Range (lo hi : ascii)
| Cat (r1 r2 : regex)
| Plus (r : regex)
| Group (r : regex).

Definition lit (s : list ascii) : regex := foldr (λ c r, Cat (Chr c) r) Eps s.

(** A way to match: how many characters it takes, and its groups. *)
Definition outcome : Type := nat * list (list ascii).

Definition advance (n : nat) (g : list (list ascii)) (o : outcome) : outcome := (n + o.1, g ++ o.2).

(** [r+] is greedy: it prefers another repetition to stopping.  A group inside
    a repetition keeps what the last repetition matched. *)
Fixpoint plus_matches (m : list ascii → list outcome) (fuel : nat) (s : list ascii) : list outcome :=
  match fuel with
  | 0 => []
  | S fuel =>
      o ← m s;
      (advance o.1 [] <$> plus_matches m fuel (drop o.1 s)) ++ [o]
  end.

Definition one_of (p : ascii → bool) (s : list ascii) : list outcome :=
  match s with c :: _ => if p c then [(1, [])] else [] | [] => [] end.

(** No expression of the tool repeats one that can match the empty string, so
    a repetition is tried at most once for every character. *)
Fixpoint matches (r : regex) (s : list ascii) : list outcome :=
  match r with
  | Eps => [(0, [])]
  | Chr c => one_of (λ x, bool_decide (x = c)) s
  | Range lo hi => one_of (λ x, (code lo <=? code x)%Z && (code x <=? code hi)%Z) s
  | Cat r1 r2 => o ← matches r1 s; advance o.1 o.2 <$> matches r2 (drop o.1 s)
  | Plus r => plus_matches (matches r) (List.length s) s
  | Group r => (λ o, (o.1, take o.1 s :: o.2)) <$> matches r s
  end.

(** [std::smatch]: position and length of the match, its groups (from the
    first on) and what follows it. *)
Record smatch := mkMatch {
  sm_position : nat; sm_length : nat; sm_groups : list (list ascii); sm_suffix : list ascii }.

(** [std::regex_search]: the preferred match at the first position that has
    one. *)
Fixpoint search_from (r : regex) (pos : nat) (s : list ascii) : option smatch :=
  match matches r s with
  | (n, g) :: _ => Some (mkMatch pos n g (drop n s))
  | [] => match s with [] => None | _ :: s' => search_from r (S pos) s' end
  end.

Definition regex_search (s : list ascii) (r : regex) : option smatch := search_from r 0 s.

(** ** std::string *)

Fixpoint find (s sub : list ascii) : option nat :=
  if bool_decide (sub `prefix_of` s) then Some 0
  else match s with [] => None | _ :: s' => S <$> find s' sub end.

Definition modulus64 : Z := 18446744073709551616.

Definition u64 (z : Z) : Z := (z `mod` modulus64)%Z.

(** What [find] returns as a [std::size_t]; [npos] when there is no occurrence. *)
Definition find_pos (s sub : list ascii) : Z :=
  match find s sub with Some p => Z.of_nat p | None => modulus64 - 1 end.

Definition replace (s : list ascii) (pos len : nat) (by_ : list ascii) : res (list ascii) :=
  if (pos <=? List.length s)%nat then Ok (take pos s ++ by_ ++ drop (pos + len) s) else Fault OutOfRange.

(** [std::stoi] of a string of decimal digits. *)
Definition stoi (s : list ascii) : res Z :=
  let v := dec_value s in
  if (v <=? 2147483647)%Z then Ok v else Fault OutOfRange.

(** ** source_transform.hpp *)

Record ReplaceJob := mkJob { job_pos : nat; job_len : nat; job_text : list ascii }.

Section Tool.
Context `{BC : BuildConfig}.

(** The matches of the [while] loop, in the order they are found. *)
Fixpoint search_loop (fuel : nat) (source : list ascii) (reg : regex)
    (transform_function : list (list ascii) → res (list ascii))
    (src_copy : list ascii) (src_pos_counter : Z) (replacements : list ReplaceJob) : res (list ReplaceJob) :=
  match fuel with
  | 0 => Fault Hang
  | S fuel =>
      match regex_search src_copy reg with
      | None => Ok replacements
      | Some sm =>
          let pos := u64 (Z.of_nat (sm_position sm) + src_pos_counter) in
          _ ← tz_assert (pos <? Z.of_nat (List.length source))%Z;
          let len := sm_length sm in
          let inner_matches := sm_groups sm in
          let src_copy := sm_suffix sm in
          let src_pos_counter := find_pos source src_copy in
          replacement ← transform_function inner_matches;
          search_loop fuel source reg transform_function src_copy src_pos_counter
            (replacements ++ [mkJob (Z.to_nat pos) len replacement])
      end
  end.

(** A match of a non-empty expression removes a character from [src_copy], so
    one more step than there are characters is enough. *)
Definition transform (source : list ascii) (reg : regex)
    (transform_function : list (list ascii) → res (list ascii)) : res (list ascii * bool) :=
  replacements ← search_loop (S (List.length source)) source reg transform_function source 0%Z [];
  let did_any_work := negb (bool_decide (replacements = [])) in
  source ← for_each (λ i source, replace source (job_pos i) (job_len i) (job_text i)) (rev replacements) source;
  Ok (source, did_any_work).

(** ** preprocessor.cpp; [vulkan] is [TZ_VULKAN] (otherwise [TZ_OGL]) *)

Context (vulkan : bool).

Inductive PreprocessorModule := Sampler.

#[export] Instance PreprocessorModule_eq_dec : EqDecision PreprocessorModule.
Proof. solve_decision. Defined.

(** The modules from [Begin] to [End] and their names. *)
Definition modules_in_order : list PreprocessorModule := [Sampler].

Definition preprocessor_module_name (m : PreprocessorModule) : list ascii :=
  match m with Sampler => str "sampler" end.

Definition All : list PreprocessorModule := foldl EnumField.or_assign [] modules_in_order.

Definition sampler_regex : regex :=
  Cat (lit (str "tz_sampler2D_uniform(")) (Cat (Group (Plus (Range "0" "9"))) (Chr ")")).

Definition sampler_replacement (id : Z) : list ascii :=
  let replacement := str "/*tzslc*/ layout(" in
  let replacement := replacement ++ (if vulkan then str "binding" else str "location") in
  replacement ++ (str " = " ++ to_string id ++ str ") uniform sampler2D").

Definition preprocess_samplers (shader_source : list ascii) : res (list ascii * bool) :=
  '(shader_source, _) ← transform shader_source sampler_regex (λ inner,
     _ ← tz_assert (bool_decide (List.length inner = 1));
     beg ← at_index inner 0;
     id ← stoi beg;
     Ok (sampler_replacement id));
  Ok (shader_source, false).

Definition preprocess (modules : list PreprocessorModule) (shader_source : list ascii) : res (list ascii * bool) :=
  let done_any_work := false in
  if EnumField.contains modules Sampler then
    '(shader_source, work) ← preprocess_samplers shader_source;
    Ok (shader_source, done_any_work || work)
  else Ok (shader_source, done_any_work).

(** ** tzslc_main.cpp *)

Fixpoint selected (args : list (list ascii)) (modules : list PreprocessorModule) : list PreprocessorModule :=
  match args with
  | [] => modules
  | arg :: args =>
      if bool_decide (take 2 arg = str "-m") then
        let arg := drop 2 arg in
        let modules := foldl (λ modules m,
          if bool_decide (arg = preprocessor_module_name m) then EnumField.or_assign modules m else modules)
          modules modules_in_order in
        if bool_decide (arg = str "all") then All else selected args modules
      else selected args modules
  end.

Definition selected_modules (args : list (list ascii)) : list PreprocessorModule := selected args [].

(** The files by name, and what was printed. *)
Record host := mkHost { files : gmap (list ascii) (list ascii); printed : list ascii }.

Inductive stream := Stdout | File (name : list ascii) | Null.

(** Which names [fopen(name, "w")] opens; opening truncates the file. *)
Context (writable : list ascii → bool).

Definition fopen_w (name : list ascii) (h : host) : stream * host :=
  if writable name then (File name, mkHost (<[name := []]> (files h)) (printed h)) else (Null, h).

Fixpoint output_stream (argv : list (list ascii)) (output : stream) (h : host) : stream * host :=
  match argv with
  | arg :: ((arg_next :: _) as rest) =>
      let '(output, h) := if bool_decide (arg = str "-o") then fopen_w arg_next h else (output, h) in
      output_stream rest output h
  | _ => (output, h)
  end.

Definition get_output_stream (argv : list (list ascii)) (h : host) : stream * host :=
  output_stream argv Stdout h.

(** What [fprintf(out, "%s", ...)] prints of a buffer. *)
Fixpoint c_string (s : list ascii) : list ascii :=
  match s with
  | [] => []
  | c :: s => if bool_decide (c = "000"%char) then [] else c :: c_string s
  end.

(** The output is in the file once it is closed. *)
Definition print_to (out : stream) (text : list ascii) (h : host) : res host :=
  match out with
  | Stdout => Ok (mkHost (files h) (printed h ++ text))
  | File name => Ok (mkHost (<[name := text]> (files h)) (printed h))
  | Null => Fault NullDeref
  end.

(** Without the assertion a file that did not open has the size [-1], and
    [resize] throws. *)
Definition main (argv : list (list ascii)) (h : host) : res host :=
  _ ← tz_assert (2 <=? List.length argv)%nat;
  glsl_filename ← at_index argv 1;
  let modules := selected_modules (drop 2 argv) in
  let '(out, h) := get_output_stream argv h in
  let shader := files h !! glsl_filename in
  _ ← tz_assert (bool_decide (is_Some shader));
  buffer ← of_option LengthError shader;
  '(buffer, _) ← preprocess modules buffer;
  print_to out (c_string buffer) h.

End Tool.

(** ** The sources: text and uses of the sampler macro *)

Definition macro : list ascii := str "tz_sampler2D_uniform(".

Definition use (ds : list ascii) : list ascii := macro ++ ds ++ [")"%char].

Arguments use ds : simpl never.
Arguments macro : simpl never.

Definition number (ds : list ascii) : Prop := ds ≠ [] ∧ Forall is_digit ds.

Definition use_free (s : list ascii) : Prop := ∀ a ds b, number ds → s ≠ a ++ use ds ++ b.

(** A source in parts: texts, each followed by a use with its digits, and the
    text behind the last use. *)
Definition flatten (chunks : list (list ascii * list ascii)) (tail : list ascii) : list ascii :=
  foldr (λ ch r, ch.1 ++ use ch.2 ++ r) tail chunks.

Definition declared (vulkan : bool) (chunks : list (list ascii * list ascii)) (tail : list ascii) : list ascii :=
  foldr (λ ch r, ch.1 ++ sampler_replacement vulkan (dec_value ch.2) ++ r) tail chunks.

Definition well_formed (chunks : list (list ascii * list ascii)) (tail : list ascii) : Prop :=
  Forall (λ ch, use_free ch.1 ∧ number ch.2) chunks ∧ use_free tail.

Definition id_fits (ch : list ascii * list ascii) : bool := (dec_value ch.2 <=? 2147483647)%Z.

(** What follows a use, as long as it contains another use, does not occur
    before its own place. *)
Definition located (chunks : list (list ascii * list ascii)) (tail : list ascii) : Prop :=
  ∀ a b, chunks = a ++ b → a ≠ [] → b ≠ [] →
    find (flatten chunks tail) (flatten b tail) = Some (List.length (flatten a [])).

(** ** The matcher on the expression of the tool *)

Lemma matches_lit w s : matches (lit w) s = if bool_decide (w `prefix_of` s) then [(List.length w, [])] else [].
Proof.
  revert s. induction w as [|c w IH]; intros s.
  { by rewrite bool_decide_true by apply prefix_nil. }
  destruct s as [|x s].
  { by rewrite bool_decide_false by apply prefix_nil_not. }
  change (matches (lit (c :: w)) (x :: s)) with
    (one_of (λ x, bool_decide (x = c)) (x :: s) ≫= λ o, advance o.1 o.2 <$> matches (lit w) (drop o.1 (x :: s))).
  cbn [one_of]. case_bool_decide as Hx; subst.
  - cbn. rewrite drop_0, IH, app_nil_r.
    destruct (decide (w `prefix_of` s)) as [Hp|Hp].
    + by rewrite !bool_decide_true by (done || by apply prefix_cons).
    + by rewrite !bool_decide_false by (done || by intros ?%prefix_cons_inv_2).
  - by rewrite bool_decide_false by by intros ?%prefix_cons_inv_1.
Qed.

Definition digit_matches : list ascii → list outcome := matches (Range "0" "9").

Lemma one_of_digit c s : digit_matches (c :: s) = if is_digit c then [(1, [])] else [].
Proof. reflexivity. Qed.

Definition no_digit (u : list ascii) : Prop := ∀ c, head u = Some c → is_digit c = false.

Lemma digit_matches_none u : no_digit u → digit_matches u = [].
Proof. destruct u as [|c u]; [done|]. intros H. rewrite one_of_digit. by rewrite (H c). Qed.

Lemma plus_digits ds u fuel : Forall is_digit ds → no_digit u → List.length ds ≤ fuel →
  plus_matches digit_matches fuel (ds ++ u) = (λ k, (k, [])) <$> rev (seq 1 (List.length ds)).
Proof.
  revert fuel. induction ds as [|d ds IH]; intros fuel Hd Hu Hf.
  - destruct fuel; [done|]. cbn [plus_matches app]. by rewrite digit_matches_none.
  - apply Forall_cons in Hd as [Hc Hd]. destruct fuel as [|fuel]; simpl in Hf; [lia|].
    cbn [plus_matches app]. rewrite one_of_digit, (Is_true_true_1 _ Hc). cbn -[seq digit_matches].
    rewrite drop_0, IH by (done || lia). rewrite app_nil_r.
    cbn [seq]. rewrite <- (seq_shift _ 1). cbn [rev]. rewrite <- map_rev, fmap_app. f_equal.
    change (map S) with (fmap (M:=list) S). by rewrite <- !list_fmap_compose.
Qed.

Lemma span_digits (t : list ascii) : ∃ ds u, t = ds ++ u ∧ Forall is_digit ds ∧ no_digit u.
Proof.
  induction t as [|c t (ds & u & -> & Hd & Hu)].
  - exists [], []. done.
  - destruct (is_digit c) eqn:Hc.
    + exists (c :: ds), u. split_and!; [done| |done]. constructor; [by rewrite Hc|done].
    + exists [], (c :: ds ++ u). split_and!; [done|done|]. intros ? [= <-]. done.
Qed.

(** Of the repetitions only the longest can be followed by the parenthesis. *)
Lemma close_paren ds u k : Forall is_digit ds → k < List.length ds → matches (Chr ")") (drop k (ds ++ u)) = [].
Proof.
  intros Hd Hk. destruct (lookup_lt_is_Some_2 ds k Hk) as [c Hc].
  rewrite drop_app_le by lia. rewrite (drop_S _ _ _ Hc). simpl.
  rewrite bool_decide_false; [done|]. intros ->.
  by pose proof (Forall_lookup_1 _ _ _ _ Hd Hc).
Qed.

Lemma longer_repetitions ds u ks : Forall is_digit ds → Forall (λ k, k < List.length ds) ks →
  (((λ o : outcome, (o.1, take o.1 (ds ++ u) :: o.2)) <$> ((λ k, (k, [])) <$> ks))
     ≫= λ o : outcome, advance o.1 o.2 <$> one_of (λ x, bool_decide (x = ")"%char)) (drop o.1 (ds ++ u))) = [].
Proof.
  intros Hd. induction 1 as [|k ks Hk _ IH]; [done|]. rewrite !fmap_cons, bind_cons, IH.
  pose proof (close_paren ds u k Hd Hk) as E. cbn [matches] in E. cbn [fst]. by rewrite E.
Qed.

Lemma digits_then_paren ds u : Forall is_digit ds → no_digit u →
  matches (Cat (Group (Plus (Range "0" "9"))) (Chr ")")) (ds ++ u) =
  if bool_decide (ds ≠ []) && bool_decide (head u = Some ")"%char) then [(List.length ds + 1, [ds])] else [].
Proof.
  intros Hd Hu. cbn [matches]. fold digit_matches.
  change (matches (Range "0" "9")) with digit_matches. rewrite plus_digits; [|done|done|rewrite length_app; lia].
  destruct (decide (ds = [])) as [->|Hne].
  { rewrite bool_decide_false by naive_solver. done. }
  rewrite bool_decide_true by done. simpl.
  destruct (List.length ds) as [|n] eqn:Hn; [by destruct ds|].
  rewrite seq_S, rev_app_distr. cbn [rev app]. rewrite !fmap_cons, bind_cons.
  rewrite longer_repetitions by (done || apply Forall_forall; intros k Hk%list_elem_of_In%in_rev%in_seq; lia).
  cbn [fst snd]. change (1 + n) with (S n). rewrite <- Hn, drop_app_length, take_app_length, app_nil_r.
  destruct u as [|c u]; [done|]. cbn [one_of head].
  case_bool_decide as Hc; subst.
  - by rewrite bool_decide_true by done.
  - by rewrite bool_decide_false by naive_solver.
Qed.

Lemma use_cons ds : use ds = "t"%char :: tl macro ++ ds ++ [")"%char].
Proof. reflexivity. Qed.

(** The first letter of a use occurs nowhere else in it, nor do the characters
    around the parts of a replacement. *)
Lemma digits_avoid c ds : Forall is_digit ds → is_digit c = false → c ∉ ds.
Proof. intros Hd Hc Hin. rewrite Forall_forall in Hd. specialize (Hd c Hin). by rewrite Hc in Hd. Qed.

Lemma use_avoids c ds : Forall is_digit ds → is_digit c = false → c ≠ ")"%char → c ∉ macro → c ∉ use ds.
Proof.
  intros Hd Hc Hp Hm. unfold use. rewrite !elem_of_app, list_elem_of_singleton.
  intros [?|[H|?]]; [done| |done]. exact (digits_avoid _ _ Hd Hc H).
Qed.

Lemma use_one_t ds : Forall is_digit ds → "t"%char ∉ tl (use ds).
Proof.
  intros Hd. rewrite use_cons. cbn [tl]. rewrite !elem_of_app, list_elem_of_singleton.
  intros [H|[H|H]]; [|exact (digits_avoid "t" _ Hd eq_refl H)|done]. revert H. apply (bool_decide_unpack _). by vm_compute.
Qed.

(** Digits end at the first character that is not one. *)
Lemma digits_end ds u ds' u' : Forall is_digit ds → Forall is_digit ds' → no_digit u →
  ds ++ u = ds' ++ ")"%char :: u' → ds = ds' ∧ u = ")"%char :: u'.
Proof.
  intros Hd Hd' Hu. revert ds' Hd'. induction Hd as [|c ds Hc Hd IH]; intros ds' Hd' E.
  - destruct Hd' as [|c' ds' Hc' _]; [done|]. cbn in E. subst u. specialize (Hu c' eq_refl). by rewrite Hu in Hc'.
  - destruct Hd' as [|c' ds' Hc' Hd']; cbn in E; injection E as -> E; [done|].
    by destruct (IH ds' Hd' E) as [-> ->].
Qed.

Lemma use_inj ds ds' r r' : Forall is_digit ds → Forall is_digit ds' →
  use ds ++ r = use ds' ++ r' → ds = ds' ∧ r = r'.
Proof.
  unfold use. rewrite <- !app_assoc. intros Hd Hd' E%app_inv_head.
  apply digits_end in E as [-> [= ->]]; [done..|]. by intros c [= <-].
Qed.

(** A use does not begin in the text before another use and end in it. *)
Lemma use_no_straddle pre ds rest ds' rest' : Forall is_digit ds' →
  pre ++ use ds ++ rest = use ds' ++ rest' → pre = [] ∨ ∃ x, pre = use ds' ++ x.
Proof.
  intros Hd' E. destruct (app_eq_inv _ _ _ _ E) as [(x & Hp & _)|(x & Hu & Hx)]; [eauto|].
  destruct pre as [|c pre]; [by left|]. right. destruct x as [|y x].
  { exists []. by rewrite app_nil_r in *. }
  exfalso. apply (use_one_t ds' Hd'). rewrite Hu. simpl. rewrite use_cons in Hx. simplify_eq/=. set_solver.
Qed.

Lemma matches_use s :
  (∃ ds rest, number ds ∧ s = use ds ++ rest ∧ matches sampler_regex s = [(List.length (use ds), [ds])]) ∨
  (matches sampler_regex s = [] ∧ ∀ ds rest, number ds → s ≠ use ds ++ rest).
Proof.
  change (matches sampler_regex s) with (matches (lit macro) s ≫= λ o,
    advance o.1 o.2 <$> matches (Cat (Group (Plus (Range "0" "9"))) (Chr ")")) (drop o.1 s)).
  rewrite matches_lit. destruct (decide (macro `prefix_of` s)) as [[t ->]|Hno].
  - rewrite bool_decide_true by by apply prefix_app_r.
    cbn [mbind list_bind fst snd]. rewrite drop_app_length, app_nil_r.
    destruct (span_digits t) as (ds & u & -> & Hd & Hu). rewrite digits_then_paren by done.
    destruct (decide (ds ≠ [] ∧ head u = Some ")"%char)) as [[Hne Hh]|Hn].
    + left. destruct u as [|c u]; [done|]. injection Hh as ->. exists ds, u.
      rewrite !bool_decide_true by done. unfold use. rewrite <- !app_assoc, !length_app. split_and!; done.
    + right. split.
      * destruct (decide (ds = [])); [by rewrite bool_decide_false by naive_solver|].
        by rewrite (bool_decide_false (head u = _)), andb_false_r by naive_solver.
      * intros ds' rest [Hne' Hd'] E. unfold use in E. rewrite <- app_assoc in E. apply app_inv_head in E.
        rewrite <- app_assoc in E. apply digits_end in E as [-> ->]; [|done..]. by apply Hn.
  - right. rewrite bool_decide_false by done. split; [done|].
    intros ds rest _ ->. apply Hno. unfold use. rewrite <- app_assoc. by apply prefix_app_r.
Qed.

Lemma use_free_cons_inv c s : use_free (c :: s) → use_free s.
Proof. intros H a ds b Hn ->. by apply (H (c :: a) ds b). Qed.

Lemma search_finds pos pre ds rest : use_free pre → number ds →
  search_from sampler_regex pos (pre ++ use ds ++ rest) =
  Some (mkMatch (pos + List.length pre) (List.length (use ds)) [ds] rest).
Proof.
  intros Hf [Hne Hd]. revert pos Hf. induction pre as [|c pre IH]; intros pos Hf.
  - cbn [app]. destruct (matches_use (use ds ++ rest)) as [(ds' & rest' & [_ Hd'] & E & Em)|[_ Hno]].
    + apply use_inj in E as [<- <-]; [|done..].
      change (search_from sampler_regex pos (use ds ++ rest)) with
        (match matches sampler_regex (use ds ++ rest) with
         | (n, g) :: _ => Some (mkMatch pos n g (drop n (use ds ++ rest)))
         | [] => search_from sampler_regex (S pos) (tl (use ds) ++ rest) end).
      by rewrite Em, drop_app_length, Nat.add_0_r.
    + by destruct (Hno ds rest).
  - destruct (matches_use ((c :: pre) ++ use ds ++ rest)) as [(ds' & rest' & Hn' & E & _)|[Em _]].
    + destruct (use_no_straddle _ _ _ _ _ (proj2 Hn') E) as [?|[x Hx]]; [done|].
      by destruct (Hf [] ds' x Hn').
    + cbn [app search_from]. cbn [app] in Em. rewrite Em, IH by eauto using use_free_cons_inv.
      do 2 f_equal. cbn [List.length]. lia.
Qed.

Lemma search_none pos s : use_free s → search_from sampler_regex pos s = None.
Proof.
  revert pos. induction s as [|c s IH]; intros pos Hf.
  - reflexivity.
  - destruct (matches_use (c :: s)) as [(ds & rest & Hn & E & _)|[Em _]].
    + by destruct (Hf [] ds rest Hn).
    + cbn [search_from]. rewrite Em. eauto using use_free_cons_inv.
Qed.

Lemma search_none_inv pos s : search_from sampler_regex pos s = None → use_free s.
Proof.
  revert pos. induction s as [|c s IH]; intros pos E a ds b Hn Hs.
  - destruct a; rewrite ?use_cons in Hs; done.
  - cbn [search_from] in E. destruct (matches sampler_regex (c :: s)) as [|[n g] l] eqn:Em; [|done].
    destruct (matches_use (c :: s)) as [(? & ? & _ & _ & Em')|[_ Hno]]; [by rewrite Em' in Em|].
    destruct a as [|c' a]; [by apply (Hno ds b)|]. simplify_eq/=. by apply (IH (S pos) E a ds b).
Qed.

(** Every source has such parts. *)
Lemma search_some_inv pos s sm : search_from sampler_regex pos s = Some sm →
  ∃ pre ds, s = pre ++ use ds ++ sm_suffix sm ∧ use_free pre ∧ number ds.
Proof.
  revert pos. induction s as [|c s IH]; intros pos E; [done|].
  destruct (matches_use (c :: s)) as [(ds & rest & Hn & Es & Em)|[Em Hno]]; cbn [search_from] in E; rewrite Em in E.
  - exists [], ds. apply (f_equal (option_map sm_suffix)) in E. cbn [option_map sm_suffix] in E.
    rewrite Es, drop_app_length in E. apply (inj Some) in E as <-. rewrite Es.
    split_and!; [done| |done]. intros a ds' b _ Ha. destruct a; rewrite ?use_cons in Ha; done.
  - destruct (IH _ E) as (pre & ds & Hs & Hf & Hn). exists (c :: pre), ds. rewrite Hs. split_and!; [done| |done].
    intros a ds' b Hn' Ha. destruct a as [|c' a]; cbn [app] in Ha.
    + apply (Hno ds' (b ++ use ds ++ sm_suffix sm) Hn'). by rewrite Hs, app_comm_cons, Ha, <- app_assoc.
    + injection Ha as _ Ha. by apply (Hf a ds' b).
Qed.

Lemma source_has_parts s : ∃ chunks tail, s = flatten chunks tail ∧ well_formed chunks tail.
Proof.
  remember (List.length s) as n eqn:Hn. revert s Hn.
  induction n as [n IH] using lt_wf_ind. intros s ->.
  destruct (search_from sampler_regex 0 s) as [sm|] eqn:E.
  - apply search_some_inv in E as (pre & ds & Hs & Hf & Hn).
    destruct (IH (List.length (sm_suffix sm))) with (s := sm_suffix sm) as (chunks & tail & Hr & Hw & Ht); [|done|].
    { rewrite Hs, use_cons, !length_app. simpl. lia. }
    exists ((pre, ds) :: chunks), tail. cbn [flatten foldr fst snd]. fold (flatten chunks tail). rewrite <- Hr. split; [done|]. split; [by constructor|done].
  - exists [], s. split; [done|]. split; [done|]. eauto using search_none_inv.
Qed.

(** ** The loops of transform *)

Lemma find_suffix s sub : sub `suffix_of` s → is_Some (find s sub).
Proof.
  intros [k ->]. induction k as [|c k IH]; cbn [app].
  - destruct sub; cbn [find]; by rewrite bool_decide_true.
  - cbn [find]. case_bool_decide; [done|]. destruct IH as [p ->]. done.
Qed.

Lemma flatten_cons t ds b tail : flatten ((t, ds) :: b) tail = t ++ use ds ++ flatten b tail.
Proof. reflexivity. Qed.

Lemma flatten_app a b tail : flatten (a ++ b) tail = flatten a [] ++ flatten b tail.
Proof.
  induction a as [|[t ds] a IH]; [done|]. cbn. rewrite <- !app_assoc. do 2 f_equal. exact IH.
Qed.

(** A sufficient condition: what follows the last use occurs only there. *)
Lemma find_spec s sub p : find s sub = Some p ↔
  sub `prefix_of` drop p s ∧ p ≤ List.length s ∧ ∀ q, q < p → ¬ sub `prefix_of` drop q s.
Proof.
  revert p. induction s as [|c s IH]; intros p; cbn [find]; case_bool_decide as Hp.
  - split; [intros [= <-]; split_and!; [done|lia|lia]|]. intros (_ & Hl & _). f_equal. simpl in Hl. lia.
  - split; [done|]. intros (H & Hl & _). simpl in Hl. by replace p with 0 in H by lia.
  - split; [intros [= <-]; split_and!; [done|lia|lia]|]. intros (_ & _ & Hq).
    destruct p; [done|]. by destruct (Hq 0 ltac:(lia)).
  - destruct p as [|p].
    { split; [by destruct (find s sub)|]. by intros [? _]. }
    transitivity (find s sub = Some p); [destruct (find s sub); naive_solver|]. rewrite IH. cbn [drop List.length].
    split; intros (H & Hl & Hq); split_and!; try done; try lia.
    + intros [|q] ?; [done|]. apply Hq. lia.
    + intros q ?. apply (Hq (S q)). lia.
Qed.

Lemma located_of_tail chunks tail :
  find (flatten chunks tail) tail = Some (List.length (flatten chunks [])) → located chunks tail.
Proof.
  intros (_ & _ & Hfirst)%find_spec a b -> _ _.
  assert (Hb : flatten b tail = flatten b [] ++ tail) by (by rewrite <- (app_nil_r b) at 1; rewrite flatten_app).
  apply find_spec. rewrite flatten_app, drop_app_length, length_app. split_and!; [done|lia|].
  intros q Hq [r Hr]. apply (Hfirst (q + List.length (flatten b []))).
  { rewrite flatten_app, length_app. lia. }
  rewrite flatten_app, <- drop_drop, Hr, Hb, <- app_assoc, drop_app_length. by exists r.
Qed.

#[local] Opaque use.

Section ToolFacts.
Context `{BC : BuildConfig} (vulkan : bool).

(** What the transform function does with the groups of a use. *)
Definition sampler_action (inner : list (list ascii)) : res (list ascii) :=
  _ ← tz_assert (bool_decide (List.length inner = 1));
  beg ← at_index inner 0;
  id ← stoi beg;
  Ok (sampler_replacement vulkan id).

Lemma sampler_action_use t ds :
  sampler_action [ds] = if id_fits (t, ds) then Ok (sampler_replacement vulkan (dec_value ds)) else Fault OutOfRange.
Proof.
  unfold sampler_action, id_fits. rewrite bool_decide_true by done. simp_res. unfold stoi. by case_match.
Qed.

Fixpoint jobs_from (off : nat) (chunks : list (list ascii * list ascii)) : list ReplaceJob :=
  match chunks with
  | [] => []
  | (t, ds) :: chunks =>
      mkJob (off + List.length t) (List.length (use ds)) (sampler_replacement vulkan (dec_value ds))
      :: jobs_from (off + List.length t + List.length (use ds)) chunks
  end.

(** The jobs as the loop finds them: each use is looked for from the first place
    where the text behind the use before it occurs. *)
Fixpoint found_jobs (source : list ascii) (counter : nat) (chunks : list (list ascii * list ascii)) (tail : list ascii)
    : list ReplaceJob :=
  match chunks with
  | [] => []
  | (t, ds) :: chunks =>
      mkJob (counter + List.length t) (List.length (use ds)) (sampler_replacement vulkan (dec_value ds))
      :: found_jobs source (default 0 (find source (flatten chunks tail))) chunks tail
  end.

Lemma search_loop_found source tail : (Z.of_nat (List.length source) < modulus64)%Z → use_free tail →
  ∀ b counter acc fuel, Forall (λ ch, use_free ch.1 ∧ number ch.2) b →
  flatten b tail `suffix_of` source → flatten b tail `prefix_of` drop counter source → List.length b < fuel →
  search_loop fuel source sampler_regex sampler_action (flatten b tail) (Z.of_nat counter) acc =
  if forallb id_fits b then Ok (acc ++ found_jobs source counter b tail) else Fault OutOfRange.
Proof.
  intros Hsize Ht b. induction b as [|[t ds] b IH]; intros counter acc fuel Hw Hsuf Hpre Hf;
    destruct fuel as [|fuel]; try (simpl in Hf; lia); cbn [search_loop]; unfold regex_search.
  - cbn [flatten foldr]. rewrite search_none by done. cbn. by rewrite app_nil_r.
  - apply Forall_cons in Hw as [[Hfree Hn] Hb]. cbn [fst snd] in *. rewrite flatten_cons in Hsuf, Hpre |- *.
    rewrite search_finds by done. cbn [sm_position sm_length sm_groups sm_suffix]. rewrite Nat.add_0_l.
    pose proof (prefix_length _ _ Hpre) as Hlen. rewrite length_drop, !length_app in Hlen.
    assert (Hu : List.length (use ds) > 0) by (rewrite use_cons; simpl; lia).
    unfold u64. rewrite Z.mod_small by lia.
    replace (_ <? _)%Z with true by (symmetry; apply Z.ltb_lt; lia). simp_res.
    rewrite (sampler_action_use t). cbn [forallb]. destruct (id_fits (t, ds)); cbn [andb]; [|done]. rewrite bind_Ok.
    assert (Hrest : flatten b tail `suffix_of` source).
    { destruct Hsuf as [k ->]. exists (k ++ t ++ use ds). by rewrite <- !app_assoc. }
    destruct (find_suffix _ _ Hrest) as [p Hp]. unfold find_pos. rewrite Hp.
    rewrite IH; [|done|done|by apply find_spec in Hp as [? _]|simpl in Hf; lia].
    destruct (forallb id_fits b); [|done]. rewrite <- app_assoc. cbn [app found_jobs]. rewrite ?Hp. cbn [default from_option id].
    by replace (Z.to_nat _) with (counter + List.length t) by lia.
Qed.

(** Every job replaces a text that reads like its use. *)
Lemma found_jobs_uses source tail b counter :
  flatten b tail `suffix_of` source → flatten b tail `prefix_of` drop counter source →
  Forall2 (λ ch j, take (job_len j) (drop (job_pos j) source) = use ch.2 ∧
                   job_text j = sampler_replacement vulkan (dec_value ch.2)) b (found_jobs source counter b tail).
Proof.
  revert counter. induction b as [|[t ds] b IH]; intros counter Hsuf Hpre; [constructor|].
  cbn [found_jobs]. rewrite flatten_cons in Hsuf, Hpre. constructor; cbn [job_len job_pos job_text snd].
  - destruct Hpre as [k Hk]. split; [|done].
    by rewrite <- drop_drop, Hk, <- !app_assoc, drop_app_length, take_app_length.
  - assert (Hrest : flatten b tail `suffix_of` source).
    { destruct Hsuf as [k ->]. exists (k ++ t ++ use ds). by rewrite <- !app_assoc. }
    apply IH; [done|]. destruct (find_suffix _ _ Hrest) as [p Hp]. rewrite Hp. by apply find_spec in Hp as [? _].
Qed.

(** They are at the places of the uses, if the text behind a use does not occur
    before its own place. *)
Lemma found_jobs_located chunks tail : located chunks tail → ∀ a b counter, chunks = a ++ b →
  (b ≠ [] → counter = List.length (flatten a [])) →
  found_jobs (flatten chunks tail) counter b tail = jobs_from (List.length (flatten a [])) b.
Proof.
  intros Hloc a b. revert a. induction b as [|[t ds] b IH]; intros a counter Hab Hc; [done|].
  cbn [found_jobs jobs_from]. rewrite Hc by done. f_equal. rewrite (IH (a ++ [(t, ds)])).
  - f_equal. rewrite flatten_app, flatten_cons, !length_app. simpl. lia.
  - by rewrite <- app_assoc.
  - intros Hne. rewrite (Hloc (a ++ [(t, ds)]) b); [done| |by destruct a|done]. by rewrite <- app_assoc.
Qed.

Lemma replace_at consumed a b r :
  replace (consumed ++ a ++ b) (List.length consumed) (List.length a) r = Ok (consumed ++ r ++ b).
Proof.
  unfold replace. replace (_ <=? _) with true by (symmetry; apply Nat.leb_le; rewrite length_app; lia).
  by rewrite take_app_length, (app_assoc consumed a b), <- length_app, drop_app_length.
Qed.

(** Replacing from the last job to the first keeps the earlier positions
    valid. *)
Lemma apply_jobs chunks tail consumed :
  for_each (λ i source, replace source (job_pos i) (job_len i) (job_text i))
    (rev (jobs_from (List.length consumed) chunks)) (consumed ++ flatten chunks tail) =
  Ok (consumed ++ declared vulkan chunks tail).
Proof.
  revert consumed. induction chunks as [|[t ds] chunks IH]; intros consumed; [done|].
  cbn [jobs_from rev flatten declared foldr fst snd]. rewrite for_each_app.
  specialize (IH (consumed ++ t ++ use ds)). rewrite !length_app, <- !app_assoc, Nat.add_assoc in IH.
  unfold flatten in IH. rewrite IH. cbn [mbind res_bind for_each job_pos job_len job_text].
  rewrite (app_assoc consumed t), <- length_app, replace_at. by rewrite <- !app_assoc.
Qed.

Lemma length_chunks chunks tail : List.length chunks ≤ List.length (flatten chunks tail).
Proof.
  induction chunks as [|[t ds] chunks IH]; [simpl; lia|]. rewrite flatten_cons, !length_app, use_cons. simpl. lia.
Qed.

(** ** No use is left in the output *)

Lemma use_free_sep c s1 s2 : (∀ ds, number ds → c ∉ use ds) → use_free s1 → use_free s2 → use_free (s1 ++ c :: s2).
Proof.
  intros Hc H1 H2 a ds b Hn E. specialize (Hc ds Hn).
  destruct (app_eq_inv _ _ _ _ E) as [(k & -> & E')|(k & -> & E')].
  - destruct (app_eq_inv _ _ _ _ E') as [(k' & Hk & E2)|(k' & -> & _)].
    + destruct k' as [|x k']; [|simplify_eq/=; rewrite Hk in Hc; set_solver].
      rewrite app_nil_r in Hk. subst k. apply (H1 a ds []); [done|]. by rewrite app_nil_r.
    + by apply (H1 a ds k').
  - destruct k as [|x k]; [rewrite use_cons in *; simplify_eq/=; set_solver|].
    simplify_eq/=. by apply (H2 k ds b).
Qed.

Lemma use_free_no_t s : "t"%char ∉ s → use_free s.
Proof. intros Hs a ds b Hn ->. rewrite use_cons in Hs. set_solver. Qed.

Lemma use_free_cons c s : c ≠ "t"%char → use_free s → use_free (c :: s).
Proof.
  intros Hc Hs a ds b Hn E. destruct a as [|x a]; simplify_eq/=; [by rewrite use_cons in E; simplify_eq/=|].
  by apply (Hs a ds b).
Qed.

Lemma use_free_app_no_t p s : "t"%char ∉ p → use_free s → use_free (p ++ s).
Proof.
  intros Hp Hs. induction p as [|c p IH]; [done|]. cbn [app]. apply use_free_cons; set_solver.
Qed.

Lemma slash_space_avoid c ds : c = "/"%char ∨ c = " "%char → number ds → c ∉ use ds.
Proof.
  intros Hc [_ Hd]. destruct Hc as [-> | ->]; (apply use_avoids; [done|done|done|]);
    apply (bool_decide_unpack _); by vm_compute.
Qed.

Lemma replacement_use_free t z rest : (0 ≤ z)%Z → use_free t → use_free rest →
  use_free (t ++ sampler_replacement vulkan z ++ rest).
Proof.
  intros Hz Ht Hr.
  assert (Hnum : use_free (to_string z ++ [")"%char])).
  { apply use_free_no_t. rewrite elem_of_app, list_elem_of_singleton. intros [H|H]; [|done].
    destruct (to_string_spec z Hz) as (_ & Hd & _). exact (digits_avoid "t" _ Hd eq_refl H). }
  assert (Hlay : use_free (str "layout(" ++ (if vulkan then str "binding" else str "location"))).
  { destruct vulkan; apply (search_none_inv 0); by vm_compute. }
  replace (sampler_replacement vulkan z ++ rest) with
    ("/"%char :: str "*tzslc*" ++ "/"%char :: [] ++ " "%char ::
      (str "layout(" ++ (if vulkan then str "binding" else str "location")) ++ " "%char :: str "=" ++ " "%char ::
      (to_string z ++ [")"%char]) ++ " "%char :: str "uniform" ++ " "%char :: str "sampler2D" ++ rest).
  2:{ unfold sampler_replacement. rewrite <- !app_assoc. by destruct vulkan. }
  repeat (apply use_free_sep; [intros; apply slash_space_avoid; [by eauto|done]|
            first [done | apply (search_none_inv 0); by vm_compute] |]).
  apply use_free_app_no_t; [|done]. apply (bool_decide_unpack _). by vm_compute.
Qed.

Lemma declared_use_free chunks tail : well_formed chunks tail → use_free (declared vulkan chunks tail).
Proof.
  intros [Hw Ht]. induction Hw as [|[t ds] chunks [Hf [_ Hd]] Hw IH]; [done|].
  cbn [declared foldr fst snd]. apply replacement_use_free; [|done|exact IH].
  by destruct (dec_value_bounds ds Hd).
Qed.

(** C23: the sampler pass on any source shorter than the address space, given by
    its texts and uses: the loop ends; if a number does not fit [int] it throws,
    and otherwise every use, from the last to the first, is replaced by the
    declaration of its number, each where the text from behind the use before it
    on occurs first in the source, which reads like the use but need not be its
    place ([repeated_rest_corrupts]).  On the condition that what follows a use
    does not occur before its own place, these are the places of the uses: the
    result is the source with every use replaced and nothing else changed, and no
    use is left. *)
Theorem samplers_rewritten chunks tail :
  well_formed chunks tail → (Z.of_nat (List.length (flatten chunks tail)) < modulus64)%Z →
  let source := flatten chunks tail in
  let jobs := found_jobs source 0 chunks tail in
  preprocess_samplers vulkan source =
    (if forallb id_fits chunks then
       out ← for_each (λ j s, replace s (job_pos j) (job_len j) (job_text j)) (rev jobs) source; Ok (out, false)
     else Fault OutOfRange) ∧
  Forall2 (λ ch j, take (job_len j) (drop (job_pos j) source) = use ch.2 ∧
                   job_text j = sampler_replacement vulkan (dec_value ch.2)) chunks jobs ∧
  (located chunks tail →
     preprocess_samplers vulkan source =
       (if forallb id_fits chunks then Ok (declared vulkan chunks tail, false) else Fault OutOfRange) ∧
     use_free (declared vulkan chunks tail)).
Proof.
  intros Hw Hs source jobs.
  assert (E : preprocess_samplers vulkan source = if forallb id_fits chunks then
      out ← for_each (λ j s, replace s (job_pos j) (job_len j) (job_text j)) (rev jobs) source; Ok (out, false)
    else Fault OutOfRange).
  { unfold preprocess_samplers, transform. fold sampler_action. destruct Hw as [Hw Ht].
    pose proof (length_chunks chunks tail) as Hn. fold source in Hn.
    change 0%Z with (Z.of_nat 0). unfold source at 3.
    rewrite (search_loop_found source tail Hs Ht chunks); [|done|done|done|lia].
    destruct (forallb id_fits chunks); [|done]. rewrite bind_Ok. cbn [app]. fold jobs. by destruct for_each. }
  split; [exact E|]. split; [by apply found_jobs_uses|]. intros Hl. split; [|by apply declared_use_free].
  rewrite E. destruct (forallb id_fits chunks); [|done].
  unfold jobs, source. rewrite (found_jobs_located chunks tail Hl [] chunks) by done.
  pose proof (apply_jobs chunks tail []) as Ej. cbn [app List.length flatten foldr] in *. by rewrite Ej.
Qed.

End ToolFacts.

Definition sample_chunks : list (list ascii * list ascii) :=
  [(str "in vec2 uv; ", str "0"); (str " first; ", str "012")].

Lemma samplers_rewritten_witness :
  ∃ out, preprocess_samplers (BC := debug_build) true (flatten sample_chunks (str " second;")) = Ok (out, false) ∧
    out = str "in vec2 uv; /*tzslc*/ layout(binding = 0) uniform sampler2D first; /*tzslc*/ layout(binding = 12) uniform sampler2D second;".
Proof.
  destruct (samplers_rewritten (BC := debug_build) true sample_chunks (str " second;")) as (_ & _ & E).
  - split; [|apply (search_none_inv 0); by vm_compute].
    repeat (apply Forall_cons; split); [| |by apply Forall_nil];
      (split; [apply (search_none_inv 0); by vm_compute|split; [done|apply (bool_decide_unpack _); by vm_compute]]).
  - by vm_compute.
  - destruct E as [E _]; [apply located_of_tail; by vm_compute|]. eexists. split; [exact E|]. by vm_compute.
Defined.

(** The condition on what follows a use matters: [source.find(src_copy)] is
    the first occurrence of the rest of the source.  Here the rest behind the
    first use also occurs at the beginning, the second use is located where the
    first one is, and the output is not the source with its uses replaced. *)
Definition repeated_chunks : list (list ascii * list ascii) := [(["010"%char], str "1"); (["010"%char], str "1")].

Example repeated_rest_corrupts :
  ∃ out, preprocess_samplers (BC := debug_build) true (flatten repeated_chunks ["010"%char]) = Ok (out, false) ∧
    out ≠ declared true repeated_chunks ["010"%char].
Proof. eexists. split; [by vm_compute|]. by vm_compute. Qed.

(** ** The command line of the build *)

Section Main.
Context `{BC : BuildConfig} (vulkan : bool) (writable : list ascii → bool).

Lemma preprocess_all s : preprocess vulkan [Sampler] s = preprocess_samplers vulkan s.
Proof.
  change (preprocess vulkan [Sampler] s) with ('(s, w) ← preprocess_samplers vulkan s; Ok (s, false || w)).
  by destruct (preprocess_samplers vulkan s) as [[]|].
Qed.

Lemma preprocess_empty : preprocess_samplers vulkan [] = Ok ([], false).
Proof. reflexivity. Qed.

Lemma main_command_line prog shader output text h :
  prog ≠ str "-o" → shader ≠ str "-o" → writable output = true → files h !! shader = Some text →
  main vulkan writable [prog; shader; str "-mall"; str "-o"; output] h =
  if decide (shader = output) then Ok (mkHost (<[shader := []]> (files h)) (printed h))
  else '(out, _) ← preprocess_samplers vulkan text;
       Ok (mkHost (<[output := c_string out]> (files h)) (printed h)).
Proof.
  intros Hp Hs Hw Ht. unfold main. cbn [List.length Nat.leb]. simp_res.
  change (selected_modules [str "-mall"; str "-o"; output]) with [Sampler].
  unfold get_output_stream. cbn [output_stream].
  rewrite (bool_decide_false (prog = _)), (bool_decide_false (shader = _)) by done.
  rewrite (bool_decide_false (str "-mall" = _)), (bool_decide_true (str "-o" = _)) by done.
  unfold fopen_w. rewrite Hw. cbn [files printed].
  destruct (decide (shader = output)) as [->|Hne].
  - rewrite lookup_insert_eq, bool_decide_true by eauto. rewrite tz_assert_true, !bind_Ok. cbn [of_option].
    rewrite bind_Ok, preprocess_all, preprocess_empty, bind_Ok. cbn [print_to c_string files printed].
    by rewrite insert_insert_eq.
  - rewrite lookup_insert_ne, Ht, bool_decide_true by (done || eauto). rewrite tz_assert_true, !bind_Ok. cbn [of_option].
    rewrite bind_Ok, preprocess_all. destruct (preprocess_samplers vulkan text) as [[out b]|]; [|done].
    cbn [mbind res_bind print_to files printed]. by rewrite insert_insert_eq.
Qed.

(** C27: The command the build runs ([tzslc <shader> -mall -o <output>]) writes
    the preprocessed shader, up to its first null character, to the output file
    and changes nothing else.  The output is opened, and thereby emptied, before
    the shader is read: with the shader as its own output the file ends up
    empty. *)
Theorem main_build_step prog shader output text h :
  prog ≠ str "-o" → shader ≠ str "-o" → writable output = true → files h !! shader = Some text →
  main vulkan writable [prog; shader; str "-mall"; str "-o"; output] h =
  if decide (shader = output) then Ok (mkHost (<[shader := []]> (files h)) (printed h))
  else '(out, _) ← preprocess_samplers vulkan text;
       Ok (mkHost (<[output := c_string out]> (files h)) (printed h)).
Proof. apply main_command_line. Qed.

End Main.

Definition sample_host : host := mkHost {[ str "a.glsl" := str "tz_sampler2D_uniform(7) t;" ]} [].

Lemma main_build_step_witness :
  main (BC := debug_build) false (λ _, true) [str "tzslc"; str "a.glsl"; str "-mall"; str "-o"; str "b.glsl"] sample_host =
    Ok (mkHost (<[str "b.glsl" := str "/*tzslc*/ layout(location = 7) uniform sampler2D t;"]> (files sample_host)) []) ∧
  main (BC := debug_build) false (λ _, true) [str "tzslc"; str "a.glsl"; str "-mall"; str "-o"; str "a.glsl"] sample_host =
    Ok (mkHost {[ str "a.glsl" := [] ]} []).
Proof.
  split.
  - etransitivity;
      [apply (main_build_step (BC := debug_build) false (λ _, true) (str "tzslc") (str "a.glsl") (str "b.glsl")
                (str "tz_sampler2D_uniform(7) t;") sample_host); by vm_compute|by vm_compute].
  - etransitivity;
      [apply (main_build_step (BC := debug_build) false (λ _, true) (str "tzslc") (str "a.glsl") (str "a.glsl")
                (str "tz_sampler2D_uniform(7) t;") sample_host); by vm_compute|by vm_compute].
Defined.
