(* ===== verification/Shaders.v ===== *)
(** * Shaders

    [ShaderBuilderOGL] and [ShaderOGL] (gl/impl/frontend/ogl/shader.{hpp,cpp}),
    [ShaderBuilderVulkan] and [ShaderVulkan] (gl/impl/frontend/vk/shader.{hpp,cpp}),
    [vk::ShaderModule] (gl/impl/backend/vk/pipeline/shader_module.cpp) and
    [read_external_shader] (gl/impl/backend/vk/pipeline/shader_compiler.cpp), on
    the files that the preprocessor of [Tzslc] writes.

    Calls to OpenGL are recorded with what they are given; what they return may
    depend on the calls made before. *)

From Stdlib Require Import Ascii String.
From S2P Require Import Prelude Containers Memory Version RenderTypes Tzslc.

(** ** The builders *)

Record ShaderBuilder := mkShaderBuilder { vertex_shader_source : list ascii; fragment_shader_source : list ascii }.

Definition shader_builder_new : ShaderBuilder := mkShaderBuilder [] [].

Definition set_shader_source (type : ShaderType) (source_code : list ascii) (b : ShaderBuilder) : ShaderBuilder :=
  match type with
  | VertexShader => mkShaderBuilder source_code (fragment_shader_source b)
  | FragmentShader => mkShaderBuilder (vertex_shader_source b) source_code
  end.

Definition get_shader_source (type : ShaderType) (b : ShaderBuilder) : list ascii :=
  match type with VertexShader => vertex_shader_source b | FragmentShader => fragment_shader_source b end.

(** [ShaderBuilderOGL::has_shader]. *)
Definition ogl_has_shader (type : ShaderType) (b : ShaderBuilder) : bool := false.

(** [ShaderBuilderVulkan::has_shader]. *)
Definition vk_has_shader (type : ShaderType) (b : ShaderBuilder) : bool :=
  match get_shader_source type b with [] => false | _ => true end.

Section Shaders.
Context `{BC : BuildConfig}.

(** A file that is read to its end; without the assertion the size of a file
    that did not open is [-1] and [resize] throws. *)
Definition read_shader_file (shader_file : list ascii) (h : host) : res (list ascii) :=
  let shader := files h !! shader_file in
  _ ← tz_assert (bool_decide (is_Some shader));
  of_option LengthError shader.

Definition ogl_set_shader_file (type : ShaderType) (shader_file : list ascii) (h : host) (b : ShaderBuilder)
    : res ShaderBuilder :=
  buffer ← read_shader_file (shader_file ++ str ".glsl") h;
  Ok (set_shader_source type buffer b).

Definition vk_set_shader_file (type : ShaderType) (shader_file : list ascii) (h : host) (b : ShaderBuilder)
    : res ShaderBuilder :=
  buffer ← read_shader_file (shader_file ++ str ".spv") h;
  Ok (set_shader_source type buffer b).

Definition read_external_shader (shader_name : list ascii) (h : host) : option (list ascii) :=
  files h !! (shader_name ++ str ".spv").

(** ** ShaderOGL *)

Inductive gl_call :=
| CreateProgram
| CreateShader (type : ShaderType)
| AttachShader (program shader : Z)
| DetachShader (program shader : Z)
| ShaderSource (shader : Z) (source : list ascii)
| CompileShader (shader : Z)
| LinkProgram (program : Z)
| ValidateProgram (program : Z)
| DeleteShader (shader : Z)
| DeleteProgram (program : Z).

Class GlShaders := {
  gl_name : list gl_call → Z;
  compile_status : list gl_call → Z → bool;
  link_status : list gl_call → Z → bool;
  validate_status : list gl_call → Z → bool }.

Context `{GL : GlShaders}.

Definition gl (c : gl_call) : ST (list gl_call) unit := modify (λ l, l ++ [c]).

Record ShaderOGL := mkShaderOGL { program : Z; vertex_shader : Z; fragment_shader : Z }.

Definition check_shader_error (shader : Z) : ST (list gl_call) unit :=
  ok ← gets (λ l, compile_status l shader); lift (tz_assert ok).

Definition check_program_error (program : Z) : ST (list gl_call) unit :=
  ok ← gets (λ l, link_status l program); _ ← lift (tz_assert ok);
  ok ← gets (λ l, validate_status l program); lift (tz_assert ok).

(** [glShaderSource] without lengths reads each source up to its first null
    character. *)
Definition ShaderOGL_new (b : ShaderBuilder) : ST (list gl_call) ShaderOGL :=
  _ ← gl CreateProgram; p ← gets gl_name;
  _ ← gl (CreateShader VertexShader); v ← gets gl_name;
  _ ← gl (CreateShader FragmentShader); f ← gets gl_name;
  _ ← gl (AttachShader p v);
  _ ← gl (AttachShader p f);
  _ ← gl (ShaderSource v (c_string (get_shader_source VertexShader b)));
  _ ← gl (ShaderSource f (c_string (get_shader_source FragmentShader b)));
  _ ← gl (CompileShader v);
  _ ← check_shader_error v;
  _ ← gl (CompileShader f);
  _ ← check_shader_error f;
  _ ← gl (LinkProgram p);
  _ ← gl (ValidateProgram p);
  _ ← check_program_error p;
  mret (mkShaderOGL p v f).

(** The new object and the one moved from. *)
Definition ShaderOGL_move (m : ShaderOGL) : ShaderOGL * ShaderOGL := (m, mkShaderOGL 0 0 0).

Definition ShaderOGL_move_assign (this rhs : ShaderOGL) : ShaderOGL * ShaderOGL := (rhs, this).

Definition ShaderOGL_destroy (s : ShaderOGL) : ST (list gl_call) unit :=
  _ ← gl (DetachShader (program s) (vertex_shader s));
  _ ← gl (DetachShader (program s) (fragment_shader s));
  _ ← gl (DeleteShader (vertex_shader s));
  _ ← gl (DeleteShader (fragment_shader s));
  gl (DeleteProgram (program s)).

Definition ogl_get_program_handle (s : ShaderOGL) : Z := program s.

(** ** ShaderVulkan *)

(** [vkCreateShaderModule] by the bytes of the code: [codeSize] is their number
    and [pCode] points to the first. *)
Context (vkCreateShaderModule : list ascii → option Z).

Definition ShaderModule_new (spirv : list ascii) : res Z :=
  let r := vkCreateShaderModule spirv in
  _ ← tz_assert (bool_decide (is_Some r));
  Ok (default 0%Z r).

Definition ShaderVulkan_new (b : ShaderBuilder) : res (Z * Z) :=
  v ← ShaderModule_new (get_shader_source VertexShader b);
  f ← ShaderModule_new (get_shader_source FragmentShader b);
  Ok (v, f).

End Shaders.

(** ** From the shader of the project to the compiler of the driver *)

Lemma c_string_idem s : c_string (c_string s) = c_string s.
Proof.
  induction s as [|c s IH]; [done|]. cbn [c_string]. case_bool_decide as Hc; [done|].
  cbn [c_string]. by rewrite bool_decide_false, IH by done.
Qed.

Section Pipeline.
Context `{BC : BuildConfig} `{GL : GlShaders} (writable : list ascii → bool).

(** What the build runs for a shader of an OpenGL project, and what the
    application does with the two results. *)
Definition build_shader (prog shader output : list ascii) (h : host) : res host :=
  main false writable [prog; shader; str "-mall"; str "-o"; output ++ str ".glsl"] h.

Definition build_and_load (prog vs vout fs fout : list ascii) (h : host) : res ShaderBuilder :=
  h ← build_shader prog vs vout h;
  h ← build_shader prog fs fout h;
  b ← ogl_set_shader_file VertexShader vout h shader_builder_new;
  ogl_set_shader_file FragmentShader fout h b.

(** The calls of a construction. *)
Definition shader_calls (s : ShaderOGL) (vsource fsource : list ascii) : list gl_call :=
  let '(p, v, f) := (program s, vertex_shader s, fragment_shader s) in
  [CreateProgram; CreateShader VertexShader; CreateShader FragmentShader; AttachShader p v; AttachShader p f;
   ShaderSource v vsource; ShaderSource f fsource; CompileShader v; CompileShader f; LinkProgram p; ValidateProgram p].

Lemma build_shader_ok prog shader output text pre w h :
  prog ≠ str "-o" → shader ≠ str "-o" → writable (output ++ str ".glsl") = true → shader ≠ output ++ str ".glsl" →
  files h !! shader = Some text → preprocess_samplers false text = Ok (pre, w) →
  build_shader prog shader output h = Ok (mkHost (<[output ++ str ".glsl" := c_string pre]> (files h)) (printed h)).
Proof.
  intros Hp Hs Hw Hne Ht Epre. unfold build_shader. rewrite (main_command_line _ _ _ _ _ text) by done.
  by rewrite decide_False, Epre by done.
Qed.

Lemma load_shader_ok type path text h b : files h !! (path ++ str ".glsl") = Some text →
  ogl_set_shader_file type path h b = Ok (set_shader_source type text b).
Proof.
  intros Hf. unfold ogl_set_shader_file, read_shader_file. rewrite Hf, bool_decide_true by eauto.
  by rewrite tz_assert_true, !bind_Ok.
Qed.

Lemma ShaderOGL_new_calls b l s l' : ShaderOGL_new b l = Ok (s, l') →
  l' = l ++ shader_calls s (c_string (get_shader_source VertexShader b)) (c_string (get_shader_source FragmentShader b)).
Proof.
  unfold ShaderOGL_new, check_shader_error, check_program_error. intros E.
  repeat match goal with
  | H : (_ ≫= _) _ = Ok _ |- _ => apply st_bind_inv in H as (? & ? & ? & H)
  | H : gl _ _ = Ok _ |- _ => injection H as ? <-
  | H : gets _ _ = Ok _ |- _ => injection H as <- <-
  | H : lift _ _ = Ok _ |- _ => apply lift_inv in H as [? ->]
  end.
  injection E as <- <-. unfold shader_calls. cbn [program vertex_shader fragment_shader]. by rewrite <- !app_assoc.
Qed.

(** C26: From the source tree to the driver, in an OpenGL build.  The build
    preprocesses a vertex and a fragment shader into the files that
    [set_shader_file] opens.  If both can be preprocessed, building and loading
    succeeds, the builder holds the two preprocessed texts up to a null
    character, and a construction of the shader passes exactly these to the
    driver, to the shader objects of their kind, which it compiles and links in
    this order.  [has_shader] answers no all the same. *)
Theorem ogl_shader_pipeline prog vs vout vtext vpre vw fs fout ftext fpre fw h :
  prog ≠ str "-o" → vs ≠ str "-o" → fs ≠ str "-o" →
  writable (vout ++ str ".glsl") = true → writable (fout ++ str ".glsl") = true →
  vs ≠ vout ++ str ".glsl" → fs ≠ fout ++ str ".glsl" → fs ≠ vout ++ str ".glsl" → vout ≠ fout →
  files h !! vs = Some vtext → files h !! fs = Some ftext →
  preprocess_samplers false vtext = Ok (vpre, vw) → preprocess_samplers false ftext = Ok (fpre, fw) →
  ∃ b, build_and_load prog vs vout fs fout h = Ok b ∧
    get_shader_source VertexShader b = c_string vpre ∧ get_shader_source FragmentShader b = c_string fpre ∧
    (∀ l s l', ShaderOGL_new b l = Ok (s, l') → l' = l ++ shader_calls s (c_string vpre) (c_string fpre)) ∧
    ∀ type, ogl_has_shader type b = false.
Proof.
  intros Hp Hvs Hfs Hwv Hwf Hv Hf Hfv Hne Htv Htf Ev Ef. eexists. unfold build_and_load.
  rewrite (build_shader_ok _ _ _ vtext vpre vw) by done. rewrite bind_Ok.
  rewrite (build_shader_ok _ _ _ ftext fpre fw) by (try done; cbn; by rewrite lookup_insert_ne).
  rewrite bind_Ok. cbn [files printed].
  assert (Hpath : fout ++ str ".glsl" ≠ vout ++ str ".glsl") by by intros ?%app_inv_tail.
  rewrite (load_shader_ok _ _ (c_string vpre)) by (cbn [files]; by rewrite lookup_insert_ne, lookup_insert_eq).
  rewrite bind_Ok, (load_shader_ok _ _ (c_string fpre)) by (cbn [files]; by rewrite lookup_insert_eq).
  split; [done|]. split_and!; try done.
  intros l s l' E%ShaderOGL_new_calls. cbn in E. by rewrite !c_string_idem in E.
Qed.

End Pipeline.

(** ** Concrete inputs *)

Definition shader_host : host :=
  mkHost {[ str "a.vertex.tzsl" := str "void main(){}"; str "a.fragment.tzsl" := str "tz_sampler2D_uniform(0) t;" ]} [].

Definition sample_gl : GlShaders := {|
  gl_name l := Z.of_nat (List.length l); compile_status _ _ := true; link_status _ _ := true; validate_status _ _ := true |}.

Lemma ogl_shader_pipeline_witness :
  ∃ b, build_and_load (BC := debug_build) (λ _, true) (str "tzslc") (str "a.vertex.tzsl") (str "build/a.vertex")
         (str "a.fragment.tzsl") (str "build/a.fragment") shader_host = Ok b ∧
    get_shader_source FragmentShader b = str "/*tzslc*/ layout(location = 0) uniform sampler2D t;".
Proof.
  destruct (ogl_shader_pipeline (BC := debug_build) (GL := sample_gl) (λ _, true) (str "tzslc")
    (str "a.vertex.tzsl") (str "build/a.vertex") (str "void main(){}") (str "void main(){}") false
    (str "a.fragment.tzsl") (str "build/a.fragment") (str "tz_sampler2D_uniform(0) t;")
    (str "/*tzslc*/ layout(location = 0) uniform sampler2D t;") false shader_host)
    as (b & E & _ & Hf & _); [by vm_compute..|].
  exists b. split; [exact E|]. rewrite Hf. by vm_compute.
Defined.
