(* ===== verification/Engine.v ===== *)
(** * Start-up, shut-down and the window

    [tz::initialise], [terminate] and [window] (core/tz.cpp), [tz::Window]
    (core/window.{hpp,cpp}) and [WindowFunctionality]
    (core/window_functionality.{hpp,inl,cpp}), the global instances of the back
    ends (gl/impl/backend/vk/tz_vulkan.cpp, gl/impl/backend/ogl/tz_opengl.cpp)
    and the objects they make: [VulkanApplicationInfo] and [VulkanInstance]
    (setup/vulkan_instance.cpp) with the extensions and validation layers they
    ask for (setup/extension_list.cpp, validation/layer.cpp), [WindowSurface]
    (setup/window_surface.cpp), [DebugMessenger] and the default messenger
    (validation/debug_messenger.{inl,cpp}, validation/debug_callback.hpp) and
    [OpenGLInstance] with its debug callback (ogl/setup/opengl_instance.cpp).

    Calls to GLFW and to the drivers are recorded; what they return is given by
    a class and may depend on all calls made so far.  The globals are fields of
    one record.  [Window] objects live at addresses, so that a pointer to a
    deleted window can be told from one to a live window.  The theorems are in
    EngineRuns. *)

From Stdlib Require Import Ascii String.
From S2P Require Import Prelude Containers Memory Version.

Inductive ApplicationType := WindowApplication | HiddenWindowApplication | Headless.

#[export] Instance ApplicationType_eq_dec : EqDecision ApplicationType.
Proof. solve_decision. Defined.

(** ** Application and engine versions for Vulkan *)

(** [VK_MAKE_VERSION]. *)
Definition VK_MAKE_VERSION (major minor patch : Z) : Z :=
  Z.lor (u32 (Z.shiftl major 22)) (Z.lor (u32 (Z.shiftl minor 12)) patch).

Definition ToVkVersion (v : Version.Version) : Z :=
  VK_MAKE_VERSION (Version.major v) (Version.minor v) (Version.patch v).

(** The string a character pointer of [VkApplicationInfo] points to: one that
    outlives the constructor, or the constructor's local [engine_name], which
    hides the member of that name. *)
Inductive name_storage := Outlives (s : list ascii) | LocalOfConstructor (s : list ascii).

#[export] Instance name_storage_eq_dec : EqDecision name_storage.
Proof. solve_decision. Defined.

Record VulkanApplicationInfo := mkAppInfo {
  ai_engine_name : list ascii;
  pApplicationName : name_storage; applicationVersion : Z;
  pEngineName : name_storage; engineVersion : Z; apiVersion : Z }.

#[export] Instance VulkanApplicationInfo_eq_dec : EqDecision VulkanApplicationInfo.
Proof. solve_decision. Defined.

Definition get_vulkan_version : Version.Version := mkVersion 1 1 175.

Definition VulkanApplicationInfo_new (g : GameInfo) : VulkanApplicationInfo :=
  mkAppInfo (engine_to_string (engine g)) (Outlives (name g)) (ToVkVersion (game_version g))
    (LocalOfConstructor (engine_to_string (engine g))) (ToVkVersion (engine_version (engine g)))
    (ToVkVersion get_vulkan_version).

(** ** Calls outside the engine *)

Inductive hint :=
  VISIBLE | CLIENT_API | CONTEXT_VERSION_MAJOR | CONTEXT_VERSION_MINOR | OPENGL_PROFILE | OPENGL_DEBUG_CONTEXT.

Inductive hint_value := GLFW_TRUE | GLFW_FALSE | NO_API | OPENGL_API | CORE_PROFILE | Number (n : Z).

Inductive host_call :=
| GlfwInit
| GlfwTerminate
| GlfwWindowHint (h : hint) (v : hint_value)
| GlfwCreateWindow (width height : Z) (title : list ascii)
| GlfwMakeContextCurrent (w : option Z)
| GlfwSwapInterval (n : Z)
| GlfwSetWindowUserPointer (w : Z) (self : nat)
| GlfwSetFramebufferSizeCallback (w : option Z)
| GlfwDestroyWindow (w : Z)
| GlfwPollEvents
| GlfwWaitEvents
| GlfwSwapBuffers (w : Z)
| GlfwGetFramebufferSize (w : Z)
| GlfwWindowShouldClose (w : Z)
| GlfwGetRequiredInstanceExtensions
| VkEnumerateInstanceLayerProperties
| VkCreateInstance (info : VulkanApplicationInfo) (extensions layers : list (list ascii))
| VkDestroyInstance (instance : Z)
| GlfwCreateWindowSurface (instance : Z) (w : option Z)
| VkDestroySurface (instance surface : Z)
| VkGetInstanceProcAddr (instance : Z) (name : list ascii)
| VkCreateDebugUtilsMessenger (instance severity type : Z)
| VkDestroyDebugUtilsMessenger (instance messenger : Z)
| GladLoad
| GlEnable (capability : Z)
| GlDebugMessageCallback.

#[export] Instance hint_eq_dec : EqDecision hint.
Proof. solve_decision. Defined.
#[export] Instance hint_value_eq_dec : EqDecision hint_value.
Proof. solve_decision. Defined.
#[export] Instance host_call_eq_dec : EqDecision host_call.
Proof. solve_decision. Defined.

(** What the calls return after the calls made so far.  A creation that fails
    gives [None].  Polling for events reports the windows that were resized with
    their new sizes, in order.  The layers are asked for twice: the first call
    reports their number, the second writes names; both may fail. *)
Class Host := {
  glfwCreateWindow_result : list host_call → option Z;
  glfwPollEvents_resizes : list host_call → list (Z * (Z * Z));
  glfwGetFramebufferSize_result : list host_call → Z * Z;
  glfwWindowShouldClose_result : list host_call → bool;
  glfwGetRequiredInstanceExtensions_result : list host_call → list (list ascii);
  layer_count_result : list host_call → bool * nat;
  layer_names_result : list host_call → bool * list (list ascii);
  vkCreateInstance_result : list host_call → option Z;
  glfwCreateWindowSurface_result : list host_call → option Z;
  vkGetInstanceProcAddr_result : list host_call → bool;
  vkCreateDebugUtilsMessenger_result : list host_call → option Z;
  gladLoad_result : list host_call → bool }.

(** ** The state *)

(** A [Window]: its GLFW handle and its resize callbacks, by name. *)
Record Window := mkWindow { w_handle : option Z; window_resize_callbacks : list nat }.

(** A [DebugMessenger]; the null handle is [0]. *)
Record DebugMessenger := mkMessenger { dm_messenger : Z; current_instance : Z }.

(** [def_msg]: null, or a pointer to a messenger that is alive or deleted. *)
Inductive messenger := NoMessenger | LiveMessenger (m : DebugMessenger) | DeletedMessenger.

#[export] Instance DebugMessenger_eq_dec : EqDecision DebugMessenger.
Proof. solve_decision. Defined.
#[export] Instance messenger_eq_dec : EqDecision messenger.
Proof. solve_decision. Defined.

Record globals := mkEngine {
  wnd : option nat;
  windows : gmap nat Window;
  initialised : bool;
  tz_app_type : ApplicationType;
  inst : option Z;
  surf : option Z;
  def_msg : messenger;
  user_pointers : gmap Z nat;
  calls : list host_call }.

Definition start : globals := mkEngine None ∅ false WindowApplication None None NoMessenger ∅ [].

Definition set_wnd (a : option nat) (e : globals) : globals :=
  mkEngine a (windows e) (initialised e) (tz_app_type e) (inst e) (surf e) (def_msg e) (user_pointers e) (calls e).
Definition set_windows (m : gmap nat Window) (e : globals) : globals :=
  mkEngine (wnd e) m (initialised e) (tz_app_type e) (inst e) (surf e) (def_msg e) (user_pointers e) (calls e).
Definition set_initialised (b : bool) (e : globals) : globals :=
  mkEngine (wnd e) (windows e) b (tz_app_type e) (inst e) (surf e) (def_msg e) (user_pointers e) (calls e).
Definition set_app_type (t : ApplicationType) (e : globals) : globals :=
  mkEngine (wnd e) (windows e) (initialised e) t (inst e) (surf e) (def_msg e) (user_pointers e) (calls e).
Definition set_inst (i : option Z) (e : globals) : globals :=
  mkEngine (wnd e) (windows e) (initialised e) (tz_app_type e) i (surf e) (def_msg e) (user_pointers e) (calls e).
Definition set_surf (s : option Z) (e : globals) : globals :=
  mkEngine (wnd e) (windows e) (initialised e) (tz_app_type e) (inst e) s (def_msg e) (user_pointers e) (calls e).
Definition set_def_msg (m : messenger) (e : globals) : globals :=
  mkEngine (wnd e) (windows e) (initialised e) (tz_app_type e) (inst e) (surf e) m (user_pointers e) (calls e).
Definition set_user_pointers (u : gmap Z nat) (e : globals) : globals :=
  mkEngine (wnd e) (windows e) (initialised e) (tz_app_type e) (inst e) (surf e) (def_msg e) u (calls e).
Definition call (c : host_call) : ST globals unit := modify (λ e,
  mkEngine (wnd e) (windows e) (initialised e) (tz_app_type e) (inst e) (surf e) (def_msg e) (user_pointers e)
    (calls e ++ [c])).

Section Engine.
Context `{BC : BuildConfig} `{HO : Host}.

(** [TZ_VULKAN]; otherwise [TZ_OGL]. *)
Context (vulkan : bool).

(** ** Window *)

Definition glfwSetWindowUserPointer (w : option Z) (self : nat) : ST globals unit :=
  h ← lift (of_option NullDeref w);
  _ ← call (GlfwSetWindowUserPointer h self);
  modify (λ e, set_user_pointers (<[h := self]> (user_pointers e)) e).

(** The hints the constructor itself sets. *)
Definition context_hints : list (hint * hint_value) :=
  if vulkan then [(CLIENT_API, NO_API)]
  else [(CLIENT_API, OPENGL_API); (CONTEXT_VERSION_MAJOR, Number 4); (CONTEXT_VERSION_MINOR, Number 6);
        (OPENGL_PROFILE, CORE_PROFILE);
        (OPENGL_DEBUG_CONTEXT, if TZ_DEBUG then GLFW_TRUE else GLFW_FALSE)].

(** The constructor of a window at the address [self]. *)
Definition Window_new (self : nat) (width height : Z) (title : list ascii) (hints : list (hint * hint_value))
    : ST globals unit :=
  _ ← st_each (λ h, call (GlfwWindowHint h.1 h.2)) hints;
  _ ← st_each (λ h, call (GlfwWindowHint h.1 h.2)) context_hints;
  _ ← call (GlfwCreateWindow width height title);
  w ← gets (λ e, glfwCreateWindow_result (calls e));
  _ ← call (GlfwMakeContextCurrent w);
  _ ← (if vulkan then mret tt else call (GlfwSwapInterval 0));
  _ ← glfwSetWindowUserPointer w self;
  _ ← call (GlfwSetFramebufferSizeCallback w);
  modify (λ e, set_windows (<[self := mkWindow w []]> (windows e)) e).

(** [new Window]: an address no live window has. *)
Definition new_window (ctor : nat → ST globals unit) : ST globals nat :=
  self ← gets (λ e, fresh (dom (windows e)));
  _ ← ctor self;
  mret self.

Definition Window_null (self : nat) : ST globals unit :=
  modify (λ e, set_windows (<[self := mkWindow None []]> (windows e)) e).

Definition window_at (a : nat) : ST globals Window :=
  o ← gets (λ e, windows e !! a); lift (of_option OutOfBounds o).

(** The move constructor: the handles are swapped, the resize callbacks and the
    pointer GLFW keeps for the window are not. *)
Definition Window_move_construct (self other : nat) : ST globals unit :=
  m ← window_at other;
  modify (λ e, set_windows (<[self := mkWindow (w_handle m) []]>
                 (<[other := mkWindow None (window_resize_callbacks m)]> (windows e))) e).

Definition Window_move_assign (self other : nat) : ST globals unit :=
  t ← window_at self; m ← window_at other;
  if decide (self = other) then mret tt else
  modify (λ e, set_windows (<[self := mkWindow (w_handle m) (window_resize_callbacks t)]>
                 (<[other := mkWindow (w_handle t) (window_resize_callbacks m)]> (windows e))) e).

Definition delete_window (a : nat) : ST globals unit :=
  w ← window_at a;
  _ ← match w_handle w with
      | Some h => _ ← call (GlfwDestroyWindow h); modify (λ e, set_user_pointers (delete h (user_pointers e)) e)
      | None => mret tt
      end;
  modify (λ e, set_windows (delete a (windows e)) e).

Definition add_resize_callback (a callback : nat) : ST globals unit :=
  w ← window_at a;
  modify (λ e, set_windows (<[a := mkWindow (w_handle w) (window_resize_callbacks w ++ [callback])]> (windows e)) e).

(** A run of a resize callback with the size it is given. *)
Definition callback_run : Type := nat * (Z * Z).

(** [window_resize_callback]: the callbacks it runs, in order. *)
Definition window_resize_callback (h width height : Z) : ST globals (list callback_run) :=
  p ← gets (λ e, user_pointers e !! h);
  a ← lift (of_option NullDeref p);
  w ← window_at a;
  mret (map (λ callback, (callback, (width, height))) (window_resize_callbacks w)).

(** ** WindowFunctionality *)

Definition ensure (w : Window) : res unit := tz_assert (bool_decide (is_Some (w_handle w))).

Definition get_middleware_handle (w : Window) : option Z := w_handle w.

(** A member function that hands the handle to GLFW, which dereferences it. *)
Definition handle_at (a : nat) : ST globals Z := w ← window_at a; lift (of_option NullDeref (w_handle w)).

Definition is_close_requested (a : nat) : ST globals bool :=
  w ← window_at a;
  _ ← lift (ensure w);
  h ← handle_at a;
  _ ← call (GlfwWindowShouldClose h);
  gets (λ e, glfwWindowShouldClose_result (calls e)).

(** [get_size] does not call [ensure]. *)
Definition get_size (a : nat) : ST globals (Z * Z) :=
  h ← handle_at a;
  _ ← call (GlfwGetFramebufferSize h);
  gets (λ e, glfwGetFramebufferSize_result (calls e)).

(** The value of the [float] that is returned. *)
Definition get_width (a : nat) : ST globals Z := s ← get_size a; mret (float_round s.1).
Definition get_height (a : nat) : ST globals Z := s ← get_size a; mret (float_round s.2).

(** GLFW runs the resize callbacks of its windows while events are processed. *)
Fixpoint dispatch (events : list (Z * (Z * Z))) : ST globals (list callback_run) :=
  match events with
  | [] => mret []
  | (h, (width, height)) :: events =>
      r ← window_resize_callback h width height; rs ← dispatch events; mret (r ++ rs)
  end.

Definition update (a : nat) : ST globals (list callback_run) :=
  _ ← window_at a;
  _ ← call GlfwPollEvents;
  events ← gets (λ e, glfwPollEvents_resizes (calls e));
  r ← dispatch events;
  _ ← (if vulkan then mret tt else h ← handle_at a; call (GlfwSwapBuffers h));
  mret r.

Definition block_until_event_happens : ST globals (list callback_run) :=
  _ ← call GlfwWaitEvents;
  events ← gets (λ e, glfwPollEvents_resizes (calls e));
  dispatch events.

(** ** tz::window and tz::is_initialised *)

Definition window : ST globals nat :=
  p ← gets wnd;
  _ ← lift (tz_assert (bool_decide (is_Some p)));
  lift (of_option NullDeref p).

Definition is_initialised (e : globals) : bool := initialised e.

(** ** The global instance of Vulkan *)

Definition vk_get : ST globals Z :=
  p ← gets inst;
  _ ← lift (tz_assert (bool_decide (is_Some p)));
  lift (of_option NullDeref p).

Definition vk_is_initialised (e : globals) : bool := bool_decide (is_Some (inst e)).
Definition is_headless (e : globals) : bool := bool_decide (surf e = None).

(** *** Extensions and layers *)

Definition layers_enabled : bool := TZ_DEBUG.

Definition get_glfw_required_extensions : ST globals (list (list ascii)) :=
  _ ← call GlfwGetRequiredInstanceExtensions;
  names ← gets (λ e, glfwGetRequiredInstanceExtensions_result (calls e));
  mret (foldl BasicList.add [] names).

Definition VK_EXT_DEBUG_UTILS_EXTENSION_NAME : list ascii := str "VK_EXT_debug_utils".

Definition get_default_required_extensions : ST globals (list (list ascii)) :=
  exts ← get_glfw_required_extensions;
  mret (if layers_enabled then BasicList.add exts VK_EXT_DEBUG_UTILS_EXTENSION_NAME else exts).

(** The entries the second call does not write keep their empty names. *)
Definition get_all_available_layers : ST globals (list (list ascii)) :=
  _ ← call VkEnumerateInstanceLayerProperties;
  count ← gets (λ e, layer_count_result (calls e));
  _ ← lift (tz_assert count.1);
  _ ← call VkEnumerateInstanceLayerProperties;
  names ← gets (λ e, layer_names_result (calls e));
  _ ← lift (tz_assert names.1);
  let available_layers := take count.2 names.2 ++ replicate (count.2 - length names.2) [] in
  mret (foldl BasicList.add [] available_layers).

Definition default_layer_names : list (list ascii) := [str "VK_LAYER_KHRONOS_validation"].

Definition get_default_validation_layers : ST globals (list (list ascii)) :=
  if TZ_DEBUG then
    if negb layers_enabled then mret [] else
    avail_layers ← get_all_available_layers;
    lift (for_each (λ layer default_layers,
      _ ← tz_assert (BasicList.contains avail_layers layer);
      Ok (BasicList.add default_layers layer)) default_layer_names [])
  else mret [].

(** *** The debug messenger *)

Definition SEVERITY_VERBOSE : Z := 0x1.
Definition SEVERITY_WARNING : Z := 0x100.
Definition SEVERITY_ERROR : Z := 0x1000.
Definition TYPE_GENERAL : Z := 0x1.
Definition TYPE_VALIDATION : Z := 0x2.
Definition TYPE_PERFORMANCE : Z := 0x4.

(** Whether the message makes the Vulkan call that caused it abort: never. *)
Definition default_debug_callback (message_severity : Z) : res bool :=
  _ ← (if (SEVERITY_WARNING <=? message_severity)%Z then tz_error else Ok tt);
  Ok false.

(** The handle that is written, or [None] when an error code is returned. *)
Definition vkext_create_debug_utils_messenger (instance severity type : Z) : ST globals (option Z) :=
  if TZ_DEBUG then
    _ ← call (VkGetInstanceProcAddr instance (str "vkCreateDebugUtilsMessengerEXT"));
    func ← gets (λ e, vkGetInstanceProcAddr_result (calls e));
    if func : bool then
      _ ← call (VkCreateDebugUtilsMessenger instance severity type);
      gets (λ e, vkCreateDebugUtilsMessenger_result (calls e))
    else mret None
  else mret None.

Definition vkext_destroy_debug_utils_messenger (instance messenger : Z) : ST globals unit :=
  if TZ_DEBUG then
    _ ← call (VkGetInstanceProcAddr instance (str "vkDestroyDebugUtilsMessengerEXT"));
    func ← gets (λ e, vkGetInstanceProcAddr_result (calls e));
    if func : bool then call (VkDestroyDebugUtilsMessenger instance messenger) else mret tt
  else mret tt.

(** The constructor ignores the result of the creation. *)
Definition DebugMessenger_new (instance severity_filter message_type_filter : Z) : ST globals DebugMessenger :=
  r ← vkext_create_debug_utils_messenger instance severity_filter message_type_filter;
  mret (mkMessenger (default 0%Z r) instance).

Definition DebugMessenger_destroy (m : DebugMessenger) : ST globals unit :=
  vkext_destroy_debug_utils_messenger (current_instance m) (dm_messenger m).

Definition initialise_default_messenger (instance : Z) : ST globals unit :=
  m ← gets def_msg;
  _ ← lift (tz_assert (bool_decide (m = NoMessenger)));
  m ← DebugMessenger_new instance
        (Z.lor (Z.lor SEVERITY_VERBOSE SEVERITY_WARNING) SEVERITY_ERROR)
        (Z.lor (Z.lor TYPE_GENERAL TYPE_VALIDATION) TYPE_PERFORMANCE);
  modify (set_def_msg (LiveMessenger m)).

(** The pointer is not reset. *)
Definition destroy_default_messenger : ST globals unit :=
  m ← gets def_msg;
  _ ← lift (tz_assert (bool_decide (m ≠ NoMessenger)));
  match m with
  | NoMessenger => mret tt
  | LiveMessenger m => _ ← DebugMessenger_destroy m; modify (set_def_msg DeletedMessenger)
  | DeletedMessenger => lift (Fault OutOfBounds)
  end.

(** The messenger behind the reference that is returned. *)
Definition default_messenger : ST globals DebugMessenger :=
  m ← gets def_msg;
  _ ← lift (tz_assert (bool_decide (m ≠ NoMessenger)));
  match m with
  | NoMessenger => lift (Fault NullDeref)
  | LiveMessenger m => mret m
  | DeletedMessenger => lift (Fault OutOfBounds)
  end.

(** *** The instance and the surface *)

Definition VulkanInstance_new (app_info : VulkanApplicationInfo) (extensions validation_layers : list (list ascii))
    : ST globals Z :=
  b ← gets is_initialised;
  _ ← lift (tz_assert b);
  default_extensions ← get_default_required_extensions;
  let extensions := BasicList.append extensions default_extensions in
  default_layers ← get_default_validation_layers;
  let validation_layers := BasicList.append validation_layers default_layers in
  _ ← call (VkCreateInstance app_info extensions validation_layers);
  r ← gets (λ e, vkCreateInstance_result (calls e));
  _ ← (if bool_decide (is_Some r) then mret tt else lift tz_error);
  _ ← initialise_default_messenger (default 0%Z r);
  mret (default 0%Z r).

Definition VulkanInstance_destroy (i : Z) : ST globals unit :=
  _ ← destroy_default_messenger; call (VkDestroyInstance i).

Definition WindowSurface_new : ST globals Z :=
  i ← vk_get;
  a ← window;
  w ← window_at a;
  _ ← call (GlfwCreateWindowSurface i (get_middleware_handle w));
  r ← gets (λ e, glfwCreateWindowSurface_result (calls e));
  _ ← lift (tz_assert (bool_decide (is_Some r)));
  mret (default 0%Z r).

(** A null surface (only without assertions) is not destroyed. *)
Definition WindowSurface_destroy (s : Z) : ST globals unit :=
  if (s =? 0)%Z then mret tt else i ← vk_get; call (VkDestroySurface i s).

Definition vk_initialise_headless (g : GameInfo) : ST globals unit :=
  p ← gets inst;
  _ ← lift (tz_assert (bool_decide (p = None)));
  i ← VulkanInstance_new (VulkanApplicationInfo_new g) [] [];
  modify (set_inst (Some i)).

Definition vk_initialise (g : GameInfo) : ST globals unit :=
  p ← gets inst;
  _ ← lift (tz_assert (bool_decide (p = None)));
  i ← VulkanInstance_new (VulkanApplicationInfo_new g) [] [];
  _ ← modify (set_inst (Some i));
  s ← WindowSurface_new;
  modify (set_surf (Some s)).

Definition vk_terminate : ST globals unit :=
  p ← gets inst;
  _ ← lift (tz_assert (bool_decide (is_Some p)));
  s ← gets surf;
  _ ← match s with Some s => WindowSurface_destroy s | None => mret tt end;
  _ ← modify (set_surf None);
  _ ← match p with Some i => VulkanInstance_destroy i | None => mret tt end;
  modify (set_inst None).

(** ** The global instance of OpenGL *)

Definition GL_DEBUG_OUTPUT : Z := 0x92E0.
Definition GL_DEBUG_OUTPUT_SYNCHRONOUS : Z := 0x8242.
Definition GL_DEBUG_TYPE_ERROR : Z := 0x824C.
Definition GL_DEBUG_TYPE_UNDEFINED_BEHAVIOR : Z := 0x824E.

(** The [cases] of a switch print a text, an unknown value prints nothing. *)
Definition label (cases : list (Z * list ascii)) (v : Z) : list ascii :=
  match find (λ c, (c.1 =? v)%Z) cases with Some c => c.2 | None => [] end.

Definition source_labels : list (Z * list ascii) :=
  [(0x8246%Z, str "Source: API"); (0x8247%Z, str "Source: Window System");
   (0x8248%Z, str "Source: Shader Compiler"); (0x8249%Z, str "Source: Third Party");
   (0x824A%Z, str "Source: Application"); (0x824B%Z, str "Source: Other")].

Definition type_labels : list (Z * list ascii) :=
  [(GL_DEBUG_TYPE_ERROR, str "Type: Error"); (0x824D%Z, str "Type: Deprecated Behaviour");
   (GL_DEBUG_TYPE_UNDEFINED_BEHAVIOR, str "Type: Undefined Behaviour"); (0x824F%Z, str "Type: Portability");
   (0x8250%Z, str "Type: Performance"); (0x8268%Z, str "Type: Marker"); (0x8269%Z, str "Type: Push Group");
   (0x826A%Z, str "Type: Pop Group"); (0x8251%Z, str "Type: Other")].

Definition severity_labels : list (Z * list ascii) :=
  [(0x9146%Z, str "Severity: high"); (0x9147%Z, str "Severity: medium"); (0x9148%Z, str "Severity: low");
   (0x826B%Z, str "Severity: notification")].

Definition ignored_ids : list Z := [131169; 131185; 131218; 131204]%Z.

(** The lines that are printed, and how the function ends. *)
Definition opengl_debug_callback (source type id severity : Z) (message : list ascii) : list (list ascii) * res unit :=
  if existsb (Z.eqb id) ignored_ids then ([], Ok tt) else
  let erroneous := ((type =? GL_DEBUG_TYPE_ERROR) || (type =? GL_DEBUG_TYPE_UNDEFINED_BEHAVIOR))%Z in
  ([str "---------------"; str "Debug message (" ++ to_string id ++ str "): " ++ message;
    label source_labels source; label type_labels type; label severity_labels severity; []],
   if erroneous then tz_error else Ok tt).

Definition OpenGLInstance_new : ST globals Z :=
  _ ← call GladLoad;
  ok ← gets (λ e, gladLoad_result (calls e));
  _ ← lift (tz_assert ok);
  _ ← call (GlEnable GL_DEBUG_OUTPUT);
  _ ← call (GlEnable GL_DEBUG_OUTPUT_SYNCHRONOUS);
  _ ← call GlDebugMessageCallback;
  mret 0%Z.

Definition ogl_initialise_headless : ST globals unit :=
  p ← gets inst;
  _ ← lift (tz_assert (bool_decide (p = None)));
  i ← OpenGLInstance_new;
  modify (set_inst (Some i)).

Definition ogl_initialise : ST globals unit :=
  p ← gets inst;
  _ ← lift (tz_assert (bool_decide (p = None)));
  i ← OpenGLInstance_new;
  modify (set_inst (Some i)).

Definition ogl_get : ST globals Z :=
  p ← gets inst;
  _ ← lift (tz_assert (bool_decide (is_Some p)));
  lift (of_option NullDeref p).

Definition ogl_is_initialised (e : globals) : bool := bool_decide (is_Some (inst e)).

Definition ogl_terminate : ST globals unit :=
  p ← gets inst;
  _ ← lift (tz_assert (bool_decide (is_Some p)));
  modify (set_inst None).

(** ** tz::initialise and tz::terminate *)

Definition is_window_type (t : ApplicationType) : bool := bool_decide (t ≠ Headless).

Definition create_window (g : GameInfo) (app_type : ApplicationType) : ST globals unit :=
  if is_window_type app_type then
    _ ← call GlfwInit;
    e ← gets id;
    _ ← lift (tz_assert (bool_decide (wnd e = None) && negb (initialised e)));
    let hints := if decide (app_type = HiddenWindowApplication) then [(VISIBLE, GLFW_FALSE)] else [] in
    a ← new_window (λ self, Window_new self 800 600 (game_to_string g) hints);
    modify (set_wnd (Some a))
  else if vulkan then
    a ← new_window Window_null; modify (set_wnd (Some a))
  else lift (Fault Exited).

Definition initialise (g : GameInfo) (app_type : ApplicationType) : ST globals unit :=
  _ ← create_window g app_type;
  _ ← modify (set_initialised true);
  _ ← (if vulkan then (if is_window_type app_type then vk_initialise g else vk_initialise_headless g)
       else (if is_window_type app_type then ogl_initialise else ogl_initialise_headless));
  modify (set_app_type app_type).

(** [glfwTerminate] destroys the windows that are left. *)
Definition terminate : ST globals unit :=
  _ ← (if vulkan then vk_terminate else ogl_terminate);
  t ← gets tz_app_type;
  _ ← (if decide (t = WindowApplication) then
         e ← gets id;
         _ ← lift (tz_assert (bool_decide (is_Some (wnd e)) && initialised e));
         match wnd e with Some a => delete_window a | None => mret tt end
       else mret tt);
  _ ← (if decide (t = Headless) then mret tt
       else _ ← call GlfwTerminate; modify (set_user_pointers ∅));
  modify (set_initialised false).

End Engine.

