(* ===== verification/EngineRuns.v ===== *)
(** * Runs of the engine

    The rules GLFW, Vulkan and OpenGL have for the calls of Engine, as a monitor
    that replays the recorded calls and keeps the objects that are alive; the
    invariant of every run of the engine; and the theorems: the globals agree
    with each other and with what is alive, every call is made on live objects
    and in an order the rules allow, the engine starts at most once, and an
    update of the window runs its resize callbacks. *)

From Stdlib Require Import Ascii String.
From S2P Require Import Prelude Containers Memory Version Engine.

(** ** What the calls leave alive *)

Record objects := mkObjects {
  ob_glfw : bool; ob_window : option Z; ob_instance : option Z; ob_surface : option Z; ob_messenger : option Z }.

#[export] Instance objects_eq_dec : EqDecision objects.
Proof. solve_decision. Defined.

Definition nothing : objects := mkObjects false None None None None.

Definition with_window (w : option Z) (o : objects) : objects :=
  mkObjects (ob_glfw o) w (ob_instance o) (ob_surface o) (ob_messenger o).
Definition with_instance (i : option Z) (o : objects) : objects :=
  mkObjects (ob_glfw o) (ob_window o) i (ob_surface o) (ob_messenger o).
Definition with_surface (s : option Z) (o : objects) : objects :=
  mkObjects (ob_glfw o) (ob_window o) (ob_instance o) s (ob_messenger o).
Definition with_messenger (m : option Z) (o : objects) : objects :=
  mkObjects (ob_glfw o) (ob_window o) (ob_instance o) (ob_surface o) m.

(** A handle that may be null. *)
Definition handle_of (h : Z) : option Z := if (h =? 0)%Z then None else Some h.

Section Rules.
Context `{HO : Host}.

Definition rule (b : bool) (o : objects) : option objects := if b then Some o else None.

(** The rules.  [l] are the calls so far, [c] included.  GLFW is used while it
    is initialised, but for the query of extensions, which then reports none;
    one window, instance, surface and messenger are alive at a time, and each is
    used and destroyed while it is; a surface goes before its window, and a
    surface and a messenger before their instance. *)
Definition call_rule (l : list host_call) (c : host_call) (o : objects) : option objects :=
  match c with
  | GlfwInit => Some (mkObjects true (ob_window o) (ob_instance o) (ob_surface o) (ob_messenger o))
  | GlfwTerminate => rule (ob_glfw o && bool_decide (ob_surface o = None))
                       (mkObjects false None (ob_instance o) None (ob_messenger o))
  | GlfwWindowHint _ _ | GlfwSwapInterval _ | GlfwPollEvents | GlfwWaitEvents => rule (ob_glfw o) o
  | GlfwCreateWindow _ _ _ => rule (ob_glfw o && bool_decide (ob_window o = None))
                                (with_window (glfwCreateWindow_result l) o)
  | GlfwMakeContextCurrent w => rule (ob_glfw o && bool_decide (w = None ∨ w = ob_window o)) o
  | GlfwSetWindowUserPointer w _ | GlfwSwapBuffers w | GlfwGetFramebufferSize w | GlfwWindowShouldClose w =>
      rule (ob_glfw o && bool_decide (ob_window o = Some w)) o
  | GlfwSetFramebufferSizeCallback w => rule (ob_glfw o && bool_decide (is_Some w ∧ ob_window o = w)) o
  | GlfwDestroyWindow w => rule (ob_glfw o && bool_decide (ob_window o = Some w ∧ ob_surface o = None))
                             (with_window None o)
  | GlfwGetRequiredInstanceExtensions | VkEnumerateInstanceLayerProperties => Some o
  | VkCreateInstance _ _ _ => rule (bool_decide (ob_instance o = None)) (with_instance (vkCreateInstance_result l) o)
  | VkDestroyInstance i => rule (bool_decide (ob_instance o = Some i ∧ ob_surface o = None ∧ ob_messenger o = None))
                             (with_instance None o)
  | GlfwCreateWindowSurface i w =>
      rule (ob_glfw o && bool_decide (ob_instance o = Some i ∧ is_Some w ∧ ob_window o = w ∧ ob_surface o = None))
        (with_surface (glfwCreateWindowSurface_result l) o)
  | VkDestroySurface i s => rule (bool_decide (ob_instance o = Some i ∧ ob_surface o = Some s)) (with_surface None o)
  | VkGetInstanceProcAddr i _ => rule (bool_decide (ob_instance o = Some i)) o
  | VkCreateDebugUtilsMessenger i _ _ => rule (bool_decide (ob_instance o = Some i ∧ ob_messenger o = None))
                                           (with_messenger (vkCreateDebugUtilsMessenger_result l) o)
  | VkDestroyDebugUtilsMessenger i m => rule (bool_decide (ob_instance o = Some i ∧ ob_messenger o = handle_of m))
                                          (with_messenger None o)
  | GladLoad | GlEnable _ | GlDebugMessageCallback => rule (ob_glfw o && bool_decide (is_Some (ob_window o))) o
  end.

(** The calls of [l], made after the calls [before]. *)
Fixpoint replay_after (before l : list host_call) (o : objects) : option objects :=
  match l with
  | [] => Some o
  | c :: l => o' ← call_rule (before ++ [c]) c o; replay_after (before ++ [c]) l o'
  end.

Definition replay (l : list host_call) : option objects := replay_after [] l nothing.

Lemma replay_after_app before l1 l2 o :
  replay_after before (l1 ++ l2) o = (replay_after before l1 o ≫= replay_after (before ++ l1) l2).
Proof.
  revert before o. induction l1 as [|c l1 IH]; intros before o; simpl; [by rewrite app_nil_r|].
  destruct (call_rule _ c o) as [o'|]; simpl; [|done]. by rewrite IH, <- app_assoc.
Qed.

Lemma replay_snoc l c : replay (l ++ [c]) = (o ← replay l; call_rule (l ++ [c]) c o).
Proof.
  unfold replay. rewrite replay_after_app. simpl. destruct (replay_after [] l nothing) as [o|]; simpl; [|done].
  by destruct (call_rule _ c o).
Qed.

(** What the engine relies on: handles are not null, the destroying function of
    the messenger extension is found where a messenger was created, and only the
    live window is resized. *)
Class HostSpec := {
  surface_not_null l : glfwCreateWindowSurface_result l ≠ Some 0%Z;
  messenger_not_null l : vkCreateDebugUtilsMessenger_result l ≠ Some 0%Z;
  destroy_function l o i :
    replay l = Some o → ob_instance o = Some i → is_Some (ob_messenger o) →
    vkGetInstanceProcAddr_result (l ++ [VkGetInstanceProcAddr i (str "vkDestroyDebugUtilsMessengerEXT")]) = true;
  resizes_live l o h s : replay l = Some o → (h, s) ∈ glfwPollEvents_resizes l → ob_window o = Some h }.

End Rules.

Arguments replay : simpl never.
Arguments call_rule : simpl never.

(** ** What holds when a computation of the engine ends *)

Definition set_calls (l : list host_call) (e : globals) : globals :=
  mkEngine (wnd e) (windows e) (initialised e) (tz_app_type e) (inst e) (surf e) (def_msg e) (user_pointers e) l.

Definition ends {A} (m : ST globals A) (Q : A → globals → Prop) (e : globals) : Prop :=
  ∀ a e', m e = Ok (a, e') → Q a e'.

Section Ends.
Context {A B : Type}.
Implicit Types (Q : A → globals → Prop) (e : globals).

Lemma ends_ret (a : A) Q e : Q a e → ends (mret a) Q e.
Proof. by intros H ? ? [= <- <-]. Qed.

Lemma ends_bind (m : ST globals B) (f : B → ST globals A) Q e :
  ends m (λ b e', ends (f b) Q e') e → ends (m ≫= f) Q e.
Proof. intros H a e' (b & e1 & E1 & E2)%st_bind_inv. by apply (H b e1 E1). Qed.

Lemma ends_gets (f : globals → A) Q e : Q (f e) e → ends (gets f) Q e.
Proof. by intros H ? ? [= <- <-]. Qed.

Lemma ends_lift (r : res A) Q e : (∀ a, r = Ok a → Q a e) → ends (lift r) Q e.
Proof. intros H a e' [E ->]%lift_inv. by apply H. Qed.

Lemma ends_weaken (m : ST globals A) P Q e : ends m P e → (∀ a e', P a e' → Q a e') → ends m Q e.
Proof. intros H HPQ a e' E. by apply HPQ, H. Qed.

End Ends.

Lemma ends_modify f (Q : unit → globals → Prop) e : Q tt (f e) → ends (modify f) Q e.
Proof. by intros H ? ? [= <- <-]. Qed.

Lemma ends_call c (Q : unit → globals → Prop) e : Q tt (set_calls (calls e ++ [c]) e) → ends (call c) Q e.
Proof. by intros H ? ? [= <- <-]. Qed.

Lemma ends_assert `{BC : BuildConfig} b (Q : unit → globals → Prop) e :
  TZ_DEBUG = true → (b = true → Q tt e) → ends (lift (tz_assert b)) Q e.
Proof. intros Hd H. apply ends_lift. intros [] E. eauto using tz_assert_Ok_inv. Qed.

Lemma ends_window_at a (Q : Window → globals → Prop) e :
  (∀ w, windows e !! a = Some w → Q w e) → ends (window_at a) Q e.
Proof.
  intros H. apply ends_bind, ends_gets, ends_lift. intros w Hw. apply H.
  by destruct (windows e !! a); simplify_eq/=.
Qed.

(** One step of a computation, by the form of the computation. *)
Ltac ends_step :=
  lazymatch goal with
  | |- ends (mbind _ _) _ _ => apply ends_bind
  | |- ends (call _) _ _ => apply ends_call
  | |- ends (gets _) _ _ => apply ends_gets
  | |- ends (modify _) _ _ => apply ends_modify
  | |- ends (mret _) _ _ => apply ends_ret
  | |- ends (window_at _) _ _ => apply ends_window_at; intros ? ?
  | |- ends (lift (tz_assert _)) _ _ => apply ends_assert; [assumption|intros ?]
  | |- ends (lift (Fault _)) _ _ => by apply ends_lift
  end; cbn beta.

(** Replaying calls recorded after calls whose objects are known. *)
Lemma replay_call `{HO : Host} l c o o' :
  replay l = Some o → call_rule (l ++ [c]) c o = Some o' → replay (l ++ [c]) = Some o'.
Proof. intros H Hc. by rewrite replay_snoc, H. Qed.

Ltac rule_holds :=
  unfold call_rule, rule;
  cbn [ob_glfw ob_window ob_instance ob_surface ob_messenger with_window with_instance with_surface with_messenger];
  repeat match goal with
  | H : ob_glfw _ = _ |- _ => rewrite H
  | H : ob_window _ = _ |- _ => rewrite H
  | H : ob_instance _ = _ |- _ => rewrite H
  | H : ob_surface _ = _ |- _ => rewrite H
  | H : ob_messenger _ = _ |- _ => rewrite H
  | H : ?f _ = Some _ |- context [?f _] => rewrite H
  end; cbn [andb];
  rewrite ?bool_decide_true by eauto 6; reflexivity.

Ltac rules := first [eassumption | eapply replay_call; [rules|rule_holds]].

(** ** The operations *)

Section Operations.
Context `{BC : BuildConfig} `{HO : Host}.
Context (vulkan : bool) (Hdebug : TZ_DEBUG = true).
Implicit Types (e : globals) (o : objects).

(** The state after calls that change no object. *)
Definition same_objects e (e' : globals) : Prop :=
  ∃ l, e' = set_calls l e ∧ ∀ o, replay (calls e) = Some o → ob_glfw o = true → replay l = Some o.

Lemma same_objects_refl e : same_objects e e.
Proof. by exists (calls e); destruct e. Qed.

Lemma same_objects_call c e e' :
  same_objects e e' → (∀ l o, ob_glfw o = true → call_rule l c o = Some o) →
  same_objects e (set_calls (calls e' ++ [c]) e').
Proof.
  intros (l & -> & H) Hc. exists (l ++ [c]). split; [done|]. intros o Ho Hg.
  rewrite replay_snoc, (H o Ho Hg). by apply Hc.
Qed.

Lemma hints_end (hints : list (hint * hint_value)) e0 e : same_objects e0 e →
  ends (st_each (λ h, call (GlfwWindowHint h.1 h.2)) hints) (λ _, same_objects e0) e.
Proof.
  revert e. induction hints as [|h hints IH]; intros e H; [by apply ends_ret|].
  simpl. repeat ends_step. apply IH, same_objects_call; [done|]. intros l o Hg. unfold call_rule, rule. by rewrite Hg.
Qed.

Lemma Window_new_ends self width height title hints e :
  ends (Window_new vulkan self width height title hints) (λ _ e', ∃ l h,
    e' = set_windows (<[self := mkWindow (Some h) []]> (windows e))
           (set_user_pointers (<[h := self]> (user_pointers e)) (set_calls l e)) ∧
    ∀ o, replay (calls e) = Some o → ob_glfw o = true → ob_window o = None →
      replay l = Some (with_window (Some h) o)) e.
Proof.
  unfold Window_new. ends_step. eapply ends_weaken; [apply hints_end, same_objects_refl|]. intros [] e1 H1. cbn beta in H1.
  ends_step. eapply ends_weaken; [exact (hints_end _ _ _ H1)|]. intros [] e2 (l & -> & Hl). clear e1 H1.
  unfold glfwSetWindowUserPointer. do 5 ends_step. ends_step.
  destruct (glfwCreateWindow_result _) as [h|] eqn:Eh; cbn in Eh.
  2: { ends_step. destruct vulkan; [ends_step|ends_step]; repeat ends_step; by apply ends_lift. }
  ends_step. destruct vulkan; repeat ends_step; apply ends_lift; intros ? [= <-]; repeat ends_step;
    (eexists _, h; split; [reflexivity|]; intros o Ho Hg Hw; specialize (Hl o Ho Hg); cbn; rules).
Qed.

(** Queries that need no object. *)
Definition same_replay e (e' : globals) : Prop := ∃ l, e' = set_calls l e ∧ replay l = replay (calls e).

Lemma same_replay_call c e e' :
  same_replay e e' → (∀ l o, call_rule l c o = Some o) → same_replay e (set_calls (calls e' ++ [c]) e').
Proof.
  intros (l & -> & H) Hc. exists (l ++ [c]). split; [done|]. rewrite replay_snoc, <- H.
  destruct (replay l); cbn; [apply Hc|done].
Qed.

Lemma extensions_end e : ends get_default_required_extensions
  (λ exts e', exts = glfwGetRequiredInstanceExtensions_result (calls e') ++ [VK_EXT_DEBUG_UTILS_EXTENSION_NAME] ∧
     same_replay e e') e.
Proof.
  unfold get_default_required_extensions, get_glfw_required_extensions, layers_enabled. rewrite Hdebug. repeat ends_step.
  split; [|apply same_replay_call; [by exists (calls e); destruct e|done]]. unfold BasicList.add. f_equal.
  enough (∀ l acc, foldl (λ l (x : list ascii), l ++ [x]) acc l = acc ++ l) as ->; [done|].
  intros l. induction l as [|x l IH]; intros acc; simpl; [by rewrite app_nil_r|]. by rewrite IH, <- app_assoc.
Qed.

Lemma layers_end e : ends get_default_validation_layers (λ layers e', layers = default_layer_names ∧ same_replay e e') e.
Proof.
  unfold get_default_validation_layers, get_all_available_layers, layers_enabled. rewrite Hdebug. cbn [negb]. repeat ends_step.
  apply ends_lift. unfold tz_assert. rewrite Hdebug. cbn. intros layers E.
  split; [by destruct (BasicList.contains _ _); simplify_eq/=|].
  apply (same_replay_call VkEnumerateInstanceLayerProperties); [|done].
  apply (same_replay_call VkEnumerateInstanceLayerProperties); [by exists (calls e); destruct e|done].
Qed.

Context `{HS : !HostSpec}.

Lemma handle_of_default (r : option Z) : r ≠ Some 0%Z → handle_of (default 0%Z r) = r.
Proof. destruct r as [h|]; cbn; [|done]. intros H. unfold handle_of. by rewrite (proj2 (Z.eqb_neq h 0)) by congruence. Qed.

Lemma DebugMessenger_new_ends i severity type e : ends (DebugMessenger_new i severity type) (λ m e', ∃ l,
    e' = set_calls l e ∧ current_instance m = i ∧
    ∀ o, replay (calls e) = Some o → ob_instance o = Some i → ob_messenger o = None →
      replay l = Some (with_messenger (handle_of (dm_messenger m)) o)) e.
Proof.
  unfold DebugMessenger_new, vkext_create_debug_utils_messenger. rewrite Hdebug. do 5 ends_step.
  destruct (vkGetInstanceProcAddr_result _); repeat ends_step; (eexists; split; [reflexivity|]; split; [done|]);
    intros o Ho Hi Hm; cbn.
  - rewrite handle_of_default by apply messenger_not_null. rules.
  - eapply replay_call; [eassumption|]. unfold call_rule, rule. rewrite bool_decide_true by done.
    destruct o; cbn in *. by subst.
Qed.

Lemma VulkanInstance_new_ends info extensions layers e : ends (VulkanInstance_new info extensions layers) (λ i e', ∃ l m,
    def_msg e = NoMessenger ∧ e' = set_def_msg (LiveMessenger m) (set_calls l e) ∧ current_instance m = i ∧
    ∀ o, replay (calls e) = Some o → ob_instance o = None → ob_messenger o = None →
      replay l = Some (with_messenger (handle_of (dm_messenger m)) (with_instance (Some i) o))) e.
Proof.
  unfold VulkanInstance_new. do 5 ends_step. eapply ends_weaken; [apply extensions_end|].
  intros exts e1 (_ & l1 & -> & H1). ends_step. eapply ends_weaken; [apply layers_end|].
  intros names e2 (_ & l2 & -> & H2). do 5 ends_step.
  destruct (vkCreateInstance_result _) as [i|] eqn:Ei; cbn [calls set_calls] in *.
  2: { rewrite bool_decide_false by (by intros []). apply ends_lift. unfold tz_error. by rewrite Hdebug. }
  rewrite bool_decide_true by eauto. repeat ends_step. unfold initialise_default_messenger. repeat ends_step.
  eapply ends_weaken; [apply DebugMessenger_new_ends|]. intros m e3 (l3 & -> & Hm & H3). repeat ends_step.
  eexists _, m. split; [by eapply bool_decide_eq_true|]. split; [reflexivity|]. split; [done|].
  intros o Ho Hi Hn. apply H3; [|done..]. rewrite H1 in H2. rewrite <- H2 in Ho. rules.
Qed.

(** The instance is asked for with the extensions GLFW requires and the debug
    extension after those of the caller, and with the default layer. *)
Lemma VulkanInstance_requests info extensions layers e : ends (VulkanInstance_new info extensions layers) (λ _ e', ∃ l,
    VkCreateInstance info
      (extensions ++ glfwGetRequiredInstanceExtensions_result l ++ [VK_EXT_DEBUG_UTILS_EXTENSION_NAME])
      (layers ++ default_layer_names) ∈ calls e') e.
Proof.
  unfold VulkanInstance_new. do 5 ends_step. eapply ends_weaken; [apply extensions_end|].
  intros exts e1 (-> & _). ends_step. eapply ends_weaken; [apply layers_end|].
  intros names e2 (-> & _). do 5 ends_step. case_bool_decide; [|apply ends_lift; unfold tz_error; by rewrite Hdebug].
  repeat ends_step. unfold initialise_default_messenger, DebugMessenger_new, vkext_create_debug_utils_messenger.
  rewrite Hdebug. repeat ends_step.
  destruct (vkGetInstanceProcAddr_result _); repeat ends_step; exists (calls e1); cbn; unfold BasicList.append;
    rewrite !elem_of_app; repeat ((by right; left) || left).
Qed.

Lemma vk_get_ends i (Q : Z → globals → Prop) e : inst e = Some i → Q i e → ends vk_get Q e.
Proof.
  intros Hi HQ. unfold vk_get. repeat ends_step. rewrite Hi. apply ends_lift. by intros ? [= <-].
Qed.

Lemma window_ends (Q : nat → globals → Prop) e : (∀ a, wnd e = Some a → Q a e) → ends window Q e.
Proof.
  intros HQ. unfold window. repeat ends_step. destruct (wnd e) as [a|] eqn:Ha; apply ends_lift; [|done].
  intros ? [= <-]. by apply HQ.
Qed.

(** The back end's instance, and for a window application its surface. *)
Definition vk_start (g : GameInfo) (app : ApplicationType) : ST globals unit :=
  if is_window_type app then vk_initialise g else vk_initialise_headless g.

Lemma vk_start_ends g app e : ends (vk_start g app) (λ _ e', ∃ l i s m,
    def_msg e = NoMessenger ∧ inst e = None ∧ current_instance m = i ∧
    (if is_window_type app then is_Some s ∧ s ≠ Some 0%Z else s = surf e) ∧
    e' = set_surf s (set_inst (Some i) (set_def_msg (LiveMessenger m) (set_calls l e))) ∧
    ∀ o a w, replay (calls e) = Some o → ob_instance o = None → ob_messenger o = None →
      (if is_window_type app then ob_glfw o = true ∧ ob_surface o = None ∧
         wnd e = Some a ∧ windows e !! a = Some w ∧ is_Some (w_handle w) ∧ ob_window o = w_handle w
       else ob_surface o = s) →
      replay l = Some (mkObjects (ob_glfw o) (ob_window o) (Some i) s (handle_of (dm_messenger m)))) e.
Proof.
  unfold vk_start. destruct (is_window_type app).
  - unfold vk_initialise. repeat ends_step. eapply ends_weaken; [apply VulkanInstance_new_ends|].
    intros i e1 (l & m & Hm & -> & Hi & Hl). repeat ends_step. unfold WindowSurface_new. ends_step.
    eapply vk_get_ends; [done|]. ends_step. apply window_ends. intros a Ha. repeat ends_step.
    destruct (glfwCreateWindowSurface_result _) as [sf|] eqn:Es; [|done]. cbn in *.
    pose proof (surface_not_null (l ++ [GlfwCreateWindowSurface i (get_middleware_handle w)])) as Hn. rewrite Es in Hn.
    eexists _, i, (Some sf), m. split; [done|]. split; [by eapply bool_decide_eq_true|]. split; [done|].
    split; [by eauto|]. split; [reflexivity|].
    intros o b w' Ho Hoi Hom (Hg & Hs & Hb & Hbw & [h Hh] & Hob).
    assert (b = a) as -> by congruence. assert (w' = w) as -> by congruence. unfold get_middleware_handle in *.
    specialize (Hl o Ho Hoi Hom). rewrite Hh in *. destruct o; cbn in *; subst. eapply replay_call; [exact Hl|]. rule_holds.
  - unfold vk_initialise_headless. repeat ends_step. eapply ends_weaken; [apply VulkanInstance_new_ends|].
    intros i e1 (l & m & Hm & -> & Hi & Hl). repeat ends_step. eexists _, i, (surf e), m.
    split; [done|]. split; [by eapply bool_decide_eq_true|]. split; [done|]. split; [done|]. split; [reflexivity|].
    intros o _ _ Ho Hoi Hom Hs. rewrite (Hl o Ho Hoi Hom). destruct o; cbn in *. by subst.
Qed.

Lemma ogl_start_ends e : ends ogl_initialise (λ _ e', ∃ l, inst e = None ∧ e' = set_inst (Some 0%Z) (set_calls l e) ∧
    ∀ o, replay (calls e) = Some o → ob_glfw o = true → is_Some (ob_window o) → replay l = Some o) e.
Proof.
  unfold ogl_initialise, OpenGLInstance_new. repeat ends_step. eexists. split; [by eapply bool_decide_eq_true|].
  split; [reflexivity|]. intros o Ho Hg [h Hh]. cbn. rules.
Qed.

Lemma messenger_destroy_ends m e : ends (DebugMessenger_destroy m) (λ _ e', ∃ l, e' = set_calls l e ∧
    ∀ o, replay (calls e) = Some o → ob_instance o = Some (current_instance m) →
      ob_messenger o = handle_of (dm_messenger m) → replay l = Some (with_messenger None o)) e.
Proof.
  unfold DebugMessenger_destroy, vkext_destroy_debug_utils_messenger. rewrite Hdebug. do 4 ends_step.
  destruct (vkGetInstanceProcAddr_result _) eqn:Ef; repeat ends_step; (eexists; split; [reflexivity|]);
    intros o Ho Hi Hm; cbn in *; [by destruct o; cbn in *; subst; rules|].
  destruct (ob_messenger o) eqn:Em; [by rewrite (destroy_function _ o) in Ef by eauto|].
  eapply replay_call; [exact Ho|]. unfold call_rule, rule. rewrite bool_decide_true by done.
  destruct o; cbn in *. by subst.
Qed.

Lemma vk_terminate_ends e : ends vk_terminate (λ _ e', ∃ l i m, inst e = Some i ∧ def_msg e = LiveMessenger m ∧
    e' = set_inst None (set_def_msg DeletedMessenger (set_surf None (set_calls l e))) ∧
    ∀ o, replay (calls e) = Some o → ob_instance o = Some i → current_instance m = i → ob_surface o = surf e →
      surf e ≠ Some 0%Z → ob_messenger o = handle_of (dm_messenger m) →
      replay l = Some (mkObjects (ob_glfw o) (ob_window o) None None None)) e.
Proof.
  unfold vk_terminate. do 4 ends_step. destruct (inst e) as [i|] eqn:Hi; [|done]. ends_step. repeat ends_step.
  apply (ends_weaken _ (λ _ e', ∃ l, e' = set_calls l e ∧ ∀ o, replay (calls e) = Some o → ob_instance o = Some i →
           ob_surface o = surf e → surf e ≠ Some 0%Z → replay l = Some (with_surface None o))).
  { destruct (surf e) as [sf|] eqn:Hs.
    - unfold WindowSurface_destroy. destruct (sf =? 0)%Z eqn:H0.
      + repeat ends_step. exists (calls e). split; [by destruct e|]. apply Z.eqb_eq in H0. congruence.
      + ends_step. eapply vk_get_ends; [done|]. repeat ends_step. eexists. split; [reflexivity|].
        intros o Ho Hoi Hos _. rules.
    - repeat ends_step. exists (calls e). split; [by destruct e|]. intros o Ho _ Hos _. rewrite Ho.
      destruct o; cbn in *. by subst. }
  intros [] e1 (l & -> & Hl). repeat ends_step. unfold VulkanInstance_destroy, destroy_default_messenger. repeat ends_step.
  cbn in *. destruct (def_msg e) as [|m|] eqn:Hm; [done| |by apply ends_lift].
  ends_step. eapply ends_weaken; [apply messenger_destroy_ends|]. intros [] e2 (l2 & -> & Hl2). repeat ends_step.
  eexists _, i, m. split; [done|]. split; [done|]. split; [by destruct e|].
  intros o Ho Hoi Hmi Hos Hn Hom. specialize (Hl o Ho Hoi Hos Hn). eapply replay_call.
  - apply (Hl2 (with_surface None o)); cbn; congruence.
  - rule_holds.
Qed.

Lemma delete_window_ends a e : ends (delete_window a) (λ _ e', ∃ l up w, windows e !! a = Some w ∧
    e' = set_windows (delete a (windows e)) (set_user_pointers up (set_calls l e)) ∧
    ∀ o, replay (calls e) = Some o → ob_glfw o = true → is_Some (ob_window o) → ob_window o = w_handle w →
      ob_surface o = None → replay l = Some (with_window None o)) e.
Proof.
  unfold delete_window. repeat ends_step. destruct (w_handle w) as [h|] eqn:Hh; repeat ends_step.
  - eexists _, _, w. split; [done|]. split; [reflexivity|]. intros o Ho Hg _ Hw Hs. rewrite Hh in *. cbn. rules.
  - exists (calls e), (user_pointers e), w. split; [done|]. split; [by destruct e|].
    intros o _ _ [h Hx] Hw. congruence.
Qed.

(** ** initialise and terminate *)

Lemma create_window_ends g app e : ends (create_window vulkan g app) (λ _ e', ∃ l a h up,
    e' = set_wnd (Some a) (set_windows (<[a := mkWindow h []]> (windows e)) (set_user_pointers up (set_calls l e))) ∧
    (h = None ↔ app = Headless) ∧ (∀ h', h = Some h' → up !! h' = Some a) ∧
    (app ≠ Headless → wnd e = None) ∧ (app = Headless → vulkan = true) ∧
    (replay (calls e) = Some nothing → replay l = Some (mkObjects (is_window_type app) h None None None))) e.
Proof.
  unfold create_window, new_window. destruct (is_window_type app) eqn:Ha.
  - apply bool_decide_eq_true in Ha. do 5 ends_step. ends_step.
    apply andb_true_iff in H as [H%bool_decide_eq_true _]. cbn in H.
    repeat ends_step. eapply ends_weaken; [apply Window_new_ends|]. intros [] e1 (l & h & -> & Hl). repeat ends_step.
    eexists l, _, (Some h), _. split; [reflexivity|]. split; [done|]. split; [|split; [done|]; split; [done|]].
    + intros h' [= <-]. apply lookup_insert_eq.
    + intros H0. apply (Hl (mkObjects true None None None None)); [|done..]. cbn. eapply replay_call; [exact H0|done].
  - apply bool_decide_eq_false, dec_stable in Ha as ->. destruct vulkan; [|by apply ends_lift].
    unfold Window_null. repeat ends_step. eexists (calls e), _, None, (user_pointers e).
    split; [by destruct e|]. split_and!; naive_solver.
Qed.

(** What the globals say is alive. *)
Definition objects_of e : objects :=
  mkObjects (initialised e && is_window_type (tz_app_type e))
    (if initialised e then a ← wnd e; w ← windows e !! a; w_handle w else None)
    (if vulkan then inst e else None) (surf e)
    (if vulkan then match def_msg e with LiveMessenger m => handle_of (dm_messenger m) | _ => None end else None).

Lemma initialise_ends g app e : ends (initialise vulkan g app) (λ _ e', ∃ l a h up i s m,
    e' = mkEngine (Some a) (<[a := mkWindow h []]> (windows e)) true app (Some i) s m up l ∧
    (h = None ↔ app = Headless) ∧ (∀ h', h = Some h' → up !! h' = Some a) ∧
    inst e = None ∧ (app ≠ Headless → wnd e = None) ∧ (app = Headless → vulkan = true) ∧
    (if vulkan && is_window_type app then is_Some s ∧ s ≠ Some 0%Z else s = surf e) ∧
    (if vulkan then def_msg e = NoMessenger ∧ ∃ dm, m = LiveMessenger dm ∧ current_instance dm = i else m = def_msg e) ∧
    (replay (calls e) = Some nothing → surf e = None → replay l = Some (objects_of e'))) e.
Proof.
  unfold initialise. ends_step. eapply ends_weaken; [apply create_window_ends|].
  intros [] e1 (l & a & h & up & -> & Hh & Hup & Hw & Hv & Hl). repeat ends_step.
  fold (vk_start g app). destruct vulkan eqn:Evk.
  - eapply ends_weaken; [apply vk_start_ends|]. intros [] e2 (l2 & i & sf & m & Hm & Hi & Hmi & Hs & -> & Hl2). repeat ends_step.
    cbn in Hl2, Hm, Hi, Hs. exists l2, a, h, up, i, sf, (LiveMessenger m). split; [by destruct e|].
    do 5 (split; [done|]). split; [by destruct (is_window_type app)|]. split; [by eauto|].
    intros H0 Hsf. unfold objects_of. rewrite Evk. cbn. rewrite lookup_insert_eq. cbn.
    apply (Hl2 (mkObjects (is_window_type app) h None None None) a (mkWindow h [])); [by apply Hl|done..|].
    destruct (is_window_type app) eqn:Ha; [|cbn; congruence]. rewrite lookup_insert_eq. cbn. split_and!; try done.
    destruct h; [done|]. apply bool_decide_eq_true in Ha. naive_solver.
  - assert (Ha : is_window_type app = true). { apply bool_decide_eq_true. intros E. by specialize (Hv E). }
    rewrite Ha in *. eapply ends_weaken; [apply ogl_start_ends|]. intros [] e2 (l2 & Hi & -> & Hl2). repeat ends_step.
    cbn in Hl2, Hi. exists l2, a, h, up, 0%Z, (surf e), (def_msg e). split; [by destruct e|].
    do 7 (split; [done|]). intros H0 Hsf. unfold objects_of. rewrite Evk. cbn. rewrite lookup_insert_eq, Ha, Hsf. cbn.
    rewrite (Hl2 _ (Hl H0)); [done|done|]. cbn. destruct h; [done|]. apply bool_decide_eq_true in Ha. naive_solver.
Qed.

(** The invariant of the engine: the globals agree with each other and with what
    the recorded calls leave alive. *)
Record engine_inv e : Prop := mkInv {
  inv_inst : initialised e = true ↔ is_Some (inst e);
  inv_window : initialised e = true → ∃ a w, wnd e = Some a ∧ windows e !! a = Some w ∧
    (w_handle w = None ↔ tz_app_type e = Headless) ∧ (∀ h, w_handle w = Some h → user_pointers e !! h = Some a);
  inv_surf : is_Some (surf e) ↔ vulkan = true ∧ initialised e = true ∧ tz_app_type e ≠ Headless;
  inv_surf_handle : surf e ≠ Some 0%Z;
  inv_msg : vulkan = true → match def_msg e with
    | LiveMessenger m => initialised e = true ∧ inst e = Some (current_instance m)
    | _ => initialised e = false
    end;
  inv_calls : replay (calls e) = Some (objects_of e) }.

Lemma objects_of_stopped e : engine_inv e → initialised e = false → objects_of e = nothing ∧ surf e = None.
Proof.
  intros [Ii _ Is _ Im _] Hi. assert (Hinst : inst e = None).
  { destruct (inst e) eqn:E; [|done]. rewrite (proj2 Ii) in Hi by eauto. done. }
  assert (Hs : surf e = None). { destruct (surf e) eqn:E; [|done]. destruct (proj1 Is) as (_ & ? & _); [eauto|congruence]. }
  split; [|done]. unfold objects_of. rewrite Hi, Hinst, Hs. cbn. destruct vulkan; [|done].
  specialize (Im eq_refl). destruct (def_msg e); try done. destruct Im. congruence.
Qed.

(** Once the back end is terminated only GLFW and the window are left. *)
Definition window_left e : objects := mkObjects (is_window_type (tz_app_type e)) (ob_window (objects_of e)) None None None.

Lemma backend_terminate_ends e : ends (if vulkan then vk_terminate else ogl_terminate) (λ _ e', ∃ l,
    is_Some (inst e) ∧
    e' = mkEngine (wnd e) (windows e) (initialised e) (tz_app_type e) None (if vulkan then None else surf e)
           (if vulkan then DeletedMessenger else def_msg e) (user_pointers e) l ∧
    (engine_inv e → initialised e = true ∧ replay l = Some (window_left e))) e.
Proof.
  destruct vulkan eqn:Evk.
  - eapply ends_weaken; [apply vk_terminate_ends|]. intros [] e' (l & i & m & Hi & Hm & -> & Hl).
    exists l. split; [eauto|]. split; [done|]. intros [Ii _ _ Hs Im Ic].
    assert (Hin : initialised e = true) by (apply Ii; eauto). split; [done|].
    rewrite (Hl _ Ic); [unfold window_left; cbn; by rewrite Hin|cbn; by rewrite Evk| |done|done|cbn; by rewrite Evk, Hm].
    rewrite Hm, Evk, Hi in Im. destruct (Im eq_refl). congruence.
  - unfold ogl_terminate. repeat ends_step. exists (calls e). apply bool_decide_eq_true in H. split; [done|].
    split; [done|]. intros [Ii _ Is _ _ Ic]. assert (Hin : initialised e = true) by by apply Ii. split; [done|].
    rewrite Ic. unfold window_left, objects_of. cbn. rewrite Hin, Evk. cbn.
    destruct (surf e); [|done]. destruct (proj1 Is) as [? _]; [eauto|congruence].
Qed.

Lemma terminate_ends e : ends (terminate vulkan) (λ _ e', ∃ l ws up,
    is_Some (inst e) ∧
    e' = mkEngine (wnd e) ws false (tz_app_type e) None (if vulkan then None else surf e)
           (if vulkan then DeletedMessenger else def_msg e) up l ∧
    (tz_app_type e = WindowApplication → ∃ a, wnd e = Some a ∧ ws = delete a (windows e)) ∧
    (engine_inv e → replay l = Some nothing)) e.
Proof.
  unfold terminate. ends_step. eapply ends_weaken; [apply backend_terminate_ends|].
  intros [] e1 (l & Hi & -> & Hl). do 3 ends_step. cbn.
  destruct (tz_app_type e) eqn:Ht; cbn [decide_rel decide].
  - rewrite decide_True by done. repeat ends_step. cbn in *. destruct (wnd e) as [a|] eqn:Hw; [|done].
    eapply ends_weaken; [apply delete_window_ends|]. intros [] e2 (l2 & up & w & Hwa & -> & Hl2). ends_step.
    rewrite decide_False by done. repeat ends_step. eexists _, _, _. split; [done|]. split; [reflexivity|].
    split; [by eauto|]. intros I. destruct (Hl I) as [Hin H1]. unfold window_left in H1. rewrite Ht in H1.
    assert (ob_window (objects_of e) = w_handle w) as Eh.
    { cbn. rewrite Hin, Hw. cbn in Hwa |- *. by rewrite Hwa. }
    destruct (inv_window e I Hin) as (a' & w' & Ha' & Hw' & Hh & _). cbn in Hwa.
    eapply replay_call; [apply (Hl2 _ H1); cbn; try done|done].
    rewrite Eh in *. simplify_eq. destruct (w_handle w); [done|]. destruct Hh as [Hh _]. specialize (Hh eq_refl). congruence.
  - rewrite decide_False by done. repeat ends_step. rewrite decide_False by done. repeat ends_step.
    eexists _, _, _. split; [done|]. split; [reflexivity|]. split; [done|]. intros I. destruct (Hl I) as [_ H1].
    eapply replay_call; [exact H1|]. unfold window_left. by rewrite Ht.
  - rewrite decide_False by done. repeat ends_step. rewrite decide_True by done. repeat ends_step.
    eexists _, _, _. split; [done|]. split; [reflexivity|]. split; [done|]. intros I. destruct (Hl I) as [Hin H1].
    cbn [calls set_initialised]. rewrite H1. unfold window_left. destruct (inv_window e I Hin) as (a & w & Ha & Hw & Hh & _).
    rewrite Ht. cbn. rewrite Hin, Ha. cbn. rewrite Hw. cbn. by rewrite (proj2 Hh).
Qed.

(** ** Runs *)

(** While the engine is initialised with a window, an application may use it. *)
Inductive window_use (a : nat) : ST globals unit → Prop :=
| use_update : window_use a (_ ← update vulkan a; mret tt)
| use_block : window_use a (_ ← block_until_event_happens; mret tt)
| use_close : window_use a (_ ← is_close_requested a; mret tt)
| use_width : window_use a (_ ← get_width a; mret tt)
| use_height : window_use a (_ ← get_height a; mret tt)
| use_callback callback : window_use a (add_resize_callback a callback).

Inductive step : globals → globals → Prop :=
| step_initialise g app e e' : initialise vulkan g app e = Ok (tt, e') → step e e'
| step_terminate e e' : terminate vulkan e = Ok (tt, e') → step e e'
| step_use a m e e' : initialised e = true → tz_app_type e ≠ Headless → window_use a m →
    window e = Ok (a, e) → m e = Ok (tt, e') → step e e'.

Lemma handle_at_ends a (Q : Z → globals → Prop) e :
  (∀ w h, windows e !! a = Some w → w_handle w = Some h → Q h e) → ends (handle_at a) Q e.
Proof.
  intros H. unfold handle_at. repeat ends_step. destruct (w_handle w) eqn:Hh; apply ends_lift; [|done].
  intros ? [= <-]. eauto.
Qed.

Lemma dispatch_ends events e : ends (dispatch events) (λ _ e', e' = e) e.
Proof.
  induction events as [|[h [width height]] events IH]; cbn; [by apply ends_ret|]. unfold window_resize_callback.
  repeat ends_step. apply ends_lift. intros a _. repeat ends_step.
  eapply ends_weaken; [exact IH|]. intros r e' ->. by apply ends_ret.
Qed.

(** A use keeps the handle of the window and everything alive. *)
Definition used a w e (e' : globals) : Prop := ∃ l w',
  e' = set_windows (<[a := w']> (windows e)) (set_calls l e) ∧ w_handle w' = w_handle w ∧
  ∀ o, replay (calls e) = Some o → ob_glfw o = true → ob_window o = w_handle w → replay l = Some o.

Lemma used_calls a w e l : windows e !! a = Some w →
  (∀ o, replay (calls e) = Some o → ob_glfw o = true → ob_window o = w_handle w → replay l = Some o) →
  used a w e (set_calls l e).
Proof. intros Hw H. exists l, w. split; [|done]. unfold set_windows. cbn. by rewrite insert_id. Qed.

Lemma get_size_ends a w e : windows e !! a = Some w → ends (get_size a) (λ _, used a w e) e.
Proof.
  intros Ha. unfold get_size. ends_step. apply handle_at_ends. intros w' h Hw' Hh. simplify_eq. repeat ends_step.
  apply used_calls; [done|]. intros o Ho Hg Hw. rewrite Hh in Hw. rules.
Qed.

Lemma window_use_ends a w m e : windows e !! a = Some w → window_use a m → ends m (λ _, used a w e) e.
Proof.
  intros Ha. destruct 1; repeat ends_step.
  - unfold update. repeat ends_step. eapply ends_weaken; [apply dispatch_ends|]. intros r e1 ->. ends_step.
    destruct vulkan; repeat ends_step; [|apply handle_at_ends; intros w' h Hw' Hh; cbn in Hw'; simplify_eq; repeat ends_step];
      (apply (used_calls a w e); [done|]; intros o Ho Hg Hw; rewrite ?Hh in Hw; cbn; rules).
  - unfold block_until_event_happens. repeat ends_step. eapply ends_weaken; [apply dispatch_ends|]. intros r e1 ->.
    ends_step. apply used_calls; [done|]. intros o Ho Hg Hw. rules.
  - unfold is_close_requested, ensure. do 5 ends_step. apply handle_at_ends. intros w' h Hw' Hh. simplify_eq. repeat ends_step.
    apply used_calls; [done|]. intros o Ho Hg Hw. rewrite Hh in Hw. rules.
  - unfold get_width. ends_step. eapply ends_weaken; [by apply get_size_ends|]. intros s e' H. by repeat ends_step.
  - unfold get_height. ends_step. eapply ends_weaken; [by apply get_size_ends|]. intros s e' H. by repeat ends_step.
  - unfold add_resize_callback. repeat ends_step. simplify_eq. eexists (calls e), _. split; [by destruct e|]. by split.
Qed.

Lemma initialise_inv g app e e' : engine_inv e → initialise vulkan g app e = Ok (tt, e') → engine_inv e'.
Proof.
  intros I (l & a & h & up & i & s & m & -> & Hh & Hup & Hi & _ & Hv & Hs & Hm & Hl)%initialise_ends.
  assert (Hoff : initialised e = false). { apply not_true_is_false. rewrite (inv_inst e I), Hi. by intros []. }
  destruct (objects_of_stopped e I Hoff) as [H0 Hsf]. pose proof (inv_calls e I) as Ic. rewrite H0 in Ic.
  rewrite Hsf in Hs. split; cbn.
  - naive_solver.
  - intros _. exists a, (mkWindow h []). rewrite lookup_insert_eq. by split_and!.
  - unfold is_window_type in Hs. destruct vulkan; cbn in Hs; [|subst; split; [by intros []|naive_solver]].
    case_bool_decide; [naive_solver|]. subst. split; [by intros []|naive_solver].
  - unfold is_window_type in Hs. by destruct vulkan; cbn in Hs; [case_bool_decide|]; subst; [destruct Hs|..].
  - intros Hvk. rewrite Hvk in Hm. destruct Hm as (_ & dm & -> & <-). done.
  - by apply Hl.
Qed.

Lemma terminate_inv e e' : engine_inv e → terminate vulkan e = Ok (tt, e') → engine_inv e'.
Proof.
  intros I (l & ws & up & _ & -> & _ & Hl)%terminate_ends. specialize (Hl I). destruct I as [_ _ Is _ _ _].
  assert (Hs : (if vulkan then None else surf e) = None).
  { destruct vulkan; [done|]. destruct (surf e); [|done]. destruct (proj1 Is) as [? _]; [eauto|done]. }
  rewrite Hs. split; cbn; try done.
  - split; [by intros []|]. naive_solver.
  - intros Hv. by rewrite Hv.
  - rewrite Hl. unfold objects_of. cbn. by destruct vulkan.
Qed.

Lemma use_inv a m e e' : engine_inv e → initialised e = true → tz_app_type e ≠ Headless → window_use a m →
  window e = Ok (a, e) → m e = Ok (tt, e') → engine_inv e'.
Proof.
  intros [Ii Iw Is Ih Im Ic] Hin Ht Hu Ha E. destruct (Iw Hin) as (b & w & Hb & Hw & Hh & Hp).
  assert (a = b) as ->. { apply (window_ends (λ a' _, a' = b) e) in Ha; [done|]. intros a' Ha'. congruence. }
  destruct (window_use_ends b w m e Hw Hu _ _ E) as (l & w' & -> & Hw' & Hl).
  assert (Ho : ob_window (objects_of e) = w_handle w). { cbn. rewrite Hin, Hb. cbn. by rewrite Hw. }
  split; cbn; try done.
  - intros _. exists b, w'. rewrite lookup_insert_eq, Hw'. done.
  - rewrite (Hl _ Ic); [|cbn; rewrite Hin; by apply bool_decide_eq_true|done].
    unfold objects_of. cbn. rewrite Hin, Hb. cbn. by rewrite Hw, lookup_insert_eq; cbn; rewrite Hw'.
Qed.

Lemma step_inv e e' : engine_inv e → step e e' → engine_inv e'.
Proof. intros I. destruct 1; eauto using initialise_inv, terminate_inv, use_inv. Qed.

Lemma start_inv : engine_inv start.
Proof.
  split; cbn; try done; [split; [by intros []|naive_solver]|].
  unfold objects_of. cbn. by destruct vulkan.
Qed.

Lemma runs_inv e : rtc step start e → engine_inv e.
Proof.
  intros H. pose proof start_inv as H0. remember start as e0 eqn:He0. clear He0.
  induction H as [|e1 e2 e3 Hs _ IH]; eauto using step_inv.
Qed.

(** C24: In a debug build, after any successful sequence of [initialise],
    [terminate] and uses of the window: the engine is initialised exactly when
    the back end's instance exists; then the application window can be
    dereferenced, has a handle unless the application is headless, and GLFW's
    pointer for that handle leads back to it; Vulkan has a surface, and so does
    not count as headless, exactly for an initialised window application; the
    debug messenger lives as long as the engine and belongs to its instance; and
    every call that was made keeps the rules for the life time of the window,
    instance, surface and messenger, with exactly the objects alive that the
    globals name, and so none of them once the engine is terminated. *)
Theorem engine_states e :
  rtc step start e → engine_inv e ∧ (initialised e = false → replay (calls e) = Some nothing).
Proof.
  intros I%runs_inv.
  split; [done|]. intros Hi. rewrite (inv_calls e I). by destruct (objects_of_stopped e I Hi) as [-> _].
Qed.

Lemma window_use_keeps a m e : window_use a m → ends m (λ _ e', wnd e' = wnd e ∧ def_msg e' = def_msg e) e.
Proof.
  destruct 1; repeat ends_step; unfold update, block_until_event_happens, is_close_requested, ensure, get_width, get_height,
    get_size, add_resize_callback; repeat ends_step; try done;
    try (apply handle_at_ends; intros; repeat ends_step; done);
    (eapply ends_weaken; [apply dispatch_ends|]; intros r e1 ->; repeat ends_step); [|done].
  destruct vulkan; repeat ends_step; [done|]. apply handle_at_ends. intros. by repeat ends_step.
Qed.

Lemma started_inv g app e0 e1 e : initialise vulkan g app e0 = Ok (tt, e1) → rtc step e1 e →
  is_Some (wnd e) ∧ (vulkan = true → def_msg e ≠ NoMessenger).
Proof.
  assert (Hinit : ∀ g app e e', initialise vulkan g app e = Ok (tt, e') →
            is_Some (wnd e') ∧ (vulkan = true → def_msg e' ≠ NoMessenger)).
  { clear g app e0 e1 e. intros g app e e' (l & a & h & up & i & s & m & -> & _ & _ & _ & _ & _ & _ & Hm & _)%initialise_ends.
    split; [by eauto|]. intros Hv. rewrite Hv in Hm. by destruct Hm as (_ & dm & -> & _). }
  intros E H. apply Hinit in E. induction H as [|e1 e2 e3 Hs _ IH]; [done|]. apply IH. destruct E as [Hw Hm].
  destruct Hs as [g' app' e e' E|e e' E|a m e e' _ _ Hu _ E]; [by eapply Hinit| |].
  - apply terminate_ends in E as (l & ws & up & _ & -> & _). cbn. split; [done|]. intros Hv. by rewrite Hv.
  - destruct (window_use_keeps a m e Hu _ _ E) as [-> ->]. done.
Qed.

(** C36: The engine starts once.  In a debug build, after an [initialise] that
    succeeded no later [initialise] does, whatever happened in between: the
    window pointer and the messenger pointer are not reset by [terminate].  And
    after the [terminate] of a window application [window] passes its assertion
    and returns the window that was deleted. *)
Theorem engine_starts_once g app e0 e1 e :
  initialise vulkan g app e0 = Ok (tt, e1) → rtc step e1 e →
  (∀ g' app', is_Ok (initialise vulkan g' app' e) = false) ∧
  (∀ e', tz_app_type e = WindowApplication → terminate vulkan e = Ok (tt, e') →
     ∃ a, window e' = Ok (a, e') ∧ windows e' !! a = None).
Proof.
  intros E H. destruct (started_inv g app e0 e1 e E H) as [[a Hw] Hm]. split.
  - intros g' app'. destruct (initialise vulkan g' app' e) as [[[] e']|] eqn:E'; [exfalso|done].
    apply initialise_ends in E' as (l & b & h & up & i & s & m & _ & _ & _ & _ & Hn & Hv & _ & Hm' & _).
    destruct (decide (app' = Headless)) as [Ha|Ha]; [|specialize (Hn Ha); congruence].
    specialize (Hv Ha). rewrite Hv in Hm'. by apply (Hm Hv), Hm'.
  - intros e' Ht (l & ws & up & _ & -> & Hd & _)%terminate_ends.
    destruct (Hd Ht) as (b & Hb & ->). exists b. split; [|apply lookup_delete_eq].
    unfold window, mbind, ST_bind, gets, lift. cbn. rewrite Hb. by rewrite bool_decide_true, tz_assert_true by eauto.
Qed.

Lemma dispatch_runs events e a w h :
  (∀ ev, ev ∈ events → fst ev = h) → user_pointers e !! h = Some a → windows e !! a = Some w →
  dispatch events e =
    Ok (concat (map (λ ev, map (λ callback, (callback, snd ev)) (window_resize_callbacks w)) events), e).
Proof.
  intros Hev Hp Hw. induction events as [|[h' [width height]] events IH]; [done|].
  assert (h' = h) as -> by (apply (Hev (h', (width, height))); left).
  cbn. unfold window_resize_callback, window_at, mbind, ST_bind, gets, lift. rewrite Hp. cbn. rewrite Hw. cbn.
  unfold mbind, ST_bind, gets, lift in IH. rewrite IH by (intros; apply Hev; by right). done.
Qed.

(** C40: in a debug build (where a second [initialise] traps), updating the
    window of a running application never stops: it polls for events, and for an
    OpenGL context swaps the buffers of the window.  Of every resize that GLFW reports all callbacks of the window run, in the order they
    were added, with the new size, resize by resize; nothing else changes. *)
Theorem update_runs_resize_callbacks e a w :
  rtc step start e → initialised e = true → tz_app_type e ≠ Headless → wnd e = Some a → windows e !! a = Some w →
  ∃ swaps, update vulkan a e = Ok
    (concat (map (λ ev, map (λ callback, (callback, snd ev)) (window_resize_callbacks w))
       (glfwPollEvents_resizes (calls e ++ [GlfwPollEvents]))),
     set_calls (calls e ++ GlfwPollEvents :: swaps) e) ∧
    (if vulkan then swaps = [] else ∃ h, w_handle w = Some h ∧ swaps = [GlfwSwapBuffers h]).
Proof.
  intros I%runs_inv Hin Ht Ha Hw. destruct (inv_window e I Hin) as (b & w' & Hb & Hw' & Hh & Hp). simplify_eq.
  destruct (w_handle w) as [h|] eqn:Ew; [|destruct Hh as [Hh _]; by specialize (Hh eq_refl)].
  assert (Ho : ob_window (objects_of e) = Some h). { cbn. rewrite Hin, Ha. cbn. by rewrite Hw. }
  assert (Hr : replay (calls e ++ [GlfwPollEvents]) = Some (objects_of e)).
  { eapply replay_call; [apply (inv_calls e I)|]. unfold call_rule, rule. cbn. rewrite Hin. cbn.
    unfold is_window_type. by rewrite bool_decide_true. }
  exists (if vulkan then [] else [GlfwSwapBuffers h]). split; [|destruct vulkan; eauto].
  unfold update, window_at, call, mbind, ST_bind, gets, lift, modify. rewrite Hw. cbn.
  rewrite (dispatch_runs _ _ a w h); [|intros [h' sz] Hev%(resizes_live _ _ _ _ Hr); cbn; congruence|by apply Hp|done].
  destruct vulkan; cbn; [done|]. unfold handle_at, window_at, mbind, ST_bind, gets, lift. cbn. rewrite Hw. cbn.
  rewrite Ew. cbn. by rewrite <- app_assoc.
Qed.

End Operations.

(** ** Debug output *)

(** The callbacks of the two APIs trap in a debug build exactly for a message of
    the severity of a warning or more, and for an error or undefined behaviour
    that is not one of the ignored messages; otherwise they return. *)
Lemma debug_callbacks_trap `{BC : BuildConfig} source type id severity message :
  (default_debug_callback severity = Ok false ↔ ¬ (TZ_DEBUG = true ∧ (SEVERITY_WARNING ≤ severity)%Z)) ∧
  ((opengl_debug_callback source type id severity message).2 = Ok tt ↔
     ¬ (TZ_DEBUG = true ∧ (id ∉ ignored_ids) ∧ (type = GL_DEBUG_TYPE_ERROR ∨ type = GL_DEBUG_TYPE_UNDEFINED_BEHAVIOR))).
Proof.
  unfold default_debug_callback, opengl_debug_callback, tz_error. split.
  - destruct (Z.leb_spec SEVERITY_WARNING severity), TZ_DEBUG; cbn; (split; [|done || naive_solver lia]); try done; intros _ []; (done || lia).
  - destruct (existsb (Z.eqb id) ignored_ids) eqn:E.
    + apply existsb_exists in E as (x & Hx & ->%Z.eqb_eq). cbn. split; [|done]. intros _ (_ & Hn & _).
      by apply Hn, list_elem_of_In.
    + assert (id ∉ ignored_ids) as Hn.
      { intros Hx%list_elem_of_In. apply Bool.not_true_iff_false in E. apply E, existsb_exists. exists id.
        by rewrite Z.eqb_refl. }
      cbn. destruct (Z.eqb_spec type GL_DEBUG_TYPE_ERROR), (Z.eqb_spec type GL_DEBUG_TYPE_UNDEFINED_BEHAVIOR), TZ_DEBUG;
        cbn; naive_solver.
Qed.

(** ** Concrete runs *)

Definition sample_game : GameInfo :=
  mkGameInfo (str "demo") (mkVersion 1 0 0) (mkEngineInfo Vulkan Debug (mkVersion 3 0 0)).

#[local] Instance engine_config : BuildConfig := debug_build.

(** Whether a window was created and not destroyed yet. *)
Definition window_open (l : list host_call) : bool :=
  foldl (λ b c, match c with GlfwCreateWindow _ _ _ => true | GlfwDestroyWindow _ | GlfwTerminate => false | _ => b end)
    false l.

(** A host on which everything works; polling reports one resize of an open
    window. *)
#[local] Instance sample_host : Host := {|
  glfwCreateWindow_result _ := Some 1%Z;
  glfwPollEvents_resizes l := if window_open l then [(1, (1024, 768))]%Z else [];
  glfwGetFramebufferSize_result _ := (800, 600)%Z;
  glfwWindowShouldClose_result _ := false;
  glfwGetRequiredInstanceExtensions_result _ := [str "VK_KHR_surface"; str "VK_KHR_xcb_surface"];
  layer_count_result _ := (true, 1);
  layer_names_result _ := (true, [str "VK_LAYER_KHRONOS_validation"]);
  vkCreateInstance_result _ := Some 2%Z;
  glfwCreateWindowSurface_result _ := Some 3%Z;
  vkGetInstanceProcAddr_result _ := true;
  vkCreateDebugUtilsMessenger_result _ := Some 4%Z;
  gladLoad_result _ := true |}.

Lemma window_open_replay l o : replay l = Some o → ob_window o = if window_open l then Some 1%Z else None.
Proof.
  revert o. induction l as [|c l IH] using rev_ind; intros o; [by intros [= <-]|].
  rewrite replay_snoc. unfold window_open. rewrite foldl_snoc. fold (window_open l).
  destruct (replay l) as [o1|]; [|done]. specialize (IH o1 eq_refl). cbn. unfold call_rule, rule.
  destruct c; repeat case_match; intros [= <-]; done.
Qed.

#[local] Instance sample_host_spec : HostSpec.
Proof.
  split; try done. intros l o h s Hr%window_open_replay. cbn. rewrite Hr.
  destruct (window_open l); [|set_solver]. intros [= -> ->]%list_elem_of_singleton. done.
Qed.

Definition state_of {A} (r : res (A * globals)) : globals := match r with Ok (_, e) => e | Fault _ => start end.

Definition started : globals := state_of (initialise true sample_game WindowApplication start).
Definition listening : globals := state_of (add_resize_callback 0 7 started).
Definition stopped : globals := state_of (terminate true listening).

Lemma listening_runs : rtc (step true) start listening.
Proof.
  eapply rtc_l; [apply (step_initialise true sample_game WindowApplication); by vm_compute|].
  eapply rtc_l; [|apply rtc_refl].
  apply (step_use true 0 (add_resize_callback 0 7) started); [by vm_compute|by vm_compute|constructor|by vm_compute..].
Qed.

Lemma engine_states_witness :
  engine_inv true listening ∧ initialised listening = true ∧ is_headless listening = false ∧
  replay (calls stopped) = Some nothing.
Proof.
  split; [apply (engine_states (BC := engine_config) true eq_refl), listening_runs|]. split; [by vm_compute|]. split; [by vm_compute|].
  apply (engine_states (BC := engine_config) true eq_refl stopped); [|by vm_compute].
  eapply rtc_r; [apply listening_runs|apply step_terminate; by vm_compute].
Defined.

Lemma engine_starts_once_witness :
  is_Ok (initialise true sample_game Headless stopped) = false ∧
  ∃ a, window stopped = Ok (a, stopped) ∧ windows stopped !! a = None.
Proof.
  split.
  - apply (engine_starts_once (BC := engine_config) true eq_refl sample_game WindowApplication start started stopped); [by vm_compute|].
    apply (rtc_l _ _ listening); [|apply rtc_once, step_terminate; by vm_compute].
    apply (step_use true 0 (add_resize_callback 0 7) started); [by vm_compute|by vm_compute|constructor|by vm_compute..].
  - apply (engine_starts_once (BC := engine_config) true eq_refl sample_game WindowApplication start started listening);
      [by vm_compute| |by vm_compute|by vm_compute].
    apply rtc_once, (step_use true 0 (add_resize_callback 0 7) started); [by vm_compute|by vm_compute|constructor|by vm_compute..].
Defined.

Lemma update_runs_resize_callbacks_witness :
  ∃ e', update true 0 listening = Ok ([(7, (1024, 768)%Z)], e') ∧ e' = set_calls (calls listening ++ [GlfwPollEvents]) listening.
Proof.
  destruct (update_runs_resize_callbacks (BC := engine_config) true eq_refl listening 0 (mkWindow (Some 1%Z) [7]) listening_runs
    ltac:(by vm_compute) ltac:(by vm_compute) ltac:(by vm_compute) ltac:(by vm_compute)) as (swaps & E & Hs).
  rewrite Hs in E. eexists. split; [exact E|reflexivity].
Defined.

(** The window of a moved-from [Window] keeps the pointer GLFW has: resizing it
    reaches the object it was moved from, with that object's callbacks. *)
Example moved_window_callback e (a b callback : nat) h width height :
  a ≠ b → windows e !! a = Some (mkWindow (Some h) [callback]) → user_pointers e !! h = Some a →
  ∃ e', Window_move_construct b a e = Ok (tt, e') ∧ windows e' !! b = Some (mkWindow (Some h) []) ∧
    window_resize_callback h width height e' = Ok ([(callback, (width, height))], e').
Proof.
  intros Hab Ha Hu. unfold Window_move_construct, window_resize_callback, window_at, mbind, ST_bind, gets, lift, modify.
  rewrite Ha. cbn. eexists. split; [done|]. cbn. rewrite lookup_insert_eq. split; [done|].
  rewrite Hu. cbn. by rewrite lookup_insert_ne, lookup_insert_eq by done.
Qed.
