(* ===== verification/CoreTests.v ===== *)
(** * The test programs of the core

    test/core/matrix_test.cpp, test/core/vector_test.cpp, the run-time parts of
    test/core/types_test.cpp, test/core/initialise_test.cpp and
    test/gl/mesh_test.cpp: the programs the build registers with CTest, on the
    definitions of VectorMath, MatrixMath, Inputs and Engine, with float as
    binary32.  A default-constructed matrix or vector holds whatever its storage
    held, which is an argument here.  The tests that need a device and the
    compile-time checks of concepts are left out. *)

From Stdlib Require Import SpecFloat.
From S2P Require Import Prelude Containers Version VectorMath MatrixMath Binary32 Memory RenderTypes Inputs Engine EngineRuns.

(** Integers of the element types of [numeric], wrapping at [w] bits. *)
Definition unsigned_number (w : Z) : VectorMath.Number Z :=
  let wrap z := (z mod 2 ^ w)%Z in {|
  nzero := 0%Z; none := 1%Z; nadd x y := wrap (x + y)%Z; nsub x y := wrap (x - y)%Z; nmul x y := wrap (x * y)%Z;
  ndiv x y := (x / y)%Z; nopp x := wrap (- x)%Z; neqb := Z.eqb; ngeb := Z.geb |}.

(** [int]; the programs stay in its range. *)
Definition int_number : VectorMath.Number Z := {|
  nzero := 0%Z; none := 1%Z; nadd := Z.add; nsub := Z.sub; nmul := Z.mul; ndiv := Z.quot; nopp := Z.opp;
  neqb := Z.eqb; ngeb := Z.geb |}.

(** [double]. *)
Definition double_number : VectorMath.Number spec_float := {|
  nzero := S754_zero false; none := S754_finite false 4503599627370496 (-52);
  nadd := SFadd 53 1024; nsub := SFsub 53 1024; nmul := SFmul 53 1024; ndiv := SFdiv 53 1024;
  nopp := SFopp; neqb := SFeqb; ngeb := λ x y, SFleb y x |}.

Section Programs.
Context `{BC : BuildConfig}.

Local Abbreviation Mat4 := (list (list float)).
Local Abbreviation Vec := (list float).

(** The loops that read or write every element of a [Mat4]. *)
Definition each_element (check : nat → nat → res unit) : res unit :=
  for_range 4 (λ i _, for_range 4 (λ j _, check i j) tt) tt.

Definition fill (f : nat → nat → float) (m : Mat4) : res Mat4 :=
  for_range 4 (λ i, for_range 4 (λ j m, Matrix.put 4 m i j (f i j))) m.

Definition assert_element (m : Mat4) (i j : nat) (expected : float) : res unit :=
  x ← Matrix.at_ 4 m i j; tz_assert (neqb x expected).

(** ** matrix_test *)

Definition matrix_identity : res unit :=
  m ← Matrix.identity 4 4;
  each_element (λ i j, if i =? j then assert_element m i j 1%num else assert_element m i j 0%num).

Definition matrix_addition (m n : Mat4) : res unit :=
  m ← fill (λ i j, float_of_Z (Z.of_nat (i * 4 + j))) m;
  n ← fill (λ i j, (- float_of_Z (Z.of_nat (i * 4 + j)))%num) n;
  o ← Matrix.add 4 4 m n;
  each_element (λ i j, assert_element o i j 0%num).

Definition matrix_inversion (fours : Mat4) : res unit :=
  id ← Matrix.identity 4 4;
  inv ← Matrix.inverse 4 4 id;
  same ← Matrix.eqb 4 4 id inv;
  _ ← tz_assert same;
  fours ← fill (λ _ _, float_of_Z (-4)) fours;
  fours ← Matrix.put 4 fours 0 3 (float_of_Z 4);
  fours ← Matrix.put 4 fours 1 2 (float_of_Z 4);
  fours ← Matrix.put 4 fours 2 1 (float_of_Z 4);
  fours ← Matrix.put 4 fours 3 0 (float_of_Z 4);
  let sixteenth := (1 / float_of_Z 16)%num in
  sixteenths ← Matrix.inverse 4 4 fours;
  each_element (λ i j,
    if ((i =? 0) && (j =? 3)) || ((i =? 1) && (j =? 2)) || ((i =? 2) && (j =? 1)) || ((i =? 3) && (j =? 0))
    then assert_element sixteenths i j sixteenth
    else assert_element sixteenths i j (- sixteenth)%num).

Definition matrix_column_major : res unit :=
  let order := map (map float_of_Z) [[0; 1; 2; 3]; [4; 5; 6; 7]; [8; 9; 10; 11]; [12; 13; 14; 15]]%Z in
  _ ← assert_element order 0 1 (float_of_Z 4);
  _ ← assert_element order 0 2 (float_of_Z 8);
  assert_element order 3 1 (float_of_Z 7).

Definition matrix_test (m n fours : Mat4) : res unit :=
  _ ← matrix_identity; _ ← matrix_addition m n; _ ← matrix_inversion fours; matrix_column_major.

(** ** vector_test *)

Definition vec (l : list Z) : Vec := map float_of_Z l.

Definition assert_component (S : nat) (v : Vec) (i : nat) (expected : float) : res unit :=
  x ← Vector.get S v i; tz_assert (neqb x expected).

Definition vector_addition_subtraction : res unit :=
  let a := vec [1; 2; 3; 4]%Z in
  let b := vec [8; 7; 6; 5]%Z in
  d ← Vector.add 4 a b;
  _ ← assert_component 4 d 0 (float_of_Z 9);
  _ ← assert_component 4 d 1 (float_of_Z 9);
  _ ← assert_component 4 d 2 (float_of_Z 9);
  _ ← assert_component 4 d 3 (float_of_Z 9);
  d ← Vector.sub 4 b a;
  let e := vec [7; 5; 3; 1]%Z in
  for_range 4 (λ i _, y ← Vector.get 4 e i; assert_component 4 d i y) tt.

Definition vector_dot : res unit :=
  let a := vec [18; 39; 31; 1]%Z in
  let b := vec [101; 58; 75; 1]%Z in
  let c := vec [9; 2; 7; 1]%Z in
  let d := vec [4; 8; 10; 1]%Z in
  l ← Vector.length 4 a;
  _ ← tz_assert (neqb l (literal 52981128 1000000));
  ab ← Vector.dot 4 a b;
  _ ← tz_assert (neqb ab (float_of_Z 6406));
  cd ← Vector.dot 4 c d;
  tz_assert (neqb cd (float_of_Z 123)).

(** [ret] is the result variable of [cross], which starts indeterminate. *)
Definition vector_cross (ret : Vec) : res unit :=
  c ← Vector.cross ret (vec [2; 3; 4]%Z) (vec [5; 6; 7]%Z);
  _ ← assert_component 3 c 0 (float_of_Z (-3));
  _ ← assert_component 3 c 1 (float_of_Z 6);
  assert_component 3 c 2 (float_of_Z (-3)).

Definition vector_test (ret : Vec) : res unit :=
  _ ← vector_addition_subtraction; _ ← vector_dot; vector_cross ret.

(** ** types_test *)

(** The lambda of [numeric], for an element type; [two] is 2 converted to it. *)
Definition numeric_case {T} (N : VectorMath.Number T) (two t : T) : res unit :=
  let initial := t in
  let t := nmul t two in
  let t := nsub t initial in
  tz_assert (neqb initial t).

(** The double nearest to 1.11. *)
Definition double_literal : spec_float := SFdiv 53 1024 (S754_finite false 111 0) (S754_finite false 100 0).

Definition numeric : res unit :=
  _ ← numeric_case int_number 2%Z 5%Z;
  _ ← numeric_case (unsigned_number 32) 2%Z 16%Z;
  _ ← numeric_case (unsigned_number 64) 2%Z 2893645847%Z;
  _ ← numeric_case float_number (float_of_Z 2) (literal 1 2);
  _ ← numeric_case double_number (binary_normalize 53 1024 2 0 false) double_literal;
  numeric_case int_number 2%Z (-12345)%Z.

(** [dubs] and [muls] capture [x] by reference. *)
Definition functional_action : res unit :=
  let x := 1%Z in
  let dubs x := (x * 2)%Z in
  let x := dubs x in
  _ ← tz_assert (x =? 2)%Z;
  let muls mul x := (x * mul)%Z in
  let x := muls 5%Z x in
  _ ← tz_assert (x =? 10)%Z;
  let give_double x := (x * 2)%Z in
  let res := give_double 10%Z in
  tz_assert (res =? 20)%Z.

(** ** mesh_test, initialise_test *)

(** The bits of a literal, and a vertex whose last three members are [{}]. *)
Definition bits (n : Z) (d : positive) : Z := to_bits (literal n d).

Definition test_mesh (rest : Z * Z * Z) : Mesh :=
  mkMesh
    [mkVertex (bits (-1) 2, bits (-1) 2, bits 0 1) (bits 1 1, bits 0 1) rest rest rest;
     mkVertex (bits 1 2, bits (-1) 2, bits 0 1) (bits 0 1, bits 0 1) rest rest rest;
     mkVertex (bits 1 2, bits 1 2, bits 0 1) (bits 0 1, bits 1 1) rest rest rest]
    [0; 1; 2]%Z.

(** The element type of the first span has one byte, of the second one
    [sizeof(unsigned int)]. *)
Definition mesh_test_body (mesh : Mesh) : res unit :=
  let mesh_input := mkMeshInput mesh [] in
  let expected_vertices_size := BasicList.length (vertices mesh) * sizeof_Vertex in
  let a := span_size (MeshInput_vertex_bytes mesh_input) in
  let b := span_size (MeshInput_vertex_bytes mesh_input) * 1 in
  _ ← tz_assert ((a =? b) && (b =? expected_vertices_size));
  let expected_indices_size := BasicList.length (indices mesh) in
  let expected_indices_bytes := BasicList.length (indices mesh) * 4 in
  tz_assert ((ispan_size (MeshInput_indices mesh_input) =? expected_indices_size) &&
             (ispan_size (MeshInput_indices mesh_input) * 4 =? expected_indices_bytes)).

Section Applications.
Context `{HO : Host}.
Variable vulkan : bool.
(** [tz::info()] of the build. *)
Variable info : EngineInfo.

Definition initialise_test : ST globals unit :=
  _ ← initialise vulkan (mkGameInfo (str "tz_initialise_test") (mkVersion 1 0 0) info) Headless;
  terminate vulkan.

Definition mesh_test (rest : Z * Z * Z) : ST globals unit :=
  _ ← initialise vulkan (mkGameInfo (str "tz_mesh_test") (mkVersion 1 0 0) info) Headless;
  _ ← lift (mesh_test_body (test_mesh rest));
  terminate vulkan.

End Applications.
End Programs.

(** ** The tests pass *)

Section Passing.
Context `{BC : BuildConfig}.

(** A list of known length by its elements. *)
Lemma list_of_length {A} n (l : list A) : length l = S n → ∃ x l', l = x :: l' ∧ length l' = n.
Proof. destruct l as [|x l]; [done|]. intros [= <-]. by exists x, l. Qed.

Lemma mat4_elements (m : list (list float)) : Matrix.wf 4 4 m → ∃ a b c d e f g h i j k l n o p q,
  m = [[a; b; c; d]; [e; f; g; h]; [i; j; k; l]; [n; o; p; q]].
Proof.
  intros [Hl Hf].
  destruct m as [|c0 [|c1 [|c2 [|c3 [|? ?]]]]]; try discriminate Hl.
  repeat match goal with H : Forall _ (_ :: _) |- _ => apply Forall_cons in H as [? H] end.
  repeat match goal with H : length ?c = 4 |- _ =>
    is_var c; destruct c as [|? [|? [|? [|? [|? ?]]]]]; try discriminate H; clear H end.
  by repeat eexists.
Qed.

(** matrix_test passes whatever the matrices it does not initialise hold, in
    every build: binary32 rounds nothing in it, the inverse of a matrix of fours
    included. *)
Theorem matrix_test_passes m n fours :
  Matrix.wf 4 4 m → Matrix.wf 4 4 n → Matrix.wf 4 4 fours → matrix_test m n fours = Ok tt.
Proof.
  intros Hm Hn Hf. destruct (mat4_elements m Hm) as (? & ? & ? & ? & ? & ? & ? & ? & ? & ? & ? & ? & ? & ? & ? & ? & ->).
  destruct (mat4_elements n Hn) as (? & ? & ? & ? & ? & ? & ? & ? & ? & ? & ? & ? & ? & ? & ? & ? & ->).
  destruct (mat4_elements fours Hf) as (? & ? & ? & ? & ? & ? & ? & ? & ? & ? & ? & ? & ? & ? & ? & ? & ->).
  destruct BC as [[|]]; vm_compute; reflexivity.
Qed.

(** So does vector_test; its length of (18, 39, 31, 1) is the number nearest to
    the literal, which is not exact. *)
Lemma vector_test_passes ret : length ret = 3 → vector_test ret = Ok tt.
Proof.
  intros Hr. destruct ret as [|? [|? [|? [|? ?]]]]; try discriminate Hr. destruct BC as [[|]]; vm_compute; reflexivity.
Qed.

(** [numeric] holds of every value of an unsigned type, where it may wrap, and of
    every value of [int]. *)
Lemma numeric_unsigned w t : (0 < w)%Z → (0 ≤ t < 2 ^ w)%Z →
  numeric_case (unsigned_number w) ((2 mod 2 ^ w)%Z) t = Ok tt.
Proof.
  intros Hw Ht. unfold numeric_case. cbn [nmul nsub neqb unsigned_number].
  assert (((t * (2 mod 2 ^ w)) mod 2 ^ w - t) mod 2 ^ w = t)%Z as ->.
  { rewrite Zminus_mod_idemp_l, Zminus_mod, Zmult_mod_idemp_r, <- Zminus_mod.
    replace (t * 2 - t)%Z with t by lia. by apply Z.mod_small. }
  rewrite Z.eqb_refl. apply tz_assert_true.
Qed.

Lemma types_test_passes : numeric = Ok tt ∧ functional_action = Ok tt.
Proof. destruct BC as [[|]]; split; vm_compute; reflexivity. Qed.

(** mesh_test checks what holds of every mesh. *)
Lemma mesh_test_body_passes mesh : mesh_test_body mesh = Ok tt.
Proof.
  unfold mesh_test_body. cbn [MeshInput_vertex_bytes MeshInput_indices mi_mesh span_size ispan_size].
  rewrite length_mesh_bytes, Nat.mul_1_r. unfold BasicList.length. rewrite !Nat.eqb_refl. cbn [andb].
  by rewrite tz_assert_true.
Qed.

Section Runs.
Context `{HO : Host} `{HS : !HostSpec}.
Variable info : EngineInfo.

(** A headless application that does nothing with the engine in between: from the
    start, in a Vulkan build with assertions, nothing is left alive at its end. *)
Lemma headless_application_ends g (body : ST globals unit) : TZ_DEBUG = true → (∀ e, ends body (λ _ e', e' = e) e) →
  ends (_ ← initialise true g Headless; (_ ← body; terminate true))
    (λ _ e, initialised e = false ∧ replay (calls e) = Some nothing) start.
Proof.
  intros Hd Hb. apply ends_bind. intros [] e1 E1. apply ends_bind. intros [] e1' ->%Hb [] e2 E2.
  assert (engine_inv true e1) as I by (eapply (initialise_inv true Hd); [apply start_inv|done]).
  apply (terminate_ends true Hd) in E2 as (l & ws & up & _ & -> & _ & Hl). split; [done|]. by apply Hl.
Qed.

Lemma initialise_test_ends : TZ_DEBUG = true →
  ends (initialise_test true info) (λ _ e, initialised e = false ∧ replay (calls e) = Some nothing) start.
Proof.
  intros Hd a e E. eapply (headless_application_ends _ (mret tt)); [done|intros ?; by apply ends_ret|exact E].
Qed.

Lemma mesh_test_ends rest : TZ_DEBUG = true →
  ends (mesh_test true info rest) (λ _ e, initialised e = false ∧ replay (calls e) = Some nothing) start.
Proof.
  intros Hd. apply (headless_application_ends _ (lift (mesh_test_body (test_mesh rest)))); [done|].
  intros e. rewrite mesh_test_body_passes. by apply ends_ret.
Qed.

(** In an OpenGL build both exit, with success, before they check anything. *)
Lemma headless_tests_exit rest :
  initialise_test false info start = Fault Exited ∧ mesh_test false info rest start = Fault Exited.
Proof. done. Qed.

End Runs.
End Passing.

(** On a host on which everything works both come to their end. *)
Example headless_tests_run : let info := mkEngineInfo Vulkan Debug (mkVersion 3 0 0) in
  is_Ok (initialise_test (BC := debug_build) (HO := sample_host) true info start) = true ∧
  is_Ok (mesh_test (BC := debug_build) (HO := sample_host) true info (0, 0, 0)%Z start) = true.
Proof. split; vm_compute; reflexivity. Qed.

Example matrix_test_runs :
  matrix_test (BC := debug_build) (Matrix.zeros 4 4) (Matrix.zeros 4 4) (Matrix.zeros 4 4) = Ok tt.
Proof. apply (matrix_test_passes (BC := debug_build)); (split; [reflexivity|repeat constructor]). Qed.
