(* ===== verification/DeviceTests.v ===== *)
(** * The test of a headless renderer

    The part of test/gl/headless_triangle_test.cpp that uses the renderer: the
    builder of one triangle, the constructor, the clear colour and 64 frames.  The
    device and its shader are arguments, as they are of the renderer's
    constructor. *)

From S2P Require Import Prelude Containers Memory RenderTypes Inputs OpenGL OGLRenderer OGLRendererFacts OGLConstruct Binary32 CoreTests VkFrame VkCommand VkRenderer VkDriver VkProcessor Backends VkRendererFacts VkMemory VkRuns VkConstruct VkDrawing VkSession VkHeadless.

Section Program.
Context `{BC : BuildConfig} `{VM : Vma} `{V : Vk} `{VO : !VkObjects} `{TG : Target}.

Definition triangle_builder (rest : Z * Z * Z) (shader : Z) : RendererBuilderVulkan input resource :=
  let renderer_builder := VkRenderer.builder_new in
  let mesh_input := mkMeshInput (test_mesh rest) [] in
  let renderer_builder := (VkRenderer.add_input renderer_builder (Static mesh_input)).1 in
  let renderer_builder := VkRenderer.set_output renderer_builder Window in
  let renderer_builder := VkRenderer.set_pass renderer_builder Colour in
  VkRenderer.set_shader renderer_builder shader.

Definition test_colour : list Z := [bits 1 10; bits 2 10; bits 4 10; bits 1 1].

(** [rp], [playout] and [regenerate] are the device's part in [create_renderer];
    [idle] is the wait inside [set_clear_colour]. *)
Definition headless_triangle_test (rest : Z * Z * Z) (shader rp playout : Z) (regenerate : ST vk_state unit)
    (idle : vk_state → vk_state) : ST vkworld (RendererVulkan input resource) :=
  renderer ← RendererVulkan_new rp playout regenerate (triangle_builder rest shader);
  renderer ← VkProcessor.set_clear_colour idle test_colour renderer;
  st_fold (λ _ renderer, VkProcessor.render renderer) (seq 0 64) renderer.

End Program.

Section Test.
Context `{BC : BuildConfig} `{VM : Vma} {VMS : VmaSpec} {VMU : VmaSucceeds} `{V : Vk} {VS : VkSpec} `{VO : !VkObjects} {VOS : VkObjectsSpec}.
Context {DS : DriverSucceeds} `{TG : Target}.

(** A mesh as a static input. *)
Lemma static_mesh_ok m : Forall (λ z, 0 ≤ z < Z.of_nat (length (vertices m)))%Z (indices m) →
  input_data_ok sizeof_Vertex (Static (mkMeshInput m []) : input).
Proof.
  intros Hi. assert (vertex_number (Static (mkMeshInput m []) : input) = length (vertices m)) as Hn.
  { unfold vertex_number, vertex_count_bytes. cbn [get_vertex_bytes get_format input_interface].
    unfold MeshInput_vertex_bytes, MeshInput_format. cbn [span_size mi_mesh mi_ignores mesh_format binding_size].
    rewrite length_mesh_bytes. by apply Nat.div_mul. }
  split; [by eexists _, _|]. split; [done|]. rewrite Hn. split; [|done].
  unfold owned_bytes. cbn [get_vertex_bytes input_interface MeshInput_vertex_bytes mi_mesh].
  rewrite length_mesh_bytes. lia.
Qed.

Lemma length_static_mesh m : length (owned_bytes (Static (mkMeshInput m []) : input)) = length (vertices m) * sizeof_Vertex.
Proof. apply length_mesh_bytes. Qed.

Lemma triangle_builder_ok rest shader : vk_builder_ok sizeof_Vertex (triangle_builder rest shader).
Proof.
  split.
  - by eexists.
  - done.
  - done.
  - constructor; [|done]. apply static_mesh_ok. repeat constructor; lia.
  - constructor; [|done]. split; [|done]. intros E. apply (f_equal length) in E. by rewrite length_static_mesh in E.
  - intros k l i j [Hi Hdi] [Hj Hdj]. destruct k as [|k]; [|done]. destruct l as [|l]; [|done]. done.
  - repeat constructor; done.
  - repeat constructor; done.
  - cbn. rewrite Nat.mul_0_r. done.
  - intros []; [|done]. change (all_data StaticFixed owned_bytes (b_inputs (triangle_builder rest shader)))
      with (owned_bytes (Static (mkMeshInput (test_mesh rest) []) : input) ++ []).
    rewrite app_nil_r, length_static_mesh. done.
  - intros []; by vm_compute.
Qed.

(** Frames one after another, as operations. *)
Lemma render_loop {I R} `{!IRendererInput I} `{!IResource R} idle n k (r : RendererVulkan I R) w :
  st_fold (λ _ renderer, VkProcessor.render renderer) (seq k n) r w = st_fold (do_op idle) (replicate n Render) r w.
Proof.
  revert k r w. induction n as [|n IH]; intros k r w; [done|]. cbn [seq replicate st_fold do_op].
  unfold mbind, ST_bind. destruct (VkProcessor.render r w) as [[r' w']|]; [apply IH|done].
Qed.

Lemma frames_expect s n : foldl expect s (replicate n Render) = s.
Proof. by induction n. Qed.

(** On a headless device that is idle, the test comes to its end, whatever the
    members of the vertices it leaves out hold: none of its 64 frames stops, and
    its view then clears to the colour and, executed, fetches the triangle. *)
Theorem headless_triangle_test_passes rest shader rp playout regenerate idle d w :
  headless = true → represents d w → waits_idle idle → (∀ s e, regenerate s = Fault e → acquire_fault e) →
  ∃ r w' c fb commands_left, headless_triangle_test rest shader rp playout regenerate idle w = Ok (r, w') ∧
    natives r !! 0 = Some c ∧ swapchain_framebuffers (image_manager r) !! 0 = Some fb ∧
    commands w' c = CmdBeginRenderPass (render_pass r) fb (target_width, target_height) (clear_vals test_colour) :: commands_left ∧
    fetched sizeof_Vertex w' None None (commands w' c) = Some [map vertex_bytes (vertices (test_mesh rest))].
Proof.
  intros Hh Hw Hidle Hreg.
  pose proof (triangle_builder_ok rest shader) as Hb.
  destruct (headless_session_runs Hh sizeof_Vertex (triangle_builder rest shader) rp playout regenerate idle test_colour
    (replicate 64 Render) d w) as (r & w1 & r1 & w2 & r' & w' & ins & E1 & E2 & E3 & H & Hcol); try done.
  { by apply Forall_replicate. }
  rewrite frames_expect in H, Hcol.
  destruct (session_view _ _ _ _ _ _ 0 Hb H) as (c & fb & cs & Hn & Hfb & Hc & Hf); [rewrite (one_view Hh); lia|].
  rewrite Hcol in Hc. exists r', w', c, fb, cs. split; [|split_and!; try done].
  - unfold headless_triangle_test. rewrite (st_bind_Ok _ _ _ _ _ E1), (st_bind_Ok _ _ _ _ _ E2).
    by rewrite (render_loop idle).
  - rewrite Hf. by destruct rest as [[x y] z].
Qed.

End Test.
