(* ===== verification/VkPipeline.v ===== *)
(** * Graphics pipelines

    The state objects of a pipeline (gl/impl/backend/vk/pipeline/), its layout,
    [LayoutBuilder] and [DescriptorSetLayout]
    (gl/impl/backend/vk/descriptor_set_layout.cpp), [GraphicsPipeline], and
    [RendererPipelineManagerVulkan] (gl/impl/frontend/vk/renderer.cpp) with
    the functions of the builder it uses.

    A create info refers to its arrays and structures by pointer, and the
    driver reads them during the call.  Objects whose address is taken are kept
    in a heap: the arrays of vectors, local variables, and [ViewportState],
    whose create info points to its own members.  What the driver reads is the
    argument of the recorded call; reading an object that is not alive is a
    fault.  The values of [float]s that occur here are integers. *)

From S2P Require Import Prelude Containers Memory RenderTypes Inputs VkHardware VkSwapchain VkCommand VkRenderer VkDriver Device.

(** ** Vertex input *)

Inductive VertexInputRate := VK_VERTEX_INPUT_RATE_VERTEX | VK_VERTEX_INPUT_RATE_INSTANCE.

Record VkVertexInputBindingDescription := mkBindingDescription {
  vb_binding : Z; vb_stride : Z; vb_inputRate : VertexInputRate }.

Record VkVertexInputAttributeDescription := mkAttributeDescription {
  va_binding : Z; va_location : Z; va_format : Z; va_offset : Z }.

(** The constructors of [VertexBindingDescription] and
    [VertexAttributeDescription]: strides, locations and offsets are cut to 32
    bits. *)
Definition VertexBindingDescription_new (binding : Z) (stride : nat) (rate : RendererInputFrequency)
    : VkVertexInputBindingDescription :=
  mkBindingDescription binding (u32 (Z.of_nat stride))
    (match rate with
     | PerVertexBasis => VK_VERTEX_INPUT_RATE_VERTEX
     | PerInstanceBasis => VK_VERTEX_INPUT_RATE_INSTANCE
     end).

Definition VertexAttributeDescription_new (binding : Z) (location : nat) (vertex_format : Z) (offset : nat)
    : VkVertexInputAttributeDescription :=
  mkAttributeDescription binding (u32 (Z.of_nat location)) vertex_format (u32 (Z.of_nat offset)).

(** An address, or null.  The type of a pointer says which part of the object
    at the address it refers to. *)
Definition pointer := option nat.

Record VkPipelineVertexInputStateCreateInfo := mkVertexInputInfo {
  vertexBindingDescriptionCount : nat; pVertexBindingDescriptions : pointer;
  vertexAttributeDescriptionCount : nat; pVertexAttributeDescriptions : pointer }.

(** [VertexInputState]: the create info, and the arrays of its two vectors. *)
Record VertexInputState := mkVertexInputState {
  vi_create : VkPipelineVertexInputStateCreateInfo;
  binding_description_natives : pointer;
  attribute_description_natives : pointer }.

(** ** Input assembly *)

Record VkPipelineInputAssemblyStateCreateInfo := mkInputAssemblyInfo {
  topology : Z; primitiveRestartEnable : bool }.

Definition InputAssembly_new (t : PrimitiveTopology) (breakable_strips : bool)
    : VkPipelineInputAssemblyStateCreateInfo :=
  mkInputAssemblyInfo (topology_value t) breakable_strips.

(** ** Viewport *)

Record VkViewport := mkViewport {
  vp_x : Z; vp_y : Z; vp_width : Z; vp_height : Z; minDepth : Z; maxDepth : Z }.

Record VkPipelineViewportStateCreateInfo := mkViewportInfo {
  viewportCount : nat; pViewports : pointer; scissorCount : nat; pScissors : pointer }.

(** [ViewportState]: [pViewports] and [pScissors] are addresses of objects of
    this class. *)
Record ViewportState := mkViewportState {
  vs_create : VkPipelineViewportStateCreateInfo; vs_viewport : VkViewport; vs_scissor : VkRect2D }.

(** The private constructor, for an object at address [this]. *)
Definition ViewportState_new (width height : Z) (extent : VkExtent2D) (use_opengl_coordinate_system : bool)
    (this : nat) : ViewportState :=
  let viewport := mkViewport 0 0 width height 0 1 in
  let viewport :=
    if use_opengl_coordinate_system then
      mkViewport (vp_x viewport) (vp_y viewport + height) (vp_width viewport) (vp_height viewport * -1)
        (minDepth viewport) (maxDepth viewport)
    else viewport in
  mkViewportState (mkViewportInfo 1 (Some this) 1 (Some this)) viewport (mkRect (0, 0)%Z extent).

(** The constructors from a swapchain, whose sizes are [float]s already, and
    from an image. *)
Definition ViewportState_of_swapchain (s : Swapchain) (gl : bool) : nat → ViewportState :=
  ViewportState_new (Swapchain_get_width s) (Swapchain_get_height s) (sc_extent s) gl.

Definition ViewportState_of_image (i : Image) (gl : bool) : nat → ViewportState :=
  ViewportState_new (float_round (img_width i)) (float_round (img_height i))
    (mkExtent (img_width i) (img_height i)) gl.

(** ** Rasterisation *)

Inductive PolygonMode := Fill | Lines | Points.
Inductive CullingStrategy := CullBack | CullFront | CullBoth | CullNone.
Inductive WindingOrder := Clockwise | Anticlockwise.

Definition polygon_mode_value (m : PolygonMode) : Z := match m with Fill => 0 | Lines => 1 | Points => 2 end.
Definition culling_value (c : CullingStrategy) : Z :=
  match c with CullNone => 0 | CullFront => 1 | CullBack => 2 | CullBoth => 3 end.
Definition winding_value (w : WindingOrder) : Z := match w with Anticlockwise => 0 | Clockwise => 1 end.

Record VkPipelineRasterizationStateCreateInfo := mkRasterisation {
  depthClampEnable : bool; rasterizerDiscardEnable : bool; polygonMode : Z; lineWidth : Z;
  cullMode : Z; frontFace : Z; depthBiasEnable : bool;
  depthBiasConstantFactor : Z; depthBiasClamp : Z; depthBiasSlopeFactor : Z }.

Definition RasteriserState_new (clamp_those_outside_view_frustum discard_everything : bool) (mode : PolygonMode)
    (line_width : Z) (strategy : CullingStrategy) (winding_order : WindingOrder) (depth_bias_enabled : bool)
    : VkPipelineRasterizationStateCreateInfo :=
  mkRasterisation clamp_those_outside_view_frustum discard_everything (polygon_mode_value mode) line_width
    (culling_value strategy) (winding_value winding_order) depth_bias_enabled 0 0 0.

(** ** Multisampling *)

Record VkPipelineMultisampleStateCreateInfo := mkMultisample {
  sampleShadingEnable : bool; rasterizationSamples : Z; minSampleShading : Z; pSampleMask : pointer;
  alphaToCoverageEnable : bool; alphaToOneEnable : bool }.

Definition MultisampleState_new : VkPipelineMultisampleStateCreateInfo :=
  mkMultisample false 1 1 None false false.

(** ** Colour blending *)

Inductive BlendFactor :=
  VK_BLEND_FACTOR_ZERO | VK_BLEND_FACTOR_ONE | VK_BLEND_FACTOR_SRC_ALPHA | VK_BLEND_FACTOR_ONE_MINUS_SRC_ALPHA.

Inductive BlendOp := VK_BLEND_OP_ADD.

Record ColourBlendAttachmentState := mkBlendAttachment {
  blendEnable : bool;
  srcColorBlendFactor : BlendFactor; dstColorBlendFactor : BlendFactor; colorBlendOp : BlendOp;
  srcAlphaBlendFactor : BlendFactor; dstAlphaBlendFactor : BlendFactor; alphaBlendOp : BlendOp;
  colorWriteMask : Z }.

Inductive ColourBlendingStrategy := NoBlending | AlphaBlending.

Record VkPipelineColorBlendStateCreateInfo := mkColourBlendInfo {
  logicOpEnable : bool; logicOp : Z; attachmentCount : nat; pAttachments : pointer; blendConstants : list Z }.

Record ColourBlendState := mkColourBlendState {
  cb_attachments : pointer; cb_create : VkPipelineColorBlendStateCreateInfo }.

(** The loop body: write mask R, G, B and A (1, 2, 4, 8), and the factors of
    the strategy. *)
Definition blend_attachment (colour_blending : ColourBlendingStrategy) : ColourBlendAttachmentState :=
  let mask := Z.lor (Z.lor (Z.lor 1 2) 4) 8 in
  match colour_blending with
  | NoBlending =>
      mkBlendAttachment false VK_BLEND_FACTOR_ONE VK_BLEND_FACTOR_ZERO VK_BLEND_OP_ADD
        VK_BLEND_FACTOR_ONE VK_BLEND_FACTOR_ZERO VK_BLEND_OP_ADD mask
  | AlphaBlending =>
      mkBlendAttachment true VK_BLEND_FACTOR_SRC_ALPHA VK_BLEND_FACTOR_ONE_MINUS_SRC_ALPHA VK_BLEND_OP_ADD
        VK_BLEND_FACTOR_ONE VK_BLEND_FACTOR_ZERO VK_BLEND_OP_ADD mask
  end.

(** ** Dynamic states

    An [EnumField] is the list of its elements. *)

Inductive DynamicStateType := ViewportDimensions | ScissorDimensions | LineWidth.

#[export] Instance DynamicStateType_eq_dec : EqDecision DynamicStateType.
Proof. solve_decision. Defined.

Definition dynamic_state_value (t : DynamicStateType) : Z :=
  match t with ViewportDimensions => 0 | ScissorDimensions => 1 | LineWidth => 2 end.

Record VkPipelineDynamicStateCreateInfo := mkDynamicInfo { dynamicStateCount : nat; pDynamicStates : pointer }.

Record DynamicState := mkDynamicState {
  states_enabled : list DynamicStateType; state_natives : pointer;
  ds_create : VkPipelineDynamicStateCreateInfo }.

(** ** Shader stages *)

Inductive ShaderType := VertexType | FragmentType.

#[export] Instance ShaderType_eq_dec : EqDecision ShaderType.
Proof. solve_decision. Defined.

(** [ShaderTypeField::All]. *)
Definition ShaderTypeField_All : list ShaderType :=
  let field := [] in
  let field := EnumField.or_assign field VertexType in
  EnumField.or_assign field FragmentType.

(** Bits of [VkShaderStageFlags]. *)
Definition VK_SHADER_STAGE_VERTEX_BIT : Z := 1.
Definition VK_SHADER_STAGE_FRAGMENT_BIT : Z := 16.
Definition VK_SHADER_STAGE_ALL_GRAPHICS : Z := 31.

Definition stage_bit (t : ShaderType) : Z :=
  match t with VertexType => VK_SHADER_STAGE_VERTEX_BIT | FragmentType => VK_SHADER_STAGE_FRAGMENT_BIT end.

(** The entry point is always [main]. *)
Record VkPipelineShaderStageCreateInfo := mkStageInfo { ss_stage : Z; ss_module : Z }.

Record ShaderStage := mkShaderStage { ss_create : VkPipelineShaderStageCreateInfo; ss_type : ShaderType }.

Definition ShaderStage_new (module : Z) (type : ShaderType) : ShaderStage :=
  mkShaderStage (mkStageInfo (stage_bit type) module) type.

(** ** Descriptor set layouts *)

Record VkDescriptorSetLayoutBinding := mkLayoutBinding {
  lb_binding : Z; lb_descriptorType : DescriptorType; lb_descriptorCount : Z; lb_stageFlags : Z }.

Record LayoutBuilder := mkLayoutBuilder {
  binding_types : list DescriptorType;
  binding_relevant_shader_stages : list Z;
  lb_bindings : list VkDescriptorSetLayoutBinding }.

Definition LayoutBuilder_new : LayoutBuilder := mkLayoutBuilder [] [] [].

Section LayoutBuilder.
Context `{BC : BuildConfig}.

(** [add]: a field without a known shader type traps in a debug build; without
    it, no flags are pushed for the new binding. *)
Definition add (b : LayoutBuilder) (type : DescriptorType) (relevant_stages : list ShaderType)
    : res (LayoutBuilder * Z) :=
  let types := binding_types b ++ [type] in
  stages ←
    (if EnumField.eqb relevant_stages ShaderTypeField_All then
       Ok (binding_relevant_shader_stages b ++ [VK_SHADER_STAGE_ALL_GRAPHICS])
     else if EnumField.contains relevant_stages VertexType then
       Ok (binding_relevant_shader_stages b ++ [VK_SHADER_STAGE_VERTEX_BIT])
     else if EnumField.contains relevant_stages FragmentType then
       Ok (binding_relevant_shader_stages b ++ [VK_SHADER_STAGE_FRAGMENT_BIT])
     else _ ← tz_error; Ok (binding_relevant_shader_stages b));
  Ok (mkLayoutBuilder types stages (lb_bindings b), u32 (Z.of_nat (length types - 1))).

(** [operator[]]. *)
Definition binding_at (b : LayoutBuilder) (index : nat) : res VkDescriptorSetLayoutBinding :=
  type ← at_index (binding_types b) index;
  stages ← at_index (binding_relevant_shader_stages b) index;
  Ok (mkLayoutBinding (u32 (Z.of_nat index)) type 1 stages).

Definition size (b : LayoutBuilder) : res nat :=
  _ ← tz_assert (length (binding_types b) =? length (binding_relevant_shader_stages b));
  Ok (length (binding_types b)).

(** [native]: the bindings are pushed to a mutable member, so a second call
    pushes them again.  The result is the count and the array. *)
Definition layout_native (b : LayoutBuilder)
    : res (LayoutBuilder * (nat * list VkDescriptorSetLayoutBinding)) :=
  n ← size b;
  bindings ← for_range n (λ i bindings, x ← binding_at b i; Ok (bindings ++ [x])) (lb_bindings b);
  Ok (mkLayoutBuilder (binding_types b) (binding_relevant_shader_stages b) bindings, (n, bindings)).

(** Stages are compared with [ShaderTypeField::All()] in their order of
    insertion: both stages, the other way round, are taken for the vertex stage
    alone. *)
Lemma add_reversed_stages b t : fst <$> add b t [FragmentType; VertexType] =
  Ok (mkLayoutBuilder (binding_types b ++ [t]) (binding_relevant_shader_stages b ++ [VK_SHADER_STAGE_VERTEX_BIT])
        (lb_bindings b)).
Proof. reflexivity. Qed.

End LayoutBuilder.

(** ** Objects and calls *)

Record VkPipelineDepthStencilStateCreateInfo := mkDepthStencil {
  depthTestEnable : bool; depthWriteEnable : bool; depthCompareOp : Z; depthBoundsTestEnable : bool;
  minDepthBounds : Z; maxDepthBounds : Z; stencilTestEnable : bool }.

Record VkGraphicsPipelineCreateInfo := mkPipelineInfo {
  stageCount : nat; pStages : pointer;
  pVertexInputState : pointer; pInputAssemblyState : pointer; pViewportState : pointer;
  pRasterizationState : pointer; pMultisampleState : pointer; pDepthStencilState : pointer;
  pColorBlendState : pointer; pDynamicState : pointer;
  pl_layout : Z; pl_renderPass : Z; basePipelineHandle : Z; basePipelineIndex : Z }.

Inductive object :=
| OBindings (l : list VkVertexInputBindingDescription)
| OAttributes (l : list VkVertexInputAttributeDescription)
| OBlendAttachments (l : list ColourBlendAttachmentState)
| ODynamicStates (l : list Z)
| OStages (l : list VkPipelineShaderStageCreateInfo)
| OViewportState (s : ViewportState)
| OVertexInput (c : VkPipelineVertexInputStateCreateInfo)
| OInputAssembly (c : VkPipelineInputAssemblyStateCreateInfo)
| OViewport (c : VkPipelineViewportStateCreateInfo)
| ORasterisation (c : VkPipelineRasterizationStateCreateInfo)
| OMultisample (c : VkPipelineMultisampleStateCreateInfo)
| ODepthStencil (c : VkPipelineDepthStencilStateCreateInfo)
| OColourBlend (c : VkPipelineColorBlendStateCreateInfo)
| ODynamic (c : VkPipelineDynamicStateCreateInfo).

(** What the driver reads of the create info of a pipeline. *)
Record PipelineDescription := mkPipelineDescription {
  pd_stages : list VkPipelineShaderStageCreateInfo;
  pd_bindings : list VkVertexInputBindingDescription;
  pd_attributes : list VkVertexInputAttributeDescription;
  pd_input_assembly : VkPipelineInputAssemblyStateCreateInfo;
  pd_viewports : list VkViewport;
  pd_scissors : list VkRect2D;
  pd_rasterisation : VkPipelineRasterizationStateCreateInfo;
  pd_multisample : VkPipelineMultisampleStateCreateInfo;
  pd_depth_stencil : VkPipelineDepthStencilStateCreateInfo;
  pd_blend_attachments : list ColourBlendAttachmentState;
  pd_logic_op : option Z;
  pd_blend_constants : list Z;
  pd_dynamic_states : list Z;
  pd_layout : Z;
  pd_render_pass : Z }.

Inductive vkcall :=
| CreateDescriptorSetLayout (bindings : list VkDescriptorSetLayoutBinding)
| CreatePipelineLayout (set_layouts : list Z)
| CreateGraphicsPipeline (d : PipelineDescription)
| DestroyPipeline (p : Z).

(** The driver answers a creation with a handle or an error, which may depend
    on the calls made before. *)
Class PipelineDriver := { answer : list vkcall → vkcall → option Z }.

Record pworld := mkPWorld { p_heap : gmap nat object; p_calls : list vkcall }.

Definition as_bindings o := match o with OBindings l => Some l | _ => None end.
Definition as_attributes o := match o with OAttributes l => Some l | _ => None end.
Definition as_blend_attachments o := match o with OBlendAttachments l => Some l | _ => None end.
Definition as_dynamic_states o := match o with ODynamicStates l => Some l | _ => None end.
Definition as_stages o := match o with OStages l => Some l | _ => None end.
Definition as_viewport_state o := match o with OViewportState s => Some s | _ => None end.
Definition as_vertex_input o := match o with OVertexInput c => Some c | _ => None end.
Definition as_input_assembly o := match o with OInputAssembly c => Some c | _ => None end.
Definition as_viewport o := match o with OViewport c => Some c | _ => None end.
Definition as_rasterisation o := match o with ORasterisation c => Some c | _ => None end.
Definition as_multisample o := match o with OMultisample c => Some c | _ => None end.
Definition as_depth_stencil o := match o with ODepthStencil c => Some c | _ => None end.
Definition as_colour_blend o := match o with OColourBlend c => Some c | _ => None end.
Definition as_dynamic o := match o with ODynamic c => Some c | _ => None end.

(** ** Reading through pointers *)

Definition deref {A} (as_A : object → option A) (h : gmap nat object) (p : pointer) : res A :=
  a ← of_option NullDeref p;
  o ← of_option OutOfBounds (h !! a);
  of_option OutOfBounds (as_A o).

(** [n] elements from a pointer; with none the pointer is not read. *)
Definition read_array {A} (as_A : object → option (list A)) (h : gmap nat object) (p : pointer) (n : nat)
    : res (list A) :=
  match n with
  | 0 => Ok []
  | _ => l ← deref as_A h p; if n <=? length l then Ok (take n l) else Fault OutOfBounds
  end.

(** One viewport, and one scissor, of the object pointed to. *)
Definition read_member {A} (member : ViewportState → A) (h : gmap nat object) (p : pointer) (n : nat)
    : res (list A) :=
  match n with
  | 0 => Ok []
  | 1 => s ← deref as_viewport_state h p; Ok [member s]
  | _ => Fault OutOfBounds
  end.

Definition read_pipeline (h : gmap nat object) (c : VkGraphicsPipelineCreateInfo) : res PipelineDescription :=
  stages ← read_array as_stages h (pStages c) (stageCount c);
  vi ← deref as_vertex_input h (pVertexInputState c);
  bindings ← read_array as_bindings h (pVertexBindingDescriptions vi) (vertexBindingDescriptionCount vi);
  attributes ← read_array as_attributes h (pVertexAttributeDescriptions vi) (vertexAttributeDescriptionCount vi);
  ia ← deref as_input_assembly h (pInputAssemblyState c);
  vs ← deref as_viewport h (pViewportState c);
  viewports ← read_member vs_viewport h (pViewports vs) (viewportCount vs);
  scissors ← read_member vs_scissor h (pScissors vs) (scissorCount vs);
  rs ← deref as_rasterisation h (pRasterizationState c);
  ms ← deref as_multisample h (pMultisampleState c);
  depth ← deref as_depth_stencil h (pDepthStencilState c);
  cb ← deref as_colour_blend h (pColorBlendState c);
  attachments ← read_array as_blend_attachments h (pAttachments cb) (attachmentCount cb);
  ds ← deref as_dynamic h (pDynamicState c);
  states ← read_array as_dynamic_states h (pDynamicStates ds) (dynamicStateCount ds);
  Ok (mkPipelineDescription stages bindings attributes ia viewports scissors rs ms depth attachments
        (if logicOpEnable cb then Some (logicOp cb) else None) (blendConstants cb) states
        (pl_layout c) (pl_renderPass c)).

Lemma read_pipeline_Ok h c stages vi bindings attributes ia vs viewports scissors rs ms depth cb attachments ds states :
  read_array as_stages h (pStages c) (stageCount c) = Ok stages →
  deref as_vertex_input h (pVertexInputState c) = Ok vi →
  read_array as_bindings h (pVertexBindingDescriptions vi) (vertexBindingDescriptionCount vi) = Ok bindings →
  read_array as_attributes h (pVertexAttributeDescriptions vi) (vertexAttributeDescriptionCount vi) = Ok attributes →
  deref as_input_assembly h (pInputAssemblyState c) = Ok ia →
  deref as_viewport h (pViewportState c) = Ok vs →
  read_member vs_viewport h (pViewports vs) (viewportCount vs) = Ok viewports →
  read_member vs_scissor h (pScissors vs) (scissorCount vs) = Ok scissors →
  deref as_rasterisation h (pRasterizationState c) = Ok rs →
  deref as_multisample h (pMultisampleState c) = Ok ms →
  deref as_depth_stencil h (pDepthStencilState c) = Ok depth →
  deref as_colour_blend h (pColorBlendState c) = Ok cb →
  read_array as_blend_attachments h (pAttachments cb) (attachmentCount cb) = Ok attachments →
  deref as_dynamic h (pDynamicState c) = Ok ds →
  read_array as_dynamic_states h (pDynamicStates ds) (dynamicStateCount ds) = Ok states →
  read_pipeline h c =
    Ok (mkPipelineDescription stages bindings attributes ia viewports scissors rs ms depth attachments
          (if logicOpEnable cb then Some (logicOp cb) else None) (blendConstants cb) states
          (pl_layout c) (pl_renderPass c)).
Proof.
  intros E1 E2 E3 E4 E5 E6 E7 E8 E9 E10 E11 E12 E13 E14 E15. unfold read_pipeline.
  by rewrite E1, bind_Ok, E2, bind_Ok, E3, bind_Ok, E4, bind_Ok, E5, bind_Ok, E6, bind_Ok, E7, bind_Ok, E8, bind_Ok,
    E9, bind_Ok, E10, bind_Ok, E11, bind_Ok, E12, bind_Ok, E13, bind_Ok, E14, bind_Ok, E15.
Qed.

(** ** Object lifetimes *)

(** An object at a free address; it may depend on the address. *)
Definition alloc (o : nat → object) : ST pworld nat := λ w,
  let a := fresh (dom (p_heap w)) in Ok (a, mkPWorld (<[a := o a]> (p_heap w)) (p_calls w)).

Definition free (a : nat) : ST pworld unit := λ w,
  match p_heap w !! a with
  | Some _ => Ok (tt, mkPWorld (delete a (p_heap w)) (p_calls w))
  | None => Fault OutOfBounds
  end.

(** A vector filled with [l]: [data()] is the array, which a vector without
    elements does not have. *)
Definition vector_new {A} (o : list A → object) (l : list A) : ST pworld pointer :=
  match l with [] => mret None | _ => a ← alloc (λ _, o l); mret (Some a) end.

Definition vector_free (p : pointer) : ST pworld unit :=
  match p with None => mret tt | Some a => free a end.

(** The copy of a vector. *)
Definition vector_copy {A} (o : list A → object) (as_A : object → option (list A)) (p : pointer)
    : ST pworld pointer :=
  match p with
  | None => mret None
  | Some _ => l ← (λ w, lift (deref as_A (p_heap w) p) w); vector_new o l
  end.

(** A local variable whose address is taken, for the rest of its block. *)
Definition local {A} (o : nat → object) (block : nat → ST pworld A) : ST pworld A :=
  a ← alloc o; x ← block a; _ ← free a; mret x.

Definition local_vector {A B} (o : list A → object) (l : list A) (block : pointer → ST pworld B)
    : ST pworld B :=
  p ← vector_new o l; x ← block p; _ ← vector_free p; mret x.

(** ** Construction of the state objects *)

(** [VertexInputState(binding_descriptions, attribute_descriptions)]. *)
Definition VertexInputState_new (bindings : list VkVertexInputBindingDescription)
    (attributes : list VkVertexInputAttributeDescription) : ST pworld VertexInputState :=
  b ← vector_new OBindings bindings;
  a ← vector_new OAttributes attributes;
  mret (mkVertexInputState (mkVertexInputInfo (length bindings) b (length attributes) a) b a).

(** The implicit copy constructor: the vectors are copied, and the pointers of
    the create info stay those of the original. *)
Definition VertexInputState_copy (s : VertexInputState) : ST pworld VertexInputState :=
  b ← vector_copy OBindings as_bindings (binding_description_natives s);
  a ← vector_copy OAttributes as_attributes (attribute_description_natives s);
  mret (mkVertexInputState (vi_create s) b a).

Definition VertexInputState_destroy (s : VertexInputState) : ST pworld unit :=
  _ ← vector_free (attribute_description_natives s);
  vector_free (binding_description_natives s).

(** [BasicList::resize] followed by the loop over the attachments. *)
Definition ColourBlendState_new (attached_framebuffer_count : nat) (colour_blending : ColourBlendingStrategy)
    : ST pworld ColourBlendState :=
  let attachments := replicate attached_framebuffer_count (blend_attachment colour_blending) in
  p ← vector_new OBlendAttachments attachments;
  mret (mkColourBlendState p (mkColourBlendInfo false 3 (length attachments) p [0; 0; 0; 0]%Z)).

Definition ColourBlendState_destroy (s : ColourBlendState) : ST pworld unit := vector_free (cb_attachments s).

(** The private default constructor, which [None] returns. *)
Definition DynamicState_None : DynamicState := mkDynamicState [] None (mkDynamicInfo 0 None).

Definition DynamicState_new (state_enables : list DynamicStateType) : ST pworld DynamicState :=
  let num_states := EnumField.count state_enables in
  p ← vector_new ODynamicStates (map dynamic_state_value state_enables);
  mret (mkDynamicState state_enables p (mkDynamicInfo num_states p)).

Definition DynamicState_destroy (s : DynamicState) : ST pworld unit := vector_free (state_natives s).

(** ** Calls *)

Section Pipeline.
Context `{BC : BuildConfig} `{PD : PipelineDriver}.

Definition push_call (c : vkcall) : ST pworld unit := modify (λ w, mkPWorld (p_heap w) (p_calls w ++ [c])).

(** A creation, and the assertion that it succeeded. *)
Definition create_object (c : vkcall) : ST pworld Z :=
  r ← gets (λ w, answer (p_calls w) c);
  _ ← push_call c;
  _ ← lift (tz_assert (bool_decide (is_Some r)));
  mret (default VK_NULL_HANDLE r).

(** [DescriptorSetLayout(device, builder)]: the bindings are read from the
    vector of the builder, which is alive. *)
Definition DescriptorSetLayout_new (b : LayoutBuilder) : ST pworld Z :=
  '(_, (n, bindings)) ← lift (layout_native b);
  create_object (CreateDescriptorSetLayout (take n bindings)).

(** [Layout(device, descriptor_layouts)]. *)
Definition Layout_new (descriptor_layouts : list Z) : ST pworld Z :=
  create_object (CreatePipelineLayout descriptor_layouts).

(** ** GraphicsPipeline *)

Record GraphicsPipeline := mkGraphicsPipeline { gp_shaders : list ShaderStage; graphics_pipeline : Z }.

(** The body of the constructor; its parameters live in the caller, the
    viewport state at address [viewport_state]. *)
Definition GraphicsPipeline_new (shader_stages : list ShaderStage) (vertex_input : VertexInputState)
    (input_assembly : VkPipelineInputAssemblyStateCreateInfo) (viewport_state : nat)
    (rasterisation_state : VkPipelineRasterizationStateCreateInfo)
    (multisample_state : VkPipelineMultisampleStateCreateInfo)
    (colour_blend_state : ColourBlendState) (dynamic_state : DynamicState) (layout render_pass : Z)
    : ST pworld GraphicsPipeline :=
  local_vector OStages (map ss_create shader_stages) (λ stages,
  local (λ _, OVertexInput (vi_create vertex_input)) (λ vertex_input_native,
  local (λ _, OInputAssembly input_assembly) (λ input_assembly_native,
  viewport ← (λ w, lift (deref as_viewport_state (p_heap w) (Some viewport_state)) w);
  local (λ _, OViewport (vs_create viewport)) (λ viewport_state_native,
  local (λ _, ORasterisation rasterisation_state) (λ rasterisation_state_native,
  local (λ _, OMultisample multisample_state) (λ multisample_state_native,
  local (λ _, OColourBlend (cb_create colour_blend_state)) (λ colour_blend_state_native,
  local (λ _, ODynamic (ds_create dynamic_state)) (λ dynamic_state_native,
  local (λ _, ODepthStencil (mkDepthStencil true true 1 false 0 1 false)) (λ depth_stencil,
  let create := mkPipelineInfo (length shader_stages) stages (Some vertex_input_native)
    (Some input_assembly_native) (Some viewport_state_native) (Some rasterisation_state_native)
    (Some multisample_state_native) (Some depth_stencil) (Some colour_blend_state_native)
    (Some dynamic_state_native) layout render_pass VK_NULL_HANDLE (-1) in
  d ← (λ w, lift (read_pipeline (p_heap w) create) w);
  p ← create_object (CreateGraphicsPipeline d);
  mret (mkGraphicsPipeline shader_stages p)))))))))).

(** [~GraphicsPipeline]. *)
Definition GraphicsPipeline_destroy (p : GraphicsPipeline) : ST pworld unit :=
  if (graphics_pipeline p =? VK_NULL_HANDLE)%Z then mret tt else push_call (DestroyPipeline (graphics_pipeline p)).

(** ** RendererPipelineManagerVulkan *)

Context `{VKS : VkSession} {I : Type} `{II : IRendererInput I} {R : Type} `{IR : IResource R}.

(** The modules of the shader at an address: [vk_get_vertex_shader] and
    [vk_get_fragment_shader]. *)
Context (shader_modules : Z → Z * Z).

Record PipelineManager := mkPipelineManager {
  vertex_shader : Z; fragment_shader : Z;
  vertex_input_state : VertexInputState;
  input_assembly : VkPipelineInputAssemblyStateCreateInfo;
  rasteriser_state : VkPipelineRasterizationStateCreateInfo;
  resource_descriptor_layout : Z;
  pm_layout : Z;
  pm_pipeline : GraphicsPipeline }.

(** [vk_get_vertex_input] of the builder, with the objects it makes. *)
Definition make_vertex_input (b : RendererBuilderVulkan I R) : ST pworld VertexInputState :=
  fmt ← lift (vk_get_vertex_input b);
  match fmt with
  | None => VertexInputState_new [] []
  | Some (binding_size, basis, attributes) =>
      VertexInputState_new [VertexBindingDescription_new 0 binding_size basis]
        (map (λ '(i, vk_format, offset), VertexAttributeDescription_new 0 i vk_format offset) attributes)
  end.

(** [vk_get_rasteriser_state]. *)
Definition vk_get_rasteriser_state (b : RendererBuilderVulkan I R) : VkPipelineRasterizationStateCreateInfo :=
  let vk_cull :=
    match b_culling_strategy b with
    | NoCulling => CullNone
    | CullFrontFaces => CullFront
    | CullBackFaces => CullBack
    | CullEverything => CullBoth
    end in
  RasteriserState_new false false Fill 1 vk_cull Anticlockwise false.

(** [vk_get_descriptor_set_layout]. *)
Definition make_descriptor_set_layout (b : RendererBuilderVulkan I R) : ST pworld Z :=
  l ← lift (for_range (length (b_buffer_resources b))
              (λ _ l, '(l, _) ← add l UniformBuffer ShaderTypeField_All; Ok l) LayoutBuilder_new);
  l ← lift (for_range (length (b_texture_resources b))
              (λ _ l, '(l, _) ← add l CombinedImageSampler ShaderTypeField_All; Ok l) l);
  DescriptorSetLayout_new l.

(** The lambda of [create_pipeline]: which constructor is used is decided by
    the session, and the conversion of the window buffer checks it. *)
Definition make_viewport_state (swapchain : DeviceWindowBuffer) : res (nat → ViewportState) :=
  if is_headless then as_image ← to_Image swapchain; Ok (ViewportState_of_image as_image true)
  else as_swapchain ← to_Swapchain swapchain; Ok (ViewportState_of_swapchain as_swapchain true).

(** [create_pipeline]: the parameters of the constructor are initialised from
    left to right, the vertex input as a copy of the member and the others in
    place, and destroyed in the opposite order.  [swapchain] and [render_pass]
    are what the manager's pointers refer to at the time of the call. *)
Definition create_pipeline (vertex_shader fragment_shader : Z) (vertex_input_state : VertexInputState)
    (input_assembly : VkPipelineInputAssemblyStateCreateInfo)
    (rasteriser_state : VkPipelineRasterizationStateCreateInfo) (layout : Z)
    (swapchain : DeviceWindowBuffer) (render_pass : Z) : ST pworld GraphicsPipeline :=
  vi ← VertexInputState_copy vertex_input_state;
  viewport ← lift (make_viewport_state swapchain);
  p ← local (λ this, OViewportState (viewport this)) (λ viewport_state,
    cb ← ColourBlendState_new 1 NoBlending;
    let ds := DynamicState_None in
    p ← GraphicsPipeline_new
          [ShaderStage_new vertex_shader VertexType; ShaderStage_new fragment_shader FragmentType]
          vi input_assembly viewport_state rasteriser_state MultisampleState_new cb ds layout render_pass;
    _ ← DynamicState_destroy ds;
    _ ← ColourBlendState_destroy cb;
    mret p);
  _ ← VertexInputState_destroy vi;
  mret p.

(** The constructor. *)
Definition PipelineManager_new (b : RendererBuilderVulkan I R) (primitive_type : PrimitiveTopology)
    (swapchain : DeviceWindowBuffer) (render_pass : Z) : ST pworld PipelineManager :=
  s ← lift (get_shader b);
  let '(vertex_shader, fragment_shader) := shader_modules s in
  vi ← make_vertex_input b;
  let ia := InputAssembly_new primitive_type false in
  let rs := vk_get_rasteriser_state b in
  dl ← make_descriptor_set_layout b;
  layout ← Layout_new [dl];
  p ← create_pipeline vertex_shader fragment_shader vi ia rs layout swapchain render_pass;
  mret (mkPipelineManager vertex_shader fragment_shader vi ia rs dl layout p).

(** [reconstruct_pipeline]: the move assignment swaps the pipelines, and the
    temporary with the old one is destroyed. *)
Definition reconstruct_pipeline (m : PipelineManager) (swapchain : DeviceWindowBuffer) (render_pass : Z)
    : ST pworld PipelineManager :=
  p ← create_pipeline (vertex_shader m) (fragment_shader m) (vertex_input_state m) (input_assembly m)
        (rasteriser_state m) (pm_layout m) swapchain render_pass;
  _ ← GraphicsPipeline_destroy (pm_pipeline m);
  mret (mkPipelineManager (vertex_shader m) (fragment_shader m) (vertex_input_state m) (input_assembly m)
          (rasteriser_state m) (resource_descriptor_layout m) (pm_layout m) p).

End Pipeline.

(** ** Heaps *)

(** A heap that extends another through a chain of hypotheses. *)
Ltac extends := repeat (first [eassumption | reflexivity | etrans; [eassumption|]]).

(** A pointer to an array with the elements [l]; the array of no elements may
    be missing. *)
Definition array_at {A} (o : list A → object) (h : gmap nat object) (p : pointer) (l : list A) : Prop :=
  match l with [] => p = None | _ => ∃ a, p = Some a ∧ h !! a = Some (o l) end.

Lemma array_at_mono {A} (o : list A → object) h h' p l : h ⊆ h' → array_at o h p l → array_at o h' p l.
Proof. intros Hs. destruct l as [|x l]; simpl; [done|]. intros (a & -> & Ha). exists a. split; [done|by eapply lookup_weaken]. Qed.

Lemma deref_Ok {A} (as_A : object → option A) h a o x :
  h !! a = Some o → as_A o = Some x → deref as_A h (Some a) = Ok x.
Proof. intros Ha Hx. unfold deref. simpl. rewrite Ha. simpl. by rewrite Hx. Qed.

Lemma read_array_at {A} (o : list A → object) as_A h p l : (∀ l, as_A (o l) = Some l) →
  array_at o h p l → read_array as_A h p (length l) = Ok l.
Proof.
  intros Ho. destruct l as [|x l]; [done|]. intros (a & -> & Ha). unfold read_array. simpl length.
  rewrite (deref_Ok _ _ _ _ _ Ha (Ho _)), bind_Ok, (proj2 (Nat.leb_le _ _)) by done. by rewrite firstn_all2.
Qed.

Lemma read_member_at {A} (member : ViewportState → A) h a s : h !! a = Some (OViewportState s) →
  read_member member h (Some a) 1 = Ok [member s].
Proof. intros Ha. unfold read_member. by rewrite (deref_Ok as_viewport_state _ _ _ s Ha). Qed.

Lemma alloc_spec o h cs : ∃ a, h !! a = None ∧ alloc o (mkPWorld h cs) = Ok (a, mkPWorld (<[a := o a]> h) cs).
Proof.
  exists (fresh (dom h)). split; [|done]. apply not_elem_of_dom. apply is_fresh.
Qed.

Lemma free_spec a o h cs : h !! a = None → free a (mkPWorld (<[a := o]> h) cs) = Ok (tt, mkPWorld h cs).
Proof. intros Ha. unfold free. simpl. by rewrite lookup_insert_eq, delete_insert_id. Qed.

Lemma local_spec {A} o (block : nat → ST pworld A) h cs x cs' :
  (∀ a h', h ⊆ h' → h' !! a = Some (o a) → block a (mkPWorld h' cs) = Ok (x, mkPWorld h' cs')) →
  local o block (mkPWorld h cs) = Ok (x, mkPWorld h cs').
Proof.
  intros H. unfold local. destruct (alloc_spec o h cs) as (a & Ha & E). rewrite (st_bind_Ok _ _ _ _ _ E).
  rewrite (st_bind_Ok _ _ _ _ _ (H a _ (insert_subseteq _ _ _ Ha) (lookup_insert_eq _ _ _))).
  by rewrite (st_bind_Ok _ _ _ _ _ (free_spec _ _ _ _ Ha)).
Qed.

Lemma vector_new_spec {A} (o : list A → object) l h cs : ∃ p h',
  vector_new o l (mkPWorld h cs) = Ok (p, mkPWorld h' cs) ∧ h ⊆ h' ∧ array_at o h' p l ∧
  ∀ cs', vector_free p (mkPWorld h' cs') = Ok (tt, mkPWorld h cs').
Proof.
  destruct l as [|x l]; [by exists None, h|]. destruct (alloc_spec (λ _, o (x :: l)) h cs) as (a & Ha & E).
  exists (Some a), (<[a := o (x :: l)]> h). unfold vector_new. rewrite (st_bind_Ok _ _ _ _ _ E). split_and!.
  - done.
  - by apply insert_subseteq.
  - exists a. split; [done|]. apply lookup_insert_eq.
  - intros cs'. by apply free_spec.
Qed.

Lemma vector_copy_spec {A} (o : list A → object) as_A p l h cs : (∀ l, as_A (o l) = Some l) → array_at o h p l →
  ∃ q h', vector_copy o as_A p (mkPWorld h cs) = Ok (q, mkPWorld h' cs) ∧ h ⊆ h' ∧
  ∀ cs', vector_free q (mkPWorld h' cs') = Ok (tt, mkPWorld h cs').
Proof.
  intros Ho Hp. destruct l as [|x l].
  { simpl in Hp. subst p. by exists None, h. }
  destruct Hp as (a & -> & Ha). destruct (vector_new_spec o (x :: l) h cs) as (q & h' & E & Hs & _ & Hf).
  exists q, h'. split; [|done]. unfold vector_copy.
  rewrite (st_bind_Ok _ _ _ (x :: l) (mkPWorld h cs)); [done|]. unfold lift. simpl p_heap.
  by rewrite (deref_Ok _ _ _ _ _ Ha (Ho _)).
Qed.

Lemma local_vector_spec {A B} (o : list A → object) l (block : pointer → ST pworld B) h cs x cs' :
  (∀ p h', h ⊆ h' → array_at o h' p l → block p (mkPWorld h' cs) = Ok (x, mkPWorld h' cs')) →
  local_vector o l block (mkPWorld h cs) = Ok (x, mkPWorld h cs').
Proof.
  intros H. destruct (vector_new_spec o l h cs) as (p & h' & E & Hs & Hp & Hf). unfold local_vector.
  rewrite (st_bind_Ok _ _ _ _ _ E), (st_bind_Ok _ _ _ _ _ (H p h' Hs Hp)).
  by rewrite (st_bind_Ok _ _ _ _ _ (Hf cs')).
Qed.

(** ** What the pipelines of a renderer are made of *)

(** The vertex input of a builder: the binding and the attributes of the
    format of the first input. *)
Definition input_bindings (f : RendererElementFormat) : list VkVertexInputBindingDescription :=
  [mkBindingDescription 0 (u32 (Z.of_nat (binding_size f)))
     (match basis f with
      | PerVertexBasis => VK_VERTEX_INPUT_RATE_VERTEX
      | PerInstanceBasis => VK_VERTEX_INPUT_RATE_INSTANCE
      end)].

Definition input_attributes (f : RendererElementFormat) : list VkVertexInputAttributeDescription :=
  imap (λ i a, mkAttributeDescription 0 (u32 (Z.of_nat i)) (attribute_vk_format (attribute_type a))
                 (u32 (Z.of_nat (element_attribute_offset a)))) (binding_attributes f).

(** The size of what a session's window buffer draws to. *)
Definition buffer_extent (b : DeviceWindowBuffer) : VkExtent2D :=
  match b with
  | Monostate => mkExtent 0 0
  | AsSwapchain s => sc_extent s
  | AsImage i => mkExtent (img_width i) (img_height i)
  end.

(** The viewport over an extent, with the vertical axis pointing up. *)
Definition flipped_viewport (e : VkExtent2D) : VkViewport :=
  let w := float_round (VkHardware.width e) in
  let h := float_round (VkHardware.height e) in
  mkViewport 0 h w (- h) 0 1.

Definition pipeline_description (modules : Z * Z) (fmt : option RendererElementFormat) (prim : PrimitiveTopology)
    (rs : VkPipelineRasterizationStateCreateInfo) (layout : Z) (e : VkExtent2D) (render_pass : Z)
    : PipelineDescription :=
  mkPipelineDescription
    [mkStageInfo VK_SHADER_STAGE_VERTEX_BIT (fst modules); mkStageInfo VK_SHADER_STAGE_FRAGMENT_BIT (snd modules)]
    (from_option input_bindings [] fmt) (from_option input_attributes [] fmt)
    (mkInputAssemblyInfo (topology_value prim) false)
    [flipped_viewport e] [mkRect (0, 0)%Z e]
    rs MultisampleState_new (mkDepthStencil true true 1 false 0 1 false)
    [blend_attachment NoBlending] None [0; 0; 0; 0]%Z [] layout render_pass.

(** A vertex input state whose pointers and vectors are the same live arrays. *)
Definition vertex_input_at (h : gmap nat object) (vi : VertexInputState)
    (bs : list VkVertexInputBindingDescription) (attrs : list VkVertexInputAttributeDescription) : Prop :=
  vi_create vi = mkVertexInputInfo (length bs) (binding_description_natives vi) (length attrs)
                   (attribute_description_natives vi) ∧
  array_at OBindings h (binding_description_natives vi) bs ∧
  array_at OAttributes h (attribute_description_natives vi) attrs.

Section PipelineFacts.
Context `{BC : BuildConfig} `{PD : PipelineDriver}.

(** In a debug build, calls that fail end in an assertion. *)
Definition answers (cs : list vkcall) (c : vkcall) : Prop := TZ_DEBUG = true → is_Some (answer cs c).

Definition handle (cs : list vkcall) (c : vkcall) : Z := default VK_NULL_HANDLE (answer cs c).

Lemma create_object_spec c h cs : answers cs c →
  create_object c (mkPWorld h cs) = Ok (handle cs c, mkPWorld h (cs ++ [c])).
Proof.
  intros Ha. unfold create_object, answers, handle in *. unfold mbind, ST_bind, gets, push_call, modify, lift, tz_assert.
  simpl. destruct TZ_DEBUG; [|done]. by rewrite bool_decide_true by auto.
Qed.

(** The body of the constructor of a pipeline reads live objects only, and
    leaves the heap as it was. *)
Lemma GraphicsPipeline_spec modules vi bs attrs pb pa ia (vs : nat) e rs ms cb pc ds layout rp h cs :
  let stages := [ShaderStage_new (fst modules) VertexType; ShaderStage_new (snd modules) FragmentType] in
  let state := ViewportState_new (float_round (VkHardware.width e)) (float_round (VkHardware.height e)) e true in
  let d := mkPipelineDescription (map ss_create stages) bs attrs ia [flipped_viewport e] [mkRect (0, 0)%Z e] rs ms
             (mkDepthStencil true true 1 false 0 1 false) [blend_attachment NoBlending] None [0; 0; 0; 0]%Z []
             layout rp in
  vi_create vi = mkVertexInputInfo (length bs) pb (length attrs) pa →
  array_at OBindings h pb bs → array_at OAttributes h pa attrs →
  h !! vs = Some (OViewportState (state vs)) →
  cb_create cb = mkColourBlendInfo false 3 1 pc [0; 0; 0; 0]%Z →
  array_at OBlendAttachments h pc [blend_attachment NoBlending] →
  ds = DynamicState_None →
  answers cs (CreateGraphicsPipeline d) →
  GraphicsPipeline_new stages vi ia vs rs ms cb ds layout rp (mkPWorld h cs) =
  Ok (mkGraphicsPipeline stages (handle cs (CreateGraphicsPipeline d)),
      mkPWorld h (cs ++ [CreateGraphicsPipeline d])).
Proof.
  intros stages state d Evi Hb Ha Hvs Ecb Hcb -> Hans. unfold GraphicsPipeline_new. rewrite Evi, Ecb.
  apply local_vector_spec. intros p1 h1 S1 L1. apply local_spec. intros a2 h2 S2 L2. apply local_spec. intros a3 h3 S3 L3.
  rewrite (st_bind_Ok _ _ _ (state vs) (mkPWorld h3 cs)).
  2: { unfold lift. simpl p_heap. rewrite (deref_Ok _ _ _ (OViewportState (state vs)) (state vs)); [done| |done].
       eapply lookup_weaken; [done|extends]. }
  apply local_spec. intros a4 h4 S4 L4. apply local_spec. intros a5 h5 S5 L5. apply local_spec. intros a6 h6 S6 L6.
  apply local_spec. intros a7 h7 S7 L7. apply local_spec. intros a8 h8 S8 L8. apply local_spec. intros a9 h9 S9 L9.
  assert (H9 : ∀ a o g, g !! a = Some o → g ⊆ h9 → h9 !! a = Some o) by (intros; by eapply lookup_weaken).
  rewrite (st_bind_Ok _ _ _ d (mkPWorld h9 cs)).
  2: {
    unfold lift. simpl p_heap.
    assert (Hv : h9 !! vs = Some (OViewportState (state vs))) by (eapply H9; [eassumption|extends]).
    assert (Hstate : vs_viewport (state vs) = flipped_viewport e)
      by (unfold state, ViewportState_new, flipped_viewport; cbn; f_equal; lia).
    rewrite (read_pipeline_Ok _ _ (map ss_create stages) (mkVertexInputInfo (length bs) pb (length attrs) pa) bs attrs ia
      (vs_create (state vs)) [flipped_viewport e] [mkRect (0, 0)%Z e] rs ms (mkDepthStencil true true 1 false 0 1 false)
      (mkColourBlendInfo false 3 1 pc [0; 0; 0; 0]%Z) [blend_attachment NoBlending] (mkDynamicInfo 0 None) []);
      [reflexivity|..].
    all: first
      [ eapply deref_Ok; [eapply H9; [eassumption|extends]|reflexivity]
      | apply (read_array_at OStages as_stages _ _ (map ss_create stages)); [done|eapply array_at_mono; [|eassumption]; extends]
      | apply (read_array_at OBindings); [done|eapply array_at_mono; [|eassumption]; extends]
      | apply (read_array_at OAttributes); [done|eapply array_at_mono; [|eassumption]; extends]
      | apply (read_array_at OBlendAttachments as_blend_attachments _ _ [_]); [done|eapply array_at_mono; [|eassumption]; extends]
      | reflexivity
      | apply (read_member_at vs_scissor _ _ _ Hv)
      | rewrite <- Hstate; apply (read_member_at vs_viewport _ _ _ Hv) ]. }
  by rewrite (st_bind_Ok _ _ _ _ _ (create_object_spec _ h9 cs Hans)).
Qed.

Context `{VKS : VkSession}.

(** The window buffer has the member the session uses. *)
Definition fits_session (b : DeviceWindowBuffer) : Prop :=
  match b with Monostate => False | AsSwapchain _ => is_headless = false | AsImage _ => is_headless = true end.

Lemma make_viewport_state_Ok b : fits_session b →
  make_viewport_state b = Ok (ViewportState_new (float_round (VkHardware.width (buffer_extent b)))
    (float_round (VkHardware.height (buffer_extent b))) (buffer_extent b) true).
Proof.
  destruct b as [|s|i]; simpl; [done|..]; intros H; unfold make_viewport_state, to_Image, to_Swapchain;
    rewrite H; simpl; by rewrite tz_assert_true.
Qed.

(** [create_pipeline] makes one call to the driver, and leaves the heap as it
    was. *)
Lemma create_pipeline_spec modules vi bs attrs prim rs layout buf rp h cs :
  let d := mkPipelineDescription
    [mkStageInfo VK_SHADER_STAGE_VERTEX_BIT (fst modules); mkStageInfo VK_SHADER_STAGE_FRAGMENT_BIT (snd modules)]
    bs attrs (mkInputAssemblyInfo (topology_value prim) false)
    [flipped_viewport (buffer_extent buf)] [mkRect (0, 0)%Z (buffer_extent buf)]
    rs MultisampleState_new (mkDepthStencil true true 1 false 0 1 false)
    [blend_attachment NoBlending] None [0; 0; 0; 0]%Z [] layout rp in
  let stages := [ShaderStage_new (fst modules) VertexType; ShaderStage_new (snd modules) FragmentType] in
  fits_session buf → vertex_input_at h vi bs attrs → answers cs (CreateGraphicsPipeline d) →
  create_pipeline (fst modules) (snd modules) vi (InputAssembly_new prim false) rs layout buf rp (mkPWorld h cs) =
  Ok (mkGraphicsPipeline stages (handle cs (CreateGraphicsPipeline d)),
      mkPWorld h (cs ++ [CreateGraphicsPipeline d])).
Proof.
  intros d stages Hbuf (Evi & Hb & Ha) Hans. unfold create_pipeline, VertexInputState_copy.
  destruct (vector_copy_spec OBindings as_bindings _ bs h cs (λ _, eq_refl) Hb) as (qb & h1 & E1 & S1 & F1).
  destruct (vector_copy_spec OAttributes as_attributes _ attrs h1 cs (λ _, eq_refl) (array_at_mono _ _ _ _ _ S1 Ha))
    as (qa & h2 & E2 & S2 & F2).
  rewrite (st_bind_Ok _ _ _ (mkVertexInputState (vi_create vi) qb qa) (mkPWorld h2 cs))
    by by rewrite (st_bind_Ok _ _ _ _ _ E1), (st_bind_Ok _ _ _ _ _ E2).
  rewrite make_viewport_state_Ok, lift_bind by done.
  rewrite (st_bind_Ok _ _ _ (mkGraphicsPipeline stages (handle cs (CreateGraphicsPipeline d)))
    (mkPWorld h2 (cs ++ [CreateGraphicsPipeline d]))).
  - rewrite (st_bind_Ok _ _ _ tt (mkPWorld h (cs ++ [CreateGraphicsPipeline d]))); [done|].
    unfold VertexInputState_destroy. simpl. by rewrite (st_bind_Ok _ _ _ _ _ (F2 _)).
  - apply local_spec. intros a h3 S3 L3.
    destruct (vector_new_spec OBlendAttachments [blend_attachment NoBlending] h3 cs) as (pc & h4 & E4 & S4 & L4 & F4).
    rewrite (st_bind_Ok _ _ _ (mkColourBlendState pc (mkColourBlendInfo false 3 1 pc [0; 0; 0; 0]%Z)) (mkPWorld h4 cs))
      by (unfold ColourBlendState_new; simpl replicate; by rewrite (st_bind_Ok _ _ _ _ _ E4)).
    rewrite (st_bind_Ok _ _ _ (mkGraphicsPipeline stages (handle cs (CreateGraphicsPipeline d)))
      (mkPWorld h4 (cs ++ [CreateGraphicsPipeline d]))).
    + rewrite (st_bind_Ok _ _ _ tt (mkPWorld h4 (cs ++ [CreateGraphicsPipeline d]))) by done.
      by rewrite (st_bind_Ok _ _ _ tt (mkPWorld h3 (cs ++ [CreateGraphicsPipeline d]))) by apply F4.
    + apply (GraphicsPipeline_spec modules (mkVertexInputState (vi_create vi) qb qa) bs attrs
        (binding_description_natives vi) (attribute_description_natives vi) _ a (buffer_extent buf) _ _ _ pc);
        try done; first [eapply array_at_mono; [|eassumption]; extends | eapply lookup_weaken; [exact L3|extends]].
Qed.

(** *** Descriptor set layouts *)

Definition layout_bindings (types : list DescriptorType) (stages : list Z) : list VkDescriptorSetLayoutBinding :=
  imap (λ i ts, mkLayoutBinding (u32 (Z.of_nat i)) (fst ts) 1 (snd ts)) (zip types stages).

(** [native] pushes the bindings behind those of earlier calls. *)
Lemma layout_native_Ok b : length (binding_types b) = length (binding_relevant_shader_stages b) →
  let l := lb_bindings b ++ layout_bindings (binding_types b) (binding_relevant_shader_stages b) in
  layout_native b =
  Ok (mkLayoutBuilder (binding_types b) (binding_relevant_shader_stages b) l, (length (binding_types b), l)).
Proof.
  intros Hlen l. unfold layout_native, size. rewrite (proj2 (Nat.eqb_eq _ _) Hlen), tz_assert_true, !bind_Ok.
  set (L := layout_bindings (binding_types b) (binding_relevant_shader_stages b)) in *.
  destruct (for_range_ind (λ i acc, acc = lb_bindings b ++ take i L) (length (binding_types b))
    (λ i bindings, x ← binding_at b i; Ok (bindings ++ [x])) (lb_bindings b)) as (x & -> & ->).
  - by rewrite take_0, app_nil_r.
  - intros i acc Hi ->. destruct (lookup_lt_is_Some_2 _ _ Hi) as [t Ht].
    destruct (lookup_lt_is_Some_2 (binding_relevant_shader_stages b) i) as [st Hst]; [lia|].
    assert (HL : L !! i = Some (mkLayoutBinding (u32 (Z.of_nat i)) t 1 st)).
    { unfold L, layout_bindings. rewrite list_lookup_imap, lookup_zip_with, Ht. simpl. by rewrite Hst. }
    unfold binding_at, at_index. rewrite Ht, Hst. simpl. eexists. split; [done|].
    by rewrite (take_S_r _ _ _ HL), app_assoc.
  - rewrite bind_Ok, firstn_all2; [done|]. unfold L, layout_bindings. rewrite length_imap, length_zip_with. lia.
Qed.

(** Bindings added for all stages. *)
Lemma add_all_stages n b t :
  for_range n (λ _ l, '(l, _) ← add l t ShaderTypeField_All; Ok l) b =
  Ok (mkLayoutBuilder (binding_types b ++ replicate n t)
        (binding_relevant_shader_stages b ++ replicate n VK_SHADER_STAGE_ALL_GRAPHICS) (lb_bindings b)).
Proof.
  destruct (for_range_ind (λ i l, l = mkLayoutBuilder (binding_types b ++ replicate i t)
    (binding_relevant_shader_stages b ++ replicate i VK_SHADER_STAGE_ALL_GRAPHICS) (lb_bindings b)) n
    (λ _ l, '(l, _) ← add l t ShaderTypeField_All; Ok l) b) as (x & E & ->); [| |done].
  - destruct b. simpl. by rewrite !app_nil_r.
  - intros i l _ ->. eexists. split; [done|]. rewrite !replicate_S_end, !app_assoc. done.
Qed.

Context {I : Type} `{II : IRendererInput I} {R : Type} `{IR : IResource R} (shader_modules : Z → Z * Z).

(** One binding per resource, buffers first, each visible to every stage. *)
Definition resource_bindings (b : RendererBuilderVulkan I R) : list VkDescriptorSetLayoutBinding :=
  imap (λ i t, mkLayoutBinding (u32 (Z.of_nat i)) t 1 VK_SHADER_STAGE_ALL_GRAPHICS)
    (replicate (length (b_buffer_resources b)) UniformBuffer ++
     replicate (length (b_texture_resources b)) CombinedImageSampler).

Lemma imap_zip_replicate {A B C} (f : nat → A * B → C) (l : list A) (y : B) :
  imap f (zip l (replicate (length l) y)) = imap (λ i x, f i (x, y)) l.
Proof. revert f. induction l as [|x l IH]; intros f; [done|]. simpl. f_equal. apply IH. Qed.

Lemma make_descriptor_set_layout_spec b h cs : let c := CreateDescriptorSetLayout (resource_bindings b) in
  answers cs c → make_descriptor_set_layout b (mkPWorld h cs) = Ok (handle cs c, mkPWorld h (cs ++ [c])).
Proof.
  intros c Hc. unfold make_descriptor_set_layout. rewrite add_all_stages, lift_bind, add_all_stages, lift_bind. simpl.
  unfold DescriptorSetLayout_new. rewrite layout_native_Ok by (simpl; by rewrite !length_app, !length_replicate).
  rewrite lift_bind. simpl. unfold layout_bindings. rewrite <- replicate_add.
  replace (length (b_buffer_resources b) + length (b_texture_resources b)) with
    (length (replicate (length (b_buffer_resources b)) UniformBuffer ++
             replicate (length (b_texture_resources b)) CombinedImageSampler))
    by (by rewrite length_app, !length_replicate).
  rewrite imap_zip_replicate. simpl. rewrite firstn_all2 by by rewrite length_imap.
  by apply create_object_spec.
Qed.

Lemma make_vertex_input_spec (b : RendererBuilderVulkan I R) h cs :
  let fmt := RenderTypes.get_format <$> head (b_inputs b) in
  ∃ vi h', make_vertex_input b (mkPWorld h cs) = Ok (vi, mkPWorld h' cs) ∧
    vertex_input_at h' vi (from_option input_bindings [] fmt) (from_option input_attributes [] fmt) ∧
    ∀ cs', VertexInputState_destroy vi (mkPWorld h' cs') = Ok (tt, mkPWorld h cs').
Proof.
  assert (Hnew : ∀ bs attrs, ∃ vi h', VertexInputState_new bs attrs (mkPWorld h cs) = Ok (vi, mkPWorld h' cs) ∧
    vertex_input_at h' vi bs attrs ∧ ∀ cs', VertexInputState_destroy vi (mkPWorld h' cs') = Ok (tt, mkPWorld h cs')).
  { intros bs attrs. destruct (vector_new_spec OBindings bs h cs) as (pb & h1 & E1 & S1 & L1 & F1).
    destruct (vector_new_spec OAttributes attrs h1 cs) as (pa & h2 & E2 & S2 & L2 & F2).
    eexists _, h2. unfold VertexInputState_new. rewrite (st_bind_Ok _ _ _ _ _ E1), (st_bind_Ok _ _ _ _ _ E2).
    split_and!; [done| |].
    - split_and!; [done| |done]. by eapply array_at_mono.
    - intros cs'. unfold VertexInputState_destroy. simpl. by rewrite (st_bind_Ok _ _ _ _ _ (F2 _)). }
  intros fmt. unfold make_vertex_input, vk_get_vertex_input, fmt. destruct (b_inputs b) as [|i l].
  - rewrite lift_bind. apply (Hnew [] []).
  - rewrite lift_bind. simpl. specialize (Hnew (input_bindings (RenderTypes.get_format i)) (input_attributes (RenderTypes.get_format i))).
    unfold input_attributes in Hnew at 1. replace (map _ _) with (input_attributes (RenderTypes.get_format i)); [exact Hnew|].
    symmetry. exact (fmap_imap (λ n a, (n, attribute_vk_format (attribute_type a), element_attribute_offset a))
      (λ '(i, vk_format, offset), VertexAttributeDescription_new 0 i vk_format offset) _).
Qed.

(** The calls that make pipelines with the descriptions [ds] in turn, each
    replacing the one before, and the pipeline that remains. *)
Fixpoint rebuild_calls (cs : list vkcall) (p : Z) (ds : list PipelineDescription) : list vkcall * Z :=
  match ds with
  | [] => (cs, p)
  | d :: ds =>
      let c := CreateGraphicsPipeline d in
      rebuild_calls (cs ++ c :: (if (p =? VK_NULL_HANDLE)%Z then [] else [DestroyPipeline p])) (handle cs c) ds
  end.

(** The manager through a sequence of window sizes and render passes. *)
Definition reconstruct_each (m : PipelineManager) (l : list (DeviceWindowBuffer * Z)) : ST pworld PipelineManager :=
  st_fold (λ '(buf, rp) m, reconstruct_pipeline m buf rp) l m.

Lemma reconstruct_each_spec modules fmt prim rs layout l : Forall (fits_session ∘ fst) l → (∀ cs c, answers cs c) →
  ∀ m h cs,
  vertex_shader m = fst modules → fragment_shader m = snd modules → input_assembly m = InputAssembly_new prim false →
  rasteriser_state m = rs → pm_layout m = layout →
  vertex_input_at h (vertex_input_state m) (from_option input_bindings [] fmt) (from_option input_attributes [] fmt) →
  ∃ m', reconstruct_each m l (mkPWorld h cs) =
      Ok (m', mkPWorld h (fst (rebuild_calls cs (graphics_pipeline (pm_pipeline m))
        (map (λ '(buf, rp), pipeline_description modules fmt prim rs layout (buffer_extent buf) rp) l)))) ∧
    vertex_input_state m' = vertex_input_state m ∧
    graphics_pipeline (pm_pipeline m') = snd (rebuild_calls cs (graphics_pipeline (pm_pipeline m))
        (map (λ '(buf, rp), pipeline_description modules fmt prim rs layout (buffer_extent buf) rp) l)).
Proof.
  intros Hl Hans. induction Hl as [|[buf rp] l Hbuf Hl IH]; intros m h cs Ev Ef Ei Er El Hvi.
  { by exists m. }
  unfold reconstruct_each. cbn [st_fold]. simpl in Hbuf.
  set (d := pipeline_description modules fmt prim rs layout (buffer_extent buf) rp).
  set (c := CreateGraphicsPipeline d).
  set (cs' := cs ++ c :: (if (graphics_pipeline (pm_pipeline m) =? VK_NULL_HANDLE)%Z then []
                          else [DestroyPipeline (graphics_pipeline (pm_pipeline m))])).
  set (m1 := mkPipelineManager (vertex_shader m) (fragment_shader m) (vertex_input_state m) (input_assembly m)
    (rasteriser_state m) (resource_descriptor_layout m) (pm_layout m)
    (mkGraphicsPipeline [ShaderStage_new (fst modules) VertexType; ShaderStage_new (snd modules) FragmentType]
       (handle cs c))).
  rewrite (st_bind_Ok _ _ _ m1 (mkPWorld h cs')).
  - by apply (IH m1 h cs').
  - unfold reconstruct_pipeline. rewrite Ev, Ef, Ei, Er, El.
    rewrite (st_bind_Ok _ _ _ _ _ (create_pipeline_spec modules _ _ _ prim rs layout buf rp h cs Hbuf Hvi (Hans _ _))).
    unfold GraphicsPipeline_destroy. fold d. fold c. unfold cs', m1. rewrite Ev, Ef, Ei, Er, El.
    destruct (graphics_pipeline (pm_pipeline m) =? VK_NULL_HANDLE)%Z; [done|].
    unfold push_call, mbind, ST_bind, modify. simpl. by rewrite <- app_assoc.
Qed.

(** C9: In a session whose window buffer has the right member, and with a driver
    that succeeds where the build asserts it, constructing the pipeline manager
    of a renderer and reconstructing the pipeline for any sequence of window
    sizes and render passes never reads an object that is not alive.  It asks
    for a set layout with one binding per resource, for a pipeline layout with
    it, and then for one pipeline per size, each with the shader's two stages,
    the vertex format of the first input, a viewport over the whole target with
    the vertical axis pointing up and the scissor of the target; every pipeline
    but the last is destroyed.  Apart from the two arrays of the manager's own
    vertex input state, which its destructor frees, the heap is as before. *)
Theorem pipelines_describe_renderer (b : RendererBuilderVulkan I R) prim s buf rp resizes h cs :
  b_shader b = Some s →
  Forall (fits_session ∘ fst) ((buf, rp) :: resizes) →
  (∀ cs c, answers cs c) →
  let set_layout := CreateDescriptorSetLayout (resource_bindings b) in
  let pipeline_layout := CreatePipelineLayout [handle cs set_layout] in
  let layout := handle (cs ++ [set_layout]) pipeline_layout in
  let description := λ '(buf, rp), pipeline_description (shader_modules s) (RenderTypes.get_format <$> head (b_inputs b))
    prim (vk_get_rasteriser_state b) layout (buffer_extent buf) rp in
  let '(cs', p) := rebuild_calls (cs ++ [set_layout; pipeline_layout]) VK_NULL_HANDLE
                     (map description ((buf, rp) :: resizes)) in
  ∃ m h', (m ← PipelineManager_new shader_modules b prim buf rp; reconstruct_each m resizes) (mkPWorld h cs) =
      Ok (m, mkPWorld h' cs') ∧
    graphics_pipeline (pm_pipeline m) = p ∧
    ∀ cs'', VertexInputState_destroy (vertex_input_state m) (mkPWorld h' cs'') = Ok (tt, mkPWorld h cs'').
Proof.
  intros Hs Hfit Hans set_layout pipeline_layout layout description.
  apply Forall_cons in Hfit as [Hbuf Hfit]. simpl in Hbuf.
  destruct (make_vertex_input_spec b h cs) as (vi & h1 & E1 & Hvi & Hfree). cbn [map].
  set (modules := shader_modules s) in *. set (ds := map description resizes).
  set (cs2 := cs ++ [set_layout; pipeline_layout]). set (d := description (buf, rp)).
  set (m0 := mkPipelineManager (fst modules) (snd modules) vi (InputAssembly_new prim false) (vk_get_rasteriser_state b)
    (handle cs set_layout) layout (mkGraphicsPipeline [ShaderStage_new (fst modules) VertexType;
      ShaderStage_new (snd modules) FragmentType] (handle cs2 (CreateGraphicsPipeline d)))).
  assert (Hnew : PipelineManager_new shader_modules b prim buf rp (mkPWorld h cs) =
    Ok (m0, mkPWorld h1 (cs2 ++ [CreateGraphicsPipeline d]))).
  { unfold PipelineManager_new, get_shader. rewrite Hs, bool_decide_true, tz_assert_true by (by eexists). simpl of_option.
    rewrite bind_Ok, lift_bind. fold modules. rewrite (surjective_pairing modules), (st_bind_Ok _ _ _ _ _ E1).
    rewrite (st_bind_Ok _ _ _ _ _ (make_descriptor_set_layout_spec b h1 cs (Hans _ _))).
    unfold Layout_new. rewrite (st_bind_Ok _ _ _ _ _ (create_object_spec _ h1 _ (Hans _ _))).
    rewrite <- app_assoc. simpl Datatypes.app. fold set_layout pipeline_layout cs2. fold layout.
    by rewrite (st_bind_Ok _ _ _ _ _ (create_pipeline_spec modules vi _ _ prim _ layout buf rp h1 cs2 Hbuf Hvi (Hans _ _))). }
  destruct (reconstruct_each_spec modules _ prim (vk_get_rasteriser_state b) layout resizes Hfit Hans m0 h1
    (cs2 ++ [CreateGraphicsPipeline d]) eq_refl eq_refl eq_refl eq_refl eq_refl Hvi) as (m & Em & Evi & Ep).
  cbn [rebuild_calls]. change (VK_NULL_HANDLE =? VK_NULL_HANDLE)%Z with true.
  destruct (rebuild_calls _ _ ds) as [cs' p] eqn:Er. exists m, h1.
  rewrite (st_bind_Ok _ _ _ _ _ Hnew), Em, Evi, Ep. simpl in Er. fold description ds.
  change (graphics_pipeline (pm_pipeline m0)) with (handle cs2 (CreateGraphicsPipeline d)). rewrite Er. by split_and!.
Qed.

End PipelineFacts.

(** ** A concrete session *)

#[local] Instance pipeline_config : BuildConfig := debug_build.
#[local] Existing Instance window_session.

(** A driver that numbers what it creates. *)
#[local] Instance counting_driver : PipelineDriver := {| answer cs _ := Some (100 + Z.of_nat (length cs))%Z |}.

Definition window_of (w h : Z) : DeviceWindowBuffer := AsSwapchain (mkSwapchain 7 [] [] 44 (mkExtent w h)).

Lemma pipelines_describe_renderer_witness : ∃ m h' cs',
  (m ← PipelineManager_new (λ s, (s + 1, s + 2)%Z) sample_builder TTriangles (window_of 800 600) 50;
   reconstruct_each m [(window_of 1024 768, 50%Z); (window_of 640 480, 51%Z)]) (mkPWorld ∅ []) = Ok (m, mkPWorld h' cs') ∧
  length cs' = 7.
Proof.
  pose proof (pipelines_describe_renderer (λ s, (s + 1, s + 2)%Z) sample_builder TTriangles 1 (window_of 800 600) 50
    [(window_of 1024 768, 50%Z); (window_of 640 480, 51%Z)] ∅ [] eq_refl) as H.
  cbv zeta in H.
  match type of H with context [rebuild_calls ?a ?b ?c] =>
    assert (Hl : length (fst (rebuild_calls a b c)) = 7) by (vm_compute; reflexivity);
    destruct (rebuild_calls a b c) as [cs' p]
  end.
  destruct H as (m & h' & Em & _); [by repeat constructor|intros cs c _; by eexists|].
  exists m, h', cs'. exact (conj Em Hl).
Defined.
