(* ===== verification/BackendState.v ===== *)
(** * The state the two back ends draw with

    What OpenGL is told by the calls of the constructor of [RendererOGL]
    (gl/impl/frontend/ogl/renderer.cpp) and what Vulkan is told by the create
    infos of pipelines and samplers (gl/impl/frontend/vk/renderer.cpp) means the
    same for the user of the engine: which triangles are culled, which bytes of
    a vertex an attribute is read from, and how a texture is sampled.

    The meaning of calls and create infos is that of the two specifications. *)

From Stdlib Require Import QArith Lqa.
From S2P Require Import Prelude Memory RenderTypes Inputs OpenGL OGLRenderer OGLRendererFacts VkHardware VkSwapchain VkCommand VkRenderer VkDriver Device VkPipeline.

(** ** Culling *)

(** A point in normalised device coordinates, and in a window. *)
Definition point := (Q * Q)%type.

(** Twice the signed area of a triangle. *)
Definition area2 (p q r : point) : Q :=
  ((fst p * snd q - fst q * snd p) + (fst q * snd r - fst r * snd q) + (fst r * snd p - fst p * snd r))%Q.

Definition scale (w h cx cy : Q) (p : point) : point := (w / 2 * fst p + cx, h / 2 * snd p + cy)%Q.

(** OpenGL: the window transformation of [glViewport(0, 0, w, h)]; by default
    a triangle with a positive area is a front face. *)
Definition gl_window (w h : Z) : point → point :=
  scale (inject_Z w) (inject_Z h) (inject_Z w / 2) (inject_Z h / 2).

Definition gl_front (w h : Z) (p q r : point) : bool :=
  negb (Qle_bool (area2 (gl_window w h p) (gl_window w h q) (gl_window w h r)) 0).

(** The capability and the mode after a sequence of calls; culling is disabled
    and the mode is [GL_BACK] when a context is created. *)
Definition gl_cull_step (s : bool * GLenum) (c : glcall) : bool * GLenum :=
  match c with
  | glEnable GL_CULL_FACE => (true, snd s)
  | glDisable GL_CULL_FACE => (false, snd s)
  | glCullFace mode => (fst s, mode)
  | _ => s
  end.

Definition gl_cull_state (cs : list glcall) : bool * GLenum := foldl gl_cull_step (false, GL_BACK) cs.

Definition gl_culled (cs : list glcall) (w h : Z) (p q r : point) : bool :=
  let '(enabled, mode) := gl_cull_state cs in
  enabled &&
  match mode with
  | GL_FRONT => gl_front w h p q r
  | GL_BACK => negb (gl_front w h p q r)
  | GL_FRONT_AND_BACK => true
  | _ => false
  end.

(** Vulkan: the viewport transformation, whose vertical axis points down; the
    area is the opposite of [area2], and with [VK_FRONT_FACE_COUNTER_CLOCKWISE]
    a triangle with a positive area is a front face. *)
Definition vk_window (v : VkViewport) : point → point :=
  scale (inject_Z (vp_width v)) (inject_Z (vp_height v))
    (inject_Z (vp_x v) + inject_Z (vp_width v) / 2) (inject_Z (vp_y v) + inject_Z (vp_height v) / 2).

Definition vk_front (front_face : Z) (v : VkViewport) (p q r : point) : bool :=
  let a := (- area2 (vk_window v p) (vk_window v q) (vk_window v r))%Q in
  if (front_face =? 0)%Z then negb (Qle_bool a 0) else negb (Qle_bool 0 a).

(** The bits [VK_CULL_MODE_FRONT_BIT] and [VK_CULL_MODE_BACK_BIT]. *)
Definition vk_culled (rs : VkPipelineRasterizationStateCreateInfo) (v : VkViewport) (p q r : point) : bool :=
  let front := vk_front (frontFace rs) v p q r in
  (Z.testbit (cullMode rs) 0 && front) || (Z.testbit (cullMode rs) 1 && negb front).

Lemma area2_scale w h cx cy p q r :
  (area2 (scale w h cx cy p) (scale w h cx cy q) (scale w h cx cy r) == w * h / 4 * area2 p q r)%Q.
Proof. unfold area2, scale. simpl. field. Qed.

(** The sign of the area is kept by a window transformation that does not turn
    the plane over, and reversed by one that does. *)
Lemma area2_sign k a : (0 < k)%Q → Qle_bool (k * a) 0 = Qle_bool a 0.
Proof.
  intros Hk. apply eq_bool_prop_intro. rewrite !Is_true_true, !Qle_bool_iff. by rewrite <- (Qmult_le_l a 0 k Hk), Qmult_0_r.
Qed.

Lemma inject_Z_pos z : (0 < z)%Z → (0 < inject_Z z)%Q.
Proof. intros H. change 0%Q with (inject_Z 0). by rewrite <- Zlt_Qlt. Qed.

Lemma quarter_pos w h : (0 < w)%Q → (0 < h)%Q → (0 < w * h / 4)%Q.
Proof. intros Hw Hh. unfold Qdiv. by repeat apply Qmult_lt_0_compat. Qed.

Lemma gl_front_area w h p q r : (0 < w)%Z → (0 < h)%Z → gl_front w h p q r = negb (Qle_bool (area2 p q r) 0).
Proof.
  intros Hw%inject_Z_pos Hh%inject_Z_pos. unfold gl_front, gl_window. rewrite area2_scale.
  by rewrite area2_sign by by apply quarter_pos.
Qed.

(** With the vertical axis turned over, anticlockwise means the same. *)
Lemma vk_front_area w h p q r : (0 < w)%Z → (0 < h)%Z →
  vk_front 0 (mkViewport 0 h w (- h) 0 1) p q r = negb (Qle_bool (area2 p q r) 0).
Proof.
  intros Hw%inject_Z_pos Hh%inject_Z_pos. unfold vk_front, vk_window. simpl. rewrite area2_scale. f_equal.
  rewrite <- (area2_sign (inject_Z w * inject_Z h / 4) (area2 p q r)).
  - apply eq_bool_prop_intro. rewrite !Is_true_true, !Qle_bool_iff, inject_Z_opp. 
    assert (Ha : (- (inject_Z w * - inject_Z h / 4 * area2 p q r) == inject_Z w * inject_Z h / 4 * area2 p q r)%Q) by field.
    by rewrite Ha.
  - by apply quarter_pos.
Qed.

Lemma float_round_pos n : (0 < n)%Z → (0 < float_round n)%Z.
Proof.
  intros Hn. unfold float_round. rewrite (Z.abs_eq n) by lia. destruct (n <? 2 ^ 24)%Z eqn:E; [done|].
  apply Z.ltb_ge in E. assert (Hl : (24 ≤ Z.log2 n)%Z) by (apply Z.log2_le_pow2; lia).
  set (u := (2 ^ (Z.log2 n - 23))%Z). assert (Hu : (0 < u ≤ n)%Z).
  { split; [apply Z.pow_pos_nonneg; lia|]. etrans; [|apply Z.log2_spec; lia].
    apply Z.pow_le_mono_r; lia. }
  assert (Hq : (1 ≤ n / u)%Z) by (apply Z.div_le_lower_bound; lia). rewrite (Z.sgn_pos n) by lia.
  assert (Hr : (1 ≤ (if (2 * (n mod u) <? u)%Z then n / u
             else if (u <? 2 * (n mod u))%Z then n / u + 1
             else if Z.even (n / u) then n / u else n / u + 1))%Z) by (repeat case_match; lia).
  nia.
Qed.

Section Culling.
Context `{G : GL} {I : Type} `{II : IRendererInput I} {R : Type} `{IR : IResource R}.

(** C19: With the same culling strategy the two back ends cull the same
    triangles: whatever OpenGL was told before, after the state calls of the
    constructor a triangle given in normalised device coordinates is culled in
    a window of any size exactly when it is culled by a pipeline with the
    rasteriser state of the builder and the viewport that the pipeline manager
    uses, over a target of any size. *)
Theorem backends_cull_alike pass (b : RendererBuilderVulkan I R) (gl_w gl_h : Z) e p q r (w : world) :
  (0 < gl_w)%Z → (0 < gl_h)%Z → (0 < width e)%Z → (0 < height e)%Z →
  ∃ w', setup_state pass (VkRenderer.b_culling_strategy b) w = Ok (tt, w') ∧
    gl_culled (w_calls w') gl_w gl_h p q r = vk_culled (vk_get_rasteriser_state b) (flipped_viewport e) p q r.
Proof.
  intros Hw Hh He1%float_round_pos He2%float_round_pos.
  pose proof (gl_front_area gl_w gl_h p q r Hw Hh) as Hg. pose proof (vk_front_area _ _ p q r He1 He2) as Hv.
  unfold vk_culled. change (frontFace (vk_get_rasteriser_state b)) with 0%Z. unfold flipped_viewport. rewrite Hv.
  unfold setup_state, gl_culled, gl_cull_state, vk_get_rasteriser_state.
  destruct (VkRenderer.b_culling_strategy b), (bool_decide (pass ≠ Colour)); (eexists; split; [reflexivity|]);
    cbn [w_calls]; rewrite <- !app_assoc, !foldl_app; cbn; rewrite ?Hg; by destruct (Qle_bool (area2 p q r) 0).
Qed.

End Culling.

(** ** Vertex attributes *)

(** The state of a vertex array object: enabled attributes, their formats
    (number of components, type and offset) and their bindings. *)
Record gl_array := mkArray {
  arr_enabled : gset nat; arr_formats : gmap nat (nat * GLenum * Z); arr_bindings : gmap nat nat }.

Definition gl_array_step (vao : Z) (s : gl_array) (c : glcall) : gl_array :=
  match c with
  | glEnableVertexArrayAttrib v i =>
      if (v =? vao)%Z then mkArray ({[i]} ∪ arr_enabled s) (arr_formats s) (arr_bindings s) else s
  | glVertexArrayAttribFormat v i n t o =>
      if (v =? vao)%Z then mkArray (arr_enabled s) (<[i := (n, t, o)]> (arr_formats s)) (arr_bindings s) else s
  | glVertexArrayAttribBinding v i k =>
      if (v =? vao)%Z then mkArray (arr_enabled s) (arr_formats s) (<[i := k]> (arr_bindings s)) else s
  | _ => s
  end.

Definition gl_array_of (cs : list glcall) (vao : Z) : gl_array := foldl (gl_array_step vao) (mkArray ∅ ∅ ∅) cs.

(** How many floats the attribute [i] has and at which offset of a vertex of
    binding 0 they are. *)
Definition gl_reads (s : gl_array) (i : nat) : option (nat * Z) :=
  if decide (i ∈ arr_enabled s) then
    match arr_formats s !! i, arr_bindings s !! i with
    | Some (n, GL_FLOAT, o), Some 0 => Some (n, o)
    | _, _ => None
    end
  else None.

(** [VK_FORMAT_R32_SFLOAT] and its variants. *)
Definition vk_components (format : Z) : option nat :=
  if (format =? 100)%Z then Some 1 else if (format =? 103)%Z then Some 2 else if (format =? 106)%Z then Some 3 else None.

Definition vk_reads (l : list VkVertexInputAttributeDescription) (i : nat) : option (nat * Z) :=
  '(_, a) ← list_find (λ a, va_location a = Z.of_nat i ∧ va_binding a = 0%Z) l;
  n ← vk_components (va_format a);
  Some (n, va_offset a).

(** What both read for an attribute of a format. *)
Definition attribute_read (a : RendererAttributeFormat) : nat * Z :=
  (component_count (attribute_type a), u32 (Z.of_nat (element_attribute_offset a))).

Lemma vk_reads_attribute f i : (Z.of_nat (length (binding_attributes f)) < modulus32)%Z →
  vk_reads (input_attributes f) i = attribute_read <$> binding_attributes f !! i.
Proof.
  intros Hlen. unfold vk_reads.
  assert (Hl : ∀ j a, input_attributes f !! j = Some a → va_location a = Z.of_nat j).
  { intros j a Hj. pose proof (lookup_lt_Some _ _ _ Hj) as Hlt. unfold input_attributes in *.
    rewrite length_imap in Hlt. rewrite list_lookup_imap in Hj. apply fmap_Some in Hj as (x & Hx & ->). simpl.
    apply Z.mod_small. lia. }
  destruct (binding_attributes f !! i) as [x|] eqn:Hx.
  - assert (Hi : input_attributes f !! i = Some (mkAttributeDescription 0 (u32 (Z.of_nat i))
      (attribute_vk_format (attribute_type x)) (u32 (Z.of_nat (element_attribute_offset x))))).
    { unfold input_attributes. by rewrite list_lookup_imap, Hx. }
    assert (Hf : list_find (λ a, va_location a = Z.of_nat i ∧ va_binding a = 0%Z) (input_attributes f) =
      Some (i, mkAttributeDescription 0 (u32 (Z.of_nat i)) (attribute_vk_format (attribute_type x))
        (u32 (Z.of_nat (element_attribute_offset x))))).
    { apply list_find_Some. split_and!; [done|by apply (Hl i _ Hi)|done|].
      intros j y Hy Hj [Hloc _]. rewrite (Hl j y Hy) in Hloc. lia. }
    rewrite Hf. unfold attribute_read. simpl. by destruct (attribute_type x).
  - destruct (list_find _ _) as [[j a]|] eqn:E; [|done]. apply list_find_Some in E as (Hj & [Hloc _] & _).
    exfalso. rewrite (Hl j a Hj) in Hloc. apply Nat2Z.inj in Hloc as ->.
    apply lookup_lt_Some in Hj. unfold input_attributes in Hj. rewrite length_imap in Hj.
    apply lookup_lt_is_Some_2 in Hj as [y Hy]. congruence.
Qed.

Lemma gl_reads_step s vao i x :
  ∀ k, gl_reads (gl_array_step vao (gl_array_step vao (gl_array_step vao s (glEnableVertexArrayAttrib vao i))
    (glVertexArrayAttribFormat vao i (component_count (attribute_type x)) GL_FLOAT
       (u32 (Z.of_nat (element_attribute_offset x))))) (glVertexArrayAttribBinding vao i 0)) k =
  if decide (k = i) then Some (attribute_read x) else gl_reads s k.
Proof.
  intros k. simpl. rewrite !Z.eqb_refl. unfold gl_reads. simpl. destruct (decide (k = i)) as [->|Hk].
  - rewrite decide_True by set_solver. by rewrite !lookup_insert_eq.
  - rewrite !lookup_insert_ne by done. by destruct (decide (k ∈ arr_enabled s)), (decide (k ∈ {[i]} ∪ arr_enabled s)); try set_solver.
Qed.

Section Attributes.
Context `{BC : BuildConfig} `{G : GL}.

Lemma setup_attributes_Ok vao f w : basis f = PerVertexBasis →
  (∀ i, gl_reads (gl_array_of (w_calls w) vao) i = None) →
  ∃ w', setup_attributes vao f w = Ok (tt, w') ∧
    ∀ i, gl_reads (gl_array_of (w_calls w') vao) i = attribute_read <$> binding_attributes f !! i.
Proof.
  intros Hb Hw. unfold setup_attributes. rewrite bool_decide_true, tz_assert_true, lift_bind by done.
  induction (binding_attributes f) as [|x l (w1 & E & H1)] using rev_ind.
  { exists w. split; [done|]. intros i. by rewrite Hw. }
  eexists. split.
  - rewrite imap_app, (st_each_app _ _ _ _ _ E). reflexivity.
  - intros i. simpl. rewrite Nat.add_0_r. unfold gl_array_of in *. rewrite !foldl_app. cbn [foldl]. rewrite gl_reads_step, H1.
    case_decide as Hi; [subst i; by rewrite list_lookup_middle by done|].
    destruct (decide (i < length l)); [by rewrite lookup_app_l by done|].
    rewrite !lookup_ge_None_2; [done| |lia]. rewrite length_app. simpl. lia.
Qed.

(** C20: The two back ends read the attributes of a vertex from the same bytes.
    For a format of the per-vertex basis, the calls that set up a new vertex
    array object leave every attribute with the number of floats and the offset
    that the attribute with the same location has in the vertex input of a
    pipeline, and no other attribute is enabled. *)
Theorem backends_read_alike vao f w : basis f = PerVertexBasis →
  (Z.of_nat (length (binding_attributes f)) < modulus32)%Z →
  (∀ i, gl_reads (gl_array_of (w_calls w) vao) i = None) →
  ∃ w', setup_attributes vao f w = Ok (tt, w') ∧
    ∀ i, gl_reads (gl_array_of (w_calls w') vao) i = vk_reads (input_attributes f) i.
Proof.
  intros Hb Hn Hw. destruct (setup_attributes_Ok vao f w Hb Hw) as (w' & E & H). exists w'. split; [done|].
  intros i. by rewrite H, vk_reads_attribute.
Qed.

End Attributes.

(** ** Textures *)

#[export] Instance GLenum_eq_dec : EqDecision GLenum.
Proof. solve_decision. Defined.

(** The last value a parameter of a texture was set to, and the internal format
    of its storage. *)
Definition gl_parameter (cs : list glcall) (tex : Z) (pname : GLenum) : option GLenum :=
  foldl (λ v c, match c with
                | glTextureParameteri t p v' => if decide (t = tex ∧ p = pname) then Some v' else v
                | _ => v
                end) None cs.

Definition gl_storage (cs : list glcall) (tex : Z) : option GLenum :=
  foldl (λ v c, match c with glTextureStorage2D t f _ _ => if decide (t = tex) then Some f else v | _ => v end) None cs.

Definition gl_filter (v : GLenum) : option TexturePropertyFilter :=
  match v with GL_NEAREST => Some Nearest | GL_LINEAR => Some Linear | _ => None end.

Definition vk_filter (f : VkFilter) : TexturePropertyFilter :=
  match f with VK_FILTER_NEAREST => Nearest | VK_FILTER_LINEAR => Linear end.

Definition gl_address_mode (v : GLenum) : option TextureAddressMode :=
  match v with GL_CLAMP_TO_EDGE => Some ClampToEdge | _ => None end.

Definition vk_address_mode (m : VkSamplerAddressMode) : TextureAddressMode :=
  match m with VK_SAMPLER_ADDRESS_MODE_CLAMP_TO_EDGE => ClampToEdge end.

(** What a shader reads from a component of a texel. *)
Inductive texel := NormalisedFloat | UnsignedInteger | SignedInteger | SRGBFloat | DepthValue.

Definition gl_texel (internal_format : GLenum) : option texel :=
  match internal_format with
  | GL_RGBA8 => Some NormalisedFloat
  | GL_SRGB8_ALPHA8 => Some SRGBFloat
  | GL_DEPTH_COMPONENT32F => Some DepthValue
  | _ => None
  end.

(** [VK_FORMAT_R8G8B8A8_UINT], [_SINT] and [_SRGB], and [VK_FORMAT_D32_SFLOAT]. *)
Definition vk_texel (format : Z) : option texel :=
  if (format =? 41)%Z then Some UnsignedInteger
  else if (format =? 42)%Z then Some SignedInteger
  else if (format =? 43)%Z then Some SRGBFloat
  else if (format =? 126)%Z then Some DepthValue
  else None.

Section Textures.
Context `{G : GL} {R : Type} `{IR : IResource R}.

(** C21: How the two back ends sample a texture.  Setting up a texture resource
    in OpenGL succeeds, and its address modes and its minification filter mean
    the same as those of the sampler that Vulkan uses.  The magnification
    filters mean the same exactly when the properties of the texture have one
    filter for both, and a shader reads the same kind of texel exactly when the
    format is sRGB or depth: for the other formats OpenGL has normalised floats
    and Vulkan has integers. *)
Theorem backends_sample_alike r t textures bytes (w : world) : as_texture r = Some t →
  span_read (w_heap w) (get_resource_bytes r) = Ok bytes →
  let s := Sampler_info (sampler_properties (tv_properties t)) in
  ∃ tex w', setup_texture_resource r textures w = Ok (textures ++ [tex], w') ∧
    let parameter := gl_parameter (w_calls w') tex in
    (parameter GL_TEXTURE_WRAP_S ≫= gl_address_mode) = Some (vk_address_mode (addressModeU s)) ∧
    (parameter GL_TEXTURE_WRAP_T ≫= gl_address_mode) = Some (vk_address_mode (addressModeV s)) ∧
    (parameter GL_TEXTURE_WRAP_R ≫= gl_address_mode) = Some (vk_address_mode (addressModeW s)) ∧
    (parameter GL_TEXTURE_MIN_FILTER ≫= gl_filter) = Some (vk_filter (minFilter s)) ∧
    ((parameter GL_TEXTURE_MAG_FILTER ≫= gl_filter) = Some (vk_filter (magFilter s)) ↔
       mag_filter (tv_properties t) = min_filter (tv_properties t)) ∧
    ((gl_storage (w_calls w') tex ≫= gl_texel) = vk_texel (image_format (tv_format t)) ↔
       tv_format t = Rgba32sRGB ∨ tv_format t = DepthFloat32).
Proof.
  intros Ht Hbytes s. unfold setup_texture_resource. rewrite Ht. simpl of_option. rewrite lift_bind.
  unfold mbind, ST_bind, gl_create. destruct (glCreateTextures (w_gl w)) as [g tex].
  destruct (texture_formats (tv_format t)) as [[fi fo] ty] eqn:Ef.
  eexists tex, _. unfold call, modify, lift. cbn. rewrite Hbytes. split; [reflexivity|]. simpl.
  unfold gl_parameter, gl_storage. rewrite <- !app_assoc, !foldl_app. simpl.
  repeat first [rewrite decide_True by done | rewrite decide_False by (intros [_ ?]; done)].
  split_and!.
  - by destruct (address_mode_u (tv_properties t)).
  - by destruct (address_mode_v (tv_properties t)).
  - by destruct (address_mode_w (tv_properties t)).
  - by destruct (min_filter (tv_properties t)).
  - by destruct (min_filter (tv_properties t)), (mag_filter (tv_properties t)).
  - destruct (tv_format t); simplify_eq/=; naive_solver.
Qed.

End Textures.

(** ** Concrete states *)

#[local] Instance state_config : BuildConfig := debug_build.

Definition idle_world : world (H := OpenGL.driver_gl) := mkWorld (H := OpenGL.driver_gl) ∅ (OpenGL.mkDriver ∅ []) [].

(** A clockwise triangle is culled with the back faces. *)
Lemma backends_cull_alike_witness :
  let b := set_culling_strategy VkDriver.sample_builder CullBackFaces in
  ∃ w', setup_state ColourDepth CullBackFaces idle_world = Ok (tt, w') ∧
    gl_culled (w_calls w') 800 600 (0, 0)%Q (0, 1)%Q (1, 0)%Q = true ∧
    vk_culled (vk_get_rasteriser_state b) (flipped_viewport (mkExtent 1920 1080)) (0, 0)%Q (0, 1)%Q (1, 0)%Q = true.
Proof.
  intros b. destruct (backends_cull_alike ColourDepth b 800 600 (mkExtent 1920 1080) (0, 0)%Q (0, 1)%Q (1, 0)%Q idle_world)
    as (w' & E & H); [lia|lia|simpl; lia|simpl; lia|]. exists w'. split; [exact E|].
  rewrite H. split; vm_compute; reflexivity.
Defined.

Lemma backends_read_alike_witness :
  ∃ w', setup_attributes 3 (mesh_format []) idle_world = Ok (tt, w') ∧
    gl_reads (gl_array_of (w_calls w') 3) 1 = Some (2, 12%Z).
Proof.
  destruct (backends_read_alike 3 (mesh_format []) idle_world) as (w' & E & H).
  - reflexivity.
  - vm_compute. reflexivity.
  - intros i. reflexivity.
  - exists w'. split; [exact E|]. rewrite H. vm_compute. reflexivity.
Defined.

Lemma backends_sample_alike_witness :
  ∃ tex w', setup_texture_resource sample_texture [] idle_world = Ok ([tex], w').
Proof.
  destruct (backends_sample_alike sample_texture
    (mkTextureView Rgba32sRGB default_properties 1 1) [] [10; 20; 30; 40]%Z idle_world) as (tex & w' & E & _).
  - reflexivity.
  - reflexivity.
  - exists tex, w'. exact E.
Defined.
